(* ===== verification/_CoqProject ===== *)
-Q . S2P
Prelude.v
Go.v
Prog.v
Kube.v
Api.v
Heap.v
HeapFacts.v
HeapCopies.v
HeapLoops.v
GoTypes.v
DeepCopy.v
DeepCopySpec.v
CopyReference.v
CopyWitnesses.v
Lib.v
Reference.v
Backend.v
Samples.v
SwiftGuest.v
SwiftGuestSpec.v
SwiftGuestRun.v
SwiftGuestStatus.v
WorkloadNode.v
MachineController.v
MachineSpec.v
MachineProps.v
MachineStatus.v
MachineErrors.v
EndpointService.v
ClusterController.v
EndpointSpec.v
ServiceMemory.v
ServiceWitnesses.v
ClusterSpec.v
ClusterErrors.v
Webhook.v
System.v
Witnesses.v
Startup.v
StartupSpec.v
Objects.v
StartupWitnesses.v
Access.v
Schema.v
Store.v
StoreProps.v
StoreRuns.v
Faults.v
Provisioning.v
Recovery.v
Teardown.v
ClusterRuns.v
Conflicts.v
StoreWitnesses.v
RunWitnesses.v
