(* ===== verification/Prelude.v ===== *)
(** * Cluster API provider KubeSwift: a verification development

    The program is an infrastructure provider for Cluster API: two reconcilers and an
    admission webhook that run in a management cluster and turn Machines into KubeSwift
    virtual machines (SwiftGuests). This library translates the whole of the provider's
    own logic from its Go sources and proves it correct, for every answer the API
    servers may give.

    ** The program

    - [api/v1alpha1]: the custom resources (KubeSwiftCluster, KubeSwiftMachine and their
      templates) and the CEL admission rules of the SwiftGuest configuration.
    - [internal/backend]: the interface of a machine backend, and the one backend there
      is, which drives a SwiftGuest and its SwiftSeedProfile as unstructured objects.
    - [internal/controller]: the KubeSwiftMachine reconciler, which asks the backend for a
      VM, reports it in the machine's status, and gives the workload Node its providerID;
      the KubeSwiftCluster reconciler, which finds the control-plane endpoint - given by
      the operator, or by a Service it mints in front of the control-plane guests.
    - [internal/webhook/v1alpha1]: the validator that keeps machine templates immutable.
    - [cmd/main.go]: the process, which registers the three with a manager and starts it.

    The controllers share no memory. They meet in the API server: the machine controller
    labels and opens the guests that the cluster controller's Service selects
    ([System.v]); the guest watch leads from a guest back to its machine
    ([watch_finds_machine]).

    ** How it is modelled

    A handler is a [prog call] ([Prog.v]): a finite tree of the requests that leave the
    process ([Lib.call]), each continued for every answer. There is no fuel: a handler
    calls nothing recursively and its loops are structural recursions on the slices they
    range over; [Quote.quote_body], which consumes at least one byte per step, takes the
    number of bytes. A nil dereference, or an assignment into a nil map, is [Panic].
    [wp A p Q] says that every run of [p] whose answers [A] allows ends, without a panic,
    in a result and a trace that satisfy [Q]; [wp_runs] and [runs_wp] make this the
    property of all the runs, and [exec] runs a handler against a server. A handler that
    writes through a pointer to its custom resource returns the new object; a deferred
    [Patch] is the last call of [Reconcile]. The Go pair [(ctrl.Result, error)] is
    [Return]; [(T, error)] is [result T].

    - [Go.v]: errors, nil-able slices and maps, [fmt]'s [%d], [%q] ([strconv.Quote]).
    - [Kube.v]: the Kubernetes and Cluster API data the program touches.
    - [Lib.v]: the library functions it calls, as the class [Lib] of parameters, with one
      class of laws per package (documented behaviour); [Reference.v]: concrete functions
      that satisfy every law, on which the witnesses are computed.
    - [Api.v]: api/v1alpha1, all files but the generated deep copies; an object is its value.
      [Schema.v]: its validation and defaulting markers, on the JSON that is submitted.
    - [DeepCopy.v]: zz_generated.deepcopy.go, every function of it, on a memory of cells
      with pointers, slices and maps ([Heap.v]) that holds the structs as they are laid out
      in Go ([GoTypes.v]). [HeapFacts.v], [HeapCopies.v] and [HeapLoops.v] are the logic:
      [rep h x v F] says that in [h] the Go value [x] denotes [v] and owns the cells [F],
      and [copies] that a [DeepCopyInto] does its work, for any [rep]. [DeepCopySpec.v]
      proves it of each type, [Objects.v] of the interface values the registered types are
      passed around as; [CopyReference.v] and [CopyWitnesses.v] run it.
    - [Backend.v]: internal/backend/backend.go; [BackendContract] is what the machine
      controller relies on, an interface its client is proved against ([MachineSpec.v])
      and the SwiftGuest backend implements ([SwiftGuest_contract]).
    - [SwiftGuest.v]: internal/backend/swiftguest.go. [SwiftGuestSpec.v]: validation and
      rendering; [SwiftGuestRun.v]: what is asked of the API server and in which order;
      [SwiftGuestStatus.v]: the status, deletion, and the contract.
    - [WorkloadNode.v]: internal/controller/workload_node.go.
    - [MachineController.v]: internal/controller/kubeswiftmachine_controller.go.
      [MachineSpec.v] classifies the outcomes of a reconcile ([machine_outcome]) and proves
      that every run of the code has one of them ([Reconcile_rule]); [MachineProps.v] and
      [MachineStatus.v] read the claims off that specification; [MachineErrors.v]: the cause
      of every error a machine reconcile returns, and what the Ready condition says of it.
    - [EndpointService.v], [ClusterController.v]: internal/controller/endpoint_service.go
      and kubeswiftcluster_controller.go; [EndpointSpec.v] and [ClusterSpec.v] likewise
      ([cluster_outcome], [Reconcile_cluster_rule]). [ClusterErrors.v]: the errors a cluster
      reconcile returns and what it reports. [ServiceMemory.v]: the building and the
      merging of the Service once more on the memory of [Heap.v], where it shares the
      annotations and the class of the KubeSwiftCluster, refining [EndpointService.v]
      ([service_update_isolated]); [ServiceWitnesses.v] runs it.
    - [Webhook.v]: internal/webhook/v1alpha1/kubeswiftmachinetemplate_webhook.go.
    - [System.v]: the agreement of the two controllers: what reconciles of any machine
      create, against the Service and the endpoint that reconciles of a cluster make.
    - [Startup.v]: cmd/main.go, the [SetupWithManager] functions and the registration of
      the types: a program over the calls into controller-runtime ([setup]), with the arrays
      that slices of TLS options share. [StartupSpec.v] is its [plan]; [StartupWitnesses.v].
    - [Store.v]: a transition system around [MachineController.Reconcile] for one machine:
      its record and its guest in the API server, the informer's lagging cache, and the
      reconcile in flight, which may stop after any call, while the user, other controllers
      and the guest move. [StoreProps.v]: its invariant, and its refinement of a protocol of
      four rules; [StoreRuns.v]: deletion, and a run that orphans a guest; [StoreWitnesses.v].
    - [Faults.v]: runs that stop anywhere, whose requests may be refused or lost, against a
      server that moves by itself between any two calls ([drift]); the rule that such a run
      keeps an invariant of the server if the program keeps to its guarantee ([rg] of
      [Prog.v]), and assertions on the server for where what may be asked depends on the
      answers before ([withstands]). [Provisioning.v]: what one reconcile of a machine does
      against a server that cooperates ([Scenario], [course_round]); [Recovery.v]: histories
      of such reconciles, faulty ones, during which the guest boots and the cluster
      controller patches, and what happens in between. [Teardown.v]: the same for a machine
      that is being deleted, where guests vanish and others change the machine also in the
      middle of a reconcile that is served ([completes]). [ClusterRuns.v]: the same for a
      cluster and its endpoint Service, which others edit.
    - [Conflicts.v]: the endpoint Service on a server with resource versions, which refuses
      an update from another version than the current one, while others write and delete
      the Service between any two calls of any number of reconciles.
    - [Access.v]: the RBAC markers of both controllers, and what each request and watch needs.
    - [Samples.v], [Witnesses.v], [RunWitnesses.v]: concrete objects, a server with fixed
      answers, and every claim with hypotheses applied to them.

    ** What is proved

    - Safety of the requests: nothing is asked for a paused, orphaned or foreign object;
      guests and seeds are created only for a machine that is ready for one, seed first;
      a guest is deleted before its seed; a machine's finalizer is dropped only when its guest
      is gone, a cluster's once the deletion of its Service was accepted or no Service was
      found; a Node's identity is never overwritten.
    - Concurrent writers: every write of the endpoint Service that the server accepts
      creates it or updates the version the server has, and keeps what others set there,
      however late the Service was read and whoever wrote it meanwhile ([no_write_lost]).
    - What is reported: a machine is provisioned only from its own running, reachable
      guest; a cluster only with an endpoint; status and conditions stay consistent;
      every failure surfaces: the Ready condition says case by case what was met, and the
      error returned is the first failure, worded after what was being done
      ([Reconcile_surfaces_errors], [Reconcile_cluster_surfaces_errors]); no
      machine is left waiting without a retry or an event to wait for.
    - Functional behaviour: the rendered guest field by field, the interface list and the
      device read back, the guest's status, the Service's ports and address; Go-side
      validation equals the CRD's admission rules; template immutability over histories.
    - Convergence: an object in the state the provider writes is not written again.
    - Interleavings: once a machine's finalizer is persisted its guest is never orphaned
      ([guest_never_orphaned]), and every step of the system is one of creating, losing,
      deleting and releasing ([store_refines_protocol]); before, the guest can be orphaned
      ([orphan_reachable]; [finalizer_gap] is the same run, with a refused patch).
    - Recovery: whatever failed before, in any number of reconciles, a machine whose guest
      boots in [n] rounds and whose Node joins [j] later is provisioned by the [n + j + 3]rd
      reconcile that is served ([machine_comes_up]); one served reconcile repairs a
      cluster's Service, whoever edited it, and reports its address, and the endpoint of a
      ClusterIP Service never changes ([cluster_comes_up]); one releases a deleted cluster
      ([cluster_goes_away]). A deleted machine holds its finalizer until its guest and seed
      are gone, and goes away in [n + 2] served reconciles where the guest takes [n] rounds
      to go ([machine_goes_away]; [deletion_terminates] is the run without failures).
    - Admission: the controllers' fallbacks are the CRD's defaults ([defaults_agree]); the
      reconciler accepts what the CRD admits but for a fixed list of rules
      ([admitted_backend_accepted]), and what it writes back is admitted ([patches_admitted]).
    - Access: the role the markers declare grants every request and watch ([role_suffices]).
    - Deep copies: an equal object, in new memory only; nil stays nil, also as an interface.
    - Aliasing: merging the endpoint Service writes to no object that was there, although
      the desired Service shares a map with the KubeSwiftCluster ([service_update_isolated]).
    - Start-up: the calls of the process, in order, with every exit; the TLS options of
      each server, although both slices grow from one.

    ** Assumptions of the store

    A machine is reconciled by one worker at a time (the workqueue's guarantee). Machines
    are read from a cache that shows the versions of the record in their order, perhaps
    late; guests, which are unstructured objects, are read from the server, as
    controller-runtime's client does unless told otherwise. A patch replaces finalizers as
    a list and only if it changes them; it cannot undo a deletion. A request that is
    answered with an error may have taken effect. Nobody else adds or removes the
    provider's finalizer, or creates a guest under the machine's name; a machine that is
    gone is not created anew.

    The servers that cooperate ([StoreRuns.v], [Provisioning.v], [Teardown.v],
    [ClusterRuns.v]) serve every request and refuse what an API server would: creating what
    exists, updating what does not (in a deletion, also deleting it), changing a cluster
    IP; how long a guest takes to boot, to join and to go is a parameter, and a Service
    that is deleted goes at once. A faulty run
    against them may stop after any call, get any error for any request, with or without
    its effect, and read outdated machines, clusters and Services; between any two of its
    calls the server drifts: guests boot or go, the cluster controller and others write.
    In a deletion no error claims that an object is missing which is there, and the machine
    read is one whose deletion has begun.

    Resource versions are modelled for the endpoint Service, in [Conflicts.v]: the server
    gives each version a new one and refuses an update that names another than the
    current; others may write the Service as they like, but under a new version and its own
    name. In the other systems an object keeps the resource version it has, and the server
    of [ClusterRuns.v] accepts an update from an outdated Service whose cluster IP agrees,
    which is less than a real one refuses.

    ** What is not modelled

    Logging; the parsing of the command line; the time stamp and observed generation of
    conditions. The deep copies of Kubernetes' own structs ([ForeignDeepCopy]) and the
    growth of appended slices ([grow]) are parameters. The deferred [Patch] on a panicking
    path is left out, since no path panics. Outside [Store.v], what the API server does
    between two calls is not constrained: each theorem holds for all its answers. *)

From Stdlib Require Export ZArith Lia.
From stdpp Require Export base gmap strings list pretty option.

#[global] Set Default Goal Selector "!".
#[global] Set Warnings "-clear-no-such-hyp,-register-all".

(** ** Automation

    [provider] resolves what the handlers' traces are made of, [copying] the parts of a deep
    copy; [lookups] computes
    lookups in the maps objects are rendered from, keys compared as literals. *)
Create HintDb provider.
Create HintDb copying.
Ltac lookups :=
  repeat (rewrite lookup_insert_eq || rewrite lookup_insert_ne by done
          || rewrite lookup_singleton_eq || rewrite lookup_singleton_ne by done
          || rewrite lookup_empty).

(** Decide the string and boolean tests a branch leaves behind. *)
Ltac bool_facts :=
  repeat match goal with
  | H : negb _ = true |- _ => apply negb_true_iff in H
  | H : negb _ = false |- _ => apply negb_false_iff in H
  | H : (_ && _)%bool = true |- _ => apply andb_true_iff in H as [? ?]
  | H : (_ || _)%bool = false |- _ => apply orb_false_iff in H as [? ?]
  | H : String.eqb _ _ = true |- _ => apply String.eqb_eq in H
  | H : String.eqb _ _ = false |- _ => apply String.eqb_neq in H
  | H : Nat.eqb _ _ = true |- _ => apply Nat.eqb_eq in H
  | H : Nat.eqb _ _ = false |- _ => apply Nat.eqb_neq in H
  | H : Z.eqb _ _ = true |- _ => apply Z.eqb_eq in H
  | H : Z.eqb _ _ = false |- _ => apply Z.eqb_neq in H
  end.

(** ** Strings

    Go strings are byte strings; Rocq's [string] is a list of bytes. *)

Lemma string_app_nil (s : string) : "" +:+ s = s.
Proof. done. Qed.

Lemma string_app_cons c (a b : string) : String c a +:+ b = String c (a +:+ b).
Proof. done. Qed.

Lemma string_app_assoc (a b c : string) : (a +:+ b) +:+ c = a +:+ (b +:+ c).
Proof. induction a as [|x a IH]; [done|]. by rewrite !string_app_cons, IH. Qed.

Lemma string_app_inj_l (a b c : string) : a +:+ b = a +:+ c → b = c.
Proof. induction a; [done|]. rewrite !string_app_cons. intros [=]; auto. Qed.

Lemma string_length_app (a b : string) :
  String.length (a +:+ b) = String.length a + String.length b.
Proof. induction a; [done|]. rewrite string_app_cons. simpl. lia. Qed.

Lemma string_app_inj_r (a b c : string) : a +:+ c = b +:+ c → a = b.
Proof.
  revert b. induction a as [|x a IH]; intros [|y b] H; [done| | |].
  - apply (f_equal String.length) in H. rewrite !string_length_app in H.
    simpl in H. lia.
  - apply (f_equal String.length) in H. rewrite !string_length_app in H.
    simpl in H. lia.
  - rewrite !string_app_cons in H. injection H as -> H. f_equal. by apply IH.
Qed.

(** Whether byte [c] occurs in [s]. *)
Fixpoint string_has (c : Ascii.ascii) (s : string) : bool :=
  match s with
  | "" => false
  | String d s' => Ascii.eqb c d || string_has c s'
  end.

(** Text before the first separator is determined by the joined text. *)
Lemma string_split_unique (sep : Ascii.ascii) (a b c d : string) :
  string_has sep a = false → string_has sep c = false →
  a +:+ String sep b = c +:+ String sep d → a = c ∧ b = d.
Proof.
  revert c. induction a as [|x a IH]; intros [|y c]; simpl; intros Ha Hc H;
    rewrite ?string_app_nil, ?string_app_cons in H.
  - by injection H as ->.
  - injection H as <- ->. by rewrite Ascii.eqb_refl in Hc.
  - injection H as -> <-. by rewrite Ascii.eqb_refl in Ha.
  - injection H as <- H. apply orb_false_iff in Ha as [_ Ha].
    apply orb_false_iff in Hc as [_ Hc].
    destruct (IH c Ha Hc H) as [-> ->]. done.
Qed.
