(* ===== verification/Go.v ===== *)
(** * Go: the parts of the language and its standard library the provider uses

    Errors as values, nil-able slices and maps, and the [fmt] verbs [%s], [%d]
    and [%q] ([strconv.Quote], with UTF-8 decoding). *)

From S2P Require Import Prelude.

Declare Scope go_scope.
Delimit Scope go_scope with go.

(** ** Errors

    An [error] made by [fmt.Errorf] without or with a trailing [": %w"], or one
    handed over by code outside the repository, which this code only passes on,
    prints, or classifies with [apierrors.IsNotFound]. *)
Inductive error :=
  | Ext (tag : nat) (message : string)
  | Errorf (message : string)
  | Wrapf (prefix : string) (inner : error).

#[export] Instance error_eq_dec : EqDecision error.
Proof. solve_decision. Defined.

(** The [Error()] method. *)
Fixpoint Error (e : error) : string :=
  match e with
  | Ext _ m => m
  | Errorf m => m
  | Wrapf p e' => p +:+ ": " +:+ Error e'
  end.

(** A Go [(T, error)] pair whose value is used only when the error is nil. *)
Inductive result (A : Type) :=
  | Ok (a : A)
  | Err (e : error).
Arguments Ok {A} a.
Arguments Err {A} e.

(** ** Slices and maps

    [None] is nil. Only types whose nilness the code (or [reflect.DeepEqual])
    can observe are modelled this way. *)
Abbreviation slice A := (option (list A)).
Abbreviation gomap V := (option (gmap string V)).

Definition elems {A} (s : slice A) : list A := default [] s.
Definition entries {V} (m : gomap V) : gmap string V := default ∅ m.

(** [m[k]] on a [map[string]string]: the zero value when absent or nil. *)
Definition goget (m : gomap string) (k : string) : string :=
  default "" (entries m !! k).

(** [m[k] = v]: [None] for the panic on a nil map. *)
Definition goset {V} (m : gomap V) (k : string) (v : V) : option (gomap V) :=
  match m with
  | None => None
  | Some m => Some (Some (<[k := v]> m))
  end.

(** [for k, v := range src { dst[k] = v }] on distinct maps. *)
Definition gocopy {V} (src dst : gmap string V) : gmap string V := src ∪ dst.

(** ** [fmt] verbs *)

(** [%d] of a non-negative int. *)
Definition fmt_d (n : nat) : string := pretty n.

Module Quote.

Abbreviation rune := N.
Definition RuneError : rune := 0xFFFD.

Definition byte_of (c : Ascii.ascii) : N := Ascii.N_of_ascii c.

(** [utf8.DecodeRuneInString] on a non-empty string: the rune and its width;
    [(RuneError, 1)] for an invalid encoding. *)
Definition cont_byte (lo hi : N) (b : N) : bool := (lo <=? b)%N && (b <=? hi)%N.

Definition decode2 (b0 b1 : N) : rune := ((b0 - 0xC0) * 64 + (b1 - 0x80))%N.
Definition decode3 (b0 b1 b2 : N) : rune :=
  ((b0 - 0xE0) * 4096 + (b1 - 0x80) * 64 + (b2 - 0x80))%N.
Definition decode4 (b0 b1 b2 b3 : N) : rune :=
  ((b0 - 0xF0) * 262144 + (b1 - 0x80) * 4096 + (b2 - 0x80) * 64 + (b3 - 0x80))%N.

Definition DecodeRune (bs : list N) : rune * nat :=
  match bs with
  | [] => (RuneError, 0)
  | b0 :: r =>
    if (b0 <? 0x80)%N then (b0, 1)
    else if cont_byte 0xC2 0xDF b0 then
      match r with
      | b1 :: _ => if cont_byte 0x80 0xBF b1 then (decode2 b0 b1, 2) else (RuneError, 1)
      | _ => (RuneError, 1)
      end
    else if cont_byte 0xE0 0xEF b0 then
      let lo := if (b0 =? 0xE0)%N then 0xA0%N else 0x80%N in
      let hi := if (b0 =? 0xED)%N then 0x9F%N else 0xBF%N in
      match r with
      | b1 :: b2 :: _ =>
        if cont_byte lo hi b1 && cont_byte 0x80 0xBF b2
        then (decode3 b0 b1 b2, 3) else (RuneError, 1)
      | _ => (RuneError, 1)
      end
    else if cont_byte 0xF0 0xF4 b0 then
      let lo := if (b0 =? 0xF0)%N then 0x90%N else 0x80%N in
      let hi := if (b0 =? 0xF4)%N then 0x8F%N else 0xBF%N in
      match r with
      | b1 :: b2 :: b3 :: _ =>
        if cont_byte lo hi b1 && cont_byte 0x80 0xBF b2 && cont_byte 0x80 0xBF b3
        then (decode4 b0 b1 b2 b3, 4) else (RuneError, 1)
      | _ => (RuneError, 1)
      end
    else (RuneError, 1)
  end.

Definition char (n : N) : string := String (Ascii.ascii_of_N n) "".

(** [n] lower-case hexadecimal digits of [x]. *)
Definition hexdigit (d : N) : string :=
  char (if (d <? 10)%N then 48 + d else 87 + d)%N.
Fixpoint hex (n : nat) (x : N) : string :=
  match n with
  | O => ""
  | S n' => hex n' (x / 16)%N +:+ hexdigit (x mod 16)%N
  end.

(** The bytes of a string, and back. *)
Fixpoint bytes (s : string) : list N :=
  match s with
  | "" => []
  | String c s' => byte_of c :: bytes s'
  end.
Fixpoint of_bytes (bs : list N) : string :=
  match bs with
  | [] => ""
  | b :: r => String (Ascii.ascii_of_N b) (of_bytes r)
  end.

Section Quote.
(** [strconv.IsPrint] for runes above 0xFF, Go's Unicode tables. *)
Context (wide_IsPrint : rune → bool).

Definition IsPrint (r : rune) : bool :=
  if (r <=? 0xFF)%N then
    if (0x20 <=? r)%N && (r <? 0x7F)%N then true
    else if (0xA1 <=? r)%N then negb (r =? 0xAD)%N else false
  else wide_IsPrint r.

(** [appendEscapedRune]; [enc] is the rune's own encoding. *)
Definition escape (r : rune) (enc : list N) : string :=
  if (r =? 34)%N || (r =? 92)%N then "\" +:+ char r
  else if IsPrint r then of_bytes enc
  else if (r =? 7)%N then "\a"
  else if (r =? 8)%N then "\b"
  else if (r =? 12)%N then "\f"
  else if (r =? 10)%N then "\n"
  else if (r =? 13)%N then "\r"
  else if (r =? 9)%N then "\t"
  else if (r =? 11)%N then "\v"
  else if (r <? 0x20)%N || (r =? 0x7F)%N then "\x" +:+ hex 2 r
  else if (r <? 0x10000)%N then "\u" +:+ hex 4 r
  else "\U" +:+ hex 8 r.

(** [quoteWith], with fuel the number of bytes: each step consumes one. *)
Fixpoint quote_body (fuel : nat) (bs : list N) : string :=
  match fuel, bs with
  | _, [] => ""
  | O, _ => ""
  | S fuel', b :: _ =>
    let '(r, width) := DecodeRune bs in
    if (width =? 1)%nat && (r =? RuneError)%N
    then "\x" +:+ hex 2 b +:+ quote_body fuel' (drop 1 bs)
    else escape r (take width bs) +:+ quote_body fuel' (drop width bs)
  end.

Definition dquote : string := char 34.
Definition Quote (s : string) : string :=
  dquote +:+ quote_body (length (bytes s)) (bytes s) +:+ dquote.

(** A byte that quoting leaves alone: printable ASCII, no quote or backslash. *)
Definition plain_byte (b : N) : bool :=
  (0x20 <=? b)%N && (b <? 0x7F)%N && negb (b =? 34)%N && negb (b =? 92)%N.
Definition plain (s : string) : bool := forallb plain_byte (bytes s).

Lemma of_bytes_bytes s : of_bytes (bytes s) = s.
Proof.
  induction s as [|c s IH]; [done|]. simpl. rewrite IH.
  unfold byte_of. by rewrite Ascii.ascii_N_embedding.
Qed.

Lemma quote_body_plain fuel bs :
  length bs ≤ fuel → forallb plain_byte bs = true →
  quote_body fuel bs = of_bytes bs.
Proof.
  revert bs. induction fuel as [|fuel IH]; intros [|b bs] Hl Hp;
    try done; [simpl in Hl; lia|].
  apply andb_true_iff in Hp as [Hb Hp]. unfold plain_byte in Hb.
  repeat (apply andb_true_iff in Hb as [Hb ?]). bool_facts.
  assert (Hd : DecodeRune (b :: bs) = (b, 1)).
  { simpl. by rewrite (proj2 (N.ltb_lt b 0x80)) by
      (match goal with H : (b <? 0x7F)%N = true |- _ => apply N.ltb_lt in H; lia end). }
  cbn [quote_body]. rewrite Hd. clear Hd. cbn [Nat.eqb].
  match goal with H : (b <? 0x7F)%N = true |- _ => apply N.ltb_lt in H; rename H into Hlt end.
  apply N.leb_le in Hb.
  replace (b =? RuneError)%N with false
    by (symmetry; apply N.eqb_neq; unfold RuneError; lia).
  rewrite andb_false_r. unfold escape, IsPrint.
  rewrite (proj2 (N.leb_le b 0xFF)) by lia.
  rewrite (proj2 (N.leb_le 0x20 b)), (proj2 (N.ltb_lt b 0x7F)) by lia.
  repeat match goal with H : (b =? _)%N = false |- _ => rewrite H end. simpl.
  rewrite ?drop_0, IH; [done| simpl in Hl |- *; lia | done].
Qed.

(** Quoting printable ASCII without quotes or backslashes only adds the quotes. *)
Lemma Quote_plain s : plain s = true → Quote s = dquote +:+ s +:+ dquote.
Proof.
  intros H. unfold Quote. rewrite quote_body_plain, of_bytes_bytes; done.
Qed.
End Quote.
End Quote.

Lemma Quote_bytes_app a b : Quote.bytes (a +:+ b) = Quote.bytes a ++ Quote.bytes b.
Proof. induction a; simpl; [done|]. by f_equal. Qed.

Lemma plain_app a b : Quote.plain (a +:+ b) = Quote.plain a && Quote.plain b.
Proof. unfold Quote.plain. rewrite Quote_bytes_app. apply forallb_app. Qed.
