(* ===== verification/Prog.v ===== *)
(** * Prog: effectful programs and their logic

    A reconciler is a finite tree of calls to code outside the repository. The
    tree says nothing about what the calls answer: a property proved with [wp]
    holds whatever they answer, within an environment assumption. *)

From S2P Require Import Prelude.

Section Prog.
Context {E : Type → Type}.

Inductive prog (R : Type) : Type :=
  | Ret (r : R)
  | Panic
  | Vis {X : Type} (e : E X) (k : X → prog R).
#[global] Arguments Ret {R} r.
#[global] Arguments Panic {R}.
#[global] Arguments Vis {R X} e k.

Fixpoint bind {R S} (p : prog R) (f : R → prog S) : prog S :=
  match p with
  | Ret r => f r
  | Panic => Panic
  | Vis e k => Vis e (λ x, bind (k x) f)
  end.

Definition perform {X} (e : E X) : prog X := Vis e Ret.

(** Dereferencing a pointer: nil panics. *)
Definition deref {A} (o : option A) : prog A :=
  match o with Some a => Ret a | None => Panic end.

(** ** Runs *)

(** A call and its answer. *)
Inductive event : Type :=
  | Ev {X : Type} (e : E X) (x : X).
Abbreviation trace := (list event).

Inductive outcome (R : Type) :=
  | Done (r : R)
  | Panicked.
#[global] Arguments Done {R} r.
#[global] Arguments Panicked {R}.

Inductive runs {R} : prog R → trace → outcome R → Prop :=
  | runs_ret r : runs (Ret r) [] (Done r)
  | runs_panic : runs Panic [] Panicked
  | runs_vis X (e : E X) k x t o :
      runs (k x) t o → runs (Vis e k) (Ev e x :: t) o.

(** What answers a call may get. *)
Definition env := ∀ X, E X → X → Prop.
Definition any : env := λ _ _ _, True.
Definition allowed (A : env) (t : trace) : Prop :=
  Forall (λ ev, match ev with Ev e x => A _ e x end) t.

(** Every run under [A] ends, without panicking, in a result with [Q]. *)
Fixpoint wp {R} (A : env) (p : prog R) (Q : trace → R → Prop) : Prop :=
  match p with
  | Ret r => Q [] r
  | Panic => False
  | Vis e k => ∀ x, A _ e x → wp A (k x) (λ t r, Q (Ev e x :: t) r)
  end.

(** ** Rules *)

Lemma wp_mono {R} A (p : prog R) (Q Q' : trace → R → Prop) :
  (∀ t r, Q t r → Q' t r) → wp A p Q → wp A p Q'.
Proof.
  revert Q Q'. induction p as [r| |X e k IH]; simpl; intros Q Q' HQ; [by auto|done|].
  intros H x Hx. eapply IH; [|by apply H]. simpl. auto.
Qed.

Lemma wp_bind {R S} A (p : prog R) (f : R → prog S) Q :
  wp A (bind p f) Q ↔ wp A p (λ t r, wp A (f r) (λ t' r', Q (t ++ t') r')).
Proof.
  revert Q. induction p as [r| |X e k IH]; simpl; intros Q; [done|done|].
  split; intros H x Hx; apply (IH x (λ t r, Q (Ev e x :: t) r)), H, Hx.
Qed.

(** The rule used in proofs: a specification of the first part, then the
    rest from what it established. *)
Lemma wp_seq {R S} A (p : prog R) (f : R → prog S) (P : trace → R → Prop) Q :
  wp A p P →
  (∀ t r, P t r → wp A (f r) (λ t' r', Q (t ++ t') r')) →
  wp A (bind p f) Q.
Proof. intros Hp Hf. apply wp_bind. eapply wp_mono, Hp. auto. Qed.

(** The strongest postcondition: the run itself. *)
Lemma wp_self {R} A (p : prog R) (Q : trace → R → Prop) :
  wp A p Q → wp A p (λ t r, runs p t (Done r) ∧ Q t r).
Proof.
  revert Q. induction p as [r| |X e k IH]; simpl; intros Q H; [split; [constructor|done]|done|].
  intros x Hx. eapply wp_mono; [|exact (IH x _ (H x Hx))].
  intros t r [Hr HQ]. split; [by constructor|done].
Qed.

(** What holds for every answer holds for those of [A], with the trace allowed by it. *)
Lemma wp_allowed {R} A (p : prog R) (Q : trace → R → Prop) :
  wp any p Q → wp A p (λ t r, allowed A t ∧ Q t r).
Proof.
  revert Q. induction p as [r| |X e k IH]; simpl; intros Q H; [by split; [constructor|]|done|].
  intros x Hx. eapply wp_mono; [|exact (IH x _ (H x I))].
  intros t r [Ht HQ]. split; [by constructor|done].
Qed.

(** ** Adequacy: [wp] speaks about the runs *)

Theorem wp_runs {R} A (p : prog R) Q t o :
  wp A p Q → runs p t o → allowed A t → ∃ r, o = Done r ∧ Q t r.
Proof.
  intros Hwp Hr. revert Q Hwp. induction Hr; simpl; intros Q Hwp Ht; [by eauto|done|].
  unfold allowed in Ht. apply Forall_cons_1 in Ht as [Hx Ht]. exact (IHHr _ (Hwp _ Hx) Ht).
Qed.

Lemma wp_any_runs {R} (p : prog R) Q t r :
  wp any p Q → runs p t (Done r) → Q t r.
Proof.
  intros Hwp Hr. destruct (wp_runs any p Q t _ Hwp Hr) as (r' & [= ->] & HQ); [|done].
  apply list.Forall_true. by intros [].
Qed.

Theorem runs_wp {R} A (p : prog R) (Q : trace → R → Prop) :
  (∀ t o, runs p t o → allowed A t → ∃ r, o = Done r ∧ Q t r) → wp A p Q.
Proof.
  revert Q. induction p as [r| |X e k IH]; simpl; intros Q H.
  - destruct (H [] (Done r)) as (? & [= <-] & ?); [constructor..|done].
  - destruct (H [] Panicked) as (? & ? & ?); [constructor..|done].
  - intros x Hx. apply IH. intros t o Hr Ht.
    apply (H (Ev e x :: t)); [by constructor|by constructor].
Qed.

(** Every run, panicking ones too, has [Q]. *)
Fixpoint always {R} (p : prog R) (Q : trace → outcome R → Prop) : Prop :=
  match p with
  | Ret r => Q [] (Done r)
  | Panic => Q [] Panicked
  | Vis e k => ∀ x, always (k x) (λ t o, Q (Ev e x :: t) o)
  end.

Theorem always_runs {R} (p : prog R) Q t o : always p Q → runs p t o → Q t o.
Proof.
  intros H Hr. revert Q H. induction Hr; simpl; intros Q H; [done..|].
  exact (IHHr _ (H x)).
Qed.

Lemma always_mono {R} (p : prog R) (Q Q' : trace → outcome R → Prop) :
  (∀ t o, Q t o → Q' t o) → always p Q → always p Q'.
Proof.
  revert Q Q'. induction p as [r| |X e k IH]; simpl; intros Q Q' HQ; [by auto..|].
  intros H x. eapply IH; [|by apply H]. simpl. auto.
Qed.

(** ** Running against a server *)

Fixpoint exec {R S} (h : ∀ X, E X → S → S * X) (p : prog R) (s : S) :
    S * (trace * outcome R) :=
  match p with
  | Ret r => (s, ([], Done r))
  | Panic => (s, ([], Panicked))
  | Vis e k =>
    let '(s', x) := h _ e s in
    let '(s'', (t, o)) := exec h (k x) s' in
    (s'', (Ev e x :: t, o))
  end.

Lemma exec_runs {R S} (h : ∀ X, E X → S → S * X) (p : prog R) s s' t o :
  exec h p s = (s', (t, o)) → runs p t o.
Proof.
  revert s s' t o. induction p as [r| |X e k IH]; simpl; intros s s' t o.
  - intros [= <- <- <-]. constructor.
  - intros [= <- <- <-]. constructor.
  - destruct (h X e s) as [s1 x]. destruct (exec h (k x) s1) as [s2 [t2 o2]] eqn:Hx.
    intros [= <- <- <-]. constructor. eauto.
Qed.

(** The server's state and the outcome, without the trace. *)
Definition answer {R S} (h : ∀ X, E X → S → S * X) (p : prog R) (s : S) : S * outcome R :=
  let '(s', (_, o)) := exec h p s in (s', o).

Lemma answer_vis {R S} h X (e : E X) (k : X → prog R) (s : S) :
  answer h (Vis e k) s = answer h (k (h X e s).2) (h X e s).1.
Proof.
  unfold answer. simpl. destruct (h X e s) as [s' x]. simpl.
  by destruct (exec h (k x) s') as [? []].
Qed.

Lemma answer_bind {R R' S} h (p : prog R) (f : R → prog R') (s : S) :
  answer h (bind p f) s =
  match answer h p s with (s', Done r) => answer h (f r) s' | (s', Panicked) => (s', Panicked) end.
Proof.
  revert s. induction p as [r| |X e k IH]; intros s; [done..|].
  simpl bind. by rewrite !answer_vis, IH.
Qed.

Lemma answer_seq {R R' S} h (p : prog R) (f : R → prog R') (s s' : S) r :
  answer h p s = (s', Done r) → answer h (bind p f) s = answer h (f r) s'.
Proof. intros H. by rewrite answer_bind, H. Qed.

(** ** Rely and guarantee

    [rg A G p Q]: as long as the answers are those of [A], every call satisfies [G], no
    call panics and a result satisfies [Q]. Unlike [wp] it speaks of unfinished runs. *)
Fixpoint rg {R} (A : env) (G : ∀ X, E X → Prop) (p : prog R) (Q : R → Prop) : Prop :=
  match p with
  | Ret r => Q r
  | Panic => False
  | Vis e k => G _ e ∧ ∀ x, A _ e x → rg A G (k x) Q
  end.

Lemma rg_mono {R} A G (p : prog R) (Q Q' : R → Prop) :
  (∀ r, Q r → Q' r) → rg A G p Q → rg A G p Q'.
Proof.
  intros HQ. induction p as [r| |X e k IH]; simpl; [by auto|done|].
  intros [He H]. split; [done|]. auto.
Qed.

Lemma rg_bind {R R'} A G (p : prog R) (f : R → prog R') Q :
  rg A G p (λ r, rg A G (f r) Q) → rg A G (bind p f) Q.
Proof.
  induction p as [r| |X e k IH]; simpl; [done|done|]. intros [He H]. split; [done|]. auto.
Qed.

Lemma rg_seq {R R'} A G (p : prog R) (f : R → prog R') (P : R → Prop) Q :
  rg A G p P → (∀ r, P r → rg A G (f r) Q) → rg A G (bind p f) Q.
Proof. intros Hp Hf. apply rg_bind. eapply rg_mono, Hp. auto. Qed.

(** ** Ordering: a property of each event given the events before it *)

Fixpoint each_after (P : trace → event → Prop) (pre t : trace) : Prop :=
  match t with
  | [] => True
  | ev :: t' => P pre ev ∧ each_after P (pre ++ [ev]) t'
  end.
Definition at_each (P : trace → event → Prop) (t : trace) : Prop := each_after P [] t.

Lemma each_after_spec P pre t :
  each_after P pre t ↔ ∀ t1 ev t2, t = t1 ++ ev :: t2 → P (pre ++ t1) ev.
Proof.
  revert pre. induction t as [|e t IH]; intros pre; simpl.
  - split; [|done]. intros _ [|] ? ?; done.
  - rewrite IH. split.
    + intros [He H] [|e1 t1] ev t2; simpl; intros [= <- Ht].
      * by rewrite app_nil_r.
      * specialize (H t1 ev t2 Ht). by rewrite <- app_assoc in H.
    + intros H. split; [rewrite <- (app_nil_r pre); by apply (H [] e t)|].
      intros t1 ev t2 ->. rewrite <- app_assoc. by apply (H (e :: t1) ev t2).
Qed.

Lemma each_after_app P pre t t' :
  each_after P pre (t ++ t') ↔ each_after P pre t ∧ each_after P (pre ++ t) t'.
Proof.
  revert pre. induction t as [|e t IH]; intros pre; simpl.
  - rewrite app_nil_r. tauto.
  - rewrite IH, <- app_assoc. simpl. tauto.
Qed.

End Prog.

Arguments prog E R : clear implicits.
Arguments event E : clear implicits.
Arguments env E : clear implicits.
Abbreviation trace E := (list (event E)).

Notation "'let!' x ':=' p 'in' q" := (bind p (λ x, q))
  (at level 10, x pattern, p at level 100, q at level 200,
   format "'[v' 'let!'  x  ':='  p  'in' '/' q ']'").

(** [step] runs one call of the goal's program; [answer] takes its answer and
    runs on to the next; [steps] runs the program to its end, splitting on every
    answer and test. *)
Ltac step := cbn [wp bind perform deref].
Ltac answer := step; intros ? _; step.
Ltac steps :=
  repeat (step; match goal with
  | |- ∀ _, any _ _ _ → _ => intros ? _
  | |- wp _ (match ?x with _ => _ end) _ => destruct x eqn:?; simplify_eq/=
  | |- wp _ (bind (match ?x with _ => _ end) _) _ => destruct x eqn:?; simplify_eq/=
  end).

(** The same for [rg]; [tac] proves each call's guarantee. *)
Ltac rg_steps tac :=
  repeat (cbn [rg bind perform deref]; match goal with
  | |- _ ∧ _ => split; [tac|]
  | |- ∀ _, _ → rg _ _ _ _ => intros ? ?
  | |- rg _ _ (match ?x with _ => _ end) _ => destruct x eqn:?; simplify_eq/=
  | |- rg _ _ (bind (match ?x with _ => _ end) _) _ => destruct x eqn:?; simplify_eq/=
  end).

(** Goals about the events of a trace written out. *)
Ltac on_events tac :=
  repeat first [apply List.Forall_nil | apply List.Forall_cons; [tac|]].
