(* ===== verification/Kube.v ===== *)
(** * Kube: the data of the Kubernetes and Cluster API types the provider touches

    Structs of packages outside the repository, with the fields this program
    reads or writes. Functions of those packages are parameters: see [Lib.v]. *)

From S2P Require Import Prelude Go.

(** ** metav1 *)

Record NamespacedName := mkNN { nn_Namespace : string; nn_Name : string }.

Record OwnerReference := mkOwnerReference {
  or_APIVersion : string;
  or_Kind : string;
  or_Name : string;
  or_Controller : bool
}.

Record ObjectMeta := mkObjectMeta {
  meta_Name : string;
  meta_Namespace : string;
  meta_Labels : gomap string;
  meta_Annotations : gomap string;
  meta_Finalizers : list string;
  meta_DeletionTimestamp : option Z;
  meta_OwnerReferences : list OwnerReference;
  meta_ResourceVersion : string
}.

Definition meta_zero : ObjectMeta := mkObjectMeta "" "" None None [] None [] "".

Definition meta_set_Finalizers (m : ObjectMeta) (f : list string) : ObjectMeta :=
  mkObjectMeta (meta_Name m) (meta_Namespace m) (meta_Labels m) (meta_Annotations m)
    f (meta_DeletionTimestamp m) (meta_OwnerReferences m) (meta_ResourceVersion m).
Definition meta_set_Annotations (m : ObjectMeta) (a : gomap string) : ObjectMeta :=
  mkObjectMeta (meta_Name m) (meta_Namespace m) (meta_Labels m) a
    (meta_Finalizers m) (meta_DeletionTimestamp m) (meta_OwnerReferences m) (meta_ResourceVersion m).
Definition meta_set_OwnerReferences (m : ObjectMeta) (o : list OwnerReference) : ObjectMeta :=
  mkObjectMeta (meta_Name m) (meta_Namespace m) (meta_Labels m) (meta_Annotations m)
    (meta_Finalizers m) (meta_DeletionTimestamp m) o (meta_ResourceVersion m).

(** [metav1.Condition]; the library also stamps a transition time and an observed
    generation, which this program neither sets nor reads. *)
Record Condition := mkCondition {
  cond_Type : string;
  cond_Status : string;
  cond_Reason : string;
  cond_Message : string
}.
Definition ConditionTrue : string := "True".
Definition ConditionFalse : string := "False".

(** The condition of a type, if present. *)
Definition find_condition (typ : string) (l : list Condition) : option Condition :=
  List.find (λ c, String.eqb (cond_Type c) typ) l.

Record GroupVersionKind := mkGVK {
  gvk_Group : string; gvk_Version : string; gvk_Kind : string
}.

(** ** Unstructured objects: JSON-like trees *)

#[warnings="-register-all"]
Inductive val :=
  | VNull
  | VBool (b : bool)
  | VInt (z : Z)
  | VStr (s : string)
  | VList (l : list val)
  | VMap (m : gmap string val).

Record Unstructured := mkUnstructured { Object : gmap string val }.

(** The value at a path of nested maps. *)
Fixpoint lookup_path (obj : gmap string val) (path : list string) : option val :=
  match path with
  | [] => None
  | [f] => obj !! f
  | f :: path' =>
    match obj !! f with
    | Some (VMap m) => lookup_path m path'
    | _ => None
    end
  end.

(** ** Induction and decidable equality on values

    [val] nests itself under maps, so its induction goes through a size. *)

Fixpoint val_size (v : val) : nat :=
  match v with
  | VList l => S (foldr (λ t n, val_size t + n) 0 l)
  | VMap m => S (map_fold (λ _ t n, val_size t + n) 0 m)
  | _ => 1
  end.

Lemma val_size_map (m : gmap string val) k v :
  m !! k = Some v → val_size v < val_size (VMap m).
Proof.
  intros H. simpl. apply Nat.lt_succ_r. revert k v H.
  apply (map_fold_weak_ind (λ r m, ∀ k v, m !! k = Some v → val_size v ≤ r)).
  - intros k v H. by rewrite lookup_empty in H.
  - intros i x m' r Hi IH k v H. apply lookup_insert_Some in H as [[_ <-]|[_ H]]; [lia|].
    specialize (IH k v H). lia.
Qed.

Lemma val_size_list (l : list val) v : v ∈ l → val_size v < val_size (VList l).
Proof.
  intros H. simpl. apply Nat.lt_succ_r.
  induction H as [|w v l H IH]; simpl; lia.
Qed.

Lemma val_induction (P : val → Prop) :
  P VNull → (∀ b, P (VBool b)) → (∀ z, P (VInt z)) → (∀ s, P (VStr s)) →
  (∀ l, (∀ v, v ∈ l → P v) → P (VList l)) →
  (∀ m, (∀ k v, m !! k = Some v → P v) → P (VMap m)) →
  ∀ v, P v.
Proof.
  intros Hn Hb Hz Hs Hl Hm v. remember (val_size v) as n eqn:En. revert v En.
  induction (lt_wf n) as [n _ IH]. intros [| | | |l|m] ->; auto.
  - apply Hl. intros v Hv. eapply IH; [by apply val_size_list|done].
  - apply Hm. intros k v Hv. eapply IH; [by eapply val_size_map|done].
Qed.

Fixpoint val_eqb (a b : val) {struct a} : bool :=
  match a, b with
  | VNull, VNull => true
  | VBool x, VBool y => Bool.eqb x y
  | VInt x, VInt y => Z.eqb x y
  | VStr x, VStr y => String.eqb x y
  | VList l, VList l' =>
    (fix go l l' := match l, l' with
      | [], [] => true
      | x :: r, y :: r' => val_eqb x y && go r r'
      | _, _ => false end) l l'
  | VMap m, VMap m' =>
    (size m' <=? size m)%nat &&
    map_fold (λ k v acc,
      match m' !! k with Some w => val_eqb v w && acc | None => false end) true m
  | _, _ => false
  end.

Lemma map_fold_all_true (f : val → val → bool) (m m' : gmap string val) :
  map_fold (λ k v acc,
    match m' !! k with Some w => f v w && acc | None => false end) true m = true ↔
  ∀ k v, m !! k = Some v → ∃ w, m' !! k = Some w ∧ f v w = true.
Proof.
  apply (map_fold_weak_ind
    (λ r m, r = true ↔ ∀ k v, m !! k = Some v → ∃ w, m' !! k = Some w ∧ f v w = true)).
  - split; [|done]. intros _ k v H. by rewrite lookup_empty in H.
  - intros i x n r Hi IH. split.
    + intros H. destruct (m' !! i) as [w|] eqn:Hw; [|done].
      apply andb_true_iff in H as [Hf Hr]. rewrite IH in Hr.
      intros k v Hk. apply lookup_insert_Some in Hk as [[<- <-]|[_ Hk]]; eauto.
    + intros H. destruct (H i x) as (w & -> & ->); [by apply lookup_insert_eq|].
      simpl. apply IH. intros k v Hk. apply H. rewrite lookup_insert_ne; [done|congruence].
Qed.

Lemma val_eqb_eq a b : val_eqb a b = true ↔ a = b.
Proof.
  revert b. induction a as [|x|z|s|l IH|m IH] using val_induction; intros [|y|z'|s'|l'|m'];
    try (split; done); cbn [val_eqb].
  - rewrite Bool.eqb_true_iff. split; congruence.
  - rewrite Z.eqb_eq. split; congruence.
  - rewrite String.eqb_eq. split; congruence.
  - assert (∀ l', (fix go l l' := match l, l' with
      | [], [] => true
      | x :: r, y :: r' => val_eqb x y && go r r'
      | _, _ => false end) l l' = true ↔ l = l') as Hl.
    { clear l'. induction l as [|x l IHl]; intros [|y l']; try (split; done).
      rewrite andb_true_iff, IH by (by left).
      rewrite IHl by (intros v Hv; apply IH; by right).
      split; [intros [-> ->]; done|intros [=]; done]. }
    rewrite Hl. split; congruence.
  - rewrite andb_true_iff, map_fold_all_true, Nat.leb_le. split.
    + intros [Hs H]. f_equal. apply map_subseteq_size_eq; [|done].
      apply map_subseteq_spec. intros k v Hk.
      destruct (H k v Hk) as (w & Hw & Hvw). apply (IH k v Hk) in Hvw as ->. done.
    + intros [= ->]. split; [done|]. intros k v Hk. exists v. split; [done|].
      by apply (IH k v Hk).
Qed.

#[export] Instance val_eq_dec : EqDecision val.
Proof.
  refine (λ a b, cast_if (decide (val_eqb a b = true))); rewrite <- val_eqb_eq; done.
Defined.

(** ** Cluster API core types *)

Record APIEndpoint := mkAPIEndpoint { ep_Host : string; ep_Port : Z }.

Record MachineAddress := mkMachineAddress { addr_Type : string; addr_Address : string }.
Definition MachineInternalIP : string := "InternalIP".

Record Cluster := mkCluster {
  clus_ObjectMeta : ObjectMeta;
  clus_Spec_Paused : option bool;
  clus_Spec_InfrastructureRef_Name : string;
  clus_Status_InfrastructureProvisioned : option bool
}.

Record Machine := mkMachine {
  mach_ObjectMeta : ObjectMeta;
  mach_Spec_Bootstrap_DataSecretName : option string;
  mach_Spec_FailureDomain : string
}.

Definition ClusterNameLabel : string := "cluster.x-k8s.io/cluster-name".

(** The [ObjectMeta] of a template: labels and annotations only. *)
Record TemplateMeta := mkTemplateMeta {
  tm_Labels : gomap string;
  tm_Annotations : gomap string
}.

(** ** corev1 *)

Record Secret := mkSecret { sec_ObjectMeta : ObjectMeta; sec_Data : gmap string string }.

Inductive IntOrString :=
  | IntVal (z : Z)
  | StrVal (s : string).

Record ServicePort := mkServicePort {
  sp_Name : string;
  sp_Port : Z;
  sp_TargetPort : IntOrString;
  sp_Protocol : string;
  sp_NodePort : Z
}.

Definition ServiceTypeClusterIP : string := "ClusterIP".
Definition ServiceTypeLoadBalancer : string := "LoadBalancer".
Definition ClusterIPNone : string := "None".
Definition ProtocolTCP : string := "TCP".

(** [ss_Rest] stands for the fields of the spec this program never touches. *)
Record ServiceSpec := mkServiceSpec {
  ss_Type : string;
  ss_Selector : gomap string;
  ss_Ports : list ServicePort;
  ss_ClusterIP : string;
  ss_LoadBalancerClass : option string;
  ss_Rest : gmap string string
}.

Record LoadBalancerIngress := mkIngress { ing_IP : string; ing_Hostname : string }.

Record Service := mkService {
  svc_ObjectMeta : ObjectMeta;
  svc_Spec : ServiceSpec;
  svc_Status_Ingress : list LoadBalancerIngress
}.

Record Node := mkNode { node_Name : string; node_Spec_ProviderID : string }.

(** Handles of client-go values this program only passes on. *)
Record RestConfig := mkRestConfig { rc_id : nat }.
Record Clientset := mkClientset { cs_id : nat }.

(** ** controller-runtime *)

Record Result := mkResult { res_RequeueAfter : Z }.
Definition Result_zero : Result := mkResult 0.

(** Admission request and the context it is taken from. *)
Record AdmissionRequest := mkAdmissionRequest { areq_DryRun : option bool }.
Record Context := mkContext { ctx_id : nat }.

(** ** Decidable equality *)

#[export] Instance NamespacedName_eq_dec : EqDecision NamespacedName.
Proof. solve_decision. Defined.
#[export] Instance OwnerReference_eq_dec : EqDecision OwnerReference.
Proof. solve_decision. Defined.
#[export] Instance ObjectMeta_eq_dec : EqDecision ObjectMeta.
Proof. solve_decision. Defined.
#[export] Instance Condition_eq_dec : EqDecision Condition.
Proof. solve_decision. Defined.
#[export] Instance MachineAddress_eq_dec : EqDecision MachineAddress.
Proof. solve_decision. Defined.
#[export] Instance APIEndpoint_eq_dec : EqDecision APIEndpoint.
Proof. solve_decision. Defined.
#[export] Instance IntOrString_eq_dec : EqDecision IntOrString.
Proof. solve_decision. Defined.
#[export] Instance ServicePort_eq_dec : EqDecision ServicePort.
Proof. solve_decision. Defined.
#[export] Instance ServiceSpec_eq_dec : EqDecision ServiceSpec.
Proof. solve_decision. Defined.
#[export] Instance NamespacedName_countable : Countable NamespacedName.
Proof.
  refine (inj_countable' (λ n, (nn_Namespace n, nn_Name n)) (λ p, mkNN p.1 p.2) _).
  by intros [].
Defined.
