(* ===== verification/Api.v ===== *)
(** * Api: api/v1alpha1

    The four custom resources, their constants and their CEL admission rules. *)

From S2P Require Import Prelude Go Kube.

(** ** common_types.go *)

Record InitializationStatus := mkInitializationStatus { Provisioned : option bool }.

Definition ClusterFinalizer : string := "kubeswiftcluster.infrastructure.cluster.x-k8s.io/finalizer".
Definition MachineFinalizer : string := "kubeswiftmachine.infrastructure.cluster.x-k8s.io/finalizer".
Definition ProviderIDScheme : string := "kubeswift".

(** ** conditions.go *)

Definition ReadyConditionType : string := "Ready".
Definition WaitingForControlPlaneEndpointReason : string := "WaitingForControlPlaneEndpoint".
Definition ClusterProvisionedReason : string := "Provisioned".
Definition WaitingForEndpointServiceReason : string := "WaitingForEndpointService".
Definition WaitingForClusterInfrastructureReason : string := "WaitingForClusterInfrastructure".
Definition WaitingForBootstrapDataReason : string := "WaitingForBootstrapData".
Definition VMProvisioningReason : string := "VMProvisioning".
Definition VMWaitingForReferencesReason : string := "VMWaitingForReferences".
Definition VMProvisionedReason : string := "VMProvisioned".
Definition VMFailedReason : string := "VMFailed".

(** ** groupversion_info.go *)

Definition GroupVersion : string * string := ("infrastructure.cluster.x-k8s.io", "v1alpha1").

(** ** kubeswiftcluster_types.go *)

Definition EndpointModeExternal : string := "External".
Definition EndpointModeService : string := "Service".
Definition EndpointModeRoutableIP : string := "RoutableIP".

Definition ControlPlanePoolLabelKey : string := "swift.kubeswift.io/pool".
Definition APIServerPortName : string := "apiserver".

Definition ControlPlaneServiceSelectorValue (clusterName : string) : string :=
  clusterName +:+ "-cp".

Record ControlPlaneServiceSpec := mkControlPlaneServiceSpec {
  cps_Type : string;
  cps_Port : Z;
  cps_Annotations : gomap string;
  cps_LoadBalancerClass : option string
}.

Record ControlPlaneEndpointSpec := mkControlPlaneEndpointSpec {
  cpe_Mode : string;
  cpe_Service : option ControlPlaneServiceSpec
}.

Record KubeSwiftClusterSpec := mkKubeSwiftClusterSpec {
  kscSpec_ControlPlaneEndpoint : option APIEndpoint;
  kscSpec_Endpoint : option ControlPlaneEndpointSpec;
  kscSpec_GuestNamespace : string
}.

Record KubeSwiftClusterStatus := mkKubeSwiftClusterStatus {
  kscStatus_Initialization : InitializationStatus;
  kscStatus_Conditions : list Condition
}.

Record KubeSwiftCluster := mkKubeSwiftCluster {
  ksc_ObjectMeta : ObjectMeta;
  ksc_Spec : KubeSwiftClusterSpec;
  ksc_Status : KubeSwiftClusterStatus
}.

(** ** kubeswiftmachine_types.go *)

Abbreviation MachineBackendType := string (only parsing).
Definition SwiftGuestBackendType : MachineBackendType := "SwiftGuest".
Definition GPUTierPCIe : string := "pcie".

Record SwiftGuestInterface := mkSwiftGuestInterface {
  ifc_Name : string;
  ifc_NetworkRef : string;
  ifc_Primary : bool
}.

Record SwiftGuestGPU := mkSwiftGuestGPU {
  gpu_ResourceClaimTemplateName : string;
  gpu_ResourceClaimName : string;
  gpu_RequestName : string;
  gpu_GPUProfileRef : string;
  gpu_Tier : string;
  gpu_Hugepages : string
}.

Record SwiftGuestBackend := mkSwiftGuestBackend {
  sgb_ImageRef : string;
  sgb_GuestClassRef : string;
  sgb_NetworkRef : string;
  sgb_NodeNetworkRef : string;
  sgb_Interfaces : slice SwiftGuestInterface;
  sgb_NodeName : string;
  sgb_GPU : option SwiftGuestGPU;
  sgb_StorageClassName : string
}.

Record MachineBackend := mkMachineBackend {
  mb_Type : MachineBackendType;
  mb_SwiftGuest : option SwiftGuestBackend
}.

Record KubeSwiftMachineSpec := mkKubeSwiftMachineSpec {
  ksmSpec_ProviderID : string;
  ksmSpec_Backend : MachineBackend
}.

Record KubeSwiftMachineStatus := mkKubeSwiftMachineStatus {
  ksmStatus_Initialization : InitializationStatus;
  ksmStatus_Addresses : list MachineAddress;
  ksmStatus_FailureDomain : string;
  ksmStatus_Conditions : list Condition
}.

Record KubeSwiftMachine := mkKubeSwiftMachine {
  ksm_ObjectMeta : ObjectMeta;
  ksm_Spec : KubeSwiftMachineSpec;
  ksm_Status : KubeSwiftMachineStatus
}.

(** ** Templates *)

Record KubeSwiftMachineTemplateResource := mkKubeSwiftMachineTemplateResource {
  kmtr_ObjectMeta : TemplateMeta;
  kmtr_Spec : KubeSwiftMachineSpec
}.
Record KubeSwiftMachineTemplateSpec := mkKubeSwiftMachineTemplateSpec {
  kmts_Template : KubeSwiftMachineTemplateResource
}.
Record KubeSwiftMachineTemplate := mkKubeSwiftMachineTemplate {
  kmt_ObjectMeta : ObjectMeta;
  kmt_Spec : KubeSwiftMachineTemplateSpec
}.

Record KubeSwiftClusterTemplateResource := mkKubeSwiftClusterTemplateResource {
  kctr_ObjectMeta : TemplateMeta;
  kctr_Spec : KubeSwiftClusterSpec
}.
Record KubeSwiftClusterTemplateSpec := mkKubeSwiftClusterTemplateSpec {
  kcts_Template : KubeSwiftClusterTemplateResource
}.
Record KubeSwiftClusterTemplate := mkKubeSwiftClusterTemplate {
  kct_ObjectMeta : ObjectMeta;
  kct_Spec : KubeSwiftClusterTemplateSpec
}.

(** ** Zero values and field assignments *)

Definition SwiftGuestBackend_zero : SwiftGuestBackend :=
  mkSwiftGuestBackend "" "" "" "" None "" None "".
Definition KubeSwiftMachine_zero : KubeSwiftMachine :=
  mkKubeSwiftMachine meta_zero
    (mkKubeSwiftMachineSpec "" (mkMachineBackend "" None))
    (mkKubeSwiftMachineStatus (mkInitializationStatus None) [] "" []).
Definition KubeSwiftCluster_zero : KubeSwiftCluster :=
  mkKubeSwiftCluster meta_zero
    (mkKubeSwiftClusterSpec None None "")
    (mkKubeSwiftClusterStatus (mkInitializationStatus None) []).

Definition ksm_set_Finalizers (m : KubeSwiftMachine) (f : list string) : KubeSwiftMachine :=
  mkKubeSwiftMachine (meta_set_Finalizers (ksm_ObjectMeta m) f) (ksm_Spec m) (ksm_Status m).
Definition ksm_set_ProviderID (m : KubeSwiftMachine) (id : string) : KubeSwiftMachine :=
  mkKubeSwiftMachine (ksm_ObjectMeta m)
    (mkKubeSwiftMachineSpec id (ksmSpec_Backend (ksm_Spec m))) (ksm_Status m).
Definition ksm_set_Provisioned (m : KubeSwiftMachine) (b : option bool) : KubeSwiftMachine :=
  let st := ksm_Status m in
  mkKubeSwiftMachine (ksm_ObjectMeta m) (ksm_Spec m)
    (mkKubeSwiftMachineStatus (mkInitializationStatus b) (ksmStatus_Addresses st)
       (ksmStatus_FailureDomain st) (ksmStatus_Conditions st)).
Definition ksm_set_Addresses (m : KubeSwiftMachine) (a : list MachineAddress) : KubeSwiftMachine :=
  let st := ksm_Status m in
  mkKubeSwiftMachine (ksm_ObjectMeta m) (ksm_Spec m)
    (mkKubeSwiftMachineStatus (ksmStatus_Initialization st) a
       (ksmStatus_FailureDomain st) (ksmStatus_Conditions st)).
Definition ksm_set_FailureDomain (m : KubeSwiftMachine) (d : string) : KubeSwiftMachine :=
  let st := ksm_Status m in
  mkKubeSwiftMachine (ksm_ObjectMeta m) (ksm_Spec m)
    (mkKubeSwiftMachineStatus (ksmStatus_Initialization st) (ksmStatus_Addresses st)
       d (ksmStatus_Conditions st)).

(** [GetConditions] and [SetConditions] of a machine. *)
Definition ksm_GetConditions (m : KubeSwiftMachine) : list Condition :=
  ksmStatus_Conditions (ksm_Status m).
Definition ksm_SetConditions (m : KubeSwiftMachine) (c : list Condition) : KubeSwiftMachine :=
  let st := ksm_Status m in
  mkKubeSwiftMachine (ksm_ObjectMeta m) (ksm_Spec m)
    (mkKubeSwiftMachineStatus (ksmStatus_Initialization st) (ksmStatus_Addresses st)
       (ksmStatus_FailureDomain st) c).

Definition ksc_set_Finalizers (c : KubeSwiftCluster) (f : list string) : KubeSwiftCluster :=
  mkKubeSwiftCluster (meta_set_Finalizers (ksc_ObjectMeta c) f) (ksc_Spec c) (ksc_Status c).
Definition ksc_set_ControlPlaneEndpoint (c : KubeSwiftCluster) (e : option APIEndpoint) :
    KubeSwiftCluster :=
  mkKubeSwiftCluster (ksc_ObjectMeta c)
    (mkKubeSwiftClusterSpec e (kscSpec_Endpoint (ksc_Spec c)) (kscSpec_GuestNamespace (ksc_Spec c)))
    (ksc_Status c).
Definition ksc_set_Provisioned (c : KubeSwiftCluster) (b : option bool) : KubeSwiftCluster :=
  mkKubeSwiftCluster (ksc_ObjectMeta c) (ksc_Spec c)
    (mkKubeSwiftClusterStatus (mkInitializationStatus b) (kscStatus_Conditions (ksc_Status c))).

(** [GetConditions] and [SetConditions] of a cluster. *)
Definition ksc_GetConditions (c : KubeSwiftCluster) : list Condition :=
  kscStatus_Conditions (ksc_Status c).
Definition ksc_SetConditions (c : KubeSwiftCluster) (l : list Condition) : KubeSwiftCluster :=
  mkKubeSwiftCluster (ksc_ObjectMeta c) (ksc_Spec c)
    (mkKubeSwiftClusterStatus (kscStatus_Initialization (ksc_Status c)) l).

(** ** Decidable equality: [reflect.DeepEqual] on machine specs

    Pointers compare by what they point to; a nil slice and an empty one differ. *)

#[export] Instance SwiftGuestInterface_eq_dec : EqDecision SwiftGuestInterface.
Proof. solve_decision. Defined.
#[export] Instance SwiftGuestGPU_eq_dec : EqDecision SwiftGuestGPU.
Proof. solve_decision. Defined.
#[export] Instance SwiftGuestBackend_eq_dec : EqDecision SwiftGuestBackend.
Proof. solve_decision. Defined.
#[export] Instance MachineBackend_eq_dec : EqDecision MachineBackend.
Proof. solve_decision. Defined.
#[export] Instance KubeSwiftMachineSpec_eq_dec : EqDecision KubeSwiftMachineSpec.
Proof. solve_decision. Defined.

Definition reflect_DeepEqual (a b : KubeSwiftMachineSpec) : bool := bool_decide (a = b).

(** ** Admission: the CEL rules of the SwiftGuest backend

    The rules see the submitted JSON, where an optional field may be absent. *)
Module CEL.

Record interface := mkInterface {
  name : string;
  networkRef : option string;
  primary : option bool
}.
Record backend := mkBackend {
  b_networkRef : option string;
  b_nodeNetworkRef : option string;
  b_interfaces : option (list interface)
}.

(** [!has(f) || size(f) == 0] *)
Definition no_text (o : option string) : bool :=
  match o with None => true | Some s => (String.length s =? 0)%nat end.
(** [has(f) && f] *)
Definition is_set (o : option bool) : bool :=
  match o with None => false | Some b => b end.

(** [exists_one]: the predicate holds of exactly one element. *)
Definition exists_one {A} (P : A → bool) (l : list A) : bool :=
  (length (List.filter P l) =? 1)%nat.

(** The rule on SwiftGuestInterface. *)
Definition rule_interface (i : interface) : bool :=
  is_set (primary i) || negb (no_text (networkRef i)).

(** The rule on the [interfaces] list, and its item rules. *)
Definition rule_interfaces (l : list interface) : bool :=
  (length l =? 0)%nat || exists_one (λ i, is_set (primary i)) l.

(** The rule on SwiftGuestBackend. *)
Definition rule_backend (b : backend) : bool :=
  match b_interfaces b with
  | None => true
  | Some l => (length l =? 0)%nat || (no_text (b_networkRef b) && no_text (b_nodeNetworkRef b))
  end.

(** All three, as the API server applies them (a list rule runs when the list
    is present). *)
Definition admits (b : backend) : bool :=
  rule_backend b &&
  match b_interfaces b with
  | None => true
  | Some l => rule_interfaces l && forallb rule_interface l
  end.

(** Decoding into the Go struct: absent fields take their zero value. *)
Definition decode_interface (i : interface) : SwiftGuestInterface :=
  mkSwiftGuestInterface (name i) (default "" (networkRef i)) (default false (primary i)).
Definition decode (base : SwiftGuestBackend) (b : backend) : SwiftGuestBackend :=
  mkSwiftGuestBackend (sgb_ImageRef base) (sgb_GuestClassRef base)
    (default "" (b_networkRef b)) (default "" (b_nodeNetworkRef b))
    (fmap (M:=option) (map decode_interface) (b_interfaces b))
    (sgb_NodeName base) (sgb_GPU base) (sgb_StorageClassName base).
End CEL.
