(* ===== verification/Heap.v ===== *)
(** * Heap: Go's memory, and what it means to copy a value deeply

    A typed store of cells, the places of Go's addressable variables (a cell, or a
    field or element inside one), and the loads, stores and allocations the
    generated deep copies make. A representation predicate says which value a Go
    variable denotes in a memory and which cells it owns; [copies] is the contract
    of a [DeepCopyInto], and the loops and guards the generator emits preserve it. *)

From S2P Require Import Prelude.
From stdpp Require Import fin_maps.

Abbreviation loc := positive.

(** A pointer to a [t], a slice of [t]s (into an array, from an offset) and a map: nil
    or not. *)
Definition ptr {T : Type} (t : T) : Type := option loc.
Record header := mkHeader { h_array : loc; h_off : nat; h_len : nat }.
Definition sl {T : Type} (t : T) : Type := option header.
Definition mapref : Type := option loc.

(** The types of a program: names, what a variable of each holds, zero values. Go
    leaves the order in which a map is ranged over open. *)
Class GoTypes := {
  ty : Type;
  ty_eq_dec :: EqDecision ty;
  den : ty → Type;
  zero : ∀ t, den t;
  map_order : gmap string string → list (string * string);
  map_order_perm m : map_order m ≡ₚ map_to_list m
}.

Section Heap.
Context `{G : GoTypes}.

(** ** Memory *)

(** What [new], [make([]T, n)] and [make(map[string]string)] allocate. *)
Inductive cell : Type :=
  | Obj (t : ty) (x : den t)
  | Arr (t : ty) (xs : list (den t))
  | Map (m : gmap string string).
#[local] Abbreviation heap := (gmap loc cell).

(** Code that uses the memory; [None] is a run-time panic. *)
Definition M (A : Type) : Type := heap → option (heap * A).
#[global] Instance M_ret : MRet M := λ A a h, Some (h, a).
#[global] Instance M_bind : MBind M := λ A B f m h,
  match m h with Some (h', a) => f a h' | None => None end.
Definition panic {A} : M A := λ _, None.

(** ** Places: [&x], [&x.f], [&x[i]] *)

Record place (R : Type) : Type := mkPlace {
  p_loc : loc;
  p_get : cell → option R;
  p_set : R → cell → cell
}.
#[global] Arguments mkPlace {R}.
#[global] Arguments p_loc {R}.
#[global] Arguments p_get {R}.
#[global] Arguments p_set {R}.

Definition cast {t t' : ty} (e : t' = t) (x : den t') : den t := eq_rect t' den x t e.
#[global] Arguments cast : simpl never.

Definition obj_at (t : ty) (l : loc) : place (den t) := mkPlace l
  (λ c, match c with
        | Obj t' x => match decide (t' = t) with left e => Some (cast e x) | right _ => None end
        | _ => None end)
  (λ y c, match c with
          | Obj t' _ => if decide (t' = t) then Obj t y else c
          | _ => c end).
Definition arr_at (t : ty) (l : loc) : place (list (den t)) := mkPlace l
  (λ c, match c with
        | Arr t' xs => match decide (t' = t) with
                       | left e => Some (map (cast e) xs) | right _ => None end
        | _ => None end)
  (λ ys c, match c with
           | Arr t' _ => if decide (t' = t) then Arr t ys else c
           | _ => c end).
Definition map_at (l : loc) : place (gmap string string) := mkPlace l
  (λ c, match c with Map m => Some m | _ => None end)
  (λ m c, match c with Map _ => Map m | _ => c end).

Record field (S R : Type) : Type := mkField { f_get : S → R; f_set : R → S → S }.
#[global] Arguments mkField {S R}.
#[global] Arguments f_get {S R}.
#[global] Arguments f_set {S R}.

Definition dot {S R} (p : place S) (f : field S R) : place R := mkPlace (p_loc p)
  (λ c, f_get f <$> p_get p c)
  (λ y c, match p_get p c with Some s => p_set p (f_set f y s) c | None => c end).
Definition nth_place {R} (p : place (list R)) (i : nat) : place R := mkPlace (p_loc p)
  (λ c, p_get p c ≫= (.!! i))
  (λ y c, match p_get p c with Some l => p_set p (<[i := y]> l) c | None => c end).

(** ** Loads, stores, allocations *)

Definition load {R} (p : place R) : M R := λ h,
  c ← h !! p_loc p; r ← p_get p c; Some (h, r).
Definition store {R} (p : place R) (y : R) : M unit := λ h,
  c ← h !! p_loc p; _ ← p_get p c; Some (<[p_loc p := p_set p y c]> h, tt).

(** A cell that is not in use. *)
Definition fresh_loc (h : heap) : loc := map_fold (λ l _ m, Pos.max (Pos.succ l) m) 1%positive h.
Definition alloc (c : cell) : M loc := λ h, let l := fresh_loc h in Some (<[l := c]> h, l).

Definition deref {A} (o : option A) : M A := match o with Some a => mret a | None => panic end.
Definition new (t : ty) : M (ptr t) := l ← alloc (Obj t (zero t)); mret (Some l).
Definition make_slice (t : ty) (n : nat) : M (sl t) :=
  l ← alloc (Arr t (replicate n (zero t))); mret (Some (mkHeader l 0 n)).
Definition make_map : M mapref := l ← alloc (Map ∅); mret (Some l).

(** [&s[i]], which panics out of range. *)
Definition index (t : ty) (s : sl t) (i : nat) : M (place (den t)) :=
  hd ← deref s;
  if (i <? h_len hd)%nat then mret (nth_place (arr_at t (h_array hd)) (h_off hd + i)) else panic.
Definition len {t : ty} (s : sl t) : nat := match s with Some hd => h_len hd | None => 0 end.

(** [m[k] = v], which panics on a nil map, and the pairs [range m] visits. *)
Definition map_assign (m : mapref) (k v : string) : M unit :=
  l ← deref m; e ← load (map_at l); store (map_at l) (<[k := v]> e).
Definition map_range (m : mapref) : M (list (string * string)) :=
  match m with None => mret [] | Some l => e ← load (map_at l); mret (map_order e) end.

Fixpoint each {A} (l : list A) (body : A → M unit) : M unit :=
  match l with [] => mret tt | a :: l' => body a;; each l' body end.

(** ** The statements the generator emits *)

(** [*out = *in] *)
Definition assign {R} (in_ out : place R) : M unit := v ← load in_; store out v.

(** [if in.P != nil { in, out := &in.P, &out.P; *out = new(T); ( *in).into( *out) }] *)
Definition dup_ptr (t : ty) (into : place (den t) → place (den t) → M unit)
    (in_ out : place (ptr t)) : M unit :=
  p ← load in_;
  match p with
  | None => mret tt
  | Some _ =>
    q ← new t; store out q;;
    from ← load in_; to ← load out;
    from ← deref from; to ← deref to;
    into (obj_at t from) (obj_at t to)
  end.

(** [if in.S != nil { in, out := &in.S, &out.S; *out = make([]T, len( *in));
    for i := range *in { ( *in)[i].into(&( *out)[i]) } }]; with [assign] for [into],
    the loop is [copy( *out, *in)]. *)
Definition dup_slice (t : ty) (into : place (den t) → place (den t) → M unit)
    (in_ out : place (sl t)) : M unit :=
  s ← load in_;
  match s with
  | None => mret tt
  | Some _ =>
    s ← load in_; d ← make_slice t (len s); store out d;;
    each (seq 0 (len s)) (λ i,
      s ← load in_; d ← load out;
      from ← index t s i; to ← index t d i;
      into from to)
  end.

(** [if in.M != nil { in, out := &in.M, &out.M; *out = make(map[string]string, len( *in));
    for key, val := range *in { ( *out)[key] = val } }] *)
Definition dup_map (in_ out : place mapref) : M unit :=
  m ← load in_;
  match m with
  | None => mret tt
  | Some _ =>
    d ← make_map; store out d;;
    m ← load in_; kvs ← map_range m;
    each kvs (λ '(key, val), d ← load out; map_assign d key val)
  end.

(** [func (in *T) DeepCopy() *T]: [if in == nil { return nil }; out := new(T);
    in.DeepCopyInto(out); return out]. *)
Definition deep_copy (t : ty) (into : place (den t) → place (den t) → M unit) (in_ : ptr t) :
    M (ptr t) :=
  match in_ with
  | None => mret None
  | Some from =>
    out ← new t; to ← deref out;
    into (obj_at t from) (obj_at t to);; mret out
  end.

End Heap.

Abbreviation heap := (gmap loc cell).

Notation "p .> f" := (dot p f) (at level 40, left associativity).
