(* ===== verification/HeapFacts.v ===== *)
(** * HeapFacts: the contract of a deep copy, and that the emitted statements keep it *)

From S2P Require Import Prelude Heap.
From stdpp Require Import fin_maps.

Section HeapFacts.
Context `{G : GoTypes}.

(** ** Places *)

Record wf_place {R} (p : place R) : Prop := {
  get_set c r x : p_get p c = Some r → p_get p (p_set p x c) = Some x;
  set_set c x y : p_set p y (p_set p x c) = p_set p y c;
  set_get c r : p_get p c = Some r → p_set p r c = c
}.
Record wf_field {S R} (f : field S R) : Prop := {
  fget_set s x : f_get f (f_set f x s) = x;
  fset_set s x y : f_set f y (f_set f x s) = f_set f y s;
  fset_get s : f_set f (f_get f s) s = s
}.

Lemma cast_refl t (e : t = t) (x : den t) : cast e x = x.
Proof. unfold cast. by rewrite <- Eqdep_dec.eq_rect_eq_dec by apply ty_eq_dec. Qed.

Lemma obj_at_get t l x : p_get (obj_at t l) (Obj t x) = Some x.
Proof. simpl. destruct (decide (t = t)) as [e|]; [|done]. by rewrite cast_refl. Qed.

Lemma obj_at_set t l x y : p_set (obj_at t l) y (Obj t x) = Obj t y.
Proof. simpl. by rewrite decide_True. Qed.

Lemma obj_at_inv t l c x : p_get (obj_at t l) c = Some x → c = Obj t x.
Proof.
  destruct c as [t' x'|t' xs|m]; simpl; [|done..].
  destruct (decide (t' = t)) as [e|]; [|done]. destruct e. intros [= <-]. by rewrite cast_refl.
Qed.

Lemma map_cast_refl t (e : t = t) (xs : list (den t)) : map (cast e) xs = xs.
Proof. induction xs as [|x xs IH]; simpl; [done|]. by rewrite cast_refl, IH. Qed.

Lemma arr_at_get t l xs : p_get (arr_at t l) (Arr t xs) = Some xs.
Proof. simpl. destruct (decide (t = t)) as [e|]; [|done]. by rewrite map_cast_refl. Qed.

Lemma arr_at_set t l xs ys : p_set (arr_at t l) ys (Arr t xs) = Arr t ys.
Proof. simpl. by rewrite decide_True. Qed.

Lemma arr_at_inv t l c xs : p_get (arr_at t l) c = Some xs → c = Arr t xs.
Proof.
  destruct c as [t' x'|t' ys|m]; simpl; [done| |done].
  destruct (decide (t' = t)) as [e|]; [|done]. destruct e. intros [= <-].
  by rewrite map_cast_refl.
Qed.

Lemma wf_obj_at t l : wf_place (obj_at t l).
Proof.
  split.
  - intros c r x ->%obj_at_inv. by rewrite obj_at_set, obj_at_get.
  - intros [t' x'|t' ys|m] x y; simpl; [|done..]. by repeat case_decide.
  - intros c r ->%obj_at_inv. apply obj_at_set.
Qed.

Lemma wf_arr_at t l : wf_place (arr_at t l).
Proof.
  split.
  - intros c r x ->%arr_at_inv. by rewrite arr_at_set, arr_at_get.
  - intros [t' x'|t' ys|m] x y; simpl; [done| |done]. by repeat case_decide.
  - intros c r ->%arr_at_inv. apply arr_at_set.
Qed.

Lemma wf_map_at l : wf_place (map_at l).
Proof. split; [by intros []..|]. by intros [] ? [= ->]. Qed.

Lemma wf_dot {S R} (p : place S) (f : field S R) :
  wf_place p → wf_field f → wf_place (p .> f).
Proof.
  intros Hp Hf. split.
  - intros c r x. simpl. destruct (p_get p c) as [s|] eqn:Hs; [|done]. intros _.
    rewrite (get_set p Hp c s) by done. simpl. by rewrite (fget_set f Hf).
  - intros c x y. simpl. destruct (p_get p c) as [s|] eqn:Hs; [|by rewrite Hs].
    rewrite (get_set p Hp c s), (set_set p Hp), (fset_set f Hf) by done. done.
  - intros c r. simpl. destruct (p_get p c) as [s|] eqn:Hs; [|done]. intros [= <-].
    by rewrite (fset_get f Hf), (set_get p Hp).
Qed.

Lemma wf_nth {R} (p : place (list R)) i : wf_place p → wf_place (nth_place p i).
Proof.
  intros Hp. split.
  - intros c r x. simpl. destruct (p_get p c) as [l|] eqn:Hl; [|done]. simpl. intros Hi.
    rewrite (get_set p Hp c l) by done. simpl. apply list_lookup_insert_eq. by eapply lookup_lt_Some.
  - intros c x y. simpl. destruct (p_get p c) as [l|] eqn:Hl; [|by rewrite Hl].
    rewrite (get_set p Hp c l), (set_set p Hp) by done. by rewrite list_insert_insert_eq.
  - intros c r. simpl. destruct (p_get p c) as [l|] eqn:Hl; [|done]. simpl. intros Hi.
    by rewrite list_insert_id, (set_get p Hp).
Qed.

(** ** Memories *)

(** What a place holds. *)
Definition holds {R} (p : place R) (h : heap) (r : R) : Prop :=
  ∃ c, h !! p_loc p = Some c ∧ p_get p c = Some r.

(** Memory was only allocated, and changed in one cell. *)
Definition only_at (l : loc) (h h' : heap) : Prop :=
  dom h ⊆ dom h' ∧ ∀ l', l' ∈ dom h → l' ≠ l → h' !! l' = h !! l'.

(** ... there, only in the place, which now holds [r]. *)
Definition writes {R} (p : place R) (r : R) (h h' : heap) : Prop :=
  only_at (p_loc p) h h' ∧ ∃ c, h !! p_loc p = Some c ∧ h' !! p_loc p = Some (p_set p r c).

Lemma only_at_trans l h1 h2 h3 : only_at l h1 h2 → only_at l h2 h3 → only_at l h1 h3.
Proof.
  intros [D1 H1] [D2 H2]. split; [set_solver|]. intros l' Hl Hn.
  rewrite H2 by set_solver. by apply H1.
Qed.

Lemma holds_frame {R} (p : place R) l h h' r :
  holds p h r → only_at l h h' → p_loc p ≠ l → holds p h' r.
Proof.
  intros (c & Hc & Hr) [_ H] Hn. exists c. split; [|done].
  rewrite H; [done|by apply elem_of_dom|done].
Qed.

Lemma writes_holds {R} (p : place R) h h' y r :
  wf_place p → holds p h y → writes p r h h' → holds p h' r.
Proof.
  intros Hp (c & Hc & Hy) (_ & c' & Hc' & Hs). exists (p_set p r c').
  split; [done|]. apply (get_set p Hp c' y). congruence.
Qed.

Lemma writes_dom {R} (p : place R) r h h' : writes p r h h' → dom h ⊆ dom h'.
Proof. by intros [[H _] _]. Qed.

Lemma writes_trans {R} (p : place R) r1 r2 h1 h2 h3 :
  wf_place p → writes p r1 h1 h2 → writes p r2 h2 h3 → writes p r2 h1 h3.
Proof.
  intros Hp (O1 & c1 & Hc1 & Hs1) (O2 & c2 & Hc2 & Hs2).
  split; [by eapply only_at_trans|]. exists c1. split; [done|].
  rewrite Hs2. f_equal. assert (c2 = p_set p r1 c1) as -> by congruence. apply (set_set p Hp).
Qed.

(** A change of a field is a change of the struct, from the outside. *)
Lemma writes_dot {S R} (p : place S) (f : field S R) h h1 h2 (y s : S) (r : R) :
  wf_place p → holds p h y → writes p s h h1 → writes (p .> f) r h1 h2 →
  writes p (f_set f r s) h h2.
Proof.
  intros Hp (c & Hc & Hy) (O1 & c1 & Hc1 & Hs1) (O2 & c2 & Hc2 & Hs2). simpl in *.
  split; [by eapply only_at_trans|]. exists c1. split; [done|].
  assert (c1 = c) as -> by congruence. assert (c2 = p_set p s c) as -> by congruence.
  rewrite Hs2. f_equal. rewrite (get_set p Hp c y) by done. apply (set_set p Hp).
Qed.

Lemma writes_nth {R} (p : place (list R)) i h h1 h2 (y s : list R) (r : R) :
  wf_place p → holds p h y → writes p s h h1 → writes (nth_place p i) r h1 h2 →
  writes p (<[i := r]> s) h h2.
Proof.
  intros Hp (c & Hc & Hy) (O1 & c1 & Hc1 & Hs1) (O2 & c2 & Hc2 & Hs2). simpl in *.
  split; [by eapply only_at_trans|]. exists c1. split; [done|].
  assert (c1 = c) as -> by congruence. assert (c2 = p_set p s c) as -> by congruence.
  rewrite Hs2. f_equal. rewrite (get_set p Hp c y) by done. apply (set_set p Hp).
Qed.

Lemma holds_dot {S R} (p : place S) (f : field S R) h s :
  holds p h s → holds (p .> f) h (f_get f s).
Proof. intros (c & Hc & Hs). exists c. split; [done|]. simpl. by rewrite Hs. Qed.

Lemma holds_nth {R} (p : place (list R)) i h l r :
  holds p h l → l !! i = Some r → holds (nth_place p i) h r.
Proof. intros (c & Hc & Hs) Hi. exists c. split; [done|]. simpl. by rewrite Hs. Qed.

Lemma holds_obj t l h x : h !! l = Some (Obj t x) → holds (obj_at t l) h x.
Proof. intros H. exists (Obj t x). split; [done|apply obj_at_get]. Qed.

Lemma holds_arr t l h xs : h !! l = Some (Arr t xs) → holds (arr_at t l) h xs.
Proof. intros H. exists (Arr t xs). split; [done|apply arr_at_get]. Qed.

Lemma holds_map l h m : h !! l = Some (Map m) → holds (map_at l) h m.
Proof. intros H. by exists (Map m). Qed.

(** ** Execution *)

Lemma bind_run {A B} (m : M A) (f : A → M B) h h' a :
  m h = Some (h', a) → (m ≫= f) h = f a h'.
Proof. intros H. unfold mbind, M_bind. by rewrite H. Qed.

Lemma load_run {R} (p : place R) h r : holds p h r → load p h = Some (h, r).
Proof. intros (c & Hc & Hr). unfold load. rewrite Hc. simpl. by rewrite Hr. Qed.

Lemma store_run {R} (p : place R) h y r :
  holds p h y → ∃ h', store p r h = Some (h', tt) ∧ writes p r h h' ∧ dom h' = dom h.
Proof.
  intros (c & Hc & Hy). unfold store. rewrite Hc. simpl. rewrite Hy. simpl.
  assert (p_loc p ∈ dom h) as Hd by (by apply elem_of_dom).
  eexists. split; [done|]. split; [|rewrite dom_insert_L; set_solver].
  split; [split; [rewrite dom_insert_L; set_solver|]|].
  - intros l' _ Hn. by rewrite lookup_insert_ne.
  - exists c. split; [done|]. by rewrite lookup_insert_eq.
Qed.

Lemma fresh_loc_fresh (h : heap) : fresh_loc h ∉ dom h.
Proof.
  assert (∀ l, l ∈ dom h → (l < fresh_loc h)%positive) as Hlt; [|intros H%Hlt; lia].
  unfold fresh_loc. revert h. apply (map_fold_weak_ind (λ m (h : heap), ∀ l, l ∈ dom h → (l < m)%positive)).
  - intros l Hl. set_solver.
  - intros k c h m Hk IH l. rewrite dom_insert_L, elem_of_union, elem_of_singleton.
    intros [->|Hl%IH]; lia.
Qed.

Lemma alloc_run c h :
  ∃ l h', alloc c h = Some (h', l) ∧ (l ∉ dom h) ∧ h' = <[l := c]> h ∧ h ⊆ h'.
Proof.
  exists (fresh_loc h), (<[fresh_loc h := c]> h). pose proof (fresh_loc_fresh h) as Hf.
  split; [done|]. split; [done|]. split; [done|]. apply insert_subseteq. by apply not_elem_of_dom.
Qed.

Lemma extends_only_at l (h h' : heap) : h ⊆ h' → only_at l h h'.
Proof.
  intros H. split; [by apply subseteq_dom|]. intros l' [c Hc]%elem_of_dom _.
  rewrite Hc. by eapply lookup_weaken.
Qed.

(** [only_at] off the cells of the original memory extends it. *)
Lemma only_at_extends l (h h1 h' : heap) : h ⊆ h1 → l ∉ dom h → only_at l h1 h' → h ⊆ h'.
Proof.
  intros H Hl [_ Ho]. apply map_subseteq_spec. intros l' c Hc.
  assert (l' ∈ dom h) as Hd by (by apply elem_of_dom).
  rewrite Ho; [by eapply lookup_weaken| |set_solver].
  apply (subseteq_dom _ _ H), Hd.
Qed.

Lemma writes_refl {R} (p : place R) h r : wf_place p → holds p h r → writes p r h h.
Proof.
  intros Hp (c & Hc & Hr). split; [by apply extends_only_at|]. exists c. split; [done|].
  by rewrite (set_get p Hp c r).
Qed.

(** Allocations before, and changes of a new cell after, are not seen from outside. *)
Lemma writes_before {R} (p : place R) r y h h1 h2 :
  h ⊆ h1 → holds p h y → writes p r h1 h2 → writes p r h h2.
Proof.
  intros He (c & Hc & Hy) [O (c1 & Hc1 & Hs)].
  split; [by eapply only_at_trans; [apply extends_only_at|]|].
  exists c. split; [done|]. rewrite Hs. do 2 f_equal.
  pose proof (lookup_weaken _ _ _ _ Hc He). congruence.
Qed.

Lemma writes_after {R} (p : place R) r l h h1 h2 :
  writes p r h h1 → only_at l h1 h2 → l ∉ dom h → l ≠ p_loc p → writes p r h h2.
Proof.
  intros [[D O] (c & Hc & Hs)] [D2 O2] Hl Hn. split; [split; [set_solver|]|].
  - intros l' Hd Hne. rewrite O2 by set_solver. by apply O.
  - exists c. split; [done|]. rewrite O2; [done| |done]. apply D. by apply elem_of_dom.
Qed.

Lemma holds_extends {R} (p : place R) h h' r : holds p h r → h ⊆ h' → holds p h' r.
Proof. intros (c & Hc & Hr) He. exists c. split; [by eapply lookup_weaken|done]. Qed.

Lemma holds_dom {R} (p : place R) h r : holds p h r → p_loc p ∈ dom h.
Proof. intros (c & Hc & _). by apply elem_of_dom. Qed.

End HeapFacts.

(** Run the first statement of a sequence, given what it does. *)
Ltac mrun H := rewrite (bind_run _ _ _ _ _ H).
