(* ===== verification/HeapCopies.v ===== *)
(** * HeapCopies: representation predicates, and the contract of a [DeepCopyInto]

    [copies P into] says that [into in out] terminates without a panic, leaves in
    [*out] a variable that denotes what [*in] denotes, all of whose cells are new,
    and changes nothing else. *)

From S2P Require Import Prelude Heap HeapFacts.
From stdpp Require Import fin_maps.

Section HeapCopies.
Context `{G : GoTypes}.

(** ** Representation predicates *)

(** In a memory, a variable's contents denote a value and own a set of cells. *)
Definition rep (R V : Type) : Type := heap → R → V → gset loc → Prop.

Class Framed {R V} (P : rep R V) : Prop := {
  framed h h' r v F : P h r v F → (∀ l, l ∈ F → h' !! l = h !! l) → P h' r v F;
  owned h r v F : P h r v F → F ⊆ dom h
}.

Definition rep_plain {R} : rep R R := λ h r v F, r = v ∧ F = ∅.

Definition rep_ptr {V} (t : ty) (P : rep (den t) V) : rep (ptr t) (option V) := λ h p v F,
  match p, v with
  | None, None => F = ∅
  | Some l, Some w => ∃ x F', h !! l = Some (Obj t x) ∧ P h x w F' ∧ F = {[l]} ∪ F'
  | _, _ => False
  end.

Fixpoint rep_elems {R V} (P : rep R V) (h : heap) (rs : list R) (vs : list V) (F : gset loc) :
    Prop :=
  match rs, vs with
  | [], [] => F = ∅
  | r :: rs', v :: vs' => ∃ F1 F2, P h r v F1 ∧ rep_elems P h rs' vs' F2 ∧ F = F1 ∪ F2
  | _, _ => False
  end.

Definition window {A} (hd : header) (xs : list A) : list A := take (h_len hd) (drop (h_off hd) xs).

Definition rep_slice {V} (t : ty) (P : rep (den t) V) : rep (sl t) (option (list V)) := λ h s v F,
  match s, v with
  | None, None => F = ∅
  | Some hd, Some vs => ∃ xs F',
      h !! h_array hd = Some (Arr t xs) ∧ (h_off hd + h_len hd ≤ length xs)%nat ∧
      rep_elems P h (window hd xs) vs F' ∧ F = {[h_array hd]} ∪ F'
  | _, _ => False
  end.

Definition rep_map : rep mapref (option (gmap string string)) := λ h m v F,
  match m, v with
  | None, None => F = ∅
  | Some l, Some e => h !! l = Some (Map e) ∧ F = {[l]}
  | _, _ => False
  end.

#[export] Instance rep_plain_framed R : Framed (@rep_plain R).
Proof. split; [done|]. intros h r v F [_ ->]. set_solver. Qed.

#[export] Instance rep_ptr_framed {V} t (P : rep (den t) V) : Framed P → Framed (rep_ptr t P).
Proof.
  intros HP. split.
  - intros h h' [l|] [w|] F; simpl; try done. intros (x & F' & Hl & Hx & ->) Hf.
    exists x, F'. rewrite Hf by set_solver. split_and!; [done| |done].
    eapply (framed h); [done|]. intros l' Hl'. apply Hf. set_solver.
  - intros h [l|] [w|] F; simpl; try done; [|set_solver]. intros (x & F' & Hl & Hx & ->).
    pose proof (owned _ _ _ _ Hx). apply union_subseteq. split; [|done].
    by apply singleton_subseteq_l, elem_of_dom.
Qed.

Lemma rep_elems_framed {R V} (P : rep R V) h h' rs vs F :
  Framed P → rep_elems P h rs vs F → (∀ l, l ∈ F → h' !! l = h !! l) → rep_elems P h' rs vs F.
Proof.
  intros HP. revert vs F. induction rs as [|r rs IH]; intros [|v vs] F; simpl; try done.
  intros (F1 & F2 & H1 & H2 & ->) Hf. exists F1, F2. split_and!; [| |done].
  - eapply (framed h); [done|]. set_solver.
  - apply IH; [done|]. set_solver.
Qed.

Lemma rep_elems_owned {R V} (P : rep R V) h rs vs F :
  Framed P → rep_elems P h rs vs F → F ⊆ dom h.
Proof.
  intros HP. revert vs F. induction rs as [|r rs IH]; intros [|v vs] F; simpl; try done;
    [set_solver|].
  intros (F1 & F2 & H1%owned & H2%IH & ->). set_solver.
Qed.

#[export] Instance rep_slice_framed {V} t (P : rep (den t) V) : Framed P → Framed (rep_slice t P).
Proof.
  intros HP. split.
  - intros h h' [hd|] [vs|] F; simpl; try done. intros (xs & F' & Hl & Hn & Hx & ->) Hf.
    exists xs, F'. rewrite Hf by set_solver. split_and!; try done.
    eapply rep_elems_framed; [done..|]. set_solver.
  - intros h [hd|] [vs|] F; simpl; try done; [|set_solver].
    intros (xs & F' & Hl & Hn & Hx%rep_elems_owned & ->); [|done].
    apply union_subseteq. split; [|done]. by apply singleton_subseteq_l, elem_of_dom.
Qed.

#[export] Instance rep_map_framed : Framed rep_map.
Proof.
  split.
  - intros h h' [l|] [e|] F; simpl; try done. intros [Hl ->] Hf. by rewrite Hf by set_solver.
  - intros h [l|] [e|] F; simpl; try done; [|set_solver]. intros [Hl ->].
    by apply singleton_subseteq_l, elem_of_dom.
Qed.

Lemma framed_off {R V} (P : rep R V) `{!Framed P} l h h' r v F :
  P h r v F → only_at l h h' → l ∉ F → P h' r v F.
Proof.
  intros HP [_ O] Hl. eapply (framed h); [done|]. intros l' Hl'.
  apply O; [by eapply owned|]. by intros ->.
Qed.

Lemma framed_extends {R V} (P : rep R V) `{!Framed P} h h' r v F :
  P h r v F → h ⊆ h' → P h' r v F.
Proof.
  intros HP He. eapply (framed h); [done|]. intros l Hl.
  apply (owned _ _ _ _ HP), elem_of_dom in Hl as [c Hc]. rewrite Hc. by eapply lookup_weaken.
Qed.

(** ** The contracts *)

(** What [into in out] does, where [*out] holds [y]. *)
Definition duplicates {R V} (P : rep R V) (into : place R → place R → M unit)
    (in_ out : place R) (h : heap) (v : V) : Prop :=
  ∃ h' r' F', into in_ out h = Some (h', tt) ∧ writes out r' h h' ∧ P h' r' v F' ∧ F' ## dom h.

Definition copies {R V} (P : rep R V) (into : place R → place R → M unit) : Prop :=
  ∀ in_ out h r v F y,
    wf_place in_ → wf_place out → holds in_ h r → holds out h y →
    P h r v F → p_loc out ≠ p_loc in_ → p_loc out ∉ F →
    duplicates P into in_ out h v.

(** A statement that runs after [*out = *in]: both variables hold the same. *)
Definition refreshes {R V} (P : rep R V) (into : place R → place R → M unit) : Prop :=
  ∀ in_ out h r v F,
    wf_place in_ → wf_place out → holds in_ h r → holds out h r →
    P h r v F → p_loc out ≠ p_loc in_ → p_loc out ∉ F →
    duplicates P into in_ out h v.

Lemma copies_refreshes {R V} (P : rep R V) into : copies P into → refreshes P into.
Proof. intros H in_ out h r v F; intros. by eapply H. Qed.

Lemma assign_run {R} (in_ out : place R) h r y :
  holds in_ h r → holds out h y →
  ∃ h', assign in_ out h = Some (h', tt) ∧ writes out r h h' ∧ dom h' = dom h.
Proof.
  intros Hi Ho. destruct (store_run out h y r Ho) as (h' & Hs & Hw & Hd). exists h'.
  split; [|done]. unfold assign. by rewrite (bind_run _ _ _ _ _ (load_run _ _ _ Hi)).
Qed.

Lemma copies_assign {R} : copies (@rep_plain R) assign.
Proof.
  intros in_ out h r v F y _ _ Hi Ho [-> ->] _ _.
  destruct (assign_run in_ out h v y Hi Ho) as (h' & Hr & Hw & _).
  exists h', v, ∅. split_and!; [done..|set_solver].
Qed.

(** A field, within a struct whose fields are refreshed one after the other: [s] is the
    original, [cur] what the copy holds by now. *)
Lemma refresh_field {S R V} (P : rep R V) (f : field S R) into (in_ out : place S)
    h0 h s y cur v F :
  refreshes P into → Framed P → wf_field f →
  wf_place in_ → wf_place out → holds in_ h0 s → holds out h0 y →
  P h0 (f_get f s) v F → p_loc out ≠ p_loc in_ → p_loc out ∉ F →
  writes out cur h0 h → f_get f cur = f_get f s →
  ∃ h' r' F', into (in_ .> f) (out .> f) h = Some (h', tt) ∧
    writes out (f_set f r' cur) h0 h' ∧ P h' r' v F' ∧ F' ## dom h0 ∧ only_at (p_loc out) h h'.
Proof.
  intros Hinto HP Hf Wi Wo Hi Ho Hr Hne HF Hw Hcur.
  destruct (Hinto (in_ .> f) (out .> f) h (f_get f s) v F) as (h' & r' & F' & Hrun & Hw' & HP' & HF');
    [by apply wf_dot..| | | |done|done|].
  - apply holds_dot. eapply holds_frame; [done|apply Hw|done].
  - rewrite <- Hcur. apply holds_dot. by eapply writes_holds.
  - eapply framed_off; [done|done|apply Hw|done].
  - exists h', r', F'. split_and!; [done| |done| |apply Hw'].
    + by eapply writes_dot.
    + pose proof (writes_dom _ _ _ _ Hw). set_solver.
Qed.

(** The same, a statement at a time. *)
Definition ends (m : M unit) (h : heap) (Q : heap → Prop) : Prop :=
  ∃ h', m h = Some (h', tt) ∧ Q h'.

Lemma duplicates_ends {R V} (P : rep R V) into (in_ out : place R) h v :
  ends (into in_ out) h (λ h', ∃ r' F', writes out r' h h' ∧ P h' r' v F' ∧ F' ## dom h) →
  duplicates P into in_ out h v.
Proof. intros (h' & Hr & r' & F' & HP). by exists h', r', F'. Qed.

Lemma ends_seq (m k : M unit) h h1 Q :
  m h = Some (h1, tt) → ends k h1 Q → ends (m;; k) h Q.
Proof. intros Hm (h' & Hk & HQ). exists h'. split; [|done]. by mrun Hm. Qed.

Lemma ends_seq_iff (m k : M unit) h Q : ends m h (λ h', ends k h' Q) → ends (m;; k) h Q.
Proof. intros (h' & Hm & Hk). by eapply ends_seq. Qed.

Lemma ends_refresh {S R V} (P : rep R V) (f : field S R) into (in_ out : place S)
    h0 h s y cur v F Q :
  refreshes P into → P h0 (f_get f s) v F → Framed P → wf_field f →
  wf_place in_ → wf_place out → holds in_ h0 s → holds out h0 y →
  p_loc out ≠ p_loc in_ → p_loc out ∉ F →
  writes out cur h0 h → f_get f cur = f_get f s →
  (∀ h' r' F', writes out (f_set f r' cur) h0 h' → P h' r' v F' → F' ## dom h0 →
    only_at (p_loc out) h h' → Q h') →
  ends (into (in_ .> f) (out .> f)) h Q.
Proof.
  intros ???????????? HQ.
  destruct (refresh_field P f into in_ out h0 h s y cur v F) as (h' & r' & F' & Hrun & Hw & HP & Hd & O);
    [done..|]. exists h'. eauto.
Qed.

(** The cells of what was refreshed before are not touched later. *)
Lemma refreshed_stays {S R V} (P : rep R V) `{!Framed P} (out : place S) h0 h h' y r v F :
  P h r v F → F ## dom h0 → holds out h0 y → only_at (p_loc out) h h' → P h' r v F.
Proof.
  intros HP HF Ho%holds_dom Hw. eapply framed_off; [done|done|done|]. set_solver.
Qed.

(** ** Pointers *)

Lemma deref_run {A} (a : A) h : deref (Some a) h = Some (h, a).
Proof. done. Qed.

Lemma new_run t h :
  ∃ l h', new t h = Some (h', Some l) ∧ (l ∉ dom h) ∧ h ⊆ h' ∧ h' !! l = Some (Obj t (zero t)).
Proof.
  destruct (alloc_run (Obj t (zero t)) h) as (l & h' & Ha & Hl & -> & He).
  eexists l, _. split_and!; [|done|done|apply lookup_insert_eq]. unfold new. by mrun Ha.
Qed.

(** A copy into a new variable. *)
Lemma copy_to_new {V} t (P : rep (den t) V) `{!Framed P} into h l k x y v F :
  copies P into → h !! l = Some (Obj t x) → h !! k = Some (Obj t y) → P h x v F →
  k ≠ l → k ∉ F →
  ∃ h' x' F', into (obj_at t l) (obj_at t k) h = Some (h', tt) ∧ only_at k h h' ∧
    h' !! k = Some (Obj t x') ∧ P h' x' v F' ∧ F' ## dom h.
Proof.
  intros Hinto Hl Hk Hx Hne HF.
  destruct (Hinto (obj_at t l) (obj_at t k) h x v F y) as (h' & x' & F' & Hr & Hw & HP & Hd);
    [by first [apply wf_obj_at|apply holds_obj|idtac]..|].
  exists h', x', F'. destruct Hw as [Ho (c & Hc & Hs)]. split_and!; [done..| |done|done].
  simpl in Hc. assert (c = Obj t y) as -> by congruence. etrans; [exact Hs|].
  by rewrite obj_at_set.
Qed.

Lemma refreshes_dup_ptr {V} t (P : rep (den t) V) into :
  copies P into → Framed P → refreshes (rep_ptr t P) (dup_ptr t into).
Proof.
  intros Hinto HFr in_ out h [l|] v F Wi Wo Hi Ho Hr Hne HF; unfold duplicates, dup_ptr;
    mrun (load_run _ _ _ Hi).
  2: { exists h, None, F. destruct v; [done|]. simpl in Hr. subst F.
       split_and!; [done|by apply writes_refl|done|set_solver]. }
  destruct v as [w|]; [|done]. destruct Hr as (x & F1 & Hl & Hx & ->).
  destruct (new_run t h) as (q & h1 & Hn & Hq & He & Hz). mrun Hn.
  destruct (store_run out h1 (Some l) (Some q)) as (h2 & Hs & Hw & Hd2); [by eapply holds_extends|].
  mrun Hs. pose proof (holds_dom _ _ _ Ho) as Hod. pose proof (owned _ _ _ _ Hx) as HF1.
  assert (p_loc out ≠ q) as Hoq by set_solver.
  mrun (load_run in_ h2 (Some l) ltac:(eapply holds_frame; [by eapply holds_extends|apply Hw|done])).
  mrun (load_run out h2 (Some q) ltac:(eapply writes_holds; [done| |done]; by eapply holds_extends)).
  assert (Hk : h2 !! q = Some (Obj t (zero t))).
  { destruct Hw as [[_ O] _]. rewrite O; [done| |done]. by apply elem_of_dom. }
  assert (Hl2 : h2 !! l = Some (Obj t x)).
  { destruct Hw as [[_ O] _]. rewrite O; [by eapply lookup_weaken| |set_solver].
    apply elem_of_dom. eexists. by eapply lookup_weaken. }
  destruct (copy_to_new t P into h2 l q x (zero t) w F1) as (h3 & x' & F' & Hr & Ho3 & Hq3 & HP & HF');
    [done..| | | |].
  - eapply framed_off; [done|by eapply framed_extends|apply Hw|set_solver].
  - intros ->. apply Hq. by apply elem_of_dom.
  - set_solver.
  - exists h3, (Some q), ({[q]} ∪ F'). cbn [deref]. split_and!; [exact Hr| | |].
    + eapply writes_after; [|exact Ho3|done|done]. by eapply writes_before.
    + simpl. by exists x', F'.
    + pose proof (subseteq_dom _ _ He). set_solver.
Qed.

(** ** [DeepCopy] *)

Lemma deep_copy_run {V} t (P : rep (den t) V) `{!Framed P} into h p v F :
  copies P into → rep_ptr t P h p v F →
  ∃ h' p' F', deep_copy t into p h = Some (h', p') ∧ h ⊆ h' ∧
    rep_ptr t P h' p' v F' ∧ F' ## dom h.
Proof.
  intros Hinto. unfold deep_copy. destruct p as [l|], v as [w|]; simpl; try done.
  2: { intros ->. exists h, None, ∅. split_and!; [done..|set_solver]. }
  intros (x & F1 & Hl & Hx & ->). pose proof (owned _ _ _ _ Hx) as HF1.
  destruct (new_run t h) as (q & h1 & Hn & Hq & He & Hz). mrun Hn.
  destruct (copy_to_new t P into h1 l q x (zero t) w F1) as (h2 & x' & F' & Hr & Ho & Hq2 & HP & HF');
    [done|by eapply lookup_weaken|done|by eapply framed_extends| |set_solver|].
  { intros ->. apply Hq. by apply elem_of_dom. }
  exists h2, (Some q), ({[q]} ∪ F'). split_and!.
  - mrun (deref_run q h1). by mrun Hr.
  - by eapply only_at_extends.
  - by exists x', F'.
  - pose proof (subseteq_dom _ _ He). set_solver.
Qed.

End HeapCopies.
