(* ===== verification/HeapLoops.v ===== *)
(** * HeapLoops: the copying loops over slices and maps *)

From S2P Require Import Prelude Heap HeapFacts HeapCopies.
From stdpp Require Import fin_maps.

Section HeapLoops.
Context `{G : GoTypes}.

Lemma window_length {A} (hd : header) (xs : list A) :
  (h_off hd + h_len hd ≤ length xs)%nat → length (window hd xs) = h_len hd.
Proof. intros H. unfold window. rewrite length_take, length_drop. lia. Qed.

Lemma window_lookup {A} (hd : header) (xs : list A) i x :
  window hd xs !! i = Some x → xs !! (h_off hd + i)%nat = Some x.
Proof.
  unfold window. intros H. apply lookup_take_Some in H as [H _]. by rewrite lookup_drop in H.
Qed.

Lemma index_run t hd i h :
  (i < h_len hd)%nat →
  index t (Some hd) i h = Some (h, nth_place (arr_at t (h_array hd)) (h_off hd + i)).
Proof. intros H%Nat.ltb_lt. unfold index. mrun (deref_run hd h). by rewrite H. Qed.

Lemma nth_arr_set t l i (x : den t) xs :
  p_set (nth_place (arr_at t l) i) x (Arr t xs) = Arr t (<[i := x]> xs).
Proof.
  change (match p_get (arr_at t l) (Arr t xs) with
          | Some ys => p_set (arr_at t l) (<[i := x]> ys) (Arr t xs)
          | None => Arr t xs end = Arr t (<[i := x]> xs)).
  by rewrite arr_at_get, arr_at_set.
Qed.

(** ** Slices *)

Section loop.
Context {V : Type} (t : ty) (P : rep (den t) V) `{!Framed P}.
Context (into : place (den t) → place (den t) → M unit) (Hinto : copies P into).
Context (in_ out : place (sl t)) (hd : header) (xs : list (den t)) (arr : loc) (n : nat).

Definition copy_element (i : nat) : M unit :=
  s ← load in_; d ← load out; from ← index t s i; to ← index t d i; into from to.

(** The variables of the loop: the two slices, their arrays, the new one filled so far. *)
Definition looping (h : heap) (ys : list (den t)) : Prop :=
  holds in_ h (Some hd) ∧ holds out h (Some (mkHeader arr 0 n)) ∧
  h !! h_array hd = Some (Arr t xs) ∧ h !! arr = Some (Arr t ys).

Context (Hin : p_loc in_ ≠ arr) (Hout : p_loc out ≠ arr) (Harr : h_array hd ≠ arr).
Context (Hn : n = h_len hd).

Lemma looping_step h h1 ys zs :
  looping h ys → only_at arr h h1 → h1 !! arr = Some (Arr t zs) → looping h1 zs.
Proof using All.
  intros (Hi & Ho & Hx & Hy) O Hz. split_and!; [by eapply holds_frame..| |done].
  rewrite (proj2 O); [done|by apply elem_of_dom|done].
Qed.

(** One round copies one element into the new array. *)
Lemma copy_element_run h ys i x v F :
  looping h ys → length ys = n → window hd xs !! i = Some x → (i < n)%nat →
  P h x v F → arr ∉ F →
  ∃ h' x' F', copy_element i h = Some (h', tt) ∧ only_at arr h h' ∧
    h' !! arr = Some (Arr t (<[i := x']> ys)) ∧ P h' x' v F' ∧ F' ## dom h.
Proof using All.
  intros (Hi & Ho & Hx & Hy) Hlen Hwin Hlt HP HF. unfold copy_element.
  mrun (load_run _ _ _ Hi). mrun (load_run _ _ _ Ho).
  mrun (index_run t hd i h ltac:(lia)). mrun (index_run t (mkHeader arr 0 n) i h Hlt).
  destruct (lookup_lt_is_Some_2 ys i) as [y Hyi]; [lia|].
  destruct (Hinto (nth_place (arr_at t (h_array hd)) (h_off hd + i)) (nth_place (arr_at t arr) i)
              h x v F y) as (h' & x' & F' & Hr & [O (c & Hc & Hs)] & HP' & HF').
  - apply wf_nth, wf_arr_at.
  - apply wf_nth, wf_arr_at.
  - eapply holds_nth; [by apply holds_arr|by apply window_lookup].
  - eapply holds_nth; [by apply holds_arr|done].
  - done.
  - done.
  - done.
  - exists h', x', F'. split_and!; [done..| |done|done].
    simpl in Hc. assert (c = Arr t ys) as -> by congruence. etrans; [exact Hs|].
    f_equal. apply nth_arr_set.
Qed.

Lemma copy_loop h ys i pre rs vs F :
  looping h ys → length ys = n → window hd xs = pre ++ rs → length pre = i →
  (i + length rs = n)%nat → rep_elems P h rs vs F → arr ∉ F →
  ∃ h' rs' F', each (seq i (length rs)) copy_element h = Some (h', tt) ∧ only_at arr h h' ∧
    length rs' = length rs ∧ h' !! arr = Some (Arr t (take i ys ++ rs')) ∧
    rep_elems P h' rs' vs F' ∧ F' ## dom h.
Proof using All.
  revert h ys i pre vs F. induction rs as [|r rs IH]; intros h ys i pre [|v vs] F;
    intros HL Hlen Hwin Hpre Hi; simpl; try done.
  { intros -> _. exists h, [], ∅. destruct HL as (_ & _ & _ & Hy). simpl in Hi.
    rewrite app_nil_r, take_ge by lia. split_and!; [done|by apply extends_only_at|done..|set_solver]. }
  intros (F1 & F2 & HP & Hrest & ->) HF. simpl in Hi.
  destruct (copy_element_run h ys i r v F1) as (h1 & r' & F1' & Hr & O1 & Ha1 & HP1 & HF1);
    [done|done| |lia|done|set_solver|].
  { rewrite Hwin, lookup_app_r, Hpre, Nat.sub_diag by lia. done. }
  mrun Hr.
  destruct (IH h1 (<[i:=r']> ys) (S i) (pre ++ [r]) vs F2) as
    (h2 & rs' & F2' & Hr2 & O2 & Hl2 & Ha2 & HP2 & HF2).
  - by eapply looping_step.
  - by rewrite length_insert.
  - by rewrite Hwin, <- app_assoc.
  - rewrite length_app. simpl. lia.
  - lia.
  - eapply rep_elems_framed; [done|done|]. intros l Hl. apply (proj2 O1); [|set_solver].
    by eapply rep_elems_owned.
  - set_solver.
  - exists h2, (r' :: rs'), (F1' ∪ F2'). split_and!; [done|by eapply only_at_trans|simpl; lia| | |].
    + rewrite Ha2. do 2 f_equal. rewrite (take_S_r _ _ r'), take_insert_ge, <- app_assoc by
        (try apply list_lookup_insert_eq; lia). done.
    + exists F1', F2'. split_and!; [|done..]. eapply framed_off; [done|done|done|].
      destruct HL as (_ & _ & _ & Hy). assert (arr ∈ dom h) by (by apply elem_of_dom). set_solver.
    + pose proof (proj1 O1). set_solver.
Qed.

End loop.

Lemma make_slice_run t n h :
  ∃ l h', make_slice t n h = Some (h', Some (mkHeader l 0 n)) ∧ (l ∉ dom h) ∧ h ⊆ h' ∧
    h' !! l = Some (Arr t (replicate n (zero t))).
Proof.
  destruct (alloc_run (Arr t (replicate n (zero t))) h) as (l & h' & Ha & Hl & -> & He).
  eexists l, _. split_and!; [|done|done|apply lookup_insert_eq]. unfold make_slice. by mrun Ha.
Qed.

Lemma window_whole {A} l (xs : list A) : window (mkHeader l 0 (length xs)) xs = xs.
Proof. unfold window. simpl. by rewrite drop_0, take_ge. Qed.

(** After the new variable [c] at [k] was stored in [out]: what was there is still there. *)
Lemma stored_new {R} (out : place R) h h1 h2 (y r : R) k c :
  wf_place out → holds out h y → h ⊆ h1 → (k ∉ dom h) → h1 !! k = Some c → writes out r h1 h2 →
  p_loc out ≠ k ∧ holds out h2 r ∧ writes out r h h2 ∧ h2 !! k = Some c ∧ only_at (p_loc out) h h2.
Proof.
  intros Wo Ho He Hk Hc Hw. pose proof (holds_dom _ _ _ Ho).
  assert (p_loc out ≠ k) by set_solver. split_and!; [done| | | |].
  - eapply writes_holds; [done|by eapply holds_extends|done].
  - by eapply writes_before.
  - rewrite (proj2 (proj1 Hw)); [done|by apply elem_of_dom|done].
  - eapply only_at_trans; [by apply extends_only_at|apply Hw].
Qed.

Lemma refreshes_dup_slice {V} t (P : rep (den t) V) into :
  copies P into → Framed P → refreshes (rep_slice t P) (dup_slice t into).
Proof.
  intros Hinto HFr in_ out h [hd|] v F Wi Wo Hi Ho Hr Hne HF; unfold duplicates, dup_slice;
    mrun (load_run _ _ _ Hi).
  2: { exists h, None, F. destruct v; [done|]. simpl in Hr. subst F.
       split_and!; [done|by apply writes_refl|done|set_solver]. }
  destruct v as [vs|]; [|done]. destruct Hr as (xs & F1 & Hl & Hn & Hx & ->).
  mrun (load_run _ _ _ Hi).
  destruct (make_slice_run t (h_len hd) h) as (arr & h1 & Hm & Hq & He & Hz). cbn [len]. mrun Hm.
  destruct (store_run out h1 (Some hd) (Some (mkHeader arr 0 (h_len hd)))) as (h2 & Hs & Hw & _);
    [by eapply holds_extends|]. mrun Hs.
  destruct (stored_new out h h1 h2 _ _ arr _ Wo Ho He Hq Hz Hw) as (Hoa & Ho2 & Hw2 & Ha2 & O2).
  pose proof (rep_elems_owned P _ _ _ _ _ Hx) as HF1. pose proof (holds_dom _ _ _ Hi).
  assert (h_array hd ∈ dom h) by (by apply elem_of_dom).
  assert (p_loc in_ ≠ arr ∧ h_array hd ≠ arr ∧ arr ∉ F1) as (Hia & Hha & HaF) by set_solver.
  assert (looping t in_ out hd xs arr (h_len hd) h2 (replicate (h_len hd) (zero t))) as HL.
  { split_and!; [by eapply holds_frame|done| |done]. rewrite (proj2 O2); [done|done|set_solver]. }
  assert (rep_elems P h2 (window hd xs) vs F1) as Hx2.
  { eapply rep_elems_framed; [done|done|]. intros l Hl'. apply (proj2 O2); set_solver. }
  destruct (copy_loop t P into Hinto in_ out hd xs arr (h_len hd) Hia Hoa Hha eq_refl h2 _ 0 []
              (window hd xs) vs F1 HL) as (h3 & rs' & F' & Hr & O3 & Hlen & Ha3 & HP & HF');
    [by rewrite length_replicate|done..|by rewrite window_length|done|done|].
  rewrite window_length in Hr, Hlen by done. simpl in Ha3.
  exists h3, (Some (mkHeader arr 0 (h_len hd))), ({[arr]} ∪ F'). split_and!; [exact Hr| | |].
  - by eapply writes_after.
  - exists rs', F'. rewrite <- Hlen. split_and!; [done|simpl; lia| |done]. by rewrite window_whole.
  - pose proof (proj1 O2). set_solver.
Qed.

(** ** Maps *)

Definition assign_entry (out : place mapref) : string * string → M unit :=
  λ '(key, val), d ← load out; map_assign d key val.

Lemma map_loop (out : place mapref) kvs h k m :
  holds out h (Some k) → h !! k = Some (Map m) → p_loc out ≠ k →
  ∃ h', each kvs (assign_entry out) h = Some (h', tt) ∧ only_at k h h' ∧
    h' !! k = Some (Map (foldl (λ m kv, <[kv.1 := kv.2]> m) m kvs)).
Proof.
  revert h m. induction kvs as [|[key val] kvs IH]; intros h m Ho Hm Hne; simpl.
  { exists h. split_and!; [done|by apply extends_only_at|done]. }
  destruct (store_run (map_at k) h m (<[key := val]> m)) as (h1 & Hs & [O (c & Hc & Hc1)] & _);
    [by apply holds_map|].
  assert (assign_entry out (key, val) h = Some (h1, tt)) as Hrun.
  { unfold assign_entry. mrun (load_run _ _ _ Ho). unfold map_assign. mrun (deref_run k h).
    by mrun (load_run (map_at k) h m ltac:(by apply holds_map)). }
  mrun Hrun. simpl in *. assert (c = Map m) as -> by congruence.
  destruct (IH h1 (<[key := val]> m)) as (h2 & Hr & O2 & H2); [by eapply holds_frame|done|done|].
  exists h2. split_and!; [done|by eapply only_at_trans|done].
Qed.

Lemma foldl_insert_range (e : gmap string string) :
  foldl (λ m kv, <[kv.1 := kv.2]> m) ∅ (map_order e) = e.
Proof.
  assert (∀ (l : list (string * string)), foldl (λ m kv, <[kv.1 := kv.2]> m) (∅ : gmap string string) l
            = list_to_map (reverse l)) as ->.
  { intros l. induction l as [|[a b] l IH] using rev_ind; [done|].
    rewrite foldl_app, IH, reverse_app. done. }
  rewrite <- (list_to_map_to_list e) at 2.
  assert (reverse (map_order e) ≡ₚ map_to_list e) as Hp
    by (by rewrite reverse_Permutation, map_order_perm).
  apply list_to_map_proper; [|done]. rewrite Hp. apply NoDup_fst_map_to_list.
Qed.

Lemma make_map_run h :
  ∃ l h', make_map h = Some (h', Some l) ∧ (l ∉ dom h) ∧ h ⊆ h' ∧ h' !! l = Some (Map ∅).
Proof.
  destruct (alloc_run (Map ∅) h) as (l & h' & Ha & Hl & -> & He).
  eexists l, _. split_and!; [|done|done|apply lookup_insert_eq]. unfold make_map. by mrun Ha.
Qed.

(** A loop over the elements of an array, each of which it replaces. *)
Lemma each_element (t : ty) (body : nat → M unit) (g : nat → den t → den t) l len k n h (xs : list (den t)) :
  h !! l = Some (Arr t xs) → length xs = len → (k + n ≤ len)%nat →
  (∀ h ys i x, h !! l = Some (Arr t ys) → length ys = len → ys !! i = Some x →
     ∃ h', body i h = Some (h', tt) ∧ only_at l h h' ∧ h' !! l = Some (Arr t (<[i := g i x]> ys))) →
  ∃ h' ys, each (seq k n) body h = Some (h', tt) ∧ only_at l h h' ∧ h' !! l = Some (Arr t ys) ∧
    length ys = len ∧
    ∀ i (x : den t), xs !! i = Some x → ys !! i = Some (if decide (k ≤ i < k + n)%nat then g i x else x).
Proof.
  intros Hl Hlen Hn Hb. revert k h xs Hl Hlen Hn. induction n as [|n IH]; intros k h xs Hl Hlen Hn; cbn [each seq].
  { exists h, xs. split_and!; [done|by apply extends_only_at|done|done|].
    intros i x Hi. by rewrite decide_False by lia. }
  destruct (lookup_lt_is_Some_2 xs k) as [x Hx]; [lia|].
  destruct (Hb h xs k x Hl Hlen Hx) as (h1 & Hr1 & O1 & Hl1). mrun Hr1.
  destruct (IH (S k) h1 _ Hl1) as (h2 & ys & Hr2 & O2 & Hl2 & Hys & Hi);
    [by rewrite length_insert|lia|].
  exists h2, ys. split_and!; [done|by eapply only_at_trans|done|done|].
  intros i y Hy. destruct (decide (i = k)) as [->|Hne].
  - assert (y = x) as -> by congruence. rewrite (decide_True _ _ (P := (k ≤ k < k + S n)%nat)) by lia.
    specialize (Hi k (g k x)). rewrite decide_False in Hi by lia. apply Hi.
    apply list_lookup_insert_eq. lia.
  - specialize (Hi i y). rewrite list_lookup_insert_ne in Hi by done. rewrite (Hi Hy).
    f_equal. destruct (decide (S k ≤ i < S k + n)%nat), (decide (k ≤ i < k + S n)%nat); done || lia.
Qed.

(** [s[i] = x], on an array of its own. *)
Lemma store_element (t : ty) l n h ys i (x y : den t) :
  h !! l = Some (Arr t ys) → ys !! i = Some y → (i < n)%nat →
  index t (Some (mkHeader l 0 n)) i h = Some (h, nth_place (arr_at t l) i) ∧
  load (nth_place (arr_at t l) i) h = Some (h, y) ∧
  ∃ h', store (nth_place (arr_at t l) i) x h = Some (h', tt) ∧ only_at l h h' ∧
    h' !! l = Some (Arr t (<[i := x]> ys)).
Proof.
  intros Hl Hi Hn. pose proof (holds_nth (arr_at t l) i h ys y (holds_arr t l h ys Hl) Hi) as Hh.
  split; [by apply (index_run t (mkHeader l 0 n))|]. split; [by apply load_run|].
  destruct (store_run (nth_place (arr_at t l) i) h y x Hh) as (h' & Hs & [O (c & Hc & Hc')] & _).
  exists h'. split_and!; [done|done|]. simpl in Hc, Hc'. rewrite Hl in Hc. injection Hc as <-.
  rewrite Hc'. f_equal. apply (nth_arr_set t l i x ys).
Qed.

Lemma refreshes_dup_map : refreshes rep_map dup_map.
Proof.
  intros in_ out h [l|] v F Wi Wo Hi Ho Hr Hne HF; unfold duplicates, dup_map;
    mrun (load_run _ _ _ Hi).
  2: { exists h, None, F. destruct v; [done|]. simpl in Hr. subst F.
       split_and!; [done|by apply writes_refl|done|set_solver]. }
  destruct v as [e|]; [|done]. destruct Hr as [Hl ->].
  destruct (make_map_run h) as (k & h1 & Hm & Hq & He & Hz). mrun Hm.
  destruct (store_run out h1 (Some l) (Some k)) as (h2 & Hs & Hw & _);
    [by eapply holds_extends|]. mrun Hs.
  destruct (stored_new out h h1 h2 _ _ k _ Wo Ho He Hq Hz Hw) as (Hoa & Ho2 & Hw2 & Ha2 & O2).
  mrun (load_run in_ h2 (Some l) ltac:(by eapply holds_frame)).
  assert (Hl2 : h2 !! l = Some (Map e)).
  { rewrite (proj2 O2); [done|by apply elem_of_dom|set_solver]. }
  assert (map_range (Some l) h2 = Some (h2, map_order e)) as Hk.
  { unfold map_range. by mrun (load_run (map_at l) h2 e ltac:(by apply holds_map)). }
  mrun Hk. destruct (map_loop out (map_order e) h2 k ∅) as (h3 & Hr & O3 & H3); [done..|].
  exists h3, (Some k), {[k]}. rewrite foldl_insert_range in H3.
  split_and!; [exact Hr|by eapply writes_after|done|set_solver].
Qed.

End HeapLoops.

(** ** Automation: a struct's representation is framed *)

Ltac open_rep :=
  repeat match goal with
  | H : ∃ _, _ |- _ => destruct H as [? H]
  | H : _ ∧ _ |- _ => destruct H as [? H]
  end; subst.

Ltac framed_struct :=
  split;
  [ intros h h' r v F; repeat match goal with x : _ * _ |- _ => destruct x end;
    intros HP Hf; cbv beta iota in HP |- *; open_rep;
    repeat match goal with |- ∃ _, _ => eexists | |- _ ∧ _ => split end;
    repeat match goal with
    | |- _ = _ => first [eassumption|reflexivity]
    | |- _ => eapply (framed h); [eassumption|intros; apply Hf; set_solver]
    end
  | intros h r v F; repeat match goal with x : _ * _ |- _ => destruct x end;
    intros HP; cbv beta iota in HP; open_rep;
    repeat match goal with H : _ |- _ => apply owned in H end; set_solver ].

(** ** Automation: a struct's [DeepCopyInto] copies

    [refresh_next] runs the next statement, which refreshes a field; the [copies] facts of
    the fields' types are in the HintDb [copying]. *)

Ltac solve_copies :=
  lazymatch goal with
  | |- refreshes _ (dup_ptr _ _) => eapply refreshes_dup_ptr; [solve_copies|apply _]
  | |- refreshes _ (dup_slice _ _) => eapply refreshes_dup_slice; [solve_copies|apply _]
  | |- refreshes _ dup_map => apply refreshes_dup_map
  | |- refreshes _ _ => eapply copies_refreshes; solve_copies
  | |- copies _ assign => apply copies_assign
  | |- copies _ _ => eauto with copying
  end.

Ltac refresh_next :=
  lazymatch goal with |- ends (_ ≫= _) _ _ => apply ends_seq_iff | _ => idtac end;
  match goal with
  | Hw : writes ?out ?cur ?h0 ?h, Hi : holds ?in_ ?h0 ?s, Ho : holds ?out ?h0 ?y
    |- ends (?into (dot ?in_ ?f) (dot ?out ?f)) ?h _ =>
    let h' := fresh "h" in let r' := fresh "r" in let F' := fresh "F" in
    let Hw' := fresh "Hw" in let HP := fresh "HP" in let Hd := fresh "Hd" in
    let O := fresh "O" in
    eapply (ends_refresh _ f into in_ out h0 h s y cur);
    [ solve_copies | eassumption | apply _ | by split; intros [] | done | done | exact Hi | exact Ho
    | done | set_solver | exact Hw | reflexivity | ];
    intros h' r' F' Hw' HP Hd O; cbv beta; simpl f_set in Hw';
    repeat match goal with
    | HQ : ?P h ?r ?v ?F, HD : ?F ## dom h0 |- _ =>
      apply (refreshed_stays P out h0 h h' y) in HQ; [|exact HD|exact Ho|exact O]
    end;
    clear Hw O
  end.

(** What is left: the fields that were refreshed make up the copy. *)
Ltac rebuild :=
  cbv beta; do 2 eexists; split; [eassumption|]; split;
  [ repeat match goal with |- ∃ _, _ => eexists | |- _ ∧ _ => split end;
    first [eassumption | reflexivity]
  | set_solver ].

Ltac copy_struct :=
  let v := fresh "v" in
  intros in_ out h s v F y Wi Wo Hi Ho HP Hne HF;
  destruct (assign_run in_ out h s y Hi Ho) as (h0 & Hr & Hw & _);
  repeat match goal with x : _ * _ |- _ => destruct x end;
  cbv beta iota in HP; open_rep;
  apply duplicates_ends; eapply ends_seq; [exact Hr|]; clear Hr;
  repeat refresh_next; rebuild.
