(* ===== verification/GoTypes.v ===== *)
(** * GoTypes: the structs of api/v1alpha1 as they lie in memory

    The Go structs with their pointers, slices and maps, their fields, and the value -
    the object of [Api.v] - that a variable of each type denotes in a memory. The
    metadata types of Kubernetes and Cluster API are parameters. *)

From S2P Require Import Prelude Go Kube Api Heap HeapFacts HeapCopies.
From stdpp Require Import fin_maps.

(** What [new] and [make] of this package, and of the packages it imports, make. *)
Inductive type : Type :=
  | TString | TBool
  | TControlPlaneEndpointSpec | TControlPlaneServiceSpec | TInitializationStatus
  | TKubeSwiftCluster | TKubeSwiftClusterList | TKubeSwiftClusterSpec | TKubeSwiftClusterStatus
  | TKubeSwiftClusterTemplate | TKubeSwiftClusterTemplateList
  | TKubeSwiftClusterTemplateResource | TKubeSwiftClusterTemplateSpec
  | TKubeSwiftMachine | TKubeSwiftMachineList | TKubeSwiftMachineSpec | TKubeSwiftMachineStatus
  | TKubeSwiftMachineTemplate | TKubeSwiftMachineTemplateList
  | TKubeSwiftMachineTemplateResource | TKubeSwiftMachineTemplateSpec
  | TMachineBackend | TSwiftGuestBackend | TSwiftGuestGPU | TSwiftGuestInterface
  | TAPIEndpoint | TMachineAddress | TCondition | TServicePort | TForeign.
#[export] Instance type_eq_dec : EqDecision type.
Proof. solve_decision. Defined.

Record TypeMeta := mkTypeMeta { tm_Kind : string; tm_APIVersion : string }.

(** The structs of other packages that hold pointers, with their zero values, and what
    else those packages allocate. *)
Class ForeignTypes := {
  foreign_cell : Type;
  mem_ObjectMeta : Type; mem_ListMeta : Type; mem_TemplateMeta : Type; mem_Condition : Type;
  zero_foreign : foreign_cell;
  zero_ObjectMeta : mem_ObjectMeta; zero_ListMeta : mem_ListMeta;
  zero_TemplateMeta : mem_TemplateMeta; zero_Condition : mem_Condition;
  range_order : gmap string string → list (string * string);
  range_order_perm m : range_order m ≡ₚ map_to_list m
}.

(** ** The structs *)

Record memInitializationStatus := mkMemInit { mi_Provisioned : ptr TBool }.

Record memControlPlaneServiceSpec := mkMemService {
  ms_Type : string;
  ms_Port : Z;
  ms_Annotations : mapref;
  ms_LoadBalancerClass : ptr TString
}.

Record memControlPlaneEndpointSpec := mkMemEndpoint {
  me_Mode : string;
  me_Service : ptr TControlPlaneServiceSpec
}.

Record memKubeSwiftClusterSpec := mkMemClusterSpec {
  mcs_ControlPlaneEndpoint : ptr TAPIEndpoint;
  mcs_Endpoint : ptr TControlPlaneEndpointSpec;
  mcs_GuestNamespace : string
}.

Record memKubeSwiftClusterStatus := mkMemClusterStatus {
  mct_Initialization : memInitializationStatus;
  mct_Conditions : sl TCondition
}.

Record memSwiftGuestBackend := mkMemSwiftGuest {
  mg_ImageRef : string;
  mg_GuestClassRef : string;
  mg_NetworkRef : string;
  mg_NodeNetworkRef : string;
  mg_Interfaces : sl TSwiftGuestInterface;
  mg_NodeName : string;
  mg_GPU : ptr TSwiftGuestGPU;
  mg_StorageClassName : string
}.

Record memMachineBackend := mkMemBackend {
  mb_mem_Type : string;
  mb_mem_SwiftGuest : ptr TSwiftGuestBackend
}.

Record memKubeSwiftMachineSpec := mkMemMachineSpec {
  mms_ProviderID : string;
  mms_Backend : memMachineBackend
}.

Record memKubeSwiftMachineStatus := mkMemMachineStatus {
  mmt_Initialization : memInitializationStatus;
  mmt_Addresses : sl TMachineAddress;
  mmt_FailureDomain : string;
  mmt_Conditions : sl TCondition
}.

Section Structs.
Context `{ForeignTypes}.

(** The two kinds of template, of what is stamped out ([Spec]). *)
Record memTemplateResource (Spec : Type) := mkMemResource {
  mr_ObjectMeta : mem_TemplateMeta;
  mr_Spec : Spec
}.
Record memTemplateSpec (Spec : Type) := mkMemTemplateSpec {
  mts_Template : memTemplateResource Spec
}.
Record memTemplate (Spec : Type) := mkMemTemplate {
  mt_TypeMeta : TypeMeta;
  mt_ObjectMeta : mem_ObjectMeta;
  mt_Spec : memTemplateSpec Spec
}.

(** An object with a status, and a list of objects. *)
Record memObject (Spec Status : Type) := mkMemObject {
  mo_TypeMeta : TypeMeta;
  mo_ObjectMeta : mem_ObjectMeta;
  mo_Spec : Spec;
  mo_Status : Status
}.
Record memList (t : type) := mkMemList {
  ml_TypeMeta : TypeMeta;
  ml_ListMeta : mem_ListMeta;
  ml_Items : sl t
}.

(** ** Their fields that hold pointers *)

Definition Provisioned_ : field memInitializationStatus _ :=
  mkField mi_Provisioned (λ y s, mkMemInit y).
Definition Annotations : field memControlPlaneServiceSpec _ :=
  mkField ms_Annotations (λ y s, mkMemService (ms_Type s) (ms_Port s) y (ms_LoadBalancerClass s)).
Definition LoadBalancerClass : field memControlPlaneServiceSpec _ :=
  mkField ms_LoadBalancerClass (λ y s, mkMemService (ms_Type s) (ms_Port s) (ms_Annotations s) y).
Definition Service_ : field memControlPlaneEndpointSpec _ :=
  mkField me_Service (λ y s, mkMemEndpoint (me_Mode s) y).
Definition ControlPlaneEndpoint : field memKubeSwiftClusterSpec _ :=
  mkField mcs_ControlPlaneEndpoint (λ y s, mkMemClusterSpec y (mcs_Endpoint s) (mcs_GuestNamespace s)).
Definition Endpoint : field memKubeSwiftClusterSpec _ :=
  mkField mcs_Endpoint (λ y s, mkMemClusterSpec (mcs_ControlPlaneEndpoint s) y (mcs_GuestNamespace s)).
Definition ClusterInitialization : field memKubeSwiftClusterStatus _ :=
  mkField mct_Initialization (λ y s, mkMemClusterStatus y (mct_Conditions s)).
Definition ClusterConditions : field memKubeSwiftClusterStatus _ :=
  mkField mct_Conditions (λ y s, mkMemClusterStatus (mct_Initialization s) y).
Definition Interfaces : field memSwiftGuestBackend _ :=
  mkField mg_Interfaces (λ y s, mkMemSwiftGuest (mg_ImageRef s) (mg_GuestClassRef s) (mg_NetworkRef s) (mg_NodeNetworkRef s) y (mg_NodeName s) (mg_GPU s) (mg_StorageClassName s)).
Definition GPU : field memSwiftGuestBackend _ :=
  mkField mg_GPU (λ y s, mkMemSwiftGuest (mg_ImageRef s) (mg_GuestClassRef s) (mg_NetworkRef s) (mg_NodeNetworkRef s) (mg_Interfaces s) (mg_NodeName s) y (mg_StorageClassName s)).
Definition SwiftGuest_ : field memMachineBackend _ :=
  mkField mb_mem_SwiftGuest (λ y s, mkMemBackend (mb_mem_Type s) y).
Definition Backend_ : field memKubeSwiftMachineSpec _ :=
  mkField mms_Backend (λ y s, mkMemMachineSpec (mms_ProviderID s) y).
Definition MachineInitialization : field memKubeSwiftMachineStatus _ :=
  mkField mmt_Initialization (λ y s, mkMemMachineStatus y (mmt_Addresses s) (mmt_FailureDomain s) (mmt_Conditions s)).
Definition Addresses : field memKubeSwiftMachineStatus _ :=
  mkField mmt_Addresses (λ y s, mkMemMachineStatus (mmt_Initialization s) y (mmt_FailureDomain s) (mmt_Conditions s)).
Definition MachineConditions : field memKubeSwiftMachineStatus _ :=
  mkField mmt_Conditions (λ y s, mkMemMachineStatus (mmt_Initialization s) (mmt_Addresses s) (mmt_FailureDomain s) y).
Definition TemplateObjectMeta {Spec : Type} : field (memTemplateResource Spec) _ :=
  mkField (mr_ObjectMeta _) (λ y s, mkMemResource _ y (mr_Spec _ s)).
Definition ResourceSpec {Spec : Type} : field (memTemplateResource Spec) _ :=
  mkField (mr_Spec _) (λ y s, mkMemResource _ (mr_ObjectMeta _ s) y).
Definition Template {Spec : Type} : field (memTemplateSpec Spec) _ :=
  mkField (mts_Template _) (λ y s, mkMemTemplateSpec _ y).
Definition TemplateTypeMeta {Spec : Type} : field (memTemplate Spec) _ :=
  mkField (mt_TypeMeta _) (λ y s, mkMemTemplate _ y (mt_ObjectMeta _ s) (mt_Spec _ s)).
Definition TemplateMeta_ {Spec : Type} : field (memTemplate Spec) _ :=
  mkField (mt_ObjectMeta _) (λ y s, mkMemTemplate _ (mt_TypeMeta _ s) y (mt_Spec _ s)).
Definition TemplateSpec {Spec : Type} : field (memTemplate Spec) _ :=
  mkField (mt_Spec _) (λ y s, mkMemTemplate _ (mt_TypeMeta _ s) (mt_ObjectMeta _ s) y).
Definition TypeMeta_ {Spec Status : Type} : field (memObject Spec Status) _ :=
  mkField (mo_TypeMeta _ _) (λ y s, mkMemObject _ _ y (mo_ObjectMeta _ _ s) (mo_Spec _ _ s) (mo_Status _ _ s)).
Definition ObjectMeta_ {Spec Status : Type} : field (memObject Spec Status) _ :=
  mkField (mo_ObjectMeta _ _) (λ y s, mkMemObject _ _ (mo_TypeMeta _ _ s) y (mo_Spec _ _ s) (mo_Status _ _ s)).
Definition Spec_ {Spec Status : Type} : field (memObject Spec Status) _ :=
  mkField (mo_Spec _ _) (λ y s, mkMemObject _ _ (mo_TypeMeta _ _ s) (mo_ObjectMeta _ _ s) y (mo_Status _ _ s)).
Definition Status_ {Spec Status : Type} : field (memObject Spec Status) _ :=
  mkField (mo_Status _ _) (λ y s, mkMemObject _ _ (mo_TypeMeta _ _ s) (mo_ObjectMeta _ _ s) (mo_Spec _ _ s) y).
Definition ListTypeMeta {t : type} : field (memList t) _ :=
  mkField (ml_TypeMeta _) (λ y s, mkMemList _ y (ml_ListMeta _ s) (ml_Items _ s)).
Definition ListMeta_ {t : type} : field (memList t) _ :=
  mkField (ml_ListMeta _) (λ y s, mkMemList _ (ml_TypeMeta _ s) y (ml_Items _ s)).
Definition Items {t : type} : field (memList t) _ :=
  mkField (ml_Items _) (λ y s, mkMemList _ (ml_TypeMeta _ s) (ml_ListMeta _ s) y).

(** ** The memory *)

Definition memKubeSwiftCluster : Type := memObject memKubeSwiftClusterSpec memKubeSwiftClusterStatus.
Definition memKubeSwiftMachine : Type := memObject memKubeSwiftMachineSpec memKubeSwiftMachineStatus.

(** The four lists of the package. *)
Definition memKubeSwiftClusterList : Type := memList TKubeSwiftCluster.
Definition memKubeSwiftClusterTemplateList : Type := memList TKubeSwiftClusterTemplate.
Definition memKubeSwiftMachineList : Type := memList TKubeSwiftMachine.
Definition memKubeSwiftMachineTemplateList : Type := memList TKubeSwiftMachineTemplate.

Definition type_den (t : type) : Type :=
  match t with
  | TString => string
  | TBool => bool
  | TControlPlaneEndpointSpec => memControlPlaneEndpointSpec
  | TControlPlaneServiceSpec => memControlPlaneServiceSpec
  | TInitializationStatus => memInitializationStatus
  | TKubeSwiftCluster => memKubeSwiftCluster
  | TKubeSwiftClusterList => memKubeSwiftClusterList
  | TKubeSwiftClusterSpec => memKubeSwiftClusterSpec
  | TKubeSwiftClusterStatus => memKubeSwiftClusterStatus
  | TKubeSwiftClusterTemplate => memTemplate memKubeSwiftClusterSpec
  | TKubeSwiftClusterTemplateList => memKubeSwiftClusterTemplateList
  | TKubeSwiftClusterTemplateResource => memTemplateResource memKubeSwiftClusterSpec
  | TKubeSwiftClusterTemplateSpec => memTemplateSpec memKubeSwiftClusterSpec
  | TKubeSwiftMachine => memKubeSwiftMachine
  | TKubeSwiftMachineList => memKubeSwiftMachineList
  | TKubeSwiftMachineSpec => memKubeSwiftMachineSpec
  | TKubeSwiftMachineStatus => memKubeSwiftMachineStatus
  | TKubeSwiftMachineTemplate => memTemplate memKubeSwiftMachineSpec
  | TKubeSwiftMachineTemplateList => memKubeSwiftMachineTemplateList
  | TKubeSwiftMachineTemplateResource => memTemplateResource memKubeSwiftMachineSpec
  | TKubeSwiftMachineTemplateSpec => memTemplateSpec memKubeSwiftMachineSpec
  | TMachineBackend => memMachineBackend
  | TSwiftGuestBackend => memSwiftGuestBackend
  | TSwiftGuestGPU => SwiftGuestGPU
  | TSwiftGuestInterface => SwiftGuestInterface
  | TAPIEndpoint => APIEndpoint
  | TMachineAddress => MachineAddress
  | TCondition => mem_Condition
  | TServicePort => ServicePort
  | TForeign => foreign_cell
  end.

Definition zero_type_meta : TypeMeta := mkTypeMeta "" "".
Definition zero_init : memInitializationStatus := mkMemInit None.
Definition zero_cluster_spec : memKubeSwiftClusterSpec := mkMemClusterSpec None None "".
Definition zero_machine_spec : memKubeSwiftMachineSpec :=
  mkMemMachineSpec "" (mkMemBackend "" None).
Definition zero_cluster_status : memKubeSwiftClusterStatus := mkMemClusterStatus zero_init None.
Definition zero_machine_status : memKubeSwiftMachineStatus :=
  mkMemMachineStatus zero_init None "" None.
Definition zero_resource {Spec} (s : Spec) : memTemplateResource Spec :=
  mkMemResource _ zero_TemplateMeta s.
Definition zero_template {Spec} (s : Spec) : memTemplate Spec :=
  mkMemTemplate _ zero_type_meta zero_ObjectMeta (mkMemTemplateSpec _ (zero_resource s)).
Definition zero_object {Spec Status} (s : Spec) (st : Status) : memObject Spec Status :=
  mkMemObject _ _ zero_type_meta zero_ObjectMeta s st.
Definition zero_list (t : type) : memList t := mkMemList t zero_type_meta zero_ListMeta None.

Definition type_zero (t : type) : type_den t :=
  match t with
  | TString => ""
  | TBool => false
  | TControlPlaneEndpointSpec => mkMemEndpoint "" None
  | TControlPlaneServiceSpec => mkMemService "" 0 None None
  | TInitializationStatus => zero_init
  | TKubeSwiftCluster => zero_object zero_cluster_spec zero_cluster_status
  | TKubeSwiftClusterList => zero_list _
  | TKubeSwiftClusterSpec => zero_cluster_spec
  | TKubeSwiftClusterStatus => zero_cluster_status
  | TKubeSwiftClusterTemplate => zero_template zero_cluster_spec
  | TKubeSwiftClusterTemplateList => zero_list _
  | TKubeSwiftClusterTemplateResource => zero_resource zero_cluster_spec
  | TKubeSwiftClusterTemplateSpec => mkMemTemplateSpec _ (zero_resource zero_cluster_spec)
  | TKubeSwiftMachine => zero_object zero_machine_spec zero_machine_status
  | TKubeSwiftMachineList => zero_list _
  | TKubeSwiftMachineSpec => zero_machine_spec
  | TKubeSwiftMachineStatus => zero_machine_status
  | TKubeSwiftMachineTemplate => zero_template zero_machine_spec
  | TKubeSwiftMachineTemplateList => zero_list _
  | TKubeSwiftMachineTemplateResource => zero_resource zero_machine_spec
  | TKubeSwiftMachineTemplateSpec => mkMemTemplateSpec _ (zero_resource zero_machine_spec)
  | TMachineBackend => mkMemBackend "" None
  | TSwiftGuestBackend => mkMemSwiftGuest "" "" "" "" None "" None ""
  | TSwiftGuestGPU => mkSwiftGuestGPU "" "" "" "" "" ""
  | TSwiftGuestInterface => mkSwiftGuestInterface "" "" false
  | TAPIEndpoint => mkAPIEndpoint "" 0
  | TMachineAddress => mkMachineAddress "" ""
  | TCondition => zero_Condition
  | TServicePort => mkServicePort "" 0 (IntVal 0) "" 0
  | TForeign => zero_foreign
  end.

#[export] Instance provider_types : GoTypes := {|
  ty := type; den := type_den; zero := type_zero;
  map_order := range_order; map_order_perm := range_order_perm
|}.

End Structs.
