(* ===== verification/DeepCopy.v ===== *)
(** * DeepCopy: api/v1alpha1/zz_generated.deepcopy.go

    Every function of the file, on the memory of [Heap.v]. A method on [*T] takes the
    places its pointers point to; a pointer that may be nil is a [ptr]. *)

From S2P Require Import Prelude Go Kube Api Heap HeapFacts HeapCopies GoTypes.
From stdpp Require Import fin_maps.

(** The [DeepCopyInto] methods of the structs of other packages, with what a variable of
    each denotes: what Kubernetes documents of a deep copy is that it [copies]. *)
Class ForeignDeepCopy `{ForeignTypes} := {
  ObjectMeta_DeepCopyInto : place mem_ObjectMeta → place mem_ObjectMeta → M unit;
  ListMeta_DeepCopyInto : place mem_ListMeta → place mem_ListMeta → M unit;
  TemplateMeta_DeepCopyInto : place mem_TemplateMeta → place mem_TemplateMeta → M unit;
  Condition_DeepCopyInto : place mem_Condition → place mem_Condition → M unit
}.

Section DeepCopy.
Context `{ForeignDeepCopy}.

Definition ControlPlaneServiceSpec_DeepCopyInto (in_ out : place memControlPlaneServiceSpec) :
    M unit :=
  assign in_ out;;
  dup_map (in_ .> Annotations) (out .> Annotations);;
  dup_ptr TString assign (in_ .> LoadBalancerClass) (out .> LoadBalancerClass).

Definition ControlPlaneServiceSpec_DeepCopy : ptr TControlPlaneServiceSpec → M _ :=
  deep_copy TControlPlaneServiceSpec ControlPlaneServiceSpec_DeepCopyInto.

Definition ControlPlaneEndpointSpec_DeepCopyInto (in_ out : place memControlPlaneEndpointSpec) :
    M unit :=
  assign in_ out;;
  dup_ptr TControlPlaneServiceSpec ControlPlaneServiceSpec_DeepCopyInto
    (in_ .> Service_) (out .> Service_).

Definition ControlPlaneEndpointSpec_DeepCopy : ptr TControlPlaneEndpointSpec → M _ :=
  deep_copy TControlPlaneEndpointSpec ControlPlaneEndpointSpec_DeepCopyInto.

Definition InitializationStatus_DeepCopyInto (in_ out : place memInitializationStatus) : M unit :=
  assign in_ out;;
  dup_ptr TBool assign (in_ .> Provisioned_) (out .> Provisioned_).

Definition InitializationStatus_DeepCopy : ptr TInitializationStatus → M _ :=
  deep_copy TInitializationStatus InitializationStatus_DeepCopyInto.

Definition KubeSwiftClusterSpec_DeepCopyInto (in_ out : place memKubeSwiftClusterSpec) : M unit :=
  assign in_ out;;
  dup_ptr TAPIEndpoint assign (in_ .> ControlPlaneEndpoint) (out .> ControlPlaneEndpoint);;
  dup_ptr TControlPlaneEndpointSpec ControlPlaneEndpointSpec_DeepCopyInto
    (in_ .> Endpoint) (out .> Endpoint).

Definition KubeSwiftClusterSpec_DeepCopy : ptr TKubeSwiftClusterSpec → M _ :=
  deep_copy TKubeSwiftClusterSpec KubeSwiftClusterSpec_DeepCopyInto.

Definition KubeSwiftClusterStatus_DeepCopyInto (in_ out : place memKubeSwiftClusterStatus) :
    M unit :=
  assign in_ out;;
  InitializationStatus_DeepCopyInto (in_ .> ClusterInitialization) (out .> ClusterInitialization);;
  dup_slice TCondition Condition_DeepCopyInto (in_ .> ClusterConditions) (out .> ClusterConditions).

Definition KubeSwiftClusterStatus_DeepCopy : ptr TKubeSwiftClusterStatus → M _ :=
  deep_copy TKubeSwiftClusterStatus KubeSwiftClusterStatus_DeepCopyInto.

Definition KubeSwiftCluster_DeepCopyInto (in_ out : place memKubeSwiftCluster) : M unit :=
  assign in_ out;;
  assign (in_ .> TypeMeta_) (out .> TypeMeta_);;
  ObjectMeta_DeepCopyInto (in_ .> ObjectMeta_) (out .> ObjectMeta_);;
  KubeSwiftClusterSpec_DeepCopyInto (in_ .> Spec_) (out .> Spec_);;
  KubeSwiftClusterStatus_DeepCopyInto (in_ .> Status_) (out .> Status_).

Definition KubeSwiftCluster_DeepCopy : ptr TKubeSwiftCluster → M _ :=
  deep_copy TKubeSwiftCluster KubeSwiftCluster_DeepCopyInto.

(** An interface value: nil, or a type with a pointer to a variable of it. The pointer may
    itself be nil; the interface that holds it then is not. *)
Definition Object_ : Type := option (type * option loc).

(** [if c := in.DeepCopy(); c != nil { return c }; return nil] *)
Definition as_object (t : type) (copy : ptr t → M (ptr t)) (in_ : ptr t) : M Object_ :=
  c ← copy in_;
  if decide (c ≠ None) then mret (Some (t, c)) else mret None.

Definition KubeSwiftCluster_DeepCopyObject := as_object TKubeSwiftCluster KubeSwiftCluster_DeepCopy.

(** The lists. *)
Definition KubeSwiftClusterList_DeepCopyInto (in_ out : place memKubeSwiftClusterList) :
    M unit :=
  assign in_ out;;
  assign (in_ .> ListTypeMeta) (out .> ListTypeMeta);;
  ListMeta_DeepCopyInto (in_ .> ListMeta_) (out .> ListMeta_);;
  dup_slice TKubeSwiftCluster KubeSwiftCluster_DeepCopyInto (in_ .> Items) (out .> Items).

Definition KubeSwiftClusterList_DeepCopy : ptr TKubeSwiftClusterList → M _ :=
  deep_copy TKubeSwiftClusterList KubeSwiftClusterList_DeepCopyInto.
Definition KubeSwiftClusterList_DeepCopyObject :=
  as_object TKubeSwiftClusterList KubeSwiftClusterList_DeepCopy.

Definition KubeSwiftClusterTemplateResource_DeepCopyInto
    (in_ out : place (memTemplateResource memKubeSwiftClusterSpec)) : M unit :=
  assign in_ out;;
  TemplateMeta_DeepCopyInto (in_ .> TemplateObjectMeta) (out .> TemplateObjectMeta);;
  KubeSwiftClusterSpec_DeepCopyInto (in_ .> ResourceSpec) (out .> ResourceSpec).

Definition KubeSwiftClusterTemplateResource_DeepCopy : ptr TKubeSwiftClusterTemplateResource → M _ :=
  deep_copy TKubeSwiftClusterTemplateResource KubeSwiftClusterTemplateResource_DeepCopyInto.

Definition KubeSwiftClusterTemplateSpec_DeepCopyInto
    (in_ out : place (memTemplateSpec memKubeSwiftClusterSpec)) : M unit :=
  assign in_ out;;
  KubeSwiftClusterTemplateResource_DeepCopyInto (in_ .> Template) (out .> Template).

Definition KubeSwiftClusterTemplateSpec_DeepCopy : ptr TKubeSwiftClusterTemplateSpec → M _ :=
  deep_copy TKubeSwiftClusterTemplateSpec KubeSwiftClusterTemplateSpec_DeepCopyInto.

Definition KubeSwiftClusterTemplate_DeepCopyInto
    (in_ out : place (memTemplate memKubeSwiftClusterSpec)) : M unit :=
  assign in_ out;;
  assign (in_ .> TemplateTypeMeta) (out .> TemplateTypeMeta);;
  ObjectMeta_DeepCopyInto (in_ .> TemplateMeta_) (out .> TemplateMeta_);;
  KubeSwiftClusterTemplateSpec_DeepCopyInto (in_ .> TemplateSpec) (out .> TemplateSpec).

Definition KubeSwiftClusterTemplate_DeepCopy : ptr TKubeSwiftClusterTemplate → M _ :=
  deep_copy TKubeSwiftClusterTemplate KubeSwiftClusterTemplate_DeepCopyInto.
Definition KubeSwiftClusterTemplate_DeepCopyObject :=
  as_object TKubeSwiftClusterTemplate KubeSwiftClusterTemplate_DeepCopy.

Definition KubeSwiftClusterTemplateList_DeepCopyInto
    (in_ out : place memKubeSwiftClusterTemplateList) : M unit :=
  assign in_ out;;
  assign (in_ .> ListTypeMeta) (out .> ListTypeMeta);;
  ListMeta_DeepCopyInto (in_ .> ListMeta_) (out .> ListMeta_);;
  dup_slice TKubeSwiftClusterTemplate KubeSwiftClusterTemplate_DeepCopyInto
    (in_ .> Items) (out .> Items).

Definition KubeSwiftClusterTemplateList_DeepCopy : ptr TKubeSwiftClusterTemplateList → M _ :=
  deep_copy TKubeSwiftClusterTemplateList KubeSwiftClusterTemplateList_DeepCopyInto.
Definition KubeSwiftClusterTemplateList_DeepCopyObject :=
  as_object TKubeSwiftClusterTemplateList KubeSwiftClusterTemplateList_DeepCopy.

(** ** Machines *)

Definition SwiftGuestGPU_DeepCopyInto (in_ out : place SwiftGuestGPU) : M unit := assign in_ out.
Definition SwiftGuestGPU_DeepCopy : ptr TSwiftGuestGPU → M _ :=
  deep_copy TSwiftGuestGPU SwiftGuestGPU_DeepCopyInto.

Definition SwiftGuestInterface_DeepCopyInto (in_ out : place SwiftGuestInterface) : M unit :=
  assign in_ out.
Definition SwiftGuestInterface_DeepCopy : ptr TSwiftGuestInterface → M _ :=
  deep_copy TSwiftGuestInterface SwiftGuestInterface_DeepCopyInto.

(** [copy( *out, *in)] on the interfaces assigns each. *)
Definition SwiftGuestBackend_DeepCopyInto (in_ out : place memSwiftGuestBackend) : M unit :=
  assign in_ out;;
  dup_slice TSwiftGuestInterface assign (in_ .> Interfaces) (out .> Interfaces);;
  dup_ptr TSwiftGuestGPU assign (in_ .> GPU) (out .> GPU).

Definition SwiftGuestBackend_DeepCopy : ptr TSwiftGuestBackend → M _ :=
  deep_copy TSwiftGuestBackend SwiftGuestBackend_DeepCopyInto.

Definition MachineBackend_DeepCopyInto (in_ out : place memMachineBackend) : M unit :=
  assign in_ out;;
  dup_ptr TSwiftGuestBackend SwiftGuestBackend_DeepCopyInto (in_ .> SwiftGuest_) (out .> SwiftGuest_).

Definition MachineBackend_DeepCopy : ptr TMachineBackend → M _ :=
  deep_copy TMachineBackend MachineBackend_DeepCopyInto.

Definition KubeSwiftMachineSpec_DeepCopyInto (in_ out : place memKubeSwiftMachineSpec) : M unit :=
  assign in_ out;;
  MachineBackend_DeepCopyInto (in_ .> Backend_) (out .> Backend_).

Definition KubeSwiftMachineSpec_DeepCopy : ptr TKubeSwiftMachineSpec → M _ :=
  deep_copy TKubeSwiftMachineSpec KubeSwiftMachineSpec_DeepCopyInto.

Definition KubeSwiftMachineStatus_DeepCopyInto (in_ out : place memKubeSwiftMachineStatus) :
    M unit :=
  assign in_ out;;
  InitializationStatus_DeepCopyInto (in_ .> MachineInitialization) (out .> MachineInitialization);;
  dup_slice TMachineAddress assign (in_ .> Addresses) (out .> Addresses);;
  dup_slice TCondition Condition_DeepCopyInto (in_ .> MachineConditions) (out .> MachineConditions).

Definition KubeSwiftMachineStatus_DeepCopy : ptr TKubeSwiftMachineStatus → M _ :=
  deep_copy TKubeSwiftMachineStatus KubeSwiftMachineStatus_DeepCopyInto.

Definition KubeSwiftMachine_DeepCopyInto (in_ out : place memKubeSwiftMachine) : M unit :=
  assign in_ out;;
  assign (in_ .> TypeMeta_) (out .> TypeMeta_);;
  ObjectMeta_DeepCopyInto (in_ .> ObjectMeta_) (out .> ObjectMeta_);;
  KubeSwiftMachineSpec_DeepCopyInto (in_ .> Spec_) (out .> Spec_);;
  KubeSwiftMachineStatus_DeepCopyInto (in_ .> Status_) (out .> Status_).

Definition KubeSwiftMachine_DeepCopy : ptr TKubeSwiftMachine → M _ :=
  deep_copy TKubeSwiftMachine KubeSwiftMachine_DeepCopyInto.
Definition KubeSwiftMachine_DeepCopyObject := as_object TKubeSwiftMachine KubeSwiftMachine_DeepCopy.

Definition KubeSwiftMachineList_DeepCopyInto (in_ out : place memKubeSwiftMachineList) :
    M unit :=
  assign in_ out;;
  assign (in_ .> ListTypeMeta) (out .> ListTypeMeta);;
  ListMeta_DeepCopyInto (in_ .> ListMeta_) (out .> ListMeta_);;
  dup_slice TKubeSwiftMachine KubeSwiftMachine_DeepCopyInto (in_ .> Items) (out .> Items).

Definition KubeSwiftMachineList_DeepCopy : ptr TKubeSwiftMachineList → M _ :=
  deep_copy TKubeSwiftMachineList KubeSwiftMachineList_DeepCopyInto.
Definition KubeSwiftMachineList_DeepCopyObject :=
  as_object TKubeSwiftMachineList KubeSwiftMachineList_DeepCopy.

Definition KubeSwiftMachineTemplateResource_DeepCopyInto
    (in_ out : place (memTemplateResource memKubeSwiftMachineSpec)) : M unit :=
  assign in_ out;;
  TemplateMeta_DeepCopyInto (in_ .> TemplateObjectMeta) (out .> TemplateObjectMeta);;
  KubeSwiftMachineSpec_DeepCopyInto (in_ .> ResourceSpec) (out .> ResourceSpec).

Definition KubeSwiftMachineTemplateResource_DeepCopy : ptr TKubeSwiftMachineTemplateResource → M _ :=
  deep_copy TKubeSwiftMachineTemplateResource KubeSwiftMachineTemplateResource_DeepCopyInto.

Definition KubeSwiftMachineTemplateSpec_DeepCopyInto
    (in_ out : place (memTemplateSpec memKubeSwiftMachineSpec)) : M unit :=
  assign in_ out;;
  KubeSwiftMachineTemplateResource_DeepCopyInto (in_ .> Template) (out .> Template).

Definition KubeSwiftMachineTemplateSpec_DeepCopy : ptr TKubeSwiftMachineTemplateSpec → M _ :=
  deep_copy TKubeSwiftMachineTemplateSpec KubeSwiftMachineTemplateSpec_DeepCopyInto.

Definition KubeSwiftMachineTemplate_DeepCopyInto
    (in_ out : place (memTemplate memKubeSwiftMachineSpec)) : M unit :=
  assign in_ out;;
  assign (in_ .> TemplateTypeMeta) (out .> TemplateTypeMeta);;
  ObjectMeta_DeepCopyInto (in_ .> TemplateMeta_) (out .> TemplateMeta_);;
  KubeSwiftMachineTemplateSpec_DeepCopyInto (in_ .> TemplateSpec) (out .> TemplateSpec).

Definition KubeSwiftMachineTemplate_DeepCopy : ptr TKubeSwiftMachineTemplate → M _ :=
  deep_copy TKubeSwiftMachineTemplate KubeSwiftMachineTemplate_DeepCopyInto.
Definition KubeSwiftMachineTemplate_DeepCopyObject :=
  as_object TKubeSwiftMachineTemplate KubeSwiftMachineTemplate_DeepCopy.

Definition KubeSwiftMachineTemplateList_DeepCopyInto
    (in_ out : place memKubeSwiftMachineTemplateList) : M unit :=
  assign in_ out;;
  assign (in_ .> ListTypeMeta) (out .> ListTypeMeta);;
  ListMeta_DeepCopyInto (in_ .> ListMeta_) (out .> ListMeta_);;
  dup_slice TKubeSwiftMachineTemplate KubeSwiftMachineTemplate_DeepCopyInto
    (in_ .> Items) (out .> Items).

Definition KubeSwiftMachineTemplateList_DeepCopy : ptr TKubeSwiftMachineTemplateList → M _ :=
  deep_copy TKubeSwiftMachineTemplateList KubeSwiftMachineTemplateList_DeepCopyInto.
Definition KubeSwiftMachineTemplateList_DeepCopyObject :=
  as_object TKubeSwiftMachineTemplateList KubeSwiftMachineTemplateList_DeepCopy.

End DeepCopy.
