(* ===== verification/DeepCopySpec.v ===== *)
(** * DeepCopySpec: what the generated deep copies promise, and that they keep it

    For every type of the package, the value a variable of it denotes; every
    [DeepCopyInto] [copies] it, so every [DeepCopy] returns an equal, independent
    object and leaves the memory as it was. *)

From S2P Require Import Prelude Go Kube Api Heap HeapFacts HeapCopies HeapLoops GoTypes DeepCopy.
From stdpp Require Import fin_maps.

(** What the imported packages promise of their own deep copies. *)
Class ForeignCopies `{ForeignDeepCopy} := {
  list_meta : Type;
  rep_ObjectMeta : rep mem_ObjectMeta ObjectMeta;
  rep_ListMeta : rep mem_ListMeta list_meta;
  rep_TemplateMeta : rep mem_TemplateMeta TemplateMeta;
  rep_Condition : rep mem_Condition Condition;
  framed_ObjectMeta :: Framed rep_ObjectMeta;
  framed_ListMeta :: Framed rep_ListMeta;
  framed_TemplateMeta :: Framed rep_TemplateMeta;
  framed_Condition :: Framed rep_Condition;
  copies_ObjectMeta : copies rep_ObjectMeta ObjectMeta_DeepCopyInto;
  copies_ListMeta : copies rep_ListMeta ListMeta_DeepCopyInto;
  copies_TemplateMeta : copies rep_TemplateMeta TemplateMeta_DeepCopyInto;
  copies_Condition : copies rep_Condition Condition_DeepCopyInto
}.

Section DeepCopySpec.
Context `{ForeignCopies}.

(** ** Values

    An object of [Api.v], with what that model leaves out: the type meta, and whether a
    slice is nil rather than empty. *)

Definition nilness {A} (s : slice A) : bool := bool_decide (s = None).

Definition rep_InitializationStatus : rep memInitializationStatus InitializationStatus :=
  λ h r v F, rep_ptr TBool rep_plain h (mi_Provisioned r) (Provisioned v) F.

Definition rep_ControlPlaneServiceSpec : rep memControlPlaneServiceSpec ControlPlaneServiceSpec :=
  λ h r v F, ∃ F1 F2, ms_Type r = cps_Type v ∧ ms_Port r = cps_Port v ∧
    rep_map h (ms_Annotations r) (cps_Annotations v) F1 ∧
    rep_ptr TString rep_plain h (ms_LoadBalancerClass r) (cps_LoadBalancerClass v) F2 ∧
    F = F1 ∪ F2.

Definition rep_ControlPlaneEndpointSpec :
    rep memControlPlaneEndpointSpec ControlPlaneEndpointSpec :=
  λ h r v F, me_Mode r = cpe_Mode v ∧
    rep_ptr TControlPlaneServiceSpec rep_ControlPlaneServiceSpec h
      (me_Service r) (cpe_Service v) F.

Definition rep_KubeSwiftClusterSpec : rep memKubeSwiftClusterSpec KubeSwiftClusterSpec :=
  λ h r v F, ∃ F1 F2, mcs_GuestNamespace r = kscSpec_GuestNamespace v ∧
    rep_ptr TAPIEndpoint rep_plain h
      (mcs_ControlPlaneEndpoint r) (kscSpec_ControlPlaneEndpoint v) F1 ∧
    rep_ptr TControlPlaneEndpointSpec rep_ControlPlaneEndpointSpec h
      (mcs_Endpoint r) (kscSpec_Endpoint v) F2 ∧
    F = F1 ∪ F2.

Definition rep_KubeSwiftClusterStatus :
    rep memKubeSwiftClusterStatus (KubeSwiftClusterStatus * bool) :=
  λ h r '(v, no_conditions) F, ∃ cs F1 F2,
    rep_InitializationStatus h (mct_Initialization r) (kscStatus_Initialization v) F1 ∧
    rep_slice TCondition rep_Condition h (mct_Conditions r) cs F2 ∧
    kscStatus_Conditions v = elems cs ∧ no_conditions = nilness cs ∧
    F = F1 ∪ F2.

Definition rep_SwiftGuestBackend : rep memSwiftGuestBackend SwiftGuestBackend :=
  λ h r v F, ∃ F1 F2, mg_ImageRef r = sgb_ImageRef v ∧ mg_GuestClassRef r = sgb_GuestClassRef v ∧
    mg_NetworkRef r = sgb_NetworkRef v ∧ mg_NodeNetworkRef r = sgb_NodeNetworkRef v ∧
    mg_NodeName r = sgb_NodeName v ∧ mg_StorageClassName r = sgb_StorageClassName v ∧
    rep_slice TSwiftGuestInterface rep_plain h (mg_Interfaces r) (sgb_Interfaces v) F1 ∧
    rep_ptr TSwiftGuestGPU rep_plain h (mg_GPU r) (sgb_GPU v) F2 ∧
    F = F1 ∪ F2.

Definition rep_MachineBackend : rep memMachineBackend MachineBackend :=
  λ h r v F, mb_mem_Type r = mb_Type v ∧
    rep_ptr TSwiftGuestBackend rep_SwiftGuestBackend h (mb_mem_SwiftGuest r) (mb_SwiftGuest v) F.

Definition rep_KubeSwiftMachineSpec : rep memKubeSwiftMachineSpec KubeSwiftMachineSpec :=
  λ h r v F, mms_ProviderID r = ksmSpec_ProviderID v ∧
    rep_MachineBackend h (mms_Backend r) (ksmSpec_Backend v) F.

Definition rep_KubeSwiftMachineStatus :
    rep memKubeSwiftMachineStatus (KubeSwiftMachineStatus * (bool * bool)) :=
  λ h r '(v, (no_addresses, no_conditions)) F, ∃ ads cs F1 F2 F3,
    mmt_FailureDomain r = ksmStatus_FailureDomain v ∧
    rep_InitializationStatus h (mmt_Initialization r) (ksmStatus_Initialization v) F1 ∧
    rep_slice TMachineAddress rep_plain h (mmt_Addresses r) ads F2 ∧
    rep_slice TCondition rep_Condition h (mmt_Conditions r) cs F3 ∧
    ksmStatus_Addresses v = elems ads ∧ no_addresses = nilness ads ∧
    ksmStatus_Conditions v = elems cs ∧ no_conditions = nilness cs ∧
    F = F1 ∪ F2 ∪ F3.

Definition rep_KubeSwiftCluster :
    rep memKubeSwiftCluster (TypeMeta * (KubeSwiftCluster * bool)) :=
  λ h r '(tm, (v, n)) F, ∃ F0 F1 F2 F3,
    rep_plain h (mo_TypeMeta _ _ r) tm F0 ∧
    rep_ObjectMeta h (mo_ObjectMeta _ _ r) (ksc_ObjectMeta v) F1 ∧
    rep_KubeSwiftClusterSpec h (mo_Spec _ _ r) (ksc_Spec v) F2 ∧
    rep_KubeSwiftClusterStatus h (mo_Status _ _ r) (ksc_Status v, n) F3 ∧
    F = F0 ∪ F1 ∪ F2 ∪ F3.

Definition rep_KubeSwiftMachine :
    rep memKubeSwiftMachine (TypeMeta * (KubeSwiftMachine * (bool * bool))) :=
  λ h r '(tm, (v, n)) F, ∃ F0 F1 F2 F3,
    rep_plain h (mo_TypeMeta _ _ r) tm F0 ∧
    rep_ObjectMeta h (mo_ObjectMeta _ _ r) (ksm_ObjectMeta v) F1 ∧
    rep_KubeSwiftMachineSpec h (mo_Spec _ _ r) (ksm_Spec v) F2 ∧
    rep_KubeSwiftMachineStatus h (mo_Status _ _ r) (ksm_Status v, n) F3 ∧
    F = F0 ∪ F1 ∪ F2 ∪ F3.

Definition rep_list {t V} (P : rep (type_den t) V) :
    rep (memList t) (TypeMeta * (list_meta * slice V)) :=
  λ h r '(tm, (lm, items)) F, ∃ F0 F1 F2,
    rep_plain h (ml_TypeMeta _ r) tm F0 ∧
    rep_ListMeta h (ml_ListMeta _ r) lm F1 ∧
    rep_slice t P h (ml_Items _ r) items F2 ∧
    F = F0 ∪ F1 ∪ F2.

(** Templates, of clusters and of machines. *)
Definition rep_resource {Spec V} (P : rep Spec V) :
    rep (memTemplateResource Spec) (TemplateMeta * V) :=
  λ h r '(tm, v) F, ∃ F1 F2,
    rep_TemplateMeta h (mr_ObjectMeta _ r) tm F1 ∧ P h (mr_Spec _ r) v F2 ∧ F = F1 ∪ F2.

Definition rep_template {Spec V} (P : rep Spec V) :
    rep (memTemplate Spec) (TypeMeta * (ObjectMeta * (TemplateMeta * V))) :=
  λ h r '(tm, (om, v)) F, ∃ F0 F1 F2,
    rep_plain h (mt_TypeMeta _ r) tm F0 ∧
    rep_ObjectMeta h (mt_ObjectMeta _ r) om F1 ∧
    rep_resource P h (mts_Template _ (mt_Spec _ r)) v F2 ∧
    F = F0 ∪ F1 ∪ F2.

Definition rep_template_spec {Spec V} (P : rep Spec V) :
    rep (memTemplateSpec Spec) (TemplateMeta * V) :=
  λ h r, rep_resource P h (mts_Template _ r).

(** ** Every representation is framed *)

#[export] Instance framed_InitializationStatus : Framed rep_InitializationStatus.
Proof. unfold rep_InitializationStatus. framed_struct. Qed.
#[export] Instance framed_ControlPlaneServiceSpec : Framed rep_ControlPlaneServiceSpec.
Proof. unfold rep_ControlPlaneServiceSpec. framed_struct. Qed.
#[export] Instance framed_ControlPlaneEndpointSpec : Framed rep_ControlPlaneEndpointSpec.
Proof. unfold rep_ControlPlaneEndpointSpec. framed_struct. Qed.
#[export] Instance framed_KubeSwiftClusterSpec : Framed rep_KubeSwiftClusterSpec.
Proof. unfold rep_KubeSwiftClusterSpec. framed_struct. Qed.
#[export] Instance framed_KubeSwiftClusterStatus : Framed rep_KubeSwiftClusterStatus.
Proof. unfold rep_KubeSwiftClusterStatus. framed_struct. Qed.
#[export] Instance framed_SwiftGuestBackend : Framed rep_SwiftGuestBackend.
Proof. unfold rep_SwiftGuestBackend. framed_struct. Qed.
#[export] Instance framed_MachineBackend : Framed rep_MachineBackend.
Proof. unfold rep_MachineBackend. framed_struct. Qed.
#[export] Instance framed_KubeSwiftMachineSpec : Framed rep_KubeSwiftMachineSpec.
Proof. unfold rep_KubeSwiftMachineSpec. framed_struct. Qed.
#[export] Instance framed_KubeSwiftMachineStatus : Framed rep_KubeSwiftMachineStatus.
Proof. unfold rep_KubeSwiftMachineStatus. framed_struct. Qed.
#[export] Instance framed_KubeSwiftCluster : Framed rep_KubeSwiftCluster.
Proof. unfold rep_KubeSwiftCluster. framed_struct. Qed.
#[export] Instance framed_KubeSwiftMachine : Framed rep_KubeSwiftMachine.
Proof. unfold rep_KubeSwiftMachine. framed_struct. Qed.
#[export] Instance framed_list {t V} (P : rep (type_den t) V) : Framed P → Framed (rep_list P).
Proof. intros ?. unfold rep_list. framed_struct. Qed.
#[export] Instance framed_resource {Spec V} (P : rep Spec V) : Framed P → Framed (rep_resource P).
Proof. intros ?. unfold rep_resource. framed_struct. Qed.
#[export] Instance framed_template_spec {Spec V} (P : rep Spec V) :
  Framed P → Framed (rep_template_spec P).
Proof.
  intros HP. split.
  - intros h h' r v F HF Hf. by apply (framed (P := rep_resource P) h).
  - intros h r v F HF. by apply (owned (P := rep_resource P)) in HF.
Qed.
#[export] Instance framed_template {Spec V} (P : rep Spec V) : Framed P → Framed (rep_template P).
Proof. intros ?. unfold rep_template. framed_struct. Qed.

(** ** Every [DeepCopyInto] copies *)

#[local] Hint Resolve copies_ObjectMeta copies_ListMeta copies_TemplateMeta copies_Condition
  : copying.

Lemma copies_InitializationStatus : copies rep_InitializationStatus InitializationStatus_DeepCopyInto.
Proof. unfold rep_InitializationStatus, InitializationStatus_DeepCopyInto. copy_struct. Qed.
#[local] Hint Resolve copies_InitializationStatus : copying.
Lemma copies_ControlPlaneServiceSpec : copies rep_ControlPlaneServiceSpec ControlPlaneServiceSpec_DeepCopyInto.
Proof. unfold rep_ControlPlaneServiceSpec, ControlPlaneServiceSpec_DeepCopyInto. copy_struct. Qed.
#[local] Hint Resolve copies_ControlPlaneServiceSpec : copying.
Lemma copies_ControlPlaneEndpointSpec : copies rep_ControlPlaneEndpointSpec ControlPlaneEndpointSpec_DeepCopyInto.
Proof. unfold rep_ControlPlaneEndpointSpec, ControlPlaneEndpointSpec_DeepCopyInto. copy_struct. Qed.
#[local] Hint Resolve copies_ControlPlaneEndpointSpec : copying.
Lemma copies_KubeSwiftClusterSpec : copies rep_KubeSwiftClusterSpec KubeSwiftClusterSpec_DeepCopyInto.
Proof. unfold rep_KubeSwiftClusterSpec, KubeSwiftClusterSpec_DeepCopyInto. copy_struct. Qed.
#[local] Hint Resolve copies_KubeSwiftClusterSpec : copying.
Lemma copies_KubeSwiftClusterStatus : copies rep_KubeSwiftClusterStatus KubeSwiftClusterStatus_DeepCopyInto.
Proof. unfold rep_KubeSwiftClusterStatus, KubeSwiftClusterStatus_DeepCopyInto. copy_struct. Qed.
#[local] Hint Resolve copies_KubeSwiftClusterStatus : copying.
Lemma copies_KubeSwiftCluster : copies rep_KubeSwiftCluster KubeSwiftCluster_DeepCopyInto.
Proof. unfold rep_KubeSwiftCluster, KubeSwiftCluster_DeepCopyInto. copy_struct. Qed.
#[local] Hint Resolve copies_KubeSwiftCluster : copying.
Lemma copies_KubeSwiftClusterList : copies (rep_list (t := TKubeSwiftCluster) rep_KubeSwiftCluster) KubeSwiftClusterList_DeepCopyInto.
Proof. unfold rep_list, KubeSwiftClusterList_DeepCopyInto. copy_struct. Qed.
#[local] Hint Resolve copies_KubeSwiftClusterList : copying.
Lemma copies_KubeSwiftClusterTemplateResource : copies (rep_resource rep_KubeSwiftClusterSpec) KubeSwiftClusterTemplateResource_DeepCopyInto.
Proof. unfold rep_resource, KubeSwiftClusterTemplateResource_DeepCopyInto. copy_struct. Qed.
#[local] Hint Resolve copies_KubeSwiftClusterTemplateResource : copying.
Lemma copies_KubeSwiftClusterTemplateSpec : copies (rep_template_spec rep_KubeSwiftClusterSpec) KubeSwiftClusterTemplateSpec_DeepCopyInto.
Proof. unfold rep_template_spec, KubeSwiftClusterTemplateSpec_DeepCopyInto. copy_struct. Qed.
#[local] Hint Resolve copies_KubeSwiftClusterTemplateSpec : copying.
Lemma copies_KubeSwiftClusterTemplate : copies (rep_template rep_KubeSwiftClusterSpec) KubeSwiftClusterTemplate_DeepCopyInto.
Proof. unfold rep_template, KubeSwiftClusterTemplate_DeepCopyInto. copy_struct. Qed.
#[local] Hint Resolve copies_KubeSwiftClusterTemplate : copying.
Lemma copies_KubeSwiftClusterTemplateList : copies (rep_list (t := TKubeSwiftClusterTemplate) (rep_template rep_KubeSwiftClusterSpec)) KubeSwiftClusterTemplateList_DeepCopyInto.
Proof. unfold rep_list, KubeSwiftClusterTemplateList_DeepCopyInto. copy_struct. Qed.
#[local] Hint Resolve copies_KubeSwiftClusterTemplateList : copying.
Lemma copies_SwiftGuestBackend : copies rep_SwiftGuestBackend SwiftGuestBackend_DeepCopyInto.
Proof. unfold rep_SwiftGuestBackend, SwiftGuestBackend_DeepCopyInto. copy_struct. Qed.
#[local] Hint Resolve copies_SwiftGuestBackend : copying.
Lemma copies_MachineBackend : copies rep_MachineBackend MachineBackend_DeepCopyInto.
Proof. unfold rep_MachineBackend, MachineBackend_DeepCopyInto. copy_struct. Qed.
#[local] Hint Resolve copies_MachineBackend : copying.
Lemma copies_KubeSwiftMachineSpec : copies rep_KubeSwiftMachineSpec KubeSwiftMachineSpec_DeepCopyInto.
Proof. unfold rep_KubeSwiftMachineSpec, KubeSwiftMachineSpec_DeepCopyInto. copy_struct. Qed.
#[local] Hint Resolve copies_KubeSwiftMachineSpec : copying.
Lemma copies_KubeSwiftMachineStatus : copies rep_KubeSwiftMachineStatus KubeSwiftMachineStatus_DeepCopyInto.
Proof. unfold rep_KubeSwiftMachineStatus, KubeSwiftMachineStatus_DeepCopyInto. copy_struct. Qed.
#[local] Hint Resolve copies_KubeSwiftMachineStatus : copying.
Lemma copies_KubeSwiftMachine : copies rep_KubeSwiftMachine KubeSwiftMachine_DeepCopyInto.
Proof. unfold rep_KubeSwiftMachine, KubeSwiftMachine_DeepCopyInto. copy_struct. Qed.
#[local] Hint Resolve copies_KubeSwiftMachine : copying.
Lemma copies_KubeSwiftMachineList : copies (rep_list (t := TKubeSwiftMachine) rep_KubeSwiftMachine) KubeSwiftMachineList_DeepCopyInto.
Proof. unfold rep_list, KubeSwiftMachineList_DeepCopyInto. copy_struct. Qed.
#[local] Hint Resolve copies_KubeSwiftMachineList : copying.
Lemma copies_KubeSwiftMachineTemplateResource : copies (rep_resource rep_KubeSwiftMachineSpec) KubeSwiftMachineTemplateResource_DeepCopyInto.
Proof. unfold rep_resource, KubeSwiftMachineTemplateResource_DeepCopyInto. copy_struct. Qed.
#[local] Hint Resolve copies_KubeSwiftMachineTemplateResource : copying.
Lemma copies_KubeSwiftMachineTemplateSpec : copies (rep_template_spec rep_KubeSwiftMachineSpec) KubeSwiftMachineTemplateSpec_DeepCopyInto.
Proof. unfold rep_template_spec, KubeSwiftMachineTemplateSpec_DeepCopyInto. copy_struct. Qed.
#[local] Hint Resolve copies_KubeSwiftMachineTemplateSpec : copying.
Lemma copies_KubeSwiftMachineTemplate : copies (rep_template rep_KubeSwiftMachineSpec) KubeSwiftMachineTemplate_DeepCopyInto.
Proof. unfold rep_template, KubeSwiftMachineTemplate_DeepCopyInto. copy_struct. Qed.
#[local] Hint Resolve copies_KubeSwiftMachineTemplate : copying.
Lemma copies_KubeSwiftMachineTemplateList : copies (rep_list (t := TKubeSwiftMachineTemplate) (rep_template rep_KubeSwiftMachineSpec)) KubeSwiftMachineTemplateList_DeepCopyInto.
Proof. unfold rep_list, KubeSwiftMachineTemplateList_DeepCopyInto. copy_struct. Qed.
Lemma copies_SwiftGuestGPU : copies rep_plain SwiftGuestGPU_DeepCopyInto.
Proof. apply copies_assign. Qed.
Lemma copies_SwiftGuestInterface : copies rep_plain SwiftGuestInterface_DeepCopyInto.
Proof. apply copies_assign. Qed.
#[local] Hint Resolve copies_KubeSwiftMachineTemplateList copies_SwiftGuestGPU
  copies_SwiftGuestInterface : copying.

(** ** The generated types *)

Record generated : Type := mkGenerated {
  g_type : type;
  g_value : Type;
  g_rep : rep (type_den g_type) g_value;
  g_into : place (type_den g_type) → place (type_den g_type) → M unit;
  g_DeepCopy : ptr g_type → M (ptr g_type)
}.

Definition all_generated : list generated := [
  mkGenerated TControlPlaneEndpointSpec _ rep_ControlPlaneEndpointSpec
    ControlPlaneEndpointSpec_DeepCopyInto ControlPlaneEndpointSpec_DeepCopy;
  mkGenerated TControlPlaneServiceSpec _ rep_ControlPlaneServiceSpec
    ControlPlaneServiceSpec_DeepCopyInto ControlPlaneServiceSpec_DeepCopy;
  mkGenerated TInitializationStatus _ rep_InitializationStatus
    InitializationStatus_DeepCopyInto InitializationStatus_DeepCopy;
  mkGenerated TKubeSwiftCluster _ rep_KubeSwiftCluster
    KubeSwiftCluster_DeepCopyInto KubeSwiftCluster_DeepCopy;
  mkGenerated TKubeSwiftClusterList _ (rep_list (t := TKubeSwiftCluster) rep_KubeSwiftCluster)
    KubeSwiftClusterList_DeepCopyInto KubeSwiftClusterList_DeepCopy;
  mkGenerated TKubeSwiftClusterSpec _ rep_KubeSwiftClusterSpec
    KubeSwiftClusterSpec_DeepCopyInto KubeSwiftClusterSpec_DeepCopy;
  mkGenerated TKubeSwiftClusterStatus _ rep_KubeSwiftClusterStatus
    KubeSwiftClusterStatus_DeepCopyInto KubeSwiftClusterStatus_DeepCopy;
  mkGenerated TKubeSwiftClusterTemplate _ (rep_template rep_KubeSwiftClusterSpec)
    KubeSwiftClusterTemplate_DeepCopyInto KubeSwiftClusterTemplate_DeepCopy;
  mkGenerated TKubeSwiftClusterTemplateList _
    (rep_list (t := TKubeSwiftClusterTemplate) (rep_template rep_KubeSwiftClusterSpec))
    KubeSwiftClusterTemplateList_DeepCopyInto KubeSwiftClusterTemplateList_DeepCopy;
  mkGenerated TKubeSwiftClusterTemplateResource _ (rep_resource rep_KubeSwiftClusterSpec)
    KubeSwiftClusterTemplateResource_DeepCopyInto KubeSwiftClusterTemplateResource_DeepCopy;
  mkGenerated TKubeSwiftClusterTemplateSpec _ (rep_template_spec rep_KubeSwiftClusterSpec)
    KubeSwiftClusterTemplateSpec_DeepCopyInto KubeSwiftClusterTemplateSpec_DeepCopy;
  mkGenerated TKubeSwiftMachine _ rep_KubeSwiftMachine
    KubeSwiftMachine_DeepCopyInto KubeSwiftMachine_DeepCopy;
  mkGenerated TKubeSwiftMachineList _ (rep_list (t := TKubeSwiftMachine) rep_KubeSwiftMachine)
    KubeSwiftMachineList_DeepCopyInto KubeSwiftMachineList_DeepCopy;
  mkGenerated TKubeSwiftMachineSpec _ rep_KubeSwiftMachineSpec
    KubeSwiftMachineSpec_DeepCopyInto KubeSwiftMachineSpec_DeepCopy;
  mkGenerated TKubeSwiftMachineStatus _ rep_KubeSwiftMachineStatus
    KubeSwiftMachineStatus_DeepCopyInto KubeSwiftMachineStatus_DeepCopy;
  mkGenerated TKubeSwiftMachineTemplate _ (rep_template rep_KubeSwiftMachineSpec)
    KubeSwiftMachineTemplate_DeepCopyInto KubeSwiftMachineTemplate_DeepCopy;
  mkGenerated TKubeSwiftMachineTemplateList _
    (rep_list (t := TKubeSwiftMachineTemplate) (rep_template rep_KubeSwiftMachineSpec))
    KubeSwiftMachineTemplateList_DeepCopyInto KubeSwiftMachineTemplateList_DeepCopy;
  mkGenerated TKubeSwiftMachineTemplateResource _ (rep_resource rep_KubeSwiftMachineSpec)
    KubeSwiftMachineTemplateResource_DeepCopyInto KubeSwiftMachineTemplateResource_DeepCopy;
  mkGenerated TKubeSwiftMachineTemplateSpec _ (rep_template_spec rep_KubeSwiftMachineSpec)
    KubeSwiftMachineTemplateSpec_DeepCopyInto KubeSwiftMachineTemplateSpec_DeepCopy;
  mkGenerated TMachineBackend _ rep_MachineBackend
    MachineBackend_DeepCopyInto MachineBackend_DeepCopy;
  mkGenerated TSwiftGuestBackend _ rep_SwiftGuestBackend
    SwiftGuestBackend_DeepCopyInto SwiftGuestBackend_DeepCopy;
  mkGenerated TSwiftGuestGPU _ rep_plain SwiftGuestGPU_DeepCopyInto SwiftGuestGPU_DeepCopy;
  mkGenerated TSwiftGuestInterface _ rep_plain
    SwiftGuestInterface_DeepCopyInto SwiftGuestInterface_DeepCopy ].

Lemma generated_copies :
  Forall (λ g, copies (g_rep g) (g_into g) ∧ Framed (g_rep g) ∧
               g_DeepCopy g = deep_copy (g_type g) (g_into g)) all_generated.
Proof. repeat (constructor; [split_and!; [solve_copies|apply _|reflexivity]|]). constructor. Qed.

(** [DeepCopyInto] of every type, on two variables that do not overlap, returns
    without a panic; [*out] then denotes what [*in] denotes - nil stays nil - and owns
    only new cells; outside [*out] the memory is as it was. *)
Theorem DeepCopyInto_copies g in_ out h r v F y :
  g ∈ all_generated →
  wf_place in_ → wf_place out → holds in_ h r → holds out h y →
  g_rep g h r v F → p_loc out ≠ p_loc in_ → p_loc out ∉ F →
  ∃ h' r' F', g_into g in_ out h = Some (h', tt) ∧
    g_rep g h' r' v F' ∧ F' ## dom h ∧
    holds out h' r' ∧ holds in_ h' r ∧ g_rep g h' r v F ∧
    (∀ l, l ∈ dom h → l ≠ p_loc out → h' !! l = h !! l).
Proof.
  intros Hg Wi Wo Hi Ho HP Hne HF.
  pose proof generated_copies as Hall. rewrite list.Forall_forall in Hall.
  destruct (Hall g Hg) as (Hc & Hfr & _).
  destruct (Hc in_ out h r v F y) as (h' & r' & F' & Hr & Hw & HP' & Hd); [done..|].
  exists h', r', F'. split_and!; [done..| | | |apply Hw].
  - by eapply writes_holds.
  - eapply holds_frame; [done|apply Hw|done].
  - eapply framed_off; [done|done|apply Hw|done].
Qed.

(** C18: [DeepCopy] of every type returns without a panic a pointer - nil for nil - to an
    object equal to the original, in new memory only: whatever is later done to the copy,
    the original stays as it was, and whatever is done to the original, the copy does. *)
Theorem DeepCopy_isolated g h p v F :
  g ∈ all_generated → rep_ptr (g_type g) (g_rep g) h p v F →
  ∃ h' p' F', g_DeepCopy g p h = Some (h', p') ∧ h ⊆ h' ∧
    rep_ptr (g_type g) (g_rep g) h' p' v F' ∧ F' ## dom h ∧
    (∀ h'', (∀ l, l ∉ F' → h'' !! l = h' !! l) → rep_ptr (g_type g) (g_rep g) h'' p v F) ∧
    (∀ h'', (∀ l, l ∉ F → h'' !! l = h' !! l) → rep_ptr (g_type g) (g_rep g) h'' p' v F').
Proof.
  intros Hg HP. pose proof generated_copies as Hall. rewrite list.Forall_forall in Hall.
  destruct (Hall g Hg) as (Hc & Hfr & ->). pose proof (owned _ _ _ _ HP) as HF.
  destruct (deep_copy_run _ (g_rep g) (g_into g) h p v F Hc HP)
    as (h' & p' & F' & Hr & He & HP' & Hd).
  exists h', p', F'. split_and!; [done..| |].
  - intros h'' Hoff. eapply (framed h'); [by eapply (framed_extends (rep_ptr _ (g_rep g)) h h')|].
    intros l Hl. apply Hoff. set_solver.
  - intros h'' Hoff. eapply (framed h'); [done|]. intros l Hl. apply Hoff. set_solver.
Qed.

(** ** The root types: what the scheme and the client pass around *)

Record rooted : Type := mkRooted {
  r_generated : generated;
  r_DeepCopyObject : ptr (g_type r_generated) → M Object_
}.
Definition rooted_at (t : type) {V} (P : rep (type_den t) V) into
    (copy : ptr t → M (ptr t)) (object : ptr t → M Object_) : rooted :=
  mkRooted (mkGenerated t V P into copy) object.

Definition all_rooted : list rooted := [
  rooted_at TKubeSwiftCluster rep_KubeSwiftCluster
    KubeSwiftCluster_DeepCopyInto KubeSwiftCluster_DeepCopy KubeSwiftCluster_DeepCopyObject;
  rooted_at TKubeSwiftClusterList (rep_list (t := TKubeSwiftCluster) rep_KubeSwiftCluster)
    KubeSwiftClusterList_DeepCopyInto KubeSwiftClusterList_DeepCopy
    KubeSwiftClusterList_DeepCopyObject;
  rooted_at TKubeSwiftClusterTemplate (rep_template rep_KubeSwiftClusterSpec)
    KubeSwiftClusterTemplate_DeepCopyInto KubeSwiftClusterTemplate_DeepCopy
    KubeSwiftClusterTemplate_DeepCopyObject;
  rooted_at TKubeSwiftClusterTemplateList
    (rep_list (t := TKubeSwiftClusterTemplate) (rep_template rep_KubeSwiftClusterSpec))
    KubeSwiftClusterTemplateList_DeepCopyInto KubeSwiftClusterTemplateList_DeepCopy
    KubeSwiftClusterTemplateList_DeepCopyObject;
  rooted_at TKubeSwiftMachine rep_KubeSwiftMachine
    KubeSwiftMachine_DeepCopyInto KubeSwiftMachine_DeepCopy KubeSwiftMachine_DeepCopyObject;
  rooted_at TKubeSwiftMachineList (rep_list (t := TKubeSwiftMachine) rep_KubeSwiftMachine)
    KubeSwiftMachineList_DeepCopyInto KubeSwiftMachineList_DeepCopy
    KubeSwiftMachineList_DeepCopyObject;
  rooted_at TKubeSwiftMachineTemplate (rep_template rep_KubeSwiftMachineSpec)
    KubeSwiftMachineTemplate_DeepCopyInto KubeSwiftMachineTemplate_DeepCopy
    KubeSwiftMachineTemplate_DeepCopyObject;
  rooted_at TKubeSwiftMachineTemplateList
    (rep_list (t := TKubeSwiftMachineTemplate) (rep_template rep_KubeSwiftMachineSpec))
    KubeSwiftMachineTemplateList_DeepCopyInto KubeSwiftMachineTemplateList_DeepCopy
    KubeSwiftMachineTemplateList_DeepCopyObject ].

Lemma rooted_generated :
  Forall (λ r, r_generated r ∈ all_generated ∧
    r_DeepCopyObject r = as_object (g_type (r_generated r)) (g_DeepCopy (r_generated r))) all_rooted.
Proof.
  repeat (constructor; [split; [unfold all_generated; repeat first [apply list_elem_of_here|apply list_elem_of_further]|reflexivity]|]).
  constructor.
Qed.

(** The object of a call, for a nil pointer and for any other. *)
Lemma DeepCopyObject_run r h p v F :
  let g := r_generated r in
  r ∈ all_rooted → rep_ptr (g_type g) (g_rep g) h p v F →
  ∃ h', h ⊆ h' ∧
    match p with
    | None => r_DeepCopyObject r p h = Some (h', None)
    | Some _ => ∃ l F', r_DeepCopyObject r p h = Some (h', Some (g_type g, Some l)) ∧
        rep_ptr (g_type g) (g_rep g) h' (Some l) v F' ∧ l ∈ F' ∧ F' ## dom h
    end.
Proof.
  intros g Hr HP. pose proof rooted_generated as Hroot. rewrite list.Forall_forall in Hroot.
  destruct (Hroot r Hr) as [Hg ->].
  pose proof generated_copies as Hall. rewrite list.Forall_forall in Hall.
  destruct (Hall g Hg) as (Hc & Hfr & Heq).
  destruct (deep_copy_run _ (g_rep g) (g_into g) h p v F Hc HP) as (h' & p' & F' & Hrun & He & HP' & Hd).
  unfold as_object. fold g. rewrite Heq. mrun Hrun. exists h'. split; [done|].
  destruct p as [l|], v as [w|], p' as [l'|]; simpl in HP, HP'; try done.
  exists l', F'. split_and!; [done..| |done].
  destruct HP' as (x & F1 & _ & _ & ->). set_solver.
Qed.

End DeepCopySpec.
