(* ===== verification/CopyReference.v ===== *)
(** * CopyReference: metadata whose deep copies are known

    An instance of the parameters of [GoTypes.v], [DeepCopy.v] and [DeepCopySpec.v]:
    labels and annotations lie in maps of their own, and are copied. *)

From S2P Require Import Prelude Go Kube Api Heap HeapFacts HeapCopies HeapLoops GoTypes.
From S2P Require Import DeepCopy DeepCopySpec.
From stdpp Require Import fin_maps.

Record meta_in_memory := mkMeta {
  mm_Rest : ObjectMeta;
  mm_Labels : mapref;
  mm_Annotations : mapref
}.
Record template_in_memory := mkTemplate { mm_TLabels : mapref; mm_TAnnotations : mapref }.

#[export] Instance sample_types : ForeignTypes := {|
  foreign_cell := unit; zero_foreign := tt;
  mem_ObjectMeta := meta_in_memory; zero_ObjectMeta := mkMeta meta_zero None None;
  mem_ListMeta := string; zero_ListMeta := "";
  mem_TemplateMeta := template_in_memory; zero_TemplateMeta := mkTemplate None None;
  mem_Condition := Condition; zero_Condition := mkCondition "" "" "" "";
  range_order := map_to_list; range_order_perm := λ m, reflexivity _
|}.

Definition Labels_ : field meta_in_memory mapref :=
  mkField mm_Labels (λ y s, mkMeta (mm_Rest s) y (mm_Annotations s)).
Definition Annotations_ : field meta_in_memory mapref :=
  mkField mm_Annotations (λ y s, mkMeta (mm_Rest s) (mm_Labels s) y).
Definition TLabels : field template_in_memory mapref :=
  mkField mm_TLabels (λ y s, mkTemplate y (mm_TAnnotations s)).
Definition TAnnotations : field template_in_memory mapref :=
  mkField mm_TAnnotations (λ y s, mkTemplate (mm_TLabels s) y).

Definition copy_meta (in_ out : place meta_in_memory) : M unit :=
  assign in_ out;;
  dup_map (in_ .> Labels_) (out .> Labels_);;
  dup_map (in_ .> Annotations_) (out .> Annotations_).
Definition copy_template (in_ out : place template_in_memory) : M unit :=
  assign in_ out;;
  dup_map (in_ .> TLabels) (out .> TLabels);;
  dup_map (in_ .> TAnnotations) (out .> TAnnotations).

#[export] Instance sample_copiers : ForeignDeepCopy := {|
  ObjectMeta_DeepCopyInto := copy_meta;
  ListMeta_DeepCopyInto := assign;
  TemplateMeta_DeepCopyInto := copy_template;
  Condition_DeepCopyInto := assign
|}.

Definition rest_of (m : ObjectMeta) : ObjectMeta :=
  mkObjectMeta (meta_Name m) (meta_Namespace m) None None (meta_Finalizers m)
    (meta_DeletionTimestamp m) (meta_OwnerReferences m) (meta_ResourceVersion m).

Definition rep_meta : rep meta_in_memory ObjectMeta := λ h r v F, ∃ F1 F2,
  mm_Rest r = rest_of v ∧
  rep_map h (mm_Labels r) (meta_Labels v) F1 ∧
  rep_map h (mm_Annotations r) (meta_Annotations v) F2 ∧ F = F1 ∪ F2.
Definition rep_tmeta : rep template_in_memory TemplateMeta := λ h r v F, ∃ F1 F2,
  rep_map h (mm_TLabels r) (tm_Labels v) F1 ∧
  rep_map h (mm_TAnnotations r) (tm_Annotations v) F2 ∧ F = F1 ∪ F2.

#[export] Instance framed_meta : Framed rep_meta.
Proof. unfold rep_meta. framed_struct. Qed.
#[export] Instance framed_tmeta : Framed rep_tmeta.
Proof. unfold rep_tmeta. framed_struct. Qed.

Lemma copies_meta : copies rep_meta copy_meta.
Proof. unfold rep_meta, copy_meta. copy_struct. Qed.
Lemma copies_tmeta : copies rep_tmeta copy_template.
Proof. unfold rep_tmeta, copy_template. copy_struct. Qed.

#[export] Instance sample_copies : ForeignCopies := {|
  list_meta := string;
  rep_ObjectMeta := rep_meta; rep_ListMeta := rep_plain;
  rep_TemplateMeta := rep_tmeta; rep_Condition := rep_plain;
  copies_ObjectMeta := copies_meta; copies_ListMeta := copies_assign;
  copies_TemplateMeta := copies_tmeta; copies_Condition := copies_assign
|}.
