(* ===== verification/CopyWitnesses.v ===== *)
(** * CopyWitnesses: a machine in memory, and the deep-copy claims at it *)

From S2P Require Import Prelude Go Kube Api Heap HeapFacts HeapCopies HeapLoops GoTypes.
From S2P Require Import DeepCopy DeepCopySpec CopyReference.
From stdpp Require Import fin_maps.

(** A machine with two labels, two interfaces, a GPU, and one address - the second
    element of a longer array. *)
Definition labels_m : gmap string string := {[ "a" := "1"; "b" := "2" ]}.
Definition nics : list SwiftGuestInterface :=
  [ mkSwiftGuestInterface "eth0" "" true; mkSwiftGuestInterface "eth1" "storage" false ].
Definition gpu_m : SwiftGuestGPU := mkSwiftGuestGPU "" "" "gpu" "big" "pcie" "".
Definition ips : list MachineAddress :=
  [ mkMachineAddress "InternalIP" "10.0.0.1"; mkMachineAddress "InternalIP" "10.0.0.2" ].

Definition guest_mem : memSwiftGuestBackend :=
  mkMemSwiftGuest "img" "cls" "" "" (Some (mkHeader 4%positive 0 2)) "" (Some 5%positive) "".
Definition machine_mem : memKubeSwiftMachine :=
  mkMemObject _ _ (mkTypeMeta "KubeSwiftMachine" "v1alpha1")
    (mkMeta (rest_of meta_zero) (Some 2%positive) None : mem_ObjectMeta)
    (mkMemMachineSpec "" (mkMemBackend "SwiftGuest" (Some 3%positive)))
    (mkMemMachineStatus (mkMemInit (Some 6%positive)) (Some (mkHeader 7%positive 1 1)) "" None).

Definition memory : heap :=
  <[1%positive := Obj (TKubeSwiftMachine : ty) machine_mem]> (
  <[2%positive := Map labels_m]> (
  <[3%positive := Obj (TSwiftGuestBackend : ty) guest_mem]> (
  <[4%positive := Arr (TSwiftGuestInterface : ty) nics]> (
  <[5%positive := Obj (TSwiftGuestGPU : ty) gpu_m]> (
  <[6%positive := Obj (TBool : ty) true]> (
  <[7%positive := Arr (TMachineAddress : ty) ips]> ∅)))))).

Definition machine_value : TypeMeta * (KubeSwiftMachine * (bool * bool)) :=
  (mkTypeMeta "KubeSwiftMachine" "v1alpha1",
   (mkKubeSwiftMachine
      (mkObjectMeta "" "" (Some labels_m) None [] None [] "")
      (mkKubeSwiftMachineSpec "" (mkMachineBackend "SwiftGuest"
         (Some (mkSwiftGuestBackend "img" "cls" "" "" (Some nics) "" (Some gpu_m) ""))))
      (mkKubeSwiftMachineStatus (mkInitializationStatus (Some true))
         [mkMachineAddress "InternalIP" "10.0.0.2"] "" []),
    (false, true))).

Ltac elems_of := repeat first [apply list_elem_of_here | apply list_elem_of_further].

Definition machine_entry : generated :=
  mkGenerated TKubeSwiftMachine _ rep_KubeSwiftMachine
    KubeSwiftMachine_DeepCopyInto KubeSwiftMachine_DeepCopy.

(** Evaluate the memory, choose the cells as they are found. *)
Ltac denote :=
  repeat (hnf; lazymatch goal with
  | |- ∃ _ : option (list (den _)), _ => exists (Some [mkMachineAddress "InternalIP" "10.0.0.2"])
  | |- ∃ _ : slice Condition, _ => exists None
  | |- ∃ _, _ => eexists
  | |- _ ∧ _ => split
  | |- (_ ≤ _)%nat => cbn; lia
  | |- _ = _ => reflexivity
  end).

Lemma machine_denotes : ∃ F, rep_ptr TKubeSwiftMachine rep_KubeSwiftMachine memory
  (Some 1%positive) (Some machine_value) F.
Proof. denote. Qed.

Lemma machine_generated : machine_entry ∈ all_generated.
Proof. unfold all_generated. elems_of. Qed.

(** The copy, computed: it runs, and its new cells denote the machine again. *)
Definition copied : bool :=
  match KubeSwiftMachine_DeepCopy (Some 1%positive) memory with
  | Some (h', Some l) => (l =? 8)%positive && (size h' =? 14)%nat
  | _ => false
  end.
Example machine_copied : copied = true.
Proof. reflexivity. Qed.

Lemma DeepCopy_isolated_witness : ∃ h' p' F',
  KubeSwiftMachine_DeepCopy (Some 1%positive) memory = Some (h', p') ∧
  memory ⊆ h' ∧ rep_ptr TKubeSwiftMachine rep_KubeSwiftMachine h' p' (Some machine_value) F' ∧
  F' ## dom memory.
Proof.
  destruct machine_denotes as [F HF].
  destruct (DeepCopy_isolated machine_entry memory (Some 1%positive) (Some machine_value) F
              machine_generated HF) as (h' & p' & F' & Hr & He & HP & Hd & _).
  exists h', p', F'. exact (conj Hr (conj He (conj HP Hd))).
Defined.

Definition gpu_entry : generated :=
  mkGenerated TSwiftGuestGPU _ rep_plain SwiftGuestGPU_DeepCopyInto SwiftGuestGPU_DeepCopy.
Definition gpu_at (l : loc) : place SwiftGuestGPU := obj_at (TSwiftGuestGPU : ty) l.
Definition with_target : heap :=
  <[9%positive := Obj (TSwiftGuestGPU : ty) (type_zero TSwiftGuestGPU)]> memory.

Lemma DeepCopyInto_copies_witness : ∃ h',
  SwiftGuestGPU_DeepCopyInto (gpu_at 5) (gpu_at 9) with_target = Some (h', tt) ∧
  holds (gpu_at 9) h' gpu_m.
Proof.
  destruct (DeepCopyInto_copies gpu_entry (gpu_at 5) (gpu_at 9) with_target
              gpu_m gpu_m ∅ (type_zero TSwiftGuestGPU)) as (h' & r' & F' & Hr & HP & _ & Hh & _).
  - unfold all_generated. elems_of.
  - apply (wf_obj_at (G := provider_types) TSwiftGuestGPU).
  - apply (wf_obj_at (G := provider_types) TSwiftGuestGPU).
  - by apply (holds_obj (G := provider_types) TSwiftGuestGPU).
  - by apply (holds_obj (G := provider_types) TSwiftGuestGPU).
  - done.
  - done.
  - done.
  - exists h'. split; [exact Hr|]. destruct HP as [-> _]. exact Hh.
Defined.
