(* ===== verification/Lib.v ===== *)
(** * Lib: what the provider expects of the libraries it calls

    [Lib] has one field per library function outside the repository; the laws
    are classes of their own, one per package, and state documented behaviour.
    [call] is the type of requests that leave the process. *)

From S2P Require Import Prelude Go Prog Kube Api.

(** ** Pure library functions *)

Class Lib := {
  (** strconv: the Unicode tables behind [IsPrint] *)
  wide_IsPrint : N → bool;

  (** apierrors and controller-runtime's client *)
  IsNotFound : option error → bool;
  IgnoreNotFound : option error → option error;
  NewBadRequest : string → error;

  (** types.NamespacedName *)
  NamespacedName_String : NamespacedName → string;

  (** k8s.io/utils/ptr *)
  ptr_Deref : ∀ {A}, option A → A → A;

  (** metav1.Time *)
  Time_IsZero : option Z → bool;

  (** apimachinery/util/intstr *)
  intstr_FromInt32 : Z → IntOrString;

  (** unstructured.Unstructured *)
  SetGroupVersionKind : Unstructured → GroupVersionKind → Unstructured;
  SetNamespace : Unstructured → string → Unstructured;
  SetName : Unstructured → string → Unstructured;
  SetLabels : Unstructured → gomap string → Unstructured;
  GetNamespace : Unstructured → string;
  GetName : Unstructured → string;
  GetLabels : Unstructured → gomap string;
  GetDeletionTimestamp : Unstructured → option Z;
  NestedString : gmap string val → list string → string * bool * option error;
  NestedMap : gmap string val → list string → gomap val * bool * option error;
  NestedSlice : gmap string val → list string → slice val * bool * option error;
  SetNestedField : gmap string val → val → list string → gmap string val * option error;
  RemoveNestedField : gmap string val → list string → gmap string val;

  (** equality.Semantic.DeepEqual, at the types it is used at *)
  DeepEqual_any : gomap val → option val → bool;
  DeepEqual_string : string → string → bool;
  DeepEqual_strptr : option string → option string → bool;
  DeepEqual_map : gomap string → gomap string → bool;
  DeepEqual_ports : list ServicePort → list ServicePort → bool;

  (** controllerutil, on an object's finalizers *)
  AddFinalizer : list string → string → list string;
  RemoveFinalizer : list string → string → list string;

  (** controllerutil.SetControllerReference, with the manager's scheme *)
  SetControllerReference : KubeSwiftCluster → Service → result Service;

  (** cluster-api util, annotations, conditions and topology *)
  IsControlPlaneMachine : Machine → bool;
  IsPaused : Cluster → ObjectMeta → bool;
  IsExternallyManaged : ObjectMeta → bool;
  conditions_Set : list Condition → Condition → list Condition;
  IsDryRunRequest : AdmissionRequest → ObjectMeta → bool;
  RequestFromContext : Context → result AdmissionRequest;
  (** the group and kind, the name, and the field errors *)
  NewInvalid : string * string → string → list (string * KubeSwiftMachineSpec * string) → error
}.

(** ** Laws *)

Class ErrorLaws {lib : Lib} : Prop := {
  IsNotFound_nil : IsNotFound None = false;
  IgnoreNotFound_spec e : IgnoreNotFound e = if IsNotFound e then None else e
}.

Class PtrLaws {lib : Lib} : Prop := {
  ptr_Deref_Some A (a d : A) : ptr_Deref (Some a) d = a;
  ptr_Deref_None A (d : A) : ptr_Deref None d = d;
  Time_IsZero_nil : Time_IsZero None = true
}.

(** The accessors behave like fields of the metadata, and touch nothing else,
    on objects whose [metadata] is absent or a map. *)
Definition meta_view {lib : Lib} (u : Unstructured) : string * string * gomap string :=
  (GetNamespace u, GetName u, GetLabels u).

Definition meta_ok (u : Unstructured) : Prop :=
  match Object u !! "metadata" with
  | None | Some (VMap _) => True
  | _ => False
  end.

(** The top-level keys the setters own. *)
Definition owned_keys : list string := ["apiVersion"; "kind"; "metadata"].

(** One law per setter: what it does to the view, and that it leaves the
    other keys and the shape of the metadata alone. *)
Definition setter_law {lib : Lib} (u u' : Unstructured) (v : string * string * gomap string) : Prop :=
  meta_ok u →
  meta_ok u' ∧ meta_view u' = v ∧ ∀ k, k ∉ owned_keys → Object u' !! k = Object u !! k.

Class UnstructuredLaws {lib : Lib} : Prop := {
  meta_view_empty : meta_view (mkUnstructured ∅) = ("", "", None);
  SetGroupVersionKind_spec u g :
    setter_law u (SetGroupVersionKind u g) (meta_view u);
  SetNamespace_spec u n :
    setter_law u (SetNamespace u n) (n, GetName u, GetLabels u);
  SetName_spec u n :
    setter_law u (SetName u n) (GetNamespace u, n, GetLabels u);
  SetLabels_spec u (m : gmap string string) :
    setter_law u (SetLabels u (Some m)) (GetNamespace u, GetName u, Some m);
  meta_view_insert u k v :
    k ∉ owned_keys → meta_view (mkUnstructured (<[k := v]> (Object u))) = meta_view u
}.

(** The type of an object, which the setters of its metadata leave alone. *)
Definition type_of (u : Unstructured) : option val * option val :=
  (Object u !! "apiVersion", Object u !! "kind").
Class TypeLaws {lib : Lib} : Prop := {
  SetGroupVersionKind_type u g :
    gvk_Group g ≠ "" →
    type_of (SetGroupVersionKind u g) =
      (Some (VStr (gvk_Group g +:+ "/" +:+ gvk_Version g)), Some (VStr (gvk_Kind g)));
  SetNamespace_type u n : type_of (SetNamespace u n) = type_of u;
  SetName_type u n : type_of (SetName u n) = type_of u;
  SetLabels_type u m : type_of (SetLabels u m) = type_of u
}.

(** The Nested helpers read the path through nested maps; a missing field or a
    value of another type gives the zero value. *)
Class NestedLaws {lib : Lib} : Prop := {
  NestedString_found o p s :
    lookup_path o p = Some (VStr s) → (NestedString o p).1.1 = s;
  NestedString_other o p :
    (∀ s, lookup_path o p ≠ Some (VStr s)) → (NestedString o p).1.1 = "";
  NestedMap_found o p m :
    lookup_path o p = Some (VMap m) → (NestedMap o p).1.1 = Some m;
  NestedMap_other o p :
    (∀ m, lookup_path o p ≠ Some (VMap m)) → (NestedMap o p).1.1 = None;
  NestedSlice_found o p l :
    lookup_path o p = Some (VList l) → (NestedSlice o p).1.1 = Some l;
  NestedSlice_other o p :
    (∀ l, lookup_path o p ≠ Some (VList l)) → (NestedSlice o p).1.1 = None;
  (** a two-step path whose parent is a map *)
  SetNestedField_map o f g v m :
    o !! f = Some (VMap m) →
    SetNestedField o v [f; g] = (<[f := VMap (<[g := v]> m)]> o, None);
  SetNestedField_absent o f g v :
    o !! f = None →
    SetNestedField o v [f; g] = (<[f := VMap {[g := v]}]> o, None);
  SetNestedField_not_map o f g v w :
    o !! f = Some w → (∀ m, w ≠ VMap m) → (SetNestedField o v [f; g]).2 ≠ None;
  RemoveNestedField_map o f g m :
    o !! f = Some (VMap m) →
    RemoveNestedField o [f; g] = <[f := VMap (delete g m)]> o;
  RemoveNestedField_other o f g :
    (∀ m, o !! f ≠ Some (VMap m)) → RemoveNestedField o [f; g] = o
}.

(** Semantic equality: reflexive on equal values, nil and empty maps alike. *)
Class DeepEqualLaws {lib : Lib} : Prop := {
  DeepEqual_any_spec m (m' : gmap string val) :
    DeepEqual_any m (Some (VMap m')) = true ↔ entries m = m';
  DeepEqual_string_spec a b : DeepEqual_string a b = true ↔ a = b;
  DeepEqual_strptr_spec a b : DeepEqual_strptr a b = true ↔ a = b;
  DeepEqual_map_spec a b : DeepEqual_map a b = true ↔ entries a = entries b;
  DeepEqual_ports_spec a b : DeepEqual_ports a b = true ↔ a = b
}.

Class FinalizerLaws {lib : Lib} : Prop := {
  AddFinalizer_spec l f g : g ∈ AddFinalizer l f ↔ g = f ∨ g ∈ l;
  RemoveFinalizer_spec l f g : g ∈ RemoveFinalizer l f ↔ g ≠ f ∧ g ∈ l
}.

(** Conditions are a map keyed by type. *)
Definition conditions_wf (l : list Condition) : Prop := NoDup (cond_Type <$> l).

Class ConditionLaws {lib : Lib} : Prop := {
  conditions_Set_spec l c :
    conditions_wf l →
    conditions_wf (conditions_Set l c) ∧
    ∀ typ, find_condition typ (conditions_Set l c) =
      if decide (typ = cond_Type c) then Some c else find_condition typ l
}.

Class ServiceLaws {lib : Lib} : Prop := {
  FromInt32_spec z : intstr_FromInt32 z = IntVal z;
  SetControllerReference_ok ksc svc svc' :
    SetControllerReference ksc svc = Ok svc' →
    svc_Spec svc' = svc_Spec svc ∧ svc_Status_Ingress svc' = svc_Status_Ingress svc ∧
    svc_ObjectMeta svc' =
      meta_set_OwnerReferences (svc_ObjectMeta svc) (meta_OwnerReferences (svc_ObjectMeta svc'))
}.

Class AdmissionLaws {lib : Lib} : Prop := {
  (** a topology dry-run is a dry-run request *)
  IsDryRunRequest_dry req m : IsDryRunRequest req m = true → areq_DryRun req = Some true
}.

(** ** Requests that leave the process *)

(** The kinds of object the provider reads or writes, and their Go types. *)
Inductive kind := KMachine | KCluster | KSecret | KService | KUnstructured.

Definition objT (k : kind) : Type :=
  match k with
  | KMachine => KubeSwiftMachine
  | KCluster => KubeSwiftCluster
  | KSecret => Secret
  | KService => Service
  | KUnstructured => Unstructured
  end.

(** A call to the API server or the workload cluster. [Create] and [Update]
    answer with the object as the server returned it into the argument. *)
Inductive call : Type → Type :=
  | Get (k : kind) (key : NamespacedName) (into : objT k) : call (result (objT k))
  | Create (k : kind) (obj : objT k) : call (result (objT k))
  | Update (k : kind) (obj : objT k) : call (result (objT k))
  | Delete (k : kind) (obj : objT k) : call (option error)
  (** util.GetOwnerMachine, util.GetOwnerCluster, util.GetClusterFromMetadata *)
  | GetOwnerMachine (m : ObjectMeta) : call (result (option Machine))
  | GetOwnerCluster (m : ObjectMeta) : call (result (option Cluster))
  | GetClusterFromMetadata (m : ObjectMeta) : call (result Cluster)
  (** patch.NewHelper, and Patch of a helper made from [before] *)
  | NewPatchHelper (k : kind) (obj : objT k) : call (option error)
  | Patch (k : kind) (before after : objT k) : call (option error)
  (** client-go *)
  | RESTConfigFromKubeConfig (data : string) : call (result RestConfig)
  | NewForConfig (cfg : RestConfig) : call (result Clientset)
  | NodesGet (cs : Clientset) (name : string) : call (result Node)
  | NodesPatch (cs : Clientset) (name : string) (body : string) : call (option error).

(** Whether a request asks for a change. *)
Definition mutates {X} (c : call X) : bool :=
  match c with
  | Create _ _ | Update _ _ | Delete _ _ | Patch _ _ _ | NodesPatch _ _ _ => true
  | _ => false
  end.
Definition ev_mutates (ev : event call) : bool := match ev with Ev c _ => mutates c end.

(** No request of the trace asks for a change. *)
Definition read_only (t : trace call) : Prop := Forall (λ ev, ev_mutates ev = false) t.

(** The unstructured object a request creates or updates, if it does; the one it
    deletes, if it does. *)
Definition ev_create (ev : event call) : option Unstructured :=
  match ev with Ev (Create KUnstructured u) _ => Some u | _ => None end.
Definition ev_update (ev : event call) : option Unstructured :=
  match ev with Ev (Update KUnstructured u) _ => Some u | _ => None end.
Definition ev_delete (ev : event call) : option Unstructured :=
  match ev with Ev (Delete KUnstructured u) _ => Some u | _ => None end.

(** The API server answers every read of an unstructured object with [u]. *)
Definition get_answers (u : Unstructured) : env call := λ X c,
  match c in call X return X → Prop with
  | Get k _ _ =>
    match k return result (objT k) → Prop with
    | KUnstructured => λ x, x = Ok u
    | _ => λ _, True
    end
  | _ => λ _, True
  end.
