(* ===== verification/Reference.v ===== *)
(** * Reference: concrete library functions that satisfy every law of [Lib]

    Used by the witnesses, to evaluate the provider on concrete inputs, and to
    show that the laws can hold together. *)

From S2P Require Import Prelude Go Prog Kube Api Lib.

Module Ref.
(** Errors: tag 404 is NotFound. *)
Definition NotFound (msg : string) : error := Ext 404 msg.
Fixpoint not_found (e : error) : bool :=
  match e with
  | Ext t _ => (t =? 404)%nat
  | Errorf _ => false
  | Wrapf _ e' => not_found e'
  end.
Definition is_not_found (o : option error) : bool :=
  match o with Some e => not_found e | None => false end.

(** Metadata of an unstructured object. *)
Definition metadata (u : Unstructured) : gmap string val :=
  match Object u !! "metadata" with Some (VMap m) => m | _ => ∅ end.
Definition set_metadata (u : Unstructured) (k : string) (v : val) : Unstructured :=
  mkUnstructured (<["metadata" := VMap (<[k := v]> (metadata u))]> (Object u)).
Definition text (o : option val) : string :=
  match o with Some (VStr s) => s | _ => "" end.
Definition as_text (v : val) : option string :=
  match v with VStr s => Some s | _ => None end.
Definition labels_of (o : option val) : gomap string :=
  match o with Some (VMap m) => Some (omap as_text m) | _ => None end.
Definition labels_to (m : gomap string) : val := VMap (VStr <$> entries m).
Definition set_gvk (u : Unstructured) (g : GroupVersionKind) : Unstructured :=
  mkUnstructured (<["apiVersion" := VStr (gvk_Group g +:+ "/" +:+ gvk_Version g)]>
    (<["kind" := VStr (gvk_Kind g)]> (Object u))).
Definition deletion (u : Unstructured) : option Z :=
  match metadata u !! "deletionTimestamp" with Some (VInt z) => Some z | _ => None end.

(** Nested fields. *)
Definition nested_string (o : gmap string val) (p : list string) : string * bool * option error :=
  match lookup_path o p with
  | Some (VStr s) => (s, true, None)
  | None => ("", false, None)
  | _ => ("", false, Some (Errorf "not a string"))
  end.
Definition nested_map (o : gmap string val) (p : list string) : gomap val * bool * option error :=
  match lookup_path o p with
  | Some (VMap m) => (Some m, true, None)
  | None => (None, false, None)
  | _ => (None, false, Some (Errorf "not a map"))
  end.
Definition nested_slice (o : gmap string val) (p : list string) : slice val * bool * option error :=
  match lookup_path o p with
  | Some (VList l) => (Some l, true, None)
  | None => (None, false, None)
  | _ => (None, false, Some (Errorf "not a list"))
  end.
Fixpoint set_nested (o : gmap string val) (v : val) (p : list string) :
    gmap string val * option error :=
  match p with
  | [] => (o, None)
  | [f] => (<[f := v]> o, None)
  | f :: p' =>
    match o !! f with
    | Some (VMap m) =>
      let '(m', e) := set_nested m v p' in (<[f := VMap m']> o, e)
    | None => let '(m', e) := set_nested ∅ v p' in (<[f := VMap m']> o, e)
    | _ => (o, Some (Errorf "value cannot be set"))
    end
  end.
Fixpoint remove_nested (o : gmap string val) (p : list string) : gmap string val :=
  match p with
  | [] => o
  | [f] => delete f o
  | f :: p' =>
    match o !! f with
    | Some (VMap m) => <[f := VMap (remove_nested m p')]> o
    | _ => o
    end
  end.

Fixpoint set_condition (l : list Condition) (c : Condition) : list Condition :=
  match l with
  | [] => [c]
  | d :: r => if String.eqb (cond_Type d) (cond_Type c) then c :: r
              else d :: set_condition r c
  end.

Definition has_key (m : gomap string) (k : string) : bool :=
  match entries m !! k with Some _ => true | None => false end.

Definition owner_of (ksc : KubeSwiftCluster) : OwnerReference :=
  mkOwnerReference "infrastructure.cluster.x-k8s.io/v1alpha1" "KubeSwiftCluster"
    (meta_Name (ksc_ObjectMeta ksc)) true.

Definition add_string (l : list string) (f : string) : list string :=
  if decide (f ∈ l) then l else l ++ [f].
Definition is_true (o : option bool) : bool := default false o.
End Ref.

#[export] Instance ref_lib : Lib := {|
  wide_IsPrint _ := true;
  IsNotFound := Ref.is_not_found;
  IgnoreNotFound e := if Ref.is_not_found e then None else e;
  NewBadRequest m := Ext 400 m;
  NamespacedName_String n := nn_Namespace n +:+ "/" +:+ nn_Name n;
  ptr_Deref A o d := default d o;
  Time_IsZero t := match t with None => true | Some z => (z =? 0)%Z end;
  intstr_FromInt32 z := IntVal z;
  SetGroupVersionKind := Ref.set_gvk;
  SetNamespace u n := Ref.set_metadata u "namespace" (VStr n);
  SetName u n := Ref.set_metadata u "name" (VStr n);
  SetLabels u m := Ref.set_metadata u "labels" (Ref.labels_to m);
  GetNamespace u := Ref.text (Ref.metadata u !! "namespace");
  GetName u := Ref.text (Ref.metadata u !! "name");
  GetLabels u := Ref.labels_of (Ref.metadata u !! "labels");
  GetDeletionTimestamp := Ref.deletion;
  NestedString := Ref.nested_string;
  NestedMap := Ref.nested_map;
  NestedSlice := Ref.nested_slice;
  SetNestedField := Ref.set_nested;
  RemoveNestedField := Ref.remove_nested;
  DeepEqual_any a b :=
    match b with Some (VMap m) => bool_decide (entries a = m) | _ => false end;
  DeepEqual_string a b := bool_decide (a = b);
  DeepEqual_strptr a b := bool_decide (a = b);
  DeepEqual_map a b := bool_decide (entries a = entries b);
  DeepEqual_ports a b := bool_decide (a = b);
  AddFinalizer := Ref.add_string;
  RemoveFinalizer l f := List.filter (λ g, negb (String.eqb g f)) l;
  SetControllerReference ksc svc :=
    Ok (mkService
      (meta_set_OwnerReferences (svc_ObjectMeta svc)
         (meta_OwnerReferences (svc_ObjectMeta svc) ++ [Ref.owner_of ksc]))
      (svc_Spec svc) (svc_Status_Ingress svc));
  IsControlPlaneMachine m :=
    Ref.has_key (meta_Labels (mach_ObjectMeta m)) "cluster.x-k8s.io/control-plane";
  IsPaused c m :=
    Ref.is_true (clus_Spec_Paused c) ||
    Ref.has_key (meta_Annotations m) "cluster.x-k8s.io/paused";
  IsExternallyManaged m := Ref.has_key (meta_Annotations m) "cluster.x-k8s.io/managed-by";
  conditions_Set := Ref.set_condition;
  IsDryRunRequest r m :=
    Ref.is_true (areq_DryRun r) &&
    Ref.has_key (meta_Annotations m) "topology.cluster.x-k8s.io/dry-run";
  RequestFromContext c :=
    match ctx_id c with
    | O => Err (Errorf "admission.Request not found in context")
    | S O => Ok (mkAdmissionRequest (Some true))
    | _ => Ok (mkAdmissionRequest (Some false))
    end;
  NewInvalid k n _ := Ext 422 (k.2 +:+ " " +:+ n +:+ " is invalid")
|}.

(** ** The laws hold of it *)

#[export] Instance ref_errors : ErrorLaws.
Proof. split; done. Qed.

#[export] Instance ref_ptr : PtrLaws.
Proof. split; done. Qed.

Lemma ref_labels_round_trip (m : gmap string string) :
  Ref.labels_of (Some (Ref.labels_to (Some m))) = Some m.
Proof.
  simpl. f_equal. apply map_eq. intros k. rewrite lookup_omap, lookup_fmap.
  by destruct (m !! k).
Qed.

Lemma ref_set_metadata_law u k v :
  meta_ok u →
  meta_ok (Ref.set_metadata u k v) ∧
  Ref.metadata (Ref.set_metadata u k v) = <[k := v]> (Ref.metadata u) ∧
  ∀ k', k' ∉ owned_keys → Object (Ref.set_metadata u k v) !! k' = Object u !! k'.
Proof.
  intros _. unfold meta_ok, Ref.set_metadata, Ref.metadata. simpl.
  rewrite lookup_insert_eq. repeat split. intros k' Hk'.
  apply lookup_insert_ne. intros <-. apply Hk'. unfold owned_keys. set_solver.
Qed.

Lemma ref_metadata_frame u k v :
  k ≠ "metadata" → Ref.metadata (mkUnstructured (<[k := v]> (Object u))) = Ref.metadata u.
Proof. intros H. unfold Ref.metadata. simpl. by rewrite lookup_insert_ne. Qed.

#[export] Instance ref_unstructured : UnstructuredLaws.
Proof.
  split.
  - done.
  - intros u g H. unfold setter_law, meta_ok, meta_view, meta_ok in *. simpl.
    rewrite !lookup_insert_ne by done. repeat split.
    + done.
    + unfold Ref.set_gvk.
      pose proof (ref_metadata_frame u "kind" (VStr (gvk_Kind g)) ltac:(done)) as E1.
      pose proof (ref_metadata_frame (mkUnstructured (<["kind" := VStr (gvk_Kind g)]> (Object u)))
        "apiVersion" (VStr (gvk_Group g +:+ "/" +:+ gvk_Version g)) ltac:(done)) as E2.
      simpl in E2. by rewrite E2, E1.
    + intros k Hk. unfold owned_keys in Hk.
      rewrite !lookup_insert_ne by set_solver. done.
  - intros u n H. destruct (ref_set_metadata_law u "namespace" (VStr n) H) as (H1 & H2 & H3).
    repeat split; [done| |done]. unfold meta_view. simpl. rewrite H2.
    rewrite lookup_insert_eq, !lookup_insert_ne by done. done.
  - intros u n H. destruct (ref_set_metadata_law u "name" (VStr n) H) as (H1 & H2 & H3).
    repeat split; [done| |done]. unfold meta_view. simpl. rewrite H2.
    rewrite lookup_insert_eq, !lookup_insert_ne by done. done.
  - intros u m H.
    destruct (ref_set_metadata_law u "labels" (Ref.labels_to (Some m)) H) as (H1 & H2 & H3).
    repeat split; [done| |done]. unfold meta_view. simpl. rewrite H2.
    rewrite lookup_insert_eq, !lookup_insert_ne by done.
    by rewrite ref_labels_round_trip.
  - intros u k v Hk. unfold meta_view. simpl. rewrite ref_metadata_frame; [done|].
    intros ->. apply Hk. unfold owned_keys. set_solver.
Qed.

#[export] Instance ref_types : TypeLaws.
Proof.
  split; intros; unfold type_of; simpl.
  - by rewrite lookup_insert_eq, lookup_insert_ne, lookup_insert_eq by done.
  - by rewrite !lookup_insert_ne by done.
  - by rewrite !lookup_insert_ne by done.
  - by rewrite !lookup_insert_ne by done.
Qed.

#[export] Instance ref_nested : NestedLaws.
Proof.
  split; simpl; unfold Ref.nested_string, Ref.nested_map, Ref.nested_slice; intros.
  - by rewrite H.
  - destruct (lookup_path o p) as [[]|]; try done. by destruct (H s).
  - by rewrite H.
  - destruct (lookup_path o p) as [[]|]; try done. by destruct (H m).
  - by rewrite H.
  - destruct (lookup_path o p) as [[]|]; try done. by destruct (H l).
  - by rewrite H.
  - by rewrite H.
  - rewrite H. destruct w; try done. by destruct (H0 m).
  - by rewrite H.
  - destruct (o !! f) as [[]|] eqn:E; try done. by destruct (H m).
Qed.

#[export] Instance ref_deep_equal : DeepEqualLaws.
Proof. split; simpl; intros; apply bool_decide_eq_true. Qed.

#[export] Instance ref_finalizers : FinalizerLaws.
Proof.
  split; simpl; intros l f g.
  - unfold Ref.add_string. destruct (decide (f ∈ l)) as [Hf|Hf].
    + split; [by right|]. by intros [->|?].
    + rewrite elem_of_app, list_elem_of_singleton. tauto.
  - rewrite !list_elem_of_In, List.filter_In, negb_true_iff, String.eqb_neq. tauto.
Qed.

Lemma ref_set_condition_types l c :
  cond_Type <$> Ref.set_condition l c =
  if decide (cond_Type c ∈ cond_Type <$> l) then cond_Type <$> l
  else (cond_Type <$> l) ++ [cond_Type c].
Proof.
  induction l as [|d l IH]; [done|]. cbn [Ref.set_condition].
  destruct (String.eqb (cond_Type d) (cond_Type c)) eqn:E; bool_facts;
    rewrite !fmap_cons.
  - rewrite decide_True by (rewrite E; left). by rewrite E.
  - rewrite IH. destruct (decide (cond_Type c ∈ cond_Type <$> l)).
    + by rewrite decide_True by (by right).
    + rewrite decide_False; [done|]. intros [?|?]%elem_of_cons; congruence.
Qed.

Lemma ref_find_set l c typ :
  find_condition typ (Ref.set_condition l c) =
  if decide (typ = cond_Type c) then Some c else find_condition typ l.
Proof.
  unfold find_condition. induction l as [|d l IH]; simpl.
  - destruct (decide (typ = cond_Type c)) as [->|Hn]; [by rewrite String.eqb_refl|].
    by rewrite (proj2 (String.eqb_neq _ _)) by congruence.
  - destruct (String.eqb (cond_Type d) (cond_Type c)) eqn:E; simpl; bool_facts.
    + destruct (decide (typ = cond_Type c)) as [->|Hn]; [by rewrite String.eqb_refl|].
      rewrite (proj2 (String.eqb_neq (cond_Type c) typ)) by congruence.
      by rewrite E, (proj2 (String.eqb_neq (cond_Type c) typ)) by congruence.
    + rewrite IH. destruct (decide (typ = cond_Type c)) as [->|Hn]; [|done].
      by rewrite (proj2 (String.eqb_neq _ _)) by done.
Qed.

#[export] Instance ref_conditions : ConditionLaws.
Proof.
  split. intros l c Hl. split; [|intros; apply ref_find_set].
  unfold conditions_wf in *. change (conditions_Set l c) with (Ref.set_condition l c).
  rewrite ref_set_condition_types.
  destruct (decide _); [done|]. apply list.NoDup_app. split; [done|]. split.
  - intros x Hx ->%list_elem_of_singleton. done.
  - apply NoDup_singleton.
Qed.

#[export] Instance ref_services : ServiceLaws.
Proof. split; [done|]. intros ksc svc svc' [= <-]. done. Qed.

#[export] Instance ref_admission : AdmissionLaws.
Proof.
  split. simpl. intros req m H. apply andb_true_iff in H as [H _].
  by destruct (areq_DryRun req) as [[]|].
Qed.
