(* ===== verification/Backend.v ===== *)
(** * Backend: internal/backend/backend.go

    The request and result types, and the interface a machine backend implements.
    [Backend] is the record of operations; [BackendContract] is what the machine
    controller relies on, proved of the SwiftGuest backend in [SwiftGuestStatus.v]. *)

From S2P Require Import Prelude Go Prog Kube Api Lib.

Record ControlPlaneExposure := mkExposure {
  cpx_PoolLabel : string;
  cpx_Port : Z
}.

Record Request := mkRequest {
  req_Machine : KubeSwiftMachine;
  req_Cluster : option Cluster;
  req_CAPIMachine : option Machine;
  req_BootstrapDataSecretName : string;
  req_GuestNamespace : string;
  req_ProviderID : string;
  req_ControlPlaneExposure : option ControlPlaneExposure
}.

Record BackendResult := mkBackendResult {
  br_Provisioned : bool;
  br_Addresses : list MachineAddress;
  br_Requeue : bool;
  br_WaitingReason : string;
  br_WaitingMessage : string
}.

Definition BackendResult_zero : BackendResult := mkBackendResult false [] false "" "".

Definition BootstrapDataSecretKey : string := "value".

(** The Go interface. *)
Record Backend := mkBackend {
  backend_Type : MachineBackendType;
  backend_Reconcile : Request → prog call (result BackendResult);
  backend_Delete : Request → prog call (result bool)
}.

(** The name of the machine a request is about. *)
Definition req_Name (req : Request) : string := meta_Name (ksm_ObjectMeta (req_Machine req)).

(** A backend touches unstructured resources only: the typed objects, the
    workload cluster and the owner lookups are the controller's. *)
Definition backend_call {X} (c : call X) : bool :=
  match c with
  | Get KUnstructured _ _ | Create KUnstructured _
  | Update KUnstructured _ | Delete KUnstructured _ => true
  | _ => false
  end.
Definition backend_trace (t : trace call) : Prop :=
  Forall (λ ev, match ev with Ev c _ => backend_call c = true end) t.

Definition is_delete {X} (c : call X) : bool :=
  match c with Delete _ _ => true | _ => false end.
Definition no_delete (t : trace call) : Prop :=
  Forall (λ ev, match ev with Ev c _ => is_delete c = false end) t.

(** What the machine controller relies on. *)
Class BackendContract (b : Backend) : Prop := {
  (** Reconcile ends; it deletes nothing, and a provisioned machine has an address
      while an unprovisioned one asks for a requeue. *)
  reconcile_contract req :
    wp any (backend_Reconcile b req) (λ t r,
      backend_trace t ∧ no_delete t ∧
      ∀ res, r = Ok res →
        (br_Provisioned res = true → br_Addresses res ≠ [] ∧ br_Requeue res = false) ∧
        (br_Provisioned res = false → br_Requeue res = true ∧ br_Addresses res = []));
  (** Delete ends, and creates or updates nothing. *)
  delete_contract req :
    wp any (backend_Delete b req) (λ t r,
      backend_trace t ∧
      Forall (λ ev, match ev with
        | Ev (Create _ _) _ | Ev (Update _ _) _ => False | _ => True end) t)
}.
