(* ===== verification/Samples.v ===== *)
(** * Samples: concrete objects for the witnesses

    A control-plane machine [ns/cp-0] of cluster [demo] in Service mode, whose
    configuration passes validation, and what the server holds about it. *)

From S2P Require Import Prelude Go Prog Kube Api Lib Reference Backend.

Definition meta (name : string) : ObjectMeta := mkObjectMeta name "ns" None None [] None [] "".

Definition demo_cfg : SwiftGuestBackend :=
  mkSwiftGuestBackend "ubuntu-noble" "capi-controlplane" "" "sec-net" None "" None "".

Definition gpu_cfg : SwiftGuestBackend :=
  mkSwiftGuestBackend "ubuntu-noble" "capi-worker" "" ""
    (Some [mkSwiftGuestInterface "mgmt" "" true; mkSwiftGuestInterface "storage" "storage-net" false])
    "" (Some (mkSwiftGuestGPU "gpu-template" "" "gpu" "" "pcie" "1Gi")) "fast".

Definition machine_of (name : string) (cfg : SwiftGuestBackend) : KubeSwiftMachine :=
  mkKubeSwiftMachine (meta name)
    (mkKubeSwiftMachineSpec "" (mkMachineBackend SwiftGuestBackendType (Some cfg)))
    (ksm_Status KubeSwiftMachine_zero).

Definition demo_cluster : Cluster := mkCluster (meta "demo") None "demo" (Some true).

Definition demo_machine : Machine :=
  mkMachine (mkObjectMeta "cp-0" "ns" (Some {["cluster.x-k8s.io/control-plane" := ""]}) None [] None [] "")
    (Some "cp-0-bootstrap") "rack-1".

Definition demo_request : Request :=
  mkRequest (machine_of "cp-0" demo_cfg) (Some demo_cluster) (Some demo_machine)
    "cp-0-bootstrap" "ns" "kubeswift://ns/cp-0" (Some (mkExposure "demo-cp" 6443)).

Definition gpu_request : Request :=
  mkRequest (machine_of "w-0" gpu_cfg) (Some demo_cluster) None
    "w-0-bootstrap" "ns" "kubeswift://ns/w-0" None.

(** A guest running behind its launcher pod. *)
Definition guest_status (phase : string) (network : gmap string val) : Unstructured :=
  mkUnstructured {["status" := VMap (<["phase" := VStr phase]> {["network" := VMap network]})]}.
Definition nat_network : gmap string val :=
  <["primaryIP" := VStr "192.168.99.10"]>
  (<["primaryIPScope" := VStr "Pod"]> {["podIP" := VStr "10.244.1.7"]}).

(** The cluster in Service mode, on the default port. *)
Definition demo_ksc : KubeSwiftCluster :=
  mkKubeSwiftCluster (meta "demo")
    (mkKubeSwiftClusterSpec None
      (Some (mkControlPlaneEndpointSpec EndpointModeService
        (Some (mkControlPlaneServiceSpec ServiceTypeLoadBalancer 0
          (Some {["lb/pool" := "edge"]}) (Some "metal"))))) "")
    (ksc_Status KubeSwiftCluster_zero).

Definition demo_service : Service :=
  mkService (meta "demo-cp")
    (mkServiceSpec ServiceTypeLoadBalancer (Some {["swift.kubeswift.io/pool" := "demo-cp"]})
      [mkServicePort "apiserver" 6443 (IntVal 6443) ProtocolTCP 30443] "10.96.0.12" (Some "metal") ∅)
    [mkIngress "" ""; mkIngress "203.0.113.7" "lb.example"].

(** ** A server with fixed answers

    What it holds is given by its fields; every write succeeds but the patch, which is
    answered as told. *)
Record Server := mkServer {
  sv_machine : result KubeSwiftMachine;
  sv_owner : option Machine;
  sv_cluster : result KubeSwiftCluster;
  sv_service : result Service;
  sv_guest : result Unstructured;
  sv_node : result Node;
  sv_patch : option error
}.

Definition answers (sv : Server) (X : Type) (c : call X) (n : nat) : nat * X :=
  (S n,
   match c in call X return X with
   | Get k _ _ =>
     match k return result (objT k) with
     | KMachine => sv_machine sv
     | KCluster => sv_cluster sv
     | KSecret => Ok (mkSecret meta_zero {["value" := "data"]})
     | KService => sv_service sv
     | KUnstructured => sv_guest sv
     end
   | Create _ o => Ok o
   | Update _ o => Ok o
   | Delete _ _ => None
   | GetOwnerMachine _ => Ok (sv_owner sv)
   | GetOwnerCluster _ => Ok (Some demo_cluster)
   | GetClusterFromMetadata _ => Ok demo_cluster
   | NewPatchHelper _ _ => None
   | Patch _ _ _ => sv_patch sv
   | RESTConfigFromKubeConfig _ => Ok (mkRestConfig 0)
   | NewForConfig _ => Ok (mkClientset 0)
   | NodesGet _ _ => sv_node sv
   | NodesPatch _ _ _ => None
   end).

Definition demo_ksm : KubeSwiftMachine := machine_of "cp-0" demo_cfg.
Definition demo_key : NamespacedName := mkNN "ns" "cp-0".

Definition demo_server (guest : result Unstructured) (patch : option error) : Server :=
  mkServer (Ok demo_ksm) (Some demo_machine) (Ok demo_ksc) (Ok demo_service) guest
    (Ok (mkNode "cp-0" "")) patch.

(** The run of a program against such a server, and what it returned. *)
Definition run {R} (sv : Server) (p : prog call R) : trace call * outcome R :=
  (exec (answers sv) p 0).2.
Definition returned {R} (x : trace call * outcome R) : option R :=
  match x.2 with Done r => Some r | Panicked => None end.

Lemma run_returned {R} sv (p : prog call R) r :
  returned (run sv p) = Some r → runs p (run sv p).1 (Done r).
Proof.
  unfold run, returned. destruct (exec (answers sv) p 0) as [n [t [r'|]]] eqn:E; [|done].
  simpl. intros [= <-]. by eapply exec_runs.
Qed.

Lemma run_wp {R} sv (p : prog call R) Q r :
  returned (run sv p) = Some r → wp any p Q → Q (run sv p).1 r.
Proof. intros H%run_returned Hwp. by eapply wp_any_runs. Qed.

(** Reading an event out of a trace, by position. *)
Definition at_event {X} (n : nat) (f : event call → option X) (t : trace call) : option X :=
  t !! n ≫= f.

Lemma at_event_split {X} n (f : event call → option X) t x :
  at_event n f t = Some x → ∃ ev, ev ∈ t ∧ t = take n t ++ ev :: drop (S n) t ∧ f ev = Some x.
Proof.
  unfold at_event. destruct (t !! n) as [ev|] eqn:E; [|done]. intros Hf. exists ev.
  split; [by eapply list_elem_of_lookup_2|]. split; [|done]. symmetry. by apply take_drop_middle.
Qed.
