(* ===== verification/SwiftGuest.v ===== *)
(** * SwiftGuest: internal/backend/swiftguest.go *)

From S2P Require Import Prelude Go Prog Kube Api Lib Reference Backend.

(** ** Constants *)

Definition swiftGuestGVK : GroupVersionKind :=
  mkGVK "swift.kubeswift.io" "v1alpha1" "SwiftGuest".
Definition swiftSeedProfileGVK : GroupVersionKind :=
  mkGVK "seed.kubeswift.io" "v1alpha1" "SwiftSeedProfile".

Definition MachineLabelKey : string := "infrastructure.cluster.x-k8s.io/kubeswiftmachine".
Definition nameField : string := "name".
Definition primaryField : string := "primary".
Definition primaryInterfaceName : string := "primary".
Definition mgmtInterfaceName : string := "mgmt".
Definition natBinding : string := "nat".
Definition resolvedCondition : string := "Resolved".
Definition primaryIPScopePod : string := "Pod".

Definition seedName (machineName : string) : string := machineName +:+ "-seed".

Section Definitions.
Context {lib : Lib}.

Definition fmt_q (s : string) : string := Quote.Quote wide_IsPrint s.

(** ** Validation *)

Definition validatePlacement (cfg : SwiftGuestBackend) : option error :=
  if negb (String.eqb (sgb_NodeName cfg) "") &&
     match sgb_GPU cfg with Some _ => true | None => false end
  then Some (Errorf ("spec.backend.swiftGuest: nodeName cannot be combined with gpu — " +:+
    "a GPU machine is placed by where its device is, and pinning the pod bypasses " +:+
    "the scheduler that allocates the claim"))
  else None.

Definition validateGPU (gpu : option SwiftGuestGPU) : option error :=
  match gpu with
  | None => None
  | Some gpu =>
    let set := foldl (λ (n : nat) v, if String.eqb v "" then n else S n) 0
      [gpu_ResourceClaimTemplateName gpu; gpu_ResourceClaimName gpu; gpu_GPUProfileRef gpu] in
    if negb (set =? 1)%nat then
      Some (Errorf ("spec.backend.swiftGuest.gpu: set exactly one of " +:+
        "resourceClaimTemplateName, resourceClaimName or gpuProfileRef"))
    else if negb (String.eqb (gpu_Tier gpu) "") && negb (String.eqb (gpu_Tier gpu) GPUTierPCIe)
    then
      Some (Errorf ("spec.backend.swiftGuest.gpu.tier " +:+ fmt_q (gpu_Tier gpu) +:+
        ": only " +:+ GPUTierPCIe +:+ " is supported " +:+
        "(hgx tiers need QEMU and a host Fabric Manager)"))
    else None
  end.

(** The loop of [validateInterfaces]: index [i], [primaries] so far; the error of
    the early return, or the final count. *)
Fixpoint count_primaries (i primaries : nat) (ifaces : list SwiftGuestInterface) : result nat :=
  match ifaces with
  | [] => Ok primaries
  | iface :: rest =>
    if ifc_Primary iface then count_primaries (S i) (S primaries) rest
    else if String.eqb (ifc_NetworkRef iface) "" then
      Err (Errorf ("spec.backend.swiftGuest.interfaces[" +:+ fmt_d i +:+ "] " +:+
        fmt_q (ifc_Name iface) +:+ ": a secondary interface must set networkRef"))
    else count_primaries (S i) primaries rest
  end.

Definition validateInterfaces (cfg : SwiftGuestBackend) : option error :=
  if (length (elems (sgb_Interfaces cfg)) =? 0)%nat then None
  else if negb (String.eqb (sgb_NetworkRef cfg) "") || negb (String.eqb (sgb_NodeNetworkRef cfg) "")
  then Some (Errorf "spec.backend.swiftGuest: interfaces cannot be combined with networkRef or nodeNetworkRef")
  else
    match count_primaries 0 0 (elems (sgb_Interfaces cfg)) with
    | Err e => Some e
    | Ok primaries =>
      if negb (primaries =? 1)%nat then
        Some (Errorf ("spec.backend.swiftGuest.interfaces: exactly one interface must be primary, got "
          +:+ fmt_d primaries))
      else None
    end.

(** The loop of [primaryOnNAD]: the first primary decides. *)
Fixpoint first_primary_on_NAD (ifaces : list SwiftGuestInterface) : bool :=
  match ifaces with
  | [] => false
  | iface :: rest =>
    if ifc_Primary iface then negb (String.eqb (ifc_NetworkRef iface) "")
    else first_primary_on_NAD rest
  end.

Definition primaryOnNAD (cfg : SwiftGuestBackend) : bool :=
  if negb (String.eqb (sgb_NetworkRef cfg) "") then true
  else first_primary_on_NAD (elems (sgb_Interfaces cfg)).

(** ** Rendering *)

Definition localRef (name : string) : val := VMap {[nameField := VStr name]}.

Definition newUnstructured (gvk : GroupVersionKind) : Unstructured :=
  SetGroupVersionKind (mkUnstructured ∅) gvk.
Definition NewSwiftGuestObject : Unstructured := newUnstructured swiftGuestGVK.

Definition setKubeSwiftLabels (u : Unstructured) (req : Request) : Unstructured :=
  let labels : gmap string string := entries (GetLabels u) in
  let labels := match req_Cluster req with
    | Some c => <[ClusterNameLabel := meta_Name (clus_ObjectMeta c)]> labels
    | None => labels end in
  SetLabels u (Some (<[MachineLabelKey := req_Name req]> labels)).

Definition seedProfileSpec (req : Request) : gmap string val :=
  <["datasource" := VStr "NoCloud"]>
  (<["userDataFrom" := VMap {["secretKeyRef" := VMap
      (<[nameField := VStr (req_BootstrapDataSecretName req)]>
       {["key" := VStr BootstrapDataSecretKey]})]}]>
  {["metaData" := VStr ("instance-id: " +:+ req_Name req +:+ Quote.char 10 +:+
      "local-hostname: " +:+ req_Name req +:+ Quote.char 10)]}).

Definition renderInterface (iface : SwiftGuestInterface) : val :=
  let m : gmap string val := {[nameField := VStr (ifc_Name iface)]} in
  let m := if ifc_Primary iface then <[primaryField := VBool true]> m else m in
  let m := if negb (String.eqb (ifc_NetworkRef iface) "")
           then <["networkRef" := localRef (ifc_NetworkRef iface)]> m else m in
  VMap m.
Definition renderInterfaces (ifaces : list SwiftGuestInterface) : list val :=
  map renderInterface ifaces.

(** [spec["interfaces"]], when the switch sets it. *)
Definition interfacesField (cfg : SwiftGuestBackend) : option val :=
  if (0 <? length (elems (sgb_Interfaces cfg)))%nat then
    Some (VList (renderInterfaces (elems (sgb_Interfaces cfg))))
  else if negb (String.eqb (sgb_NetworkRef cfg) "") then
    Some (VList [VMap (<[nameField := VStr primaryInterfaceName]>
      (<[primaryField := VBool true]> {["networkRef" := localRef (sgb_NetworkRef cfg)]}))])
  else if negb (String.eqb (sgb_NodeNetworkRef cfg) "") then
    Some (VList [
      VMap (<[nameField := VStr mgmtInterfaceName]> {[primaryField := VBool true]});
      VMap (<[nameField := VStr "node"]> {["networkRef" := localRef (sgb_NodeNetworkRef cfg)]})])
  else None.

(** [if s != "" { m[k] = s }] *)
Definition put_text (k s : string) (m : gmap string val) : gmap string val :=
  if String.eqb s "" then m else <[k := VStr s]> m.

(** The device claim of a GPU machine: the key it is rendered under and its value. *)
Definition gpuClaim (gpu : SwiftGuestGPU) : gmap string val :=
  let claim :=
    if negb (String.eqb (gpu_ResourceClaimTemplateName gpu) "")
    then {["resourceClaimTemplateName" := VStr (gpu_ResourceClaimTemplateName gpu)]}
    else put_text "resourceClaimName" (gpu_ResourceClaimName gpu) ∅ in
  put_text "hugepages" (gpu_Hugepages gpu)
    (put_text "tier" (gpu_Tier gpu)
      (put_text "requestName" (gpu_RequestName gpu) claim)).
Definition gpuField (gpu : SwiftGuestGPU) : string * val :=
  if negb (String.eqb (gpu_GPUProfileRef gpu) "")
  then ("gpuProfileRef", localRef (gpu_GPUProfileRef gpu))
  else ("gpuResourceClaim", VMap (gpuClaim gpu)).

(** The network block that exposes the API-server port. *)
Definition exposureField (x : ControlPlaneExposure) : val :=
  let port := cpx_Port x in
  VMap (<["binding" := VStr natBinding]> {["ports" := VList [VMap
    (<[nameField := VStr APIServerPortName]>
    (<["port" := VInt port]> {["targetPort" := VInt port]}))]]}).

(** The spec map of [renderSwiftGuest], assignments in the source's order. *)
Definition guestSpec (req : Request) (cfg : SwiftGuestBackend) : gmap string val :=
  let spec : gmap string val :=
    <["imageRef" := localRef (sgb_ImageRef cfg)]>
    (<["guestClassRef" := localRef (sgb_GuestClassRef cfg)]>
    {["seedProfileRef" := localRef (seedName (req_Name req))]}) in
  let spec := match interfacesField cfg with
    | Some l => <["interfaces" := l]> spec | None => spec end in
  let spec := if negb (String.eqb (sgb_StorageClassName cfg) "") then
    <["storage" := VMap (<["storageClassName" := VStr (sgb_StorageClassName cfg)]>
      {["accessMode" := VStr "ReadWriteOnce"]})]> spec else spec in
  let spec := if negb (String.eqb (sgb_NodeName cfg) "") then
    <["nodeName" := VStr (sgb_NodeName cfg)]> spec else spec in
  let spec := match sgb_GPU cfg with
    | Some gpu => <[(gpuField gpu).1 := (gpuField gpu).2]> spec | None => spec end in
  match req_ControlPlaneExposure req with
  | Some x => <["network" := exposureField x]> spec | None => spec end.

(** [None]: the panic of assigning into a nil label map. *)
Definition renderSwiftGuest (req : Request) (cfg : SwiftGuestBackend) : option Unstructured :=
  let guest := newUnstructured swiftGuestGVK in
  let guest := SetNamespace guest (req_GuestNamespace req) in
  let guest := SetName guest (req_Name req) in
  let guest := setKubeSwiftLabels guest req in
  guest ← (match req_ControlPlaneExposure req with
    | Some x =>
      labels ← goset (GetLabels guest) ControlPlanePoolLabelKey (cpx_PoolLabel x);
      Some (SetLabels guest labels)
    | None => Some guest
    end);
  Some (mkUnstructured (<["spec" := VMap (guestSpec req cfg)]> (Object guest))).

(** ** Reading a guest's status *)

Definition nested_text (u : Unstructured) (p : list string) : string :=
  (NestedString (Object u) p).1.1.

Definition guestAddresses (guest : Unstructured) : list MachineAddress :=
  let primaryIP := nested_text guest ["status"; "network"; "primaryIP"] in
  if String.eqb primaryIP "" then []
  else if String.eqb (nested_text guest ["status"; "network"; "primaryIPScope"]) primaryIPScopePod
  then
    let address := nested_text guest ["status"; "network"; "podIP"] in
    if String.eqb address "" then [] else [mkMachineAddress MachineInternalIP address]
  else [mkMachineAddress MachineInternalIP primaryIP].

(** [v == s] for an interface value and a string; [v.(string)] or "". *)
Definition is_text (v : option val) (s : string) : bool :=
  match v with Some (VStr t) => String.eqb t s | _ => false end.
Definition text_of (v : option val) : string :=
  match v with Some (VStr t) => t | _ => "" end.

Fixpoint find_unresolved (conds : list val) : option string :=
  match conds with
  | [] => None
  | VMap cond :: rest =>
    if negb (is_text (cond !! "type") resolvedCondition) ||
       negb (is_text (cond !! "status") ConditionFalse)
    then find_unresolved rest
    else
      let msg := text_of (cond !! "message") in
      Some (if String.eqb msg "" then text_of (cond !! "reason") else msg)
  | _ :: rest => find_unresolved rest
  end.

Definition unresolvedMessage (guest : Unstructured) : option string :=
  find_unresolved (elems (NestedSlice (Object guest) ["status"; "conditions"]).1.1).

(** ** Reconcile and Delete *)

Definition seedKey (req : Request) : NamespacedName :=
  mkNN (req_GuestNamespace req) (seedName (req_Name req)).
Definition guestKey (req : Request) : NamespacedName :=
  mkNN (req_GuestNamespace req) (req_Name req).

Definition ensureSeedProfile (req : Request) : prog call (option error) :=
  let name := seedName (req_Name req) in
  let desired := seedProfileSpec req in
  let! r := perform (Get KUnstructured (seedKey req) (newUnstructured swiftSeedProfileGVK)) in
  match r with
  | Ok existing =>
    let userData := nested_text existing ["spec"; "userData"] in
    let userDataFrom := (NestedMap (Object existing) ["spec"; "userDataFrom"]).1.1 in
    if String.eqb userData "" && DeepEqual_any userDataFrom (desired !! "userDataFrom")
    then Ret None
    else
      let obj := RemoveNestedField (Object existing) ["spec"; "userData"] in
      match SetNestedField obj (default VNull (desired !! "userDataFrom")) ["spec"; "userDataFrom"] with
      | (_, Some err) => Ret (Some err)
      | (obj, None) =>
        let! u := perform (Update KUnstructured (mkUnstructured obj)) in
        match u with Ok _ => Ret None | Err err => Ret (Some err) end
      end
  | Err err =>
    if negb (IsNotFound (Some err)) then Ret (Some err)
    else
      let seed := newUnstructured swiftSeedProfileGVK in
      let seed := SetNamespace seed (req_GuestNamespace req) in
      let seed := SetName seed name in
      let seed := setKubeSwiftLabels seed req in
      let seed := mkUnstructured (<["spec" := VMap desired]> (Object seed)) in
      let! c := perform (Create KUnstructured seed) in
      match c with Ok _ => Ret None | Err err => Ret (Some err) end
  end.

Definition ensureSwiftGuest (req : Request) (cfg : SwiftGuestBackend) :
    prog call (result Unstructured) :=
  let! r := perform (Get KUnstructured (guestKey req) (newUnstructured swiftGuestGVK)) in
  match r with
  | Ok existing => Ret (Ok existing)
  | Err err =>
    if negb (IsNotFound (Some err)) then Ret (Err err)
    else
      let! guest := deref (renderSwiftGuest req cfg) in
      perform (Create KUnstructured guest)
  end.

(** What [Reconcile] makes of the guest it got. *)
Definition guestResult (req : Request) (guest : Unstructured) : result BackendResult :=
  let phase := nested_text guest ["status"; "phase"] in
  if String.eqb phase "Failed" then
    Err (Errorf ("SwiftGuest " +:+ req_GuestNamespace req +:+ "/" +:+ req_Name req +:+
      " reported phase Failed"))
  else
    let addresses := guestAddresses guest in
    if negb (String.eqb phase "Running") || (length addresses =? 0)%nat then
      match unresolvedMessage guest with
      | Some msg =>
        Ok (mkBackendResult false [] true VMWaitingForReferencesReason
          ("SwiftGuest " +:+ req_GuestNamespace req +:+ "/" +:+ req_Name req +:+
           " is waiting for its references: " +:+ msg))
      | None => Ok (mkBackendResult false [] true "" "")
      end
    else Ok (mkBackendResult true addresses false "" "").

(** The checks made before any call. *)
Definition validate (req : Request) : result SwiftGuestBackend :=
  match mb_SwiftGuest (ksmSpec_Backend (ksm_Spec (req_Machine req))) with
  | None => Err (Errorf ("spec.backend.swiftGuest must be set when backend.type is " +:+
      fmt_q SwiftGuestBackendType))
  | Some cfg =>
    if String.eqb (sgb_ImageRef cfg) "" || String.eqb (sgb_GuestClassRef cfg) "" then
      Err (Errorf "spec.backend.swiftGuest.imageRef and guestClassRef are required")
    else match validateGPU (sgb_GPU cfg) with Some err => Err err | None =>
    match validatePlacement cfg with Some err => Err err | None =>
    match validateInterfaces cfg with Some err => Err err | None =>
    if match req_ControlPlaneExposure req with Some _ => true | None => false end && primaryOnNAD cfg
    then Err (Errorf "control-plane machine using Service-backed endpoint provisioning must not put its primary interface on a networkRef")
    else Ok cfg
    end end end
  end.

Definition Reconcile (req : Request) : prog call (result BackendResult) :=
  match validate req with
  | Err err => Ret (Err err)
  | Ok cfg =>
    let! s := ensureSeedProfile req in
    match s with
    | Some err => Ret (Err (Wrapf "ensuring SwiftSeedProfile" err))
    | None =>
      let! g := ensureSwiftGuest req cfg in
      match g with
      | Err err => Ret (Err (Wrapf "ensuring SwiftGuest" err))
      | Ok guest => Ret (guestResult req guest)
      end
    end
  end.

Definition Delete (req : Request) : prog call (result bool) :=
  let! g := perform (Get KUnstructured (guestKey req) (newUnstructured swiftGuestGVK)) in
  match g with
  | Ok guest =>
    if Time_IsZero (GetDeletionTimestamp guest) then
      let! d := perform (Lib.Delete KUnstructured guest) in
      match d with
      | Some err =>
        if negb (IsNotFound (Some err)) then Ret (Err (Wrapf "deleting SwiftGuest" err))
        else Ret (Ok false)
      | None => Ret (Ok false)
      end
    else Ret (Ok false)
  | Err getErr =>
    if negb (IsNotFound (Some getErr)) then Ret (Err getErr)
    else
      let seed := newUnstructured swiftSeedProfileGVK in
      let seed := SetNamespace seed (req_GuestNamespace req) in
      let seed := SetName seed (seedName (req_Name req)) in
      let! d := perform (Lib.Delete KUnstructured seed) in
      match d with
      | Some err =>
        if negb (IsNotFound (Some err)) then Ret (Err (Wrapf "deleting SwiftSeedProfile" err))
        else Ret (Ok true)
      | None => Ret (Ok true)
      end
  end.

Definition Type_ : MachineBackendType := SwiftGuestBackendType.

Definition NewSwiftGuestBackend : Backend := mkBackend Type_ Reconcile Delete.
End Definitions.
