(* ===== verification/SwiftGuestSpec.v ===== *)
(** * SwiftGuestSpec: what the SwiftGuest backend validates and renders

    Validation against its declarative reading and against the CRD's admission
    rules; the rendered object field by field; the interface list read back. *)

From S2P Require Import Prelude Go Prog Kube Api Lib Reference Backend SwiftGuest.

(** ** Declarative readings *)

Definition secondary_ok (i : SwiftGuestInterface) : Prop :=
  ifc_Primary i = true ∨ ifc_NetworkRef i ≠ "".
Definition primaries (l : list SwiftGuestInterface) : list SwiftGuestInterface :=
  List.filter ifc_Primary l.
Definition one_primary (l : list SwiftGuestInterface) : Prop := length (primaries l) = 1.

(** An explicit list stands alone, has one primary, and its other interfaces ride
    a named network. *)
Definition interfaces_ok (cfg : SwiftGuestBackend) : Prop :=
  let l := elems (sgb_Interfaces cfg) in
  l = [] ∨
  (sgb_NetworkRef cfg = "" ∧ sgb_NodeNetworkRef cfg = "" ∧
   Forall secondary_ok l ∧ one_primary l).

(** Exactly one allocation backend, on the supported tier. *)
Definition gpu_sources (g : SwiftGuestGPU) : list string :=
  List.filter (λ s, negb (String.eqb s ""))
    [gpu_ResourceClaimTemplateName g; gpu_ResourceClaimName g; gpu_GPUProfileRef g].
Definition gpu_ok (g : SwiftGuestGPU) : Prop :=
  length (gpu_sources g) = 1 ∧ (gpu_Tier g = "" ∨ gpu_Tier g = GPUTierPCIe).

(** ** Interfaces *)

Section Validation.
Context {lib : Lib}.

Lemma count_primaries_spec i p l :
  match count_primaries i p l with
  | Ok n => Forall secondary_ok l ∧ n = p + length (primaries l)
  | Err _ => ¬ Forall secondary_ok l
  end.
Proof.
  unfold primaries. revert i p. induction l as [|f l IH]; intros i p; simpl; [split; [done|lia]|].
  destruct (ifc_Primary f) eqn:Hp.
  - specialize (IH (S i) (S p)). destruct (count_primaries _ _ _).
    + destruct IH as [? ->]. simpl. split; [constructor; [by left|done]|lia].
    + by intros [_ ?]%list.Forall_cons.
  - destruct (String.eqb (ifc_NetworkRef f) "") eqn:Hn; bool_facts.
    + intros [[?|?] _]%list.Forall_cons; congruence.
    + specialize (IH (S i) p). destruct (count_primaries _ _ _).
      * destruct IH as [? ->]. split; [constructor; [by right|done]|done].
      * by intros [_ ?]%list.Forall_cons.
Qed.

(** [validateInterfaces] decides its declarative reading. *)
Lemma validateInterfaces_ok cfg : validateInterfaces cfg = None ↔ interfaces_ok cfg.
Proof.
  unfold validateInterfaces, interfaces_ok, one_primary.
  set (l := elems _). destruct (length l =? 0)%nat eqn:El; bool_facts.
  { apply length_zero_iff_nil in El. rewrite El. split; [by left|done]. }
  assert (l ≠ []) by (intros Hl; by rewrite Hl in El).
  destruct (String.eqb (sgb_NetworkRef cfg) "") eqn:E1,
    (String.eqb (sgb_NodeNetworkRef cfg) "") eqn:E2; bool_facts; simpl;
    try (split; [done|intros [?|(? & ? & _)]; congruence]).
  pose proof (count_primaries_spec 0 0 l) as Hc.
  destruct (count_primaries 0 0 l) as [n|e].
  - destruct Hc as [Hs ->]. simpl. destruct (length (primaries l) =? 1)%nat eqn:E; bool_facts; simpl.
    + split; [|done]. intros _. by right.
    + split; [done|]. intros [?|(_ & _ & _ & ?)]; congruence.
  - split; [done|]. intros [?|(_ & _ & ? & _)]; done.
Qed.

Lemma decode_no_text o : CEL.no_text o = true ↔ default "" o = "".
Proof.
  destruct o as [[|c s]|]; simpl; split; done.
Qed.

Lemma decode_primaries l :
  length (primaries (map CEL.decode_interface l)) =
  length (List.filter (λ i, CEL.is_set (CEL.primary i)) l).
Proof.
  unfold primaries. induction l as [|i l IH]; [done|]. simpl.
  destruct (CEL.primary i) as [[]|]; simpl; congruence.
Qed.

Lemma decode_secondary l :
  Forall secondary_ok (map CEL.decode_interface l) ↔ forallb CEL.rule_interface l = true.
Proof.
  induction l as [|i l IH]; simpl; [split; [done|constructor]|].
  rewrite list.Forall_cons, andb_true_iff, IH.
  assert (secondary_ok (CEL.decode_interface i) ↔ CEL.rule_interface i = true) as ->; [|done].
  unfold secondary_ok, CEL.rule_interface. simpl.
  rewrite orb_true_iff, negb_true_iff.
  assert (CEL.no_text (CEL.networkRef i) = false ↔ default "" (CEL.networkRef i) ≠ "") as ->
    by (rewrite <- decode_no_text; destruct (CEL.no_text _); split; done).
  by destruct (CEL.primary i) as [[]|].
Qed.

(** The rules on the JSON are the reading of the decoded struct. *)
Lemma admitted_interfaces_ok base b : interfaces_ok (CEL.decode base b) ↔ CEL.admits b = true.
Proof.
  unfold interfaces_ok, one_primary, CEL.admits, CEL.rule_backend.
  destruct (CEL.b_interfaces b) as [l|] eqn:El; simpl; rewrite El; simpl; [|tauto].
  destruct l as [|i l]; [simpl; tauto|].
  unfold CEL.rule_interfaces, CEL.exists_one.
  change (length (i :: l) =? 0)%nat with false. cbn [orb].
  rewrite !andb_true_iff, <- decode_secondary, !decode_no_text, Nat.eqb_eq.
  rewrite <- decode_primaries. cbn [map].
  split; [intros [?|?]; [done|tauto]|tauto].
Qed.

(** C24: The reconcile-time backstop [validateInterfaces] rejects exactly what the
    CRD's CEL rules reject at admission: for every submitted object, it accepts
    the decoded Go struct if and only if the three rules admit the JSON. *)
Theorem validateInterfaces_iff_admitted (base : SwiftGuestBackend) (b : CEL.backend) :
  validateInterfaces (CEL.decode base b) = None ↔ CEL.admits b = true.
Proof. by rewrite validateInterfaces_ok, admitted_interfaces_ok. Qed.

(** ** GPU and placement *)

Lemma validateGPU_ok g :
  validateGPU g = None ↔ match g with None => True | Some g => gpu_ok g end.
Proof.
  destruct g as [g|]; [|done]. unfold validateGPU, gpu_ok, gpu_sources.
  cbn [foldl List.filter].
  destruct (String.eqb (gpu_ResourceClaimTemplateName g) ""),
    (String.eqb (gpu_ResourceClaimName g) ""), (String.eqb (gpu_GPUProfileRef g) "");
    destruct (String.eqb (gpu_Tier g) "") eqn:E1, (String.eqb (gpu_Tier g) GPUTierPCIe) eqn:E2;
    bool_facts; simpl; naive_solver.
Qed.

Lemma validatePlacement_ok cfg :
  validatePlacement cfg = None ↔ sgb_NodeName cfg = "" ∨ sgb_GPU cfg = None.
Proof.
  unfold validatePlacement.
  destruct (String.eqb (sgb_NodeName cfg) "") eqn:E, (sgb_GPU cfg); bool_facts; simpl;
    split; try done; try (by left); try (by right); intros [?|?]; done.
Qed.

(** Everything [validate] establishes. *)
Lemma validate_ok req cfg :
  validate req = Ok cfg ↔
  mb_SwiftGuest (ksmSpec_Backend (ksm_Spec (req_Machine req))) = Some cfg ∧
  sgb_ImageRef cfg ≠ "" ∧ sgb_GuestClassRef cfg ≠ "" ∧
  validateGPU (sgb_GPU cfg) = None ∧ validatePlacement cfg = None ∧
  validateInterfaces cfg = None ∧
  (req_ControlPlaneExposure req = None ∨ primaryOnNAD cfg = false).
Proof.
  unfold validate. destruct (mb_SwiftGuest _) as [c|]; [|split; [done|intros (? & _); done]].
  destruct (String.eqb (sgb_ImageRef c) "") eqn:E1; bool_facts; simpl;
    [split; [done|intros ([= <-] & ? & _); done]|].
  destruct (String.eqb (sgb_GuestClassRef c) "") eqn:E2; bool_facts; simpl;
    [split; [done|intros ([= <-] & _ & ? & _); done]|].
  destruct (validateGPU (sgb_GPU c)) eqn:E3;
    [split; [done|intros ([= <-] & _ & _ & ? & _); congruence]|].
  destruct (validatePlacement c) eqn:E4;
    [split; [done|intros ([= <-] & _ & _ & _ & ? & _); congruence]|].
  destruct (validateInterfaces c) eqn:E5;
    [split; [done|intros ([= <-] & _ & _ & _ & _ & ? & _); congruence]|].
  destruct (req_ControlPlaneExposure req), (primaryOnNAD c) eqn:E6; simpl;
    split; try done; intros H;
    try (injection H as <-; rewrite E3, E4, E5, E6; tauto);
    destruct H as ([= <-] & _ & _ & _ & _ & _ & [?|?]); congruence.
Qed.

(** [primaryOnNAD] reads the primary off a well-formed configuration. *)
Lemma first_primary_spec l :
  first_primary_on_NAD l = false →
  one_primary l → Forall (λ i, ifc_Primary i = true → ifc_NetworkRef i = "") l.
Proof.
  unfold one_primary, primaries. induction l as [|i l IH]; [constructor|]. simpl.
  destruct (ifc_Primary i) eqn:Hp.
  - intros Hn%negb_false_iff%String.eqb_eq. simpl. intros [= Hl].
    constructor; [done|]. apply list.Forall_forall. intros j Hj Hpj.
    assert (j ∈ List.filter ifc_Primary l) as Hin.
    { apply list_elem_of_In, List.filter_In. by rewrite <- list_elem_of_In. }
    apply length_zero_iff_nil in Hl. rewrite Hl in Hin. by apply not_elem_of_nil in Hin.
  - intros Hn Hl. constructor; [by rewrite Hp|auto].
Qed.
End Validation.

(** ** Reading a rendered interface list back

    [parse_interface] is how the SwiftGuest CRD reads an entry of [spec.interfaces]. *)

Definition parse_ref (v : option val) : string :=
  match v with Some (VMap m) => text_of (m !! nameField) | _ => "" end.
Definition parse_interface (v : val) : option SwiftGuestInterface :=
  match v with
  | VMap m =>
    Some (mkSwiftGuestInterface (text_of (m !! nameField)) (parse_ref (m !! "networkRef"))
      match m !! primaryField with Some (VBool b) => b | _ => false end)
  | _ => None
  end.
Definition parse_interfaces (v : option val) : option (list SwiftGuestInterface) :=
  match v with
  | None => Some []
  | Some (VList l) => mapM parse_interface l
  | Some _ => None
  end.

Lemma parse_localRef name : parse_ref (Some (localRef name)) = name.
Proof. unfold parse_ref, localRef. by rewrite lookup_singleton_eq. Qed.

Lemma parse_render_interface i : parse_interface (renderInterface i) = Some i.
Proof.
  destruct i as [n r p]. unfold renderInterface, parse_interface. cbn [ifc_Name ifc_Primary ifc_NetworkRef].
  destruct (String.eqb r "") eqn:Er; bool_facts; destruct p; cbn [negb];
    lookups; rewrite ?parse_localRef; subst; done.
Qed.

(** The interfaces a configuration asks for, whichever way it says so. *)
Definition wanted_interfaces (cfg : SwiftGuestBackend) : list SwiftGuestInterface :=
  let l := elems (sgb_Interfaces cfg) in
  if (0 <? length l)%nat then l
  else if negb (String.eqb (sgb_NetworkRef cfg) "") then
    [mkSwiftGuestInterface primaryInterfaceName (sgb_NetworkRef cfg) true]
  else if negb (String.eqb (sgb_NodeNetworkRef cfg) "") then
    [mkSwiftGuestInterface mgmtInterfaceName "" true;
     mkSwiftGuestInterface "node" (sgb_NodeNetworkRef cfg) false]
  else [].

(** [lookups] when the key looked up is a variable known to differ. *)
Ltac key_lookups :=
  repeat (rewrite lookup_insert_eq || rewrite lookup_insert_ne by congruence
          || rewrite lookup_singleton_eq || rewrite lookup_singleton_ne by congruence).

Section Rendering.
Context {lib : Lib}.

Lemma interfacesField_wanted cfg :
  parse_interfaces (interfacesField cfg) = Some (wanted_interfaces cfg).
Proof.
  unfold interfacesField, wanted_interfaces.
  destruct (0 <? length _)%nat.
  { simpl. unfold renderInterfaces. apply mapM_Some. induction (elems _); constructor; [|done].
    apply parse_render_interface. }
  destruct (String.eqb (sgb_NetworkRef cfg) "") eqn:E1; cbn [negb];
    [destruct (String.eqb (sgb_NodeNetworkRef cfg) "") eqn:E2; cbn [negb]|]; [done| |];
    cbn [parse_interfaces mapM parse_interface mbind option_bind mret option_ret]; lookups;
    by rewrite ?parse_localRef.
Qed.

(** Validated configurations ask for no interface or exactly one primary one,
    and every other interface rides a named network. *)
Lemma wanted_interfaces_ok cfg :
  interfaces_ok cfg →
  wanted_interfaces cfg = [] ∨
  (one_primary (wanted_interfaces cfg) ∧ Forall secondary_ok (wanted_interfaces cfg)).
Proof.
  unfold interfaces_ok, wanted_interfaces. intros H.
  destruct (elems (sgb_Interfaces cfg)) as [|i l]; cbn [length Nat.ltb Nat.leb].
  - destruct (String.eqb (sgb_NetworkRef cfg) "") eqn:E1; cbn [negb].
    + destruct (String.eqb (sgb_NodeNetworkRef cfg) "") eqn:E2; cbn [negb]; [by left|].
      bool_facts. right. split; [done|].
      constructor; [by left|]. constructor; [by right|constructor].
    + right. split; [done|]. constructor; [by left|constructor].
  - destruct H as [?|(_ & _ & ? & ?)]; [done|]. by right.
Qed.

(** Under exposure the primary interface stays on the node-local network. *)
Lemma wanted_interfaces_local cfg :
  interfaces_ok cfg → primaryOnNAD cfg = false →
  Forall (λ i, ifc_Primary i = true → ifc_NetworkRef i = "") (wanted_interfaces cfg).
Proof.
  unfold interfaces_ok, wanted_interfaces, primaryOnNAD. intros H.
  destruct (String.eqb (sgb_NetworkRef cfg) "") eqn:E1; cbn [negb]; [|done].
  intros Hp. destruct (elems (sgb_Interfaces cfg)) as [|i l]; cbn [length Nat.ltb Nat.leb].
  - destruct (String.eqb (sgb_NodeNetworkRef cfg) "") eqn:E2; cbn [negb]; [constructor|].
    by repeat constructor.
  - destruct H as [?|(_ & _ & _ & ?)]; [done|]. by apply first_primary_spec.
Qed.

(** ** The spec map, field by field *)

Lemma gpuField_key g : (gpuField g).1 = "gpuProfileRef" ∨ (gpuField g).1 = "gpuResourceClaim".
Proof. unfold gpuField. destruct (negb _); [by left|by right]. Qed.

Definition storageField (cfg : SwiftGuestBackend) : option val :=
  if String.eqb (sgb_StorageClassName cfg) "" then None
  else Some (VMap (<["storageClassName" := VStr (sgb_StorageClassName cfg)]>
    {["accessMode" := VStr "ReadWriteOnce"]})).
Definition text_field (s : string) : option val :=
  if String.eqb s "" then None else Some (VStr s).
Definition gpuEntry (cfg : SwiftGuestBackend) (k : string) : option val :=
  match sgb_GPU cfg with
  | Some g => if String.eqb (gpuField g).1 k then Some (gpuField g).2 else None
  | None => None
  end.

(** [guestSpec] as a stack of optional assignments. *)
Definition put (k : string) (o : option val) (m : gmap string val) : gmap string val :=
  match o with Some v => <[k := v]> m | None => m end.

Lemma lookup_put k o m j :
  put k o m !! j = if String.eqb k j then match o with Some v => Some v | None => m !! j end
                   else m !! j.
Proof.
  unfold put. destruct (String.eqb k j) eqn:E; bool_facts; destruct o; try done.
  - subst. apply lookup_insert_eq.
  - by apply lookup_insert_ne.
Qed.

Definition refsField (req : Request) (cfg : SwiftGuestBackend) : gmap string val :=
  <["imageRef" := localRef (sgb_ImageRef cfg)]>
  (<["guestClassRef" := localRef (sgb_GuestClassRef cfg)]>
  {["seedProfileRef" := localRef (seedName (req_Name req))]}).

Lemma guestSpec_put req cfg :
  guestSpec req cfg =
  put "network" (exposureField <$> req_ControlPlaneExposure req)
    (put match sgb_GPU cfg with Some g => (gpuField g).1 | None => "" end
       (match sgb_GPU cfg with Some g => Some (gpuField g).2 | None => None end)
      (put "nodeName" (text_field (sgb_NodeName cfg))
        (put "storage" (storageField cfg)
          (put "interfaces" (interfacesField cfg) (refsField req cfg))))).
Proof.
  unfold guestSpec, storageField, text_field.
  destruct (interfacesField cfg), (String.eqb (sgb_StorageClassName cfg) ""),
    (String.eqb (sgb_NodeName cfg) ""), (sgb_GPU cfg), (req_ControlPlaneExposure req); done.
Qed.

(** The value of each key of the spec, in terms of the parts it is rendered from; what
    these are is said below ([asked]). *)
Definition spec_field (req : Request) (cfg : SwiftGuestBackend) (k : string) : option val :=
  if String.eqb k "imageRef" then Some (localRef (sgb_ImageRef cfg))
  else if String.eqb k "guestClassRef" then Some (localRef (sgb_GuestClassRef cfg))
  else if String.eqb k "seedProfileRef" then Some (localRef (req_Name req +:+ "-seed"))
  else if String.eqb k "interfaces" then interfacesField cfg
  else if String.eqb k "storage" then storageField cfg
  else if String.eqb k "nodeName" then text_field (sgb_NodeName cfg)
  else if String.eqb k "gpuProfileRef" then gpuEntry cfg k
  else if String.eqb k "gpuResourceClaim" then gpuEntry cfg k
  else if String.eqb k "network" then exposureField <$> req_ControlPlaneExposure req
  else None.

Lemma guestSpec_lookup req cfg k : guestSpec req cfg !! k = spec_field req cfg k.
Proof.
  rewrite guestSpec_put, !lookup_put.
  unfold spec_field, gpuEntry, refsField, seedName.
  destruct (sgb_GPU cfg) as [g|];
    [destruct (gpuField_key g) as [Eg|Eg]; rewrite Eg|].
  all: repeat (case_match; bool_facts; try congruence).
  all: subst; try congruence; key_lookups; try congruence.
  all: first [apply lookup_singleton_eq | apply lookup_singleton_None; congruence].
Qed.

(** ** The spec of a guest, written out

    What a machine configuration asks for, as the objects a SwiftGuest's spec holds: the
    fields of each, by name, with their values. *)

Definition object (l : list (string * val)) : val := VMap (list_to_map l).
Definition reference (name : string) : val := object [("name", VStr name)].
Definition named (l : list (string * string)) : list (string * string) :=
  List.filter (λ p, negb (String.eqb p.2 "")) l.
Definition texts (l : list (string * string)) : list (string * val) :=
  map (λ p, (p.1, VStr p.2)) (named l).

Definition interface_object (name ref : string) (primary : bool) : val :=
  object (("name", VStr name) :: (if primary then [("primary", VBool true)] else []) ++
    (if String.eqb ref "" then [] else [("networkRef", reference ref)])).

Inductive asked (req : Request) (cfg : SwiftGuestBackend) : string → val → Prop :=
  | asked_image : asked req cfg "imageRef" (reference (sgb_ImageRef cfg))
  | asked_class : asked req cfg "guestClassRef" (reference (sgb_GuestClassRef cfg))
  | asked_seed : asked req cfg "seedProfileRef" (reference (req_Name req +:+ "-seed"))
  | asked_interfaces :
      elems (sgb_Interfaces cfg) ≠ [] →
      asked req cfg "interfaces" (VList
        (map (λ i, interface_object (ifc_Name i) (ifc_NetworkRef i) (ifc_Primary i))
           (elems (sgb_Interfaces cfg))))
  | asked_network_ref :
      elems (sgb_Interfaces cfg) = [] → sgb_NetworkRef cfg ≠ "" →
      asked req cfg "interfaces" (VList [interface_object "primary" (sgb_NetworkRef cfg) true])
  | asked_node_network :
      elems (sgb_Interfaces cfg) = [] → sgb_NetworkRef cfg = "" → sgb_NodeNetworkRef cfg ≠ "" →
      asked req cfg "interfaces" (VList
        [interface_object "mgmt" "" true; interface_object "node" (sgb_NodeNetworkRef cfg) false])
  | asked_storage :
      sgb_StorageClassName cfg ≠ "" →
      asked req cfg "storage" (object [("storageClassName", VStr (sgb_StorageClassName cfg));
        ("accessMode", VStr "ReadWriteOnce")])
  | asked_node : sgb_NodeName cfg ≠ "" → asked req cfg "nodeName" (VStr (sgb_NodeName cfg))
  | asked_profile g :
      sgb_GPU cfg = Some g → gpu_GPUProfileRef g ≠ "" →
      asked req cfg "gpuProfileRef" (reference (gpu_GPUProfileRef g))
  | asked_claim g :
      sgb_GPU cfg = Some g → gpu_GPUProfileRef g = "" →
      asked req cfg "gpuResourceClaim" (object (texts
        [("resourceClaimTemplateName", gpu_ResourceClaimTemplateName g);
         ("resourceClaimName", if String.eqb (gpu_ResourceClaimTemplateName g) ""
            then gpu_ResourceClaimName g else "");
         ("requestName", gpu_RequestName g); ("tier", gpu_Tier g); ("hugepages", gpu_Hugepages g)]))
  | asked_network x :
      req_ControlPlaneExposure req = Some x →
      asked req cfg "network" (object [("binding", VStr "nat");
        ("ports", VList [object [("name", VStr "apiserver"); ("port", VInt (cpx_Port x));
           ("targetPort", VInt (cpx_Port x))]])]).

Lemma renderInterface_object i :
  renderInterface i = interface_object (ifc_Name i) (ifc_NetworkRef i) (ifc_Primary i).
Proof.
  destruct i as [n r p]. unfold renderInterface, interface_object. cbn [ifc_Name ifc_NetworkRef ifc_Primary].
  destruct p, (String.eqb r ""); reflexivity.
Qed.

Lemma gpuClaim_object g :
  VMap (gpuClaim g) = object (texts
    [("resourceClaimTemplateName", gpu_ResourceClaimTemplateName g);
     ("resourceClaimName", if String.eqb (gpu_ResourceClaimTemplateName g) ""
        then gpu_ResourceClaimName g else "");
     ("requestName", gpu_RequestName g); ("tier", gpu_Tier g); ("hugepages", gpu_Hugepages g)]).
Proof.
  unfold gpuClaim, put_text, object, texts, named.
  destruct (String.eqb (gpu_ResourceClaimTemplateName g) "") eqn:E1; cbn;
    destruct (String.eqb (gpu_ResourceClaimName g) "") eqn:E2, (String.eqb (gpu_RequestName g) "") eqn:E3,
      (String.eqb (gpu_Tier g) "") eqn:E4, (String.eqb (gpu_Hugepages g) "") eqn:E5;
    cbn; rewrite ?E1, ?E2, ?E3, ?E4, ?E5; reflexivity.
Qed.

Lemma interfacesField_asked req cfg v :
  interfacesField cfg = Some v ↔ asked req cfg "interfaces" v.
Proof.
  assert (map renderInterface (elems (sgb_Interfaces cfg)) = map (λ i, interface_object (ifc_Name i)
    (ifc_NetworkRef i) (ifc_Primary i)) (elems (sgb_Interfaces cfg))) as Hi
    by (apply map_ext; intros i; apply renderInterface_object).
  unfold interfacesField, renderInterfaces. rewrite Hi. clear Hi.
  destruct (elems (sgb_Interfaces cfg)) as [|i l] eqn:El; cbn [length Nat.ltb Nat.leb].
  - destruct (String.eqb (sgb_NetworkRef cfg) "") eqn:E1; cbn [negb];
      [destruct (String.eqb (sgb_NodeNetworkRef cfg) "") eqn:E2; cbn [negb]|]; bool_facts.
    + split; [done|]. inversion 1; congruence.
    + assert (VList [VMap (<[nameField := VStr mgmtInterfaceName]> {[primaryField := VBool true]});
        VMap (<[nameField := VStr "node"]> {["networkRef" := localRef (sgb_NodeNetworkRef cfg)]})] =
        VList [interface_object "mgmt" "" true; interface_object "node" (sgb_NodeNetworkRef cfg) false]) as ->
        by (unfold interface_object; rewrite (proj2 (String.eqb_neq _ _) E2); reflexivity).
      split; [intros [= <-]; by apply asked_node_network|inversion 1; congruence].
    + assert (VList [VMap (<[nameField := VStr primaryInterfaceName]> (<[primaryField := VBool true]>
          {["networkRef" := localRef (sgb_NetworkRef cfg)]}))] =
        VList [interface_object "primary" (sgb_NetworkRef cfg) true]) as ->
        by (unfold interface_object; rewrite (proj2 (String.eqb_neq _ _) E1); reflexivity).
      split; [intros [= <-]; by apply asked_network_ref|inversion 1; congruence].
  - rewrite <- El. split; [intros [= <-]; apply asked_interfaces; by rewrite El|inversion 1; congruence].
Qed.

(** The spec of the rendered guest holds exactly what is asked for. *)
Lemma guestSpec_asked req cfg k v : guestSpec req cfg !! k = Some v ↔ asked req cfg k v.
Proof.
  rewrite guestSpec_lookup. unfold spec_field, storageField, text_field, gpuEntry, gpuField.
  destruct (String.eqb k "interfaces") eqn:Ei; bool_facts; [subst; apply interfacesField_asked|].
  split.
  - repeat (case_match; bool_facts; try done); simpl in *; simplify_eq; try (by constructor).
    all: try (intros Hx; injection Hx as <-).
    all: try (by econstructor).
    + rewrite gpuClaim_object. by eapply asked_claim.
    + intros (x & Hx & ->)%fmap_Some. by apply (asked_network _ _ x).
  - intros H. destruct H as [| | | | | |Hs|Hs|g Hg Hp|g Hg Hp|x Hx]; try done; cbn.
    + by rewrite (proj2 (String.eqb_neq _ _) Hs).
    + by rewrite (proj2 (String.eqb_neq _ _) Hs).
    + by rewrite Hg, (proj2 (String.eqb_neq _ _) Hp).
    + rewrite Hg, Hp. cbn. by rewrite gpuClaim_object.
    + by rewrite Hx.
Qed.

(** C27: The interface list of every SwiftGuest rendered from a validated request,
    read back from the object, is the list the machine asked for: either absent, or with exactly
    one primary interface and every other one on a named network; and when the
    control-plane port is exposed, the primary one is node-local. *)
Theorem guest_interfaces (req : Request) (cfg : SwiftGuestBackend) :
  validate req = Ok cfg →
  ∃ l, parse_interfaces (guestSpec req cfg !! "interfaces") = Some l ∧
    l = wanted_interfaces cfg ∧
    (l = [] ∨ (one_primary l ∧ Forall secondary_ok l)) ∧
    (req_ControlPlaneExposure req ≠ None →
     Forall (λ i, ifc_Primary i = true → ifc_NetworkRef i = "") l).
Proof.
  intros (_ & _ & _ & _ & _ & Hi & Hx)%validate_ok. exists (wanted_interfaces cfg).
  rewrite guestSpec_lookup. cbn. rewrite interfacesField_wanted.
  apply validateInterfaces_ok in Hi. repeat split; [by apply wanted_interfaces_ok|].
  intros Hn. destruct Hx as [?|Hx]; [done|]. by apply wanted_interfaces_local.
Qed.

(** ** The device of a GPU machine *)

(** The text at a path, and the allocation sources a spec names. *)
Definition text_at (m : gmap string val) (p : list string) : string := text_of (lookup_path m p).
Definition gpu_config_sources (g : SwiftGuestGPU) : list (string * string) :=
  named [("template", gpu_ResourceClaimTemplateName g); ("claim", gpu_ResourceClaimName g);
         ("profile", gpu_GPUProfileRef g)].
Definition gpu_spec_sources (spec : gmap string val) : list (string * string) :=
  named [("template", text_at spec ["gpuResourceClaim"; "resourceClaimTemplateName"]);
         ("claim", text_at spec ["gpuResourceClaim"; "resourceClaimName"]);
         ("profile", text_at spec ["gpuProfileRef"; nameField])].

Lemma gpu_config_sources_length g : length (gpu_config_sources g) = length (gpu_sources g).
Proof. unfold gpu_config_sources, named, gpu_sources. simpl. by repeat case_match. Qed.

Lemma lookup_put_text k s m j :
  put_text k s m !! j = if String.eqb k j && negb (String.eqb s "") then Some (VStr s) else m !! j.
Proof.
  unfold put_text. destruct (String.eqb k j) eqn:E, (String.eqb s "") eqn:Es; bool_facts;
    simpl; try done; subst; [apply lookup_insert_eq|by apply lookup_insert_ne].
Qed.

(** The two device fields, for each kind of source. *)
Lemma gpu_fields req cfg g :
  sgb_GPU cfg = Some g →
  guestSpec req cfg !! "gpuProfileRef" =
    (if String.eqb (gpu_GPUProfileRef g) "" then None else Some (localRef (gpu_GPUProfileRef g))) ∧
  guestSpec req cfg !! "gpuResourceClaim" =
    (if String.eqb (gpu_GPUProfileRef g) "" then Some (VMap (gpuClaim g)) else None).
Proof.
  intros Hg. rewrite !guestSpec_lookup. unfold spec_field, gpuEntry, gpuField. rewrite Hg.
  simpl. by destruct (String.eqb (gpu_GPUProfileRef g) "").
Qed.

Lemma text_of_field s : text_of (if negb (String.eqb s "") then Some (VStr s) else None) = s.
Proof. destruct (String.eqb s "") eqn:E; bool_facts; by subst. Qed.

Lemma gpuClaim_text g :
  text_of (gpuClaim g !! "requestName") = gpu_RequestName g ∧
  text_of (gpuClaim g !! "tier") = gpu_Tier g ∧
  text_of (gpuClaim g !! "hugepages") = gpu_Hugepages g.
Proof.
  pose proof text_of_field as Ht. unfold gpuClaim. rewrite !lookup_put_text.
  destruct (String.eqb (gpu_ResourceClaimTemplateName g) "") eqn:E; cbn [negb];
    rewrite ?lookup_put_text, ?lookup_empty; cbn -[lookup]; by lookups.
Qed.

Lemma gpuClaim_source g k :
  k ∈ ["resourceClaimTemplateName"; "resourceClaimName"] →
  text_of (gpuClaim g !! k) =
    if String.eqb k "resourceClaimTemplateName" then gpu_ResourceClaimTemplateName g
    else if String.eqb (gpu_ResourceClaimTemplateName g) "" then gpu_ResourceClaimName g else "".
Proof.
  intros Hk. unfold gpuClaim. rewrite !lookup_put_text.
  pose proof text_of_field as Ht.
  destruct (String.eqb (gpu_ResourceClaimTemplateName g) "") eqn:E; cbn [negb]; bool_facts;
    rewrite ?lookup_put_text, ?lookup_empty;
    repeat (apply elem_of_cons in Hk as [->|Hk]); try (by apply elem_of_nil in Hk);
    cbn -[lookup]; by lookups.
Qed.

(** C28: A validated GPU machine renders to a guest that names exactly one allocation
    source, the one the machine configures; its claim carries the configured request
    name, tier and hugepages, the tier being one the platform supports; and the
    guest is not pinned to a node. *)
Theorem guest_gpu (req : Request) (cfg : SwiftGuestBackend) (g : SwiftGuestGPU) :
  validate req = Ok cfg → sgb_GPU cfg = Some g →
  let spec := guestSpec req cfg in
  gpu_spec_sources spec = gpu_config_sources g ∧
  length (gpu_spec_sources spec) = 1 ∧
  spec !! "nodeName" = None ∧
  (gpu_GPUProfileRef g = "" →
    text_at spec ["gpuResourceClaim"; "requestName"] = gpu_RequestName g ∧
    text_at spec ["gpuResourceClaim"; "tier"] = gpu_Tier g ∧
    text_at spec ["gpuResourceClaim"; "hugepages"] = gpu_Hugepages g) ∧
  (gpu_Tier g = "" ∨ gpu_Tier g = GPUTierPCIe).
Proof.
  intros (_ & _ & _ & Hv & Hp & _)%validate_ok Hg spec.
  rewrite Hg in Hv. apply validateGPU_ok in Hv as [Hone Htier].
  apply validatePlacement_ok in Hp as [Hp|?]; [|congruence].
  rewrite <- gpu_config_sources_length in Hone.
  destruct (gpu_fields req cfg g Hg) as [F1 F2].
  assert (gpu_spec_sources spec = gpu_config_sources g) as ->.
  { unfold gpu_spec_sources, gpu_config_sources, text_at, spec. cbn [lookup_path].
    rewrite F1, F2. unfold gpu_config_sources in Hone. cbn in Hone |- *.
    destruct (String.eqb (gpu_GPUProfileRef g) "") eqn:E; bool_facts.
    - cbn. rewrite !gpuClaim_source by set_solver. cbn.
      destruct (String.eqb (gpu_ResourceClaimTemplateName g) "") eqn:E2; bool_facts; cbn in *;
        rewrite ?E2; [done|].
      destruct (String.eqb (gpu_ResourceClaimName g) "") eqn:E3; cbn in *; [|done].
      done.
    - change (text_of (match localRef (gpu_GPUProfileRef g) with VMap m => _ m | _ => _ end))
        with (parse_ref (Some (localRef (gpu_GPUProfileRef g)))).
      rewrite parse_localRef, (proj2 (String.eqb_neq _ _) E). cbn.
      destruct (String.eqb (gpu_ResourceClaimTemplateName g) "") eqn:E2,
        (String.eqb (gpu_ResourceClaimName g) "") eqn:E3; bool_facts; cbn in *; done. }
  split; [done|]. split; [done|]. split; [|split; [|done]].
  - unfold spec. rewrite guestSpec_lookup. unfold spec_field, text_field. by rewrite Hp.
  - intros Hr. unfold text_at, spec. cbn [lookup_path]. rewrite F2, Hr. apply gpuClaim_text.
Qed.
End Rendering.
