(* ===== verification/SwiftGuestRun.v ===== *)
(** * SwiftGuestRun: what the SwiftGuest backend asks of the API server, and reports

    Proved for every answer the server may give: the object metadata, the writes and
    their order, convergence of the seed profile, the deletion order, and the
    reading of a guest's status. *)

From S2P Require Import Prelude Go Prog Kube Api Lib Reference Backend Samples SwiftGuest SwiftGuestSpec.

(** ** Metadata of the objects the backend creates *)

Definition request_labels (req : Request) : gmap string string :=
  <[MachineLabelKey := req_Name req]>
    match req_Cluster req with
    | Some c => {[ClusterNameLabel := meta_Name (clus_ObjectMeta c)]}
    | None => ∅
    end.
Definition guest_labels (req : Request) : gmap string string :=
  match req_ControlPlaneExposure req with
  | Some x => <[ControlPlanePoolLabelKey := cpx_PoolLabel x]> (request_labels req)
  | None => request_labels req
  end.

Section Metadata.
Context {lib : Lib} {U : UnstructuredLaws}.

(** [labelled]: an object with only metadata, under the provider's labels. *)
Definition labelled (gvk : GroupVersionKind) (ns name : string) (req : Request) : Unstructured :=
  setKubeSwiftLabels (SetName (SetNamespace (newUnstructured gvk) ns) name) req.

Definition bare (u : Unstructured) : Prop :=
  meta_ok u ∧ ∀ k, k ∉ owned_keys → Object u !! k = None.

Lemma newUnstructured_law gvk :
  bare (newUnstructured gvk) ∧ meta_view (newUnstructured gvk) = ("", "", None).
Proof.
  destruct (SetGroupVersionKind_spec (mkUnstructured ∅) gvk) as (H1 & H2 & H3); [done|].
  unfold newUnstructured. rewrite H2, meta_view_empty. repeat split; [done|].
  intros k Hk. by rewrite H3.
Qed.

Lemma setter_bare u u' v : setter_law u u' v → bare u → bare u' ∧ meta_view u' = v.
Proof.
  intros H [Hm Hk]. destruct (H Hm) as (H1 & H2 & H3). repeat split; [done| |done].
  intros k Hn. rewrite H3 by done. auto.
Qed.

(** Apply the law of the [SetLabels u] in the goal. *)
Ltac set_labels_of u B B' V' :=
  match goal with |- context [SetLabels u (Some ?m)] =>
    destruct (setter_bare _ _ _ (SetLabels_spec u m) B) as [B' V']
  end.

Lemma labelled_law gvk ns name req :
  bare (labelled gvk ns name req) ∧
  meta_view (labelled gvk ns name req) = (ns, name, Some (request_labels req)).
Proof.
  unfold labelled. destruct (newUnstructured_law gvk) as [B0 V0].
  destruct (setter_bare _ _ _ (SetNamespace_spec _ ns) B0) as [B1 V1].
  destruct (setter_bare _ _ _ (SetName_spec _ name) B1) as [B2 V2].
  revert B2 V2. set (u := SetName _ _). intros B2 V2.
  unfold meta_view in V0, V1, V2. injection V0 as _ _ L0. injection V1 as N1 _ L1.
  rewrite L0 in L1. rewrite N1, L1 in V2. injection V2 as N2 M2 L2.
  unfold setKubeSwiftLabels. rewrite L2.
  set_labels_of u B2 B3 V3.
  split; [exact B3|]. rewrite V3, N2, M2. unfold request_labels. by destruct (req_Cluster req).
Qed.

Lemma renderSwiftGuest_law req cfg :
  ∃ u, renderSwiftGuest req cfg = Some u ∧
    meta_view u = (req_GuestNamespace req, req_Name req, Some (guest_labels req)) ∧
    Object u !! "spec" = Some (VMap (guestSpec req cfg)) ∧
    ∀ k, k ∉ owned_keys → k ≠ "spec" → Object u !! k = None.
Proof.
  destruct (labelled_law swiftGuestGVK (req_GuestNamespace req) (req_Name req) req) as [B V].
  unfold renderSwiftGuest. fold (labelled swiftGuestGVK (req_GuestNamespace req) (req_Name req) req).
  revert B V. set (u := labelled _ _ _ _). intros B V.
  unfold guest_labels. destruct (req_ControlPlaneExposure req) as [x|].
  - unfold meta_view in V. injection V as V1 V2 V3. rewrite V3. simpl.
    set_labels_of u B B'' V'. destruct B'' as [_ B'].
    eexists. split; [done|]. rewrite meta_view_insert, V' by (unfold owned_keys; set_solver).
    split; [by rewrite V1, V2|]. split; [apply lookup_insert_eq|].
    intros k Hk Hs. simpl. rewrite lookup_insert_ne by done. by apply B'.
  - exists (mkUnstructured (<["spec" := VMap (guestSpec req cfg)]> (Object u))). split; [done|].
    rewrite meta_view_insert, V by (unfold owned_keys; set_solver).
    split; [done|]. split; [apply lookup_insert_eq|].
    intros k Hk Hs. simpl. rewrite lookup_insert_ne by done. by apply B.
Qed.

(** The labels of a guest, written out. *)
Inductive guest_label (req : Request) : string → string → Prop :=
  | label_machine :
      guest_label req "infrastructure.cluster.x-k8s.io/kubeswiftmachine"
        (meta_Name (ksm_ObjectMeta (req_Machine req)))
  | label_cluster c :
      req_Cluster req = Some c →
      guest_label req "cluster.x-k8s.io/cluster-name" (meta_Name (clus_ObjectMeta c))
  | label_pool x :
      req_ControlPlaneExposure req = Some x →
      guest_label req "swift.kubeswift.io/pool" (cpx_PoolLabel x).

Lemma guest_labels_spec req k v : guest_labels req !! k = Some v ↔ guest_label req k v.
Proof.
  unfold guest_labels, request_labels, MachineLabelKey, ClusterNameLabel, ControlPlanePoolLabelKey. split.
  - destruct (req_ControlPlaneExposure req) as [x|] eqn:Ex, (req_Cluster req) as [c|] eqn:Ec;
      rewrite ?lookup_insert_Some, ?lookup_singleton_Some, ?lookup_empty;
      intros H; repeat (destruct_or? || destruct_and?); simplify_eq; by econstructor.
  - intros [|c ->|x ->].
    + destruct (req_ControlPlaneExposure req); by lookups.
    + destruct (req_ControlPlaneExposure req); by lookups.
    + by lookups.
Qed.

Lemma renderSwiftGuest_type {T : TypeLaws} req cfg u :
  renderSwiftGuest req cfg = Some u →
  type_of u = (Some (VStr "swift.kubeswift.io/v1alpha1"), Some (VStr "SwiftGuest")).
Proof.
  intros Hu.
  assert (type_of (labelled swiftGuestGVK (req_GuestNamespace req) (req_Name req) req) =
    (Some (VStr "swift.kubeswift.io/v1alpha1"), Some (VStr "SwiftGuest"))) as Ht.
  { unfold labelled, setKubeSwiftLabels. rewrite SetLabels_type, SetName_type, SetNamespace_type.
    unfold newUnstructured. by rewrite SetGroupVersionKind_type. }
  revert Hu. unfold renderSwiftGuest.
  fold (labelled swiftGuestGVK (req_GuestNamespace req) (req_Name req) req).
  destruct (req_ControlPlaneExposure req) as [x|].
  - destruct (goset _ _ _) as [m|]; [|done]. simpl. intros [= <-].
    unfold type_of. simpl. rewrite !lookup_insert_ne by done.
    by etrans; [apply (SetLabels_type _ m)|].
  - simpl. intros [= <-]. unfold type_of. simpl. by rewrite !lookup_insert_ne.
Qed.

(** C15: [renderSwiftGuest] never panics. The object it returns is a SwiftGuest of the
    request's namespace and the machine's name, with exactly the machine, cluster and
    (under exposure) pool labels, and no top-level field but the type, the metadata and
    the spec; the spec holds exactly the fields the machine configuration asks for, each
    with exactly the value it asks for, written out in [asked]: the references, the
    interfaces one by one, the storage class, the node, the device and its claim, and
    the NAT network with the one port of the exposure. *)
Theorem renderSwiftGuest_object {T : TypeLaws} (req : Request) (cfg : SwiftGuestBackend) :
  ∃ u labels, renderSwiftGuest req cfg = Some u ∧
    type_of u = (Some (VStr "swift.kubeswift.io/v1alpha1"), Some (VStr "SwiftGuest")) ∧
    meta_view u = (req_GuestNamespace req, meta_Name (ksm_ObjectMeta (req_Machine req)), Some labels) ∧
    (∀ k v, labels !! k = Some v ↔ guest_label req k v) ∧
    (∀ k v, lookup_path (Object u) ["spec"; k] = Some v ↔ asked req cfg k v) ∧
    ∀ k, k ∉ owned_keys → k ≠ "spec" → Object u !! k = None.
Proof.
  destruct (renderSwiftGuest_law req cfg) as (u & Hr & Hm & Hs & Hk).
  exists u, (guest_labels req). split_and!; [done|by eapply renderSwiftGuest_type|done| | |done].
  - apply guest_labels_spec.
  - intros k v. cbn [lookup_path]. rewrite Hs. apply guestSpec_asked.
Qed.
End Metadata.

(** ** The seed profile *)

(** The reference to the machine's bootstrap secret. *)
Definition bootstrapRef (req : Request) : gmap string val :=
  {["secretKeyRef" := VMap (<[nameField := VStr (req_BootstrapDataSecretName req)]>
     {["key" := VStr BootstrapDataSecretKey]})]}.

(** A profile whose spec points at the bootstrap secret and holds no inline
    cloud-init. *)
Definition seed_points_at_secret (req : Request) (u : Unstructured) : Prop :=
  lookup_path (Object u) ["spec"; "userData"] = None ∧
  lookup_path (Object u) ["spec"; "userDataFrom"] = Some (VMap (bootstrapRef req)).

Section Seed.
Context {lib : Lib}.

Definition seedObject (req : Request) : Unstructured :=
  mkUnstructured (<["spec" := VMap (seedProfileSpec req)]>
    (Object (labelled swiftSeedProfileGVK (req_GuestNamespace req) (seedName (req_Name req)) req))).

Lemma seedObject_type {T : TypeLaws} req :
  type_of (seedObject req) =
    (Some (VStr "seed.kubeswift.io/v1alpha1"), Some (VStr "SwiftSeedProfile")).
Proof.
  assert (type_of (labelled swiftSeedProfileGVK (req_GuestNamespace req) (seedName (req_Name req)) req) =
    (Some (VStr "seed.kubeswift.io/v1alpha1"), Some (VStr "SwiftSeedProfile"))) as Ht.
  { unfold labelled, setKubeSwiftLabels. rewrite SetLabels_type, SetName_type, SetNamespace_type.
    unfold newUnstructured. by rewrite SetGroupVersionKind_type. }
  unfold type_of, seedObject in *. simpl. by rewrite !lookup_insert_ne by done.
Qed.

Lemma seedProfileSpec_ref req :
  seedProfileSpec req !! "userDataFrom" = Some (VMap (bootstrapRef req)).
Proof. unfold seedProfileSpec. by lookups. Qed.

Lemma seedObject_points req : seed_points_at_secret req (seedObject req).
Proof.
  split; unfold seedObject; cbn [Object lookup_path]; rewrite lookup_insert_eq.
  - unfold seedProfileSpec. by lookups.
  - apply seedProfileSpec_ref.
Qed.

Context {N : NestedLaws} {D : DeepEqualLaws}.

Lemma migrated_points req obj obj' :
  SetNestedField (RemoveNestedField obj ["spec"; "userData"]) (VMap (bootstrapRef req))
    ["spec"; "userDataFrom"] = (obj', None) →
  seed_points_at_secret req (mkUnstructured obj').
Proof.
  unfold seed_points_at_secret. cbn [Object lookup_path].
  destruct (obj !! "spec") as [w|] eqn:Es.
  - destruct w as [| | | | |m];
      try (rewrite RemoveNestedField_other by (intros ?; congruence); intros H;
           exfalso; eapply (SetNestedField_not_map obj "spec" "userDataFrom");
           [exact Es|intros; congruence|rewrite H; done]).
    rewrite (RemoveNestedField_map _ _ _ m Es).
    rewrite (SetNestedField_map _ _ _ _ (delete "userData" m)) by apply lookup_insert_eq.
    intros [= <-]. rewrite !lookup_insert_eq. split; [|done].
    rewrite lookup_insert_ne by done. apply lookup_delete_eq.
  - rewrite RemoveNestedField_other by (intros ?; congruence).
    rewrite SetNestedField_absent by done. intros [= <-]. rewrite !lookup_insert_eq.
    by lookups.
Qed.

(** The move succeeds on a profile whose spec is absent or a map. *)
Definition mendable (s : Unstructured) : Prop :=
  ∀ v, Object s !! "spec" = Some v → ∃ m, v = VMap m.

Lemma migrate_ok req s :
  mendable s →
  ∃ obj', SetNestedField (RemoveNestedField (Object s) ["spec"; "userData"])
    (VMap (bootstrapRef req)) ["spec"; "userDataFrom"] = (obj', None) ∧ mendable (mkUnstructured obj').
Proof.
  unfold mendable. intros Hs. destruct (Object s !! "spec") as [v|] eqn:Es.
  - destruct (Hs v eq_refl) as [m ->]. rewrite (RemoveNestedField_map _ _ _ m Es).
    rewrite (SetNestedField_map _ _ _ _ (delete "userData" m)) by apply lookup_insert_eq.
    eexists. split; [done|]. simpl. rewrite lookup_insert_eq. intros v [= <-]. by eexists.
  - rewrite RemoveNestedField_other by (intros ?; congruence).
    rewrite SetNestedField_absent by done. eexists. split; [done|]. simpl.
    rewrite lookup_insert_eq. intros v [= <-]. by eexists.
Qed.

Lemma seedObject_mendable req : mendable (seedObject req).
Proof. unfold mendable, seedObject. simpl. rewrite lookup_insert_eq. intros v [= <-]. by eexists. Qed.

Lemma nested_text_absent u p : lookup_path (Object u) p = None → nested_text u p = "".
Proof. intros H. unfold nested_text. apply NestedString_other. intros s. by rewrite H. Qed.

(** C29: Whatever the API server answers, every SwiftSeedProfile that
    [ensureSeedProfile] creates or updates references the bootstrap secret and
    carries no inline user data, so the join credentials stay in the Secret. *)
Theorem ensureSeedProfile_writes (req : Request) :
  wp any (ensureSeedProfile req) (λ t r,
    no_delete t ∧
    Forall (λ ev, ∀ u, ev_create ev = Some u ∨ ev_update ev = Some u →
      seed_points_at_secret req u) t).
Proof.
  unfold ensureSeedProfile. rewrite seedProfileSpec_ref. cbn [default from_option id].
  pose proof (seedObject_points req) as Hseed.
  change (mkUnstructured (<["spec" := VMap (seedProfileSpec req)]> _)) with (seedObject req).
  steps; repeat match goal with
    H : SetNestedField _ _ _ = (_, None) |- _ => apply migrated_points in H end;
    (split; on_events ltac:(try done; naive_solver)).
Qed.

(** Seed reconciliation converges: against a server that returns a profile in
    the state [ensureSeedProfile_writes] establishes, the next
    [ensureSeedProfile] succeeds and asks for no change. *)
Theorem ensureSeedProfile_converges (req : Request) (u : Unstructured) :
  seed_points_at_secret req u →
  wp (get_answers u) (ensureSeedProfile req) (λ t r, r = None ∧ read_only t).
Proof.
  intros [H1 H2]. unfold ensureSeedProfile. rewrite seedProfileSpec_ref.
  step. intros x ->. rewrite (nested_text_absent u _ H1).
  rewrite (proj2 (DeepEqual_any_spec _ _)) by (by rewrite (NestedMap_found _ _ _ H2)).
  step. split; [done|by repeat constructor].
Qed.
End Seed.


(** ** Reconcile: the requests and their order *)

Abbreviation get_seed req x :=
  (Ev (Get KUnstructured (seedKey req) (newUnstructured swiftSeedProfileGVK)) x).
Abbreviation get_guest req x :=
  (Ev (Get KUnstructured (guestKey req) (newUnstructured swiftGuestGVK)) x).

Section Runs.
Context {lib : Lib}.

(** A seed phase that ends with the profile in place. *)
Inductive seed_ensured (req : Request) : trace call → Prop :=
  | seed_found u :
      nested_text u ["spec"; "userData"] = "" →
      DeepEqual_any (NestedMap (Object u) ["spec"; "userDataFrom"]).1.1
        (Some (VMap (bootstrapRef req))) = true →
      seed_ensured req [get_seed req (Ok u)]
  | seed_moved u v o :
      seed_points_at_secret req v →
      seed_ensured req [get_seed req (Ok u); Ev (Update KUnstructured v) (Ok o)]
  | seed_made e o :
      IsNotFound (Some e) = true →
      seed_ensured req [get_seed req (Err e); Ev (Create KUnstructured (seedObject req)) (Ok o)].

(** A guest phase that ends with the guest [g] in hand. *)
Inductive guest_obtained (req : Request) (cfg : SwiftGuestBackend) :
    trace call → Unstructured → Prop :=
  | guest_found g : guest_obtained req cfg [get_guest req (Ok g)] g
  | guest_made e u g :
      IsNotFound (Some e) = true → renderSwiftGuest req cfg = Some u →
      guest_obtained req cfg [get_guest req (Err e); Ev (Create KUnstructured u) (Ok g)] g.

(** The creations of a trace, each with what was asked before it: the seed
    profile after it was reported absent; the guest after the seed was ensured
    and the guest reported absent. *)
Definition seed_creation (req : Request) (pre : trace call) (u : Unstructured) : Prop :=
  u = seedObject req ∧ ∃ e, IsNotFound (Some e) = true ∧ pre = [get_seed req (Err e)].
Definition guest_creation (req : Request) (cfg : SwiftGuestBackend) (pre : trace call)
    (u : Unstructured) : Prop :=
  renderSwiftGuest req cfg = Some u ∧
  ∃ ts e, seed_ensured req ts ∧ IsNotFound (Some e) = true ∧ pre = ts ++ [get_guest req (Err e)].

Context {N : NestedLaws} {U : UnstructuredLaws}.

Lemma ensureSeedProfile_runs req :
  wp any (ensureSeedProfile req) (λ t r,
    backend_trace t ∧ no_delete t ∧ (r = None → seed_ensured req t) ∧
    at_each (λ pre ev, ∀ u, ev_create ev = Some u → seed_creation req pre u) t).
Proof.
  unfold ensureSeedProfile. rewrite seedProfileSpec_ref. cbn [default from_option id].
  change (mkUnstructured (<["spec" := VMap (seedProfileSpec req)]> _)) with (seedObject req).
  steps; bool_facts; repeat match goal with
    H : SetNestedField _ _ _ = (_, None) |- _ => apply migrated_points in H end;
    (split; [on_events done|]; split; [on_events done|]; split;
     [try done; intros _; by econstructor|]).
  all: repeat split; simpl in *; simplify_eq; eauto.
Qed.

Lemma ensureSwiftGuest_runs req cfg :
  wp any (ensureSwiftGuest req cfg) (λ t r,
    backend_trace t ∧ no_delete t ∧ (∀ g, r = Ok g → guest_obtained req cfg t g) ∧
    at_each (λ pre ev, ∀ u, ev_create ev = Some u →
      renderSwiftGuest req cfg = Some u ∧
      ∃ e, IsNotFound (Some e) = true ∧ pre = [get_guest req (Err e)]) t).
Proof.
  unfold ensureSwiftGuest. destruct (renderSwiftGuest_law req cfg) as (u & Hu & _).
  rewrite Hu. steps; bool_facts;
    (split; [on_events done|]; split; [on_events done|]; split;
     [intros g [=]; subst; by econstructor|]).
  all: repeat split; simpl in *; simplify_eq; eauto.
Qed.

(** Specification of a whole reconcile, from which the two claims follow. *)
Lemma Reconcile_runs req :
  wp any (Reconcile req) (λ t r,
    backend_trace t ∧ no_delete t ∧
    (∀ err, validate req = Err err → t = [] ∧ r = Err err) ∧
    (∀ res, r = Ok res → ∃ cfg ts tg g, validate req = Ok cfg ∧ t = ts ++ tg ∧
      seed_ensured req ts ∧ guest_obtained req cfg tg g ∧ guestResult req g = Ok res) ∧
    at_each (λ pre ev, ∀ u, ev_create ev = Some u →
      seed_creation req pre u ∨
      ∃ cfg, validate req = Ok cfg ∧ guest_creation req cfg pre u) t).
Proof.
  unfold Reconcile. destruct (validate req) as [cfg|err] eqn:Hv.
  2: { step. repeat split; try constructor; try done. by injection H as ->. }
  eapply wp_seq; [apply ensureSeedProfile_runs|]. cbn beta.
  intros ts [err|] (B1 & D1 & S1 & C1); cbn beta iota.
  { step. rewrite app_nil_r. repeat split; try done.
    apply each_after_spec. intros t1 ev t2 -> u Hu. left.
    apply each_after_spec with (t1 := t1) (ev := ev) (t2 := t2) in C1; auto. }
  specialize (S1 eq_refl).
  eapply wp_seq; [apply ensureSwiftGuest_runs|]. cbn beta.
  intros tg r (B2 & D2 & S2 & C2).
  assert (at_each (λ pre ev, ∀ u, ev_create ev = Some u →
    seed_creation req pre u ∨
    ∃ cfg0, Ok cfg = Ok cfg0 ∧ guest_creation req cfg0 pre u) (ts ++ tg)) as C.
  { apply each_after_app. split.
    - apply each_after_spec. intros t1 ev t2 Ht u Hu. left.
      by apply (proj1 (each_after_spec _ _ _) C1 t1 ev t2 Ht u Hu).
    - apply each_after_spec. intros t1 ev t2 Ht u Hu. right. exists cfg. split; [done|].
      destruct (proj1 (each_after_spec _ _ _) C2 t1 ev t2 Ht u Hu) as (Hr & e & He & Hp).
      split; [done|]. exists ts, e. simpl in Hp. by rewrite Hp. }
  assert (backend_trace (ts ++ tg) ∧ no_delete (ts ++ tg)) as [B D]
    by (split; by apply Forall_app).
  destruct r as [g|err]; step; rewrite app_nil_r;
    (split; [done|]; split; [done|]; split; [done|]; split; [|done]).
  - intros res Hres. exists cfg, ts, tg, g. auto 6.
  - intros res [=].
Qed.

(** C12: A reconcile creates the SwiftGuest at most as its last step, only from a
    validated configuration, after the seed profile was found, moved or created
    successfully and after the guest was reported absent; it creates nothing
    else but the seed profile (after that was reported absent) and deletes
    nothing. A rejected configuration asks the API server nothing at all. *)
Theorem Reconcile_creates (req : Request) :
  wp any (Reconcile req) (λ t r,
    no_delete t ∧
    (∀ err, validate req = Err err → t = [] ∧ r = Err err) ∧
    at_each (λ pre ev, ∀ u, ev_create ev = Some u →
      seed_creation req pre u ∨
      ∃ cfg, validate req = Ok cfg ∧ guest_creation req cfg pre u) t).
Proof. eapply wp_mono; [|apply Reconcile_runs]. simpl. tauto. Qed.

(** A reconcile that succeeds has ensured the seed profile, then read or created
    the guest, and reports exactly the state of that guest. *)
Theorem Reconcile_reports_guest (req : Request) :
  wp any (Reconcile req) (λ t r,
    ∀ res, r = Ok res → ∃ cfg ts tg g, validate req = Ok cfg ∧ t = ts ++ tg ∧
      seed_ensured req ts ∧ guest_obtained req cfg tg g ∧ guestResult req g = Ok res).
Proof. eapply wp_mono; [|apply Reconcile_runs]. simpl. tauto. Qed.
End Runs.
