(* ===== verification/SwiftGuestStatus.v ===== *)
(** * SwiftGuestStatus: reading a guest, deleting it, and the backend contract

    The state a reconcile reports is characterised from the guest's status; the
    deletion order is proved for every answer of the API server; and the SwiftGuest
    backend is shown to implement [BackendContract]. *)

From S2P Require Import Prelude Go Prog Kube Api Lib Reference Backend Samples.
From S2P Require Import SwiftGuest SwiftGuestSpec SwiftGuestRun.

(** ** The status of a guest, declaratively *)

Definition phase_of (g : Unstructured) : string := text_at (Object g) ["status"; "phase"].
Definition network_text (g : Unstructured) (f : string) : string :=
  text_at (Object g) ["status"; "network"; f].

(** The address the guest is reachable at: the pod's when the guest's own is
    private to its launcher, and none before the guest has leased its own. *)
Inductive reachable_at (g : Unstructured) (a : string) : Prop :=
  | reachable_own :
      network_text g "primaryIP" = a → a ≠ "" →
      network_text g "primaryIPScope" ≠ primaryIPScopePod → reachable_at g a
  | reachable_pod :
      network_text g "primaryIP" ≠ "" →
      network_text g "primaryIPScope" = primaryIPScopePod →
      network_text g "podIP" = a → a ≠ "" → reachable_at g a.

(** A condition that reports a reference as missing or not ready, and why. *)
Definition unresolved (c : gmap string val) : Prop :=
  c !! "type" = Some (VStr resolvedCondition) ∧ c !! "status" = Some (VStr ConditionFalse).
Definition unresolved_why (c : gmap string val) : string :=
  if String.eqb (text_of (c !! "message")) "" then text_of (c !! "reason")
  else text_of (c !! "message").

(** The first such condition of a list explains the wait. *)
Definition first_unresolved (l : list val) (msg : string) : Prop :=
  ∃ l1 c l2, l = l1 ++ VMap c :: l2 ∧ unresolved c ∧ msg = unresolved_why c ∧
    Forall (λ v, ∀ c', v = VMap c' → ¬ unresolved c') l1.

Definition conditions_of (g : Unstructured) : list val :=
  match lookup_path (Object g) ["status"; "conditions"] with Some (VList l) => l | _ => [] end.

Lemma is_text_true v s : is_text v s = true ↔ v = Some (VStr s).
Proof.
  destruct v as [[]|]; simpl; try (split; done). rewrite String.eqb_eq. split; congruence.
Qed.

Lemma find_unresolved_spec l msg : find_unresolved l = Some msg ↔ first_unresolved l msg.
Proof.
  unfold first_unresolved. induction l as [|v l IH].
  { split; [done|]. intros ([|] & c & l2 & ? & _); done. }
  assert (Hskip : (∀ c, v = VMap c → ¬ unresolved c) →
    (∃ l1 c l2, l = l1 ++ VMap c :: l2 ∧ unresolved c ∧ msg = unresolved_why c ∧
       Forall (λ v, ∀ c', v = VMap c' → ¬ unresolved c') l1) ↔
    (∃ l1 c l2, v :: l = l1 ++ VMap c :: l2 ∧ unresolved c ∧ msg = unresolved_why c ∧
       Forall (λ v, ∀ c', v = VMap c' → ¬ unresolved c') l1)).
  { intros Hv. split.
    - intros (l1 & c & l2 & -> & Hc & Hm & Hl). exists (v :: l1), c, l2. eauto using Forall_cons_2.
    - intros ([|w l1] & c & l2 & [= -> Hl] & Hc & Hm & Hf); [by destruct (Hv c)|].
      apply Forall_cons_1 in Hf as [_ Hf]. eauto 10. }
  destruct v as [| | | | |m]; simpl; try (rewrite IH; by apply Hskip).
  destruct (is_text (m !! "type") resolvedCondition) eqn:E1,
    (is_text (m !! "status") ConditionFalse) eqn:E2; simpl.
  - apply is_text_true in E1, E2. unfold unresolved_why. split.
    + intros [= <-]. exists [], m, l. repeat split; [done..|constructor].
    + intros ([|w l1] & c & l2 & [= <- Hl] & Hc & Hm & Hf); [by rewrite Hm|].
      apply Forall_cons_1 in Hf as [Hw _]. by destruct (Hw m).
  - rewrite IH. apply Hskip. intros c [= <-] [_ H]. apply is_text_true in H. congruence.
  - rewrite IH. apply Hskip. intros c [= <-] [H _]. apply is_text_true in H. congruence.
  - rewrite IH. apply Hskip. intros c [= <-] [H _]. apply is_text_true in H. congruence.
Qed.

Section Status.
Context {lib : Lib} {N : NestedLaws}.

Lemma nested_text_spec u p : nested_text u p = text_at (Object u) p.
Proof.
  unfold nested_text, text_at. destruct (lookup_path (Object u) p) as [v|] eqn:E.
  - destruct v; try (apply NestedString_other; intros ?; congruence).
    by apply NestedString_found.
  - apply NestedString_other. intros ?. congruence.
Qed.

Lemma guestAddresses_spec g a :
  guestAddresses g = [mkMachineAddress MachineInternalIP a] ↔ reachable_at g a.
Proof.
  unfold guestAddresses. rewrite !nested_text_spec. fold (network_text g "primaryIP").
  fold (network_text g "primaryIPScope"). fold (network_text g "podIP").
  destruct (String.eqb (network_text g "primaryIP") "") eqn:E1; bool_facts.
  { split; [done|]. intros []; congruence. }
  destruct (String.eqb (network_text g "primaryIPScope") primaryIPScopePod) eqn:E2; bool_facts.
  - destruct (String.eqb (network_text g "podIP") "") eqn:E3; bool_facts.
    + split; [done|]. intros []; congruence.
    + split; [intros [= <-]; by apply reachable_pod|]. intros []; congruence.
  - split; [intros [= <-]; by apply reachable_own|]. intros []; congruence.
Qed.

Lemma guestAddresses_cases g :
  (∃ a, guestAddresses g = [mkMachineAddress MachineInternalIP a]) ∨
  (guestAddresses g = [] ∧ ∀ a, ¬ reachable_at g a).
Proof.
  destruct (guestAddresses g) as [|x l] eqn:E.
  - right. split; [done|]. intros a Ha%guestAddresses_spec. congruence.
  - left. revert E. unfold guestAddresses. repeat case_match; intros [= <- <-]; eauto.
Qed.

Lemma unresolvedMessage_spec g msg :
  unresolvedMessage g = Some msg ↔ first_unresolved (conditions_of g) msg.
Proof.
  unfold unresolvedMessage, conditions_of. rewrite <- find_unresolved_spec.
  destruct (lookup_path (Object g) ["status"; "conditions"]) as [v|] eqn:E.
  - destruct v; try (rewrite NestedSlice_other by (intros ?; congruence); done).
    by rewrite (NestedSlice_found _ _ _ E).
  - by rewrite NestedSlice_other by (intros ?; congruence).
Qed.

(** What a reconcile that waits reports. *)
Definition waits (req : Request) (g : Unstructured) (res : BackendResult) : Prop :=
  br_Provisioned res = false ∧ br_Addresses res = [] ∧ br_Requeue res = true ∧
  match br_WaitingReason res with
  | EmptyString => br_WaitingMessage res = "" ∧ ∀ msg, ¬ first_unresolved (conditions_of g) msg
  | r => r = VMWaitingForReferencesReason ∧ ∃ msg, first_unresolved (conditions_of g) msg ∧
      br_WaitingMessage res = "SwiftGuest " +:+ req_GuestNamespace req +:+ "/" +:+ req_Name req +:+
        " is waiting for its references: " +:+ msg
  end.

Definition waiting_result (req : Request) (g : Unstructured) : BackendResult :=
  match unresolvedMessage g with
  | Some msg => mkBackendResult false [] true VMWaitingForReferencesReason
      ("SwiftGuest " +:+ req_GuestNamespace req +:+ "/" +:+ req_Name req +:+
         " is waiting for its references: " +:+ msg)
  | None => mkBackendResult false [] true "" ""
  end.

Lemma waiting_result_waits req g : waits req g (waiting_result req g).
Proof.
  unfold waiting_result. destruct (unresolvedMessage g) as [msg|] eqn:Em; repeat split.
  - exists msg. split; [by apply unresolvedMessage_spec|done].
  - intros msg Hm%unresolvedMessage_spec. congruence.
Qed.

Lemma guestResult_cases req g :
  (phase_of g = "Failed" ∧ ∃ e, guestResult req g = Err e) ∨
  (phase_of g = "Running" ∧ ∃ a, reachable_at g a ∧
    guestResult req g =
      Ok (mkBackendResult true [mkMachineAddress MachineInternalIP a] false "" "")) ∨
  (phase_of g ≠ "Failed" ∧ (phase_of g ≠ "Running" ∨ ∀ a, ¬ reachable_at g a) ∧
    guestResult req g = Ok (waiting_result req g)).
Proof.
  assert (guestResult req g =
    if String.eqb (phase_of g) "Failed" then
      Err (Errorf ("SwiftGuest " +:+ req_GuestNamespace req +:+ "/" +:+ req_Name req +:+
        " reported phase Failed"))
    else if negb (String.eqb (phase_of g) "Running") || (length (guestAddresses g) =? 0)%nat
      then Ok (waiting_result req g)
      else Ok (mkBackendResult true (guestAddresses g) false "" "")) as ->.
  { unfold guestResult, waiting_result. rewrite nested_text_spec. fold (phase_of g).
    by destruct (unresolvedMessage g), (String.eqb (phase_of g) "Failed"),
      (String.eqb (phase_of g) "Running"), (guestAddresses g). }
  destruct (String.eqb (phase_of g) "Failed") eqn:Ef; bool_facts; [by left; eauto|].
  destruct (String.eqb (phase_of g) "Running") eqn:Er; bool_facts; cbn [negb orb].
  2: { right; right. eauto. }
  destruct (guestAddresses_cases g) as [[a Ha]|[Ha Hn]]; rewrite Ha; cbn.
  - right; left. split; [done|]. exists a. split; [by apply guestAddresses_spec|done].
  - right; right. eauto.
Qed.

(** C14: The state reported for a guest: an error exactly in phase Failed;
    provisioned exactly when it runs and is reachable, at that one address (the
    launcher pod's for a guest whose own address is private to the pod); otherwise a
    requeue, whose reason is the guest's first unresolved reference, if any. *)
Theorem guestResult_status (req : Request) (g : Unstructured) :
  match guestResult req g with
  | Err _ => phase_of g = "Failed"
  | Ok res =>
    phase_of g ≠ "Failed" ∧
    ((phase_of g = "Running" ∧ ∃ a, reachable_at g a ∧
        res = mkBackendResult true [mkMachineAddress MachineInternalIP a] false "" "") ∨
     ((phase_of g ≠ "Running" ∨ ∀ a, ¬ reachable_at g a) ∧ waits req g res))
  end.
Proof.
  destruct (guestResult_cases req g) as [(Hp & e & ->)|[(Hp & a & Ha & ->)|(Hp & Hc & ->)]].
  - done.
  - rewrite Hp. split; [done|]. left. eauto.
  - split; [done|]. right. split; [done|]. apply waiting_result_waits.
Qed.
End Status.

(** ** Delete *)

Abbreviation no_write t :=
  (Forall (λ ev, match ev with
    | Ev (Create _ _) _ | Ev (Update _ _) _ => False | _ => True end) t).

Section Deletion.
Context {lib : Lib}.

(** The reference to the seed profile that Delete names. *)
Definition seedRef (req : Request) : Unstructured :=
  SetName (SetNamespace (newUnstructured swiftSeedProfileGVK) (req_GuestNamespace req))
    (seedName (req_Name req)).

(** What may be deleted, and when: the guest just read, unless it is already
    terminating; the seed profile once the guest is reported gone. *)
Definition deletion (req : Request) (pre : trace call) (u : Unstructured) : Prop :=
  (Time_IsZero (GetDeletionTimestamp u) = true ∧ pre = [get_guest req (Ok u)]) ∨
  (u = seedRef req ∧ ∃ e, IsNotFound (Some e) = true ∧ pre = [get_guest req (Err e)]).

Definition gone (d : option error) : Prop := d = None ∨ IsNotFound d = true.

Lemma Delete_runs req :
  wp any (Delete req) (λ t r,
    backend_trace t ∧ no_write t ∧
    (r = Ok true → ∃ e d, IsNotFound (Some e) = true ∧ gone d ∧
      t = [get_guest req (Err e); Ev (Lib.Delete KUnstructured (seedRef req)) d]) ∧
    at_each (λ pre ev, ∀ u, ev_delete ev = Some u → deletion req pre u) t).
Proof.
  unfold Delete. fold (seedRef req).
  unfold gone. steps; bool_facts;
    (split; [on_events done|]; split; [on_events done|]; split;
     [intros [=]; subst; eexists _, _; eauto
     |repeat split; simpl in *; intros; simplify_eq; first [by left; eauto | right; eauto]]).
Qed.

Context {U : UnstructuredLaws}.

Lemma seedRef_view req :
  meta_view (seedRef req) = (req_GuestNamespace req, seedName (req_Name req), None).
Proof.
  unfold seedRef. destruct (newUnstructured_law swiftSeedProfileGVK) as [B0 V0].
  destruct (setter_bare _ _ _ (SetNamespace_spec _ (req_GuestNamespace req)) B0) as [B1 V1].
  destruct (setter_bare _ _ _ (SetName_spec _ (seedName (req_Name req))) B1) as [B2 V2].
  unfold meta_view in V0, V1. injection V0 as _ _ L0. injection V1 as N1 _ L1.
  by rewrite V2, N1, L1, L0.
Qed.

(** C13: Whatever the API server answers, a delete never creates or updates
    anything; it deletes the SwiftGuest it just read (and only when that is not
    already terminating), or the machine's own seed profile, and the latter only
    once the guest was reported gone; it reports done only when both are gone. *)
Theorem Delete_order (req : Request) :
  wp any (Delete req) (λ t r,
    no_write t ∧
    at_each (λ pre ev, ∀ u, ev_delete ev = Some u → deletion req pre u) t ∧
    (r = Ok true → ∃ e d, IsNotFound (Some e) = true ∧ gone d ∧
      t = [get_guest req (Err e); Ev (Lib.Delete KUnstructured (seedRef req)) d])) ∧
  meta_view (seedRef req) = (req_GuestNamespace req, req_Name req +:+ "-seed", None).
Proof.
  split; [|apply seedRef_view]. eapply wp_mono; [|apply Delete_runs]. simpl. tauto.
Qed.
End Deletion.

(** ** The contract with the machine controller *)

Section Contract.
Context {lib : Lib} {N : NestedLaws} {U : UnstructuredLaws}.

Lemma guestResult_contract req g res :
  guestResult req g = Ok res →
  (br_Provisioned res = true → br_Addresses res ≠ [] ∧ br_Requeue res = false) ∧
  (br_Provisioned res = false → br_Requeue res = true ∧ br_Addresses res = []).
Proof.
  intros H. destruct (guestResult_cases req g) as [(_ & e & He)|[(_ & a & _ & Ha)|(_ & _ & Hw)]];
    [congruence|rewrite Ha in H; by injection H as <-|].
  rewrite Hw in H. injection H as <-. pose proof (waiting_result_waits req g) as (-> & -> & -> & _).
  done.
Qed.

#[export] Instance SwiftGuest_contract : BackendContract NewSwiftGuestBackend.
Proof.
  split; intros req; cbn [backend_Reconcile backend_Delete NewSwiftGuestBackend].
  - eapply wp_mono; [|apply Reconcile_runs]. simpl. intros t r (Hb & Hd & _ & Hr & _).
    split; [done|]. split; [done|]. intros res Hres.
    destruct (Hr res Hres) as (? & ? & ? & g & _ & _ & _ & _ & Hg).
    by apply (guestResult_contract req g).
  - eapply wp_mono; [|apply Delete_runs]. simpl. tauto.
Qed.
End Contract.
