(* ===== verification/WorkloadNode.v ===== *)
(** * WorkloadNode: internal/controller/workload_node.go

    Setting the providerID of the workload cluster's Node: the handler, and the
    proof that it never overwrites an identity and patches exactly its own. *)

From S2P Require Import Prelude Go Prog Kube Api Lib Reference SwiftGuest.

Definition Secret_zero : Secret := mkSecret meta_zero ∅.

(** A JSON object with one field, its value given as text. *)
Definition json_field (k v : string) : string :=
  "{" +:+ Quote.dquote +:+ k +:+ Quote.dquote +:+ ":" +:+ v +:+ "}".

Definition kubeconfigKey (cluster : Cluster) : NamespacedName :=
  mkNN (meta_Namespace (clus_ObjectMeta cluster))
    (meta_Name (clus_ObjectMeta cluster) +:+ "-kubeconfig").

Section Definitions.
Context {lib : Lib}.

(** The merge patch sent to the Node. *)
Definition providerIDPatch (providerID : string) : string :=
  json_field "spec" (json_field "providerID" (fmt_q providerID)).

(** The part after the workload client is built. *)
Definition patchNode (cs : Clientset) (nodeName providerID : string) : prog call (result bool) :=
  let! n := perform (NodesGet cs nodeName) in
  match n with
  | Err _ => Ret (Ok false)
  | Ok node =>
    if String.eqb (node_Spec_ProviderID node) providerID then Ret (Ok true)
    else if negb (String.eqb (node_Spec_ProviderID node) "") then Ret (Ok true)
    else
      let! p := perform (NodesPatch cs nodeName (providerIDPatch providerID)) in
      match p with
      | Some err => Ret (Err (Wrapf ("patching Node " +:+ nodeName +:+ " providerID") err))
      | None => Ret (Ok true)
      end
  end.

Definition ensureNodeProviderID (cluster : Cluster) (nodeName providerID : string) :
    prog call (result bool) :=
  let key := kubeconfigKey cluster in
  let! r := perform (Get KSecret key Secret_zero) in
  match r with
  | Err err =>
    if IsNotFound (Some err) then Ret (Ok false)
    else Ret (Err (Wrapf ("reading workload kubeconfig secret " +:+ NamespacedName_String key) err))
  | Ok secret =>
    match sec_Data secret !! "value" with
    | None => Ret (Err (Errorf ("workload kubeconfig secret " +:+ NamespacedName_String key +:+
        " has no 'value' key")))
    | Some data =>
      let! c := perform (RESTConfigFromKubeConfig data) in
      match c with
      | Err err => Ret (Err (Wrapf ("parsing workload kubeconfig " +:+ NamespacedName_String key) err))
      | Ok restCfg =>
        let! k := perform (NewForConfig restCfg) in
        match k with
        | Err err => Ret (Err (Wrapf "building workload client" err))
        | Ok cs => patchNode cs nodeName providerID
        end
      end
    end
  end.
End Definitions.

(** ** What it asks of the workload cluster *)

(** The requests that reach the node of the cluster's own kubeconfig. *)
Definition workload_client (cluster : Cluster) (t : trace call) (cs : Clientset) : Prop :=
  ∃ secret data cfg, sec_Data secret !! "value" = Some data ∧
    t = [Ev (Get KSecret (kubeconfigKey cluster) Secret_zero) (Ok secret);
         Ev (RESTConfigFromKubeConfig data) (Ok cfg); Ev (NewForConfig cfg) (Ok cs)].

(** A Node that reports an identity once the handler is done with it. *)
Inductive node_identified (cluster : Cluster) (nodeName patch providerID : string) :
    trace call → Prop :=
  | node_has_id t cs node :
      workload_client cluster t cs →
      node_Spec_ProviderID node = providerID ∨ node_Spec_ProviderID node ≠ "" →
      node_identified cluster nodeName patch providerID (t ++ [Ev (NodesGet cs nodeName) (Ok node)])
  | node_given_id t cs node :
      workload_client cluster t cs →
      node_Spec_ProviderID node = "" →
      node_identified cluster nodeName patch providerID
        (t ++ [Ev (NodesGet cs nodeName) (Ok node); Ev (NodesPatch cs nodeName patch) None]).

Section Proofs.
Context {lib : Lib}.

(** Calls of this handler: reads, and the patch of a node. *)
Definition node_call {X} (c : call X) : bool :=
  match c with
  | Get KSecret _ _ | RESTConfigFromKubeConfig _ | NewForConfig _ | NodesGet _ _
  | NodesPatch _ _ _ => true
  | _ => false
  end.
Definition node_trace (t : trace call) : Prop :=
  Forall (λ ev, match ev with Ev c _ => node_call c = true end) t.

(** A patch of a node, given what was asked before. *)
Definition node_patch_ok (cluster : Cluster) (nodeName providerID : string)
    (pre : trace call) (ev : event call) : Prop :=
  match ev with
  | Ev (NodesPatch cs n body) _ =>
    n = nodeName ∧ body = providerIDPatch providerID ∧
    ∃ t node, workload_client cluster t cs ∧ node_Spec_ProviderID node = "" ∧
      pre = t ++ [Ev (NodesGet cs nodeName) (Ok node)]
  | _ => True
  end.

Lemma ensureNodeProviderID_runs cluster nodeName providerID :
  wp any (ensureNodeProviderID cluster nodeName providerID) (λ t r,
    node_trace t ∧
    at_each (node_patch_ok cluster nodeName providerID) t ∧
    (r = Ok true →
      node_identified cluster nodeName (providerIDPatch providerID) providerID t)).
Proof.
  unfold ensureNodeProviderID, patchNode. steps; bool_facts; (split; [on_events done|]).
  all: (split; [unfold at_each; cbn [each_after node_patch_ok app]; repeat split
    |intros [=]]).
  all: try (eexists [_; _; _], _; split_and!; [by eexists _, _, _|eassumption|reflexivity]).
  all: try (eapply (node_has_id _ _ _ _ [_; _; _]); [by eexists _, _, _|by auto]).
  all: eapply (node_given_id _ _ _ _ [_; _; _]); [by eexists _, _, _|done].
Qed.

(** C26: Whatever the API servers answer, [ensureNodeProviderID] changes nothing but
    the named Node of the cluster's own workload kubeconfig, and that only after
    reading it with no providerID, with the merge patch that sets exactly the given
    one; and it reports the node patched only if the node carried an identity or that
    patch succeeded. A providerID of printable text is embedded unescaped. *)
Theorem ensureNodeProviderID_safe (cluster : Cluster) (nodeName providerID : string) :
  wp any (ensureNodeProviderID cluster nodeName providerID) (λ t r,
    Forall (λ ev, ev_mutates ev = true →
      ∃ cs x, ev = Ev (NodesPatch cs nodeName (providerIDPatch providerID)) x) t ∧
    at_each (node_patch_ok cluster nodeName providerID) t ∧
    (r = Ok true →
      node_identified cluster nodeName (providerIDPatch providerID) providerID t)) ∧
  (Quote.plain providerID = true →
    providerIDPatch providerID =
      json_field "spec" (json_field "providerID"
        (Quote.dquote +:+ providerID +:+ Quote.dquote))).
Proof.
  split.
  - eapply wp_mono; [|apply ensureNodeProviderID_runs]. intros t r (Ht & Hp & Hr).
    split; [|by auto]. unfold node_trace in Ht. rewrite list.Forall_forall in Ht |- *.
    intros ev Hev Hm. specialize (Ht ev Hev).
    apply list_elem_of_split in Hev as (t1 & t2 & Heq).
    pose proof (proj1 (each_after_spec _ _ _) Hp t1 ev t2 Heq) as Ho.
    destruct ev as [X [] x]; try done; simpl in Ho; destruct Ho as (-> & -> & _); eauto.
  - intros H. unfold providerIDPatch, fmt_q. by rewrite Quote.Quote_plain.
Qed.
End Proofs.
