(* ===== verification/MachineController.v ===== *)
(** * MachineController: internal/controller/kubeswiftmachine_controller.go

    The KubeSwiftMachine reconciler. A handler that writes through its machine
    pointer returns the machine beside the Go result; the deferred [Patch] is the
    last call of [Reconcile]. *)

From S2P Require Import Prelude Go Prog Kube Api Lib Reference Backend SwiftGuest WorkloadNode.

(** 15 seconds, in the nanoseconds of [time.Duration]. *)
Definition machineRequeueAfter : Z := 15 * 1000000000.
Definition defaultAPIServerPort : Z := 6443.

(** What a reconcile returns: [(ctrl.Result, error)]. *)
Abbreviation Return := (Result * option error)%type.
Definition requeue : Return := (mkResult machineRequeueAfter, None).
Definition finished : Return := (Result_zero, None).
Definition failed (err : error) : Return := (Result_zero, Some err).

(** [fmt.Sprintf("%s://%s/%s", ...)] *)
Definition machineProviderID (guestNamespace name : string) : string :=
  ProviderIDScheme +:+ "://" +:+ guestNamespace +:+ "/" +:+ name.

Section Definitions.
Context {lib : Lib}.

Definition machine_condition (ksm : KubeSwiftMachine) (c : Condition) : KubeSwiftMachine :=
  ksm_SetConditions ksm (conditions_Set (ksm_GetConditions ksm) c).

Definition notReady (ksm : KubeSwiftMachine) (reason message : string) : KubeSwiftMachine :=
  let ksm := ksm_set_Provisioned ksm (Some false) in
  machine_condition ksm (mkCondition ReadyConditionType ConditionFalse reason message).

(** The assignments that report a provisioned VM. *)
Definition markProvisioned (ksm : KubeSwiftMachine) (machine : Machine) (providerID : string)
    (result : BackendResult) : KubeSwiftMachine :=
  let ksm := ksm_set_ProviderID ksm providerID in
  let ksm := ksm_set_Addresses ksm (br_Addresses result) in
  let ksm := ksm_set_FailureDomain ksm (mach_Spec_FailureDomain machine) in
  let ksm := ksm_set_Provisioned ksm (Some true) in
  machine_condition ksm (mkCondition ReadyConditionType ConditionTrue VMProvisionedReason "").

Definition backendFor (t : MachineBackendType) : result Backend :=
  if String.eqb t SwiftGuestBackendType then Ok NewSwiftGuestBackend
  else Err (Errorf ("unsupported machine backend type " +:+ fmt_q t)).

Definition checkBootstrapData (machine : Machine) : prog call (option error) :=
  let! name := deref (mach_Spec_Bootstrap_DataSecretName machine) in
  let key := mkNN (meta_Namespace (mach_ObjectMeta machine)) name in
  let! r := perform (Get KSecret key Secret_zero) in
  match r with
  | Err err => Ret (Some (Wrapf ("reading bootstrap data secret " +:+ NamespacedName_String key) err))
  | Ok secret =>
    match sec_Data secret !! BootstrapDataSecretKey with
    | None => Ret (Some (Errorf ("bootstrap data secret " +:+ NamespacedName_String key +:+
        " has no " +:+ fmt_q BootstrapDataSecretKey +:+ " key")))
    | Some _ => Ret None
    end
  end.

Definition clusterKey (cluster : Cluster) : NamespacedName :=
  mkNN (meta_Namespace (clus_ObjectMeta cluster)) (clus_Spec_InfrastructureRef_Name cluster).

(** What a KubeSwiftCluster exposes: the API-server port, in Service mode. *)
Definition exposureFor (cluster : Cluster) (ksc : KubeSwiftCluster) : option ControlPlaneExposure :=
  match kscSpec_Endpoint (ksc_Spec ksc) with
  | None => None
  | Some ep =>
    if negb (String.eqb (cpe_Mode ep) EndpointModeService) then None
    else
      let port := match cpe_Service ep with
        | Some svc => if negb (cps_Port svc =? 0)%Z then cps_Port svc else defaultAPIServerPort
        | None => defaultAPIServerPort
        end in
      Some (mkExposure (ControlPlaneServiceSelectorValue (meta_Name (clus_ObjectMeta cluster))) port)
  end.

Definition controlPlaneExposure (machine : Machine) (cluster : Cluster) :
    prog call (result (option ControlPlaneExposure)) :=
  if negb (IsControlPlaneMachine machine) ||
     String.eqb (clus_Spec_InfrastructureRef_Name cluster) "" then Ret (Ok None)
  else
    let key := clusterKey cluster in
    let! r := perform (Get KCluster key KubeSwiftCluster_zero) in
    match r with
    | Err err => Ret (Err (Wrapf ("reading KubeSwiftCluster " +:+ NamespacedName_String key) err))
    | Ok ksc => Ret (Ok (exposureFor cluster ksc))
    end.

(** The reason and message of a machine whose VM is not up. *)
Definition waiting (result : BackendResult) : string * string :=
  if negb (String.eqb (br_WaitingReason result) "")
  then (br_WaitingReason result, br_WaitingMessage result)
  else (VMProvisioningReason, "Waiting for the backing VM to be running with an address").

(** The rest of [reconcileNormal] once the backend returned. *)
Definition reportBackend (ksm : KubeSwiftMachine) (machine : Machine) (cluster : Cluster)
    (providerID : string) (r : result BackendResult) : prog call (KubeSwiftMachine * Return) :=
  match r with
  | Err err => Ret (notReady ksm VMFailedReason (Error err), failed err)
  | Ok result =>
    if negb (br_Provisioned result) then
      let '(reason, message) := waiting result in
      Ret (notReady ksm reason message, requeue)
    else
      let ksm := markProvisioned ksm machine providerID result in
      let! p := ensureNodeProviderID cluster (meta_Name (ksm_ObjectMeta ksm)) providerID in
      match p with
      | Err err => Ret (ksm, failed err)
      | Ok patched => if negb patched then Ret (ksm, requeue) else Ret (ksm, finished)
      end
  end.

Definition reconcileNormal (ksm : KubeSwiftMachine) (machine : Machine) (cluster : Cluster)
    (b : Backend) : prog call (KubeSwiftMachine * Return) :=
  let ksm := ksm_set_Finalizers ksm
    (AddFinalizer (meta_Finalizers (ksm_ObjectMeta ksm)) MachineFinalizer) in
  if negb (ptr_Deref (clus_Status_InfrastructureProvisioned cluster) false) then
    Ret (notReady ksm WaitingForClusterInfrastructureReason
      "Waiting for the cluster infrastructure to be ready", finished)
  else if match mach_Spec_Bootstrap_DataSecretName machine with None => true | Some _ => false end
  then
    Ret (notReady ksm WaitingForBootstrapDataReason
      "Waiting for the bootstrap data secret", finished)
  else
    let! c := checkBootstrapData machine in
    match c with
    | Some err => Ret (ksm, failed err)
    | None =>
      let guestNamespace := meta_Namespace (ksm_ObjectMeta ksm) in
      let providerID := machineProviderID guestNamespace (meta_Name (ksm_ObjectMeta ksm)) in
      let! x := controlPlaneExposure machine cluster in
      match x with
      | Err err => Ret (ksm, failed err)
      | Ok exposure =>
        let! secretName := deref (mach_Spec_Bootstrap_DataSecretName machine) in
        let! r := backend_Reconcile b (mkRequest ksm (Some cluster) (Some machine)
          secretName guestNamespace providerID exposure) in
        reportBackend ksm machine cluster providerID r
      end
    end.

Definition deleteRequest (ksm : KubeSwiftMachine) (machine : Machine) (cluster : Cluster) : Request :=
  mkRequest ksm (Some cluster) (Some machine) "" (meta_Namespace (ksm_ObjectMeta ksm)) "" None.

Definition reconcileDelete (ksm : KubeSwiftMachine) (machine : Machine) (cluster : Cluster)
    (b : Backend) : prog call (KubeSwiftMachine * Return) :=
  let! r := backend_Delete b (deleteRequest ksm machine cluster) in
  match r with
  | Err err => Ret (ksm, failed err)
  | Ok done =>
    if negb done then Ret (ksm, requeue)
    else Ret (ksm_set_Finalizers ksm
      (RemoveFinalizer (meta_Finalizers (ksm_ObjectMeta ksm)) MachineFinalizer), finished)
  end.

(** The dispatch on the deletion timestamp. *)
Definition reconcileMachine (ksm : KubeSwiftMachine) (machine : Machine) (cluster : Cluster)
    (b : Backend) : prog call (KubeSwiftMachine * Return) :=
  if negb (Time_IsZero (meta_DeletionTimestamp (ksm_ObjectMeta ksm)))
  then reconcileDelete ksm machine cluster b
  else reconcileNormal ksm machine cluster b.

(** The deferred function: the patch's error is returned when there is no other. *)
Definition patched (ret : Return) (p : option error) : Return :=
  match p, ret with
  | Some err, (res, None) => (res, Some err)
  | _, _ => ret
  end.

Definition Reconcile (key : NamespacedName) : prog call Return :=
  let! g := perform (Get KMachine key KubeSwiftMachine_zero) in
  match g with
  | Err err => Ret (Result_zero, IgnoreNotFound (Some err))
  | Ok ksm =>
    let! m := perform (GetOwnerMachine (ksm_ObjectMeta ksm)) in
    match m with
    | Err err => Ret (failed err)
    | Ok None => Ret finished
    | Ok (Some machine) =>
      let! c := perform (GetClusterFromMetadata (ksm_ObjectMeta ksm)) in
      match c with
      | Err _ => Ret finished
      | Ok cluster =>
        if IsPaused cluster (ksm_ObjectMeta ksm) then Ret finished
        else
          match backendFor (mb_Type (ksmSpec_Backend (ksm_Spec ksm))) with
          | Err err => Ret (failed err)
          | Ok b =>
            let! h := perform (NewPatchHelper KMachine ksm) in
            match h with
            | Some err => Ret (failed err)
            | None =>
              let! (ksm', ret) := reconcileMachine ksm machine cluster b in
              let! p := perform (Patch KMachine ksm ksm') in
              Ret (patched ret p)
            end
          end
      end
    end
  end.

Definition swiftGuestToKubeSwiftMachine (o : Unstructured) : list NamespacedName :=
  let name := goget (GetLabels o) MachineLabelKey in
  if String.eqb name "" then [] else [mkNN (GetNamespace o) name].
End Definitions.
