(* ===== verification/MachineSpec.v ===== *)
(** * MachineSpec: the KubeSwiftMachine reconciler, for every answer it may get

    The outcomes of a reconcile are classified once ([outcome_of], [Reconcile_rule]);
    the claims on hands-off machines, finalizers, creation, readiness and requeues
    read them off. The reconciler is proved against [BackendContract]; what concerns
    the guest itself uses the SwiftGuest backend. *)

From S2P Require Import Prelude Go Prog Kube Api Lib Reference Backend Samples.
From S2P Require Import SwiftGuest SwiftGuestSpec SwiftGuestRun SwiftGuestStatus.
From S2P Require Import WorkloadNode MachineController.

Section Outcomes.
Context {lib : Lib}.

Definition finalized (ksm : KubeSwiftMachine) : KubeSwiftMachine :=
  ksm_set_Finalizers ksm (AddFinalizer (meta_Finalizers (ksm_ObjectMeta ksm)) MachineFinalizer).
Definition released (ksm : KubeSwiftMachine) : KubeSwiftMachine :=
  ksm_set_Finalizers ksm (RemoveFinalizer (meta_Finalizers (ksm_ObjectMeta ksm)) MachineFinalizer).

Definition providerIDOf (ksm : KubeSwiftMachine) : string :=
  machineProviderID (meta_Namespace (ksm_ObjectMeta ksm)) (meta_Name (ksm_ObjectMeta ksm)).

(** The request a normal reconcile hands its backend. *)
Definition normalRequest (ksm : KubeSwiftMachine) (machine : Machine) (cluster : Cluster)
    (secretName : string) (exposure : option ControlPlaneExposure) : Request :=
  mkRequest (finalized ksm) (Some cluster) (Some machine) secretName
    (meta_Namespace (ksm_ObjectMeta ksm)) (providerIDOf ksm) exposure.

(** A trace of plain reads. *)
Definition is_get {X} (c : call X) : bool := match c with Get _ _ _ => true | _ => false end.
Definition reads (t : trace call) : Prop :=
  Forall (λ ev, match ev with Ev c _ => is_get c = true end) t.

(** Bootstrap data in hand: the secret named by the Machine was read and has the key. *)
Inductive bootstrap_read (machine : Machine) (name : string) : trace call → Prop :=
  | bootstrap_found secret data :
      mach_Spec_Bootstrap_DataSecretName machine = Some name →
      sec_Data secret !! BootstrapDataSecretKey = Some data →
      bootstrap_read machine name
        [Ev (Get KSecret (mkNN (meta_Namespace (mach_ObjectMeta machine)) name) Secret_zero)
            (Ok secret)].

(** The exposure of a machine: that of the API-server port of its cluster's Service
    mode, for a control-plane machine; none otherwise. *)
Definition service_exposure (cluster : Cluster) (ksc : KubeSwiftCluster) :
    option ControlPlaneExposure :=
  match kscSpec_Endpoint (ksc_Spec ksc) with
  | Some ep =>
    if String.eqb (cpe_Mode ep) EndpointModeService then
      Some (mkExposure (meta_Name (clus_ObjectMeta cluster) +:+ "-cp")
        match cpe_Service ep with
        | Some svc => if (cps_Port svc =? 0)%Z then 6443%Z else cps_Port svc
        | None => 6443%Z
        end)
    else None
  | None => None
  end.

Inductive exposure_read (machine : Machine) (cluster : Cluster) :
    trace call → option ControlPlaneExposure → Prop :=
  | not_exposed :
      IsControlPlaneMachine machine = false ∨ clus_Spec_InfrastructureRef_Name cluster = "" →
      exposure_read machine cluster [] None
  | exposed_by ksc :
      IsControlPlaneMachine machine = true → clus_Spec_InfrastructureRef_Name cluster ≠ "" →
      exposure_read machine cluster
        [Ev (Get KCluster (clusterKey cluster) KubeSwiftCluster_zero) (Ok ksc)]
        (service_exposure cluster ksc).

(** What comes after the backend returned. *)
Inductive backend_outcome (ksm : KubeSwiftMachine) (machine : Machine) (cluster : Cluster) :
    result BackendResult → trace call → KubeSwiftMachine → Return → Prop :=
  | backend_fails err :
      backend_outcome ksm machine cluster (Err err) []
        (notReady (finalized ksm) VMFailedReason (Error err)) (failed err)
  | backend_waits result :
      br_Provisioned result = false →
      backend_outcome ksm machine cluster (Ok result) []
        (notReady (finalized ksm) (waiting result).1 (waiting result).2) requeue
  | backend_provisions result t ret :
      br_Provisioned result = true →
      node_trace t →
      (ret = finished → node_identified cluster (meta_Name (ksm_ObjectMeta ksm))
         (providerIDPatch (providerIDOf ksm)) (providerIDOf ksm) t) →
      ret = finished ∨ ret = requeue ∨ (∃ err, ret = failed err) →
      backend_outcome ksm machine cluster (Ok result) t
        (markProvisioned (finalized ksm) machine (providerIDOf ksm) result) ret.

(** What a machine that is not being deleted goes through. *)
Inductive normal_outcome (ksm : KubeSwiftMachine) (machine : Machine) (cluster : Cluster)
    (b : Backend) : trace call → KubeSwiftMachine → Return → Prop :=
  | awaits_cluster msg :
      ptr_Deref (clus_Status_InfrastructureProvisioned cluster) false = false →
      normal_outcome ksm machine cluster b []
        (notReady (finalized ksm) WaitingForClusterInfrastructureReason msg) finished
  | awaits_bootstrap msg :
      mach_Spec_Bootstrap_DataSecretName machine = None →
      normal_outcome ksm machine cluster b []
        (notReady (finalized ksm) WaitingForBootstrapDataReason msg) finished
  | fails_early t err :
      reads t →
      normal_outcome ksm machine cluster b t (finalized ksm) (failed err)
  | calls_backend name t0 tx exposure tb r t2 ksm' ret :
      ptr_Deref (clus_Status_InfrastructureProvisioned cluster) false = true →
      bootstrap_read machine name t0 →
      exposure_read machine cluster tx exposure →
      runs (backend_Reconcile b (normalRequest ksm machine cluster name exposure)) tb (Done r) →
      backend_outcome ksm machine cluster r t2 ksm' ret →
      normal_outcome ksm machine cluster b (t0 ++ tx ++ tb ++ t2) ksm' ret.

(** What a machine that is being deleted goes through. *)
Inductive delete_outcome (ksm : KubeSwiftMachine) (machine : Machine) (cluster : Cluster)
    (b : Backend) (t : trace call) : KubeSwiftMachine → Return → Prop :=
  | delete_fails err :
      runs (backend_Delete b (deleteRequest ksm machine cluster)) t (Done (Err err)) →
      delete_outcome ksm machine cluster b t ksm (failed err)
  | delete_waits :
      runs (backend_Delete b (deleteRequest ksm machine cluster)) t (Done (Ok false)) →
      delete_outcome ksm machine cluster b t ksm requeue
  | delete_done :
      runs (backend_Delete b (deleteRequest ksm machine cluster)) t (Done (Ok true)) →
      delete_outcome ksm machine cluster b t (released ksm) finished.

Definition deleting (ksm : KubeSwiftMachine) : bool :=
  negb (Time_IsZero (meta_DeletionTimestamp (ksm_ObjectMeta ksm))).

Definition machine_outcome (ksm : KubeSwiftMachine) (machine : Machine) (cluster : Cluster)
    (b : Backend) (t : trace call) (ksm' : KubeSwiftMachine) (ret : Return) : Prop :=
  if deleting ksm then delete_outcome ksm machine cluster b t ksm' ret
  else normal_outcome ksm machine cluster b t ksm' ret.

(** ** Every reconcile has one of these outcomes *)

Lemma checkBootstrapData_runs machine name :
  mach_Spec_Bootstrap_DataSecretName machine = Some name →
  wp any (checkBootstrapData machine) (λ t r,
    reads t ∧ (r = None → bootstrap_read machine name t)).
Proof.
  intros Hn. unfold checkBootstrapData. rewrite Hn.
  steps; (split; [by repeat constructor|try done]). intros _. by econstructor.
Qed.

(** What is exposed of the cluster read. *)
Lemma exposureFor_spec cluster ksc : exposureFor cluster ksc = service_exposure cluster ksc.
Proof.
  unfold exposureFor, service_exposure. destruct (kscSpec_Endpoint _) as [ep|]; [|done].
  destruct (String.eqb (cpe_Mode ep) _); [|done]. cbn [negb].
  destruct (cpe_Service ep) as [svc|]; [|done]. by destruct (cps_Port svc =? 0)%Z.
Qed.

Lemma controlPlaneExposure_runs machine cluster :
  wp any (controlPlaneExposure machine cluster) (λ t r,
    reads t ∧ (∀ x, r = Ok x → exposure_read machine cluster t x)).
Proof.
  unfold controlPlaneExposure, reads.
  destruct (IsControlPlaneMachine machine) eqn:Hm; cbn [negb orb];
    [|step; split; [done|intros x [= <-]; constructor; by left]].
  destruct (String.eqb _ "") eqn:Hi; bool_facts;
    [step; split; [done|intros x [= <-]; constructor; by right]|].
  steps; (split; [by repeat constructor|]); intros ? [=]; subst. rewrite exposureFor_spec. by apply exposed_by.
Qed.

Section Body.
Context (b : Backend) {B : BackendContract b}.

Lemma reportBackend_runs ksm machine cluster r :
  wp any (reportBackend (finalized ksm) machine cluster (providerIDOf ksm) r)
    (λ t p, backend_outcome ksm machine cluster r t p.1 p.2).
Proof.
  unfold reportBackend. destruct r as [res|err]; [|step; apply backend_fails].
  destruct (br_Provisioned res) eqn:Hp; cbn [negb].
  - eapply wp_seq; [apply ensureNodeProviderID_runs|]. cbn beta.
    intros t [[]|err] (Ht & _ & Hi); cbn [negb]; step; rewrite app_nil_r;
      (apply backend_provisions; [done|done| |eauto]); intros [=]. by apply Hi.
  - rewrite (surjective_pairing (waiting res)). step. by apply backend_waits.
Qed.

Lemma reconcileNormal_runs ksm machine cluster :
  wp any (reconcileNormal ksm machine cluster b)
    (λ t p, normal_outcome ksm machine cluster b t p.1 p.2).
Proof.
  unfold reconcileNormal. fold (finalized ksm).
  destruct (ptr_Deref (clus_Status_InfrastructureProvisioned cluster) false) eqn:Hi; cbn [negb];
    [|step; by apply awaits_cluster].
  destruct (mach_Spec_Bootstrap_DataSecretName machine) as [name|] eqn:Hn;
    [|step; by apply awaits_bootstrap].
  eapply wp_seq; [by apply checkBootstrapData_runs|]. cbn beta.
  intros t0 [err|] [R0 H0]; [step; rewrite app_nil_r; by apply fails_early|].
  specialize (H0 eq_refl).
  change (meta_Namespace (ksm_ObjectMeta (finalized ksm))) with (meta_Namespace (ksm_ObjectMeta ksm)).
  change (meta_Name (ksm_ObjectMeta (finalized ksm))) with (meta_Name (ksm_ObjectMeta ksm)).
  fold (providerIDOf ksm).
  eapply wp_seq; [apply controlPlaneExposure_runs|]. cbn beta.
  intros tx [x|err] [Rx Hx]; cbn beta iota;
    [|step; rewrite app_nil_r; apply fails_early; by apply Forall_app].
  specialize (Hx x eq_refl). cbn [bind deref].
  fold (normalRequest ksm machine cluster name x).
  eapply wp_seq; [apply wp_self, reconcile_contract|]. cbn beta.
  intros tb r (Hr & _).
  eapply wp_mono; [|apply reportBackend_runs]. cbn beta.
  intros t2 p Hp. by eapply calls_backend.
Qed.

Lemma reconcileDelete_runs ksm machine cluster :
  wp any (reconcileDelete ksm machine cluster b)
    (λ t p, delete_outcome ksm machine cluster b t p.1 p.2).
Proof.
  unfold reconcileDelete. eapply wp_seq; [apply wp_self, delete_contract|]. cbn beta.
  intros t [[]|err] [Hr _]; cbn [negb]; step; rewrite app_nil_r;
    by first [apply delete_done | apply delete_waits | apply delete_fails].
Qed.

Lemma reconcileMachine_runs ksm machine cluster :
  wp any (reconcileMachine ksm machine cluster b)
    (λ t p, machine_outcome ksm machine cluster b t p.1 p.2).
Proof.
  unfold reconcileMachine, machine_outcome. fold (deleting ksm).
  destruct (deleting ksm); [apply reconcileDelete_runs|apply reconcileNormal_runs].
Qed.
End Body.

(** The reads that must succeed before a machine is touched. *)
Inductive engaged (key : NamespacedName) (ksm : KubeSwiftMachine) (machine : Machine)
    (cluster : Cluster) (b : Backend) : trace call → Prop :=
  | engages :
      IsPaused cluster (ksm_ObjectMeta ksm) = false →
      backendFor (mb_Type (ksmSpec_Backend (ksm_Spec ksm))) = Ok b →
      engaged key ksm machine cluster b
        [Ev (Get KMachine key KubeSwiftMachine_zero) (Ok ksm);
         Ev (GetOwnerMachine (ksm_ObjectMeta ksm)) (Ok (Some machine));
         Ev (GetClusterFromMetadata (ksm_ObjectMeta ksm)) (Ok cluster);
         Ev (NewPatchHelper KMachine ksm) None].

(** A reconcile that touches the machine: its outcome, persisted by one patch. *)
Definition touches (key : NamespacedName) (t : trace call) (r : Return)
    (ksm : KubeSwiftMachine) (machine : Machine) (cluster : Cluster) (b : Backend)
    (t1 : trace call) (ksm' : KubeSwiftMachine) (ret : Return) : Prop :=
  ∃ t0 p, engaged key ksm machine cluster b t0 ∧
    t = t0 ++ t1 ++ [Ev (Patch KMachine ksm ksm') p] ∧ r = patched ret p.

(** Every reconcile only reads, or runs the rest between its opening reads and its patch. *)
Lemma Reconcile_run_rule {N : NestedLaws} {U : UnstructuredLaws} key (Q : trace call → Return → Prop) :
  (∀ t r, read_only t → Q t r) →
  (∀ t r ksm machine cluster b t1 ksm' ret,
    b = NewSwiftGuestBackend →
    touches key t r ksm machine cluster b t1 ksm' ret →
    runs (reconcileMachine ksm machine cluster b) t1 (Done (ksm', ret)) → Q t r) →
  wp any (Reconcile key) Q.
Proof.
  intros Hro Ht. unfold Reconcile.
  step. intros [ksm|err] _; [|step; apply Hro; by repeat constructor].
  step. intros [[machine|]|err] _; [|step; apply Hro; by repeat constructor..].
  step. intros [cluster|err] _; [|step; apply Hro; by repeat constructor].
  destruct (IsPaused cluster (ksm_ObjectMeta ksm)) eqn:Hp;
    [step; apply Hro; by repeat constructor|].
  destruct (backendFor _) as [b|err] eqn:Hb; [|step; apply Hro; by repeat constructor].
  assert (b = NewSwiftGuestBackend) as Eb by (revert Hb; unfold backendFor; case_match; congruence).
  step. intros [err|] _; [step; apply Hro; by repeat constructor|].
  apply wp_bind. eapply wp_mono; [|apply wp_self, reconcileMachine_runs; rewrite Eb; apply SwiftGuest_contract].
  cbn beta. intros t1 [ksm' ret] [Hr _]. step. intros p _.
  eapply Ht; [exact Eb| |exact Hr]. eexists _, p. by split; [apply engages|].
Qed.

(** The rule the claims on [Reconcile] are proved with. *)
Lemma Reconcile_rule {N : NestedLaws} {U : UnstructuredLaws} key (Q : trace call → Return → Prop) :
  (∀ t r, read_only t → Q t r) →
  (∀ t r ksm machine cluster b t1 ksm' ret,
    b = NewSwiftGuestBackend →
    touches key t r ksm machine cluster b t1 ksm' ret →
    machine_outcome ksm machine cluster b t1 ksm' ret → Q t r) →
  wp any (Reconcile key) Q.
Proof.
  intros Hro Ht. apply Reconcile_run_rule; [done|].
  intros t r ksm machine cluster b t1 ksm' ret -> Htouch Hr. eapply Ht; [done|done|].
  by apply (wp_any_runs _ _ _ _ (reconcileMachine_runs _ _ _ _)) in Hr.
Qed.
End Outcomes.
