(* ===== verification/MachineProps.v ===== *)
(** * MachineProps: the claims on the KubeSwiftMachine reconciler *)

From S2P Require Import Prelude Go Prog Kube Api Lib Reference Backend Samples.
From S2P Require Import SwiftGuest SwiftGuestSpec SwiftGuestRun SwiftGuestStatus.
From S2P Require Import WorkloadNode MachineController MachineSpec.

(** ** Reading a trace *)

(** The machine a request patches: as read, and as written. *)
Definition ev_patch (ev : event call) : option (KubeSwiftMachine * KubeSwiftMachine) :=
  match ev with Ev (Patch KMachine before after) _ => Some (before, after) | _ => None end.

(** The calls a reconcile may make between its opening reads and its patch. *)
Definition inner_call {X} (c : call X) : bool :=
  backend_call c || node_call c || match c with Get _ _ _ => true | _ => false end.
Definition inner_trace (t : trace call) : Prop :=
  Forall (λ ev, match ev with Ev c _ => inner_call c = true end) t.

(** A change within the provider's remit: of the unstructured objects of the backend,
    or of a workload Node. *)
Definition provider_change (ev : event call) : bool :=
  match ev with
  | Ev (Create KUnstructured _) _ | Ev (Update KUnstructured _) _
  | Ev (Lib.Delete KUnstructured _) _ | Ev (NodesPatch _ _ _) _ => true
  | _ => false
  end.

Lemma inner_no_patch t ev : inner_trace t → ev ∈ t → ev_patch ev = None.
Proof.
  intros Ht Hev. unfold inner_trace in Ht. rewrite list.Forall_forall in Ht.
  specialize (Ht ev Hev). destruct ev as [X []]; try done; by destruct k.
Qed.

Lemma inner_changes t :
  inner_trace t → Forall (λ ev, ev_mutates ev = true → provider_change ev = true) t.
Proof.
  apply List.Forall_impl. intros [X [] x]; try done; by destruct k.
Qed.

(** A machine keeps its identity, its configuration and its deletion state. *)
Definition same_machine (ksm ksm' : KubeSwiftMachine) : Prop :=
  ksm_ObjectMeta ksm' =
    meta_set_Finalizers (ksm_ObjectMeta ksm) (meta_Finalizers (ksm_ObjectMeta ksm')) ∧
  ksmSpec_Backend (ksm_Spec ksm') = ksmSpec_Backend (ksm_Spec ksm).

Section Facts.
Context {lib : Lib} {N : NestedLaws} {U : UnstructuredLaws}.

Lemma reads_inner t : reads t → inner_trace t.
Proof.
  apply List.Forall_impl. intros [X c x] H. unfold inner_call. destruct c; try done.
  by rewrite !orb_true_r.
Qed.
Lemma backend_inner t : backend_trace t → inner_trace t.
Proof.
  apply List.Forall_impl. intros [X c x] H. unfold inner_call. by rewrite H.
Qed.
Lemma node_inner t : node_trace t → inner_trace t.
Proof.
  apply List.Forall_impl. intros [X c x] H. unfold inner_call. by rewrite H, orb_true_r.
Qed.
Lemma bootstrap_reads machine name t : bootstrap_read machine name t → reads t.
Proof. intros []. by repeat constructor. Qed.
Lemma exposure_reads machine cluster t x : exposure_read machine cluster t x → reads t.
Proof. intros []; by repeat constructor. Qed.

Lemma inner_app t t' : inner_trace t → inner_trace t' → inner_trace (t ++ t').
Proof. intros. by apply list.Forall_app. Qed.

#[local] Hint Resolve inner_app reads_inner backend_inner node_inner bootstrap_reads exposure_reads : provider.

(** The runs of the backend, by what was proved of it. *)
Lemma backend_runs req t r :
  runs (backend_Reconcile NewSwiftGuestBackend req) t (Done r) → backend_trace t ∧
  at_each (λ pre ev, ∀ u, ev_create ev = Some u →
    seed_creation req pre u ∨ ∃ cfg, validate req = Ok cfg ∧ guest_creation req cfg pre u) t ∧
  ∀ res, r = Ok res → ∃ cfg ts tg g, validate req = Ok cfg ∧ t = ts ++ tg ∧
    seed_ensured req ts ∧ guest_obtained req cfg tg g ∧ guestResult req g = Ok res.
Proof.
  intros H. apply (wp_any_runs _ _ _ _ (Reconcile_runs req)) in H as (? & _ & _ & ? & ?). done.
Qed.
Lemma deletion_runs req t r :
  runs (backend_Delete NewSwiftGuestBackend req) t (Done r) → backend_trace t ∧ no_write t ∧
  (r = Ok true → ∃ e d, IsNotFound (Some e) = true ∧ gone d ∧
     t = [get_guest req (Err e); Ev (Lib.Delete KUnstructured (seedRef req)) d]).
Proof. intros H. apply (wp_any_runs _ _ _ _ (Delete_runs req)) in H as (? & ? & ? & _). done. Qed.

Lemma outcome_inner ksm machine cluster t ksm' ret :
  machine_outcome ksm machine cluster NewSwiftGuestBackend t ksm' ret → inner_trace t.
Proof.
  unfold machine_outcome. destruct (deleting ksm).
  - intros [err Hr|Hr|Hr]; apply deletion_runs in Hr as [? _]; by apply backend_inner.
  - intros [| |t' err Hro|name t0 tx x tb r t2 k' ret' _ Hbr Hx Hr Ho];
      [constructor|constructor|by apply reads_inner|].
    apply backend_runs in Hr as [? _].
    assert (inner_trace t2) by (destruct Ho; [constructor|constructor|eauto with provider]).
    eauto 10 with provider.
Qed.

(** What an outcome may do to the machine's metadata. *)
Lemma outcome_same ksm machine cluster b t ksm' ret :
  machine_outcome ksm machine cluster b t ksm' ret → same_machine ksm ksm'.
Proof.
  assert (same_machine ksm ksm) as Hs by (by destruct ksm as [[] ? ?]).
  unfold machine_outcome. destruct (deleting ksm); [by intros []|].
  intros [| |?|? ? ? ? ? ? ? ? ? _ _ _ _ Ho]; try done. by destruct Ho.
Qed.

(** The patch of a reconcile that touches its machine is its only one. *)
Lemma touches_patch key t r ksm machine cluster t1 ksm' ret ev before after :
  touches key t r ksm machine cluster NewSwiftGuestBackend t1 ksm' ret →
  machine_outcome ksm machine cluster NewSwiftGuestBackend t1 ksm' ret →
  ev ∈ t → ev_patch ev = Some (before, after) → before = ksm ∧ after = ksm'.
Proof.
  intros (t0 & p & [_ _] & -> & _) Ho%outcome_inner Hev Hp.
  rewrite !elem_of_app in Hev. destruct Hev as [Hev|[Hev|Hev]].
  - repeat (apply elem_of_cons in Hev as [->|Hev]; [done|]). by apply elem_of_nil in Hev.
  - rewrite (inner_no_patch _ _ Ho Hev) in Hp. done.
  - apply list_elem_of_singleton in Hev as ->. simpl in Hp. by injection Hp as <- <-.
Qed.

Lemma read_only_patch t ev : read_only t → ev ∈ t → ev_patch ev = None.
Proof.
  unfold read_only. rewrite list.Forall_forall. intros Ht Hev. specialize (Ht ev Hev).
  by destruct ev as [X [] x].
Qed.
End Facts.

(** ** The claims *)

Section Claims.
Context {lib : Lib} {N : NestedLaws} {U : UnstructuredLaws}.

(** C36: A reconcile asks for a change only after it read the machine, its owner and
    its cluster, found it not paused and of a supported backend; the changes are
    those of the backend's own objects and of workload Nodes, then exactly one patch of
    the machine as read, which keeps its identity, its configuration and its deletion
    state. Otherwise it changes nothing at all. It never panics. *)
Theorem Reconcile_hands_off (key : NamespacedName) :
  wp any (Reconcile key) (λ t r,
    read_only t ∨
    ∃ ksm machine cluster t0 t1 ksm' p,
      engaged key ksm machine cluster NewSwiftGuestBackend t0 ∧
      t = t0 ++ t1 ++ [Ev (Patch KMachine ksm ksm') p] ∧
      Forall (λ ev, ev_mutates ev = true → provider_change ev = true) t1 ∧
      same_machine ksm ksm').
Proof.
  apply Reconcile_rule; [by left|].
  intros t r ksm machine cluster b t1 ksm' ret -> (t0 & p & He & -> & _) Ho. right.
  exists ksm, machine, cluster, t0, t1, ksm', p. split_and!; [done|done| |].
  - by eapply inner_changes, outcome_inner.
  - by eapply outcome_same.
Qed.

(** ** Finalizer *)

Definition finalizers (ksm : KubeSwiftMachine) : list string := meta_Finalizers (ksm_ObjectMeta ksm).

(** The last calls before the patch: the guest of the machine was reported absent and
    its seed profile deleted or absent. *)
Definition guest_gone (ksm : KubeSwiftMachine) (t : trace call) : Prop :=
  ∃ t1 t2 machine cluster e d,
    let req := deleteRequest ksm machine cluster in
    t = t1 ++ [get_guest req (Err e); Ev (Lib.Delete KUnstructured (seedRef req)) d] ++ t2 ∧
    IsNotFound (Some e) = true ∧ gone d.

(** How an outcome leaves the finalizers. *)
Lemma outcome_finalizers ksm machine cluster t ksm' ret :
  machine_outcome ksm machine cluster NewSwiftGuestBackend t ksm' ret →
  (deleting ksm = false ∧ finalizers ksm' = AddFinalizer (finalizers ksm) MachineFinalizer) ∨
  (deleting ksm = true ∧ ksm' = ksm ∧ ret ≠ finished) ∨
  (deleting ksm = true ∧ ksm' = released ksm ∧ ret = finished ∧
   ∃ e d, IsNotFound (Some e) = true ∧ gone d ∧
    t = [get_guest (deleteRequest ksm machine cluster) (Err e);
         Ev (Lib.Delete KUnstructured (seedRef (deleteRequest ksm machine cluster))) d]).
Proof.
  unfold machine_outcome. destruct (deleting ksm) eqn:Hd.
  - intros [err Hr|Hr|Hr]; [right; left; done..|]. right; right.
    apply deletion_runs in Hr as (_ & _ & Hr). by split_and!; [..|apply Hr].
  - intros Ho. left. split; [done|].
    destruct Ho as [| |?|? ? ? ? ? ? ? ? ? _ _ _ _ Ho]; try done. by destruct Ho.
Qed.

Lemma touches_gone key t r ksm machine cluster b t1 ksm' ret e d :
  touches key t r ksm machine cluster b t1 ksm' ret →
  t1 = [get_guest (deleteRequest ksm machine cluster) (Err e);
        Ev (Lib.Delete KUnstructured (seedRef (deleteRequest ksm machine cluster))) d] →
  IsNotFound (Some e) = true → gone d → guest_gone ksm t.
Proof.
  intros (t0 & p & _ & -> & _) -> He Hd.
  exists t0, [Ev (Patch KMachine ksm ksm') p], machine, cluster, e, d. done.
Qed.

(** C7: The machine's finalizer: every patch of a machine that is not being deleted
    carries it; a patch drops it only from a machine being deleted, after the guest
    was reported absent and the seed profile deleted or absent; and no patch adds or
    drops another owner's finalizer. *)
Theorem Reconcile_finalizer {F : FinalizerLaws} (key : NamespacedName) :
  wp any (Reconcile key) (λ t r, ∀ ev before after,
    ev ∈ t → ev_patch ev = Some (before, after) →
    (deleting before = false → MachineFinalizer ∈ finalizers after) ∧
    (MachineFinalizer ∈ finalizers before → MachineFinalizer ∉ finalizers after →
       deleting before = true ∧ guest_gone before t) ∧
    (∀ f, f ≠ MachineFinalizer → f ∈ finalizers after ↔ f ∈ finalizers before)).
Proof.
  apply Reconcile_rule.
  { intros t r Ht ev before after Hev. by rewrite (read_only_patch t ev Ht Hev). }
  intros t r ksm machine cluster b t1 ksm' ret -> Ht Ho ev before after Hev Hp.
  destruct (touches_patch _ _ _ _ _ _ _ _ _ _ _ _ Ht Ho Hev Hp) as [-> ->].
  destruct (outcome_finalizers _ _ _ _ _ _ Ho)
    as [(Hd & Hf)|[(Hd & -> & _)|(Hd & -> & _ & e & d & He & Hg & Ht1)]].
  - rewrite Hf. split_and!; [intros _; rewrite AddFinalizer_spec; by left| |].
    + intros Hin Hout. rewrite AddFinalizer_spec in Hout. tauto.
    + intros f Hne. rewrite AddFinalizer_spec. tauto.
  - split_and!; [congruence|done|done].
  - split_and!; [congruence| |].
    + intros _ _. split; [done|]. by eapply touches_gone.
    + intros f Hne. unfold finalizers, released. cbn. rewrite RemoveFinalizer_spec. tauto.
Qed.

(** ** Creation *)

(** What precedes the creation of an object by the machine reconciler. *)
Definition creation (key : NamespacedName) (pre : trace call) (u : Unstructured) : Prop :=
  ∃ ksm machine cluster name exposure t0 tb tx tr,
    let req := normalRequest ksm machine cluster name exposure in
    engaged key ksm machine cluster NewSwiftGuestBackend t0 ∧
    deleting ksm = false ∧
    ptr_Deref (clus_Status_InfrastructureProvisioned cluster) false = true ∧
    bootstrap_read machine name tb ∧ exposure_read machine cluster tx exposure ∧
    pre = t0 ++ tb ++ tx ++ tr ∧
    (seed_creation req tr u ∨ ∃ cfg, validate req = Ok cfg ∧ guest_creation req cfg tr u).

Lemma inner_create t : reads t ∨ node_trace t → Forall (λ ev, ev_create ev = None) t.
Proof.
  intros [H|H]; (eapply List.Forall_impl; [|exact H]); intros [X [] x]; done.
Qed.

Lemma at_each_none (P : trace call → event call → Prop) pre t :
  (∀ p ev, ev_create ev = None → P p ev) →
  Forall (λ ev, ev_create ev = None) t → each_after P pre t.
Proof.
  intros HP. revert pre. induction t as [|ev t IH]; intros pre Ht; [done|].
  apply Forall_cons_1 in Ht as [He Ht]. split; [by apply HP|by apply IH].
Qed.

Lemma each_after_shift (P Q : trace call → event call → Prop) pre t :
  (∀ tr ev, P tr ev → Q (pre ++ tr) ev) → at_each P t → each_after Q pre t.
Proof.
  intros HPQ Ht. apply each_after_spec. intros t1 ev t2 ->. apply HPQ.
  by apply (proj1 (each_after_spec _ _ _) Ht t1 ev t2).
Qed.

(** C5: The machine reconciler creates a SwiftGuest or seed profile only for a
    machine that is not paused and not being deleted, of a cluster whose infrastructure
    is provisioned, after reading the bootstrap secret with its data and, for a
    control-plane machine, the endpoint mode of its cluster; what it then creates, and
    in which order, is what the backend creates for exactly that request. *)
Theorem Reconcile_creation (key : NamespacedName) :
  wp any (Reconcile key) (λ t r,
    at_each (λ pre ev, ∀ u, ev_create ev = Some u → creation key pre u) t).
Proof.
  assert (∀ pre ev, ev_create ev = None → ∀ u, ev_create ev = Some u → creation key pre u)
    as Hnone by congruence.
  apply Reconcile_rule.
  { intros t r Ht. apply at_each_none; [done|]. eapply List.Forall_impl; [|exact Ht].
    by intros [X [] x]. }
  intros t r ksm machine cluster b t1 ksm' ret -> (t0 & p & He & -> & _) Ho.
  unfold at_each. rewrite !each_after_app. split_and!.
  { destruct He. apply at_each_none; [done|]. by repeat constructor. }
  2: { by apply at_each_none; [|repeat constructor]. }
  unfold machine_outcome in Ho. destruct (deleting ksm) eqn:Hd.
  { apply at_each_none; [done|].
    destruct Ho as [err Hr|Hr|Hr]; apply deletion_runs in Hr as (_ & Hr & _);
      (eapply List.Forall_impl; [|exact Hr]); by intros [X [] x]. }
  destruct Ho as [| |t' err Hro|name tb tx x tr res t2 k' ret' Hi Hbr Hx Hr Hb];
    [done|done|by apply at_each_none; [|apply inner_create; left]|].
  rewrite !each_after_app. split_and!.
  - apply at_each_none; [done|]. apply inner_create. left. by eapply bootstrap_reads.
  - apply at_each_none; [done|]. apply inner_create. left. by eapply exposure_reads.
  - apply backend_runs in Hr as (_ & Hr & _). eapply each_after_shift; [|exact Hr].
    cbn beta. intros pre ev Hc u Hu. rewrite <- !app_assoc.
    exists ksm, machine, cluster, name, x, t0, tb, tx, pre. auto 10.
  - apply at_each_none; [done|]. destruct Hb; [done|done|]. apply inner_create. by right.
Qed.
End Claims.
