(* ===== verification/MachineStatus.v ===== *)
(** * MachineStatus: what the KubeSwiftMachine reconciler reports

    Readiness against the guest, the consistency of the status it writes, and what it
    leaves to be retried. *)

From S2P Require Import Prelude Go Prog Kube Api Lib Reference Backend Samples.
From S2P Require Import SwiftGuest SwiftGuestSpec SwiftGuestRun SwiftGuestStatus.
From S2P Require Import WorkloadNode MachineController MachineSpec MachineProps.

Definition provisioned (ksm : KubeSwiftMachine) : option bool :=
  Provisioned (ksmStatus_Initialization (ksm_Status ksm)).
Definition addresses (ksm : KubeSwiftMachine) : list MachineAddress :=
  ksmStatus_Addresses (ksm_Status ksm).

(** The guest a request read under a key, or created. *)
Definition ev_guest (key : NamespacedName) (ev : event call) : option Unstructured :=
  match ev with
  | Ev c x =>
    match c in call X return X → option Unstructured with
    | Get k key' _ =>
      match k return result (objT k) → option Unstructured with
      | KUnstructured => λ r, match r with
          | Ok u => if decide (key' = key) then Some u else None | Err _ => None end
      | _ => λ _, None
      end
    | Create k _ =>
      match k return result (objT k) → option Unstructured with
      | KUnstructured => λ r, match r with Ok u => Some u | Err _ => None end
      | _ => λ _, None
      end
    | _ => λ _, None
    end x
  end.

(** The key of a machine's guest. *)
Definition machineKey (ksm : KubeSwiftMachine) : NamespacedName :=
  mkNN (meta_Namespace (ksm_ObjectMeta ksm)) (meta_Name (ksm_ObjectMeta ksm)).

Section Readiness.
Context {lib : Lib} {N : NestedLaws} {U : UnstructuredLaws}.

Lemma guest_obtained_seen req cfg t g :
  guest_obtained req cfg t g → ∃ ev, ev ∈ t ∧ ev_guest (guestKey req) ev = Some g.
Proof.
  intros [g'|e u g' _ _].
  - eexists. split; [by left|]. simpl. by rewrite decide_True.
  - eexists. split; [by right; left|]. done.
Qed.

(** The guest a status is taken from: read or created in this reconcile, running,
    and reachable at the address reported. *)
Definition backed_by (t : trace call) (ksm ksm' : KubeSwiftMachine) (g : Unstructured) : Prop :=
  (∃ ev, ev ∈ t ∧ ev_guest (machineKey ksm) ev = Some g) ∧
  phase_of g = "Running" ∧
  ∃ a, reachable_at g a ∧ addresses ksm' = [mkMachineAddress MachineInternalIP a].

Lemma backend_backed ksm machine cluster name x tb res :
  runs (backend_Reconcile NewSwiftGuestBackend (normalRequest ksm machine cluster name x)) tb
    (Done (Ok res)) →
  br_Provisioned res = true →
  ∃ g ev a, ev ∈ tb ∧ ev_guest (machineKey ksm) ev = Some g ∧ phase_of g = "Running" ∧
    reachable_at g a ∧ br_Addresses res = [mkMachineAddress MachineInternalIP a].
Proof.
  intros Hr Hres. apply backend_runs in Hr as (_ & _ & Hr). specialize (Hr res eq_refl).
  destruct Hr as (cfg & ts & tg & g & _ & -> & _ & Hg & Hgr).
  apply guest_obtained_seen in Hg as (ev & Hev & Hg).
  destruct (guestResult_cases (normalRequest ksm machine cluster name x) g)
    as [(_ & e & He)|[(Hp & a & Ha & Ea)|(_ & _ & Hw)]].
  - congruence.
  - exists g, ev, a. split_and!; [|done..|].
    + rewrite elem_of_app. by right.
    + rewrite Ea in Hgr. by injection Hgr as <-.
  - rewrite Hw in Hgr. injection Hgr as <-.
    destruct (waiting_result_waits (normalRequest ksm machine cluster name x) g). congruence.
Qed.

(** Its outcome, for a machine reported as provisioned. *)
Lemma outcome_provisioned ksm machine cluster t ksm' ret :
  machine_outcome ksm machine cluster NewSwiftGuestBackend t ksm' ret →
  provisioned ksm' = Some true →
  ksm_Status ksm' = ksm_Status ksm ∧ ksm_Spec ksm' = ksm_Spec ksm ∨
  (∃ g, backed_by t ksm ksm' g) ∧ ksmSpec_ProviderID (ksm_Spec ksm') = providerIDOf ksm.
Proof.
  unfold machine_outcome. destruct (deleting ksm).
  { intros [err Hr|Hr|Hr] _; by left. }
  intros Ho. destruct Ho as [| |t' err Hro|name tb tx x tr r t2 k' ret' Hi Hbr Hx Hr Hb];
    [done|done|by left|].
  destruct Hb as [|res Hres|res tn k' Hres _ _ _]; [done|done|]. intros _. right. split; [|done].
  destruct (backend_backed _ _ _ _ _ _ _ Hr Hres) as (g & ev & a & Hev & Hg & Hp & Ha & Ea).
  exists g. split_and!; [|done|by eexists]. exists ev. rewrite !elem_of_app. tauto.
Qed.

Lemma outcome_return ksm machine cluster t ksm' ret :
  machine_outcome ksm machine cluster NewSwiftGuestBackend t ksm' ret →
  ret = finished ∨ ret = requeue ∨ ∃ err, ret = failed err.
Proof.
  unfold machine_outcome. destruct (deleting ksm); [intros []; eauto|].
  intros [| |?|? ? ? ? ? ? ? ? ? _ _ _ _ Ho]; eauto. destruct Ho; eauto.
Qed.

(** C6: A machine is newly reported provisioned only while its own SwiftGuest runs
    and is reachable: a patch that reports it provisioned either leaves its status and
    spec as they were, or takes the one address it reports from a guest of the
    machine's namespace and name, read or created in this very reconcile, and sets the
    providerID of that namespace and name. *)
Theorem Reconcile_readiness (key : NamespacedName) :
  wp any (Reconcile key) (λ t r, ∀ ev before after,
    ev ∈ t → ev_patch ev = Some (before, after) → provisioned after = Some true →
    (ksm_Status after = ksm_Status before ∧ ksm_Spec after = ksm_Spec before) ∨
    (∃ g, backed_by t before after g) ∧
      ksmSpec_ProviderID (ksm_Spec after) = providerIDOf before).
Proof.
  apply Reconcile_rule.
  { intros t r Ht ev before after Hev. by rewrite (read_only_patch t ev Ht Hev). }
  intros t r ksm machine cluster b t1 ksm' ret -> Ht Ho ev before after Hev Hp Hb.
  destruct (touches_patch _ _ _ _ _ _ _ _ _ _ _ _ Ht Ho Hev Hp) as [-> ->].
  destruct (outcome_provisioned _ _ _ _ _ _ Ho Hb) as [?|[(g & (ev' & Hev' & Hg) & ?) ?]];
    [by left|]. right. split; [|done]. exists g. split; [|done].
  destruct Ht as (t0 & p & _ & -> & _). exists ev'. split; [|done].
  rewrite !elem_of_app. tauto.
Qed.

(** ** The status is consistent *)

(** Ready says what [initialization.provisioned] says, and a provisioned machine has
    its providerID and an address. *)
Definition machine_inv (ksm : KubeSwiftMachine) : Prop :=
  let ready := find_condition ReadyConditionType (ksm_GetConditions ksm) in
  conditions_wf (ksm_GetConditions ksm) ∧
  if decide (provisioned ksm = Some true) then
    (∃ c, ready = Some c ∧ cond_Status c = ConditionTrue) ∧
    ksmSpec_ProviderID (ksm_Spec ksm) = providerIDOf ksm ∧ addresses ksm ≠ []
  else ∀ c, ready = Some c → cond_Status c ≠ ConditionTrue.

Context {C : ConditionLaws}.

Lemma notReady_inv ksm reason msg :
  conditions_wf (ksm_GetConditions ksm) → machine_inv (notReady ksm reason msg).
Proof.
  intros Hwf. destruct (conditions_Set_spec (ksm_GetConditions ksm)
    (mkCondition ReadyConditionType ConditionFalse reason msg) Hwf) as [Hwf' Hf].
  change (conditions_Set _ _) with (ksm_GetConditions (notReady ksm reason msg)) in Hwf', Hf.
  split; [done|]. rewrite Hf. cbn. by intros c [= <-].
Qed.

Lemma markProvisioned_inv ksm machine res :
  conditions_wf (ksm_GetConditions ksm) → br_Addresses res ≠ [] →
  machine_inv (markProvisioned ksm machine (providerIDOf ksm) res).
Proof.
  intros Hwf Ha. destruct (conditions_Set_spec (ksm_GetConditions ksm)
    (mkCondition ReadyConditionType ConditionTrue VMProvisionedReason "") Hwf) as [Hwf' Hf].
  change (conditions_Set _ _) with
    (ksm_GetConditions (markProvisioned ksm machine (providerIDOf ksm) res)) in Hwf', Hf.
  split; [done|]. rewrite Hf. cbn. split_and!; [by eexists|done|done].
Qed.

Lemma outcome_inv b {B : BackendContract b} ksm machine cluster t ksm' ret :
  machine_outcome ksm machine cluster b t ksm' ret → machine_inv ksm → machine_inv ksm'.
Proof.
  unfold machine_outcome. intros Ho Hinv. destruct (deleting ksm).
  { by destruct Ho. }
  destruct Ho as [| |t' err Hro|name tb tx x tr r t2 k' ret' Hi Hbr Hx Hr Hb];
    [by apply notReady_inv, Hinv..|done|].
  destruct Hb as [|res Hres|res tn k' Hres _ _ _]; [by apply notReady_inv, Hinv..|].
  apply (markProvisioned_inv (finalized ksm)); [apply Hinv|].
  apply (wp_any_runs _ _ _ _ (reconcile_contract _)) in Hr as (_ & _ & Hr).
  destruct (Hr res eq_refl) as [Hp _]. by apply Hp.
Qed.

(** C9: The status a reconcile writes is consistent: if the machine read satisfies
    the invariant, so does the machine of the patch - one condition per type; Ready is
    true exactly when provisioned is; and a provisioned machine carries its own
    providerID and at least one address. *)
Theorem Reconcile_status_invariant (key : NamespacedName) :
  wp any (Reconcile key) (λ t r, ∀ ev before after,
    ev ∈ t → ev_patch ev = Some (before, after) → machine_inv before → machine_inv after).
Proof.
  apply Reconcile_rule.
  { intros t r Ht ev before after Hev. by rewrite (read_only_patch t ev Ht Hev). }
  intros t r ksm machine cluster b t1 ksm' ret -> Ht Ho ev before after Hev Hp.
  destruct (touches_patch _ _ _ _ _ _ _ _ _ _ _ _ Ht Ho Hev Hp) as [-> ->].
  by apply (outcome_inv NewSwiftGuestBackend (B:=SwiftGuest_contract) _ _ _ _ _ _ Ho).
Qed.

(** ** What the Ready condition says *)

Lemma notReady_ready ksm reason msg :
  conditions_wf (ksm_GetConditions ksm) →
  find_condition ReadyConditionType (ksm_GetConditions (notReady ksm reason msg)) =
    Some (mkCondition ReadyConditionType ConditionFalse reason msg).
Proof. intros Hwf. eapply conditions_Set_spec in Hwf as [_ H]. etrans; [apply H|done]. Qed.

Lemma markProvisioned_ready ksm machine id res :
  conditions_wf (ksm_GetConditions ksm) →
  find_condition ReadyConditionType (ksm_GetConditions (markProvisioned ksm machine id res)) =
    Some (mkCondition ReadyConditionType ConditionTrue VMProvisionedReason "").
Proof. intros Hwf. eapply conditions_Set_spec in Hwf as [_ H]. etrans; [apply H|done]. Qed.

End Readiness.

(** ** What is left to be retried *)

Section Retries.
Context {lib : Lib} {N : NestedLaws} {U : UnstructuredLaws}.

(** The states a reconcile may leave for good: what it waits for is announced by an
    event on the Machine or the guest. *)
Inductive settled (ksm ksm' : KubeSwiftMachine) (t : trace call) : Prop :=
  | settled_gone :
      deleting ksm = true → ksm' = released ksm → guest_gone ksm t → settled ksm ksm' t
  | settled_cluster t1 t2 cluster :
      deleting ksm = false →
      t = t1 ++ Ev (GetClusterFromMetadata (ksm_ObjectMeta ksm)) (Ok cluster) :: t2 →
      ptr_Deref (clus_Status_InfrastructureProvisioned cluster) false = false →
      provisioned ksm' = Some false → settled ksm ksm' t
  | settled_bootstrap t1 t2 machine :
      deleting ksm = false →
      t = t1 ++ Ev (GetOwnerMachine (ksm_ObjectMeta ksm)) (Ok (Some machine)) :: t2 →
      mach_Spec_Bootstrap_DataSecretName machine = None →
      provisioned ksm' = Some false → settled ksm ksm' t
  | settled_running t1 tn t2 cluster g :
      deleting ksm = false →
      provisioned ksm' = Some true → backed_by t ksm ksm' g →
      t = t1 ++ tn ++ t2 →
      node_identified cluster (meta_Name (ksm_ObjectMeta ksm))
        (providerIDPatch (providerIDOf ksm)) (providerIDOf ksm) tn →
      settled ksm ksm' t.

Lemma touches_gone_last key t r ksm machine cluster t1 ksm' ret :
  touches key t r ksm machine cluster NewSwiftGuestBackend t1 ksm' ret →
  machine_outcome ksm machine cluster NewSwiftGuestBackend t1 ksm' ret →
  deleting ksm = true → ret = finished → ksm' = released ksm ∧ guest_gone ksm t.
Proof.
  intros Ht Ho Hd Hr. destruct (outcome_finalizers _ _ _ _ _ _ Ho)
    as [(? & _)|[(_ & _ & ?)|(_ & -> & _ & e & d & He & Hg & Ht1)]]; [congruence|done|].
  split; [done|]. by eapply touches_gone.
Qed.

Lemma touches_settled key t r ksm machine cluster t1 ksm' ret :
  touches key t r ksm machine cluster NewSwiftGuestBackend t1 ksm' ret →
  machine_outcome ksm machine cluster NewSwiftGuestBackend t1 ksm' ret →
  ret = finished → settled ksm ksm' t.
Proof.
  intros Ht Ho Hr. destruct (deleting ksm) eqn:Hd.
  { destruct (touches_gone_last _ _ _ _ _ _ _ _ _ Ht Ho Hd Hr). by apply settled_gone. }
  destruct Ht as (t0 & p & He & -> & _). unfold machine_outcome in Ho. rewrite Hd in Ho.
  destruct Ho as [msg Hi|msg Hn|t' err Hro|name tb tx x tr res t2 k' ret' Hi Hbr Hx Hrun Hb].
  - destruct He. eapply (settled_cluster _ _ _ [_; _]); [done|reflexivity|done|done].
  - destruct He. eapply (settled_bootstrap _ _ _ [_]); [done|reflexivity|done|done].
  - done.
  - destruct Hb as [|res Hres|res tn k' Hres _ Hid _]; [done|done|].
    destruct (backend_backed _ _ _ _ _ _ _ Hrun Hres) as (g & ev & a & Hev & Hg & Hp & Ha & Ea).
    eapply (settled_running _ _ _ (t0 ++ tb ++ tx ++ tr) tn [Ev (Patch KMachine ksm _) p]
      cluster g); [done|done| | |by apply Hid].
    + split_and!; [|done|by eexists]. exists ev. rewrite !elem_of_app. tauto.
    + by rewrite <- !app_assoc.
Qed.

(** C10: No machine is left waiting silently: a reconcile that touched its machine
    fails (and is retried with backoff), asks to run again in 15 seconds, or leaves
    it settled - its guest and seed gone and its finalizer released; not provisioned,
    for want of the cluster's infrastructure or the Machine's bootstrap data; or provisioned from a running guest with its Node identified. *)
Theorem Reconcile_retries (key : NamespacedName) :
  wp any (Reconcile key) (λ t r, ∀ ev before after,
    ev ∈ t → ev_patch ev = Some (before, after) →
    r = (mkResult (15 * 1000000000), None) ∨ (∃ err, r.2 = Some err) ∨
    (r = (mkResult 0, None) ∧ settled before after t)).
Proof.
  apply Reconcile_rule.
  { intros t r Ht ev before after Hev. by rewrite (read_only_patch t ev Ht Hev). }
  intros t r ksm machine cluster b t1 ksm' ret -> Ht Ho ev before after Hev Hp.
  destruct (touches_patch _ _ _ _ _ _ _ _ _ _ _ _ Ht Ho Hev Hp) as [-> ->].
  pose proof (touches_settled _ _ _ _ _ _ _ _ _ Ht Ho) as Hs.
  destruct Ht as (t0 & [err|] & _ & _ & ->).
  { right; left. destruct ret as [res [err'|]]; simpl; eauto. }
  destruct (outcome_return _ _ _ _ _ _ Ho) as [->|[->|[err ->]]]; simpl; eauto.
Qed.
End Retries.

(** ** Identity *)

Definition slash : Ascii.ascii := Ascii.ascii_of_N 47.

(** The identity of a machine: distinct machines get distinct providerIDs - the
    text determines the namespace and the name, a namespace having no slash - and for
    the names Kubernetes admits, printable text without quotes, the patch sent to the
    Node carries exactly that text. *)
Theorem machineProviderID_injective (ns name ns' name' : string) :
  string_has slash ns = false → string_has slash ns' = false →
  (machineProviderID ns name = machineProviderID ns' name' → ns = ns' ∧ name = name') ∧
  (∀ lib : Lib, Quote.plain ns = true → Quote.plain name = true →
     providerIDPatch (machineProviderID ns name) =
       json_field "spec" (json_field "providerID"
         (Quote.dquote +:+ "kubeswift://" +:+ ns +:+ "/" +:+ name +:+ Quote.dquote))).
Proof.
  intros Hns Hns'. split.
  - unfold machineProviderID. intros H.
    apply string_app_inj_l, string_app_inj_l in H. by eapply string_split_unique.
  - intros lib Hp Hp'. unfold providerIDPatch, fmt_q. rewrite Quote.Quote_plain.
    + unfold machineProviderID. rewrite !string_app_assoc. reflexivity.
    + unfold machineProviderID. by rewrite !plain_app, Hp, Hp'.
Qed.

Section Watch.
Context {lib : Lib} {U : UnstructuredLaws}.

(** The guest watch finds its machine: a SwiftGuest rendered for a machine maps
    to exactly that machine's reconcile request, and an object without the provider's
    label maps to none. *)
Theorem watch_finds_machine (req : Request) (cfg : SwiftGuestBackend) (u : Unstructured) :
  req_Name req ≠ "" → renderSwiftGuest req cfg = Some u →
  swiftGuestToKubeSwiftMachine u = [mkNN (req_GuestNamespace req) (req_Name req)] ∧
  (∀ o, entries (GetLabels o) !! MachineLabelKey = None → swiftGuestToKubeSwiftMachine o = []).
Proof.
  intros Hn Hu. split.
  - destruct (renderSwiftGuest_law req cfg) as (u' & Hu' & Hv & _).
    rewrite Hu in Hu'. injection Hu' as <-. unfold meta_view in Hv. injection Hv as V1 V2 V3.
    unfold swiftGuestToKubeSwiftMachine, goget. rewrite V1, V3. cbn [entries default from_option id].
    assert (guest_labels req !! MachineLabelKey = Some (req_Name req)) as ->.
    { unfold guest_labels, request_labels. destruct (req_ControlPlaneExposure req); by lookups. }
    simpl. by rewrite (proj2 (String.eqb_neq _ _) Hn).
  - intros o Ho. unfold swiftGuestToKubeSwiftMachine, goget. by rewrite Ho.
Qed.
End Watch.

(** ** A gap in the finalizer protocol *)

(** A creation the API server accepted; a patch it refused. *)
Definition created_ok (ev : event call) : option Unstructured :=
  match ev with
  | Ev c x =>
    match c in call X return X → option Unstructured with
    | Create k _ =>
      match k return result (objT k) → option Unstructured with
      | KUnstructured => λ r, match r with Ok u => Some u | Err _ => None end
      | _ => λ _, None
      end
    | _ => λ _, None
    end x
  end.
Definition patch_refused (ev : event call) : option (KubeSwiftMachine * KubeSwiftMachine) :=
  match ev with
  | Ev c x =>
    match c in call X return X → option (KubeSwiftMachine * KubeSwiftMachine) with
    | Patch k b a =>
      match k return objT k → objT k → option error →
        option (KubeSwiftMachine * KubeSwiftMachine) with
      | KMachine => λ b a e, match e with Some _ => Some (b, a) | None => None end
      | _ => λ _ _ _, None
      end b a
    | _ => λ _, None
    end x
  end.

(** The finalizer is persisted by the last call only, after the guest was created:
    there is a run in which the API server holds a machine without the finalizer,
    accepts the creation of its guest, and then refuses the patch that would have added
    it, so that a guest exists whose machine can be deleted without it. *)
Theorem finalizer_gap :
  ∃ t err t1 created t2 u refused before after,
    runs (Reconcile (lib:=ref_lib) demo_key) t (Done (mkResult machineRequeueAfter, Some err)) ∧
    t = t1 ++ created :: t2 ∧ created_ok created = Some u ∧
    refused ∈ t2 ∧ patch_refused refused = Some (before, after) ∧ length t2 = 1 ∧
    finalizers before = [] ∧ deleting (lib:=ref_lib) before = false ∧
    finalizers after = [MachineFinalizer] ∧
    swiftGuestToKubeSwiftMachine (lib:=ref_lib) u = [machineKey before].
Proof.
  set (x := run (demo_server (Err (Ref.NotFound "absent")) (Some (Ext 500 "conflict")))
    (Reconcile demo_key)).
  assert (returned x = Some (mkResult machineRequeueAfter, Some (Ext 500 "conflict"))) as Hr
    by (vm_compute; reflexivity).
  assert (Hu : swiftGuestToKubeSwiftMachine <$> at_event 9 created_ok x.1 = Some [demo_key])
    by (vm_compute; reflexivity).
  assert (Hp : (λ p, (machineKey p.1, finalizers p.1, deleting p.1, finalizers p.2)) <$>
      at_event 0 patch_refused (drop 10 x.1) = Some (demo_key, [], false, [MachineFinalizer]))
    by (vm_compute; reflexivity).
  assert (Hl : length (drop 10 x.1) = 1) by (vm_compute; reflexivity).
  apply run_returned in Hr. fold x in Hr. clearbody x.
  destruct (at_event 9 created_ok x.1) as [u|] eqn:Eu; [injection Hu as Hu|done].
  destruct (at_event 0 patch_refused (drop 10 x.1)) as [[before after]|] eqn:Ep; [|done].
  injection Hp as Hns Hn H1 H2 H3.
  destruct (at_event_split _ _ _ _ Eu) as (created & _ & Ht & Hc).
  destruct (at_event_split _ _ _ _ Ep) as (refused & Hin & _ & Hf).
  exists x.1, (Ext 500 "conflict"), (take 9 x.1), created, (drop 10 x.1), u, refused, before, after.
  split_and!; [exact Hr|assumption..|]. unfold machineKey. by rewrite Hns, Hn.
Qed.
