(* ===== verification/MachineErrors.v ===== *)
(** * MachineErrors: what a machine reconcile returns and reports

    The cause of every error a reconcile of a KubeSwiftMachine returns, by the calls it
    made, and what the Ready condition of the machine it patches says of what it met. *)

From S2P Require Import Prelude Go Prog Kube Api Lib Reference Backend Samples.
From S2P Require Import SwiftGuest SwiftGuestSpec SwiftGuestRun SwiftGuestStatus.
From S2P Require Import WorkloadNode MachineController MachineSpec MachineProps MachineStatus.

Section Errors.
Context {lib : Lib} {N : NestedLaws} {U : UnstructuredLaws}.

(** ** The causes *)

(** A read before the backend is called, of the bootstrap secret or the cluster. *)
Definition read_error (ev : event call) : option error :=
  match ev with
  | Ev c x =>
    match c in call X return X → option error with
    | Get k key _ =>
      match k return result (objT k) → option error with
      | KSecret => λ r,
        match r with
        | Err e => Some (Wrapf ("reading bootstrap data secret " +:+ NamespacedName_String key) e)
        | Ok secret =>
          if decide (sec_Data secret !! "value" = None)
          then Some (Errorf ("bootstrap data secret " +:+ NamespacedName_String key +:+
            " has no " +:+ fmt_q "value" +:+ " key"))
          else None
        end
      | KCluster => λ r,
        match r with
        | Err e => Some (Wrapf ("reading KubeSwiftCluster " +:+ NamespacedName_String key) e)
        | Ok _ => None
        end
      | _ => λ _, None
      end
    | _ => λ _, None
    end x
  end.

(** A call on the way to the workload Node. A kubeconfig that is not there yet and a Node
    that cannot be read are no errors: they are looked for again. *)
Definition node_error (cluster : Cluster) (ev : event call) : option error :=
  match ev with
  | Ev c x =>
    match c in call X return X → option error with
    | Get k key _ =>
      match k return result (objT k) → option error with
      | KSecret => λ r,
        match r with
        | Err e => if IsNotFound (Some e) then None
          else Some (Wrapf ("reading workload kubeconfig secret " +:+ NamespacedName_String key) e)
        | Ok secret =>
          if decide (sec_Data secret !! "value" = None)
          then Some (Errorf ("workload kubeconfig secret " +:+ NamespacedName_String key +:+ " has no 'value' key"))
          else None
        end
      | _ => λ _, None
      end
    | RESTConfigFromKubeConfig _ => λ r,
      match r with
      | Err e => Some (Wrapf ("parsing workload kubeconfig " +:+
          NamespacedName_String (kubeconfigKey cluster)) e)
      | Ok _ => None
      end
    | NewForConfig _ => λ r,
      match r with Err e => Some (Wrapf "building workload client" e) | Ok _ => None end
    | NodesPatch _ name _ => λ p,
      match p with Some e => Some (Wrapf ("patching Node " +:+ name +:+ " providerID") e) | None => None end
    | _ => λ _, None
    end x
  end.

(** The calls for the seed profile, and why they failed. *)
Inductive seed_failure (req : Request) : trace call → error → Prop :=
  | seed_unread e : IsNotFound (Some e) = false → seed_failure req [get_seed req (Err e)] e
  | seed_uncreated e0 e :
      IsNotFound (Some e0) = true →
      seed_failure req [get_seed req (Err e0); Ev (Create KUnstructured (seedObject req)) (Err e)] e
  | seed_unmoved u v e :
      seed_points_at_secret req v →
      seed_failure req [get_seed req (Ok u); Ev (Update KUnstructured v) (Err e)] e
  | seed_unmendable u e :
      (SetNestedField (RemoveNestedField (Object u) ["spec"; "userData"]) (VMap (bootstrapRef req))
         ["spec"; "userDataFrom"]).2 = Some e →
      seed_failure req [get_seed req (Ok u)] e.

(** The backend, by its own phases: the configuration, the seed, the guest, its status. *)
Inductive backend_failure (req : Request) : trace call → error → Prop :=
  | rejected err : validate req = Err err → backend_failure req [] err
  | seed_fails ts e :
      seed_failure req ts e → backend_failure req ts (Wrapf "ensuring SwiftSeedProfile" e)
  | guest_unread ts e :
      seed_ensured req ts → IsNotFound (Some e) = false →
      backend_failure req (ts ++ [get_guest req (Err e)]) (Wrapf "ensuring SwiftGuest" e)
  | guest_uncreated ts cfg e0 u e :
      seed_ensured req ts → IsNotFound (Some e0) = true → renderSwiftGuest req cfg = Some u →
      backend_failure req (ts ++ [get_guest req (Err e0); Ev (Create KUnstructured u) (Err e)])
        (Wrapf "ensuring SwiftGuest" e)
  | guest_fails ts cfg tg g :
      seed_ensured req ts → guest_obtained req cfg tg g → phase_of g = "Failed" →
      backend_failure req (ts ++ tg) (Errorf ("SwiftGuest " +:+ req_GuestNamespace req +:+ "/" +:+
        req_Name req +:+ " reported phase Failed")).

(** The deletion of the VM. *)
Inductive delete_failure (req : Request) : trace call → error → Prop :=
  | delete_unread e : IsNotFound (Some e) = false → delete_failure req [get_guest req (Err e)] e
  | delete_guest u e :
      IsNotFound (Some e) = false →
      delete_failure req [get_guest req (Ok u); Ev (Lib.Delete KUnstructured u) (Some e)]
        (Wrapf "deleting SwiftGuest" e)
  | delete_seed e0 e :
      IsNotFound (Some e0) = true → IsNotFound (Some e) = false →
      delete_failure req [get_guest req (Err e0); Ev (Lib.Delete KUnstructured (seedRef req)) (Some e)]
        (Wrapf "deleting SwiftSeedProfile" e).

(** ** What is reported *)

Definition machine_ready (ksm : KubeSwiftMachine) : option Condition :=
  find_condition ReadyConditionType (ksm_GetConditions ksm).
Definition not_ready (ksm : KubeSwiftMachine) (reason message : string) : Prop :=
  machine_ready ksm = Some (mkCondition ReadyConditionType ConditionFalse reason message).

(** Why a machine waits for its guest: the first reference the guest reports as
    unresolved, or else the guest itself. *)
Inductive guest_wait (req : Request) (g : Unstructured) : string → string → Prop :=
  | waits_for_reference msg :
      first_unresolved (conditions_of g) msg →
      guest_wait req g VMWaitingForReferencesReason ("SwiftGuest " +:+ req_GuestNamespace req +:+ "/" +:+
        req_Name req +:+ " is waiting for its references: " +:+ msg)
  | waits_for_address :
      (∀ msg, ¬ first_unresolved (conditions_of g) msg) →
      guest_wait req g VMProvisioningReason "Waiting for the backing VM to be running with an address".

(** The guest in hand after the calls that come before the report. *)
Definition guest_in_hand (ksm : KubeSwiftMachine) (machine : Machine) (cluster : Cluster)
    (t : trace call) (req : Request) (g : Unstructured) : Prop :=
  ∃ name x cfg tb tx ts tg, req = normalRequest ksm machine cluster name x ∧
    t = tb ++ tx ++ ts ++ tg ∧ bootstrap_read machine name tb ∧ exposure_read machine cluster tx x ∧
    seed_ensured req ts ∧ guest_obtained req cfg tg g.

(** What the machine patched says, by what the calls [t] before the patch met, and the
    error that comes of them. *)
Inductive machine_says (ksm : KubeSwiftMachine) (machine : Machine) (cluster : Cluster)
    (t : trace call) (ksm' : KubeSwiftMachine) : option error → Prop :=
  | says_no_infrastructure :
      ptr_Deref (clus_Status_InfrastructureProvisioned cluster) false = false → t = [] →
      not_ready ksm' WaitingForClusterInfrastructureReason
        "Waiting for the cluster infrastructure to be ready" →
      machine_says ksm machine cluster t ksm' None
  | says_no_bootstrap :
      ptr_Deref (clus_Status_InfrastructureProvisioned cluster) false = true →
      mach_Spec_Bootstrap_DataSecretName machine = None → t = [] →
      not_ready ksm' WaitingForBootstrapDataReason "Waiting for the bootstrap data secret" →
      machine_says ksm machine cluster t ksm' None
  | says_unread e :
      reads t → omap read_error t = [e] →
      ksm_Status ksm' = ksm_Status ksm → ksm_Spec ksm' = ksm_Spec ksm →
      machine_says ksm machine cluster t ksm' (Some e)
  | says_failed name x tb tx tr e :
      t = tb ++ tx ++ tr → bootstrap_read machine name tb → exposure_read machine cluster tx x →
      backend_failure (normalRequest ksm machine cluster name x) tr e →
      not_ready ksm' VMFailedReason (Error e) →
      machine_says ksm machine cluster t ksm' (Some e)
  | says_waiting req g reason msg :
      guest_in_hand ksm machine cluster t req g →
      phase_of g ≠ "Failed" → phase_of g ≠ "Running" ∨ (∀ a, ¬ reachable_at g a) →
      guest_wait req g reason msg → not_ready ksm' reason msg →
      machine_says ksm machine cluster t ksm' None
  | says_ready req g a t1 tn :
      t = t1 ++ tn → guest_in_hand ksm machine cluster t1 req g →
      phase_of g = "Running" → reachable_at g a → node_trace tn →
      machine_ready ksm' = Some (mkCondition ReadyConditionType ConditionTrue VMProvisionedReason "") →
      machine_says ksm machine cluster t ksm' (head (omap (node_error cluster) tn)).

(** The error of an answer about an object of the backend, other than that it is gone. *)
Definition hard_error (ev : event call) : option error :=
  match ev with
  | Ev c x =>
    match c in call X return X → option error with
    | Get _ _ _ => λ r,
      match r with Err e => if IsNotFound (Some e) then None else Some e | Ok _ => None end
    | Lib.Delete _ _ => λ d,
      match d with Some e => if IsNotFound (Some e) then None else Some e | None => None end
    | _ => λ _, None
    end x
  end.

(** ... and one that is being deleted, whose status is left alone. *)
Definition machine_leaves (ksm : KubeSwiftMachine) (machine : Machine) (cluster : Cluster)
    (t : trace call) (ksm' : KubeSwiftMachine) (err : option error) : Prop :=
  ksm_Status ksm' = ksm_Status ksm ∧ ksm_Spec ksm' = ksm_Spec ksm ∧
  (err = None ↔ omap hard_error t = []) ∧
  (∀ e, err = Some e → delete_failure (deleteRequest ksm machine cluster) t e).

(** ** Every error has its cause *)

Lemma ensureSeedProfile_fails req :
  wp any (ensureSeedProfile req) (λ t r, ∀ e, r = Some e → seed_failure req t e).
Proof.
  unfold ensureSeedProfile. rewrite seedProfileSpec_ref. cbn [default from_option id].
  change (mkUnstructured (<["spec" := VMap (seedProfileSpec req)]> _)) with (seedObject req).
  step. intros [u|e0] _.
  - destruct (_ && _); [by step|].
    destruct (SetNestedField _ _ _) as [obj [err|]] eqn:Es; step.
    + intros e [= <-]. apply seed_unmendable. by rewrite Es.
    + intros [v|e1] _; step; [done|]. intros e [= <-]. apply seed_unmoved. by apply migrated_points in Es.
  - destruct (IsNotFound (Some e0)) eqn:E; cbn [negb]; step.
    + intros [v|e1] _; step; [done|]. intros e [= <-]. by apply seed_uncreated.
    + intros e [= <-]. by apply seed_unread.
Qed.

Lemma ensureSwiftGuest_fails req cfg ts :
  seed_ensured req ts →
  wp any (ensureSwiftGuest req cfg) (λ t r, ∀ e, r = Err e →
    backend_failure req (ts ++ t) (Wrapf "ensuring SwiftGuest" e)).
Proof.
  intros Hs. unfold ensureSwiftGuest. destruct (renderSwiftGuest_law req cfg) as (u & Hu & _).
  rewrite Hu. step. intros [g|e0] _; [by step|].
  destruct (IsNotFound (Some e0)) eqn:E; cbn [negb]; step.
  - intros [v|e1] _; [done|]. intros e [= <-]. by eapply guest_uncreated.
  - intros e [= <-]. by apply guest_unread.
Qed.

Lemma guestResult_fails req g e :
  guestResult req g = Err e →
  phase_of g = "Failed" ∧ e = Errorf ("SwiftGuest " +:+ req_GuestNamespace req +:+ "/" +:+
    req_Name req +:+ " reported phase Failed").
Proof.
  unfold guestResult. rewrite nested_text_spec. fold (phase_of g).
  destruct (String.eqb (phase_of g) "Failed") eqn:E; bool_facts; [by intros [= <-]|].
  repeat case_match; congruence.
Qed.

Lemma backend_fails_by req :
  wp any (SwiftGuest.Reconcile req) (λ t r, ∀ e, r = Err e → backend_failure req t e).
Proof.
  unfold SwiftGuest.Reconcile. destruct (validate req) as [cfg|err] eqn:Hv;
    [|step; intros e [= <-]; by apply rejected].
  eapply wp_seq; [apply wp_self, ensureSeedProfile_fails|]. cbn beta.
  intros ts [err|] [Hr Hs]; [step; intros e [= <-]; rewrite app_nil_r; by apply seed_fails, Hs|].
  apply (wp_any_runs _ _ _ _ (ensureSeedProfile_runs req)) in Hr as (_ & _ & Hr & _). specialize (Hr eq_refl).
  eapply wp_seq; [by apply wp_self, (ensureSwiftGuest_fails req cfg ts)|]. cbn beta.
  intros tg [g|err] [Hg He]; step; intros e Hres; rewrite app_nil_r; [|injection Hres as <-; by apply He].
  apply (wp_any_runs _ _ _ _ (ensureSwiftGuest_runs req cfg)) in Hg as (_ & _ & Hg & _).
  apply guestResult_fails in Hres as [Hp ->]. by apply (guest_fails _ _ cfg _ g); [|apply Hg|].
Qed.

Lemma backend_delete_fails_by req :
  wp any (SwiftGuest.Delete req) (λ t r,
    ((∃ b, r = Ok b) ↔ omap hard_error t = []) ∧ (∀ e, r = Err e → delete_failure req t e)).
Proof.
  unfold SwiftGuest.Delete. fold (seedRef req). step. intros [u|e0] _.
  - destruct (Time_IsZero _); [|step; split; [split; [done|by eexists]|done]].
    step. intros [e1|] _; [destruct (IsNotFound (Some e1)) eqn:E; cbn [negb]|]; step; cbn; rewrite ?E;
      (split; [split; [by intros [? ?]|eauto; done]|]); intros e [=]; subst; by apply delete_guest.
  - destruct (IsNotFound (Some e0)) eqn:E; cbn [negb].
    + step. intros [e1|] _; [destruct (IsNotFound (Some e1)) eqn:E1; cbn [negb]|]; step; cbn; rewrite E, ?E1;
        (split; [split; [by intros [? ?]|eauto; done]|]); intros e [=]; subst; by apply delete_seed.
    + step. cbn. rewrite E. split; [split; [by intros [? ?]|done]|]. intros e [= <-]. by apply delete_unread.
Qed.

Lemma checkBootstrapData_fails machine name :
  mach_Spec_Bootstrap_DataSecretName machine = Some name →
  wp any (checkBootstrapData machine) (λ t r,
    reads t ∧ omap read_error t = option_list r ∧ (r = None → bootstrap_read machine name t)).
Proof.
  intros Hn. unfold checkBootstrapData. rewrite Hn. step. intros [secret|e] _; step.
  - change BootstrapDataSecretKey with "value".
    destruct (sec_Data secret !! "value") as [data|] eqn:Ed; step; (split; [by repeat constructor|]); cbn.
    + rewrite decide_False by congruence. split; [done|]. intros _. by econstructor.
    + by rewrite decide_True.
  - split; [by repeat constructor|done].
Qed.

Lemma controlPlaneExposure_fails machine cluster :
  wp any (controlPlaneExposure machine cluster) (λ t r,
    reads t ∧ match r with Ok _ => omap read_error t = [] | Err e => omap read_error t = [e] end).
Proof.
  unfold controlPlaneExposure. destruct (_ || _); [step; split; [constructor|done]|].
  step. intros [k|e] _; step; (split; [by repeat constructor|done]).
Qed.

Lemma ensureNodeProviderID_fails cluster nodeName providerID :
  wp any (ensureNodeProviderID cluster nodeName providerID) (λ t r,
    omap (node_error cluster) t = match r with Ok _ => [] | Err e => [e] end).
Proof.
  unfold ensureNodeProviderID, patchNode. step. intros [secret|e] _.
  2: { destruct (IsNotFound (Some e)) eqn:E; step; cbn; by rewrite E. }
  destruct (sec_Data secret !! "value") as [data|] eqn:Ed; [|step; cbn; by rewrite decide_True].
  step. intros [cfg|e] _; [|step; cbn; by rewrite decide_False by congruence].
  step. intros [cs|e] _; [|step; cbn; by rewrite decide_False by congruence].
  step. intros [node|e] _; [|step; cbn; by rewrite decide_False by congruence].
  destruct (String.eqb _ providerID); [step; cbn; by rewrite decide_False by congruence|].
  destruct (String.eqb _ ""); [|step; cbn; by rewrite decide_False by congruence].
  step. intros [e|] _; step; cbn; by rewrite decide_False by congruence.
Qed.

(** ** What a machine says *)

Context {C : ConditionLaws}.

Lemma reportBackend_says ksm machine cluster name x cfg tb tx ts tg g res :
  let req := normalRequest ksm machine cluster name x in
  conditions_wf (ksm_GetConditions ksm) →
  bootstrap_read machine name tb → exposure_read machine cluster tx x →
  seed_ensured req ts → guest_obtained req cfg tg g → guestResult req g = Ok res →
  wp any (reportBackend (finalized ksm) machine cluster (providerIDOf ksm) (Ok res))
    (λ t p, machine_says ksm machine cluster (tb ++ tx ++ (ts ++ tg) ++ t) p.1 p.2.2).
Proof.
  intros req Hwf Hb Hx Hs Hg Hres.
  assert (guest_in_hand ksm machine cluster (tb ++ tx ++ ts ++ tg) req g) as Hh
    by (by exists name, x, cfg, tb, tx, ts, tg).
  destruct (guestResult_cases req g) as [(_ & e & He)|[(Hp & a & Ha & Er)|(Hp & Hn & Er)]]; [congruence| |].
  - rewrite Er in Hres. injection Hres as <-. cbn [reportBackend negb br_Provisioned].
    eapply wp_seq; [apply wp_self, ensureNodeProviderID_fails|]. cbn beta.
    intros t r [Hr He].
    apply (wp_any_runs _ _ _ _ (ensureNodeProviderID_runs _ _ _)) in Hr as (Hn & _).
    assert (∀ ret : Return, ret.2 = match r with Ok _ => None | Err e => Some e end →
      machine_says ksm machine cluster (tb ++ tx ++ (ts ++ tg) ++ t)
        (markProvisioned (finalized ksm) machine (providerIDOf ksm)
           (mkBackendResult true [mkMachineAddress MachineInternalIP a] false "" "")) ret.2) as Hsay.
    { intros ret ->. replace (match r with Ok _ => None | Err e => Some e end)
        with (head (omap (node_error cluster) t)) by (rewrite He; by destruct r).
      apply (says_ready _ _ _ _ _ req g a (tb ++ tx ++ ts ++ tg) t); [|exact Hh|done|done|done|by apply markProvisioned_ready].
      by rewrite <- !app_assoc. }
    destruct r as [[]|err]; cbn [negb]; step; rewrite app_nil_r; by apply Hsay.
  - rewrite Er in Hres. injection Hres as <-.
    destruct (waiting_result_waits req g) as (Hprov & _).
    cbn [reportBackend]. rewrite Hprov. cbn [negb].
    rewrite (surjective_pairing (waiting (waiting_result req g))). step. rewrite app_nil_r.
    eapply says_waiting; [exact Hh|done|done| |by apply notReady_ready].
    unfold waiting_result. destruct (unresolvedMessage g) as [msg|] eqn:Em; simpl.
    + apply waits_for_reference. by apply unresolvedMessage_spec.
    + apply waits_for_address. intros msg Hm%unresolvedMessage_spec. congruence.
Qed.

Lemma reconcileNormal_says ksm machine cluster :
  conditions_wf (ksm_GetConditions ksm) →
  wp any (MachineController.reconcileNormal ksm machine cluster NewSwiftGuestBackend)
    (λ t p, machine_says ksm machine cluster t p.1 p.2.2).
Proof.
  intros Hwf. unfold MachineController.reconcileNormal. fold (finalized ksm).
  destruct (ptr_Deref (clus_Status_InfrastructureProvisioned cluster) false) eqn:Hi; cbn [negb];
    [|step; apply says_no_infrastructure; [done|done|by apply notReady_ready]].
  destruct (mach_Spec_Bootstrap_DataSecretName machine) as [name|] eqn:Hn;
    [|step; apply says_no_bootstrap; [done|done|done|by apply notReady_ready]].
  eapply wp_seq; [by apply checkBootstrapData_fails|]. cbn beta.
  intros tb [err|] (R0 & E0 & H0); [step; rewrite app_nil_r; by apply says_unread|].
  specialize (H0 eq_refl).
  change (meta_Namespace (ksm_ObjectMeta (finalized ksm))) with (meta_Namespace (ksm_ObjectMeta ksm)).
  change (meta_Name (ksm_ObjectMeta (finalized ksm))) with (meta_Name (ksm_ObjectMeta ksm)).
  fold (providerIDOf ksm).
  eapply wp_seq; [apply wp_self, controlPlaneExposure_fails|]. cbn beta.
  intros tx [x|err] [Hx [Rx Ex]]; cbn beta iota.
  2: { step. rewrite app_nil_r. apply says_unread; [by apply Forall_app| |done|done].
    by rewrite omap_app, E0, Ex. }
  apply (wp_any_runs _ _ _ _ (controlPlaneExposure_runs _ _)) in Hx as [_ Hx]. specialize (Hx x eq_refl).
  cbn [bind deref]. fold (normalRequest ksm machine cluster name x).
  eapply wp_seq; [apply wp_self, backend_fails_by|]. cbn beta.
  intros tr [res|err] [Hr He].
  - apply backend_runs in Hr as (_ & _ & Hr).
    destruct (Hr res eq_refl) as (cfg & ts & tg & g & _ & -> & Hs & Hg & Hres).
    eapply wp_mono; [|by apply (reportBackend_says ksm machine cluster name x cfg tb tx ts tg g)]. done.
  - unfold reportBackend. step. rewrite app_nil_r. eapply says_failed; [done|done|done|by apply He|by apply notReady_ready].
Qed.

Lemma reconcileDelete_leaves ksm machine cluster :
  wp any (MachineController.reconcileDelete ksm machine cluster NewSwiftGuestBackend)
    (λ t p, machine_leaves ksm machine cluster t p.1 p.2.2).
Proof.
  unfold MachineController.reconcileDelete.
  eapply wp_seq; [apply (backend_delete_fails_by (deleteRequest ksm machine cluster))|]. cbn beta.
  intros t [[]|err] [Hn He]; cbn [negb]; step; rewrite app_nil_r; (split; [done|split; [done|]]);
    rewrite <- Hn; (split; [split; [eauto; done|by intros []]|]); intros e [=]; subst; by apply He.
Qed.

(** C11: Every failure surfaces. The patch of a machine says in its Ready condition what
    the reconcile met: that the VM is provisioned, after its guest was found running and
    reachable; which of the cluster infrastructure, the bootstrap data, a reference the
    guest reports, and the guest itself is waited for, with the message that goes with it;
    or VMFailed, with the very text of the backend's failure, whose cause is a rejected
    configuration, a failed call for the seed or the guest, or a guest that failed. When a
    read fails before that, or the machine is being deleted, the status stays as it was.
    The error returned is that failure, that of the read, that on the way to the workload
    Node, or that of the deletion, worded after what was being done; and only if there is
    none of these, that of the patch, so that a refused patch is never reported as
    success. *)
Theorem Reconcile_surfaces_errors (key : NamespacedName) :
  wp any (MachineController.Reconcile key) (λ t r, ∀ ev before after,
    ev ∈ t → ev_patch ev = Some (before, after) → conditions_wf (ksm_GetConditions before) →
    ∃ machine cluster t0 t1 err p,
      engaged key before machine cluster NewSwiftGuestBackend t0 ∧
      t = t0 ++ t1 ++ [Ev (Patch KMachine before after) p] ∧
      (if deleting before then machine_leaves before machine cluster t1 after err
       else machine_says before machine cluster t1 after err) ∧
      r.2 = match err with Some e => Some e | None => p end).
Proof.
  apply Reconcile_run_rule.
  { intros t r Ht ev before after Hev. by rewrite (read_only_patch t ev Ht Hev). }
  intros t r ksm machine cluster b t1 ksm' ret -> Htouch Hr ev before after Hev Hp Hwf.
  pose proof (wp_any_runs _ _ _ _ (reconcileMachine_runs NewSwiftGuestBackend _ _ _) Hr) as Ho.
  destruct (touches_patch _ _ _ _ _ _ _ _ _ _ _ _ Htouch Ho Hev Hp) as [-> ->].
  destruct Htouch as (t0 & p & He & -> & ->). exists machine, cluster, t0, t1, ret.2, p.
  split; [done|]. split; [done|]. split; [|by destruct p, ret as [res [err|]]].
  unfold reconcileMachine in Hr. fold (deleting ksm) in Hr. destruct (deleting ksm).
  - exact (wp_any_runs _ _ _ _ (reconcileDelete_leaves ksm machine cluster) Hr).
  - exact (wp_any_runs _ _ _ _ (reconcileNormal_says ksm machine cluster Hwf) Hr).
Qed.
End Errors.
