(* ===== verification/EndpointService.v ===== *)
(** * EndpointService: internal/controller/endpoint_service.go

    The Service the provider mints in front of a cluster's control-plane guests. *)

From S2P Require Import Prelude Go Prog Kube Api Lib Reference MachineController.

Definition ServiceSpec_zero : ServiceSpec := mkServiceSpec "" None [] "" None ∅.
Definition Service_zero : Service := mkService meta_zero ServiceSpec_zero [].

(** Field assignments on a Service. *)
Definition svc_set_Spec (svc : Service) (spec : ServiceSpec) : Service :=
  mkService (svc_ObjectMeta svc) spec (svc_Status_Ingress svc).
Definition svc_set_Annotations (svc : Service) (a : gomap string) : Service :=
  mkService (meta_set_Annotations (svc_ObjectMeta svc) a) (svc_Spec svc) (svc_Status_Ingress svc).
Definition ss_set_LoadBalancerClass (s : ServiceSpec) (c : option string) : ServiceSpec :=
  mkServiceSpec (ss_Type s) (ss_Selector s) (ss_Ports s) (ss_ClusterIP s) c (ss_Rest s).
Definition sp_set_NodePort (p : ServicePort) (n : Z) : ServicePort :=
  mkServicePort (sp_Name p) (sp_Port p) (sp_TargetPort p) (sp_Protocol p) n.

(** ** Configuration *)

Definition controlPlaneServiceName (ksc : KubeSwiftCluster) : string :=
  meta_Name (ksc_ObjectMeta ksc) +:+ "-cp".

Definition serviceCfg (ksc : KubeSwiftCluster) : option ControlPlaneServiceSpec :=
  match kscSpec_Endpoint (ksc_Spec ksc) with
  | None => None
  | Some ep => cpe_Service ep
  end.

Definition controlPlaneServicePort (ksc : KubeSwiftCluster) : Z :=
  match serviceCfg ksc with
  | Some cfg => if negb (cps_Port cfg =? 0)%Z then cps_Port cfg else defaultAPIServerPort
  | None => defaultAPIServerPort
  end.

Definition controlPlaneServiceType (ksc : KubeSwiftCluster) : string :=
  match serviceCfg ksc with
  | Some cfg => if negb (String.eqb (cps_Type cfg) "") then cps_Type cfg else ServiceTypeClusterIP
  | None => ServiceTypeClusterIP
  end.

(** ** Ports and address *)

(** [byName] after the first loop: a later port overwrites an earlier one. *)
Definition nodePortsByName (existing : list ServicePort) : gmap string Z :=
  foldl (λ m p, if negb (sp_NodePort p =? 0)%Z then <[sp_Name p := sp_NodePort p]> m else m)
    ∅ existing.

Definition mergeServicePorts (existing desired : list ServicePort) : list ServicePort :=
  let byName := nodePortsByName existing in
  map (λ p, match byName !! sp_Name p with
    | Some np => if (sp_NodePort p =? 0)%Z then sp_set_NodePort p np else p
    | None => p
    end) desired.

Fixpoint first_ingress (l : list LoadBalancerIngress) : string * bool :=
  match l with
  | [] => ("", false)
  | ing :: rest =>
    if negb (String.eqb (ing_IP ing) "") then (ing_IP ing, true)
    else if negb (String.eqb (ing_Hostname ing) "") then (ing_Hostname ing, true)
    else first_ingress rest
  end.

Definition controlPlaneServiceAddress (svc : Service) : string * bool :=
  if String.eqb (ss_Type (svc_Spec svc)) ServiceTypeLoadBalancer then
    first_ingress (svc_Status_Ingress svc)
  else if negb (String.eqb (ss_ClusterIP (svc_Spec svc)) "") &&
          negb (String.eqb (ss_ClusterIP (svc_Spec svc)) ClusterIPNone)
  then (ss_ClusterIP (svc_Spec svc), true)
  else ("", false).

(** ** The Service *)

Section Definitions.
Context {lib : Lib}.

Definition buildControlPlaneService (ksc : KubeSwiftCluster) (cluster : Cluster) : Service :=
  let port := controlPlaneServicePort ksc in
  let name := meta_Name (clus_ObjectMeta cluster) in
  let svc := mkService
    (mkObjectMeta (controlPlaneServiceName ksc) (meta_Namespace (ksc_ObjectMeta ksc))
      (Some {[ClusterNameLabel := name]}) None [] None [] "")
    (mkServiceSpec (controlPlaneServiceType ksc)
      (Some {[ControlPlanePoolLabelKey := ControlPlaneServiceSelectorValue name]})
      [mkServicePort APIServerPortName port (intstr_FromInt32 port) ProtocolTCP 0]
      "" None ∅) [] in
  match serviceCfg ksc with
  | None => svc
  | Some cfg =>
    let svc := if (0 <? size (entries (cps_Annotations cfg)))%nat
      then svc_set_Annotations svc (cps_Annotations cfg) else svc in
    if String.eqb (ss_Type (svc_Spec svc)) ServiceTypeLoadBalancer &&
       match cps_LoadBalancerClass cfg with Some _ => true | None => false end
    then svc_set_Spec svc (ss_set_LoadBalancerClass (svc_Spec svc) (cps_LoadBalancerClass cfg))
    else svc
  end.

(** [updated]: the existing Service with the fields the provider owns. *)
Definition updatedService (desired existing : Service) : Service :=
  let s := svc_Spec existing in
  let d := svc_Spec desired in
  let spec := mkServiceSpec (ss_Type d) (ss_Selector d)
    (mergeServicePorts (ss_Ports s) (ss_Ports d))
    (ss_ClusterIP s) (ss_LoadBalancerClass s) (ss_Rest s) in
  let spec := if String.eqb (ss_Type d) ServiceTypeLoadBalancer
    then ss_set_LoadBalancerClass spec (ss_LoadBalancerClass d) else spec in
  let updated := svc_set_Spec existing spec in
  let theirs := meta_Annotations (svc_ObjectMeta existing) in
  let ours := entries (meta_Annotations (svc_ObjectMeta desired)) in
  if (0 <? size ours)%nat
  then svc_set_Annotations updated (Some (gocopy ours (entries theirs)))
  else updated.

(** The five comparisons that decide whether to update. *)
Definition unchanged (existing updated : Service) : bool :=
  DeepEqual_string (ss_Type (svc_Spec existing)) (ss_Type (svc_Spec updated)) &&
  DeepEqual_map (ss_Selector (svc_Spec existing)) (ss_Selector (svc_Spec updated)) &&
  DeepEqual_ports (ss_Ports (svc_Spec existing)) (ss_Ports (svc_Spec updated)) &&
  DeepEqual_strptr (ss_LoadBalancerClass (svc_Spec existing))
    (ss_LoadBalancerClass (svc_Spec updated)) &&
  DeepEqual_map (meta_Annotations (svc_ObjectMeta existing))
    (meta_Annotations (svc_ObjectMeta updated)).

Definition serviceKey (ksc : KubeSwiftCluster) : NamespacedName :=
  mkNN (meta_Namespace (ksc_ObjectMeta ksc)) (controlPlaneServiceName ksc).

Definition ensureControlPlaneService (ksc : KubeSwiftCluster) (cluster : Cluster) :
    prog call (result Service) :=
  match SetControllerReference ksc (buildControlPlaneService ksc cluster) with
  | Err err => Ret (Err err)
  | Ok desired =>
    let key := mkNN (meta_Namespace (svc_ObjectMeta desired)) (meta_Name (svc_ObjectMeta desired)) in
    let! r := perform (Get KService key Service_zero) in
    match r with
    | Err err =>
      if IsNotFound (Some err) then perform (Create KService desired)
      else Ret (Err err)
    | Ok existing =>
      let updated := updatedService desired existing in
      if unchanged existing updated then Ret (Ok existing)
      else perform (Update KService updated)
    end
  end.

Definition deleteControlPlaneService (ksc : KubeSwiftCluster) : prog call (option error) :=
  let svc := mkService (mkObjectMeta (controlPlaneServiceName ksc)
    (meta_Namespace (ksc_ObjectMeta ksc)) None None [] None [] "") ServiceSpec_zero [] in
  let! d := perform (Lib.Delete KService svc) in
  match d with
  | Some err =>
    if negb (IsNotFound (Some err)) then Ret (Some (Wrapf "deleting control-plane Service" err))
    else Ret None
  | None => Ret None
  end.

(** ** Conditions and adoption of the address *)

Definition cluster_condition (ksc : KubeSwiftCluster) (c : Condition) : KubeSwiftCluster :=
  ksc_SetConditions ksc (conditions_Set (ksc_GetConditions ksc) c).

Definition markClusterProvisioned (ksc : KubeSwiftCluster) : KubeSwiftCluster :=
  let ksc := ksc_set_Provisioned ksc (Some true) in
  cluster_condition ksc (mkCondition ReadyConditionType ConditionTrue ClusterProvisionedReason "").

Definition markClusterNotProvisioned (ksc : KubeSwiftCluster) (reason message : string) :
    KubeSwiftCluster :=
  let ksc := ksc_set_Provisioned ksc (Some false) in
  cluster_condition ksc (mkCondition ReadyConditionType ConditionFalse reason message).

Definition reconcileServiceEndpoint (ksc : KubeSwiftCluster) (cluster : Cluster) :
    prog call (KubeSwiftCluster * Return) :=
  let! r := ensureControlPlaneService ksc cluster in
  match r with
  | Err err => Ret (ksc, failed (Wrapf "ensuring control-plane Service" err))
  | Ok svc =>
    let '(host, ready) := controlPlaneServiceAddress svc in
    if negb ready then
      Ret (markClusterNotProvisioned ksc WaitingForEndpointServiceReason
        ("Waiting for Service " +:+ meta_Namespace (svc_ObjectMeta svc) +:+ "/" +:+
         meta_Name (svc_ObjectMeta svc) +:+ " to get an address"), finished)
    else
      let ksc := ksc_set_ControlPlaneEndpoint ksc
        (Some (mkAPIEndpoint host (controlPlaneServicePort ksc))) in
      Ret (markClusterProvisioned ksc, finished)
  end.
End Definitions.
