(* ===== verification/ClusterController.v ===== *)
(** * ClusterController: internal/controller/kubeswiftcluster_controller.go *)

From S2P Require Import Prelude Go Prog Kube Api Lib Reference MachineController EndpointService.

(** The effective endpoint mode. *)
Definition endpointMode (ksc : KubeSwiftCluster) : string :=
  match kscSpec_Endpoint (ksc_Spec ksc) with
  | None => EndpointModeExternal
  | Some ep => if String.eqb (cpe_Mode ep) "" then EndpointModeExternal else cpe_Mode ep
  end.

Section Definitions.
Context {lib : Lib}.

Definition reconcileNormal (ksc : KubeSwiftCluster) (cluster : Cluster) :
    prog call (KubeSwiftCluster * Return) :=
  let ksc := ksc_set_Finalizers ksc
    (AddFinalizer (meta_Finalizers (ksc_ObjectMeta ksc)) ClusterFinalizer) in
  if String.eqb (endpointMode ksc) EndpointModeService then reconcileServiceEndpoint ksc cluster
  else if match kscSpec_ControlPlaneEndpoint (ksc_Spec ksc) with
          | None => true | Some ep => String.eqb (ep_Host ep) "" end
  then
    Ret (markClusterNotProvisioned ksc WaitingForControlPlaneEndpointReason
      "Waiting for spec.controlPlaneEndpoint to be set", finished)
  else Ret (markClusterProvisioned ksc, finished).

Definition reconcileDelete (ksc : KubeSwiftCluster) : prog call (KubeSwiftCluster * Return) :=
  let! d := deleteControlPlaneService ksc in
  match d with
  | Some err => Ret (ksc, failed err)
  | None =>
    Ret (ksc_set_Finalizers ksc
      (RemoveFinalizer (meta_Finalizers (ksc_ObjectMeta ksc)) ClusterFinalizer), finished)
  end.

(** The dispatch on the deletion timestamp. *)
Definition reconcileCluster (ksc : KubeSwiftCluster) (cluster : Cluster) :
    prog call (KubeSwiftCluster * Return) :=
  if negb (Time_IsZero (meta_DeletionTimestamp (ksc_ObjectMeta ksc)))
  then reconcileDelete ksc
  else reconcileNormal ksc cluster.

Definition Reconcile (key : NamespacedName) : prog call Return :=
  let! g := perform (Get KCluster key KubeSwiftCluster_zero) in
  match g with
  | Err err => Ret (Result_zero, IgnoreNotFound (Some err))
  | Ok ksc =>
    let! o := perform (GetOwnerCluster (ksc_ObjectMeta ksc)) in
    match o with
    | Err err => Ret (failed err)
    | Ok None => Ret finished
    | Ok (Some cluster) =>
      if IsExternallyManaged (ksc_ObjectMeta ksc) then Ret finished
      else if IsPaused cluster (ksc_ObjectMeta ksc) then Ret finished
      else
        let! h := perform (NewPatchHelper KCluster ksc) in
        match h with
        | Some err => Ret (failed err)
        | None =>
          let! (ksc', ret) := reconcileCluster ksc cluster in
          let! p := perform (Patch KCluster ksc ksc') in
          Ret (patched ret p)
        end
    end
  end.
End Definitions.
