(* ===== verification/EndpointSpec.v ===== *)
(** * EndpointSpec: the endpoint Service

    Ports, address, what is written to an existing Service and what is preserved, and
    convergence of [ensureControlPlaneService]. *)

From S2P Require Import Prelude Go Prog Kube Api Lib Reference Samples MachineController EndpointService.

(** ** Ports *)

(** The NodePort the API server last assigned under a name. *)
Definition assigned (existing : list ServicePort) (name : string) : option Z :=
  list.last (sp_NodePort <$>
    List.filter (λ p, String.eqb (sp_Name p) name && negb (sp_NodePort p =? 0)%Z) existing).

Lemma nodePortsByName_snoc l p :
  nodePortsByName (l ++ [p]) =
  if negb (sp_NodePort p =? 0)%Z then <[sp_Name p := sp_NodePort p]> (nodePortsByName l)
  else nodePortsByName l.
Proof. unfold nodePortsByName. by rewrite foldl_app. Qed.

Lemma nodePortsByName_spec l name : nodePortsByName l !! name = assigned l name.
Proof.
  unfold assigned. induction l as [|p l IH] using rev_ind; [done|].
  rewrite nodePortsByName_snoc, List.filter_app, fmap_app. cbn [List.filter].
  destruct (sp_NodePort p =? 0)%Z; cbn [negb].
  - rewrite andb_false_r, app_nil_r. exact IH.
  - rewrite andb_true_r. destruct (String.eqb (sp_Name p) name) eqn:E; bool_facts.
    + subst. rewrite lookup_insert_eq. cbn [fmap list_fmap]. by rewrite list.last_snoc.
    + rewrite lookup_insert_ne by done. by rewrite app_nil_r.
Qed.

Lemma nodePortsByName_absent l name :
  name ∉ sp_Name <$> l → nodePortsByName l !! name = None.
Proof.
  induction l as [|q l IH] using rev_ind; [done|].
  rewrite fmap_app. change (sp_Name <$> [q]) with [sp_Name q].
  rewrite elem_of_app, list_elem_of_singleton, nodePortsByName_snoc. intros Hn.
  destruct (negb _); [rewrite lookup_insert_ne by (intros <-; tauto)|]; apply IH; tauto.
Qed.

(** In a list without repeated names each port keeps its own. *)
Lemma nodePortsByName_unique l p :
  NoDup (sp_Name <$> l) → p ∈ l →
  nodePortsByName l !! sp_Name p =
    if (sp_NodePort p =? 0)%Z then None else Some (sp_NodePort p).
Proof.
  induction l as [|q l IH] using rev_ind; [by intros _ ?%elem_of_nil|].
  rewrite fmap_app, list.NoDup_app, elem_of_app, list_elem_of_singleton, nodePortsByName_snoc.
  change (sp_Name <$> [q]) with [sp_Name q].
  intros (Hl & Hd & _).
  intros [Hp| ->].
  - assert (sp_Name q ≠ sp_Name p) as Hne.
    { intros He. apply (Hd (sp_Name p)); [by apply list_elem_of_fmap_2|]. rewrite <- He. by left. }
    destruct (negb _); [rewrite lookup_insert_ne by done|]; by apply IH.
  - destruct (sp_NodePort q =? 0)%Z; cbn [negb]; [|apply lookup_insert_eq].
    apply nodePortsByName_absent. intros Hq. apply (Hd (sp_Name q)); [done|]. by left.
Qed.

(** A desired port with the NodePort it ends up with. *)
Definition merged (existing : list ServicePort) (p : ServicePort) : ServicePort :=
  sp_set_NodePort p
    (if (sp_NodePort p =? 0)%Z then default 0%Z (assigned existing (sp_Name p))
     else sp_NodePort p).

Lemma mergeServicePorts_spec existing desired :
  mergeServicePorts existing desired = map (merged existing) desired.
Proof.
  unfold mergeServicePorts. apply map_ext. intros p. rewrite nodePortsByName_spec. unfold merged.
  destruct (sp_NodePort p =? 0)%Z eqn:E; bool_facts;
    destruct (assigned existing (sp_Name p)); destruct p; cbn in *; subst; done.
Qed.

Lemma mergeServicePorts_names existing desired :
  sp_Name <$> map (merged existing) desired = sp_Name <$> desired.
Proof. induction desired as [|p l IH]; [done|]. cbn. by f_equal. Qed.

Lemma mergeServicePorts_idemp existing desired :
  NoDup (sp_Name <$> desired) →
  mergeServicePorts (mergeServicePorts existing desired) desired =
  mergeServicePorts existing desired.
Proof.
  intros Hd. rewrite <- (mergeServicePorts_names existing) in Hd.
  rewrite !mergeServicePorts_spec. apply map_ext_in. intros p Hp.
  assert (assigned (map (merged existing) desired) (sp_Name p) =
    if (sp_NodePort (merged existing p) =? 0)%Z then None
    else Some (sp_NodePort (merged existing p))) as Ha.
  { rewrite <- nodePortsByName_spec.
    apply (nodePortsByName_unique _ (merged existing p)); [done|].
    apply list_elem_of_In, in_map_iff. by exists p. }
  unfold merged at 1. rewrite Ha. unfold merged. cbn.
  destruct (sp_NodePort p =? 0)%Z eqn:E; bool_facts; [|done].
  destruct (default 0%Z (assigned existing (sp_Name p)) =? 0)%Z eqn:E2; bool_facts; [|done].
  cbn. congruence.
Qed.

(** [mergeServicePorts] keeps every desired port, in order, with its NodePort when
    it has one and otherwise the last one the API server assigned under its name; for
    ports with distinct names, merging again changes nothing. *)
Theorem mergeServicePorts_keeps (existing desired : list ServicePort) :
  mergeServicePorts existing desired = map (merged existing) desired ∧
  (NoDup (sp_Name <$> desired) →
   mergeServicePorts (mergeServicePorts existing desired) desired =
   mergeServicePorts existing desired).
Proof. split; [apply mergeServicePorts_spec|apply mergeServicePorts_idemp]. Qed.

(** ** Address *)

Definition ingress_text (i : LoadBalancerIngress) : string :=
  if String.eqb (ing_IP i) "" then ing_Hostname i else ing_IP i.

(** The address of a Service. *)
Inductive service_address (svc : Service) (a : string) : Prop :=
  | load_balancer_address l1 i l2 :
      ss_Type (svc_Spec svc) = ServiceTypeLoadBalancer →
      svc_Status_Ingress svc = l1 ++ i :: l2 →
      Forall (λ j, ing_IP j = "" ∧ ing_Hostname j = "") l1 →
      a = ingress_text i → a ≠ "" → service_address svc a
  | cluster_ip_address :
      ss_Type (svc_Spec svc) ≠ ServiceTypeLoadBalancer →
      ss_ClusterIP (svc_Spec svc) = a → a ≠ "" → a ≠ ClusterIPNone → service_address svc a.

Lemma first_ingress_spec l :
  (∃ l1 i l2, l = l1 ++ i :: l2 ∧ Forall (λ j, ing_IP j = "" ∧ ing_Hostname j = "") l1 ∧
     ingress_text i ≠ "" ∧ first_ingress l = (ingress_text i, true)) ∨
  (Forall (λ j, ing_IP j = "" ∧ ing_Hostname j = "") l ∧ first_ingress l = ("", false)).
Proof.
  induction l as [|i l IH]; [by right|]. cbn [first_ingress].
  destruct (String.eqb (ing_IP i) "") eqn:E1; bool_facts; cbn [negb].
  - destruct (String.eqb (ing_Hostname i) "") eqn:E2; bool_facts; cbn [negb].
    + destruct IH as [(l1 & j & l2 & -> & Hl & Hj & Hf)|[Hl Hf]].
      * left. exists (i :: l1), j, l2. split_and!; try done. by constructor.
      * right. split; [by constructor|done].
    + left. exists [], i, l. unfold ingress_text. rewrite E1. by split_and!.
  - left. exists [], i, l. unfold ingress_text. rewrite (proj2 (String.eqb_neq _ _) E1).
    by split_and!.
Qed.

Lemma first_ingress_prefix l1 i l2 :
  Forall (λ j, ing_IP j = "" ∧ ing_Hostname j = "") l1 → ingress_text i ≠ "" →
  first_ingress (l1 ++ i :: l2) = (ingress_text i, true).
Proof.
  intros Hl Hi. induction Hl as [|j l1 [H1 H2] Hl IH]; cbn [first_ingress app].
  - revert Hi. unfold ingress_text. destruct (String.eqb (ing_IP i) "") eqn:E; cbn [negb]; [|done].
    intros Hi. by rewrite (proj2 (String.eqb_neq _ _) Hi).
  - rewrite H1, H2. exact IH.
Qed.

Lemma controlPlaneServiceAddress_spec svc a :
  controlPlaneServiceAddress svc = (a, true) ↔ service_address svc a.
Proof.
  unfold controlPlaneServiceAddress.
  destruct (String.eqb (ss_Type (svc_Spec svc)) ServiceTypeLoadBalancer) eqn:E; bool_facts.
  - split.
    + destruct (first_ingress_spec (svc_Status_Ingress svc))
        as [(l1 & i & l2 & Hl & Hf & Hi & Hr)|[_ Hr]]; rewrite Hr; [|done].
      intros [= <-]. by eapply load_balancer_address.
    + intros [l1 i l2 _ Hl Hf -> Hn|]; [|done]. rewrite Hl. by apply first_ingress_prefix.
  - destruct (String.eqb (ss_ClusterIP (svc_Spec svc)) "") eqn:E1; bool_facts; cbn [negb andb].
    { split; [done|]. intros []; congruence. }
    destruct (String.eqb (ss_ClusterIP (svc_Spec svc)) ClusterIPNone) eqn:E2; bool_facts; cbn [negb].
    { split; [done|]. intros []; congruence. }
    split; [intros [= <-]; by apply cluster_ip_address|]. intros []; congruence.
Qed.

(** [controlPlaneServiceAddress] is ready with an address exactly when the Service
    has one: for a LoadBalancer, the IP - or failing that the hostname - of its first
    ingress entry with either; otherwise a ClusterIP that is neither empty nor
    "None". The address it reports is never empty. *)
Theorem controlPlaneServiceAddress_ready (svc : Service) (a : string) :
  (controlPlaneServiceAddress svc = (a, true) ↔ service_address svc a) ∧
  (service_address svc a → a ≠ "") ∧
  ((controlPlaneServiceAddress svc).2 = false → controlPlaneServiceAddress svc = ("", false)).
Proof.
  split; [apply controlPlaneServiceAddress_spec|]. split; [by intros []|].
  unfold controlPlaneServiceAddress. case_match; [|by case_match].
  by destruct (first_ingress_spec (svc_Status_Ingress svc)) as [(? & ? & ? & _ & _ & _ & ->)|[_ ->]].
Qed.

(** ** What the Service is made to be *)

Definition cfg_annotations (ksc : KubeSwiftCluster) : gmap string string :=
  match serviceCfg ksc with Some cfg => entries (cps_Annotations cfg) | None => ∅ end.
Definition cfg_class (ksc : KubeSwiftCluster) : option string :=
  match serviceCfg ksc with Some cfg => cps_LoadBalancerClass cfg | None => None end.
Definition annotations (svc : Service) : gmap string string :=
  entries (meta_Annotations (svc_ObjectMeta svc)).

(** The API-server port of a cluster's Service, with the NodePort [np]. *)
Definition apiserverPort (ksc : KubeSwiftCluster) (np : Z) : ServicePort :=
  mkServicePort "apiserver" (controlPlaneServicePort ksc) (IntVal (controlPlaneServicePort ksc))
    "TCP" np.

(** The Service fronts the control-plane guests of the cluster, as configured. *)
Record fronts (ksc : KubeSwiftCluster) (cluster : Cluster) (svc : Service) : Prop := {
  fronts_type : ss_Type (svc_Spec svc) = controlPlaneServiceType ksc;
  fronts_selector : entries (ss_Selector (svc_Spec svc)) =
    {[ControlPlanePoolLabelKey := meta_Name (clus_ObjectMeta cluster) +:+ "-cp"]};
  fronts_ports : ∃ np, ss_Ports (svc_Spec svc) = [apiserverPort ksc np];
  fronts_class : ss_Type (svc_Spec svc) = ServiceTypeLoadBalancer →
    ss_LoadBalancerClass (svc_Spec svc) = cfg_class ksc;
  fronts_annotations : cfg_annotations ksc ⊆ annotations svc
}.

(** What an update leaves as the API server and others set it. *)
Record preserves (ksc : KubeSwiftCluster) (existing svc : Service) : Prop := {
  preserves_clusterIP : ss_ClusterIP (svc_Spec svc) = ss_ClusterIP (svc_Spec existing);
  preserves_rest : ss_Rest (svc_Spec svc) = ss_Rest (svc_Spec existing);
  preserves_status : svc_Status_Ingress svc = svc_Status_Ingress existing;
  preserves_nodePort np : assigned (ss_Ports (svc_Spec existing)) "apiserver" = Some np →
    ss_Ports (svc_Spec svc) = [apiserverPort ksc np];
  preserves_class : ss_Type (svc_Spec svc) ≠ ServiceTypeLoadBalancer →
    ss_LoadBalancerClass (svc_Spec svc) = ss_LoadBalancerClass (svc_Spec existing);
  preserves_meta : svc_ObjectMeta svc =
    meta_set_Annotations (svc_ObjectMeta existing) (meta_Annotations (svc_ObjectMeta svc));
  preserves_annotations k : cfg_annotations ksc !! k = None →
    annotations svc !! k = annotations existing !! k
}.

Section Service.
Context {lib : Lib} {S : ServiceLaws}.

(** The desired Service, declaratively. *)
Lemma buildControlPlaneService_spec ksc cluster :
  let svc := buildControlPlaneService ksc cluster in
  ss_Type (svc_Spec svc) = controlPlaneServiceType ksc ∧
  ss_Selector (svc_Spec svc) =
    Some {[ControlPlanePoolLabelKey := meta_Name (clus_ObjectMeta cluster) +:+ "-cp"]} ∧
  ss_Ports (svc_Spec svc) = [apiserverPort ksc 0] ∧
  (ss_Type (svc_Spec svc) = ServiceTypeLoadBalancer →
     ss_LoadBalancerClass (svc_Spec svc) = cfg_class ksc) ∧
  annotations svc = cfg_annotations ksc ∧
  meta_Namespace (svc_ObjectMeta svc) = meta_Namespace (ksc_ObjectMeta ksc) ∧
  meta_Name (svc_ObjectMeta svc) = meta_Name (ksc_ObjectMeta ksc) +:+ "-cp".
Proof.
  intros svc. unfold svc, buildControlPlaneService, cfg_class, cfg_annotations, annotations, apiserverPort.
  rewrite FromInt32_spec. destruct (serviceCfg ksc) as [cfg|]; [|by split_and!].
  destruct (0 <? size (entries (cps_Annotations cfg)))%nat eqn:Es; cbv zeta;
    cbn [svc_set_Annotations svc_Spec ss_Type];
    destruct (String.eqb (controlPlaneServiceType ksc) ServiceTypeLoadBalancer) eqn:Et,
      (cps_LoadBalancerClass cfg) eqn:Ec; cbn; bool_facts; split_and!; try done; try congruence.
  all: symmetry; apply Nat.ltb_ge in Es; apply map_size_empty_inv; lia.
Qed.

Definition desired_of (ksc : KubeSwiftCluster) (cluster : Cluster) (desired : Service) : Prop :=
  SetControllerReference ksc (buildControlPlaneService ksc cluster) = Ok desired.

Lemma desired_spec ksc cluster desired :
  desired_of ksc cluster desired →
  svc_Spec desired = svc_Spec (buildControlPlaneService ksc cluster) ∧
  annotations desired = cfg_annotations ksc ∧
  mkNN (meta_Namespace (svc_ObjectMeta desired)) (meta_Name (svc_ObjectMeta desired)) =
    serviceKey ksc.
Proof.
  intros (Hs & _ & Hm)%SetControllerReference_ok.
  destruct (buildControlPlaneService_spec ksc cluster) as (_ & _ & _ & _ & Ha & Hns & Hn).
  unfold annotations in *. rewrite Hm. cbn. split_and!; [done|done|]. by rewrite Hns, Hn.
Qed.

Lemma desired_fronts ksc cluster desired : desired_of ksc cluster desired → fronts ksc cluster desired.
Proof.
  intros Hd. destruct (desired_spec _ _ _ Hd) as (Hs & Ha & _).
  destruct (buildControlPlaneService_spec ksc cluster) as (Ht & Hsel & Hp & Hc & _).
  split; rewrite ?Hs; [done|by rewrite Hsel|by eexists|done|by rewrite Ha].
Qed.

Lemma gocopy_size (ours theirs : gmap string string) :
  (0 <? size ours)%nat = false → gocopy ours theirs = theirs.
Proof.
  intros H%Nat.ltb_ge. unfold gocopy. assert (ours = ∅) as -> by (apply map_size_empty_inv; lia).
  apply (left_id_L ∅ (∪)).
Qed.

(** [updatedService], field by field. *)
Lemma updatedService_spec desired existing :
  let u := updatedService desired existing in
  let s := svc_Spec existing in let d := svc_Spec desired in
  svc_Spec u = mkServiceSpec (ss_Type d) (ss_Selector d) (mergeServicePorts (ss_Ports s) (ss_Ports d))
    (ss_ClusterIP s)
    (if String.eqb (ss_Type d) ServiceTypeLoadBalancer then ss_LoadBalancerClass d
     else ss_LoadBalancerClass s) (ss_Rest s) ∧
  svc_Status_Ingress u = svc_Status_Ingress existing ∧
  annotations u = annotations desired ∪ annotations existing ∧
  svc_ObjectMeta u =
    meta_set_Annotations (svc_ObjectMeta existing) (meta_Annotations (svc_ObjectMeta u)).
Proof.
  intros u s d. unfold u, updatedService, annotations.
  destruct (0 <? size (entries (meta_Annotations (svc_ObjectMeta desired))))%nat eqn:E; cbn.
  - split_and!; [by destruct (String.eqb _ _)|done|done|done].
  - split_and!; [by destruct (String.eqb _ _)|done| |by destruct (svc_ObjectMeta existing)].
    symmetry. exact (gocopy_size _ _ E).
Qed.

Lemma updatedService_fronts ksc cluster desired existing :
  desired_of ksc cluster desired →
  fronts ksc cluster (updatedService desired existing) ∧
  preserves ksc existing (updatedService desired existing).
Proof.
  intros Hd. destruct (desired_spec _ _ _ Hd) as (Hs & Ha & _).
  destruct (buildControlPlaneService_spec ksc cluster) as (Ht & Hsel & Hp & Hc & _).
  destruct (updatedService_spec desired existing) as (Es & Est & Ea & Em).
  rewrite Hs in Es. rewrite Hp, mergeServicePorts_spec in Es. rewrite Ha in Ea. split.
  - split; rewrite ?Es, ?Ea; cbn; [done|by rewrite Hsel|by eexists| |apply map_union_subseteq_l].
    intros Hlb. rewrite Hlb. cbn. by apply Hc.
  - split; rewrite ?Es, ?Ea; cbn; try done.
    + intros np Hnp. unfold merged. cbn. by rewrite Hnp.
    + intros Hlb. by rewrite (proj2 (String.eqb_neq _ _) Hlb).
    + intros k Hk. by apply lookup_union_r.
Qed.

Context {D : DeepEqualLaws}.

(** The update is skipped exactly for a Service that already fronts the guests. *)
Lemma unchanged_fronts ksc cluster desired existing :
  desired_of ksc cluster desired →
  unchanged existing (updatedService desired existing) = true ↔ fronts ksc cluster existing.
Proof.
  intros Hd. destruct (updatedService_fronts _ _ _ existing Hd) as [[F1 F2 F3 F4 F5] [_ _ _ P4 P5 _ _]].
  destruct (updatedService_spec desired existing) as (Es & _ & Ea & _).
  destruct (desired_spec _ _ _ Hd) as (Hs & Ha & _).
  destruct (buildControlPlaneService_spec ksc cluster) as (_ & _ & Hp & _).
  unfold unchanged. rewrite !andb_true_iff, DeepEqual_string_spec, !DeepEqual_map_spec,
    DeepEqual_ports_spec, DeepEqual_strptr_spec.
  fold (annotations existing) (annotations (updatedService desired existing)). split.
  - intros ((((E1 & E2) & E3) & E4) & E5).
    split; rewrite ?E1, ?E2, ?E3, ?E4, ?E5; done.
  - intros [G1 G2 [np G3] G4 G5]. rewrite Ea, Ha. split_and!; [congruence|congruence| | |].
    + rewrite Es, Hs, Hp, mergeServicePorts_spec, G3. cbn. unfold merged, assigned. cbn.
      destruct (np =? 0)%Z eqn:E; bool_facts; cbn; by subst.
    + destruct (decide (ss_Type (svc_Spec existing) = ServiceTypeLoadBalancer)) as [Hl|Hl].
      * rewrite F4, G4; congruence.
      * symmetry. apply P5. congruence.
    + symmetry. by apply map_subseteq_union.
Qed.
End Service.

(** ** What [ensureControlPlaneService] asks for *)

Definition svc_created (ev : event call) : option Service :=
  match ev with Ev (Create KService s) _ => Some s | _ => None end.
Definition svc_updated (ev : event call) : option Service :=
  match ev with Ev (Update KService s) _ => Some s | _ => None end.

(** Calls on Services that delete nothing. *)
Definition service_call {X} (c : call X) : bool :=
  match c with Get KService _ _ | Create KService _ | Update KService _ => true | _ => false end.
Definition service_trace (t : trace call) : Prop :=
  Forall (λ ev, match ev with Ev c _ => service_call c = true end) t.

Abbreviation get_service ksc x := (Ev (Get KService (serviceKey ksc) Service_zero) x).

(** The API server answers every read of a Service with [s]. *)
Definition service_answers (s : Service) : env call := λ X c,
  match c in call X return X → Prop with
  | Get k _ _ =>
    match k return result (objT k) → Prop with
    | KService => λ x, x = Ok s
    | _ => λ _, True
    end
  | _ => λ _, True
  end.

Section Ensure.
Context {lib : Lib} {S : ServiceLaws} {D : DeepEqualLaws}.

(** A creation follows a read that found nothing, at the name it read; an update, a
    read of the Service it updates. *)
Definition service_write (ksc : KubeSwiftCluster) (cluster : Cluster)
    (pre : trace call) (ev : event call) : Prop :=
  (∀ s, svc_created ev = Some s →
     fronts ksc cluster s ∧
     mkNN (meta_Namespace (svc_ObjectMeta s)) (meta_Name (svc_ObjectMeta s)) = serviceKey ksc ∧
     ∃ e, IsNotFound (Some e) = true ∧ pre = [get_service ksc (Err e)]) ∧
  (∀ s, svc_updated ev = Some s →
     ∃ existing, fronts ksc cluster s ∧ preserves ksc existing s ∧
       ¬ fronts ksc cluster existing ∧ pre = [get_service ksc (Ok existing)]).

(** The Service in hand after it was ensured. *)
Inductive service_ensured (ksc : KubeSwiftCluster) (cluster : Cluster) :
    trace call → Service → Prop :=
  | service_kept s : fronts ksc cluster s →
      service_ensured ksc cluster [get_service ksc (Ok s)] s
  | service_made e desired s : fronts ksc cluster desired →
      service_ensured ksc cluster [get_service ksc (Err e); Ev (Create KService desired) (Ok s)] s
  | service_updated existing u s : fronts ksc cluster u → preserves ksc existing u →
      service_ensured ksc cluster [get_service ksc (Ok existing); Ev (Update KService u) (Ok s)] s.

Lemma ensureControlPlaneService_runs ksc cluster :
  wp any (ensureControlPlaneService ksc cluster) (λ t r,
    service_trace t ∧ at_each (service_write ksc cluster) t ∧
    ∀ svc, r = Ok svc → service_ensured ksc cluster t svc).
Proof.
  unfold ensureControlPlaneService.
  destruct (SetControllerReference _ _) as [desired|err] eqn:Hd; [|step; split_and!; [constructor|done|done]].
  destruct (desired_spec _ _ _ Hd) as (_ & _ & Hkey). rewrite Hkey.
  pose proof (desired_fronts _ _ _ Hd) as Hf.
  step. intros [existing|err] _.
  - pose proof (unchanged_fronts _ _ _ existing Hd) as Hu.
    destruct (updatedService_fronts _ _ _ existing Hd) as [Hf' Hp].
    destruct (unchanged _ _) eqn:E; step.
    + split_and!; [on_events done|by repeat split|].
      intros svc [= <-]. by apply service_kept, Hu.
    + intros x _. step. split_and!; [on_events done| |].
      * unfold at_each, service_write. cbn. split_and!; try (by intros ? [=]); [|done].
        intros s [= <-]. exists existing. split_and!; [done..| |done].
        intros Hx. apply Hu in Hx. congruence.
      * intros svc ->. by apply service_updated.
  - destruct (IsNotFound (Some err)) eqn:E; step.
    + intros x _. step. split_and!; [on_events done| |].
      * unfold at_each, service_write. cbn. split_and!; try (by intros ? [=]); [|done].
        intros s [= <-]. split_and!; [done..|by eexists].
      * intros svc ->. by apply service_made.
    + split_and!; [on_events done|by repeat split|done].
Qed.

(** Whatever the API server answers, [ensureControlPlaneService] creates the
    Service, after it was reported absent, or updates it, after reading one that does not
    front the cluster's guests as configured; either way what it writes does, and an
    update keeps the cluster IP, the NodePort assigned to the API-server port, foreign
    annotations, the rest of the metadata and every field the provider does not own. It
    deletes nothing. *)
Theorem ensureControlPlaneService_writes (ksc : KubeSwiftCluster) (cluster : Cluster) :
  wp any (ensureControlPlaneService ksc cluster) (λ t r,
    service_trace t ∧ at_each (service_write ksc cluster) t).
Proof. eapply wp_mono; [|apply ensureControlPlaneService_runs]. simpl. tauto. Qed.

(** The endpoint Service converges: against a server that returns a Service which
    fronts the cluster's guests - as every Service the provider writes does - the next
    reconcile keeps it and asks for no change. *)
Theorem ensureControlPlaneService_converges
    (ksc : KubeSwiftCluster) (cluster : Cluster) (svc desired : Service) :
  SetControllerReference ksc (buildControlPlaneService ksc cluster) = Ok desired →
  fronts ksc cluster svc →
  wp (service_answers svc) (ensureControlPlaneService ksc cluster) (λ t r,
    r = Ok svc ∧ read_only t).
Proof.
  intros Hd Hf. unfold ensureControlPlaneService. rewrite Hd. step. intros x ->.
  rewrite (proj2 (unchanged_fronts _ _ _ _ Hd) Hf). step.
  split; [done|by repeat constructor].
Qed.
End Ensure.
