(* ===== verification/ServiceMemory.v ===== *)
(** * ServiceMemory: the endpoint Service as it lies in memory

    [buildControlPlaneService] puts the annotations and the load-balancer class of the
    KubeSwiftCluster into the Service by reference, and the update assigns to fields of a
    deep copy. The same code on the memory of [Heap.v], with that sharing, and the proof
    that it computes what [EndpointService.v] says and changes no object that was there. *)

From S2P Require Import Prelude Go Kube Api Lib MachineController EndpointService.
From S2P Require Import Heap HeapFacts HeapCopies HeapLoops GoTypes DeepCopy DeepCopySpec.
From stdpp Require Import fin_maps.

(** A Service: its maps, its ports and its class are pointers. *)
Record memService := mkMemSvc {
  mv_Name : string;
  mv_Namespace : string;
  mv_Labels : mapref;
  mv_Annotations : mapref;
  mv_Finalizers : list string;
  mv_DeletionTimestamp : option Z;
  mv_OwnerReferences : list OwnerReference;
  mv_ResourceVersion : string;
  mv_Type : string;
  mv_Selector : mapref;
  mv_Ports : sl TServicePort;
  mv_ClusterIP : string;
  mv_LoadBalancerClass : ptr TString;
  mv_Rest : gmap string string;
  mv_Ingress : list LoadBalancerIngress
}.

(** Assignments to its fields. *)
Definition mv_set_Annotations (s : memService) (a : mapref) : memService :=
  mkMemSvc (mv_Name s) (mv_Namespace s) (mv_Labels s) a (mv_Finalizers s) (mv_DeletionTimestamp s)
    (mv_OwnerReferences s) (mv_ResourceVersion s) (mv_Type s) (mv_Selector s) (mv_Ports s) (mv_ClusterIP s)
    (mv_LoadBalancerClass s) (mv_Rest s) (mv_Ingress s).
Definition mv_set_OwnerReferences (s : memService) (o : list OwnerReference) : memService :=
  mkMemSvc (mv_Name s) (mv_Namespace s) (mv_Labels s) (mv_Annotations s) (mv_Finalizers s)
    (mv_DeletionTimestamp s) o (mv_ResourceVersion s) (mv_Type s) (mv_Selector s) (mv_Ports s) (mv_ClusterIP s)
    (mv_LoadBalancerClass s) (mv_Rest s) (mv_Ingress s).
Definition mv_set_Class (s : memService) (c : ptr TString) : memService :=
  mkMemSvc (mv_Name s) (mv_Namespace s) (mv_Labels s) (mv_Annotations s) (mv_Finalizers s)
    (mv_DeletionTimestamp s) (mv_OwnerReferences s) (mv_ResourceVersion s) (mv_Type s) (mv_Selector s) (mv_Ports s)
    (mv_ClusterIP s) c (mv_Rest s) (mv_Ingress s).
Definition mv_set_Spec (s : memService) (t : string) (sel : mapref) (p : sl TServicePort) : memService :=
  mkMemSvc (mv_Name s) (mv_Namespace s) (mv_Labels s) (mv_Annotations s) (mv_Finalizers s)
    (mv_DeletionTimestamp s) (mv_OwnerReferences s) (mv_ResourceVersion s) t sel p
    (mv_ClusterIP s) (mv_LoadBalancerClass s) (mv_Rest s) (mv_Ingress s).

Section ServiceMemory.
Context `{FT : ForeignTypes}.

(** ** The code *)

(** [map[string]string{k: v}], [len(m)], [[]corev1.ServicePort{p}], and the elements of a
    slice. *)
Definition map_of (k v : string) : M mapref := m ← make_map; map_assign m k v;; mret m.
Definition map_len (m : mapref) : M nat :=
  match m with None => mret 0%nat | Some l => e ← load (map_at l); mret (size e) end.
Definition ports_of (p : ServicePort) : M (sl TServicePort) :=
  s ← make_slice TServicePort 1; q ← index TServicePort s 0; store q p;; mret s.
Definition slice_elements (s : sl TServicePort) : M (list ServicePort) :=
  match s with
  | None => mret []
  | Some hd => xs ← load (arr_at TServicePort (h_array hd)); mret (window hd xs)
  end.

Definition serviceCfg_mem (spec : memKubeSwiftClusterSpec) : M (ptr TControlPlaneServiceSpec) :=
  match mcs_Endpoint spec with
  | None => mret None
  | Some l => ep ← load (obj_at TControlPlaneEndpointSpec l); mret (me_Service ep)
  end.

Definition controlPlaneServicePort_mem (spec : memKubeSwiftClusterSpec) : M Z :=
  cfg ← serviceCfg_mem spec;
  match cfg with
  | None => mret defaultAPIServerPort
  | Some l => c ← load (obj_at TControlPlaneServiceSpec l);
    mret (if negb (ms_Port c =? 0)%Z then ms_Port c else defaultAPIServerPort)
  end.
Definition controlPlaneServiceType_mem (spec : memKubeSwiftClusterSpec) : M string :=
  cfg ← serviceCfg_mem spec;
  match cfg with
  | None => mret ServiceTypeClusterIP
  | Some l => c ← load (obj_at TControlPlaneServiceSpec l);
    mret (if negb (String.eqb (ms_Type c) "") then ms_Type c else ServiceTypeClusterIP)
  end.

Context {lib : Lib}.

(** The configuration at [l] applied to the Service: the two references are copied. *)
Definition configured (svc : memService) (l : loc) : M memService :=
  c ← load (obj_at TControlPlaneServiceSpec l);
  n ← map_len (ms_Annotations c);
  let svc := if (0 <? n)%nat then mv_set_Annotations svc (ms_Annotations c) else svc in
  mret (if String.eqb (mv_Type svc) ServiceTypeLoadBalancer &&
           match ms_LoadBalancerClass c with Some _ => true | None => false end
        then mv_set_Class svc (ms_LoadBalancerClass c) else svc).

Definition buildControlPlaneService_mem (o : ObjectMeta) (spec : memKubeSwiftClusterSpec)
    (cluster : Cluster) : M memService :=
  let name := meta_Name (clus_ObjectMeta cluster) in
  port ← controlPlaneServicePort_mem spec;
  labels ← map_of ClusterNameLabel name;
  typ ← controlPlaneServiceType_mem spec;
  selector ← map_of ControlPlanePoolLabelKey (ControlPlaneServiceSelectorValue name);
  ports ← ports_of (mkServicePort APIServerPortName port (intstr_FromInt32 port) ProtocolTCP 0);
  let svc := mkMemSvc (meta_Name o +:+ "-cp") (meta_Namespace o) labels None [] None [] "" typ selector
    ports "" None ∅ [] in
  cfg ← serviceCfg_mem spec;
  match cfg with
  | None => mret svc
  | Some l => configured svc l
  end.

(** [copy(out, desired)], the loop over [out], and the function. *)
Definition copy_ports (out : sl TServicePort) (ds : list ServicePort) : M unit :=
  each (seq 0 (len (t := TServicePort) out)) (λ i, q ← index TServicePort out i;
    match ds !! i with Some d => store q d | None => panic end).
Definition carry_over (byName : gmap string Z) (out : sl TServicePort) : M unit :=
  each (seq 0 (len (t := TServicePort) out)) (λ i, q ← index TServicePort out i; p ← load q;
    match byName !! sp_Name p with
    | Some np => if (sp_NodePort p =? 0)%Z then store q (sp_set_NodePort p np) else mret tt
    | None => mret tt
    end).

Definition mergeServicePorts_mem (existing desired : sl TServicePort) : M (sl TServicePort) :=
  ex ← slice_elements existing;
  out ← make_slice TServicePort (len (t := TServicePort) desired);
  ds ← slice_elements desired;
  copy_ports out ds;;
  carry_over (nodePortsByName ex) out;;
  mret out.

(** [corev1.Service]'s own deep copy. *)
Context (Service_DeepCopy : memService → M memService).

(** From [updated := existing.DeepCopy()] to the comparisons. *)
Definition updatedService_mem (desired existing : memService) : M memService :=
  updated ← Service_DeepCopy existing;
  ports ← mergeServicePorts_mem (mv_Ports existing) (mv_Ports desired);
  let updated := mv_set_Spec updated (mv_Type desired) (mv_Selector desired) ports in
  let updated := if String.eqb (mv_Type desired) ServiceTypeLoadBalancer
    then mv_set_Class updated (mv_LoadBalancerClass desired) else updated in
  n ← map_len (mv_Annotations desired);
  if (0 <? n)%nat then
    a ← match mv_Annotations updated with Some l => mret (Some l) | None => make_map end;
    let updated := mv_set_Annotations updated a in
    kvs ← map_range (mv_Annotations desired);
    each kvs (λ '(k, v), map_assign (mv_Annotations updated) k v);; mret updated
  else mret updated.

(** The body of [ensureControlPlaneService] up to the comparisons, where the Service exists;
    [owners] are the references [SetControllerReference] left. *)
Definition desiredAndUpdated_mem (o : ObjectMeta) (spec : memKubeSwiftClusterSpec)
    (cluster : Cluster) (owners : list OwnerReference) (existing : memService) :
    M (memService * memService) :=
  desired ← buildControlPlaneService_mem o spec cluster;
  let desired := mv_set_OwnerReferences desired owners in
  updated ← updatedService_mem desired existing;
  mret (desired, updated).

(** ** What a Service in memory denotes *)

Definition rep_Service : rep memService Service := λ h r v F,
  let o := svc_ObjectMeta v in let s := svc_Spec v in
  ∃ ps F1 F2 F3 F4 F5,
    mv_Name r = meta_Name o ∧ mv_Namespace r = meta_Namespace o ∧
    rep_map h (mv_Labels r) (meta_Labels o) F1 ∧
    rep_map h (mv_Annotations r) (meta_Annotations o) F2 ∧
    mv_Finalizers r = meta_Finalizers o ∧ mv_DeletionTimestamp r = meta_DeletionTimestamp o ∧
    mv_OwnerReferences r = meta_OwnerReferences o ∧ mv_ResourceVersion r = meta_ResourceVersion o ∧
    mv_Type r = ss_Type s ∧ rep_map h (mv_Selector r) (ss_Selector s) F3 ∧
    rep_slice TServicePort rep_plain h (mv_Ports r) ps F4 ∧ ss_Ports s = elems ps ∧
    mv_ClusterIP r = ss_ClusterIP s ∧
    rep_ptr TString rep_plain h (mv_LoadBalancerClass r) (ss_LoadBalancerClass s) F5 ∧
    mv_Rest r = ss_Rest s ∧ mv_Ingress r = svc_Status_Ingress v ∧
    F = F1 ∪ F2 ∪ F3 ∪ F4 ∪ F5.

#[export] Instance framed_Service : Framed rep_Service.
Proof. unfold rep_Service. framed_struct. Qed.

(** ** Running the pieces *)

Lemma foldl_insert_onto (e m : gmap string string) :
  foldl (λ m kv, <[kv.1 := kv.2]> m) m (map_order e) = e ∪ m.
Proof.
  rewrite <- (foldl_insert_range e) at 2. generalize (map_order e). intros l.
  induction l as [|kv l IH] using rev_ind; [simpl; by rewrite (left_id_L ∅ (∪))|].
  rewrite !foldl_app, IH. simpl. by rewrite insert_union_l.
Qed.

(** [m[k] = v] for a list of pairs, on a map that is not of the memory [h0]. *)
Lemma fill_map kvs l h m :
  h !! l = Some (Map m) →
  ∃ h', each kvs (λ '(k, v), map_assign (Some l) k v) h = Some (h', tt) ∧ only_at l h h' ∧
    h' !! l = Some (Map (foldl (λ m kv, <[kv.1 := kv.2]> m) m kvs)).
Proof.
  revert h m. induction kvs as [|[k v] kvs IH]; intros h m Hm; simpl.
  { exists h. split_and!; [done|by apply extends_only_at|done]. }
  destruct (store_run (map_at l) h m (<[k := v]> m)) as (h1 & Hs & [O (c & Hc & Hc1)] & _);
    [by apply holds_map|].
  assert (map_assign (Some l) k v h = Some (h1, tt)) as Hrun.
  { unfold map_assign. mrun (deref_run l h). by mrun (load_run (map_at l) h m ltac:(by apply holds_map)). }
  mrun Hrun. simpl in *. assert (c = Map m) as -> by congruence.
  destruct (IH h1 (<[k := v]> m)) as (h2 & Hr & O2 & H2); [done|].
  exists h2. split_and!; [done|by eapply only_at_trans|done].
Qed.

Lemma map_of_run k v h :
  ∃ h' l, map_of k v h = Some (h', Some l) ∧ h ⊆ h' ∧ h' !! l = Some (Map {[k := v]}) ∧ l ∉ dom h.
Proof.
  destruct (make_map_run h) as (l & h1 & Hm & Hl & He & Hz). unfold map_of. mrun Hm.
  destruct (fill_map [(k, v)] l h1 ∅ Hz) as (h2 & Hr & O & H2). simpl in Hr.
  destruct (map_assign (Some l) k v h1) as [[h2' []]|] eqn:Ea;
    [|unfold mbind, M_bind in Hr; rewrite Ea in Hr; discriminate Hr].
  mrun Ea. unfold mbind, M_bind in Hr. rewrite Ea in Hr. injection Hr as ->.
  exists h2, l. split_and!; [done|by eapply only_at_extends|simpl in H2; by rewrite H2, insert_empty|done].
Qed.

Lemma map_len_run m (g : gomap string) F h :
  rep_map h m g F → map_len m h = Some (h, size (entries g)).
Proof.
  destruct m as [l|], g as [e|]; simpl; try done.
  intros [Hl _]. by mrun (load_run (map_at l) h e ltac:(by apply holds_map)).
Qed.

Lemma map_range_run l e h : h !! l = Some (Map e) → map_range (Some l) h = Some (h, map_order e).
Proof. intros Hl. unfold map_range. by mrun (load_run (map_at l) h e ltac:(by apply holds_map)). Qed.

Lemma rep_elems_plain {A} h (rs vs : list A) F : rep_elems rep_plain h rs vs F ↔ rs = vs ∧ F = ∅.
Proof.
  revert vs F. induction rs as [|r rs IH]; intros [|v vs] F; simpl; split; try done; try (by intros [? ?]).
  - intros (F1 & F2 & [-> ->] & [-> ->]%IH & ->). split; [done|set_solver].
  - intros [[= -> ->] ->]. exists ∅, ∅. split_and!; [done|by apply IH|set_solver].
Qed.

Lemma slice_elements_run s ps F h :
  rep_slice TServicePort rep_plain h s ps F →
  slice_elements s h = Some (h, elems ps) ∧ length (elems ps) = len (t := TServicePort) s.
Proof.
  destruct s as [hd|], ps as [vs|]; simpl; try done.
  intros (xs & F' & Hl & Hn & [Hw _]%rep_elems_plain & _). simpl in Hw.
  mrun (load_run (arr_at TServicePort (h_array hd)) h xs ltac:(by apply holds_arr)).
  rewrite Hw. split; [done|]. rewrite <- Hw. by apply window_length.
Qed.

(** The two loops. *)
Lemma copy_ports_run l n h (ds : list (@den provider_types TServicePort)) :
  length ds = n → h !! l = Some (@Arr provider_types TServicePort (replicate n (@zero provider_types TServicePort))) →
  ∃ h', copy_ports (Some (mkHeader l 0 n)) ds h = Some (h', tt) ∧ only_at l h h' ∧
    h' !! l = Some (@Arr provider_types TServicePort ds).
Proof.
  intros Hdl Hz. unfold copy_ports. cbn [len h_len].
  destruct (@each_element provider_types TServicePort (λ i, q ← @index provider_types TServicePort (Some (mkHeader l 0 n)) i;
    match ds !! i with Some d => store q d | None => panic end) (λ i x, default x (ds !! i)) l n 0 n h _ Hz)
    as (h2 & ys & Hr2 & O2 & Hl2 & Hlen2 & Hi2); [apply length_replicate|done| |].
  { intros h' xs i x Hx Hxl Hxi. pose proof (lookup_lt_Some _ _ _ Hxi) as Hlt.
    destruct (lookup_lt_is_Some_2 ds i) as [d Hdi]; [rewrite Hdl; lia|].
    destruct (@store_element provider_types TServicePort l n h' xs i d x Hx Hxi ltac:(lia)) as (Hix & _ & h'' & Hs & O & Hw).
    exists h''. mrun Hix. rewrite Hdi. by split_and!. }
  assert (ys = ds) as ->; [|exists h2; by split_and!].
  apply list_eq. intros i. destruct (decide (i < n)%nat) as [Hlt|Hge].
  - rewrite (Hi2 i _ (lookup_replicate_2 _ _ _ Hlt)), decide_True by lia.
    destruct (lookup_lt_is_Some_2 ds i) as [d ->]; [rewrite Hdl; lia|done].
  - rewrite !lookup_ge_None_2; [done|rewrite Hdl; lia|lia].
Qed.

Lemma carry_over_run byName l n h (ds : list (@den provider_types TServicePort)) :
  length ds = n → h !! l = Some (@Arr provider_types TServicePort ds) →
  ∃ h', carry_over byName (Some (mkHeader l 0 n)) h = Some (h', tt) ∧ only_at l h h' ∧
    h' !! l = Some (@Arr provider_types TServicePort (map (λ p, match byName !! sp_Name p with
      | Some np => if (sp_NodePort p =? 0)%Z then sp_set_NodePort p np else p | None => p end) ds)).
Proof.
  intros Hdl Hl. unfold carry_over. cbn [len h_len]. set (f := λ p : ServicePort, match _ with Some _ => _ | None => p end).
  destruct (@each_element provider_types TServicePort (λ i, q ← @index provider_types TServicePort (Some (mkHeader l 0 n)) i; p ← load q;
    match byName !! sp_Name p with
    | Some np => if (sp_NodePort p =? 0)%Z then store q (sp_set_NodePort p np) else mret tt
    | None => mret tt end) (λ i, f) l n 0 n h ds Hl)
    as (h3 & zs & Hr3 & O3 & Hl3 & Hlen3 & Hi3); [exact Hdl|done| |].
  { intros h' xs i x Hx Hxl Hxi. pose proof (lookup_lt_Some _ _ _ Hxi) as Hlt.
    destruct (@store_element provider_types TServicePort l n h' xs i (f x) x Hx Hxi ltac:(lia)) as (Hix & Hlo & h'' & Hs & O & Hw).
    assert (f x = x → ∃ h'0, Some (h', tt) = Some (h'0, tt) ∧ only_at l h' h'0 ∧
      h'0 !! l = Some (@Arr provider_types TServicePort (<[i := f x]> xs))) as Hsame.
    { intros ->. exists h'. split_and!; [done|by apply extends_only_at|by rewrite list_insert_id]. }
    mrun Hix. mrun Hlo. unfold f in *. destruct (byName !! sp_Name x) as [np|]; [|by apply Hsame].
    destruct (sp_NodePort x =? 0)%Z; [exists h''; by split_and!|by apply Hsame]. }
  assert (zs = map f ds) as <-; [|exists h3; by split_and!].
  apply list_eq. intros i. destruct (ds !! i) as [d|] eqn:Hdi.
  - pose proof (lookup_lt_Some _ _ _ Hdi). rewrite (Hi3 i d Hdi), decide_True by lia.
    symmetry. change (map f ds) with (f <$> ds). apply list_lookup_fmap_Some. by exists d.
  - apply lookup_ge_None in Hdi as Hge. rewrite !lookup_ge_None_2;
      [done|rewrite length_map; exact Hge|rewrite Hlen3, <- Hdl; exact Hge].
Qed.

Lemma mergeServicePorts_run ex des pe pd Fe Fd h :
  rep_slice TServicePort rep_plain h ex pe Fe → rep_slice TServicePort rep_plain h des pd Fd →
  ∃ h' s F, mergeServicePorts_mem ex des h = Some (h', s) ∧ h ⊆ h' ∧
    rep_slice TServicePort rep_plain h' s (Some (mergeServicePorts (elems pe) (elems pd))) F.
Proof.
  intros He Hd. destruct (slice_elements_run _ _ _ _ He) as [Hee _].
  destruct (slice_elements_run _ _ _ _ Hd) as [_ Hdl]. unfold mergeServicePorts_mem. mrun Hee.
  set (n := @len provider_types TServicePort des) in *. set (ds := elems pd) in *.
  destruct (@make_slice_run provider_types TServicePort n h) as (l & h1 & Hm & Hl & He1 & Hz). mrun Hm.
  apply (framed_extends _ h h1) in Hd as Hd1; [|done].
  destruct (slice_elements_run _ _ _ _ Hd1) as [Hde _]. mrun Hde.
  destruct (copy_ports_run l n h1 ds Hdl Hz) as (h2 & Hr2 & O2 & Hl2). mrun Hr2.
  destruct (carry_over_run (nodePortsByName (elems pe)) l n h2 ds Hdl Hl2) as (h3 & Hr3 & O3 & Hl3). mrun Hr3.
  exists h3, (Some (mkHeader l 0 n)), ({[l]} ∪ ∅). split_and!; [done| |].
  { eapply only_at_extends; [exact He1|exact Hl|by eapply only_at_trans]. }
  lazymatch type of Hl3 with _ = Some (Arr _ ?m) => set (ms := m) in * end.
  assert (n = length ms) as Hn by (unfold ms; rewrite length_map; by symmetry).
  exists ms, ∅. split_and!; [done|exact (Nat.eq_le_incl _ _ Hn)| |done].
  apply rep_elems_plain. split; [|done]. rewrite Hn. by rewrite window_whole.
Qed.

(** ** The Service that is built *)

Lemma ports_of_run p h :
  ∃ h' s F, ports_of p h = Some (h', s) ∧ h ⊆ h' ∧ rep_slice TServicePort rep_plain h' s (Some [p]) F.
Proof.
  destruct (@make_slice_run provider_types TServicePort 1 h) as (l & h1 & Hm & Hl & He & Hz). unfold ports_of. mrun Hm.
  destruct (@store_element provider_types TServicePort l 1 h1 _ 0 p (@zero provider_types TServicePort) Hz eq_refl ltac:(lia))
    as (Hix & _ & h2 & Hs & O & Hw). mrun Hix. mrun Hs.
  eexists h2, _, ({[l]} ∪ ∅). split; [reflexivity|]. split; [by eapply only_at_extends|].
  exists [p], ∅. split_and!; [exact Hw|done| |done]. by apply rep_elems_plain.
Qed.

Lemma serviceCfg_run ksc spec F h :
  rep_KubeSwiftClusterSpec h spec (ksc_Spec ksc) F →
  ∃ p F', serviceCfg_mem spec h = Some (h, p) ∧
    rep_ptr TControlPlaneServiceSpec rep_ControlPlaneServiceSpec h p (serviceCfg ksc) F' ∧ F' ⊆ F.
Proof.
  intros (F1 & F2 & _ & _ & He & ->). unfold serviceCfg_mem, serviceCfg.
  destruct (mcs_Endpoint spec) as [l|], (kscSpec_Endpoint (ksc_Spec ksc)) as [ep|]; try done.
  - destruct He as (x & F' & Hl & [_ Hx] & ->).
    mrun (load_run (obj_at TControlPlaneEndpointSpec l) h x ltac:(by apply holds_obj)).
    exists (me_Service x), F'. split_and!; [done|done|set_solver].
  - exists None, ∅. split_and!; [done|done|set_solver].
Qed.

(** The configuration, loaded. *)
Lemma cfg_load l cfg F h :
  rep_ptr TControlPlaneServiceSpec rep_ControlPlaneServiceSpec h (Some l) (Some cfg) F →
  ∃ x F1 F2, load (obj_at TControlPlaneServiceSpec l) h = Some (h, x) ∧
    ms_Type x = cps_Type cfg ∧ ms_Port x = cps_Port cfg ∧
    rep_map h (ms_Annotations x) (cps_Annotations cfg) F1 ∧
    rep_ptr TString rep_plain h (ms_LoadBalancerClass x) (cps_LoadBalancerClass cfg) F2 ∧
    F1 ⊆ F ∧ F2 ⊆ F.
Proof.
  intros (x & F' & Hl & (F1 & F2 & Ht & Hp & Ha & Hc & ->) & ->).
  exists x, F1, F2. split; [apply load_run; by apply holds_obj|]. split_and!; try done; set_solver.
Qed.

Lemma port_run ksc spec F h :
  rep_KubeSwiftClusterSpec h spec (ksc_Spec ksc) F →
  controlPlaneServicePort_mem spec h = Some (h, controlPlaneServicePort ksc).
Proof.
  intros Hk. destruct (serviceCfg_run ksc spec F h Hk) as (p & F' & Hr & Hp & _).
  unfold controlPlaneServicePort_mem, controlPlaneServicePort. mrun Hr.
  destruct p as [l|], (serviceCfg ksc) as [cfg|]; try done.
  destruct (cfg_load l cfg F' h Hp) as (x & _ & _ & Hl & _ & Hport & _). mrun Hl. by rewrite Hport.
Qed.

Lemma type_run ksc spec F h :
  rep_KubeSwiftClusterSpec h spec (ksc_Spec ksc) F →
  controlPlaneServiceType_mem spec h = Some (h, controlPlaneServiceType ksc).
Proof.
  intros Hk. destruct (serviceCfg_run ksc spec F h Hk) as (p & F' & Hr & Hp & _).
  unfold controlPlaneServiceType_mem, controlPlaneServiceType. mrun Hr.
  destruct p as [l|], (serviceCfg ksc) as [cfg|]; try done.
  destruct (cfg_load l cfg F' h Hp) as (x & _ & _ & Hl & Ht & _). mrun Hl. by rewrite Ht.
Qed.

(** Cells of the configuration that the Service refers to. *)
Definition shares (svc : memService) (F : gset loc) : Prop :=
  (∀ l, mv_Annotations svc = Some l → l ∈ F) ∧ (∀ l, mv_LoadBalancerClass svc = Some l → l ∈ F).

Lemma rep_set_Annotations h r v F a w Fa :
  rep_Service h r v F → rep_map h a w Fa →
  ∃ F', rep_Service h (mv_set_Annotations r a) (svc_set_Annotations v w) F'.
Proof.
  intros (ps & F1 & F2 & F3 & F4 & F5 & H) Ha. destruct_and! H. eexists.
  exists ps, F1, Fa, F3, F4, F5. by split_and!.
Qed.

Lemma rep_set_Class h r v F c w Fc :
  rep_Service h r v F → rep_ptr TString rep_plain h c w Fc →
  ∃ F', rep_Service h (mv_set_Class r c) (svc_set_Spec v (ss_set_LoadBalancerClass (svc_Spec v) w)) F'.
Proof.
  intros (ps & F1 & F2 & F3 & F4 & F5 & H) Ha. destruct_and! H. eexists.
  exists ps, F1, F2, F3, F4, Fc. by split_and!.
Qed.

Lemma rep_set_Spec h r v F sel sel' Fs p qs Fp t :
  rep_Service h r v F → rep_map h sel sel' Fs → rep_slice TServicePort rep_plain h p (Some qs) Fp →
  let s := svc_Spec v in
  ∃ F', rep_Service h (mv_set_Spec r t sel p)
    (svc_set_Spec v (mkServiceSpec t sel' qs (ss_ClusterIP s) (ss_LoadBalancerClass s) (ss_Rest s))) F'.
Proof.
  intros (ps & F1 & F2 & F3 & F4 & F5 & H) Hs Hp. destruct_and! H. simpl. eexists.
  exists (Some qs), F1, F2, Fs, Fp, F5. by split_and!.
Qed.

(** What is read of a Service. *)
Lemma rep_parts h r v F :
  rep_Service h r v F →
  mv_Type r = ss_Type (svc_Spec v) ∧
  (∃ F1, rep_map h (mv_Labels r) (meta_Labels (svc_ObjectMeta v)) F1) ∧
  (∃ F2, rep_map h (mv_Annotations r) (meta_Annotations (svc_ObjectMeta v)) F2) ∧
  (∃ F3, rep_map h (mv_Selector r) (ss_Selector (svc_Spec v)) F3) ∧
  (∃ ps F4, rep_slice TServicePort rep_plain h (mv_Ports r) ps F4 ∧ ss_Ports (svc_Spec v) = elems ps) ∧
  ∃ F5, rep_ptr TString rep_plain h (mv_LoadBalancerClass r) (ss_LoadBalancerClass (svc_Spec v)) F5.
Proof.
  intros (ps & F1 & F2 & F3 & F4 & F5 & H). destruct_and! H. split_and!; eauto.
Qed.

Lemma configured_run l cfg Fc F h svcm svc F0 :
  rep_ptr TControlPlaneServiceSpec rep_ControlPlaneServiceSpec h (Some l) (Some cfg) Fc → Fc ⊆ F →
  rep_Service h svcm svc F0 → shares svcm F →
  ∃ r F', configured svcm l h = Some (h, r) ∧ shares r F ∧
    rep_Service h r
      (let svc := if (0 <? size (entries (cps_Annotations cfg)))%nat
         then svc_set_Annotations svc (cps_Annotations cfg) else svc in
       if String.eqb (ss_Type (svc_Spec svc)) ServiceTypeLoadBalancer &&
          match cps_LoadBalancerClass cfg with Some _ => true | None => false end
       then svc_set_Spec svc (ss_set_LoadBalancerClass (svc_Spec svc) (cps_LoadBalancerClass cfg))
       else svc) F'.
Proof.
  intros Rc Sc R0 [Sh0 Sh0'].
  destruct (cfg_load l cfg Fc h Rc) as (x & Fa & Fl & Hl & _ & _ & Ra & Rl & Sa & Sl).
  unfold configured. mrun Hl. mrun (map_len_run _ _ _ _ Ra).
  assert (∀ k, ms_Annotations x = Some k → k ∈ F) as Ka.
  { intros k Hk'. rewrite Hk' in Ra. destruct (cps_Annotations cfg); [|done]. destruct Ra as [_ ->]. set_solver. }
  assert (∀ k, ms_LoadBalancerClass x = Some k → k ∈ F) as Kl.
  { intros k Hk'. rewrite Hk' in Rl. destruct (cps_LoadBalancerClass cfg); [|done].
    destruct Rl as (? & ? & _ & _ & ->). set_solver. }
  set (many := (0 <? size (entries (cps_Annotations cfg)))%nat). cbv zeta.
  set (svcm1 := if many then _ else svcm). set (svc1 := if many then _ else svc).
  assert (∃ F', rep_Service h svcm1 svc1 F') as [F1 R1].
  { subst svcm1 svc1. destruct many; [by eapply rep_set_Annotations|by exists F0]. }
  assert (shares svcm1 F) as Hsh by (subst svcm1; destruct many; split; simpl; done).
  destruct (rep_parts _ _ _ _ R1) as [-> _]. clearbody svcm1 svc1.
  destruct (String.eqb _ ServiceTypeLoadBalancer); cbn [andb]; [|by exists svcm1, F1].
  destruct (ms_LoadBalancerClass x) as [lc|] eqn:Ex, (cps_LoadBalancerClass cfg) as [c|] eqn:Ec; try done;
    [|by exists svcm1, F1].
  destruct (rep_set_Class _ _ _ _ _ _ _ R1 Rl) as [F2 R2].
  eexists _, F2. split; [done|]. split; [|done]. split; [apply Hsh|done].
Qed.

Lemma build_run ksc cluster spec F h :
  rep_KubeSwiftClusterSpec h spec (ksc_Spec ksc) F →
  ∃ h' svc F', buildControlPlaneService_mem (ksc_ObjectMeta ksc) spec cluster h = Some (h', svc) ∧
    h ⊆ h' ∧ rep_Service h' svc (buildControlPlaneService ksc cluster) F' ∧ shares svc F.
Proof.
  intros Hk. unfold buildControlPlaneService_mem. mrun (port_run ksc spec F h Hk).
  set (name := meta_Name (clus_ObjectMeta cluster)).
  destruct (map_of_run ClusterNameLabel name h) as (h1 & ll & H1 & E1 & L1 & _). mrun H1.
  mrun (type_run ksc spec F h1 (framed_extends _ _ _ _ _ _ Hk E1)).
  destruct (map_of_run ControlPlanePoolLabelKey (ControlPlaneServiceSelectorValue name) h1)
    as (h2 & ls & H2 & E2 & L2 & _). mrun H2.
  set (p0 := mkServicePort _ _ _ _ _).
  destruct (ports_of_run p0 h2) as (h3 & sp & Fp & H3 & E3 & Rp). mrun H3.
  assert (h ⊆ h3) as E by (do 2 (etrans; [eassumption|]); done).
  destruct (serviceCfg_run ksc spec F h3 (framed_extends _ _ _ _ _ _ Hk E)) as (p & Fc & Hc & Rc & Sc).
  mrun Hc. unfold buildControlPlaneService. fold name.
  lazymatch goal with |- context [match p with None => mret ?v | Some _ => _ end] => set (svcm := v) end.
  pose proof (lookup_weaken _ _ _ _ (lookup_weaken _ _ _ _ L1 E2) E3) as L1'.
  pose proof (lookup_weaken _ _ _ _ L2 E3) as L2'. cbv zeta.
  lazymatch goal with |- context [match serviceCfg ksc with None => ?v | Some _ => _ end] => set (svc := v) end.
  assert (∃ F', rep_Service h3 svcm svc F') as [F0 R0].
  { eexists. exists (Some [p0]), {[ll]}, ∅, {[ls]}, Fp, ∅. by split_and!. }
  assert (shares svcm F) as Hsh by done.
  destruct p as [l|], (serviceCfg ksc) as [cfg|]; try done; [|by exists h3, svcm, F0].
  destruct (configured_run l cfg Fc F h3 svcm svc F0 Rc Sc R0 Hsh) as (r & F' & Hr & Shr & Rr).
  by exists h3, r, F'.
Qed.

(** ** The Service that is updated *)

(** What the code relies on: the copy is new, and its two maps are two. *)
Definition copies_services : Prop :=
  ∀ h s v F, rep_Service h s v F →
    ∃ h' s' F', Service_DeepCopy s h = Some (h', s') ∧ h ⊆ h' ∧ rep_Service h' s' v F' ∧
      F' ## dom h ∧ ∀ l, mv_Annotations s' = Some l → mv_Labels s' ≠ Some l.

Lemma rep_Annotations h r v F l :
  rep_Service h r v F → mv_Annotations r = Some l →
  l ∈ F ∧ ∃ m, h !! l = Some (Map m) ∧ meta_Annotations (svc_ObjectMeta v) = Some m.
Proof.
  intros (ps & F1 & F2 & F3 & F4 & F5 & H) Hl. destruct_and! H. subst.
  lazymatch goal with H : rep_map h (mv_Annotations r) _ _ |- _ => rewrite Hl in H; rename H into Ha end.
  destruct (meta_Annotations _) as [m|]; [|done]. destruct Ha as [Ha ->]. split; [set_solver|by exists m].
Qed.

Lemma rep_map_off h h' l m w F : rep_map h m w F → only_at l h h' → m ≠ Some l → rep_map h' m w F.
Proof.
  destruct m as [k|], w as [e|]; simpl; try done. intros [Hk ->] [_ O] Hne. split; [|done].
  rewrite O; [done|by apply elem_of_dom|congruence].
Qed.

(** The cell of a map is no array and no variable. *)
Lemma map_not_array (t : ty) (s : sl t) ps F h l m :
  rep_slice t rep_plain h s ps F → h !! l = Some (Map m) → l ∉ F.
Proof.
  destruct s as [hd|], ps as [vs|]; simpl; try done; [|set_solver].
  intros (xs & F' & Ha & _ & [_ ->]%rep_elems_plain & ->) Hl Hin.
  assert (l = h_array hd) as -> by set_solver. congruence.
Qed.

Lemma map_not_variable (t : ty) (p : ptr t) w F h l m :
  rep_ptr t rep_plain h p w F → h !! l = Some (Map m) → l ∉ F.
Proof.
  destruct p as [k|], w as [c|]; simpl; try done; [|set_solver].
  intros (x & F' & Hk & [_ ->] & ->) Hl Hin. assert (l = k) as -> by set_solver. congruence.
Qed.

(** A write to the map of the annotations leaves the rest of the Service as it is. *)
Lemma rep_annotated h h' u v F l m m' :
  rep_Service h u v F → h !! l = Some (Map m) → mv_Labels u ≠ Some l → mv_Selector u ≠ Some l →
  only_at l h h' → h' !! l = Some (Map m') →
  ∃ F', rep_Service h' (mv_set_Annotations u (Some l)) (svc_set_Annotations v (Some m')) F'.
Proof.
  intros (ps & F1 & F2 & F3 & F4 & F5 & H) Hl Hlab Hsel O Hl'. destruct_and! H. eexists.
  exists ps, F1, {[l]}, F3, F4, F5.
  assert (rep_slice TServicePort rep_plain h' (mv_Ports u) ps F4).
  { eapply (framed_off _ l h); [eassumption|exact O|]. by eapply map_not_array. }
  assert (rep_ptr TString rep_plain h' (mv_LoadBalancerClass u) (ss_LoadBalancerClass (svc_Spec v)) F5).
  { eapply (framed_off _ l h); [eassumption|exact O|]. by eapply map_not_variable. }
  split_and!; try done; by eapply rep_map_off.
Qed.

Lemma rep_map_dom h m w F l : rep_map h m w F → m = Some l → l ∈ dom h.
Proof. intros H ->. destruct w; [|done]. destruct H as [H _]. apply elem_of_dom. by eexists. Qed.

(** The map the annotations go to: the one of the copy, or a new one. *)
Definition annotations_of (u : memService) : M mapref :=
  match mv_Annotations u with Some l => mret (Some l) | None => make_map end.

Lemma annotations_run h u v F h0 :
  rep_Service h u v F → h0 ⊆ h → (∀ l, mv_Annotations u = Some l → l ∉ dom h0) →
  (∀ l, mv_Annotations u = Some l → mv_Labels u ≠ Some l ∧ mv_Selector u ≠ Some l) →
  ∃ h' l, annotations_of u h = Some (h', Some l) ∧ h ⊆ h' ∧ (l ∉ dom h0) ∧
    mv_Labels u ≠ Some l ∧ mv_Selector u ≠ Some l ∧
    h' !! l = Some (Map (entries (meta_Annotations (svc_ObjectMeta v)))).
Proof.
  intros Hr H0 Hnew Hne. destruct (rep_parts _ _ _ _ Hr) as (_ & [F1 R1] & [F2 R2] & [F3 R3] & _).
  unfold annotations_of. destruct (mv_Annotations u) as [l|], (meta_Annotations _) as [m|]; try done.
  - destruct (Hne l eq_refl), R2. exists h, l. split_and!; auto.
  - destruct (make_map_run h) as (l & h' & Hm & Hl & Hh & Hz). exists h', l.
    pose proof (subseteq_dom _ _ H0).
    split_and!; try done; [set_solver|intros Hx; exact (Hl (rep_map_dom _ _ _ _ _ R1 Hx))|intros Hx; exact (Hl (rep_map_dom _ _ _ _ _ R3 Hx))].
Qed.

(** The loop that copies the configured annotations over. *)
Lemma annotate_run h h0 u v F d m :
  rep_Service h u v F → h0 ⊆ h → (∀ l, mv_Annotations u = Some l → l ∉ dom h0) →
  (∀ l, mv_Annotations u = Some l → mv_Labels u ≠ Some l ∧ mv_Selector u ≠ Some l) →
  h0 !! d = Some (Map m) →
  ∃ h' u' F', (a ← annotations_of u;
      let updated := mv_set_Annotations u a in
      kvs ← map_range (Some d);
      each kvs (λ '(k, v), map_assign (mv_Annotations updated) k v);; mret updated) h = Some (h', u') ∧
    h0 ⊆ h' ∧ (∀ l, mv_Annotations u' = Some l → l ∉ dom h0) ∧
    rep_Service h' u' (svc_set_Annotations v
      (Some (gocopy m (entries (meta_Annotations (svc_ObjectMeta v)))))) F'.
Proof.
  intros Hr H0 Hnew Hne Hd.
  destruct (annotations_run h u v F h0 Hr H0 Hnew Hne) as (h1 & l & Ha & E1 & Hl & Nl & Ns & Hm).
  mrun Ha. assert (h0 ⊆ h1) as E by (by etrans). cbv zeta.
  mrun (map_range_run d m h1 (lookup_weaken _ _ _ _ Hd E)).
  destruct (fill_map (map_order m) l h1 _ Hm) as (h2 & Hf & O & H2).
  mrun Hf. rewrite foldl_insert_onto in H2.
  destruct (rep_annotated h1 h2 u v F l _ _ (framed_extends _ _ _ _ _ _ Hr E1) Hm Nl Ns O H2) as [F' R'].
  eexists h2, _, F'. split_and!; [done|by eapply only_at_extends|by intros ? [= <-]|done].
Qed.

Lemma update_run d dv Fd e ev Fe h :
  copies_services → rep_Service h d dv Fd → rep_Service h e ev Fe →
  ∃ h' u F, updatedService_mem d e h = Some (h', u) ∧ h ⊆ h' ∧
    (∀ l, mv_Annotations u = Some l → l ∉ dom h) ∧ rep_Service h' u (updatedService dv ev) F.
Proof.
  intros HC Hd He. unfold updatedService_mem.
  destruct (HC h e ev Fe He) as (h1 & u0 & F0 & H1 & E1 & R0 & Hdis & Hlab). mrun H1.
  destruct (rep_parts _ _ _ _ He) as (_ & _ & _ & _ & (pe & Fpe & Rpe & Epe) & _).
  destruct (rep_parts _ _ _ _ Hd) as (Td & _ & [F2 R2] & [F3 R3] & (pd & Fpd & Rpd & Epd) & [F5 R5]).
  destruct (mergeServicePorts_run (mv_Ports e) (mv_Ports d) pe pd Fpe Fpd h1) as (h2 & s & Fs & Hm & E2 & Rs);
    [exact (framed_extends _ _ _ _ _ _ Rpe E1)|exact (framed_extends _ _ _ _ _ _ Rpd E1)|]. mrun Hm. assert (h ⊆ h2) as E by (by etrans).
  pose proof (framed_extends _ _ _ _ _ _ R3 E) as R3'. pose proof (framed_extends _ _ _ _ _ _ R5 E) as R5'.
  destruct (rep_set_Spec h2 u0 ev F0 _ _ _ s _ Fs (mv_Type d) (framed_extends _ _ _ _ _ _ R0 E2) R3' Rs)
    as [G1 RG1]. cbv zeta in RG1 |- *.
  set (u1 := mv_set_Spec u0 _ _ _) in *.
  set (u2 := if String.eqb (mv_Type d) ServiceTypeLoadBalancer then _ else u1).
  mrun (map_len_run _ _ _ _ (framed_extends _ _ _ _ _ _ R2 E)).
  unfold updatedService. rewrite <- Epe, <- Epd, <- Td in *.
  match goal with H : rep_Service h2 u1 ?v _ |- _ => set (v1 := v) in * end.
  lazymatch goal with |- context [svc_set_Annotations ?v (Some (gocopy _ _))] => set (v2 := v) in * end.
  assert (∃ G, rep_Service h2 u2 v2 G) as [G2 RG2].
  { subst u2 v2. destruct (String.eqb _ _); [by eapply (rep_set_Class _ u1 v1)|by exists G1]. }
  assert (mv_Annotations u2 = mv_Annotations u0 ∧ mv_Labels u2 = mv_Labels u0 ∧ mv_Selector u2 = mv_Selector d)
    as (Ua & Ul & Us) by (subst u2; by destruct (String.eqb _ _)).
  assert (∀ l, mv_Annotations u2 = Some l → l ∉ dom h) as Hnew.
  { rewrite Ua. intros l Hl. destruct (rep_Annotations _ _ _ _ _ R0 Hl) as [Hin _]. set_solver. }
  destruct (0 <? size _)%nat eqn:Hsize; [|by exists h2, u2, G2].
  destruct (mv_Annotations d) as [a|], (meta_Annotations (svc_ObjectMeta dv)) as [m|]; try done.
  destruct R2 as [R2 _]. change (svc_ObjectMeta ev) with (svc_ObjectMeta v2).
  clearbody u2 v2. eapply (annotate_run h2 h u2 v2 G2 a m); try done.
  rewrite Ul, Us. intros l Hl. split; [apply Hlab; by rewrite <- Ua|].
  intros Hsel. exact (Hnew l Hl (rep_map_dom _ _ _ _ _ R3 Hsel)).
Qed.

Lemma rep_set_OwnerReferences h r v v' F :
  rep_Service h r v F → svc_Spec v' = svc_Spec v → svc_Status_Ingress v' = svc_Status_Ingress v →
  svc_ObjectMeta v' =
    meta_set_OwnerReferences (svc_ObjectMeta v) (meta_OwnerReferences (svc_ObjectMeta v')) →
  rep_Service h (mv_set_OwnerReferences r (meta_OwnerReferences (svc_ObjectMeta v'))) v' F.
Proof.
  intros (ps & F1 & F2 & F3 & F4 & F5 & H) Hs Hi Hm. destruct_and! H.
  exists ps, F1, F2, F3, F4, F5. rewrite Hs, Hi, Hm. by split_and!.
Qed.

(** C20: Building the endpoint Service and merging it over the existing one computes the same
    two Services as the functional model, and writes to no object that was there before:
    neither the KubeSwiftCluster, whose annotations and class the desired Service shares,
    nor the existing Service, nor, in merging the ports and annotations, the desired one. *)
Theorem service_update_isolated `{!ServiceLaws} ksc cluster desired spec F existing e Fe h :
  copies_services →
  SetControllerReference ksc (buildControlPlaneService ksc cluster) = Ok desired →
  rep_KubeSwiftClusterSpec h spec (ksc_Spec ksc) F →
  rep_Service h existing e Fe →
  ∃ h' d u Fd Fu,
    desiredAndUpdated_mem (ksc_ObjectMeta ksc) spec cluster
      (meta_OwnerReferences (svc_ObjectMeta desired)) existing h = Some (h', (d, u)) ∧
    h ⊆ h' ∧
    rep_Service h' d desired Fd ∧ shares d F ∧
    rep_Service h' u (updatedService desired e) Fu ∧
    (∀ l, mv_Annotations u = Some l → (l ∉ dom h) ∧ mv_Annotations d ≠ Some l) ∧
    rep_KubeSwiftClusterSpec h' spec (ksc_Spec ksc) F ∧ rep_Service h' existing e Fe.
Proof.
  intros HC (Hs & Hi & Hm)%SetControllerReference_ok Hk He. unfold desiredAndUpdated_mem.
  destruct (build_run ksc cluster spec F h Hk) as (h1 & d & Fd & H1 & E1 & Rd & Sh). mrun H1.
  apply (rep_set_OwnerReferences _ _ _ desired _ Rd Hs Hi) in Hm as Rd'.
  destruct (update_run _ _ _ existing e Fe h1 HC Rd' (framed_extends _ _ _ _ _ _ He E1))
    as (h2 & u & Fu & H2 & E2 & Hnew & Ru). mrun H2. assert (h ⊆ h2) as E by (by etrans).
  eexists h2, _, u, Fd, Fu. split; [done|]. split; [done|].
  split; [exact (framed_extends _ _ _ _ _ _ Rd' E2)|]. split; [apply Sh|]. split; [done|].
  split; [|split; [exact (framed_extends _ _ _ _ _ _ Hk E)|exact (framed_extends _ _ _ _ _ _ He E)]].
  intros l Hl. pose proof (Hnew l Hl) as Hl1. split; [|intros Ha].
  - pose proof (subseteq_dom _ _ E1). set_solver.
  - destruct (rep_Annotations _ _ _ _ _ Rd' Ha) as (_ & m & Hlm & _). apply Hl1, elem_of_dom. by eexists.
Qed.
End ServiceMemory.
