(* ===== verification/ServiceWitnesses.v ===== *)
(** * ServiceWitnesses: a deep copy of Services, and the claim of [ServiceMemory.v] at one *)

From S2P Require Import Prelude Go Kube Api Lib Reference Samples MachineController EndpointService.
From S2P Require Import Heap HeapFacts HeapCopies HeapLoops GoTypes DeepCopy DeepCopySpec.
From S2P Require Import CopyReference ServiceMemory.
From stdpp Require Import fin_maps.

(** ** A deep copy, cell by cell *)

(** [f] makes a value in new cells that denotes the same. *)
Definition clones {R V} (P : rep R V) (f : R → M R) : Prop :=
  ∀ h r v F, P h r v F → ∃ h' r' F', f r h = Some (h', r') ∧ h ⊆ h' ∧ P h' r' v F' ∧ F' ## dom h.

Definition clone_map (m : mapref) : M mapref :=
  match m with
  | None => mret None
  | Some l => e ← load (map_at l); k ← alloc (Map e); mret (Some k)
  end.
Definition clone_string (p : ptr TString) : M (ptr TString) :=
  match p with
  | None => mret None
  | Some l => x ← load (obj_at TString l); k ← alloc (Obj (TString : ty) x); mret (Some k)
  end.
Definition clone_ports (s : sl TServicePort) : M (sl TServicePort) :=
  match s with
  | None => mret None
  | Some hd => xs ← slice_elements s; k ← alloc (Arr (TServicePort : ty) xs);
    mret (Some (mkHeader k 0 (length xs)))
  end.

Lemma clones_map : clones rep_map clone_map.
Proof.
  intros h [l|] [e|] F; simpl; try done.
  - intros [Hl ->]. mrun (load_run (map_at l) h e ltac:(by apply holds_map)).
    destruct (alloc_run (Map e) h) as (k & h' & Ha & Hk & -> & He). mrun Ha.
    eexists _, (Some k), {[k]}. split; [done|]. split; [done|]. split; [|set_solver].
    split; [apply lookup_insert_eq|done].
  - intros ->. exists h, None, ∅. split_and!; [done..|set_solver].
Qed.

Lemma clones_string : clones (rep_ptr TString rep_plain) clone_string.
Proof.
  intros h [l|] [x|] F; simpl; try done.
  - intros (y & F' & Hl & [-> ->] & ->).
    mrun (load_run _ h x (holds_obj (G := provider_types) TString l h x Hl)).
    destruct (alloc_run (Obj (G := provider_types) TString x) h) as (k & h' & Ha & Hk & -> & He). mrun Ha.
    eexists _, (Some k), ({[k]} ∪ ∅). split; [done|]. split; [done|]. split; [|set_solver].
    exists x, ∅. split_and!; [apply lookup_insert_eq|done..].
  - intros ->. exists h, None, ∅. split_and!; [done..|set_solver].
Qed.

Lemma clones_ports : clones (rep_slice TServicePort rep_plain) clone_ports.
Proof.
  intros h [hd|] [ps|] F; try done.
  - intros Hs. destruct (slice_elements_run _ _ _ _ Hs) as [He _]. simpl. mrun He.
    destruct (alloc_run (Arr (G := provider_types) TServicePort ps) h) as (k & h' & Ha & Hk & -> & Hh). simpl. mrun Ha.
    eexists _, (Some (mkHeader k 0 (length ps))), ({[k]} ∪ ∅). split; [done|]. split; [done|]. split; [|set_solver].
    exists ps, ∅. split; [apply lookup_insert_eq|]. split; [done|]. split; [|done].
    apply rep_elems_plain. split; [by apply window_whole|done].
  - simpl. intros ->. exists h, None, ∅. split_and!; [done..|set_solver].
Qed.

Definition sample_DeepCopy (s : memService) : M memService :=
  labels ← clone_map (mv_Labels s);
  annotations ← clone_map (mv_Annotations s);
  selector ← clone_map (mv_Selector s);
  ports ← clone_ports (mv_Ports s);
  class ← clone_string (mv_LoadBalancerClass s);
  mret (mkMemSvc (mv_Name s) (mv_Namespace s) labels annotations (mv_Finalizers s)
    (mv_DeletionTimestamp s) (mv_OwnerReferences s) (mv_ResourceVersion s) (mv_Type s) selector ports (mv_ClusterIP s)
    class (mv_Rest s) (mv_Ingress s)).

(** One more clone. *)
Lemma clone_next {R V} (P : rep R V) `{!Framed P} f h0 h r v F :
  clones P f → P h0 r v F → h0 ⊆ h →
  ∃ h' r' F', f r h = Some (h', r') ∧ h ⊆ h' ∧ h0 ⊆ h' ∧ P h' r' v F' ∧ F' ## dom h ∧ F' ## dom h0.
Proof.
  intros Hf HP E. destruct (Hf h r v F (framed_extends _ _ _ _ _ _ HP E)) as (h' & r' & F' & Hr & E' & HP' & Hd).
  pose proof (subseteq_dom _ _ E). exists h', r', F'. split_and!; [done..|by etrans|done|done|set_solver].
Qed.

Lemma sample_copies_services : copies_services sample_DeepCopy.
Proof.
  intros h s v F (ps & F1 & F2 & F3 & F4 & F5 & H). destruct_and! H. unfold sample_DeepCopy.
  destruct (clone_next rep_map clone_map h h (mv_Labels s) _ F1 clones_map ltac:(done) ltac:(done))
    as (h1 & a1 & G1 & R1 & _ & E1 & P1 & _ & D1). mrun R1.
  destruct (clone_next rep_map clone_map h h1 (mv_Annotations s) _ F2 clones_map ltac:(done) E1)
    as (h2 & a2 & G2 & R2 & S2 & E2 & P2 & N2 & D2). mrun R2.
  destruct (clone_next rep_map clone_map h h2 (mv_Selector s) _ F3 clones_map ltac:(done) E2)
    as (h3 & a3 & G3 & R3 & S3 & E3 & P3 & _ & D3). mrun R3.
  destruct (clone_next _ _ h h3 (mv_Ports s) ps F4 clones_ports ltac:(eassumption) E3)
    as (h4 & a4 & G4 & R4 & S4 & E4 & P4 & _ & D4). mrun R4.
  destruct (clone_next _ _ h h4 (mv_LoadBalancerClass s) _ F5 clones_string ltac:(eassumption) E4)
    as (h5 & a5 & G5 & R5 & S5 & E5 & P5 & _ & D5). mrun R5.
  eexists h5, _, (G1 ∪ G2 ∪ G3 ∪ G4 ∪ G5). split; [done|]. split; [done|].
  assert (h3 ⊆ h5) as E35 by (by etrans). assert (h2 ⊆ h5) as E25 by (by etrans).
  assert (h1 ⊆ h5) as E15 by (by etrans).
  split; [|split; [set_solver|]].
  - exists ps, G1, G2, G3, G4, G5. split_and!; try done.
    + exact (framed_extends _ _ _ _ _ _ P1 E15).
    + exact (framed_extends _ _ _ _ _ _ P2 E25).
    + exact (framed_extends _ _ _ _ _ _ P3 E35).
    + exact (framed_extends _ _ _ _ _ _ P4 S5).
  - simpl. intros l Hl Hl'. apply (rep_map_dom _ _ _ _ l P1) in Hl'. rewrite Hl in P2.
    destruct (meta_Annotations _); [|done]. destruct P2 as [_ ->]. set_solver.
Qed.

(** ** A cluster and its Service in memory *)

(** The configured annotations and class of [demo_ksc] are cells 3 and 4; the Service that
    exists has the node port of an earlier port and a foreign annotation. *)
Definition config_mem : memControlPlaneServiceSpec :=
  mkMemService ServiceTypeLoadBalancer 0 (Some 3%positive) (Some 4%positive).
Definition spec_mem : memKubeSwiftClusterSpec := mkMemClusterSpec None (Some 1%positive) "".
Definition theirs : gmap string string := {["cloud/owner" := "team"]}.
Definition old_ports : list ServicePort :=
  [mkServicePort "apiserver" 6443 (IntVal 6443) ProtocolTCP 30443].

Definition service_memory : heap :=
  <[1%positive := Obj (G := provider_types) TControlPlaneEndpointSpec
      (mkMemEndpoint EndpointModeService (Some 2%positive))]> (
  <[2%positive := Obj (G := provider_types) TControlPlaneServiceSpec config_mem]> (
  <[3%positive := Map {["lb/pool" := "edge"]}]> (
  <[4%positive := Obj (G := provider_types) TString "metal"]> (
  <[5%positive := Map theirs]> (
  <[6%positive := Arr (G := provider_types) TServicePort old_ports]> ∅))))).

Definition existing_mem : memService :=
  mkMemSvc "demo-cp" "ns" None (Some 5%positive) [] None [] "7" ServiceTypeClusterIP None
    (Some (mkHeader 6%positive 0 1)) "10.96.0.12" None ∅ [].
Definition existing_value : Service :=
  mkService (mkObjectMeta "demo-cp" "ns" None (Some theirs) [] None [] "7")
    (mkServiceSpec ServiceTypeClusterIP None old_ports "10.96.0.12" None ∅) [].

Lemma spec_denotes : ∃ F, rep_KubeSwiftClusterSpec service_memory spec_mem (ksc_Spec demo_ksc) F.
Proof. repeat (hnf; lazymatch goal with |- ∃ _, _ => eexists | |- _ ∧ _ => split | |- _ = _ => reflexivity end). Qed.

Lemma existing_denotes : ∃ F, rep_Service service_memory existing_mem existing_value F.
Proof.
  eexists. exists (Some old_ports), ∅, {[5%positive]}, ∅, ({[6%positive]} ∪ ∅), ∅.
  split_and!; try reflexivity; [by split|].
  exists old_ports, ∅. split; [reflexivity|]. split; [done|]. split; [|reflexivity].
  by apply rep_elems_plain.
Qed.

Lemma service_update_isolated_witness :
  ∃ desired h' d u F,
    SetControllerReference demo_ksc (buildControlPlaneService demo_ksc demo_cluster) = Ok desired ∧
    desiredAndUpdated_mem sample_DeepCopy (ksc_ObjectMeta demo_ksc) spec_mem demo_cluster
      (meta_OwnerReferences (svc_ObjectMeta desired)) existing_mem service_memory = Some (h', (d, u)) ∧
    service_memory ⊆ h' ∧ rep_Service h' u (updatedService desired existing_value) F.
Proof.
  destruct spec_denotes as [F HF]. destruct existing_denotes as [Fe He].
  destruct (SetControllerReference demo_ksc (buildControlPlaneService demo_ksc demo_cluster))
    as [desired|err] eqn:Hd; [|discriminate Hd].
  destruct (service_update_isolated sample_DeepCopy demo_ksc demo_cluster desired spec_mem F
    existing_mem existing_value Fe service_memory sample_copies_services Hd HF He)
    as (h' & d & u & Fd & Fu & Hr & E & _ & _ & Hu & _).
  exists desired, h', d, u, Fu. exact (conj eq_refl (conj Hr (conj E Hu))).
Defined.

(** Run on this memory: the annotations of the update are a new map with both keys, those of
    the desired Service the cell of the KubeSwiftCluster. *)
Definition isolated_run : bool :=
  match desiredAndUpdated_mem sample_DeepCopy (ksc_ObjectMeta demo_ksc) spec_mem demo_cluster []
          existing_mem service_memory with
  | Some (h', (d, u)) =>
    match mv_Annotations d, mv_Annotations u with
    | Some 3%positive, Some l =>
      match h' !! l with
      | Some (Map m) => (size m =? 2)%nat && negb (l =? 5)%positive
      | _ => false
      end
    | _, _ => false
    end
  | None => false
  end.
Example isolated_runs : isolated_run = true.
Proof. vm_compute. reflexivity. Qed.
