(* ===== verification/ClusterSpec.v ===== *)
(** * ClusterSpec: the claims on the KubeSwiftCluster reconciler *)

From S2P Require Import Prelude Go Prog Kube Api Lib Reference Samples.
From S2P Require Import MachineController EndpointService ClusterController EndpointSpec.

Definition cluster_provisioned (ksc : KubeSwiftCluster) : option bool :=
  Provisioned (kscStatus_Initialization (ksc_Status ksc)).
Definition cluster_finalizers (ksc : KubeSwiftCluster) : list string :=
  meta_Finalizers (ksc_ObjectMeta ksc).
Definition endpoint (ksc : KubeSwiftCluster) : option APIEndpoint :=
  kscSpec_ControlPlaneEndpoint (ksc_Spec ksc).
Definition service_mode (ksc : KubeSwiftCluster) : bool :=
  String.eqb (endpointMode ksc) EndpointModeService.

(** The cluster a request patches: as read, and as written. *)
Definition cluster_patch (ev : event call) : option (KubeSwiftCluster * KubeSwiftCluster) :=
  match ev with Ev (Patch KCluster before after) _ => Some (before, after) | _ => None end.

(** The Service deleted with its cluster. *)
Definition doomedService (ksc : KubeSwiftCluster) : Service :=
  mkService (mkObjectMeta (controlPlaneServiceName ksc)
    (meta_Namespace (ksc_ObjectMeta ksc)) None None [] None [] "") ServiceSpec_zero [].

Section Outcomes.
Context {lib : Lib} {S : ServiceLaws} {D : DeepEqualLaws}.

Definition cluster_deleting (ksc : KubeSwiftCluster) : bool :=
  negb (Time_IsZero (meta_DeletionTimestamp (ksc_ObjectMeta ksc))).
Definition cluster_finalized (ksc : KubeSwiftCluster) : KubeSwiftCluster :=
  ksc_set_Finalizers ksc (AddFinalizer (cluster_finalizers ksc) ClusterFinalizer).
Definition cluster_released (ksc : KubeSwiftCluster) : KubeSwiftCluster :=
  ksc_set_Finalizers ksc (RemoveFinalizer (cluster_finalizers ksc) ClusterFinalizer).

(** What a cluster goes through between its opening reads and its patch. *)
Inductive cluster_outcome (ksc : KubeSwiftCluster) (cluster : Cluster) :
    trace call → KubeSwiftCluster → Return → Prop :=
  | service_fails t err :
      cluster_deleting ksc = false → service_mode ksc = true →
      service_trace t → at_each (service_write (cluster_finalized ksc) cluster) t →
      cluster_outcome ksc cluster t (cluster_finalized ksc) (failed err)
  | service_waits t svc msg :
      cluster_deleting ksc = false → service_mode ksc = true →
      service_trace t → at_each (service_write (cluster_finalized ksc) cluster) t →
      service_ensured (cluster_finalized ksc) cluster t svc → (∀ a, ¬ service_address svc a) →
      cluster_outcome ksc cluster t
        (markClusterNotProvisioned (cluster_finalized ksc) WaitingForEndpointServiceReason msg)
        finished
  | service_ready t svc host :
      cluster_deleting ksc = false → service_mode ksc = true →
      service_trace t → at_each (service_write (cluster_finalized ksc) cluster) t →
      service_ensured (cluster_finalized ksc) cluster t svc → service_address svc host →
      cluster_outcome ksc cluster t
        (markClusterProvisioned (ksc_set_ControlPlaneEndpoint (cluster_finalized ksc)
          (Some (mkAPIEndpoint host (controlPlaneServicePort ksc))))) finished
  | external_waits msg :
      cluster_deleting ksc = false → service_mode ksc = false →
      (∀ ep, endpoint ksc = Some ep → ep_Host ep = "") →
      cluster_outcome ksc cluster []
        (markClusterNotProvisioned (cluster_finalized ksc) WaitingForControlPlaneEndpointReason msg)
        finished
  | external_ready ep :
      cluster_deleting ksc = false → service_mode ksc = false →
      endpoint ksc = Some ep → ep_Host ep ≠ "" →
      cluster_outcome ksc cluster [] (markClusterProvisioned (cluster_finalized ksc)) finished
  | delete_refused e err :
      cluster_deleting ksc = true → IsNotFound (Some e) = false →
      cluster_outcome ksc cluster [Ev (Lib.Delete KService (doomedService ksc)) (Some e)]
        ksc (failed err)
  | delete_accepted d :
      cluster_deleting ksc = true → d = None ∨ IsNotFound d = true →
      cluster_outcome ksc cluster [Ev (Lib.Delete KService (doomedService ksc)) d]
        (cluster_released ksc) finished.

Lemma reconcileCluster_runs ksc cluster :
  wp any (reconcileCluster ksc cluster) (λ t p, cluster_outcome ksc cluster t p.1 p.2).
Proof.
  unfold reconcileCluster. fold (cluster_deleting ksc).
  destruct (cluster_deleting ksc) eqn:Hd.
  - unfold reconcileDelete, deleteControlPlaneService. fold (doomedService ksc).
    fold (cluster_finalizers ksc) (cluster_released ksc).
    step. intros [e|] _; [|step; apply delete_accepted; auto].
    destruct (IsNotFound (Some e)) eqn:He; cbn [negb]; step;
      [apply delete_accepted; auto|by apply delete_refused].
  - unfold reconcileNormal. fold (cluster_finalizers ksc) (cluster_finalized ksc).
    change (endpointMode (cluster_finalized ksc)) with (endpointMode ksc).
    fold (service_mode ksc). destruct (service_mode ksc) eqn:Hm.
    + unfold reconcileServiceEndpoint.
      eapply wp_seq; [apply ensureControlPlaneService_runs|]. cbn beta.
      intros t [svc|err] (Ht & Hw & He); [|step; rewrite app_nil_r; by apply service_fails].
      specialize (He svc eq_refl).
      destruct (controlPlaneServiceAddress svc) as [host ready] eqn:Ha.
      change (controlPlaneServicePort (cluster_finalized ksc)) with (controlPlaneServicePort ksc).
      destruct ready; cbn [negb]; step; rewrite app_nil_r.
      * eapply service_ready; try done. by apply controlPlaneServiceAddress_spec.
      * eapply service_waits; try done. intros a Hx%controlPlaneServiceAddress_spec. congruence.
    + change (kscSpec_ControlPlaneEndpoint _) with (endpoint ksc).
      destruct (endpoint ksc) as [ep|] eqn:Ee; [|step; apply external_waits; try done; congruence].
      destruct (String.eqb (ep_Host ep) "") eqn:Eh; bool_facts; step;
        [apply external_waits; try done; congruence|by eapply external_ready].
Qed.

(** The reads that must succeed before a cluster is touched. *)
Inductive cluster_engaged (key : NamespacedName) (ksc : KubeSwiftCluster) (cluster : Cluster) :
    trace call → Prop :=
  | cluster_engages :
      IsExternallyManaged (ksc_ObjectMeta ksc) = false →
      IsPaused cluster (ksc_ObjectMeta ksc) = false →
      cluster_engaged key ksc cluster
        [Ev (Get KCluster key KubeSwiftCluster_zero) (Ok ksc);
         Ev (GetOwnerCluster (ksc_ObjectMeta ksc)) (Ok (Some cluster));
         Ev (NewPatchHelper KCluster ksc) None].

Definition cluster_touches (key : NamespacedName) (t : trace call) (r : Return)
    (ksc : KubeSwiftCluster) (cluster : Cluster) (t1 : trace call) (ksc' : KubeSwiftCluster)
    (ret : Return) : Prop :=
  ∃ t0 p, cluster_engaged key ksc cluster t0 ∧
    t = t0 ++ t1 ++ [Ev (Patch KCluster ksc ksc') p] ∧ r = patched ret p.

Lemma Reconcile_cluster_rule key (Q : trace call → Return → Prop) :
  (∀ t r, read_only t → Q t r) →
  (∀ t r ksc cluster t1 ksc' ret,
    cluster_touches key t r ksc cluster t1 ksc' ret →
    cluster_outcome ksc cluster t1 ksc' ret → Q t r) →
  wp any (ClusterController.Reconcile key) Q.
Proof.
  intros Hro Ht. unfold ClusterController.Reconcile.
  step. intros [ksc|err] _; [|step; apply Hro; by repeat constructor].
  step. intros [[cluster|]|err] _; [|step; apply Hro; by repeat constructor..].
  destruct (IsExternallyManaged (ksc_ObjectMeta ksc)) eqn:Hx;
    [step; apply Hro; by repeat constructor|].
  destruct (IsPaused cluster (ksc_ObjectMeta ksc)) eqn:Hp;
    [step; apply Hro; by repeat constructor|].
  step. intros [err|] _; [step; apply Hro; by repeat constructor|].
  apply wp_bind. eapply wp_mono; [|apply reconcileCluster_runs].
  cbn beta. intros t1 [ksc' ret] Ho. step. intros p _.
  eapply Ht; [|exact Ho]. eexists _, p. by split; [apply cluster_engages|].
Qed.

(** The calls between the opening reads and the patch. *)
Definition cluster_inner (ksc : KubeSwiftCluster) (ev : event call) : Prop :=
  match ev with
  | Ev (Get KService _ _) _ | Ev (Create KService _) _ | Ev (Update KService _) _ =>
    cluster_deleting ksc = false ∧ service_mode ksc = true
  | Ev (Lib.Delete KService s) _ => cluster_deleting ksc = true ∧ s = doomedService ksc
  | _ => False
  end.

Lemma cluster_outcome_inner ksc cluster t ksc' ret :
  cluster_outcome ksc cluster t ksc' ret → Forall (cluster_inner ksc) t.
Proof.
  assert (∀ t, cluster_deleting ksc = false → service_mode ksc = true →
    service_trace t → Forall (cluster_inner ksc) t) as Hs.
  { intros t' Hd Hm. apply List.Forall_impl. intros [X [] x]; try done; by destruct k. }
  intros []; auto; (apply List.Forall_cons; [by split|constructor]).
Qed.

Lemma cluster_read_only_patch t ev : read_only t → ev ∈ t → cluster_patch ev = None.
Proof.
  unfold read_only. rewrite list.Forall_forall. intros Ht Hev. specialize (Ht ev Hev).
  by destruct ev as [X [] x].
Qed.

(** The patch of a reconcile that touches its cluster is its only one. *)
Lemma cluster_touches_patch key t r ksc cluster t1 ksc' ret ev before after :
  cluster_touches key t r ksc cluster t1 ksc' ret →
  cluster_outcome ksc cluster t1 ksc' ret →
  ev ∈ t → cluster_patch ev = Some (before, after) → before = ksc ∧ after = ksc'.
Proof.
  intros (t0 & p & [_ _] & -> & _) Ho%cluster_outcome_inner Hev Hp.
  rewrite !elem_of_app in Hev. destruct Hev as [Hev|[Hev|Hev]].
  - repeat (apply elem_of_cons in Hev as [->|Hev]; [done|]). by apply elem_of_nil in Hev.
  - rewrite list.Forall_forall in Ho. specialize (Ho ev Hev).
    by destruct ev as [X [] x]; try done; destruct k.
  - apply list_elem_of_singleton in Hev as ->. simpl in Hp. by injection Hp as <- <-.
Qed.

(** A cluster keeps its identity, its configuration and its deletion state; what changes
    are its finalizers, the endpoint, and the status. *)
Definition same_cluster (ksc ksc' : KubeSwiftCluster) : Prop :=
  ksc_ObjectMeta ksc' =
    meta_set_Finalizers (ksc_ObjectMeta ksc) (cluster_finalizers ksc') ∧
  kscSpec_Endpoint (ksc_Spec ksc') = kscSpec_Endpoint (ksc_Spec ksc) ∧
  kscSpec_GuestNamespace (ksc_Spec ksc') = kscSpec_GuestNamespace (ksc_Spec ksc) ∧
  (service_mode ksc = false → endpoint ksc' = endpoint ksc).

Lemma cluster_outcome_same ksc cluster t ksc' ret :
  cluster_outcome ksc cluster t ksc' ret → same_cluster ksc ksc'.
Proof.
  assert (same_cluster ksc ksc) as Hs by (by destruct ksc as [[] ? ?]).
  intros []; try done; split_and!; try done; congruence.
Qed.

Lemma Reconcile_cluster_same key t r before after p :
  runs (ClusterController.Reconcile key) t (Done r) → Ev (Patch KCluster before after) p ∈ t →
  same_cluster before after.
Proof.
  intros Hr Hev. refine (wp_any_runs _ (λ t _, ∀ ev before after,
    ev ∈ t → cluster_patch ev = Some (before, after) → same_cluster before after) t r _ Hr _ _ _ Hev eq_refl).
  clear Hr Hev t r before after p. apply Reconcile_cluster_rule.
  { intros t r Ht ev before after Hev. by rewrite (cluster_read_only_patch t ev Ht Hev). }
  intros t r ksc cluster t1 ksc' ret Ht Ho ev before after Hev Hp.
  destruct (cluster_touches_patch _ _ _ _ _ _ _ _ _ _ _ Ht Ho Hev Hp) as [-> ->].
  by eapply cluster_outcome_same.
Qed.
End Outcomes.

(** ** The claims *)

Section Claims.
Context {lib : Lib} {S : ServiceLaws} {D : DeepEqualLaws}.


(** Where the endpoint of a cluster reported as provisioned comes from. *)
Inductive endpoint_source (ksc ksc' : KubeSwiftCluster) (t : trace call) : Prop :=
  | endpoint_external :
      service_mode ksc = false → endpoint ksc' = endpoint ksc → endpoint_source ksc ksc' t
  | endpoint_service cluster t1 ts t2 svc host :
      service_mode ksc = true →
      t = t1 ++ ts ++ t2 → service_ensured (cluster_finalized ksc) cluster ts svc →
      service_address svc host →
      endpoint ksc' = Some (mkAPIEndpoint host (controlPlaneServicePort ksc)) →
      endpoint_source ksc ksc' t.

(** C16: A cluster is newly reported provisioned only with a usable endpoint: a patch
    that reports it provisioned either leaves its status and spec as they were, or has
    an endpoint with a non-empty host - in Service mode, the address and port of the
    endpoint Service ensured in this very reconcile; otherwise the one the operator
    set, untouched. *)
Theorem Reconcile_cluster_readiness (key : NamespacedName) :
  wp any (ClusterController.Reconcile key) (λ t r, ∀ ev before after,
    ev ∈ t → cluster_patch ev = Some (before, after) → cluster_provisioned after = Some true →
    (ksc_Status after = ksc_Status before ∧ ksc_Spec after = ksc_Spec before) ∨
    (∃ ep, endpoint after = Some ep ∧ ep_Host ep ≠ "") ∧ endpoint_source before after t).
Proof.
  apply Reconcile_cluster_rule.
  { intros t r Ht ev before after Hev. by rewrite (cluster_read_only_patch t ev Ht Hev). }
  intros t r ksc cluster t1 ksc' ret Ht Ho ev before after Hev Hp Hb.
  destruct (cluster_touches_patch _ _ _ _ _ _ _ _ _ _ _ Ht Ho Hev Hp) as [-> ->].
  destruct Ht as (t0 & p & _ & -> & _).
  destruct Ho as [| |t1 svc host _ Hm _ _ Hs Ha| |ep _ Hm He Hn| |]; try done; try (by left).
  - right. split; [|by eapply endpoint_service]. eexists. split; [done|]. by destruct Ha.
  - right. split; [by exists ep|by apply endpoint_external].
Qed.

(** Ready says what [initialization.provisioned] says, and a provisioned cluster has
    an endpoint. *)
Definition cluster_inv (ksc : KubeSwiftCluster) : Prop :=
  let ready := find_condition ReadyConditionType (ksc_GetConditions ksc) in
  conditions_wf (ksc_GetConditions ksc) ∧
  if decide (cluster_provisioned ksc = Some true) then
    (∃ c, ready = Some c ∧ cond_Status c = ConditionTrue) ∧
    ∃ ep, endpoint ksc = Some ep ∧ ep_Host ep ≠ ""
  else ∀ c, ready = Some c → cond_Status c ≠ ConditionTrue.

Context {C : ConditionLaws}.

Lemma markClusterNotProvisioned_inv ksc reason msg :
  conditions_wf (ksc_GetConditions ksc) → cluster_inv (markClusterNotProvisioned ksc reason msg).
Proof.
  intros Hwf. destruct (conditions_Set_spec (ksc_GetConditions ksc)
    (mkCondition ReadyConditionType ConditionFalse reason msg) Hwf) as [Hwf' Hf].
  change (conditions_Set _ _) with
    (ksc_GetConditions (markClusterNotProvisioned ksc reason msg)) in Hwf', Hf.
  split; [done|]. rewrite Hf. cbn. by intros c [= <-].
Qed.

Lemma markClusterProvisioned_inv ksc ep :
  conditions_wf (ksc_GetConditions ksc) → endpoint ksc = Some ep → ep_Host ep ≠ "" →
  cluster_inv (markClusterProvisioned ksc).
Proof.
  intros Hwf He Hn. destruct (conditions_Set_spec (ksc_GetConditions ksc)
    (mkCondition ReadyConditionType ConditionTrue ClusterProvisionedReason "") Hwf) as [Hwf' Hf].
  change (conditions_Set _ _) with (ksc_GetConditions (markClusterProvisioned ksc)) in Hwf', Hf.
  split; [done|]. rewrite Hf. cbn. split; [by eexists|by exists ep].
Qed.

(** C33: The status a cluster reconcile writes is consistent: if the cluster read
    satisfies the invariant, so does the cluster of the patch - one condition per type;
    Ready is true exactly when provisioned is; a provisioned cluster has an endpoint
    with a host. *)
Theorem Reconcile_cluster_invariant (key : NamespacedName) :
  wp any (ClusterController.Reconcile key) (λ t r, ∀ ev before after,
    ev ∈ t → cluster_patch ev = Some (before, after) → cluster_inv before → cluster_inv after).
Proof.
  apply Reconcile_cluster_rule.
  { intros t r Ht ev before after Hev. by rewrite (cluster_read_only_patch t ev Ht Hev). }
  intros t r ksc cluster t1 ksc' ret Ht Ho ev before after Hev Hp [Hwf Hi].
  destruct (cluster_touches_patch _ _ _ _ _ _ _ _ _ _ _ Ht Ho Hev Hp) as [-> ->].
  destruct Ho as [| |t2 svc host _ _ _ _ _ Ha| |ep _ _ He Hn| |]; try done;
    try (by apply markClusterNotProvisioned_inv).
  - eapply markClusterProvisioned_inv; [done|reflexivity|]. by destruct Ha.
  - by eapply markClusterProvisioned_inv.
Qed.

(** C35: The cluster's finalizer: every patch of a cluster that is not being deleted
    carries it. The patch of one that is comes right after the request to delete the
    Service of its name: if the API server accepted that, or has no such Service, the
    finalizer is released, and otherwise the cluster is left as it is and the error
    returned, so that the deletion is tried again. What is not waited for is the end of an
    accepted deletion, which the Service's own finalizers may put off. No patch adds or
    drops another owner's finalizer. *)
Theorem Reconcile_cluster_finalizer {F : FinalizerLaws} (key : NamespacedName) :
  wp any (ClusterController.Reconcile key) (λ t r, ∀ ev before after,
    ev ∈ t → cluster_patch ev = Some (before, after) →
    (cluster_deleting before = false → ClusterFinalizer ∈ cluster_finalizers after) ∧
    (cluster_deleting before = true → ∃ t0 d p,
       t = t0 ++ [Ev (Lib.Delete KService (doomedService before)) d; Ev (Patch KCluster before after) p] ∧
       (((d = None ∨ IsNotFound d = true) ∧ ClusterFinalizer ∉ cluster_finalizers after) ∨
        (d ≠ None ∧ IsNotFound d = false ∧ after = before ∧ r.2 ≠ None))) ∧
    (∀ f, f ≠ ClusterFinalizer → f ∈ cluster_finalizers after ↔ f ∈ cluster_finalizers before)).
Proof.
  apply Reconcile_cluster_rule.
  { intros t r Ht ev before after Hev. by rewrite (cluster_read_only_patch t ev Ht Hev). }
  intros t r ksc cluster t1 ksc' ret Ht Ho ev before after Hev Hp.
  destruct (cluster_touches_patch _ _ _ _ _ _ _ _ _ _ _ Ht Ho Hev Hp) as [-> ->].
  assert (Hf : ∀ l, l = AddFinalizer (cluster_finalizers ksc) ClusterFinalizer →
    ClusterFinalizer ∈ l ∧ ∀ f, f ≠ ClusterFinalizer → f ∈ l ↔ f ∈ cluster_finalizers ksc).
  { intros l ->. split; [rewrite AddFinalizer_spec; by left|].
    intros f Hne. rewrite AddFinalizer_spec. tauto. }
  destruct Ht as (t0 & p & _ & -> & ->).
  destruct Ho as [| | | | |e err Hd He|d Hd Hg].
  1-5: destruct (Hf _ eq_refl) as [Hin Hr]; split_and!; [done|congruence|exact Hr].
  - split_and!; [congruence| |done]. intros _. exists t0, (Some e), p. split; [done|right].
    by destruct p.
  - split_and!; [congruence| |].
    + intros _. exists t0, d, p. split; [done|left]. split; [done|].
      unfold cluster_finalizers, cluster_released. cbn. rewrite RemoveFinalizer_spec. tauto.
    + intros f Hne. unfold cluster_finalizers, cluster_released. cbn.
      rewrite RemoveFinalizer_spec. tauto.
Qed.
End Claims.
