(* ===== verification/ClusterErrors.v ===== *)
(** * ClusterErrors: what a cluster reconcile returns and reports

    The error a reconcile of a KubeSwiftCluster returns is the first failure it met, and
    the cluster it patches says what it waits for. *)

From S2P Require Import Prelude Go Prog Kube Api Lib.
From S2P Require Import MachineController EndpointService ClusterController EndpointSpec ClusterSpec.

Section Errors.
Context {lib : Lib} {EL : ErrorLaws} {S : ServiceLaws} {D : DeepEqualLaws}.

Definition ensuring : error → error := Wrapf "ensuring control-plane Service".
Definition deleting_service : error → error := Wrapf "deleting control-plane Service".

(** A failed call, as the error its reconcile makes of it; that the cluster or the Service
    is not found is no failure. *)
Definition cluster_failure (ev : event call) : option error :=
  match ev with
  | Ev c x =>
    match c in call X return X → option error with
    | Get k _ _ => λ r,
      match r with
      | Err e => if IsNotFound (Some e) then None
        else Some (match k with KService => ensuring e | _ => e end)
      | Ok _ => None end
    | Create _ _ | Update _ _ => λ r, match r with Err e => Some (ensuring e) | Ok _ => None end
    | Lib.Delete _ _ => λ d,
      match d with
      | Some e => if IsNotFound (Some e) then None else Some (deleting_service e)
      | None => None end
    | GetOwnerCluster _ => λ r, match r with Err e => Some e | Ok _ => None end
    | NewPatchHelper _ _ | Patch _ _ _ => λ e, e
    | _ => λ _, None
    end x
  end.

(** The first failure; [refused] is the error of a Service that could not be given its
    owner, for which nothing is asked. *)
Definition first_failure (refused : option error) (t : trace call) : option error :=
  match refused with Some e => Some (ensuring e) | None => head (omap cluster_failure t) end.

Definition ready_condition (ksc : KubeSwiftCluster) : option Condition :=
  find_condition ReadyConditionType (ksc_GetConditions ksc).

(** What a cluster says that was reconciled without an error: [t] are the calls made for
    its Service. *)
Inductive cluster_says (ksc : KubeSwiftCluster) (cluster : Cluster) (t : trace call)
    (ksc' : KubeSwiftCluster) : Prop :=
  | says_ready ep :
      endpoint ksc' = Some ep → ep_Host ep ≠ "" →
      ready_condition ksc' = Some (mkCondition ReadyConditionType ConditionTrue ClusterProvisionedReason "") →
      cluster_says ksc cluster t ksc'
  | says_no_endpoint :
      service_mode ksc = false → (∀ ep, endpoint ksc' = Some ep → ep_Host ep = "") →
      ready_condition ksc' = Some (mkCondition ReadyConditionType ConditionFalse
        WaitingForControlPlaneEndpointReason "Waiting for spec.controlPlaneEndpoint to be set") →
      cluster_says ksc cluster t ksc'
  | says_no_address svc :
      service_mode ksc = true → service_ensured (cluster_finalized ksc) cluster t svc →
      (∀ a, ¬ service_address svc a) →
      ready_condition ksc' = Some (mkCondition ReadyConditionType ConditionFalse
        WaitingForEndpointServiceReason
        ("Waiting for Service " +:+ meta_Namespace (svc_ObjectMeta svc) +:+ "/" +:+
         meta_Name (svc_ObjectMeta svc) +:+ " to get an address")) →
      cluster_says ksc cluster t ksc'.

(** The Service of this cluster cannot be given its owner. *)
Definition disowned (ksc : KubeSwiftCluster) (cluster : Cluster) (e : error) : Prop :=
  cluster_deleting ksc = false ∧ service_mode ksc = true ∧
  SetControllerReference (cluster_finalized ksc)
    (buildControlPlaneService (cluster_finalized ksc) cluster) = Err e.

(** What the calls between the opening reads and the patch come to. *)
Record reports (ksc : KubeSwiftCluster) (cluster : Cluster) (refused : option error)
    (t : trace call) (ksc' : KubeSwiftCluster) (err : option error) : Prop := {
  reports_error : err = first_failure refused t;
  reports_refused e : refused = Some e → disowned ksc cluster e ∧ t = [];
  reports_status : err ≠ None ∨ cluster_deleting ksc = true →
    ksc_Status ksc' = ksc_Status ksc ∧ ksc_Spec ksc' = ksc_Spec ksc;
  reports_ready : err = None → cluster_deleting ksc = false →
    conditions_wf (ksc_GetConditions ksc) → cluster_says ksc cluster t ksc'
}.

(** What failed on the way to the Service. *)
Definition ensure_failure ksc cluster (t : trace call) (r : result Service) : Prop :=
  match r with
  | Ok _ => omap cluster_failure t = []
  | Err e => omap cluster_failure t = [ensuring e] ∨
      (t = [] ∧ SetControllerReference ksc (buildControlPlaneService ksc cluster) = Err e)
  end.

Lemma ensure_fails ksc cluster :
  wp any (ensureControlPlaneService ksc cluster) (ensure_failure ksc cluster).
Proof.
  unfold ensureControlPlaneService, ensure_failure.
  destruct (SetControllerReference _ _) as [desired|err]; [|step; by right].
  step. intros [existing|err] _.
  - destruct (unchanged _ _); step; [done|]. intros [|] _; step; [done|by left].
  - destruct (IsNotFound (Some err)) eqn:E; step; [intros [|] _; step|]; cbn; rewrite E; [done|by left|by left].
Qed.

Lemma ensure_reports ksc cluster :
  wp any (ensureControlPlaneService ksc cluster) (λ t r,
    ensure_failure ksc cluster t r ∧ ∀ svc, r = Ok svc → service_ensured ksc cluster t svc).
Proof.
  eapply wp_mono; [|apply wp_self, (ensureControlPlaneService_runs ksc cluster)]. cbn beta.
  intros t r (Hr & _ & _ & He). split; [|done].
  by apply (wp_any_runs _ _ _ _ (ensure_fails ksc cluster)).
Qed.

Context {C : ConditionLaws}.

Lemma cluster_condition_ready ksc c :
  cond_Type c = ReadyConditionType → conditions_wf (ksc_GetConditions ksc) →
  ready_condition (cluster_condition ksc c) = Some c.
Proof.
  intros Hc Hwf. destruct (conditions_Set_spec (ksc_GetConditions ksc) c Hwf) as [_ H].
  etrans; [apply H|]. by rewrite decide_True.
Qed.

Lemma reconcileCluster_reports ksc cluster :
  wp any (reconcileCluster ksc cluster) (λ t p,
    p.2.1 = Result_zero ∧ ∃ refused, reports ksc cluster refused t p.1 p.2.2).
Proof.
  unfold reconcileCluster. fold (cluster_deleting ksc). destruct (cluster_deleting ksc) eqn:Hd.
  { unfold reconcileDelete, deleteControlPlaneService. step. intros [e|] _.
    - destruct (IsNotFound (Some e)) eqn:E; step; (split; [done|]); exists None;
        split; cbn; rewrite ?E; try done; congruence.
    - step. split; [done|]. exists None. split; cbn; try done; congruence. }
  unfold reconcileNormal. fold (cluster_finalizers ksc) (cluster_finalized ksc).
  change (endpointMode (cluster_finalized ksc)) with (endpointMode ksc).
  fold (service_mode ksc). destruct (service_mode ksc) eqn:Hm.
  - unfold reconcileServiceEndpoint. eapply wp_seq; [apply ensure_reports|]. cbn beta.
    intros t [svc|err] [Ht He]; simpl in Ht; [specialize (He svc eq_refl)|].
    + destruct (controlPlaneServiceAddress svc) as [host ready] eqn:Ha.
      destruct ready; cbn [negb]; step; rewrite app_nil_r; (split; [done|]); exists None;
        split; cbn; rewrite ?Ht; try done; try (by intros [?|?]; congruence); try congruence; intros _ _ Hwf.
      * apply controlPlaneServiceAddress_spec in Ha. eapply says_ready; [done|by destruct Ha|].
        by apply cluster_condition_ready.
      * eapply says_no_address; [done|done| |by apply cluster_condition_ready].
        intros a Hx%controlPlaneServiceAddress_spec. congruence.
    + step. rewrite app_nil_r. split; [done|].
      destruct Ht as [Ht|[-> Hc]]; [exists None|exists (Some err)]; split; cbn; rewrite ?Ht; try done.
      by intros e [= <-].
  - change (kscSpec_ControlPlaneEndpoint _) with (endpoint ksc).
    destruct (endpoint ksc) as [ep|] eqn:Ee; [destruct (String.eqb (ep_Host ep) "") eqn:Eh; bool_facts|];
      step; (split; [done|]); exists None; split; cbn; try done; try (by intros [?|?]; congruence); try congruence;
      intros _ _ Hwf; [apply says_no_endpoint|eapply says_ready|apply says_no_endpoint]; try done;
      try (by apply cluster_condition_ready).
    + intros ep' Hep. change (endpoint ksc = Some ep') in Hep. congruence.
    + intros ep' Hep. change (endpoint ksc = Some ep') in Hep. congruence.
Qed.

(** C38: The error a cluster reconcile returns is the first failure it met, and it never
    asks for a requeue of its own: the error of a call as it is; wrapped by what was being
    done, if it concerns the endpoint Service - one that cannot be given its owner
    included; not at all, if the cluster is not found, or no Service to read or delete. So
    it returns none exactly if nothing failed, and a refused patch is a failure. The patch
    of a reconcile that failed before it, or of a cluster being deleted, leaves status and
    spec as they were read; every other one says in the Ready condition that there is an
    endpoint, or exactly what is waited for. *)
Theorem Reconcile_cluster_surfaces_errors (key : NamespacedName) :
  wp any (ClusterController.Reconcile key) (λ t r,
    r.1 = Result_zero ∧
    ((read_only t ∧ r.2 = first_failure None t) ∨
     ∃ ksc cluster t0 t1 ksc' p refused,
       cluster_engaged key ksc cluster t0 ∧
       t = t0 ++ t1 ++ [Ev (Patch KCluster ksc ksc') p] ∧
       r.2 = first_failure refused t ∧
       reports ksc cluster refused t1 ksc' (first_failure refused (t0 ++ t1)))).
Proof.
  unfold ClusterController.Reconcile. step. intros [ksc|err] _.
  2: { step. split; [done|left]. split; [by repeat constructor|]. cbn. rewrite IgnoreNotFound_spec.
    by destruct (IsNotFound (Some err)). }
  step. intros [[cluster|]|err] _; [|step; (split; [done|left]); split; [by repeat constructor|done]..].
  destruct (IsExternallyManaged (ksc_ObjectMeta ksc)) eqn:Hx;
    [step; split; [done|left]; split; [by repeat constructor|done]|].
  destruct (IsPaused cluster (ksc_ObjectMeta ksc)) eqn:Hp;
    [step; split; [done|left]; split; [by repeat constructor|done]|].
  step. intros [err|] _; [step; split; [done|left]; split; [by repeat constructor|done]|].
  apply wp_bind. eapply wp_mono; [|apply reconcileCluster_reports].
  cbn beta. intros t1 [ksc' [res err]] [Hres [refused Hr]]. cbn [fst snd] in Hres, Hr. subst res. step. intros p _.
  pose proof (reports_error _ _ _ _ _ _ Hr) as He.
  assert (first_failure refused ([Ev (Get KCluster key KubeSwiftCluster_zero) (Ok ksc);
    Ev (GetOwnerCluster (ksc_ObjectMeta ksc)) (Ok (Some cluster)); Ev (NewPatchHelper KCluster ksc) None] ++ t1) = err)
    as He' by (rewrite He; by destruct refused).
  split; [by destruct p, err|right]. exists ksc, cluster. eexists _, t1, ksc', p, refused.
  split; [by apply cluster_engages|]. split; [reflexivity|]. rewrite He'. split; [|done].
  cbn. rewrite He. destruct refused as [e|]; [by destruct p|]. cbn.
  rewrite omap_app. cbn. by destruct (omap cluster_failure t1), p.
Qed.
End Errors.
