(* ===== verification/Webhook.v ===== *)
(** * Webhook: internal/webhook/v1alpha1/kubeswiftmachinetemplate_webhook.go

    The validator that makes the spec of a KubeSwiftMachineTemplate immutable outside
    topology dry-runs. *)

From S2P Require Import Prelude Go Prog Kube Api Lib Reference Samples.

Definition templateSpec (t : KubeSwiftMachineTemplate) : KubeSwiftMachineSpec :=
  kmtr_Spec (kmts_Template (kmt_Spec t)).

Section Definitions.
Context {lib : Lib}.

(** The validators return no warnings, hence just the error. *)
Definition ValidateCreate (_ : Context) (_ : KubeSwiftMachineTemplate) : option error := None.

Definition ValidateUpdate (ctx : Context) (oldTemplate newTemplate : KubeSwiftMachineTemplate) :
    option error :=
  match RequestFromContext ctx with
  | Err err => Some (NewBadRequest ("expected an admission.Request in the context: " +:+ Error err))
  | Ok req =>
    if negb (IsDryRunRequest req (kmt_ObjectMeta newTemplate)) &&
       negb (reflect_DeepEqual (templateSpec oldTemplate) (templateSpec newTemplate))
    then Some (NewInvalid (GroupVersion.1, "KubeSwiftMachineTemplate")
      (meta_Name (kmt_ObjectMeta newTemplate))
      [("spec.template.spec", templateSpec newTemplate,
        "KubeSwiftMachineTemplate spec.template.spec is immutable")])
    else None
  end.

Definition ValidateDelete (_ : Context) (_ : KubeSwiftMachineTemplate) : option error := None.

(** ** Update histories

    What the API server stores after one update request: the new object, if the
    validator admits it and the request is not a dry run. *)
Definition persists (ctx : Context) : bool :=
  match RequestFromContext ctx with
  | Ok req => negb (bool_decide (areq_DryRun req = Some true))
  | Err _ => true
  end.
Definition apply_update (stored : KubeSwiftMachineTemplate)
    (u : Context * KubeSwiftMachineTemplate) : KubeSwiftMachineTemplate :=
  match ValidateUpdate u.1 stored u.2 with
  | None => if persists u.1 then u.2 else stored
  | Some _ => stored
  end.
Definition apply_updates (stored : KubeSwiftMachineTemplate)
    (us : list (Context * KubeSwiftMachineTemplate)) : KubeSwiftMachineTemplate :=
  foldl apply_update stored us.
End Definitions.

Section Proofs.
Context {lib : Lib}.

Lemma ValidateUpdate_admits ctx old new :
  ValidateUpdate ctx old new = None ↔
  ∃ req, RequestFromContext ctx = Ok req ∧
    (IsDryRunRequest req (kmt_ObjectMeta new) = true ∨ templateSpec old = templateSpec new).
Proof.
  unfold ValidateUpdate. destruct (RequestFromContext ctx) as [req|err];
    [|split; [done|by intros (? & ? & _)]].
  unfold reflect_DeepEqual. destruct (IsDryRunRequest req (kmt_ObjectMeta new)) eqn:Ed; cbn.
  { split; [|done]. intros _. exists req. auto. }
  case_bool_decide as Hs; cbn.
  - split; [|done]. intros _. exists req. auto.
  - split; [done|]. intros (? & [= <-] & [?|?]); congruence.
Qed.

(** The webhook admits an update exactly when the request is in the context and
    either is a topology dry-run or leaves spec.template.spec as it was; it rejects no
    creation and no deletion. *)
Theorem ValidateUpdate_iff (ctx : Context) (old new : KubeSwiftMachineTemplate) :
  (ValidateUpdate ctx old new = None ↔
   ∃ req, RequestFromContext ctx = Ok req ∧
     (IsDryRunRequest req (kmt_ObjectMeta new) = true ∨ templateSpec old = templateSpec new)) ∧
  ValidateCreate ctx new = None ∧ ValidateDelete ctx old = None.
Proof. split; [apply ValidateUpdate_admits|done]. Qed.

Context {A : AdmissionLaws}.

Lemma apply_update_spec stored u : templateSpec (apply_update stored u) = templateSpec stored.
Proof.
  unfold apply_update, persists. destruct (ValidateUpdate u.1 stored u.2) eqn:E; [done|].
  apply ValidateUpdate_admits in E as (req & Hr & [Hd|Hs]); rewrite Hr.
  - apply IsDryRunRequest_dry in Hd. by rewrite bool_decide_eq_true_2.
  - by destruct (negb _).
Qed.

(** C25: Through any history of update requests, dry-runs and rejected ones included,
    the stored template keeps the spec it was created with, so a change always forces
    a new template. *)
Theorem template_spec_immutable
    (created : KubeSwiftMachineTemplate) (us : list (Context * KubeSwiftMachineTemplate)) :
  templateSpec (apply_updates created us) = templateSpec created.
Proof.
  unfold apply_updates. revert created. induction us as [|u us IH]; intros created; [done|].
  cbn. by rewrite IH, apply_update_spec.
Qed.
End Proofs.
