(* ===== verification/System.v ===== *)
(** * System: where the controllers meet

    The cluster controller's Service and the machine controller's guests, rendered
    from separate reads of the same objects, have to agree on labels and ports. *)

From S2P Require Import Prelude Go Prog Kube Api Lib Reference Backend Samples.
From S2P Require Import SwiftGuest SwiftGuestSpec SwiftGuestRun SwiftGuestStatus WorkloadNode MachineController.
From S2P Require Import EndpointService ClusterController EndpointSpec ClusterSpec MachineSpec MachineProps.

(** A Service's label selector matches an object of its namespace. *)
Definition selects {lib : Lib} (svc : Service) (u : Unstructured) : Prop :=
  GetNamespace u = meta_Namespace (svc_ObjectMeta svc) ∧
  ∀ k v, entries (ss_Selector (svc_Spec svc)) !! k = Some v → entries (GetLabels u) !! k = Some v.

(** An object that is a SwiftGuest; the ports it declares on its network. *)
Definition is_guest (u : Unstructured) : Prop := (type_of u).2 = Some (VStr "SwiftGuest").
Definition guest_ports (u : Unstructured) : option val :=
  lookup_path (Object u) ["spec"; "network"; "ports"].
Definition guest_port (name : string) (port : Z) : val :=
  VMap (<["name" := VStr name]> (<["port" := VInt port]> {["targetPort" := VInt port]})).

(** The ports the CRD admits for an endpoint Service (0: absent from the object). *)
Definition port_admitted (ksc : KubeSwiftCluster) : Prop :=
  ∀ cfg, serviceCfg ksc = Some cfg → (cps_Port cfg = 0 ∨ 1 ≤ cps_Port cfg ≤ 65535)%Z.

(** A cluster whose endpoint is a Service. *)
Definition in_service_mode (ksc : KubeSwiftCluster) : Prop :=
  ∃ ep, kscSpec_Endpoint (ksc_Spec ksc) = Some ep ∧ cpe_Mode ep = "Service".

(** The KubeSwiftCluster an event read, and under which key. *)
Definition ev_cluster_read (ev : event call) : option (NamespacedName * KubeSwiftCluster) :=
  match ev with
  | Ev c x =>
    match c in call X return X → option (NamespacedName * KubeSwiftCluster) with
    | Get k key _ =>
      match k return result (objT k) → option (NamespacedName * KubeSwiftCluster) with
      | KCluster => λ r, match r with Ok ksc => Some (key, ksc) | Err _ => None end
      | _ => λ _, None
      end
    | _ => λ _, None
    end x
  end.
Definition cluster_read (t : trace call) (key : NamespacedName) (ksc : KubeSwiftCluster) : Prop :=
  ∃ ev, ev ∈ t ∧ ev_cluster_read ev = Some (key, ksc).

(** Cluster API looks the Cluster of an object up in the namespace of the object. *)
Definition in_namespace : env call := λ X c,
  match c in call X return X → Prop with
  | GetClusterFromMetadata m => λ r,
    ∀ cluster, r = Ok cluster → meta_Namespace (clus_ObjectMeta cluster) = meta_Namespace m
  | _ => λ _, True
  end.
Definition cluster_key (cluster : Cluster) : NamespacedName :=
  mkNN (meta_Namespace (clus_ObjectMeta cluster)) (meta_Name (clus_ObjectMeta cluster)).

Section System.
Context {lib : Lib} {U : UnstructuredLaws} {S : ServiceLaws} {N : NestedLaws} {T : TypeLaws}.

Lemma guest_pool_label req cfg u :
  renderSwiftGuest req cfg = Some u →
  GetNamespace u = req_GuestNamespace req ∧
  entries (GetLabels u) !! ControlPlanePoolLabelKey =
    cpx_PoolLabel <$> req_ControlPlaneExposure req.
Proof.
  intros Hu. destruct (renderSwiftGuest_law req cfg) as (u' & Hu' & Hv & _).
  rewrite Hu in Hu'. injection Hu' as <-. unfold meta_view in Hv. injection Hv as -> _ ->.
  split; [done|]. cbn [entries default from_option id]. unfold guest_labels, request_labels.
  destruct (req_ControlPlaneExposure req), (req_Cluster req); by lookups.
Qed.

Lemma seed_pool_label req : entries (GetLabels (seedObject req)) !! ControlPlanePoolLabelKey = None.
Proof.
  destruct (labelled_law swiftSeedProfileGVK (req_GuestNamespace req) (seedName (req_Name req)) req) as [_ Hv].
  pose proof (meta_view_insert (labelled swiftSeedProfileGVK (req_GuestNamespace req)
    (seedName (req_Name req)) req) "spec" (VMap (seedProfileSpec req))) as Hm.
  fold (seedObject req) in Hm. rewrite Hv in Hm. specialize (Hm ltac:(unfold owned_keys; set_solver)).
  unfold meta_view in Hm. injection Hm as _ _ ->. cbn. unfold request_labels.
  destruct (req_Cluster req); by lookups.
Qed.

Lemma service_selects ksc cluster u :
  selects (buildControlPlaneService ksc cluster) u ↔
  GetNamespace u = meta_Namespace (ksc_ObjectMeta ksc) ∧
  entries (GetLabels u) !! ControlPlanePoolLabelKey = Some (meta_Name (clus_ObjectMeta cluster) +:+ "-cp").
Proof.
  unfold selects. destruct (buildControlPlaneService_spec ksc cluster) as (_ & -> & _ & _ & _ & -> & _).
  cbn [entries default from_option id]. split; (intros [Hn H]; split; [done|]).
  - apply H, lookup_singleton_eq.
  - intros k v. rewrite lookup_singleton_Some. by intros [<- <-].
Qed.

(** ** What a machine reconcile creates, and for which clusters *)

Lemma no_cluster_read t :
  Forall (λ ev, ev_cluster_read ev = None) t → omap ev_cluster_read t = [].
Proof. induction 1 as [|ev t He _ IH]; [done|]. cbn. by rewrite He. Qed.

Lemma inner_no_cluster_read t :
  backend_trace t ∨ node_trace t → omap ev_cluster_read t = [].
Proof.
  intros Ht. apply no_cluster_read. destruct Ht as [Ht|Ht]; (eapply List.Forall_impl; [|exact Ht]);
    intros [X [] x]; try done; by destruct k.
Qed.

(** The exposure of a request, by the KubeSwiftCluster it was read from. *)
Lemma exposure_read_cluster machine cluster t x :
  exposure_read machine cluster t x →
  (omap ev_cluster_read t = [] ∧ x = None) ∨
  ∃ ksc, IsControlPlaneMachine machine = true ∧
    omap ev_cluster_read t = [(clusterKey cluster, ksc)] ∧ x = service_exposure cluster ksc.
Proof. intros [|ksc]; [by left|right; by exists ksc]. Qed.

Lemma cluster_read_omap t key ksc : cluster_read t key ksc ↔ (key, ksc) ∈ omap ev_cluster_read t.
Proof. unfold cluster_read. rewrite list_elem_of_omap. done. Qed.

(** What was created, under what was read. *)
Definition created (t : trace call) (ksm : KubeSwiftMachine) (machine : Machine) (cluster : Cluster)
    (u : Unstructured) : Prop :=
  (∃ req, u = seedObject req) ∨
  ∃ req cfg, renderSwiftGuest req cfg = Some u ∧
    req_GuestNamespace req = meta_Namespace (ksm_ObjectMeta ksm) ∧
    ((omap ev_cluster_read t = [] ∧ req_ControlPlaneExposure req = None) ∨
     ∃ ksc, IsControlPlaneMachine machine = true ∧
       omap ev_cluster_read t = [(clusterKey cluster, ksc)] ∧
       req_ControlPlaneExposure req = service_exposure cluster ksc).

Lemma outcome_created ksm machine cluster t ksm' ret ev u :
  machine_outcome ksm machine cluster NewSwiftGuestBackend t ksm' ret →
  ev ∈ t → ev_create ev = Some u → created t ksm machine cluster u.
Proof.
  unfold machine_outcome. intros Ho Hev Hu.
  assert (∀ t', Forall (λ ev, ev_create ev = None) t' → ev ∈ t' → False) as Hno.
  { intros t' Ht Hin. rewrite list.Forall_forall in Ht. by rewrite (Ht ev Hin) in Hu. }
  destruct (deleting ksm).
  { exfalso. apply (Hno t); [|done]. destruct Ho as [err Hr|Hr|Hr];
      apply deletion_runs in Hr as (_ & Hr & _);
      (eapply List.Forall_impl; [|exact Hr]); by intros [X [] x]. }
  destruct Ho as [| |t' err Hro|name tb tx x tr res t2 k' ret' _ Hbr Hx Hr Hb];
    [by apply elem_of_nil in Hev|by apply elem_of_nil in Hev
    |destruct (Hno t'); [apply inner_create; by left|done]|].
  assert (node_trace t2) as Hn by (destruct Hb; [constructor|constructor|done]).
  rewrite !elem_of_app in Hev.
  destruct Hev as [Hev|[Hev|[Hev|Hev]]];
    [destruct (Hno tb); [apply inner_create; left; by eapply bootstrap_reads|done]
    |destruct (Hno tx); [apply inner_create; left; by eapply exposure_reads|done]
    | |destruct (Hno t2); [apply inner_create; by right|done]].
  apply backend_runs in Hr as (Hbt & Hc & _).
  apply list_elem_of_split in Hev as (l1 & l2 & ->).
  destruct (proj1 (each_after_spec _ _ _) Hc l1 ev l2 eq_refl u Hu) as [[-> _]|(cfg & _ & Hg & _)];
    [left; by eexists|right]. eexists _, cfg. split; [exact Hg|]. split; [done|].
  rewrite (omap_app _ tb), (omap_app _ tx), (omap_app _ (l1 ++ ev :: l2)),
    (inner_no_cluster_read t2), (inner_no_cluster_read (l1 ++ ev :: l2)) by auto.
  replace (omap ev_cluster_read tb) with (@nil (NamespacedName * KubeSwiftCluster)) by (by destruct Hbr).
  cbn [app]. rewrite app_nil_r. by apply exposure_read_cluster.
Qed.

Lemma Reconcile_created key :
  wp any (MachineController.Reconcile key) (λ t r, ∀ ev u, ev ∈ t → ev_create ev = Some u →
    ∃ ksm machine cluster,
      Ev (Get KMachine key KubeSwiftMachine_zero) (Ok ksm) ∈ t ∧
      Ev (GetOwnerMachine (ksm_ObjectMeta ksm)) (Ok (Some machine)) ∈ t ∧
      Ev (GetClusterFromMetadata (ksm_ObjectMeta ksm)) (Ok cluster) ∈ t ∧
      created t ksm machine cluster u).
Proof.
  apply Reconcile_rule.
  { intros t r Ht ev u Hev Hu. unfold read_only in Ht. rewrite list.Forall_forall in Ht.
    specialize (Ht ev Hev). by destruct ev as [X [] x]. }
  intros t r ksm machine cluster b t1 ksm' ret -> (t0 & p & [_ _] & -> & _) Ho ev u Hev Hu.
  exists ksm, machine, cluster. split_and!; [by left|by right; left|by do 2 right; left|].
  assert (ev ∈ t1) as Hin.
  { rewrite !elem_of_app in Hev. destruct Hev as [Hev|[Hev|Hev]]; [|done|].
    - repeat (apply elem_of_cons in Hev as [->|Hev]; [done|]). by apply elem_of_nil in Hev.
    - by apply list_elem_of_singleton in Hev as ->. }
  pose proof (outcome_created _ _ _ _ _ _ _ _ Ho Hin Hu) as Hc. unfold created in *.
  rewrite !omap_app. cbn. by rewrite app_nil_r.
Qed.

(** [service_exposure], in words. *)
Lemma service_exposure_Some cluster ksc x :
  service_exposure cluster ksc = Some x →
  in_service_mode ksc ∧ cpx_PoolLabel x = meta_Name (clus_ObjectMeta cluster) +:+ "-cp" ∧
  cpx_Port x = controlPlaneServicePort ksc.
Proof.
  unfold service_exposure, in_service_mode, controlPlaneServicePort, serviceCfg.
  destruct (kscSpec_Endpoint (ksc_Spec ksc)) as [ep|]; [|done].
  destruct (String.eqb (cpe_Mode ep) EndpointModeService) eqn:Em; bool_facts; [|done].
  intros [= <-]. split; [by exists ep|]. split; [done|]. simpl.
  destruct (cpe_Service ep) as [s|]; [|done]. by destruct (cps_Port s =? 0)%Z.
Qed.
Lemma service_exposure_None cluster ksc : in_service_mode ksc → service_exposure cluster ksc ≠ None.
Proof. intros (ep & He & Hm). unfold service_exposure. by rewrite He, Hm. Qed.

(** C21: A cluster's endpoint Service selects exactly the guests of its own
    control-plane machines: an object that a reconcile of any machine creates is selected
    by the Service of a KubeSwiftCluster if and only if it is a SwiftGuest - not a seed
    profile - of a control-plane machine, whose KubeSwiftCluster was read in Service mode,
    and the machine belongs to the very Cluster, by name and namespace, that owns the
    KubeSwiftCluster of the Service. *)
Theorem endpoint_selects_own_guests (key : NamespacedName) (ksc : KubeSwiftCluster) (cluster : Cluster) :
  meta_Namespace (clus_ObjectMeta cluster) = meta_Namespace (ksc_ObjectMeta ksc) →
  wp in_namespace (MachineController.Reconcile key) (λ t r, ∀ ev u,
    ev ∈ t → ev_create ev = Some u →
    ∃ ksm machine cluster',
      Ev (Get KMachine key KubeSwiftMachine_zero) (Ok ksm) ∈ t ∧
      Ev (GetOwnerMachine (ksm_ObjectMeta ksm)) (Ok (Some machine)) ∈ t ∧
      Ev (GetClusterFromMetadata (ksm_ObjectMeta ksm)) (Ok cluster') ∈ t ∧
      (selects (buildControlPlaneService ksc cluster) u ↔
        is_guest u ∧ IsControlPlaneMachine machine = true ∧
        (∃ ksc', cluster_read t (clusterKey cluster') ksc' ∧ in_service_mode ksc') ∧
        cluster_key cluster' = cluster_key cluster)).
Proof.
  intros Hns. eapply wp_mono; [|apply wp_allowed, Reconcile_created]. cbn beta.
  intros t r [Hall Hc] ev u Hev Hu.
  destruct (Hc ev u Hev Hu) as (ksm & machine & cluster' & H1 & H2 & H3 & Hcr).
  exists ksm, machine, cluster'. split; [done|]. split; [done|]. split; [done|].
  assert (meta_Namespace (clus_ObjectMeta cluster') = meta_Namespace (ksm_ObjectMeta ksm)) as Hin.
  { unfold allowed in Hall. rewrite list.Forall_forall in Hall. by apply (Hall _ H3). }
  rewrite service_selects. unfold cluster_key.
  destruct Hcr as [(req & ->)|(req & cfg & Hg & Hgn & Hx)].
  { rewrite seed_pool_label. unfold is_guest. rewrite seedObject_type. naive_solver. }
  destruct (guest_pool_label _ _ _ Hg) as [-> ->]. rewrite Hgn.
  pose proof (renderSwiftGuest_type _ _ _ Hg) as Ht. unfold is_guest. rewrite Ht.
  setoid_rewrite cluster_read_omap.
  destruct Hx as [[-> ->]|(ksc' & Hcp & -> & Hx)].
  { split; [by intros [_ ?]|]. intros (_ & _ & (? & Hnil & _) & _). by apply elem_of_nil in Hnil. }
  setoid_rewrite list_elem_of_singleton.
  destruct (req_ControlPlaneExposure req) as [x|]; symmetry in Hx.
  - apply service_exposure_Some in Hx as (Hmode & Hl & _). simpl. rewrite Hl. split.
    + intros [Hn [= Hname%string_app_inj_r]]. split_and!; [done|done|by exists ksc'|]. congruence.
    + intros (_ & _ & _ & [= Hn Hname]). split; congruence.
  - simpl. split; [by intros [_ ?]|]. intros (_ & _ & (k & [= ->] & Hm) & _).
    by apply (service_exposure_None cluster') in Hm.
Qed.

(** C30: Everything that speaks of the API-server port of a cluster in Service mode speaks
    of the same one: the endpoint Service listens on it and targets it; a guest created by
    a machine reconcile that read this cluster exposes it, under the name the Service's
    port has; and a cluster reconcile reports it, with the address of the Service, in
    the endpoint of the cluster it reports as provisioned - any other patch leaves the
    endpoint as it was. It is a valid TCP port whenever the configured one was
    admitted. *)
Theorem endpoint_ports_agree (ksc : KubeSwiftCluster) (cluster : Cluster) {D : DeepEqualLaws} :
  in_service_mode ksc →
  let port := controlPlaneServicePort ksc in
  ss_Ports (svc_Spec (buildControlPlaneService ksc cluster)) =
    [mkServicePort "apiserver" port (IntVal port) "TCP" 0] ∧
  (∀ key, wp any (MachineController.Reconcile key) (λ t r, ∀ ev u ckey,
    ev ∈ t → ev_create ev = Some u → is_guest u → cluster_read t ckey ksc →
    guest_ports u = Some (VList [guest_port "apiserver" port]))) ∧
  (∀ key, wp any (ClusterController.Reconcile key) (λ t r, ∀ ev before after,
    ev ∈ t → cluster_patch ev = Some (before, after) →
    kscSpec_Endpoint (ksc_Spec before) = kscSpec_Endpoint (ksc_Spec ksc) →
    (∃ host, endpoint after = Some (mkAPIEndpoint host port) ∧ cluster_provisioned after = Some true) ∨
    (ksc_Spec after = ksc_Spec before ∧
     (ksc_Status after = ksc_Status before ∨ cluster_provisioned after = Some false)))) ∧
  (port_admitted ksc → (1 ≤ port ≤ 65535)%Z).
Proof.
  intros Hmode port. split_and!.
  - destruct (buildControlPlaneService_spec ksc cluster) as (_ & _ & -> & _). done.
  - intros key. eapply wp_mono; [|apply Reconcile_created]. cbn beta.
    intros t r Hc ev u ckey Hev Hu Hk Hr%cluster_read_omap.
    destruct (Hc ev u Hev Hu) as (ksm & machine & cluster' & _ & _ & _ & Hcr).
    destruct Hcr as [(req & ->)|(req & cfg & Hg & _ & Hx)].
    { unfold is_guest in Hk. by rewrite seedObject_type in Hk. }
    destruct Hx as [[Hn _]|(ksc' & _ & Hn & Hx)]; rewrite Hn in Hr; [by apply elem_of_nil in Hr|].
    apply list_elem_of_singleton in Hr as [= _ <-].
    destruct (service_exposure cluster' ksc) as [x|] eqn:Ex;
      [|by apply (service_exposure_None cluster') in Hmode].
    apply service_exposure_Some in Ex as (_ & _ & Hp). unfold port. rewrite <- Hp.
    destruct (renderSwiftGuest_law req cfg) as (u' & Hu' & _ & Hs & _).
    rewrite Hg in Hu'. injection Hu' as <-. unfold guest_ports. cbn [lookup_path].
    rewrite Hs, (proj2 (guestSpec_asked req cfg _ _) (asked_network _ _ _ Hx)). reflexivity.
  - intros key. apply Reconcile_cluster_rule.
    { intros t r Ht ev before after Hev. by rewrite (cluster_read_only_patch t ev Ht Hev). }
    intros t r k c t1 k' ret Ht Ho ev before after Hev Hp He.
    destruct (cluster_touches_patch _ _ _ _ _ _ _ _ _ _ _ Ht Ho Hev Hp) as [-> ->].
    destruct Hmode as (ep & Hep & Hm).
    destruct Ho as [| |t2 svc host Hd Hs Hst Hw Hse Ha| |ep' Hd Hs| |];
      try (right; split; [done|]; by auto).
    + left. exists host. split; [|done]. unfold port, controlPlaneServicePort, serviceCfg.
      rewrite <- He. done.
    + unfold service_mode, endpointMode in Hs. by rewrite He, Hep, Hm in Hs.
  - intros Hp. unfold port, controlPlaneServicePort, defaultAPIServerPort.
    destruct (serviceCfg ksc) as [c|] eqn:Ec; [|lia]. specialize (Hp c Ec).
    destruct (cps_Port c =? 0)%Z eqn:E; bool_facts; cbn; lia.
Qed.
End System.
