(* ===== verification/Witnesses.v ===== *)
(** * Witnesses: the claims with hypotheses, at concrete inputs

    Each lemma applies one claim to the reference library of [Reference.v] and the
    objects of [Samples.v], mostly to a run against a server with fixed answers. *)

From S2P Require Import Prelude Go Prog Kube Api Lib Reference Backend Samples.
From S2P Require Import SwiftGuest SwiftGuestSpec SwiftGuestRun SwiftGuestStatus.
From S2P Require Import WorkloadNode MachineController MachineSpec MachineProps MachineStatus MachineErrors.
From S2P Require Import EndpointService ClusterController EndpointSpec ClusterSpec ClusterErrors Webhook System.

(** Two servers: one without a guest, one whose guest runs behind its pod. *)
Definition absent : result Unstructured := Err (Ref.NotFound "absent").
Definition running : result Unstructured := Ok (guest_status "Running" nat_network).
Definition new_server : Server := demo_server absent None.
Definition up_server : Server := demo_server running None.

(** A machine being deleted, and a paused one. *)
Definition doomed_ksm : KubeSwiftMachine :=
  mkKubeSwiftMachine (mkObjectMeta "cp-0" "ns" None None [MachineFinalizer; "other"] (Some 7%Z) [] "")
    (ksm_Spec demo_ksm) (ksm_Status demo_ksm).
Definition paused_ksm : KubeSwiftMachine :=
  mkKubeSwiftMachine
    (mkObjectMeta "cp-0" "ns" None (Some {["cluster.x-k8s.io/paused" := ""]}) [] None [] "")
    (ksm_Spec demo_ksm) (ksm_Status demo_ksm).
Definition server_of (ksm : KubeSwiftMachine) : Server :=
  mkServer (Ok ksm) (Some demo_machine) (Ok demo_ksc) (Ok demo_service) absent
    (Ok (mkNode "cp-0" "")) None.

Abbreviation reconciled sv := (run sv (MachineController.Reconcile demo_key)).

(** Compute a closed equation. *)
Ltac computes := vm_compute; reflexivity.

(** [on_run E thm]: the claim [thm], on the run whose return value is [E]. *)
Ltac on_run E thm := let H := fresh "H" in pose proof (run_wp _ _ _ _ E thm) as H; cbn beta in H; revert H.

(** The answer a patch of a machine got. *)
Definition ev_patch_answer (ev : event call) : option (option error) :=
  match ev with
  | Ev c x =>
    match c in call X return X → option (option error) with
    | Patch _ _ _ => λ p, Some p
    | _ => λ _, None
    end x
  end.

(** The patch of a run, observed through [f]. *)
Lemma patch_at {X} n (f : KubeSwiftMachine * KubeSwiftMachine → X) t x :
  f <$> at_event n ev_patch t = Some x →
  ∃ ev before after, ev ∈ t ∧ ev_patch ev = Some (before, after) ∧ f (before, after) = x.
Proof.
  destruct (at_event n ev_patch t) as [[b a]|] eqn:E; [|done]. intros [= <-].
  destruct (at_event_split _ _ _ _ E) as (ev & Hev & _ & Hf). by exists ev, b, a.
Qed.

(** ** Machines *)

Lemma Reconcile_creation_witness :
  ∃ t u t1 ev t2, t = (reconciled new_server).1 ∧
    t = t1 ++ ev :: t2 ∧ ev_create ev = Some u ∧ creation demo_key t1 u.
Proof.
  assert (returned (reconciled new_server) = Some requeue) as E by computes.
  on_run E (Reconcile_creation demo_key). intros H.
  assert (Hu : (λ u, GetName u) <$> at_event 9 ev_create (reconciled new_server).1 = Some "cp-0")
    by computes.
  destruct (at_event 9 ev_create (reconciled new_server).1) as [u|] eqn:Eu; [|done].
  destruct (at_event_split _ _ _ _ Eu) as (ev & _ & Ht & Hc).
  exists (reconciled new_server).1, u, (take 9 (reconciled new_server).1), ev,
    (drop 10 (reconciled new_server).1).
  split_and!; [done|done|done|].
  by apply (proj1 (each_after_spec _ _ _) H _ _ _ Ht).
Defined.

Lemma Reconcile_readiness_witness :
  ∃ before after g, provisioned before = None ∧ provisioned after = Some true ∧
    backed_by (reconciled up_server).1 before after g ∧
    ksmSpec_ProviderID (ksm_Spec after) = providerIDOf before.
Proof.
  assert (returned (reconciled up_server) = Some finished) as E by computes.
  assert (Hp : (λ p, (provisioned p.1, provisioned p.2)) <$>
    at_event 14 ev_patch (reconciled up_server).1 = Some (None, Some true)) by computes.
  apply patch_at in Hp as (ev & before & after & Hev & Hp & [= Hb Ha]).
  on_run E (Reconcile_readiness demo_key). intros H.
  destruct (H ev before after Hev Hp Ha) as [[Hs _]|[[g Hg] Hid]].
  - unfold provisioned in *. congruence.
  - by exists before, after, g.
Defined.

Lemma Reconcile_finalizer_witness :
  ∃ before after, finalizers before = [MachineFinalizer; "other"] ∧
    finalizers after = ["other"] ∧
    deleting before = true ∧ guest_gone before (reconciled (server_of doomed_ksm)).1.
Proof.
  assert (returned (reconciled (server_of doomed_ksm)) = Some finished) as E by computes.
  assert (Hp : (λ p, (finalizers p.1, finalizers p.2)) <$>
    at_event 6 ev_patch (reconciled (server_of doomed_ksm)).1 =
      Some ([MachineFinalizer; "other"], ["other"])) by computes.
  apply patch_at in Hp as (ev & before & after & Hev & Hp & [= Hb Ha]).
  on_run E (Reconcile_finalizer demo_key). intros H.
  destruct (H ev before after Hev Hp) as (_ & Hd & _).
  destruct Hd as [Hd Hg]; [rewrite Hb; by left|rewrite Ha|].
  - intros [?|?%elem_of_nil]%elem_of_cons; done.
  - by exists before, after.
Defined.

Lemma demo_inv : machine_inv demo_ksm.
Proof. split; [constructor|]. rewrite decide_False by done. done. Qed.

Lemma Reconcile_status_invariant_witness :
  ∃ before after, before = demo_ksm ∧ provisioned after = Some true ∧
    machine_inv before ∧ machine_inv after.
Proof.
  assert (returned (reconciled up_server) = Some finished) as E by computes.
  assert (Hp : (λ p, (p.1, provisioned p.2)) <$>
    at_event 14 ev_patch (reconciled up_server).1 = Some (demo_ksm, Some true)) by computes.
  apply patch_at in Hp as (ev & before & after & Hev & Hp & [= Hb Ha]).
  on_run E (Reconcile_status_invariant demo_key). intros H.
  assert (machine_inv before) as Hi by (rewrite Hb; apply demo_inv).
  exists before, after. split_and!; [done|done|done|]. exact (H ev before after Hev Hp Hi).
Defined.

Lemma Reconcile_retries_witness :
  ∃ before after, finished = (mkResult 0, None) ∧
    (finished = (mkResult (15 * 1000000000), None) ∨ (∃ err, finished.2 = Some err) ∨
     (finished = (mkResult 0, None) ∧ settled before after (reconciled up_server).1)).
Proof.
  assert (returned (reconciled up_server) = Some finished) as E by computes.
  assert (Hp : (λ p, provisioned p.2) <$>
    at_event 14 ev_patch (reconciled up_server).1 = Some (Some true)) by computes.
  apply patch_at in Hp as (ev & before & after & Hev & Hp & _).
  on_run E (Reconcile_retries demo_key). intros H.
  exists before, after. split; [done|]. exact (H ev before after Hev Hp).
Defined.

(** A machine whose configuration names no image. *)
Definition invalid_ksm : KubeSwiftMachine := machine_of "cp-0" SwiftGuestBackend_zero.

Lemma Reconcile_surfaces_errors_witness :
  let e := Errorf "spec.backend.swiftGuest.imageRef and guestClassRef are required" in
  returned (reconciled (server_of invalid_ksm)) = Some (failed e) ∧
  ∃ machine cluster t0 t1 after p,
    (reconciled (server_of invalid_ksm)).1 = t0 ++ t1 ++ [Ev (Patch KMachine invalid_ksm after) p] ∧
    machine_says invalid_ksm machine cluster t1 after (Some e).
Proof.
  set (e := Errorf "spec.backend.swiftGuest.imageRef and guestClassRef are required"). cbv zeta.
  assert (returned (reconciled (server_of invalid_ksm)) = Some (failed e)) as E by computes.
  split; [exact E|].
  assert (Hp : (λ p, p.1) <$> at_event 6 ev_patch (reconciled (server_of invalid_ksm)).1 =
    Some invalid_ksm) by computes.
  assert (list.last (reconciled (server_of invalid_ksm)).1 ≫= ev_patch_answer = Some None) as Ha by computes.
  apply patch_at in Hp as (ev & before & after & Hev & Hp & Hb). cbn [fst] in Hb. subst before.
  on_run E (Reconcile_surfaces_errors demo_key). intros H.
  destruct (H ev invalid_ksm after Hev Hp ltac:(constructor)) as (machine & cluster & t0 & t1 & err & p & _ & Ht & Hx & Hr).
  exists machine, cluster, t0, t1, after, p. split; [exact Ht|].
  rewrite Ht, app_assoc, last_snoc in Ha. injection Ha as ->.
  destruct err as [err|]; [|discriminate Hr]. injection Hr as <-.
  change (deleting invalid_ksm) with false in Hx. exact Hx.
Defined.

Lemma Reconcile_hands_off_witness :
  IsPaused demo_cluster (ksm_ObjectMeta paused_ksm) = true ∧
  length (reconciled (server_of paused_ksm)).1 = 3 ∧
  read_only (reconciled (server_of paused_ksm)).1.
Proof.
  assert (returned (reconciled (server_of paused_ksm)) = Some finished) as E by computes.
  assert (length (reconciled (server_of paused_ksm)).1 = 3) as Hl by computes.
  split; [computes|]. split; [exact Hl|]. revert Hl.
  on_run E (Reconcile_hands_off demo_key).
  intros [H|(? & ? & ? & t0 & t1 & ? & ? & [_ _] & -> & _)] Hl; [exact H|].
  rewrite !length_app in Hl. cbn in Hl. lia.
Defined.

(** ** The SwiftGuest backend *)

Abbreviation backed sv req := (run sv (SwiftGuest.Reconcile req)).

Lemma guest_interfaces_witness :
  validate demo_request = Ok demo_cfg ∧
  ∃ l, parse_interfaces (guestSpec demo_request demo_cfg !! "interfaces") = Some l ∧
    one_primary l ∧ length l = 2.
Proof.
  assert (validate demo_request = Ok demo_cfg) as E by computes.
  split; [exact E|].
  destruct (guest_interfaces demo_request demo_cfg E) as (l & Hl & Hw & [Hn|[Hp _]] & _).
  - rewrite Hw in Hn. vm_compute in Hn. done.
  - exists l. split; [exact Hl|]. split; [exact Hp|]. by rewrite Hw.
Defined.

Lemma guest_gpu_witness :
  validate gpu_request = Ok gpu_cfg ∧
  gpu_spec_sources (guestSpec gpu_request gpu_cfg) = [("template", "gpu-template")] ∧
  guestSpec gpu_request gpu_cfg !! "nodeName" = None.
Proof.
  assert (validate gpu_request = Ok gpu_cfg) as E by computes.
  destruct (guest_gpu gpu_request gpu_cfg _ E eq_refl) as (Hs & _ & Hn & _).
  split; [exact E|]. split; [|exact Hn]. rewrite Hs. computes.
Defined.

Lemma renderSwiftGuest_object_witness :
  ∃ u labels, renderSwiftGuest gpu_request gpu_cfg = Some u ∧
    meta_view u = ("ns", "w-0", Some labels) ∧ labels !! "swift.kubeswift.io/pool" = None ∧
    lookup_path (Object u) ["spec"; "gpuResourceClaim"] =
      Some (object [("resourceClaimTemplateName", VStr "gpu-template"); ("requestName", VStr "gpu");
        ("tier", VStr "pcie"); ("hugepages", VStr "1Gi")]) ∧
    lookup_path (Object u) ["spec"; "network"] = None.
Proof.
  destruct (renderSwiftGuest_object gpu_request gpu_cfg) as (u & labels & Hu & _ & Hm & Hl & Hs & _).
  exists u, labels. split; [exact Hu|]. split; [exact Hm|]. split; [|split].
  - destruct (labels !! "swift.kubeswift.io/pool") as [v|] eqn:E; [|reflexivity].
    apply Hl in E. inversion E as [| |x Hx]. discriminate Hx.
  - apply Hs. exact (asked_claim gpu_request gpu_cfg _ eq_refl eq_refl).
  - destruct (lookup_path (Object u) ["spec"; "network"]) as [v|] eqn:E; [|reflexivity].
    apply Hs in E. inversion E as [| | | | | | | | | |x Hx]. discriminate Hx.
Defined.

Lemma ensureSeedProfile_writes_witness :
  ∃ u, at_event 1 ev_create (run new_server (ensureSeedProfile demo_request)).1 = Some u ∧
    seed_points_at_secret demo_request u.
Proof.
  assert (returned (run new_server (ensureSeedProfile demo_request)) = Some None) as E by computes.
  on_run E (ensureSeedProfile_writes demo_request). intros [_ H].
  assert (Hu : (λ u, GetName u) <$> at_event 1 ev_create
    (run new_server (ensureSeedProfile demo_request)).1 = Some "cp-0-seed") by computes.
  destruct (at_event 1 ev_create _) as [u|] eqn:Eu; [|done].
  exists u. split; [done|]. destruct (at_event_split _ _ _ _ Eu) as (ev & Hev & _ & Hc).
  rewrite list.Forall_forall in H. apply (H ev Hev). by left.
Defined.

Lemma Reconcile_creates_witness :
  ∃ u t1 ev t2, (backed new_server demo_request).1 = t1 ++ ev :: t2 ∧ ev_create ev = Some u ∧
    guest_creation demo_request demo_cfg t1 u.
Proof.
  assert (returned (backed new_server demo_request) = Some (Ok (mkBackendResult false [] true "" "")))
    as E by computes.
  on_run E (SwiftGuestRun.Reconcile_creates demo_request). intros (_ & _ & H).
  assert (Hu : (λ u, GetName u) <$> at_event 3 ev_create (backed new_server demo_request).1 =
    Some "cp-0") by computes.
  assert (length (take 3 (backed new_server demo_request).1) = 3) as Hl by computes.
  assert (validate demo_request = Ok demo_cfg) as E' by computes.
  clear E. revert H Hu Hl. generalize (backed new_server demo_request).1. intros t H Hu Hl.
  destruct (at_event 3 ev_create t) as [u|] eqn:Eu; [|discriminate Hu].
  destruct (at_event_split _ _ _ _ Eu) as (ev & _ & Ht & Hc).
  exists u, (take 3 t), ev, (drop 4 t). split; [exact Ht|]. split; [exact Hc|].
  destruct (proj1 (each_after_spec _ _ _) H _ _ _ Ht u Hc) as [(_ & e & _ & Hpre)|(cfg & Hv & Hg)].
  - cbn [app] in Hpre. rewrite Hpre in Hl. discriminate Hl.
  - rewrite E' in Hv. injection Hv as <-. exact Hg.
Defined.

Lemma guestResult_status_witness :
  ∃ res, guestResult demo_request (guest_status "Running" nat_network) = Ok res ∧
    ∃ a, reachable_at (guest_status "Running" nat_network) a ∧
      res = mkBackendResult true [mkMachineAddress MachineInternalIP a] false "" "".
Proof.
  pose proof (guestResult_status demo_request (guest_status "Running" nat_network)) as H.
  assert (guestResult demo_request (guest_status "Running" nat_network) =
    Ok (mkBackendResult true [mkMachineAddress MachineInternalIP "10.244.1.7"] false "" ""))
    as E by computes.
  rewrite E in H. eexists. split; [exact E|].
  destruct H as (_ & [(_ & a & Ha & Hr)|(_ & Hw & _)]); [by exists a|done].
Defined.

Lemma Delete_order_witness :
  ∃ e d, gone d ∧ (run new_server (SwiftGuest.Delete demo_request)).1 =
    [get_guest demo_request (Err e);
     Ev (Lib.Delete KUnstructured (seedRef demo_request)) d] ∧
    meta_view (seedRef demo_request) = ("ns", "cp-0-seed", None).
Proof.
  assert (returned (run new_server (SwiftGuest.Delete demo_request)) = Some (Ok true)) as E
    by computes.
  destruct (Delete_order demo_request) as [Hwp Hv].
  on_run E Hwp. intros (_ & _ & H). destruct (H eq_refl) as (e & d & _ & Hg & Ht).
  by exists e, d.
Defined.

(** ** Clusters and their Service *)

Definition demo_desired : Service :=
  match SetControllerReference demo_ksc (buildControlPlaneService demo_ksc demo_cluster) with
  | Ok s => s | Err _ => Service_zero end.

Abbreviation reconciled_cluster sv := (run sv (ClusterController.Reconcile demo_key)).

(** A cluster being deleted. *)
Definition doomed_ksc : KubeSwiftCluster :=
  mkKubeSwiftCluster (mkObjectMeta "demo" "ns" None None [ClusterFinalizer] (Some 7%Z) [] "")
    (ksc_Spec demo_ksc) (ksc_Status demo_ksc).
Definition cluster_server (ksc : KubeSwiftCluster) : Server :=
  mkServer (Ok demo_ksm) (Some demo_machine) (Ok ksc) (Ok demo_service) absent
    (Ok (mkNode "cp-0" "")) None.

Lemma cluster_patch_at {X} n (f : KubeSwiftCluster * KubeSwiftCluster → X) t x :
  f <$> at_event n cluster_patch t = Some x →
  ∃ ev before after, ev ∈ t ∧ cluster_patch ev = Some (before, after) ∧ f (before, after) = x.
Proof.
  destruct (at_event n cluster_patch t) as [[b a]|] eqn:E; [|done]. intros [= <-].
  destruct (at_event_split _ _ _ _ E) as (ev & Hev & _ & Hf). by exists ev, b, a.
Qed.

(** The owner and the Cluster that a read of them answered. *)
Definition owner_read (ev : event call) : option Machine :=
  match ev with
  | Ev c x =>
    match c in call X return X → option Machine with
    | GetOwnerMachine _ => λ r, match r with Ok o => o | Err _ => None end
    | _ => λ _, None
    end x
  end.
Definition cluster_answer (ev : event call) : option Cluster :=
  match ev with
  | Ev c x =>
    match c in call X return X → option Cluster with
    | GetClusterFromMetadata _ => λ r, match r with Ok c => Some c | Err _ => None end
    | _ => λ _, None
    end x
  end.
Lemma answered_by {X} (f : event call → option X) t ev x y :
  omap f t = [x] → ev ∈ t → f ev = Some y → y = x.
Proof.
  intros Ht Hev Hf. assert (y ∈ omap f t) as H by (apply list_elem_of_omap; by exists ev).
  rewrite Ht in H. by apply list_elem_of_singleton in H.
Qed.

(** The Cluster of a machine is looked up in its namespace. *)
Definition local_cluster (ev : event call) : bool :=
  match ev with
  | Ev c x =>
    match c in call X return X → bool with
    | GetClusterFromMetadata m => λ r,
      match r with
      | Ok cluster => String.eqb (meta_Namespace (clus_ObjectMeta cluster)) (meta_Namespace m)
      | Err _ => true
      end
    | _ => λ _, true
    end x
  end.
Lemma local_allowed t : forallb local_cluster t = true → allowed in_namespace t.
Proof.
  intros Ht. apply list.Forall_forall. intros [X c x] Hin.
  rewrite forallb_forall in Ht. specialize (Ht _ (proj1 (list_elem_of_In _ _) Hin)).
  destruct c; try done. intros c ->. by apply String.eqb_eq.
Qed.

(** The guest created for a control-plane machine; the Service of its cluster, and that of
    a cluster of the same name elsewhere. *)
Definition is_created (ev : event call) : option (string * bool) :=
  match ev_create ev with
  | Some u => Some (GetName u, bool_decide (is_guest u))
  | None => None
  end.
Definition elsewhere_ksc : KubeSwiftCluster :=
  mkKubeSwiftCluster (mkObjectMeta "demo" "other" None None [] None [] "") (ksc_Spec demo_ksc) (ksc_Status demo_ksc).
Definition elsewhere : Cluster :=
  mkCluster (mkObjectMeta "demo" "other" None None [] None [] "") None "demo" (Some true).

Lemma created_at n x :
  at_event n is_created (reconciled new_server).1 = Some (x, true) →
  ∃ ev u, ev ∈ (reconciled new_server).1 ∧ ev_create ev = Some u ∧ GetName u = x ∧ is_guest u.
Proof.
  destruct (at_event n is_created _) as [[y b]|] eqn:E; [|done]. intros [= <- ->].
  destruct (at_event_split _ _ _ _ E) as (ev & Hev & _ & Hf). unfold is_created in Hf.
  destruct (ev_create ev) as [u|] eqn:Eu; [|done]. injection Hf as Hn Hb.
  exists ev, u. by apply bool_decide_eq_true in Hb.
Qed.

Lemma endpoint_selects_own_guests_witness :
  ∃ u, GetName u = "cp-0" ∧ is_guest u ∧
    selects (buildControlPlaneService demo_ksc demo_cluster) u ∧
    ¬ selects (buildControlPlaneService elsewhere_ksc elsewhere) u.
Proof.
  assert (returned (reconciled new_server) = Some requeue) as E by computes.
  assert (allowed in_namespace (reconciled new_server).1) as Hall by (apply local_allowed; computes).
  assert (at_event 9 is_created (reconciled new_server).1 = Some ("cp-0", true)) as Hc by computes.
  assert (omap ev_cluster_read (reconciled new_server).1 = [(mkNN "ns" "demo", demo_ksc)]) as Hr by computes.
  destruct (created_at 9 "cp-0" Hc) as (ev & u & Hev & Hu & Hn & Hk).
  exists u. split; [exact Hn|]. split; [exact Hk|].
  destruct (wp_runs _ _ _ _ _ (endpoint_selects_own_guests demo_key demo_ksc demo_cluster eq_refl)
    (run_returned _ _ _ E) Hall) as (r & _ & H).
  destruct (wp_runs _ _ _ _ _ (endpoint_selects_own_guests demo_key elsewhere_ksc elsewhere eq_refl)
    (run_returned _ _ _ E) Hall) as (r' & _ & H').
  destruct (H ev u Hev Hu) as (ksm & machine & cluster & H1 & H2 & H3 & Hs).
  destruct (H' ev u Hev Hu) as (ksm' & machine' & cluster' & H1' & H2' & H3' & Hs').
  assert (omap owner_read (reconciled new_server).1 = [demo_machine]) as Ho by computes.
  assert (omap cluster_answer (reconciled new_server).1 = [demo_cluster]) as Hcl by computes.
  assert (machine = demo_machine) as -> by exact (answered_by _ _ _ _ _ Ho H2 eq_refl).
  assert (cluster = demo_cluster) as -> by exact (answered_by _ _ _ _ _ Hcl H3 eq_refl).
  assert (cluster' = demo_cluster) as -> by exact (answered_by _ _ _ _ _ Hcl H3' eq_refl).
  split.
  - apply Hs. split; [exact Hk|]. split; [reflexivity|]. split; [|reflexivity].
    exists demo_ksc. split; [|eexists; split; reflexivity]. apply cluster_read_omap. rewrite Hr. left.
  - intros Hx. apply Hs' in Hx as (_ & _ & _ & Hx). discriminate Hx.
Defined.

Lemma endpoint_ports_agree_witness :
  ∃ u, GetName u = "cp-0" ∧ guest_ports u = Some (VList [guest_port "apiserver" 6443]) ∧
    (1 ≤ controlPlaneServicePort demo_ksc ≤ 65535)%Z ∧
    ∃ before after host, cluster_provisioned before = None ∧ cluster_provisioned after = Some true ∧
      endpoint after = Some (mkAPIEndpoint host 6443).
Proof.
  assert (in_service_mode demo_ksc) as Hmode by (eexists; split; reflexivity).
  destruct (endpoint_ports_agree demo_ksc demo_cluster Hmode) as (_ & Hm & Hc & Hb).
  assert (returned (reconciled new_server) = Some requeue) as E by computes.
  assert (at_event 9 is_created (reconciled new_server).1 = Some ("cp-0", true)) as Hx by computes.
  assert (omap ev_cluster_read (reconciled new_server).1 = [(mkNN "ns" "demo", demo_ksc)]) as Hr by computes.
  destruct (created_at 9 "cp-0" Hx) as (ev & u & Hev & Hu & Hn & Hk).
  exists u. split; [exact Hn|]. split.
  { refine (run_wp _ _ _ _ E (Hm demo_key) ev u (mkNN "ns" "demo") Hev Hu Hk _).
    apply cluster_read_omap. rewrite Hr. left. }
  split; [apply Hb; intros cfg [= <-]; by left|].
  assert (returned (reconciled_cluster up_server) = Some finished) as E2 by computes.
  assert (Hp : (λ p, (cluster_provisioned p.1, cluster_provisioned p.2, kscSpec_Endpoint (ksc_Spec p.1))) <$>
    at_event 5 cluster_patch (reconciled_cluster up_server).1 =
      Some (None, Some true, kscSpec_Endpoint (ksc_Spec demo_ksc))) by computes.
  apply cluster_patch_at in Hp as (ev2 & before & after & Hev2 & Hp & Hy).
  cbn [fst snd] in Hy. injection Hy as Hb1 Ha1 He.
  destruct (run_wp _ _ _ _ E2 (Hc demo_key) ev2 before after Hev2 Hp He) as [(host & Hh & _)|[_ Hno]].
  - exists before, after, host. split; [exact Hb1|]. split; [exact Ha1|exact Hh].
  - exfalso. unfold cluster_provisioned in *. destruct Hno as [Hno|Hno]; congruence.
Defined.


Lemma Reconcile_cluster_readiness_witness :
  ∃ before after, cluster_provisioned after = Some true ∧
    endpoint after = Some (mkAPIEndpoint "203.0.113.7" 6443) ∧
    endpoint_source before after (reconciled_cluster up_server).1.
Proof.
  assert (returned (reconciled_cluster up_server) = Some finished) as E by computes.
  assert (Hp : (λ p, (cluster_provisioned p.1, cluster_provisioned p.2, endpoint p.2)) <$>
    at_event 5 cluster_patch (reconciled_cluster up_server).1 =
      Some (None, Some true, Some (mkAPIEndpoint "203.0.113.7" 6443))) by computes.
  apply cluster_patch_at in Hp as (ev & before & after & Hev & Hp & Hx).
  cbn [fst snd] in Hx. injection Hx as Hb Ha He.
  on_run E (Reconcile_cluster_readiness demo_key). intros H.
  destruct (H ev before after Hev Hp Ha) as [[Hs _]|[_ Hsrc]].
  - unfold cluster_provisioned in *. congruence.
  - exists before, after. split; [exact Ha|]. split; [exact He|exact Hsrc].
Defined.

(** The Service cannot be read, and the patch is refused as well. *)
Definition broken_server : Server :=
  mkServer (Ok demo_ksm) (Some demo_machine) (Ok demo_ksc) (Err (Errorf "timeout")) absent
    (Ok (mkNode "cp-0" "")) (Some (Errorf "conflict")).

Lemma Reconcile_cluster_surfaces_errors_witness :
  returned (reconciled_cluster broken_server) = Some (failed (ensuring (Errorf "timeout"))) ∧
  omap cluster_failure (reconciled_cluster broken_server).1 =
    [ensuring (Errorf "timeout"); Errorf "conflict"] ∧
  ∃ before after p, list.last (reconciled_cluster broken_server).1 = Some (Ev (Patch KCluster before after) p) ∧
    cluster_finalizers after = [ClusterFinalizer] ∧
    ksc_Status after = ksc_Status before ∧ ksc_Spec after = ksc_Spec before.
Proof.
  assert (returned (reconciled_cluster broken_server) = Some (failed (ensuring (Errorf "timeout")))) as E
    by computes.
  assert (omap cluster_failure (reconciled_cluster broken_server).1 =
    [ensuring (Errorf "timeout"); Errorf "conflict"]) as Hf by computes.
  split; [exact E|]. split; [exact Hf|].
  assert (Hl : (λ p, cluster_finalizers p.2) <$>
    (list.last (reconciled_cluster broken_server).1 ≫= cluster_patch) = Some [ClusterFinalizer]) by computes.
  on_run E (Reconcile_cluster_surfaces_errors demo_key). clear E.
  intros (_ & [[Hro _]|(ksc & cluster & t0 & t1 & ksc' & p & refused & _ & Ht & _ & H)]).
  { destruct (list.last _) as [ev|] eqn:Hev in Hl; [|discriminate Hl]. cbn [mbind option_bind] in Hl.
    apply last_Some in Hev as [t' Hev].
    rewrite (cluster_read_only_patch _ ev Hro) in Hl; [discriminate Hl|]. rewrite Hev. apply elem_of_app. right. left. }
  rewrite Ht in Hl, Hf |- *. rewrite app_assoc in Hl, Hf |- *. rewrite last_snoc in Hl |- *.
  exists ksc, ksc', p. split; [reflexivity|]. cbn in Hl. injection Hl as Hl. split; [exact Hl|].
  apply (reports_status _ _ _ _ _ _ H). left. intros Hn. destruct refused as [e|]; [discriminate Hn|].
  cbn [first_failure] in Hn. rewrite omap_app in Hf.
  destruct (omap cluster_failure (t0 ++ t1)); [|discriminate Hn]. cbn in Hf. destruct p; discriminate Hf.
Defined.

Lemma demo_cluster_inv : cluster_inv demo_ksc.
Proof. split; [constructor|]. rewrite decide_False by done. done. Qed.

Lemma Reconcile_cluster_invariant_witness :
  ∃ before after, cluster_inv before ∧ cluster_provisioned after = Some true ∧ cluster_inv after.
Proof.
  assert (returned (reconciled_cluster up_server) = Some finished) as E by computes.
  assert (Hp : (λ p, (p.1, cluster_provisioned p.2)) <$>
    at_event 5 cluster_patch (reconciled_cluster up_server).1 = Some (demo_ksc, Some true))
    by computes.
  apply cluster_patch_at in Hp as (ev & before & after & Hev & Hp & Hx).
  assert (before = demo_ksc ∧ cluster_provisioned after = Some true) as [Hb Ha]
    by (split; [exact (f_equal fst Hx)|exact (f_equal snd Hx)]).
  on_run E (Reconcile_cluster_invariant demo_key). intros H.
  assert (cluster_inv before) as Hi by (rewrite Hb; apply demo_cluster_inv).
  exists before, after. split; [exact Hi|]. split; [exact Ha|]. exact (H ev before after Hev Hp Hi).
Defined.

Lemma Reconcile_cluster_finalizer_witness :
  ∃ before after t0 d p, before = doomed_ksc ∧
    cluster_finalizers before = [ClusterFinalizer] ∧ cluster_finalizers after = [] ∧
    (reconciled_cluster (cluster_server doomed_ksc)).1 =
      t0 ++ [Ev (Lib.Delete KService (doomedService before)) d; Ev (Patch KCluster before after) p].
Proof.
  assert (returned (reconciled_cluster (cluster_server doomed_ksc)) = Some finished) as E
    by computes.
  assert (Hp : (λ p, (p.1, cluster_finalizers p.2)) <$>
    at_event 4 cluster_patch (reconciled_cluster (cluster_server doomed_ksc)).1 =
      Some (doomed_ksc, [])) by computes.
  apply cluster_patch_at in Hp as (ev & before & after & Hev & Hp & Hx).
  assert (before = doomed_ksc) as -> by exact (f_equal fst Hx).
  assert (cluster_finalizers after = []) as Ha by exact (f_equal snd Hx).
  on_run E (Reconcile_cluster_finalizer demo_key). intros H.
  destruct (H ev doomed_ksc after Hev Hp) as (_ & Hd & _).
  destruct (Hd ltac:(computes)) as (t0 & d & p & Ht & _).
  exists doomed_ksc, after, t0, d, p. split; [reflexivity|]. split; [reflexivity|].
  split; [exact Ha|exact Ht].
Defined.

(** ** The webhook *)

Definition template (cfg : SwiftGuestBackend) : KubeSwiftMachineTemplate :=
  mkKubeSwiftMachineTemplate (meta "workers")
    (mkKubeSwiftMachineTemplateSpec (mkKubeSwiftMachineTemplateResource (mkTemplateMeta None None)
      (mkKubeSwiftMachineSpec "" (mkMachineBackend SwiftGuestBackendType (Some cfg))))).

Lemma template_spec_immutable_witness :
  ValidateUpdate (mkContext 2) (template demo_cfg) (template gpu_cfg) ≠ None ∧
  ValidateUpdate (mkContext 2) (template demo_cfg) (template demo_cfg) = None ∧
  templateSpec (apply_updates (template demo_cfg)
    [(mkContext 2, template gpu_cfg); (mkContext 1, template gpu_cfg);
     (mkContext 2, template demo_cfg)]) = templateSpec (template demo_cfg).
Proof.
  split; [by vm_compute|]. split; [computes|].
  exact (template_spec_immutable (template demo_cfg)
    [(mkContext 2, template gpu_cfg); (mkContext 1, template gpu_cfg);
     (mkContext 2, template demo_cfg)]).
Defined.
