(* ===== verification/Startup.v ===== *)
(** * Startup: cmd/main.go and the registrations it makes

    [init] and [main], down to the manager's start: the flags, the TLS options of the two
    servers, the scheme, the controllers and their watches, the webhook, the probes. A
    call into controller-runtime is an effect whose answer may be an error; [os.Exit(1)]
    ends the program with 1. *)

From S2P Require Import Prelude Go Prog Kube Api Lib SwiftGuest MachineController Heap GoTypes.

(** ** [append]

    A slice of TLS options: an array - as long as its capacity - and a length. Appending
    within the capacity writes the shared array; otherwise it allocates, with the capacity
    [grow old needed] that the language leaves to the implementation. *)

Inductive certificate_watcher := CertWatcher (cert key : string).
Inductive tls_option :=
  | disableHTTP2
  | getCertificate (w : certificate_watcher).
Abbreviation arrays := (gmap loc (list (option tls_option))).
Record tls_slice := mkTLS { tls_array : loc; tls_len : nat }.

Section Append.
Context (grow : nat → nat → nat).

(** A new array for the [n] options [xs], after one of capacity [old]. *)
Definition allocate (m : arrays) (old : nat) (xs : list (option tls_option)) :
    arrays * option tls_slice :=
  let n := length xs in
  let a := map_fold (λ l _ k, Pos.max (Pos.succ l) k) 1%positive m in
  (<[a := xs ++ replicate (grow old n - n) None]> m, Some (mkTLS a n)).

Definition append_opt (m : arrays) (s : option tls_slice) (x : tls_option) :
    arrays * option tls_slice :=
  match s with
  | None => allocate m 0 [Some x]
  | Some s =>
    let arr := default [] (m !! tls_array s) in
    if (tls_len s <? length arr)%nat
    then (<[tls_array s := <[tls_len s := Some x]> arr]> m, Some (mkTLS (tls_array s) (S (tls_len s))))
    else allocate m (length arr) (take (tls_len s) arr ++ [Some x])
  end.
End Append.

(** The options a server finds in its slice, and what they make of a [tls.Config]. *)
Definition read_opts (m : arrays) (s : option tls_slice) : list tls_option :=
  match s with
  | None => []
  | Some s => omap id (take (tls_len s) (default [] (m !! tls_array s)))
  end.
Record tls_config := mkConfig { NextProtos : list string; GetCertificate : option certificate_watcher }.
Definition apply_opt (c : tls_config) (o : tls_option) : tls_config :=
  match o with
  | disableHTTP2 => mkConfig ["http/1.1"] (GetCertificate c)
  | getCertificate w => mkConfig (NextProtos c) (Some w)
  end.
Definition configure (c : tls_config) (os : list tls_option) : tls_config := foldl apply_opt c os.

(** ** Flags *)

Record Flags := mkFlags {
  metricsAddr : string;
  metricsCertPath : string; metricsCertName : string; metricsCertKey : string;
  webhookCertPath : string; webhookCertName : string; webhookCertKey : string;
  enableLeaderElection : bool;
  probeAddr : string;
  secureMetrics : bool;
  enableHTTP2 : bool
}.
Definition default_flags : Flags :=
  mkFlags "0" "" "tls.crt" "tls.key" "" "tls.crt" "tls.key" false ":8081" true false.

(** ** Registrations *)

(** What a controller is built with: the object it is for, the objects it owns, and the
    objects it watches through a mapping to requests. *)
Inductive watch :=
  | WatchMachine (requests : Machine → list NamespacedName)
  | WatchUnstructured (example : Unstructured) (requests : Unstructured → list NamespacedName).
Record Registration := mkRegistration {
  reg_For : kind;
  reg_Owns : list kind;
  reg_Watches : list watch;
  reg_Named : string
}.

Record MetricsOptions := mkMetrics {
  mo_BindAddress : string;
  mo_SecureServing : bool;
  mo_TLSOpts : option tls_slice;
  mo_WithAuthenticationAndAuthorization : bool
}.
Record ManagerOptions := mkManagerOptions {
  mgr_Metrics : MetricsOptions;
  mgr_WebhookTLSOpts : option tls_slice;
  mgr_HealthProbeBindAddress : string;
  mgr_LeaderElection : bool;
  mgr_LeaderElectionID : string
}.

(** Calls into the libraries. [Start] carries what the servers read from their options
    when they start to listen. *)
Inductive setup : Type → Type :=
  | SchemeAdd (package : string) : setup (option error)
  | AddKnownTypes (gv : string * string) (types : list type) : setup unit
  | AddToGroupVersion (gv : string * string) : setup unit
  | NewCertWatcher (cert key : string) : setup (option error)
  | GetConfigOrDie : setup bool
  | NewManager (options : ManagerOptions) : setup (option error)
  | CompleteController (r : Registration) : setup (option error)
  | Getenv (name : string) : setup string
  | CompleteWebhook (validated : string) : setup (option error)
  | Add (w : certificate_watcher) : setup (option error)
  | AddHealthzCheck (name : string) : setup (option error)
  | AddReadyzCheck (name : string) : setup (option error)
  | Start (webhook metrics : list tls_option) : setup (option error).

(** ** [filepath.Join] *)

Fixpoint split_slash (s : string) (acc : string) : list string :=
  match s with
  | EmptyString => [acc]
  | String c s' =>
    if Ascii.eqb c (Ascii.ascii_of_nat 47) then acc :: split_slash s' "" else split_slash s' (acc +:+ String c "")
  end.
(** [filepath.Clean]'s elements, in reverse: empty and [.] elements go, [..] takes back the
    one before it. *)
Definition clean_element (rooted : bool) (done : list string) (e : string) : list string :=
  if String.eqb e "" || String.eqb e "." then done
  else if String.eqb e ".." then
    match done with
    | d :: done' => if String.eqb d ".." then e :: done else done'
    | [] => if rooted then [] else [e]
    end
  else e :: done.
Definition Clean (path : string) : string :=
  let rooted := String.prefix "/" path in
  let es := rev (foldl (clean_element rooted) [] (split_slash path "")) in
  match rooted, es with
  | true, _ => "/" +:+ String.concat "/" es
  | false, [] => "."
  | false, _ => String.concat "/" es
  end.
Definition Join (es : list string) : string :=
  match List.filter (λ e, negb (String.eqb e "")) es with
  | [] => ""
  | es' => Clean (String.concat "/" es')
  end.

(** ** The program *)

(** Each [_types.go] file's [init] appends to [objectTypes]; Go runs them in the order of
    the files. *)
Definition kubeswiftcluster_init (objectTypes : list type) : list type :=
  objectTypes ++ [TKubeSwiftCluster; TKubeSwiftClusterList].
Definition kubeswiftclustertemplate_init (objectTypes : list type) : list type :=
  objectTypes ++ [TKubeSwiftClusterTemplate; TKubeSwiftClusterTemplateList].
Definition kubeswiftmachine_init (objectTypes : list type) : list type :=
  objectTypes ++ [TKubeSwiftMachine; TKubeSwiftMachineList].
Definition kubeswiftmachinetemplate_init (objectTypes : list type) : list type :=
  objectTypes ++ [TKubeSwiftMachineTemplate; TKubeSwiftMachineTemplateList].
Definition objectTypes : list type :=
  foldl (λ types init, init types) []
    [kubeswiftcluster_init; kubeswiftclustertemplate_init; kubeswiftmachine_init;
     kubeswiftmachinetemplate_init].

Definition addKnownTypes : prog setup (option error) :=
  let! _ := perform (AddKnownTypes GroupVersion objectTypes) in
  let! _ := perform (AddToGroupVersion GroupVersion) in
  Ret None.

(** [utilruntime.Must] *)
Definition Must (p : prog setup (option error)) : prog setup unit :=
  let! err := p in match err with Some _ => Panic | None => Ret tt end.

Definition init : prog setup unit :=
  let! _ := Must (perform (SchemeAdd "k8s.io/client-go/kubernetes/scheme")) in
  let! _ := Must (perform (SchemeAdd "sigs.k8s.io/cluster-api/api/core/v1beta2")) in
  Must addKnownTypes.

(** [if err != nil { setupLog.Error(...); os.Exit(1) }], and the rest. *)
Definition or_exit (p : prog setup (option error)) (rest : prog setup Z) : prog setup Z :=
  let! err := p in match err with Some _ => Ret 1%Z | None => rest end.

Section Main.
Context {lib : Lib}.
Context (grow : nat → nat → nat).
Context (MachineToInfrastructureMapFunc :
  (string * string) * string → Machine → list NamespacedName).

Definition KubeSwiftCluster_SetupWithManager : prog setup (option error) :=
  perform (CompleteController (mkRegistration KCluster [KService] [] "kubeswiftcluster")).

Definition KubeSwiftMachine_SetupWithManager : prog setup (option error) :=
  perform (CompleteController (mkRegistration KMachine []
    [WatchMachine (MachineToInfrastructureMapFunc (GroupVersion, "KubeSwiftMachine"));
     WatchUnstructured NewSwiftGuestObject swiftGuestToKubeSwiftMachine]
    "kubeswiftmachine")).

Definition SetupKubeSwiftMachineTemplateWebhookWithManager : prog setup (option error) :=
  perform (CompleteWebhook "KubeSwiftMachineTemplate").

(** A certificate watcher, if a path is given: the options with its certificate, and what
    is added to the manager later. *)
Definition certificates (path name key : string) (m : arrays) (opts : option tls_slice)
    (rest : option certificate_watcher → arrays → option tls_slice → prog setup Z) : prog setup Z :=
  if (0 <? String.length path)%nat then
    let cert := Join [path; name] in
    let key := Join [path; key] in
    or_exit (perform (NewCertWatcher cert key))
      (let w := CertWatcher cert key in
       let '(m, opts) := append_opt grow m opts (getCertificate w) in
       rest (Some w) m opts)
  else rest None m opts.

Definition add_watcher (w : option certificate_watcher) : prog setup (option error) :=
  match w with Some w => perform (Add w) | None => Ret None end.

(** From the manager's creation on. *)
Definition start_manager (fl : Flags) (m : arrays) (webhookTLSOpts metricsTLSOpts : option tls_slice)
    (webhookCertWatcher metricsCertWatcher : option certificate_watcher) : prog setup Z :=
  let metricsServerOptions :=
    mkMetrics (metricsAddr fl) (secureMetrics fl) metricsTLSOpts (secureMetrics fl) in
  let! config := perform GetConfigOrDie in
  if negb config then Ret 1%Z else
  or_exit (perform (NewManager (mkManagerOptions metricsServerOptions webhookTLSOpts
    (probeAddr fl) (enableLeaderElection fl) "d0e23914.cluster.x-k8s.io"))) (
  or_exit KubeSwiftCluster_SetupWithManager (
  or_exit KubeSwiftMachine_SetupWithManager (
  let! env := perform (Getenv "ENABLE_WEBHOOKS") in
  or_exit (if negb (String.eqb env "false")
           then SetupKubeSwiftMachineTemplateWebhookWithManager else Ret None) (
  or_exit (add_watcher metricsCertWatcher) (
  or_exit (add_watcher webhookCertWatcher) (
  or_exit (perform (AddHealthzCheck "healthz")) (
  or_exit (perform (AddReadyzCheck "readyz")) (
  or_exit (perform (Start (read_opts m webhookTLSOpts) (read_opts m metricsTLSOpts)))
    (Ret 0%Z))))))))).

Definition main (fl : Flags) : prog setup Z :=
  let '(m, tlsOpts) :=
    if negb (enableHTTP2 fl) then append_opt grow ∅ None disableHTTP2 else (∅, None) in
  certificates (webhookCertPath fl) (webhookCertName fl) (webhookCertKey fl) m tlsOpts
    (λ webhookCertWatcher m webhookTLSOpts,
  certificates (metricsCertPath fl) (metricsCertName fl) (metricsCertKey fl) m tlsOpts
    (λ metricsCertWatcher m metricsTLSOpts,
  start_manager fl m webhookTLSOpts metricsTLSOpts webhookCertWatcher metricsCertWatcher)).

(** The process: package initialisation, then [main]. *)
Definition process (fl : Flags) : prog setup Z := let! _ := init in main fl.

End Main.
