(* ===== verification/StartupSpec.v ===== *)
(** * StartupSpec: what the process asks of the libraries, and in which order

    The steps of a start-up as a list, [plan]; every run of [Startup.process] takes them
    in that order and stops at the first that fails. The two servers' TLS options do not
    interfere. *)

From S2P Require Import Prelude Go Prog Kube Api Lib SwiftGuest MachineController Heap GoTypes Startup.

(** ** The plan *)

Inductive step :=
  | RegisterTypes (what : string)
  | RegisterOwnTypes (gv : string * string) (types : list type)
  | LoadCertificate (cert key : string)
  | LoadConfig
  | CreateManager (bindAddress : string) (secure authenticated : bool) (probes : string)
      (elects : bool)
  | AddController (r : Registration)
  | ReadEnvironment (name : string)
  | AddWebhook (k : string)
  | AddRunnable (w : certificate_watcher)
  | AddProbe (name : string)
  | StartManager.

Definition step_of (ev : event setup) : list step :=
  match ev with
  | Ev (SchemeAdd p) _ => [RegisterTypes p]
  | Ev (AddKnownTypes gv ts) _ => [RegisterOwnTypes gv ts]
  | Ev (AddToGroupVersion _) _ => []
  | Ev (NewCertWatcher c k) _ => [LoadCertificate c k]
  | Ev GetConfigOrDie _ => [LoadConfig]
  | Ev (NewManager o) _ =>
    let m := mgr_Metrics o in
    [CreateManager (mo_BindAddress m) (mo_SecureServing m) (mo_WithAuthenticationAndAuthorization m)
       (mgr_HealthProbeBindAddress o) (mgr_LeaderElection o)]
  | Ev (CompleteController r) _ => [AddController r]
  | Ev (Getenv n) _ => [ReadEnvironment n]
  | Ev (CompleteWebhook k) _ => [AddWebhook k]
  | Ev (Add w) _ => [AddRunnable w]
  | Ev (AddHealthzCheck n) _ => [AddProbe n]
  | Ev (AddReadyzCheck n) _ => [AddProbe n]
  | Ev (Start _ _) _ => [StartManager]
  end.
Definition steps_of (t : trace setup) : list step := t ≫= step_of.

(** A failed call, and how it ends the process. *)
Definition fails (ev : event setup) : bool :=
  let failed (e : option error) := match e with Some _ => true | None => false end in
  match ev with
  | Ev e x => match e in setup X return X → bool with
    | SchemeAdd _ => failed | NewCertWatcher _ _ => failed | GetConfigOrDie => negb
    | NewManager _ => failed | CompleteController _ => failed | CompleteWebhook _ => failed
    | Add _ => failed | AddHealthzCheck _ => failed | AddReadyzCheck _ => failed
    | Start _ _ => failed
    | AddKnownTypes _ _ | AddToGroupVersion _ | Getenv _ => λ _, false
    end x
  end.
Definition exit_of (ev : event setup) : outcome Z :=
  match ev with Ev (SchemeAdd _) _ => Panicked | _ => Done 1%Z end.

(** What the environment first answered. *)
Fixpoint environment (t : trace setup) : string :=
  match t with
  | [] => ""
  | Ev e x :: t' => match e in setup X return X → string with
                    | Getenv _ => λ x, x | _ => λ _, environment t' end x
  end.
Definition asks (ev : event setup) : bool := match ev with Ev (Getenv _) _ => true | _ => false end.

Definition types_plan : list step :=
  [ RegisterTypes "k8s.io/client-go/kubernetes/scheme";
    RegisterTypes "sigs.k8s.io/cluster-api/api/core/v1beta2";
    RegisterOwnTypes ("infrastructure.cluster.x-k8s.io", "v1alpha1")
      [TKubeSwiftCluster; TKubeSwiftClusterList;
       TKubeSwiftClusterTemplate; TKubeSwiftClusterTemplateList;
       TKubeSwiftMachine; TKubeSwiftMachineList;
       TKubeSwiftMachineTemplate; TKubeSwiftMachineTemplateList] ].

Section Plan.
Context {lib : Lib}.
Context (MachineToInfrastructureMapFunc :
  (string * string) * string → Machine → list NamespacedName).

Definition own_certificate (path name key : string) : list certificate_watcher :=
  if String.eqb path "" then [] else [CertWatcher (Join [path; name]) (Join [path; key])].
Definition load (w : certificate_watcher) : step := match w with CertWatcher c k => LoadCertificate c k end.

Definition webhook_certificate (fl : Flags) :=
  own_certificate (webhookCertPath fl) (webhookCertName fl) (webhookCertKey fl).
Definition metrics_certificate (fl : Flags) :=
  own_certificate (metricsCertPath fl) (metricsCertName fl) (metricsCertKey fl).

(** What each controller reconciles, and the events that make it do so: there is none for
    a Cluster. *)
Definition cluster_registration : Registration :=
  mkRegistration KCluster [KService] [] "kubeswiftcluster".
Definition machine_registration : Registration :=
  mkRegistration KMachine []
    [WatchMachine (MachineToInfrastructureMapFunc (GroupVersion, "KubeSwiftMachine"));
     WatchUnstructured NewSwiftGuestObject swiftGuestToKubeSwiftMachine] "kubeswiftmachine".

Definition serving_plan (fl : Flags) (env : string) : list step :=
  (if String.eqb env "false" then [] else [AddWebhook "KubeSwiftMachineTemplate"]) ++
  map AddRunnable (metrics_certificate fl) ++ map AddRunnable (webhook_certificate fl) ++
  [ AddProbe "healthz"; AddProbe "readyz"; StartManager ].

Definition manager_plan (fl : Flags) (env : string) : list step :=
  [ LoadConfig;
    CreateManager (metricsAddr fl) (secureMetrics fl) (secureMetrics fl) (probeAddr fl)
      (enableLeaderElection fl);
    AddController cluster_registration; AddController machine_registration;
    ReadEnvironment "ENABLE_WEBHOOKS" ] ++ serving_plan fl env.

Definition plan (fl : Flags) (env : string) : list step :=
  types_plan ++ map load (webhook_certificate fl) ++ map load (metrics_certificate fl) ++
  manager_plan fl env.

End Plan.

(** ** Programs that follow a plan *)

(** A run takes the planned steps in order; either all of them, none failing, and exits
    with 0, or up to the first that fails, which ends it. *)
Definition as_planned (plan : string → list step) (t : trace setup) (o : outcome Z) : Prop :=
  (steps_of t = plan (environment t) ∧ Forall (λ ev, fails ev = false) t ∧ o = Done 0%Z) ∨
  (∃ t' ev, t = t' ++ [ev] ∧ Forall (λ ev, fails ev = false) t' ∧ fails ev = true ∧
     o = exit_of ev ∧ steps_of t `prefix_of` plan (environment t)).
Definition follows (p : prog setup Z) (plan : string → list step) : Prop :=
  always p (as_planned plan).

Lemma environment_cons ev t : asks ev = false → environment (ev :: t) = environment t.
Proof. by destruct ev as [X [] x]. Qed.

Lemma follows_ret : follows (Ret 0%Z) (λ _, []).
Proof. by left. Qed.

(** After a call that did not fail. *)
Lemma as_planned_cons ev ss plan t o :
  step_of ev = ss → asks ev = false → fails ev = false →
  as_planned plan t o → as_planned (λ env, ss ++ plan env) (ev :: t) o.
Proof.
  intros Hs He Hf H. unfold as_planned. rewrite environment_cons by done.
  assert (steps_of (ev :: t) = ss ++ steps_of t) as -> by (unfold steps_of; simpl; by rewrite Hs).
  destruct H as [(-> & Hok & ->)|(t' & ev' & -> & Hok & Hf' & -> & Hp)].
  - left. split_and!; [done|by constructor|done].
  - right. exists (ev :: t'), ev'. split_and!; [done|by constructor|done..|].
    by apply prefix_app.
Qed.

(** A call that fails ends the run. *)
Lemma as_planned_failed ev ss plan :
  step_of ev = ss → fails ev = true → as_planned (λ env, ss ++ plan env) [ev] (exit_of ev).
Proof.
  intros Hs Hf. right. exists [], ev. split_and!; [done|constructor|done..|].
  unfold steps_of. simpl. rewrite app_nil_r, Hs. by apply prefix_app_r.
Qed.

(** The shapes of call the program makes. *)
Lemma follows_or_exit (e : setup (option error)) rest plan ss :
  (∀ x, step_of (Ev e x) = ss) → (∀ x, asks (Ev e x) = false) →
  (∀ x, fails (Ev e x) = match x with Some _ => true | None => false end) →
  (∀ x, exit_of (Ev e x) = Done 1%Z) →
  follows rest plan → follows (or_exit (perform e) rest) (λ env, ss ++ plan env).
Proof.
  intros Hs He Hf Hx Hrest [err|]; cbn.
  - rewrite <- (Hx (Some err)). apply as_planned_failed; [done|]. by rewrite Hf.
  - eapply always_mono, Hrest. intros t o Hp. apply as_planned_cons; [done..|by rewrite Hf|done].
Qed.

Lemma follows_init rest plan :
  follows rest plan → follows (let! _ := init in rest) (λ env, types_plan ++ plan env).
Proof.
  intros Hrest [err|]; cbn; [by apply (as_planned_failed (Ev (SchemeAdd _) (Some err)) [RegisterTypes _]
    (λ env, drop 1 types_plan ++ plan env))|].
  intros [err|]; cbn.
  - apply (as_planned_cons (Ev (SchemeAdd _) None) [RegisterTypes _]
             (λ env, drop 1 types_plan ++ plan env)); [done..|].
    by apply (as_planned_failed (Ev (SchemeAdd _) (Some err)) [RegisterTypes _]
                (λ env, drop 2 types_plan ++ plan env)).
  - intros [] []. cbn. eapply always_mono, Hrest. intros t o Hp.
    apply (as_planned_cons (Ev (SchemeAdd _) None) [RegisterTypes _]
             (λ env, drop 1 types_plan ++ plan env)); [done..|].
    apply (as_planned_cons (Ev (SchemeAdd _) None) [RegisterTypes _]
             (λ env, drop 2 types_plan ++ plan env)); [done..|].
    apply (as_planned_cons (Ev (AddKnownTypes GroupVersion objectTypes) tt)
             [RegisterOwnTypes GroupVersion objectTypes] (λ env, [] ++ plan env)); [done..|].
    by apply as_planned_cons.
Qed.

Lemma follows_config rest plan :
  follows rest plan →
  follows (let! config := perform GetConfigOrDie in if negb config then Ret 1%Z else rest)
    (λ env, [LoadConfig] ++ plan env).
Proof.
  intros Hrest [|]; cbn.
  - eapply always_mono, Hrest. intros t o Hp.
    by apply (as_planned_cons (Ev GetConfigOrDie true) [LoadConfig]).
  - by apply (as_planned_failed (Ev GetConfigOrDie false) [LoadConfig]).
Qed.

Lemma follows_getenv n k (plan : string → list step) :
  (∀ v, follows (k v) (λ _, plan v)) →
  follows (let! v := perform (Getenv n) in k v) (λ env, [ReadEnvironment n] ++ plan env).
Proof.
  intros Hk v. eapply always_mono, (Hk v). intros t o.
  unfold as_planned. cbn [environment]. change (steps_of (Ev (Getenv n) v :: t)) with ([ReadEnvironment n] ++ steps_of t).
  intros [(-> & Hok & ->)|(t' & ev' & -> & Hok & Hf' & -> & Hp)].
  - left. split_and!; [done|by constructor|done].
  - right. exists (Ev (Getenv n) v :: t'), ev'. split_and!; [done|by constructor|done..|].
    by apply prefix_app.
Qed.

Lemma follows_ext p (plan plan' : string → list step) :
  (∀ env, plan env = plan' env) → follows p plan → follows p plan'.
Proof.
  intros He. apply always_mono. intros t o. unfold as_planned. by rewrite He.
Qed.

Lemma follows_add_watcher w rest plan :
  follows rest plan →
  follows (or_exit (add_watcher w) rest) (λ env, map AddRunnable (option_list w) ++ plan env).
Proof.
  intros Hr. destruct w as [w|]; [|exact Hr].
  by apply (follows_or_exit (Add w) rest plan [AddRunnable w]).
Qed.

Section Follows.
Context {lib : Lib}.
Context (grow : nat → nat → nat).
Context (to_infra : (string * string) * string → Machine → list NamespacedName).

Lemma follows_certificates path name key m opts rest plan :
  (∀ w m opts, option_list w = own_certificate path name key → follows (rest w m opts) plan) →
  follows (certificates grow path name key m opts rest)
    (λ env, map load (own_certificate path name key) ++ plan env).
Proof.
  intros Hr. unfold certificates, own_certificate in *. destruct path as [|c path]; [by apply Hr|].
  cbn. apply (follows_or_exit (NewCertWatcher _ _) _ plan [LoadCertificate _ _]); [done..|].
  destruct (append_opt grow m opts _) as [m' opts']. by apply Hr.
Qed.

(** The webhook, as the environment says, and the rest. *)
Lemma follows_serving fl m wopts mopts wc mc env :
  option_list wc = webhook_certificate fl → option_list mc = metrics_certificate fl →
  follows (or_exit (if negb (String.eqb env "false")
                    then SetupKubeSwiftMachineTemplateWebhookWithManager else Ret None) (
           or_exit (add_watcher mc) (
           or_exit (add_watcher wc) (
           or_exit (perform (AddHealthzCheck "healthz")) (
           or_exit (perform (AddReadyzCheck "readyz")) (
           or_exit (perform (Start (read_opts m wopts) (read_opts m mopts))) (Ret 0%Z)))))))
    (λ _, serving_plan fl env).
Proof.
  intros Hw Hm. unfold serving_plan. rewrite <- Hw, <- Hm.
  assert (follows (or_exit (add_watcher mc) (or_exit (add_watcher wc) (
      or_exit (perform (AddHealthzCheck "healthz")) (
      or_exit (perform (AddReadyzCheck "readyz")) (
      or_exit (perform (Start (read_opts m wopts) (read_opts m mopts))) (Ret 0%Z))))))
    (λ _, map AddRunnable (option_list mc) ++ map AddRunnable (option_list wc) ++
          [AddProbe "healthz"; AddProbe "readyz"; StartManager])) as Hrest.
  { apply follows_add_watcher, follows_add_watcher.
    apply (follows_or_exit (AddHealthzCheck _) _ (λ _, [AddProbe "readyz"; StartManager]) [AddProbe _]);
      [done..|].
    apply (follows_or_exit (AddReadyzCheck _) _ (λ _, [StartManager]) [AddProbe _]); [done..|].
    apply (follows_or_exit (Start _ _) _ (λ _, []) [StartManager]); [done..|]. apply follows_ret. }
  destruct (String.eqb env "false"); [exact Hrest|].
  by apply (follows_or_exit (CompleteWebhook _) _ _ [AddWebhook _]).
Qed.

Lemma follows_start_manager fl m wopts mopts wc mc :
  option_list wc = webhook_certificate fl → option_list mc = metrics_certificate fl →
  follows (start_manager to_infra fl m wopts mopts wc mc) (manager_plan to_infra fl).
Proof.
  intros Hw Hm. unfold start_manager.
  eapply follows_ext; [|apply follows_config].
  2: { eapply follows_or_exit with (ss := [CreateManager (metricsAddr fl) (secureMetrics fl)
         (secureMetrics fl) (probeAddr fl) (enableLeaderElection fl)]); [done..|].
       eapply follows_or_exit with (ss := [AddController cluster_registration]); [done..|].
       eapply follows_or_exit with (ss := [AddController (machine_registration to_infra)]);
         [done..|].
       apply follows_getenv. intros v. by apply follows_serving. }
  done.
Qed.

Lemma process_follows fl : follows (process grow to_infra fl) (plan to_infra fl).
Proof.
  unfold process, plan. apply (follows_init (main grow to_infra fl)
    (λ env, map load (webhook_certificate fl) ++ map load (metrics_certificate fl) ++
            manager_plan to_infra fl env)).
  unfold main.
  destruct (if negb (enableHTTP2 fl) then append_opt grow ∅ None disableHTTP2 else (∅, None))
    as [m tlsOpts].
  apply follows_certificates. intros wc m1 wopts Hw.
  apply follows_certificates. intros mc m2 mopts Hm. by apply follows_start_manager.
Qed.

(** C19: The start-up follows its plan: in every run of the process, the calls into the
    libraries are the planned steps, in that order - the types, the certificates that were
    configured, the manager, both controllers with exactly their watches, the webhook
    unless ENABLE_WEBHOOKS is false, the certificate watchers, both probes, the start. It
    exits with 0 exactly when all of them succeeded; the first that fails is the last, and
    ends it with 1, or by a panic while the types are registered. *)
Theorem process_as_planned fl t o :
  runs (process grow to_infra fl) t o → as_planned (plan to_infra fl) t o.
Proof. apply always_runs, process_follows. Qed.

End Follows.

(** ** The options of the two servers *)

Section Servers.
Context {lib : Lib}.
Context (grow : nat → nat → nat).
Context (to_infra : (string * string) * string → Machine → list NamespacedName).

(** A slice lies in memory; a full one has no spare capacity. *)
Definition placed (m : arrays) (s : option tls_slice) : Prop :=
  match s with None => True | Some s => is_Some (m !! tls_array s) end.
Definition full (m : arrays) (s : option tls_slice) : Prop :=
  match s with
  | None => True
  | Some s => ∃ arr, m !! tls_array s = Some arr ∧ tls_len s = length arr
  end.

Lemma read_kept m m' s : m ⊆ m' → placed m s → read_opts m' s = read_opts m s.
Proof.
  destruct s as [s|]; [|done]. intros Hm [arr Ha]. unfold read_opts.
  by rewrite Ha, (lookup_weaken _ _ _ _ Ha Hm).
Qed.

Lemma full_kept m m' s : m ⊆ m' → full m s → full m' s.
Proof.
  destruct s as [s|]; [|done]. intros Hm (arr & Ha & Hl). exists arr.
  split; [by eapply lookup_weaken|done].
Qed.

Lemma allocate_spec m old xs m' s' :
  allocate grow m old xs = (m', s') → read_opts m' s' = omap id xs ∧ m ⊆ m' ∧ placed m' s'.
Proof.
  unfold allocate. set (a := map_fold _ _ _). intros [= <- <-].
  assert (m !! a = None) as Ha.
  { assert (∀ l, is_Some (m !! l) → (l < a)%positive) as Hlt;
      [|apply eq_None_not_Some; intros H%Hlt; lia].
    unfold a. clear a. apply (map_fold_weak_ind (λ k (m : arrays), ∀ l, is_Some (m !! l) → (l < k)%positive)).
    - intros l [x Hx]. by rewrite lookup_empty in Hx.
    - intros i x m' r Hi IH l [y Hy]. apply lookup_insert_Some in Hy as [[<- _]|[_ Hy]]; [lia|].
      specialize (IH l (ex_intro _ y Hy)). lia. }
  split_and!.
  - unfold read_opts. cbn [tls_array tls_len]. rewrite lookup_insert_eq. cbn [from_option].
    unfold id at 2. by rewrite take_app_length.
  - by apply insert_subseteq.
  - cbn. rewrite lookup_insert_eq. by eexists.
Qed.

(** Appending to a full slice copies it. *)
Lemma append_full m s x m' s' :
  full m s → append_opt grow m s x = (m', s') →
  read_opts m' s' = read_opts m s ++ [x] ∧ m ⊆ m' ∧ placed m' s'.
Proof.
  destruct s as [s|]; unfold append_opt; [|intros _ (-> & H)%allocate_spec; done].
  intros (arr & Ha & Hl). rewrite Ha. cbn [from_option]. rewrite Hl, Nat.ltb_irrefl, firstn_all.
  intros (-> & H)%allocate_spec. split; [|done]. unfold read_opts. rewrite Ha. cbn [from_option].
  rewrite Hl, firstn_all. by rewrite omap_app.
Qed.

Definition http_options (fl : Flags) : list tls_option :=
  if enableHTTP2 fl then [] else [disableHTTP2].

(** What both servers read when they start, if [append] to nil leaves no spare capacity. *)
Definition servers_own (fl : Flags) (ev : event setup) : Prop :=
  match ev with
  | Ev (Start webhook metrics) _ =>
    webhook = http_options fl ++ map getCertificate (webhook_certificate fl) ∧
    metrics = http_options fl ++ map getCertificate (metrics_certificate fl)
  | _ => True
  end.
Definition every (P : event setup → Prop) (p : prog setup Z) : Prop := always p (λ t _, Forall P t).

Lemma every_or_exit P (e : setup (option error)) rest :
  (∀ x, P (Ev e x)) → every P rest → every P (or_exit (perform e) rest).
Proof.
  intros He Hr [err|]; cbn; [by constructor|].
  eapply always_mono, Hr. intros t o Ht. by constructor.
Qed.

Lemma every_call {X} P (e : setup X) k :
  (∀ x, P (Ev e x)) → (∀ x, every P (k x)) → every P (let! x := perform e in k x).
Proof.
  intros He Hk x. eapply always_mono, (Hk x). intros t o Ht. by constructor.
Qed.

Lemma every_certificates P path name key m opts rest :
  (∀ c k x, P (Ev (NewCertWatcher c k) x)) → full m opts →
  (∀ w m' opts', option_list w = own_certificate path name key → m ⊆ m' → placed m' opts' →
     read_opts m' opts' = read_opts m opts ++ map getCertificate (own_certificate path name key) →
     every P (rest w m' opts')) →
  every P (certificates grow path name key m opts rest).
Proof.
  intros HP Hf Hr. unfold certificates, own_certificate in *. destruct path as [|c path].
  - apply Hr; [done..| |by rewrite app_nil_r].
    destruct opts as [s|]; [|done]. destruct Hf as (arr & Ha & _). by exists arr.
  - cbn. apply every_or_exit; [done|].
    destruct (append_opt grow m opts _) as [m' opts'] eqn:Ha.
    destruct (append_full _ _ _ _ _ Hf Ha) as (Hread & Hm & Hp). by apply Hr.
Qed.

Lemma every_start_manager fl m wopts mopts wc mc :
  read_opts m wopts = http_options fl ++ map getCertificate (webhook_certificate fl) →
  read_opts m mopts = http_options fl ++ map getCertificate (metrics_certificate fl) →
  every (servers_own fl) (start_manager to_infra fl m wopts mopts wc mc).
Proof.
  intros Hw Hm. unfold start_manager.
  apply every_call; [done|]. intros [|]; cbn [negb]; [|constructor].
  do 3 (apply every_or_exit; [done|]). apply every_call; [done|]. intros env.
  assert (∀ w rest, every (servers_own fl) rest → every (servers_own fl) (or_exit (add_watcher w) rest))
    as Hadd by (intros [w|] rest Hr; [by apply every_or_exit|exact Hr]).
  assert (every (servers_own fl) (or_exit (add_watcher mc) (or_exit (add_watcher wc) (
      or_exit (perform (AddHealthzCheck "healthz")) (or_exit (perform (AddReadyzCheck "readyz")) (
      or_exit (perform (Start (read_opts m wopts) (read_opts m mopts))) (Ret 0%Z))))))) as Hrest.
  { do 2 apply Hadd. do 2 (apply every_or_exit; [done|]). apply every_or_exit; [done|constructor]. }
  destruct (negb (String.eqb env "false")); [by apply every_or_exit|exact Hrest].
Qed.

(** The shared slice the two servers' options start from. *)
Lemma http_slice fl m s :
  grow 0 1 = 1%nat →
  (if negb (enableHTTP2 fl) then append_opt grow ∅ None disableHTTP2 else (∅, None)) = (m, s) →
  full m s ∧ placed m s ∧ read_opts m s = http_options fl.
Proof.
  intros Hg. unfold http_options. destruct (enableHTTP2 fl); cbn [negb]; [by intros [= <- <-]|].
  unfold append_opt, allocate. cbn [length]. rewrite Hg. intros [= <- <-].
  split_and!; [by eexists|by eexists|done].
Qed.

Lemma process_servers fl :
  grow 0 1 = 1%nat → every (servers_own fl) (process grow to_infra fl).
Proof.
  intros Hg. assert (every (servers_own fl) (main grow to_infra fl)) as Hmain.
  { unfold main. destruct (if negb (enableHTTP2 fl) then _ else _) as [m s] eqn:Hs.
    destruct (http_slice fl m s Hg Hs) as (Hf & Hp & Hread).
    apply every_certificates; [done..|]. intros wc m1 wopts Hw Hm1 Hp1 Hr1.
    apply every_certificates; [done|by eapply full_kept|]. intros mc m2 mopts Hmc Hm2 Hp2 Hr2.
    apply every_start_manager.
    - rewrite (read_kept m1 m2) by done. by rewrite Hr1, Hread.
    - rewrite Hr2, (read_kept m m1) by done. by rewrite Hread. }
  intros [err|]; cbn; [by repeat constructor|].
  intros [err|]; cbn; [by repeat constructor|]. intros [] []. cbn.
  eapply always_mono, Hmain. intros t o Ht. by repeat constructor.
Qed.

Definition server_config (fl : Flags) (own : list certificate_watcher) (c : tls_config) : tls_config :=
  mkConfig (if enableHTTP2 fl then NextProtos c else ["http/1.1"])
    (match head own with Some w => Some w | None => GetCertificate c end).

(** The TLS configuration of the two servers: HTTP/2 is off unless enabled, and each
    server serves its own certificate when it has one - although their option slices are
    appended to from one shared slice - provided that appending one element to a nil slice
    allocates room for one, as the Go runtime does. *)
Theorem servers_configured fl t o webhook metrics x c :
  grow 0 1 = 1%nat → runs (process grow to_infra fl) t o → Ev (Start webhook metrics) x ∈ t →
  configure c webhook = server_config fl (webhook_certificate fl) c ∧
  configure c metrics = server_config fl (metrics_certificate fl) c.
Proof.
  intros Hg Hr Hin. pose proof (always_runs _ _ _ _ (process_servers fl Hg) Hr) as Ht.
  rewrite list.Forall_forall in Ht. destruct (Ht _ Hin) as [-> ->].
  assert (∀ path name key, configure c (http_options fl ++ map getCertificate (own_certificate path name key))
            = server_config fl (own_certificate path name key) c) as Hc; [|split; apply Hc].
  intros path name key. unfold http_options, own_certificate, server_config.
  destruct c as [np gc], (enableHTTP2 fl), (String.eqb path ""); done.
Qed.

End Servers.

(** With spare capacity, which the language allows, the certificate of the metrics server
    would replace the webhook's in the array the two slices share. *)
Definition two_certificates : Flags :=
  mkFlags "0" "/m" "tls.crt" "tls.key" "/w" "tls.crt" "tls.key" false ":8081" true false.
Definition answers : ∀ X, setup X → unit → unit * X := λ X e s,
  (s, match e in setup X return X with
      | SchemeAdd _ => None | AddKnownTypes _ _ => tt | AddToGroupVersion _ => tt
      | NewCertWatcher _ _ => None | GetConfigOrDie => true | NewManager _ => None
      | CompleteController _ => None | Getenv _ => "" | CompleteWebhook _ => None
      | Add _ => None | AddHealthzCheck _ => None | AddReadyzCheck _ => None
      | Start _ _ => None
      end).
Definition served {lib : Lib} (grow : nat → nat → nat) : list (list tls_option * list tls_option) :=
  (exec answers (process grow (λ _ _, []) two_certificates) tt).2.1 ≫= λ ev,
    match ev with Ev (Start w m) _ => [(w, m)] | _ => [] end.

Example spare_capacity_shared {lib : Lib} :
  served (λ _ _, 2%nat) =
  [([disableHTTP2; getCertificate (CertWatcher "/m/tls.crt" "/m/tls.key")],
    [disableHTTP2; getCertificate (CertWatcher "/m/tls.crt" "/m/tls.key")])].
Proof. reflexivity. Qed.
