(* ===== verification/Objects.v ===== *)
(** * Objects: the root types, as the scheme and the client handle them

    Every type that is registered with the scheme is a [runtime.Object]: its generated
    [DeepCopyObject] makes an interface value of a copy. *)

From S2P Require Import Prelude Go Prog Kube Api Lib Heap HeapFacts HeapCopies HeapLoops GoTypes.
From S2P Require Import DeepCopy DeepCopySpec Startup.
From stdpp Require Import fin_maps.

(** [obj == nil], and the type assertion [x, ok := obj.( *T)]. *)
Definition is_nil (o : Object_) : bool := match o with None => true | Some _ => false end.
Definition assert_type (t : type) (o : Object_) : option loc * bool :=
  match o with
  | Some (t', p) => if decide (t' = t) then (p, true) else (None, false)
  | None => (None, false)
  end.

Section Objects.
Context `{ForeignCopies}.

(** C39: The types the program registers are exactly those that have a [DeepCopyObject].
    It never panics. A client that compares its result with nil learns whether it copied
    anything: the interface is nil for a nil pointer, and never one that holds a nil
    pointer without being nil; for any other pointer it is an object that only the type
    assertion to its own type accepts, with a pointer to an equal object in new memory. *)
Theorem DeepCopyObject_typed :
  (∀ t, t ∈ objectTypes ↔ ∃ r, r ∈ all_rooted ∧ g_type (r_generated r) = t) ∧
  ∀ r h p v F,
    let g := r_generated r in
    r ∈ all_rooted → rep_ptr (g_type g) (g_rep g) h p v F →
    ∃ h' o, r_DeepCopyObject r p h = Some (h', o) ∧ h ⊆ h' ∧
      (is_nil o = true ↔ p = None) ∧
      (p ≠ None → ∃ l F', assert_type (g_type g) o = (Some l, true) ∧
         rep_ptr (g_type g) (g_rep g) h' (Some l) v F' ∧ l ∈ F' ∧ F' ## dom h) ∧
      (∀ t, t ≠ g_type g → assert_type t o = (None, false)).
Proof.
  split.
  - intros t. change objectTypes with ((λ r, g_type (r_generated r)) <$> all_rooted).
    rewrite list_elem_of_fmap. naive_solver.
  - intros r h p v F g Hr HP. destruct (DeepCopyObject_run r h p v F Hr HP) as (h' & He & Hx).
    destruct p as [l0|].
    + destruct Hx as (l & F' & Hrun & HP' & Hl & Hd). fold g in Hrun, HP'.
      exists h', (Some (g_type g, Some l)). split_and!; [done|done|done| |].
      * intros _. exists l, F'. split_and!; try done. simpl. by rewrite decide_True.
      * intros t Ht. simpl. by rewrite decide_False.
    + exists h', None. by split_and!.
Qed.
End Objects.
