(* ===== verification/StartupWitnesses.v ===== *)
(** * StartupWitnesses: a start-up that succeeds *)

From S2P Require Import Prelude Go Prog Kube Api Lib Reference SwiftGuest MachineController.
From S2P Require Import Heap HeapFacts GoTypes DeepCopy DeepCopySpec CopyReference CopyWitnesses.
From S2P Require Import Startup StartupSpec Objects.

(** Capacities as the Go runtime chooses them for one element; both certificates given. *)
Definition exact (old n : nat) : nat := n.
Definition no_requests (gvk : (string * string) * string) (m : Machine) : list NamespacedName := [].
Definition started : trace setup :=
  (exec answers (process exact no_requests two_certificates) tt).2.1.

Lemma started_runs : runs (process exact no_requests two_certificates) started (Done 0%Z).
Proof. apply (exec_runs answers _ tt tt). reflexivity. Qed.

Lemma process_as_planned_witness :
  as_planned (plan no_requests two_certificates) started (Done 0%Z) ∧ length started = 17%nat.
Proof. split; [apply (process_as_planned exact); apply started_runs|reflexivity]. Defined.

Lemma servers_configured_witness :
  configure (mkConfig ["h2"; "http/1.1"] None)
    [disableHTTP2; getCertificate (CertWatcher "/w/tls.crt" "/w/tls.key")] =
  mkConfig ["http/1.1"] (Some (CertWatcher "/w/tls.crt" "/w/tls.key")).
Proof.
  destruct (servers_configured exact no_requests two_certificates started (Done 0%Z)
    [disableHTTP2; getCertificate (CertWatcher "/w/tls.crt" "/w/tls.key")]
    [disableHTTP2; getCertificate (CertWatcher "/m/tls.crt" "/m/tls.key")] None
    (mkConfig ["h2"; "http/1.1"] None)) as [-> _].
  - reflexivity.
  - apply started_runs.
  - unfold started. cbn. repeat first [apply list_elem_of_here | apply list_elem_of_further].
  - reflexivity.
Defined.

(** A machine in memory, and a nil pointer. *)
Lemma DeepCopyObject_typed_witness :
  (∃ h' l, KubeSwiftMachine_DeepCopyObject (Some 1%positive) memory =
     Some (h', Some (TKubeSwiftMachine, Some l)) ∧ l ∉ dom memory) ∧
  (∃ h', KubeSwiftMachine_DeepCopyObject None memory = Some (h', None)).
Proof.
  set (r := rooted_at TKubeSwiftMachine rep_KubeSwiftMachine
    KubeSwiftMachine_DeepCopyInto KubeSwiftMachine_DeepCopy KubeSwiftMachine_DeepCopyObject).
  assert (r ∈ all_rooted) as Hr by (unfold all_rooted; elems_of).
  destruct DeepCopyObject_typed as [_ H]. destruct machine_denotes as [F HF]. split.
  - destruct (H r memory (Some 1%positive) (Some machine_value) F Hr HF) as (h' & o & Hrun & _ & _ & Ho & _).
    destruct (Ho ltac:(discriminate)) as (l & F' & Ha & _ & Hl & Hd).
    destruct o as [[t p]|]; [|discriminate Ha]. cbn in Ha.
    destruct (decide (t = TKubeSwiftMachine)) as [->|]; [|discriminate Ha]. injection Ha as ->.
    exists h', l. split; [exact Hrun|]. clear - Hl Hd. set_solver.
  - destruct (H r memory None None ∅ Hr) as (h' & o & Hrun & _ & Hn & _); [split; reflexivity|].
    destruct o as [x|]; [exfalso; discriminate (proj2 Hn eq_refl)|]. exists h'. exact Hrun.
Defined.
