(* ===== verification/Access.v ===== *)
(** * Access: the RBAC markers of the controllers

    The rules that the [+kubebuilder:rbac] markers of the two controllers put into the
    manager's role, the permissions each request and each watch needs, and the proof that
    no reconcile asks for what the role does not grant. *)

From S2P Require Import Prelude Go Prog Kube Api Lib Reference Backend Samples.
From S2P Require Import SwiftGuest SwiftGuestSpec SwiftGuestRun SwiftGuestStatus.
From S2P Require Import WorkloadNode MachineController MachineSpec MachineProps.
From S2P Require Import EndpointService ClusterController EndpointSpec ClusterSpec.
From S2P Require Import Heap GoTypes Startup StartupSpec.

(** ** Rules *)

Inductive verb := get | list_ | watch_ | create | update | patch | delete_.
#[export] Instance verb_eq_dec : EqDecision verb.
Proof. solve_decision. Defined.

Record rule := mkRule { rule_group : string; rule_resources : list string; rule_verbs : list verb }.

Definition reading : list verb := [get; list_; watch_].
Definition all_verbs : list verb := [get; list_; watch_; create; update; patch; delete_].

Definition infrastructure : string := "infrastructure.cluster.x-k8s.io".

(** The markers of KubeSwiftClusterReconciler, in order. *)
Definition cluster_rules : list rule := [
  mkRule infrastructure ["kubeswiftclusters"] all_verbs;
  mkRule infrastructure ["kubeswiftclusters/status"] [get; update; patch];
  mkRule infrastructure ["kubeswiftclusters/finalizers"] [update];
  mkRule "cluster.x-k8s.io" ["clusters"; "clusters/status"] reading;
  mkRule "" ["services"] all_verbs ].

(** The markers of KubeSwiftMachineReconciler, in order. *)
Definition machine_rules : list rule := [
  mkRule infrastructure ["kubeswiftmachines"] all_verbs;
  mkRule infrastructure ["kubeswiftmachines/status"] [get; update; patch];
  mkRule infrastructure ["kubeswiftmachines/finalizers"] [update];
  mkRule infrastructure ["kubeswiftclusters"] reading;
  mkRule "cluster.x-k8s.io" ["machines"; "machines/status"] reading;
  mkRule "" ["secrets"] reading;
  mkRule "swift.kubeswift.io" ["swiftguests"] all_verbs;
  mkRule "seed.kubeswift.io" ["swiftseedprofiles"] all_verbs ].

(** Both controllers run under one role. *)
Definition manager_role : list rule := cluster_rules ++ machine_rules.

Record permission := mkPermission { p_group : string; p_resource : string; p_verb : verb }.

Definition allows (r : rule) (p : permission) : bool :=
  bool_decide (rule_group r = p_group p) && bool_decide (p_resource p ∈ rule_resources r) &&
  bool_decide (p_verb p ∈ rule_verbs r).
Definition granted (role : list rule) (p : permission) : bool := existsb (λ r, allows r p) role.

(** ** What a request needs *)

(** The resources of a kind; an unstructured object is a guest or a seed profile. *)
Definition resources (k : kind) : list (string * string) :=
  match k with
  | KMachine => [(infrastructure, "kubeswiftmachines")]
  | KCluster => [(infrastructure, "kubeswiftclusters")]
  | KSecret => [("", "secrets")]
  | KService => [("", "services")]
  | KUnstructured => [("swift.kubeswift.io", "swiftguests"); ("seed.kubeswift.io", "swiftseedprofiles")]
  end.
Definition on (vs : list verb) (rs : list (string * string)) : list permission :=
  '(g, r) ← rs; v ← vs; [mkPermission g r v].

(** A typed object is read from a cache, which lists and watches its resource; the patch
    helper reads and patches the object and its status; creating an object with a
    controller reference needs the finalizers of its owner. A client of the workload
    cluster has that cluster's credentials. *)
Definition needs {X} (c : call X) : list permission :=
  match c with
  | Get KUnstructured _ _ => on [get] (resources KUnstructured)
  | Get k _ _ => on reading (resources k)
  | Create KService _ =>
    on [create] (resources KService) ++ on [update] [(infrastructure, "kubeswiftclusters/finalizers")]
  | Create k _ => on [create] (resources k)
  | Update k _ => on [update] (resources k)
  | Lib.Delete k _ => on [delete_] (resources k)
  | Patch k _ _ =>
    on [get; patch] (resources k) ++
    on [patch] ((λ '(g, r), (g, r +:+ "/status")) <$> resources k)
  | GetOwnerMachine _ => on reading [("cluster.x-k8s.io", "machines")]
  | GetOwnerCluster _ | GetClusterFromMetadata _ => on reading [("cluster.x-k8s.io", "clusters")]
  | NewPatchHelper _ _ => []
  | RESTConfigFromKubeConfig _ | NewForConfig _ | NodesGet _ _ | NodesPatch _ _ _ => []
  end.
Definition permitted (role : list rule) (ev : event call) : Prop :=
  match ev with Ev c _ => forallb (granted role) (needs c) = true end.

(** The objects a controller is registered for are listed and watched. *)
Definition watches (r : Registration) : list (string * string) :=
  resources (reg_For r) ++ (reg_Owns r ≫= resources) ++
  (reg_Watches r ≫= λ w, match w with
    | WatchMachine _ => [("cluster.x-k8s.io", "machines")]
    | WatchUnstructured _ _ => [("swift.kubeswift.io", "swiftguests")]
    end).
Definition watch_permitted (role : list rule) (ev : event setup) : Prop :=
  match ev with
  | Ev (CompleteController r) _ => forallb (granted role) (on [list_; watch_] (watches r)) = true
  | _ => True
  end.

(** ** The role suffices *)

Section Access.
Context {lib : Lib}.

Lemma read_permitted ev : ev_mutates ev = false → permitted manager_role ev.
Proof. destruct ev as [X [k| | | | | | | | | | | |] x]; try done; by destruct k. Qed.

Lemma provider_permitted ev : provider_change ev = true → permitted manager_role ev.
Proof. destruct ev as [X c x]. destruct c as [| [] | [] | [] | | | | | | | | |]; done. Qed.

Lemma service_permitted ksc ev : cluster_inner ksc ev → permitted manager_role ev.
Proof. destruct ev as [X c x]. destruct c as [[] | [] | [] | [] | | | | | | | | |]; done. Qed.

Lemma changes_permitted t :
  Forall (λ ev, ev_mutates ev = true → provider_change ev = true) t →
  Forall (permitted manager_role) t.
Proof.
  apply List.Forall_impl. intros ev H. destruct (ev_mutates ev) eqn:Hm; [|by apply read_permitted].
  by apply provider_permitted, H.
Qed.

Lemma reads_permitted t : read_only t → Forall (permitted manager_role) t.
Proof. apply List.Forall_impl. apply read_permitted. Qed.

Context (grow : nat → nat → nat) (to_infra : (string * string) * string → Machine → list NamespacedName).

(** The process registers no controller but the two. *)
Lemma controllers_registered fl t o r x :
  runs (process grow to_infra fl) t o → Ev (CompleteController r) x ∈ t →
  r = cluster_registration ∨ r = machine_registration to_infra.
Proof.
  intros Hr Hev. pose proof (always_runs _ _ _ _ (process_follows grow to_infra fl) Hr) as Hp.
  assert (AddController r ∈ steps_of t) as Hs by (apply list_elem_of_bind; by exists (Ev (CompleteController r) x); split; [left|]).
  assert (AddController r ∈ plan to_infra fl (environment t)) as Hin.
  { destruct Hp as [(<- & _)|(_ & _ & _ & _ & _ & _ & [l ->])]; [done|]. rewrite elem_of_app. by left. }
  assert (∀ cs, AddController r ∉ map load cs) as Hload.
  { intros cs. rewrite list_elem_of_fmap. by intros ([] & ? & _). }
  assert (∀ cs, AddController r ∉ map AddRunnable cs) as Hrun.
  { intros cs. rewrite list_elem_of_fmap. by intros ([] & ? & _). }
  unfold plan, manager_plan, serving_plan, types_plan in Hin.
  destruct (String.eqb (environment t) "false"); rewrite !elem_of_app in Hin;
    specialize (Hload (webhook_certificate fl)) as H1; specialize (Hload (metrics_certificate fl)) as H2;
    specialize (Hrun (webhook_certificate fl)) as H3; specialize (Hrun (metrics_certificate fl)) as H4;
    rewrite !elem_of_cons, !elem_of_nil in Hin; naive_solver.
Qed.

Context {N : NestedLaws} {U : UnstructuredLaws} {S : ServiceLaws} {D : DeepEqualLaws}.

(** C23: The role the markers declare suffices: every request of a machine reconcile and
    of a cluster reconcile, whatever they are answered, and every watch that the process
    registers, needs only permissions that some rule of the two controllers grants. *)
Theorem role_suffices key fl :
  wp any (MachineController.Reconcile key) (λ t _, Forall (permitted manager_role) t) ∧
  wp any (ClusterController.Reconcile key) (λ t _, Forall (permitted manager_role) t) ∧
  (∀ t o, runs (process grow to_infra fl) t o → Forall (watch_permitted manager_role) t).
Proof.
  split_and!.
  - apply Reconcile_rule; [intros t r; apply reads_permitted|].
    intros t r ksm machine cluster b t1 ksm' ret -> (t0 & p & [_ _] & -> & _) Ho.
    apply list.Forall_app. split; [by repeat constructor|]. apply list.Forall_app.
    split; [by eapply changes_permitted, inner_changes, outcome_inner|by repeat constructor].
  - apply Reconcile_cluster_rule; [intros t r; apply reads_permitted|].
    intros t r ksc cluster t1 ksc' ret (t0 & p & [_ _] & -> & _) Ho.
    apply list.Forall_app. split; [by repeat constructor|]. apply list.Forall_app.
    split; [|by repeat constructor].
    eapply List.Forall_impl; [apply service_permitted|by eapply cluster_outcome_inner].
  - intros t o Hr. apply list.Forall_forall. intros [X e x] Hev. destruct e; try done.
    by destruct (controllers_registered _ _ _ _ _ Hr Hev) as [-> | ->].
Qed.
End Access.
