(* ===== verification/Schema.v ===== *)
(** * Schema: what the CRDs admit and default

    The [+kubebuilder:validation] and [+kubebuilder:default] markers of api/v1alpha1 other
    than the CEL rules of [Api.CEL], on the submitted JSON - where an optional field may be
    absent - and what the controllers make of an object that passed them. *)

From S2P Require Import Prelude Go Prog Kube Api Lib Reference Backend Samples.
From S2P Require Import SwiftGuest SwiftGuestSpec SwiftGuestRun SwiftGuestStatus.
From S2P Require Import WorkloadNode MachineController MachineSpec MachineProps.
From S2P Require Import MachineStatus EndpointService ClusterController.

(** ** Validations *)

(** The characters of a UTF-8 text: its bytes but the continuation bytes. *)
Fixpoint runes (s : string) : nat :=
  match s with
  | EmptyString => 0
  | String c s' =>
    (if N.eqb (N.land (Ascii.N_of_ascii c) 0xC0) 0x80 then 0 else 1) + runes s'
  end.

(** An optional text of [lo] to [hi] characters; one of an enumeration; a number in range. *)
Definition text_between (lo hi : nat) (o : option string) : bool :=
  match o with Some s => (lo <=? runes s)%nat && (runes s <=? hi)%nat | None => true end.
Definition one_of (l : list string) (o : option string) : bool :=
  match o with Some s => bool_decide (s ∈ l) | None => true end.
Definition number_between (lo hi : Z) (o : option Z) : bool :=
  match o with Some z => (lo <=? z)%Z && (z <=? hi)%Z | None => true end.

(** [omitempty]: the zero value is not written. *)
Definition omit (s : string) : option string := if String.eqb s "" then None else Some s.

(** ** KubeSwiftCluster *)

Record jsonService := mkJsonService {
  js_type : option string;
  js_port : option Z;
  js_annotations : gomap string;
  js_loadBalancerClass : option string
}.
Record jsonEndpoint := mkJsonEndpoint {
  je_mode : option string;
  je_service : option jsonService
}.

Definition service_valid (j : jsonService) : bool :=
  one_of [ServiceTypeClusterIP; ServiceTypeLoadBalancer] (js_type j) &&
  number_between 1 65535 (js_port j).
Definition endpoint_valid (j : jsonEndpoint) : bool :=
  one_of [EndpointModeExternal; EndpointModeService] (je_mode j) &&
  match je_service j with Some s => service_valid s | None => true end.

(** A default fills an absent field of an object that is there. *)
Definition or_default {A} (d : A) (o : option A) : option A := Some (default d o).
Definition service_default (j : jsonService) : jsonService :=
  mkJsonService (or_default ServiceTypeClusterIP (js_type j)) (or_default 6443%Z (js_port j))
    (js_annotations j) (js_loadBalancerClass j).
Definition endpoint_default (j : jsonEndpoint) : jsonEndpoint :=
  mkJsonEndpoint (or_default EndpointModeExternal (je_mode j)) (service_default <$> je_service j).

(** Decoding into the Go structs: absent fields take their zero value. *)
Definition service_decode (j : jsonService) : ControlPlaneServiceSpec :=
  mkControlPlaneServiceSpec (default "" (js_type j)) (default 0%Z (js_port j))
    (js_annotations j) (js_loadBalancerClass j).
Definition endpoint_decode (j : jsonEndpoint) : ControlPlaneEndpointSpec :=
  mkControlPlaneEndpointSpec (default "" (je_mode j)) (service_decode <$> je_service j).

(** ** KubeSwiftMachine *)

Record jsonGPU := mkJsonGPU {
  jg_resourceClaimTemplateName : option string;
  jg_resourceClaimName : option string;
  jg_requestName : option string;
  jg_gpuProfileRef : option string;
  jg_tier : option string;
  jg_hugepages : option string
}.
Record jsonGuest := mkJsonGuest {
  jg_imageRef : option string;
  jg_guestClassRef : option string;
  jg_network : CEL.backend;   (** networkRef, nodeNetworkRef and interfaces *)
  jg_nodeName : option string;
  jg_gpu : option jsonGPU;
  jg_storageClassName : option string
}.
Record jsonBackend := mkJsonBackend {
  jb_type : option string;
  jb_swiftGuest : option jsonGuest
}.

Definition gpu_valid (j : jsonGPU) : bool :=
  one_of [GPUTierPCIe] (jg_tier j) && one_of [""; "1Gi"; "2Mi"] (jg_hugepages j).
Definition interface_valid (i : CEL.interface) : bool := text_between 1 63 (Some (CEL.name i)).
(** [listMapKey=name]: the names of the interfaces are keys. *)
Definition interfaces_valid (l : list CEL.interface) : bool :=
  (length l <=? 16)%nat && bool_decide (NoDup (CEL.name <$> l)) &&
  forallb interface_valid l.
Definition guest_valid (j : jsonGuest) : bool :=
  CEL.admits (jg_network j) && interfaces_valid (default [] (CEL.b_interfaces (jg_network j))) &&
  text_between 1 253 (jg_nodeName j) &&
  match jg_gpu j with Some g => gpu_valid g | None => true end.
Definition backend_valid (j : jsonBackend) : bool :=
  one_of [SwiftGuestBackendType] (jb_type j) &&
  match jb_swiftGuest j with Some g => guest_valid g | None => true end.

Definition gpu_default (j : jsonGPU) : jsonGPU :=
  mkJsonGPU (jg_resourceClaimTemplateName j) (jg_resourceClaimName j) (jg_requestName j)
    (jg_gpuProfileRef j) (or_default GPUTierPCIe (jg_tier j)) (jg_hugepages j).
Definition guest_default (j : jsonGuest) : jsonGuest :=
  mkJsonGuest (jg_imageRef j) (jg_guestClassRef j) (jg_network j) (jg_nodeName j)
    (gpu_default <$> jg_gpu j) (jg_storageClassName j).
Definition backend_default (j : jsonBackend) : jsonBackend :=
  mkJsonBackend (or_default SwiftGuestBackendType (jb_type j)) (guest_default <$> jb_swiftGuest j).

Definition gpu_decode (j : jsonGPU) : SwiftGuestGPU :=
  mkSwiftGuestGPU (default "" (jg_resourceClaimTemplateName j)) (default "" (jg_resourceClaimName j))
    (default "" (jg_requestName j)) (default "" (jg_gpuProfileRef j)) (default "" (jg_tier j))
    (default "" (jg_hugepages j)).
Definition guest_decode (j : jsonGuest) : SwiftGuestBackend :=
  CEL.decode (mkSwiftGuestBackend (default "" (jg_imageRef j)) (default "" (jg_guestClassRef j)) "" ""
    None (default "" (jg_nodeName j)) (gpu_decode <$> jg_gpu j) (default "" (jg_storageClassName j)))
    (jg_network j).
Definition backend_decode (j : jsonBackend) : MachineBackend :=
  mkMachineBackend (default "" (jb_type j)) (guest_decode <$> jb_swiftGuest j).

(** The fields a reconcile writes, as the patch encodes them; [listMapKey=type]: the types
    of the conditions are keys. *)
Definition spec_valid (s : KubeSwiftMachineSpec) : bool :=
  text_between 1 512 (omit (ksmSpec_ProviderID s)).
Definition status_valid (s : KubeSwiftMachineStatus) : bool :=
  text_between 1 256 (omit (ksmStatus_FailureDomain s)) &&
  bool_decide (NoDup (cond_Type <$> ksmStatus_Conditions s)).

(** ** The defaults are the controllers' own *)

Definition with_endpoint (ksc : KubeSwiftCluster) (j : jsonEndpoint) : KubeSwiftCluster :=
  mkKubeSwiftCluster (ksc_ObjectMeta ksc)
    (mkKubeSwiftClusterSpec (kscSpec_ControlPlaneEndpoint (ksc_Spec ksc)) (Some (endpoint_decode j))
       (kscSpec_GuestNamespace (ksc_Spec ksc))) (ksc_Status ksc).

Section Schema.
Context {lib : Lib}.

Lemma one_of_cases a b o :
  one_of [a; b] o = true → o = None ∨ o = Some a ∨ o = Some b.
Proof.
  destruct o as [s|]; [|by left]. simpl. intros H%bool_decide_eq_true.
  rewrite !elem_of_cons, elem_of_nil in H. naive_solver.
Qed.

(** What the two controllers read of a Service configuration. *)
Lemma service_defaults_agree s :
  service_valid s = true →
  (service_valid (service_default s) = true) ∧
  (let raw := service_decode s in let dflt := service_decode (service_default s) in
   (if negb (String.eqb (cps_Type raw) "") then cps_Type raw else ServiceTypeClusterIP) = cps_Type dflt ∧
   cps_Type dflt ≠ "" ∧
   (if negb (cps_Port raw =? 0)%Z then cps_Port raw else 6443%Z) = cps_Port dflt ∧
   cps_Annotations raw = cps_Annotations dflt ∧ cps_LoadBalancerClass raw = cps_LoadBalancerClass dflt ∧
   (cps_Type dflt = ServiceTypeClusterIP ∨ cps_Type dflt = ServiceTypeLoadBalancer) ∧
   (1 ≤ cps_Port dflt ≤ 65535)%Z).
Proof.
  unfold service_valid. rewrite andb_true_iff. intros [Ht Hp].
  destruct s as [t [p|] ann cls]; simpl in *; bool_facts;
    apply one_of_cases in Ht as [->|[->| ->]]; simpl.
  all: try (assert ((p =? 0)%Z = false) as -> by lia).
  all: split_and!; auto; try done; try lia; bool_facts.
  all: by rewrite !(proj2 (Z.leb_le _ _)) by lia.
Qed.

(** C31: The Go fallbacks and the CRD defaults agree: for an admitted cluster, whether the
    API server filled in the defaults or not, both controllers see the same mode and the
    cluster controller the same type and port and the same Service; the machine controller
    exposes guests in the same way, and exactly if that mode is Service, under the label
    that the Service selects and at the port it has; the mode is External
    or Service, so that no admitted cluster has mode RoutableIP, and the port is a TCP
    port. *)
Theorem defaults_agree (ksc : KubeSwiftCluster) (cluster : Cluster) (j : jsonEndpoint) :
  endpoint_valid j = true →
  let raw := with_endpoint ksc j in
  let defaulted := with_endpoint ksc (endpoint_default j) in
  endpoint_valid (endpoint_default j) = true ∧
  endpointMode raw = endpointMode defaulted ∧
  buildControlPlaneService raw cluster = buildControlPlaneService defaulted cluster ∧
  controlPlaneServicePort raw = controlPlaneServicePort defaulted ∧
  exposureFor cluster raw = exposureFor cluster defaulted ∧
  exposureFor cluster raw =
    (if String.eqb (endpointMode raw) EndpointModeService
     then Some (mkExposure (meta_Name (clus_ObjectMeta cluster) +:+ "-cp") (controlPlaneServicePort raw))
     else None) ∧
  (endpointMode raw = EndpointModeExternal ∨ endpointMode raw = EndpointModeService) ∧
  (controlPlaneServiceType raw = ServiceTypeClusterIP ∨
   controlPlaneServiceType raw = ServiceTypeLoadBalancer) ∧
  (1 ≤ controlPlaneServicePort raw ≤ 65535)%Z.
Proof.
  intros Hv raw defaulted. unfold endpoint_valid in Hv. rewrite andb_true_iff in Hv. destruct Hv as [Hm Hs].
  assert (controlPlaneServiceType raw = controlPlaneServiceType defaulted ∧
    controlPlaneServicePort raw = controlPlaneServicePort defaulted ∧
    (controlPlaneServiceType raw = ServiceTypeClusterIP ∨
     controlPlaneServiceType raw = ServiceTypeLoadBalancer) ∧
    (1 ≤ controlPlaneServicePort raw ≤ 65535)%Z ∧
    match je_service (endpoint_default j) with Some s => service_valid s | None => true end = true)
    as (Et & Ep & Ht & Hp & Hv).
  { unfold controlPlaneServiceType, controlPlaneServicePort, serviceCfg, raw, defaulted,
      defaultAPIServerPort. destruct j as [m [s|]]; simpl in *;
      [|by split_and!; auto; lia].
    destruct (service_defaults_agree s Hs) as (Hv & H1 & H2 & H3 & _ & _ & H4 & H5). simpl in *.
    rewrite H1, H3, (proj2 (String.eqb_neq _ _) H2), (proj2 (Z.eqb_neq _ _)) by lia.
    split_and!; first [done|lia]. }
  assert (endpointMode raw = endpointMode defaulted ∧
    (endpointMode raw = EndpointModeExternal ∨ endpointMode raw = EndpointModeService) ∧
    one_of [EndpointModeExternal; EndpointModeService] (je_mode (endpoint_default j)) = true)
    as (Em & Hmode & Hv').
  { apply one_of_cases in Hm. destruct j as [m s]; simpl in Hm. unfold endpointMode, raw, defaulted; simpl.
    destruct Hm as [->|[->| ->]]; simpl; naive_solver. }
  rewrite !exposureFor_spec.
  split_and!; [unfold endpoint_valid; by rewrite Hv', Hv|done| |done| | |done|done|lia..].
  - unfold buildControlPlaneService. rewrite Et, Ep. unfold serviceCfg, raw, defaulted.
    by destruct j as [m [s|]].
  - unfold service_exposure, raw, defaulted. simpl.
    apply one_of_cases in Hm. destruct j as [m [s|]]; simpl in *.
    + destruct (service_defaults_agree s Hs) as (_ & _ & _ & H3 & _ & _ & _ & H5). simpl in *.
      destruct Hm as [->|[->| ->]]; simpl; try done.
      do 2 f_equal. destruct (js_port s) as [p|]; simpl in *; [|done]. by destruct (p =? 0)%Z.
    + by destruct Hm as [->|[->| ->]].
  - unfold service_exposure, endpointMode, controlPlaneServicePort, serviceCfg, raw.
    apply one_of_cases in Hm. destruct j as [m [s|]]; simpl in *; destruct Hm as [->|[->| ->]]; simpl; try done.
    do 2 f_equal. by destruct (default 0%Z (js_port s) =? 0)%Z.
Qed.

(** ** What admission leaves to the reconcile *)

Definition text_set (o : option string) : Prop := default "" o ≠ "".
Definition gpu_texts (g : jsonGPU) : list string :=
  List.filter (λ s, negb (String.eqb s ""))
    [default "" (jg_resourceClaimTemplateName g); default "" (jg_resourceClaimName g);
     default "" (jg_gpuProfileRef g)].

(** The requirements only [validate] checks. *)
Definition left_to_validate (g : jsonGuest) (exposure : option ControlPlaneExposure) : Prop :=
  text_set (jg_imageRef g) ∧ text_set (jg_guestClassRef g) ∧
  (∀ u, jg_gpu g = Some u → length (gpu_texts u) = 1%nat) ∧
  (jg_nodeName g = None ∨ jg_gpu g = None) ∧
  (exposure = None ∨ primaryOnNAD (guest_decode g) = false).

Lemma admitted_gpu g :
  gpu_valid g = true →
  validateGPU (Some (gpu_decode (gpu_default g))) = None ↔ length (gpu_texts g) = 1%nat.
Proof.
  unfold gpu_valid. rewrite andb_true_iff. intros [Ht _].
  rewrite validateGPU_ok. unfold gpu_ok, gpu_sources, gpu_texts. simpl.
  assert (default GPUTierPCIe (jg_tier g) = GPUTierPCIe) as ->; [|by split; [intros []|auto]].
  destruct (jg_tier g) as [s|]; [|done]. simpl in Ht. apply bool_decide_eq_true in Ht.
  by apply list_elem_of_singleton in Ht.
Qed.

Lemma admitted_placement g :
  text_between 1 253 (jg_nodeName g) = true →
  validatePlacement (guest_decode (guest_default g)) = None ↔
  jg_nodeName g = None ∨ jg_gpu g = None.
Proof.
  intros Hn. rewrite validatePlacement_ok. simpl.
  assert (default "" (jg_nodeName g) = "" ↔ jg_nodeName g = None) as ->.
  { by destruct (jg_nodeName g) as [[]|]. }
  assert (gpu_decode <$> (gpu_default <$> jg_gpu g) = None ↔ jg_gpu g = None) as ->; [|done].
  by destruct (jg_gpu g).
Qed.

Lemma admitted_interfaces g :
  CEL.admits (jg_network g) = true → validateInterfaces (guest_decode (guest_default g)) = None.
Proof. intros H. by apply validateInterfaces_ok, admitted_interfaces_ok. Qed.

(** C22: What the CRD admits, the reconciler accepts but for the rules no marker states:
    an admitted and defaulted backend always has a supported type, and [validate] accepts
    its configuration if and only if it is there, names an image and a guest class, names
    exactly one GPU allocation source if it asks for a GPU, does not also pin the node, and
    keeps the primary interface off a NAD when the control-plane port is exposed. The tier
    and the interface rules need no second look. *)
Theorem admitted_backend_accepted (req : Request) (j : jsonBackend) :
  backend_valid j = true →
  ksmSpec_Backend (ksm_Spec (req_Machine req)) = backend_decode (backend_default j) →
  backendFor (mb_Type (backend_decode (backend_default j))) = Ok NewSwiftGuestBackend ∧
  ∀ cfg, validate req = Ok cfg ↔
    ∃ g, jb_swiftGuest j = Some g ∧ cfg = guest_decode (guest_default g) ∧
      left_to_validate g (req_ControlPlaneExposure req).
Proof.
  unfold backend_valid. rewrite andb_true_iff. intros [Ht Hg] Hb. split.
  { unfold backendFor. simpl. destruct (jb_type j) as [s|]; [|done]. simpl in Ht |- *.
    apply bool_decide_eq_true, list_elem_of_singleton in Ht. by rewrite Ht. }
  intros cfg. rewrite validate_ok, Hb. simpl.
  destruct (jb_swiftGuest j) as [g|]; simpl; [|naive_solver].
  unfold guest_valid in Hg. rewrite !andb_true_iff in Hg. destruct Hg as [[[Ha _] Hn] Hu].
  assert (validateGPU (sgb_GPU (guest_decode (guest_default g))) = None ↔
    ∀ u, jg_gpu g = Some u → length (gpu_texts u) = 1%nat) as Hgpu.
  { simpl. destruct (jg_gpu g) as [u|]; simpl; [|by split].
    rewrite (admitted_gpu u Hu). naive_solver. }
  pose proof (admitted_placement g Hn) as Hp. pose proof (admitted_interfaces g Ha) as Hi.
  change (primaryOnNAD (guest_decode g)) with (primaryOnNAD (guest_decode (guest_default g))).
  unfold left_to_validate, text_set.
  split.
  - intros ([= <-] & ? & ? & ? & ? & ? & ?). exists g. naive_solver.
  - intros (g' & [= <-] & -> & ?). naive_solver.
Qed.

(** ** What a reconcile writes stays admitted *)

Lemma runes_app s t : runes (s +:+ t) = (runes s + runes t)%nat.
Proof. induction s as [|c s IH]; simpl; [done|]. rewrite IH. lia. Qed.

Lemma text_omit lo hi s :
  text_between lo hi (omit s) = true ↔ s = "" ∨ (lo ≤ runes s ≤ hi)%nat.
Proof.
  unfold omit. destruct (String.eqb s "") eqn:E; bool_facts; simpl; [by split; [left|]|].
  rewrite andb_true_iff, !Nat.leb_le. naive_solver.
Qed.

(** Names within the limits of the API server. *)
Definition names_fit (ksm : KubeSwiftMachine) : Prop :=
  (runes (meta_Namespace (ksm_ObjectMeta ksm)) ≤ 63)%nat ∧
  (runes (meta_Name (ksm_ObjectMeta ksm)) ≤ 253)%nat.

Lemma providerID_fits ksm : names_fit ksm → text_between 1 512 (omit (providerIDOf ksm)) = true.
Proof.
  intros [Hns Hn]. rewrite text_omit. right. unfold providerIDOf, machineProviderID.
  rewrite !runes_app. change (runes ProviderIDScheme) with 9%nat. simpl. lia.
Qed.

Context {C : ConditionLaws}.

Lemma condition_admitted ksm c :
  status_valid (ksm_Status ksm) = true → status_valid (ksm_Status (machine_condition ksm c)) = true.
Proof.
  unfold status_valid. rewrite !andb_true_iff, !bool_decide_eq_true. intros [Hd Hc]. split; [done|].
  by destruct (conditions_Set_spec (ksm_GetConditions ksm) c Hc) as [Hwf _].
Qed.

Lemma outcome_admitted ksm machine cluster b t ksm' ret :
  machine_outcome ksm machine cluster b t ksm' ret → names_fit ksm →
  text_between 1 256 (omit (mach_Spec_FailureDomain machine)) = true →
  spec_valid (ksm_Spec ksm) = true → status_valid (ksm_Status ksm) = true →
  spec_valid (ksm_Spec ksm') = true ∧ status_valid (ksm_Status ksm') = true.
Proof.
  unfold machine_outcome. intros Ho Hn Hd Hs Hst. destruct (deleting ksm); [by destruct Ho|].
  destruct Ho as [| |t' err Hro|name tb tx x tr r t2 k' ret' Hi Hbr Hx Hr Hb]; try done;
    try (split; [done|by apply condition_admitted]).
  destruct Hb; (split; [try done; by apply providerID_fits|]); apply condition_admitted; try done.
  unfold status_valid in *. rewrite !andb_true_iff in *. by destruct Hst.
Qed.
End Schema.

Section Patches.
Context {lib : Lib} {N : NestedLaws} {U : UnstructuredLaws} {C : ConditionLaws}.

(** C32: The machine a reconcile patches stays within the CRD's bounds: if the machine read
    is within them, its name and namespace fit the API server's limits and the owner's
    failure domain fits Cluster API's, then the providerID written has at most 512
    characters and the failure domain at most 256, no two conditions have the same type,
    and the patch is admitted. *)
Theorem patches_admitted (key : NamespacedName) :
  wp any (MachineController.Reconcile key) (λ t r, ∀ ev before after,
    ev ∈ t → ev_patch ev = Some (before, after) → names_fit before →
    (∀ machine, Ev (GetOwnerMachine (ksm_ObjectMeta before)) (Ok (Some machine)) ∈ t →
       text_between 1 256 (omit (mach_Spec_FailureDomain machine)) = true) →
    spec_valid (ksm_Spec before) = true → status_valid (ksm_Status before) = true →
    spec_valid (ksm_Spec after) = true ∧ status_valid (ksm_Status after) = true).
Proof.
  apply Reconcile_rule.
  { intros t r Ht ev before after Hev. by rewrite (read_only_patch t ev Ht Hev). }
  intros t r ksm machine cluster b t1 ksm' ret -> Ht Ho ev before after Hev Hp Hn Hd.
  destruct (touches_patch _ _ _ _ _ _ _ _ _ _ _ _ Ht Ho Hev Hp) as [-> ->].
  eapply outcome_admitted; [done|done|]. apply Hd.
  destruct Ht as (t0 & p & [_ _] & -> & _). rewrite !elem_of_app. left.
  right. left.
Qed.
End Patches.
