(* ===== verification/Store.v ===== *)
(** * Store: one machine, its guest, and the reconciler, interleaved

    A transition system around [MachineController.Reconcile]: the machine and its guest in
    the API server, the informer cache the reconciler reads machines from, and the
    reconcile in flight - a program and what it was answered so far. The reconcile may
    stop after any call; a request that changes something may take effect whatever it
    answers; the user, other controllers and the guest move in between. The workqueue runs
    one reconcile of a machine at a time. *)

From S2P Require Import Prelude Go Prog Kube Api Lib Reference Backend Samples.
From S2P Require Import SwiftGuest SwiftGuestSpec SwiftGuestRun SwiftGuestStatus.
From S2P Require Import WorkloadNode MachineController MachineSpec MachineProps MachineStatus.

(** ** Programs guarded call by call

    A property of each event, given the events before it, holds along unfinished runs
    too. *)
Section Guarded.
Context {E : Type → Type} {R : Type}.

Fixpoint guarded (P : trace E → event E → Prop) (pre : trace E) (p : prog E R) : Prop :=
  match p with
  | Vis e k => ∀ x, P pre (Ev e x) ∧ guarded P (pre ++ [Ev e x]) (k x)
  | _ => True
  end.

Lemma wp_finishes (p : prog E R) Q :
  (∀ X, E X → inhabited X) → wp any p Q → ∃ t r, Q t r.
Proof.
  intros HE. revert Q. induction p as [r| |X e k IH]; intros Q H; [by eauto|done|].
  destruct (HE X e) as [x]. destruct (IH x _ (H x I)) as (t & r & Hq). eauto.
Qed.

Lemma guarded_wp P pre (p : prog E R) :
  (∀ X, E X → inhabited X) → wp any p (λ t _, each_after P pre t) → guarded P pre p.
Proof.
  intros HE. revert pre. induction p as [r| |X e k IH]; intros pre H; [done..|].
  intros x. specialize (H x I). split.
  - by destruct (wp_finishes _ _ HE H) as (t & r & Hq & _).
  - apply IH. eapply wp_mono, H. by intros t r [_ Ht].
Qed.
End Guarded.

Lemma call_inhabited X : call X → inhabited X.
Proof.
  intros []; first [exact (inhabits None) | exact (inhabits (Err (Ext 0 "")))].
Qed.

(** ** The state *)

Record state := mkState {
  st_machine : option KubeSwiftMachine;
  (** what the cache shows, and the versions it has yet to see, oldest first *)
  st_cached : option KubeSwiftMachine;
  st_pending : list (option KubeSwiftMachine);
  st_guest : option Unstructured;
  st_run : option (prog call Return * trace call)
}.

Section Store.
Context {lib : Lib}.

Definition set_run (s : state) (r : option (prog call Return * trace call)) : state :=
  mkState (st_machine s) (st_cached s) (st_pending s) (st_guest s) r.
Definition set_guest (s : state) (g : option Unstructured) : state :=
  mkState (st_machine s) (st_cached s) (st_pending s) g (st_run s).
Definition write (s : state) (m : option KubeSwiftMachine) : state :=
  mkState m (st_cached s) (st_pending s ++ [m]) (st_guest s) (st_run s).
Definition synced (s : state) (v : option KubeSwiftMachine) (vs : list (option KubeSwiftMachine)) : state :=
  mkState (st_machine s) v vs (st_guest s) (st_run s).

(** An object being deleted goes away with its last finalizer. *)
Definition settle (m : KubeSwiftMachine) : option KubeSwiftMachine :=
  if deleting m && bool_decide (finalizers m = []) then None else Some m.

(** ** What the server does *)

(** The machine a read answers with. *)
Definition ev_machine (key : NamespacedName) (ev : event call) : option KubeSwiftMachine :=
  match ev with
  | Ev c x =>
    match c in call X return X → option KubeSwiftMachine with
    | Get k key' _ =>
      match k return result (objT k) → option KubeSwiftMachine with
      | KMachine => λ r, match r with
          | Ok m => if decide (key' = key) then Some m else None | Err _ => None end
      | _ => λ _, None
      end
    | _ => λ _, None
    end x
  end.

(** A read that found no guest. *)
Definition guest_absent (key : NamespacedName) (ev : event call) : Prop :=
  ∃ e, ev = Ev (Get KUnstructured key NewSwiftGuestObject) (Err e) ∧ IsNotFound (Some e) = true.

(** Machines are read from the cache, guests - unstructured objects - from the server. *)
Definition truthful (key : NamespacedName) (s : state) (ev : event call) : Prop :=
  (∀ m, ev_machine key ev = Some m → st_cached s = Some m) ∧
  (guest_absent key ev → st_guest s = None).

Definition named (key : NamespacedName) (u : Unstructured) : Prop :=
  GetNamespace u = nn_Namespace key ∧ GetName u = nn_Name key.

(** What a patch from [before] to [after] makes of the machine: finalizers are replaced as
    a list, if they differ; a patch does not touch the deletion time stamp. *)
Definition patch_of (before after m m' : KubeSwiftMachine) : Prop :=
  machineKey m' = machineKey m ∧ deleting m' = deleting m ∧
  finalizers m' = if decide (finalizers before = finalizers after) then finalizers m
                  else finalizers after.

(** The effect of a request, whatever it answers. *)
Inductive effect (key : NamespacedName) (s : state) (ev : event call) : state → Prop :=
  | no_effect : effect key s ev s
  | guest_created u g :
      ev_create ev = Some u → named key u → effect key s ev (set_guest s (Some g))
  | guest_deleted u g :
      ev_delete ev = Some u → (st_guest s = None → g = None) → effect key s ev (set_guest s g)
  | machine_patched before after m m' :
      ev_patch ev = Some (before, after) → st_machine s = Some m → patch_of before after m m' →
      effect key s ev (write s (settle m')).

(** ** Steps *)

Inductive moves (key : NamespacedName) : state → state → Prop :=
  | reconcile_starts s :
      st_run s = None → moves key s (set_run s (Some (Reconcile key, [])))
  | call_answered s X (e : call X) k pre x s' :
      st_run s = Some (Vis e k, pre) → truthful key s (Ev e x) → effect key s (Ev e x) s' →
      moves key s (set_run s' (Some (k x, pre ++ [Ev e x])))
  | reconcile_ends s r :   (** it returned, or the process stopped *)
      st_run s = Some r → moves key s (set_run s None)
  | cache_syncs s v vs :
      st_pending s = v :: vs → moves key s (synced s v vs)
  | machine_changes s m m' :   (** the user deletes it, others write it *)
      st_machine s = Some m → machineKey m' = machineKey m →
      (deleting m = true → deleting m' = true) →
      (MachineFinalizer ∈ finalizers m' ↔ MachineFinalizer ∈ finalizers m) →
      moves key s (write s (settle m'))
  | guest_moves s g g' :   (** it progresses, or is gone *)
      st_guest s = Some g → moves key s (set_guest s g').

Definition reachable (key : NamespacedName) : state → state → Prop := rtc (moves key).

(** ** Ownership *)

Definition protected (v : option KubeSwiftMachine) : Prop :=
  ∃ m, v = Some m ∧ MachineFinalizer ∈ finalizers m.
Definition dying (v : option KubeSwiftMachine) : Prop :=
  ∀ m, v = Some m → deleting m = true.

(** A guest has a machine that holds the finalizer. *)
Definition owned_guest (s : state) : Prop := st_guest s ≠ None → protected (st_machine s).

(** Where the theorems start: the finalizer is persisted and the cache has seen it. *)
Definition claimed (key : NamespacedName) (s : state) : Prop :=
  ∃ m, st_machine s = Some m ∧ machineKey m = key ∧ MachineFinalizer ∈ finalizers m ∧
    st_cached s = Some m ∧ st_pending s = [] ∧ st_run s = None.

End Store.
