(* ===== verification/StoreProps.v ===== *)
(** * StoreProps: no guest is orphaned once the finalizer is persisted *)

From S2P Require Import Prelude Go Prog Kube Api Lib Reference Backend Samples.
From S2P Require Import SwiftGuest SwiftGuestSpec SwiftGuestRun SwiftGuestStatus.
From S2P Require Import WorkloadNode MachineController MachineSpec MachineProps MachineStatus Store.
From stdpp Require Import sorting.

Section Monitor.
Context {lib : Lib} {N : NestedLaws} {U : UnstructuredLaws} {F : FinalizerLaws}.

(** The machine a reconcile is about: its first call read it. *)
Definition subject (key : NamespacedName) (pre : trace call) : option KubeSwiftMachine :=
  match pre with ev :: _ => ev_machine key ev | [] => None end.

(** What the reconciler promises the store, call by call: it creates only for a machine it
    read as not being deleted; its patch keeps the finalizer of such a machine, and leaves
    the finalizers of one being deleted as they are, or gives up its own, having found no
    guest. *)
Definition monitor (key : NamespacedName) (pre : trace call) (ev : event call) : Prop :=
  (∀ u, ev_create ev = Some u → ∃ ksm, subject key pre = Some ksm ∧ deleting ksm = false) ∧
  (∀ before after, ev_patch ev = Some (before, after) →
     ∃ ksm, subject key pre = Some ksm ∧
       (deleting ksm = false → MachineFinalizer ∈ finalizers after) ∧
       (deleting ksm = true → finalizers before = finalizers after ∨
          ((MachineFinalizer ∉ finalizers after) ∧
           Exists (guest_absent (machineKey ksm)) pre))).

Lemma monitor_quiet key pre ev : ev_mutates ev = false → monitor key pre ev.
Proof. intros Hm. split; intros; by destruct ev as [X [] x]. Qed.

Lemma monitor_quiet_trace key pre t :
  Forall (λ ev, ev_mutates ev = false) t → each_after (monitor key) pre t.
Proof.
  intros Ht. apply each_after_spec. intros t1 ev t2 ->. apply monitor_quiet.
  apply list.Forall_app in Ht as [_ Ht]. by apply Forall_cons_1 in Ht as [? _].
Qed.

Lemma engaged_subject key ksm machine cluster b t0 t :
  engaged key ksm machine cluster b t0 → subject key (t0 ++ t) = Some ksm.
Proof. intros []. simpl. by rewrite decide_True. Qed.

(** A machine being deleted has nothing created. *)
Lemma outcome_creates ksm machine cluster t ksm' ret ev u :
  machine_outcome ksm machine cluster NewSwiftGuestBackend t ksm' ret →
  ev ∈ t → ev_create ev = Some u → deleting ksm = false.
Proof.
  intros Ho Hev Hc. unfold machine_outcome in Ho. destruct (deleting ksm); [|done]. exfalso.
  assert (no_write t) as Hn by (destruct Ho as [err Hr|Hr|Hr]; by apply deletion_runs in Hr as (_ & ? & _)).
  rewrite list.Forall_forall in Hn. specialize (Hn ev Hev). by destruct ev as [X [] x].
Qed.

Lemma Reconcile_monitored key : wp any (Reconcile key) (λ t _, each_after (monitor key) [] t).
Proof.
  apply Reconcile_rule; [intros t r Ht; by apply monitor_quiet_trace|].
  intros t r ksm machine cluster b t1 ksm' ret -> (t0 & p & He & -> & _) Ho.
  rewrite !each_after_app. split_and!.
  - destruct He. apply monitor_quiet_trace. by repeat constructor.
  - apply each_after_spec. intros ta ev tb ->. simpl. split.
    + intros u Hu. exists ksm. split; [by eapply engaged_subject|].
      eapply outcome_creates; [exact Ho| |exact Hu]. rewrite elem_of_app. right. by left.
    + intros before after Hp. rewrite (inner_no_patch (ta ++ ev :: tb) ev) in Hp; [done| |].
      * by eapply outcome_inner.
      * rewrite elem_of_app. right. by left.
  - split; [|done]. split; [done|]. intros before after [= <- <-]. exists ksm.
    split; [by eapply engaged_subject|].
    destruct (outcome_finalizers _ _ _ _ _ _ Ho)
      as [(Hd & Hf)|[(Hd & -> & _)|(Hd & -> & _ & e & d & He' & Hg & ->)]]; rewrite Hd.
    + split; [|done]. intros _. rewrite Hf, AddFinalizer_spec. by left.
    + split; [done|]. by left.
    + split; [done|]. right. split; [unfold finalizers, released; cbn; rewrite RemoveFinalizer_spec; tauto|].
      apply List.Exists_exists. eexists. split; [apply in_or_app; right; by left|by exists e].
Qed.

Lemma Reconcile_guarded key : guarded (monitor key) [] (Reconcile key).
Proof. apply guarded_wp; [apply call_inhabited|apply Reconcile_monitored]. Qed.
End Monitor.

(** ** The invariant *)

Section Invariant.
Context {lib : Lib} {N : NestedLaws} {U : UnstructuredLaws} {F : FinalizerLaws}.

(** What the cache shows now and will show. *)
Definition versions (s : state) : list (option KubeSwiftMachine) := st_cached s :: st_pending s.

Record sound (key : NamespacedName) (s : state) : Prop := {
  sound_named : Forall (λ v, ∀ m, v = Some m → machineKey m = key) (versions s);
  sound_last : list.last (versions s) = Some (st_machine s);
  sound_sorted : StronglySorted (λ a b, dying a → dying b) (versions s);
  sound_owned : protected (st_machine s) ∨ (st_guest s = None ∧ dying (st_cached s))
}.

(** What the reconcile in flight knows stays true while it runs. *)
Definition linked (key : NamespacedName) (s : state) (pre : trace call) : Prop :=
  ∀ ksm, subject key pre = Some ksm →
    machineKey ksm = key ∧
    (deleting ksm = false → protected (st_machine s)) ∧
    (deleting ksm = true →
       dying (st_cached s) ∧ (Exists (guest_absent key) pre → st_guest s = None)).

Definition invariant (key : NamespacedName) (s : state) : Prop :=
  sound key s ∧
  ∀ p pre, st_run s = Some (p, pre) → guarded (monitor key) pre p ∧ linked key s pre.

Lemma sound_dying key s v : sound key s → dying (st_cached s) → v ∈ versions s → dying v.
Proof.
  intros [_ _ Hs _] Hd [->|Hv]%elem_of_cons; [done|].
  apply StronglySorted_inv in Hs as [_ Hs]. rewrite list.Forall_forall in Hs. by apply (Hs v).
Qed.

Lemma sound_machine key s : sound key s → st_machine s ∈ versions s.
Proof. intros [_ Hl _ _]. by apply last_Some_elem_of. Qed.

Lemma settle_protected m : MachineFinalizer ∈ finalizers m → settle m = Some m.
Proof.
  intros Hf. unfold settle. rewrite bool_decide_eq_false_2; [by rewrite andb_false_r|].
  intros He. rewrite He in Hf. by apply elem_of_nil in Hf.
Qed.

Lemma settle_dying m : deleting m = true → dying (settle m).
Proof. intros Hd m'. unfold settle. by case_match; intros [= <-]. Qed.

Lemma settle_named key m : machineKey m = key → ∀ m', settle m = Some m' → machineKey m' = key.
Proof. intros Hk m'. unfold settle. by case_match; intros [= <-]. Qed.

Lemma sound_latest key s v : sound key s → v ∈ versions s → dying v → dying (st_machine s).
Proof.
  intros [_ Hl Hs _] Hv Hd. apply last_Some in Hl as [l Hl]. rewrite Hl in Hs, Hv.
  apply elem_of_app in Hv as [Hv|Hv%list_elem_of_singleton]; [|by subst v].
  eapply StronglySorted_app_1_elem_of in Hs; [by apply Hs|done|by left].
Qed.

(** Writing the machine. *)
Lemma sound_write key s m m' :
  sound key s → st_machine s = Some m → machineKey m' = machineKey m →
  (deleting m = true → deleting m' = true) →
  protected (settle m') ∨ (st_guest s = None ∧ dying (st_cached s)) →
  sound key (write s (settle m')).
Proof.
  intros Hs Hm Hk Hd Ho. pose proof (sound_machine _ _ Hs) as Hin. rewrite Hm in Hin.
  pose proof (sound_named _ _ Hs) as Hn. pose proof (sound_sorted _ _ Hs) as Hsort.
  assert (versions (write s (settle m')) = versions s ++ [settle m']) as Hv by done.
  split; [..|exact Ho]; rewrite Hv.
  - apply list.Forall_app. split; [done|]. constructor; [|constructor].
    apply settle_named. rewrite Hk. rewrite list.Forall_forall in Hn. by eapply Hn.
  - apply last_snoc.
  - apply StronglySorted_app_2; [|done|by repeat constructor].
    intros a b Ha ->%list_elem_of_singleton Hda. apply settle_dying, Hd.
    by apply (sound_latest _ _ _ Hs Ha Hda).
Qed.

Lemma sound_guest key s g :
  sound key s → protected (st_machine s) ∨ (st_guest s = None → g = None) → sound key (set_guest s g).
Proof.
  intros [Hn Hl Hs Ho] Hg. split; [done..|]. destruct Ho as [?|[Hno Hd]]; [by left|].
  destruct Hg as [?|Hg]; [by left|]. right. split; [by apply Hg|done].
Qed.

Lemma sound_run key s r : sound key s → sound key (set_run s r).
Proof. by intros [????]. Qed.

Lemma sound_synced key s v vs :
  sound key s → st_pending s = v :: vs → sound key (synced s v vs) ∧ (dying (st_cached s) → dying v).
Proof.
  intros Hs Hp. pose proof Hs as [Hn Hl Hsort Ho]. unfold versions in *. rewrite Hp in Hn, Hl, Hsort.
  assert (dying (st_cached s) → dying v) as Hd.
  { intros Hc. eapply sound_dying; [done|done|]. unfold versions. rewrite Hp. right. by left. }
  split; [|done]. split.
  - by apply Forall_cons_1 in Hn as [_ Hn].
  - done.
  - by apply StronglySorted_inv in Hsort as [Hsort _].
  - destruct Ho as [?|[? ?]]; [by left|right]. auto.
Qed.

(** ** Each step keeps it *)

Lemma linked_write key s m m' pre :
  st_machine s = Some m → (protected (Some m) → protected (settle m')) →
  linked key s pre → linked key (write s (settle m')) pre.
Proof.
  intros Hm Hp Hl ksm Hk. destruct (Hl ksm Hk) as (? & Hnd & Hdl). split_and!; [done| |done].
  intros Hd. apply Hp. rewrite <- Hm. by apply Hnd.
Qed.

Lemma linked_guest key s g pre :
  (st_guest s = None → g = None) → linked key s pre → linked key (set_guest s g) pre.
Proof.
  intros Hg Hl ksm Hk. destruct (Hl ksm Hk) as (? & ? & Hdl). split_and!; [done..|].
  intros Hd. destruct (Hdl Hd) as [? Ha]. split; [done|]. intros He. by apply Hg, Ha.
Qed.

Lemma linked_synced key s v vs pre :
  (dying (st_cached s) → dying v) → linked key s pre → linked key (synced s v vs) pre.
Proof.
  intros Hv Hl ksm Hk. destruct (Hl ksm Hk) as (? & ? & Hdl). split_and!; [done..|].
  intros Hd. destruct (Hdl Hd) as [? Ha]. split; [by apply Hv|done].
Qed.

(** A true answer is knowledge. *)
Lemma linked_event key s pre ev :
  sound key s → truthful key s ev → linked key s pre → linked key s (pre ++ [ev]).
Proof.
  intros Hs [Hread Habs] Hl ksm Hk. destruct pre as [|ev0 pre].
  - simpl in Hk. apply Hread in Hk. pose proof Hs as [Hn _ _ Ho].
    apply Forall_cons_1 in Hn as [Hn _]. split_and!; [by apply Hn| |].
    + intros Hd. destruct Ho as [?|[_ Hdy]]; [done|]. rewrite (Hdy ksm Hk) in Hd. done.
    + intros Hd. split; [intros m Hm; congruence|]. intros He. apply Habs.
      by apply List.Exists_cons in He as [He|He]; [|inversion He].
  - destruct (Hl ksm Hk) as (? & ? & Hdl). split_and!; [done..|].
    intros Hd. destruct (Hdl Hd) as [? Ha]. split; [done|].
    intros [He|He]%List.Exists_app; [by apply Ha|]. apply Habs.
    by apply List.Exists_cons in He as [He|He]; [|inversion He].
Qed.

Lemma patched_protected before after m m' :
  patch_of before after m m' → finalizers before = finalizers after →
  protected (Some m) → protected (settle m').
Proof.
  intros (_ & _ & Hf) Heq (? & [= <-] & Hin). rewrite decide_True in Hf by done.
  rewrite settle_protected by (by rewrite Hf). exists m'. by rewrite Hf.
Qed.

(** The effect of a call the reconciler makes. *)
Lemma effect_kept key s s' pre ev :
  sound key s → linked key s pre → linked key s (pre ++ [ev]) → monitor key pre ev →
  effect key s ev s' → sound key s' ∧ linked key s' (pre ++ [ev]).
Proof.
  intros Hs Hl Hl' [Hcreate Hpatch] He. destruct He as [|u g Hc _|u g _ Hg|before after m m' Hp Hm Hpo].
  - done.
  - destruct (Hcreate u Hc) as (ksm & Hk & Hd). destruct (Hl ksm Hk) as (_ & Hprot & _).
    split; [apply sound_guest; [done|left; by apply Hprot]|].
    intros ksm' Hk'. assert (subject key (pre ++ [ev]) = Some ksm) as Hk2
      by (destruct pre; [done|exact Hk]).
    assert (ksm' = ksm) as -> by congruence. destruct (Hl' ksm Hk2) as (? & ? & _).
    split_and!; [done|done|congruence].
  - split; [apply sound_guest; [done|by right]|by apply linked_guest].
  - destruct (Hpatch before after Hp) as (ksm & Hk & Hnd & Hdl).
    destruct (Hl ksm Hk) as (Hkey & Hprot & Hdying).
    assert (protected (settle m') ∨ (deleting ksm = true ∧ st_guest s = None ∧ dying (st_cached s))) as Hw.
    { destruct (decide (finalizers before = finalizers after)) as [Heq|Hne].
      - destruct (sound_owned _ _ Hs) as [Hpr|[? ?]].
        + left. rewrite Hm in Hpr. by eapply patched_protected.
        + destruct (deleting ksm) eqn:Hd; [by right|]. left.
          eapply patched_protected; [done|done|]. rewrite <- Hm. by apply Hprot.
      - pose proof Hpo as (_ & _ & Hf). rewrite decide_False in Hf by done.
        destruct (deleting ksm) eqn:Hd.
        + right. destruct (Hdl eq_refl) as [?|[_ Hab]]; [done|].
          destruct (Hdying eq_refl) as [? Hg]. split_and!; [done| |done]. apply Hg. by rewrite <- Hkey.
        + left. rewrite settle_protected by (rewrite Hf; by apply Hnd).
          exists m'. rewrite Hf. split; [done|by apply Hnd]. }
    pose proof Hpo as (Hmk & Hmd & _). split.
    + eapply sound_write; [done|done|done|by rewrite Hmd|]. destruct Hw as [?|(_ & ? & ?)]; auto.
    + intros ksm' Hk'. assert (subject key (pre ++ [ev]) = Some ksm) as Hk2
        by (destruct pre; [done|exact Hk]).
      assert (ksm' = ksm) as -> by congruence. destruct (Hl' ksm Hk2) as (? & ? & Hd').
      split_and!; [done| |done]. intros Hd. destruct Hw as [?|(? & _)]; [done|congruence].
Qed.

Lemma moves_kept key s s' : invariant key s → moves key s s' → invariant key s'.
Proof.
  intros [Hs Hrun] Hm. destruct Hm as [s Hr|s X e k pre x s' Hr Htr He|s r Hr|s v vs Hp
    |s m m' Hm Hk Hd Hf|s g g' Hg].
  - split; [by apply sound_run|]. intros p pre [= <- <-]. split; [apply Reconcile_guarded|]. by intros ksm.
  - destruct (Hrun _ _ Hr) as [Hgd Hl]. destruct (Hgd x) as [Hmon Hgd'].
    destruct (effect_kept key s s' pre (Ev e x)) as [Hs' Hl']; [done|done| |done|done|].
    { by apply linked_event. }
    split; [by apply sound_run|]. by intros p pre' [= <- <-].
  - split; [by apply sound_run|]. done.
  - destruct (sound_synced key s v vs Hs Hp) as [Hs' Hd]. split; [done|].
    intros p pre Hr. destruct (Hrun p pre Hr) as [? Hl]. split; [done|by apply linked_synced].
  - assert (protected (Some m) → protected (settle m')) as Hpr.
    { intros (? & [= <-] & Hin). apply Hf in Hin as Hin'. rewrite settle_protected by done. by exists m'. }
    split.
    + eapply sound_write; [done..|]. destruct (sound_owned _ _ Hs) as [Ho|Ho]; [|by right].
      left. apply Hpr. by rewrite <- Hm.
    + intros p pre Hr. destruct (Hrun p pre Hr) as [? Hl]. split; [done|by eapply linked_write].
  - split.
    + apply sound_guest; [done|]. destruct (sound_owned _ _ Hs) as [?|[? _]]; [by left|congruence].
    + intros p pre Hr. destruct (Hrun p pre Hr) as [? Hl]. split; [done|].
      apply linked_guest; [congruence|done].
Qed.

Lemma claimed_invariant key s : claimed key s → invariant key s.
Proof.
  intros (m & Hm & Hk & Hf & Hc & Hp & Hr). split; [|intros p pre Hr'; congruence].
  split; [unfold versions; rewrite Hc, Hp..|].
  - constructor; [|constructor]. congruence.
  - by rewrite Hm.
  - repeat constructor.
  - left. rewrite Hm. by exists m.
Qed.

Lemma reachable_invariant key s s' : claimed key s → reachable key s s' → invariant key s'.
Proof.
  intros Hc%claimed_invariant. induction 1 as [|s1 s2 s3 H1 _ IH]; [done|].
  apply IH. by eapply moves_kept.
Qed.

(** C1: Once a machine's finalizer is persisted, its guest is never orphaned: in every
    state reachable from then on - reconciles starting, stopping after any call, reading
    machines from a stale cache, failing calls taking effect or not, the user deleting the
    machine, other controllers writing it, the guest moving on its own - a guest exists
    only while its machine does and carries the finalizer. *)
Theorem guest_never_orphaned key s s' :
  claimed key s → reachable key s s' → st_guest s' ≠ None →
  ∃ m, st_machine s' = Some m ∧ machineKey m = key ∧ MachineFinalizer ∈ finalizers m.
Proof.
  intros Hc Hr Hg. destruct (reachable_invariant _ _ _ Hc Hr) as [Hs _].
  destruct (sound_owned _ _ Hs) as [(m & Hm & Hf)|[? _]]; [|done].
  exists m. split_and!; [done| |done]. pose proof (sound_named _ _ Hs) as Hn.
  rewrite list.Forall_forall in Hn. eapply Hn; [|exact Hm]. by eapply sound_machine.
Qed.

(** ** The ownership protocol

    What the reconciler, the user and the guest make of a claimed machine, with everything
    else forgotten. *)

Inductive ownership := Held (guest deleting : bool) | Released.

Inductive protocol : ownership → ownership → Prop :=
  | creates d : protocol (Held false d) (Held true d)
  | goes d : protocol (Held true d) (Held false d)
  | deletes g : protocol (Held g false) (Held g true)
  | releases : protocol (Held false true) Released.

(** A step of the protocol, or none. *)
Definition advances (a b : ownership) : Prop := a = b ∨ protocol a b.

Definition present {A} (o : option A) : bool := match o with Some _ => true | None => false end.
Definition view (s : state) : ownership :=
  match st_machine s with
  | Some m => if decide (MachineFinalizer ∈ finalizers m)
              then Held (present (st_guest s)) (deleting m) else Released
  | None => Released
  end.

Lemma view_released s : ¬ protected (st_machine s) → view s = Released.
Proof.
  intros H. unfold view. destruct (st_machine s) as [m|]; [|done].
  rewrite decide_False; [done|]. intros Hf. apply H. by exists m.
Qed.

Lemma view_held s m :
  st_machine s = Some m → MachineFinalizer ∈ finalizers m →
  view s = Held (present (st_guest s)) (deleting m).
Proof. intros Hm Hf. unfold view. by rewrite Hm, decide_True. Qed.

Lemma protected_dec (v : option KubeSwiftMachine) : protected v ∨ ¬ protected v.
Proof.
  destruct v as [m|]; [|right; by intros (? & ? & _)].
  destruct (decide (MachineFinalizer ∈ finalizers m)) as [Hf|Hf]; [left; by exists m|].
  right. by intros (? & [= <-] & ?).
Qed.

(** A change of the guest of a claimed machine. *)
Lemma view_guest s g : protected (st_machine s) ∨ st_guest s = g →
  advances (view s) (view (set_guest s g)).
Proof.
  intros [(m & Hm & Hf)|<-]; [|left; by destruct s].
  rewrite (view_held s m), (view_held (set_guest s g) m) by done. simpl.
  destruct (st_guest s), g; simpl; [left; done|right; constructor|right; constructor|left; done].
Qed.

(** A write that neither gives up nor regains the finalizer. *)
Lemma view_write s m m' :
  st_machine s = Some m → (deleting m = true → deleting m' = true) →
  (MachineFinalizer ∈ finalizers m' ↔ MachineFinalizer ∈ finalizers m) →
  advances (view s) (view (write s (settle m'))).
Proof.
  intros Hm Hd Hf. destruct (decide (MachineFinalizer ∈ finalizers m)) as [Hin|Hout].
  - rewrite (view_held s m) by done. apply Hf in Hin as Hin'.
    rewrite (view_held _ m'); [|simpl; by rewrite settle_protected|done]. simpl.
    destruct (deleting m), (deleting m'); [left; done|by specialize (Hd eq_refl)|right; constructor|left; done].
  - rewrite !view_released; [left; done| |].
    + simpl. unfold settle. case_match; intros (? & [= <-] & ?). tauto.
    + rewrite Hm. by intros (? & [= <-] & ?).
Qed.

Lemma patch_view key s pre before after m m' ev :
  sound key s → linked key s pre → monitor key pre ev → ev_patch ev = Some (before, after) →
  st_machine s = Some m → patch_of before after m m' →
  advances (view s) (view (write s (settle m'))).
Proof.
  intros Hs Hl [_ Hpatch] Hp Hm (_ & Hmd & Hf). destruct (Hpatch before after Hp) as (ksm & Hk & Hnd & Hdl).
  destruct (Hl ksm Hk) as (Hkey & Hprot & Hdying).
  destruct (decide (finalizers before = finalizers after)) as [Heq|Hne].
  - eapply view_write; [done|by rewrite Hmd|by rewrite Hf].
  - destruct (deleting ksm) eqn:Hd.
    + destruct (Hdl eq_refl) as [?|[Hout Hab]]; [done|]. rewrite Hkey in Hab.
      destruct (Hdying eq_refl) as [Hdy Hg]. specialize (Hg Hab).
      rewrite (view_released (write s (settle m'))).
      2: { simpl. unfold settle. case_match; intros (? & [= <-] & ?). by rewrite Hf in *. }
      destruct (decide (MachineFinalizer ∈ finalizers m)) as [Hin|Hno].
      * rewrite (view_held s m), Hg by done.
        assert (deleting m = true) as ->; [|right; constructor].
        eapply sound_latest; [exact Hs|by left|exact Hdy|exact Hm].
      * rewrite view_released; [left; done|]. rewrite Hm. by intros (? & [= <-] & ?).
    + destruct (Hprot eq_refl) as (m0 & Hm0 & Hin). assert (m0 = m) as -> by congruence.
      eapply view_write; [done|by rewrite Hmd|]. rewrite Hf. split; [done|]. intros _. by apply Hnd.
Qed.

(** C2: The detailed system refines the ownership protocol: from a claimed machine on,
    every step of the store - a call answered, a reconcile stopped, a cache that lags, a
    write by others - is a step of the protocol or none: the guest is created and goes
    only while the machine is held, deletion is for good, and the machine is released only
    while it is being deleted and has no guest; once released, nothing happens any more. *)
Theorem store_refines_protocol key s0 s s' :
  claimed key s0 → reachable key s0 s → moves key s s' → advances (view s) (view s').
Proof.
  intros Hc Hr Hm. destruct (reachable_invariant _ _ _ Hc Hr) as [Hs Hrun].
  destruct Hm as [s Hn|s X e k pre x s' Hp _ He|s r Hp|s v vs Hp|s m m' Hm Hk Hd Hf|s g g' Hg];
    [left; done| |left; done|left; done|by eapply view_write|].
  - destruct (Hrun _ _ Hp) as [Hgd Hl]. destruct (Hgd x) as [Hmon _].
    change (view (set_run s' (Some (k x, pre ++ [Ev e x])))) with (view s').
    destruct He as [|u g Hcr _|u g _ Hg|before after m m' Hpa Hm Hpo]; [left; done| | |].
    + apply view_guest. destruct Hmon as [Hcreate _]. destruct (Hcreate u Hcr) as (ksm & Hk & Hd).
      left. by apply (Hl ksm Hk).
    + apply view_guest. destruct (sound_owned _ _ Hs) as [?|[Hno _]]; [by left|].
      right. rewrite Hno. symmetry. by apply Hg.
    + by eapply patch_view.
  - apply view_guest. left. destruct (sound_owned _ _ Hs) as [?|[? _]]; [done|congruence].
Qed.
End Invariant.
