(* ===== verification/StoreRuns.v ===== *)
(** * StoreRuns: particular runs of the store

    Before the finalizer is persisted a guest can be orphaned; and deletion comes to an
    end. *)

From S2P Require Import Prelude Go Prog Kube Api Lib Reference Backend Samples.
From S2P Require Import SwiftGuest SwiftGuestSpec SwiftGuestRun SwiftGuestStatus.
From S2P Require Import WorkloadNode MachineController MachineSpec MachineProps MachineStatus.
From S2P Require Import Store StoreProps.

(** ** Following a run *)

(** A machine nobody is reconciling. *)
Definition fresh_state (m : KubeSwiftMachine) : state := mkState (Some m) (Some m) [] None None.

Section Follow.
Context {lib : Lib}.

Lemma effect_set_run key s ev s' r :
  effect key s ev s' → effect key (set_run s r) ev (set_run s' r).
Proof.
  intros [|u g Hc Hn|u g Hd Hg|before after m m' Hp Hm Ho].
  - constructor.
  - by apply (guest_created key (set_run s r) ev u g).
  - by apply (guest_deleted key (set_run s r) ev u g).
  - by apply (machine_patched key (set_run s r) ev before after m m').
Qed.

(** The store follows a run up to one of its calls, when the answers before it are true
    and their requests have no effect. *)
Lemma run_reaches key s p pre t o t1 ev t2 s' :
  runs p t o → t = t1 ++ ev :: t2 → st_run s = Some (p, pre) →
  Forall (truthful key s) t1 → truthful key s ev → effect key s ev s' →
  ∃ r, reachable key s (set_run s' (Some r)).
Proof.
  intros Hr. revert s pre t1 s'. induction Hr as [| |X e k x t o Hr IH]; intros s pre t1 s' Ht Hs Ht1 Hev He;
    [by destruct t1..|].
  destruct t1 as [|ev1 t1]; simpl in Ht; injection Ht as <- Ht.
  - exists (k x, pre ++ [Ev e x]). apply rtc_once. by eapply call_answered.
  - apply Forall_cons_1 in Ht1 as [H1 Ht1].
    destruct (IH (set_run s (Some (k x, pre ++ [Ev e x]))) (pre ++ [Ev e x]) t1
                (set_run s' (Some (k x, pre ++ [Ev e x])))) as [r Hreach];
      [done|done|done|done|by apply effect_set_run|].
    exists r. eapply rtc_l; [|exact Hreach]. eapply call_answered; [exact Hs|exact H1|constructor].
Qed.

(** A reconcile that reads the machine and creates its guest, up to the creation. *)
Lemma run_creates key m t o n u :
  runs (Reconcile key) t o → omap (ev_machine key) t = [m] →
  at_event n ev_create t = Some u → named key u →
  ∃ r, reachable key (fresh_state m) (set_run (set_guest (fresh_state m) (Some u)) (Some r)).
Proof.
  intros Hr Hm Hu Hn. destruct (at_event_split _ _ _ _ Hu) as (created & Hin & Ht & Hc).
  set (s0 := set_run (fresh_state m) (Some (Reconcile key, []))).
  assert (∀ ev, ev ∈ t → truthful key s0 ev) as Htrue.
  { intros ev Hev. split; [|done]. intros m' Hev'.
    assert (m' ∈ omap (ev_machine key) t) as Hmo by (apply list_elem_of_omap; eauto).
    rewrite Hm in Hmo. by apply list_elem_of_singleton in Hmo as ->. }
  destruct (run_reaches key s0 _ [] t _ (take n t) created (drop (S n) t)
    (set_guest s0 (Some u)) Hr Ht eq_refl) as [r Hreach].
  - apply list.Forall_forall. intros ev Hev. apply Htrue. rewrite Ht, elem_of_app. by left.
  - by apply Htrue.
  - by apply (guest_created _ _ _ u u).
  - exists r. eapply rtc_l; [by apply reconcile_starts|exact Hreach].
Qed.
End Follow.

Definition deleted (m : KubeSwiftMachine) : KubeSwiftMachine :=
  let o := ksm_ObjectMeta m in
  mkKubeSwiftMachine (mkObjectMeta (meta_Name o) (meta_Namespace o) (meta_Labels o)
    (meta_Annotations o) (meta_Finalizers o) (Some 1%Z) (meta_OwnerReferences o)
    (meta_ResourceVersion o))
    (ksm_Spec m) (ksm_Status m).

(** C40: The finalizer is persisted by the last call of the reconcile that creates the
    guest, and until then nothing protects it: from a machine without the finalizer, a
    state is reachable in which the guest exists and its machine does not - the first
    reconcile stops after the creation, and the machine is deleted. *)
Theorem orphan_reachable :
  finalizers demo_ksm = [] ∧ deleting (lib := ref_lib) demo_ksm = false ∧
  ∃ s u, reachable (lib := ref_lib) demo_key (fresh_state demo_ksm) s ∧
    st_machine s = None ∧ st_guest s = Some u ∧
    swiftGuestToKubeSwiftMachine (lib := ref_lib) u = [demo_key].
Proof.
  split; [done|]. split; [done|].
  set (x := run (demo_server (Err (Ref.NotFound "absent")) None) (Reconcile (lib := ref_lib) demo_key)).
  assert (returned x = Some (mkResult machineRequeueAfter, None)) as Hr by (vm_compute; reflexivity).
  assert (Hu : (λ u, (swiftGuestToKubeSwiftMachine (lib := ref_lib) u, GetNamespace (Lib := ref_lib) u,
      GetName (Lib := ref_lib) u)) <$> at_event 9 ev_create x.1 = Some ([demo_key], "ns", "cp-0"))
    by (vm_compute; reflexivity).
  assert (Hm : omap (ev_machine demo_key) x.1 = [demo_ksm]) by (vm_compute; reflexivity).
  apply run_returned in Hr. fold x in Hr. clearbody x.
  destruct (at_event 9 ev_create x.1) as [u|] eqn:Eu; [injection Hu as Hu Hns Hn|done].
  destruct (run_creates (lib := ref_lib) demo_key demo_ksm x.1 _ 9 u Hr Hm Eu) as [r Hreach]; [done|].
  set (s1 := set_run (set_guest (fresh_state demo_ksm) (Some u)) (Some r)) in *.
  exists (write s1 (settle (lib := ref_lib) (deleted demo_ksm))), u. split_and!; [|done..].
  eapply rtc_r; [exact Hreach|]. by apply (machine_changes demo_key s1 demo_ksm (deleted demo_ksm)).
Qed.

(** ** Rounds

    [i] rounds, one after the other, and what each returned. *)
Fixpoint after_rounds {W A : Type} (round : W → W * A) (i : nat) (w : W) : W * list A :=
  match i with
  | O => (w, [])
  | S i =>
    let '(w1, o) := round w in
    let '(w2, os) := after_rounds round i w1 in (w2, o :: os)
  end.

Lemma after_rounds_S {W A} (round : W → W * A) i w w1 o :
  round w = (w1, o) →
  after_rounds round (S i) w =
    ((after_rounds round i w1).1, o :: (after_rounds round i w1).2).
Proof. intros H. simpl. rewrite H. by destruct (after_rounds round i w1). Qed.

(** ** Deletion comes to an end

    A server that cooperates: it finds the machine, its owner and its cluster, accepts every
    request, and tears a deleted guest down in [n] rounds of its own. *)

Inductive guest_state :=
  | Up (u : Unstructured)
  | Terminating (left : nat) (u : Unstructured)
  | Gone.
Record world := mkWorld { w_machine : option KubeSwiftMachine; w_guest : guest_state }.

Section Deletion.
Context {lib : Lib}.
Context (missing : error) (machine : Machine) (cluster : Cluster) (n : nat)
  (mark : Unstructured → Unstructured).

Definition serve (X : Type) (c : call X) (w : world) : world * X :=
  match c in call X return world * X with
  | Get k _ o =>
    (w, match k return objT k → result (objT k) with
        | KMachine => λ _, match w_machine w with Some m => Ok m | None => Err missing end
        | KUnstructured => λ _, match w_guest w with
            | Up u | Terminating _ u => Ok u | Gone => Err missing end
        | _ => λ _, Err missing
        end o)
  | Create _ o => (w, Ok o)
  | Update _ o => (w, Ok o)
  | Lib.Delete _ _ =>
    (match w_guest w with
     | Up u => mkWorld (w_machine w) (Terminating n (mark u))
     | _ => w end, None)
  | GetOwnerMachine _ => (w, Ok (Some machine))
  | GetOwnerCluster _ => (w, Ok (Some cluster))
  | GetClusterFromMetadata _ => (w, Ok cluster)
  | NewPatchHelper _ _ => (w, None)
  | Patch k before after =>
    (match k return objT k → world with
     | KMachine => λ after, mkWorld (settle after) (w_guest w)
     | _ => λ _, w end after, None)
  | RESTConfigFromKubeConfig _ => (w, Err missing)
  | NewForConfig _ => (w, Err missing)
  | NodesGet _ _ => (w, Err missing)
  | NodesPatch _ _ _ => (w, None)
  end.

(** Between two reconciles the guest's teardown goes on. *)
Definition tick (w : world) : world :=
  match w_guest w with
  | Terminating (S k) u => mkWorld (w_machine w) (Terminating k u)
  | Terminating 0 _ => mkWorld (w_machine w) Gone
  | _ => w
  end.
Definition round (key : NamespacedName) (w : world) : world * outcome Return :=
  let '(w', o) := answer serve (Reconcile key) w in (tick w', o).

(** The rounds that are left. *)
Definition rounds (g : guest_state) : nat :=
  match g with Up _ => n + 2 | Terminating k _ => k + 2 | Gone => 1 end.

Context (Hmissing : IsNotFound (Some missing) = true).
Context (Hmark : ∀ u, Time_IsZero (GetDeletionTimestamp (mark u)) = false).
Context (m : KubeSwiftMachine) (Hdel : deleting m = true).
Context (Hheld : MachineFinalizer ∈ finalizers m).
Context (Hpaused : IsPaused cluster (ksm_ObjectMeta m) = false).
Context (Htype : mb_Type (ksmSpec_Backend (ksm_Spec m)) = SwiftGuestBackendType).

(** A guest that is up is not being deleted yet; one that terminates is. *)
Definition guest_ok (g : guest_state) : Prop :=
  match g with
  | Up u => Time_IsZero (GetDeletionTimestamp u) = true
  | Terminating _ u => Time_IsZero (GetDeletionTimestamp u) = false
  | Gone => True
  end.

(** One round: a guest that is up is deleted, one that terminates is waited for, and
    without one the machine is released. *)
Definition next (g : guest_state) : world :=
  match g with
  | Gone => mkWorld (settle (released m)) Gone
  | Up u => tick (mkWorld (Some m) (Terminating n (mark u)))
  | Terminating _ _ => tick (mkWorld (Some m) g)
  end.
Definition returns (g : guest_state) : outcome Return :=
  match g with Gone => Done finished | _ => Done requeue end.

Lemma round_run key g :
  guest_ok g → round key (mkWorld (Some m) g) = (next g, returns g).
Proof using Hmissing Hdel Hheld Hpaused Htype.
  intros Hg. rewrite <- (settle_protected m) by done. unfold round, answer, Reconcile. cbn.
  rewrite (settle_protected m) by done. cbn. rewrite Hpaused, Htype. cbn.
  unfold deleting in Hdel. apply negb_true_iff in Hdel as Hz.
  unfold reconcileMachine. rewrite Hz. cbn. unfold SwiftGuest.Delete. cbn.
  destruct g as [u|k u|]; simpl in Hg |- *; [rewrite Hg|rewrite Hg|rewrite Hmissing]; cbn;
    by rewrite ?settle_protected by done.
Qed.

(** Deletion comes to an end: against a server that tears a deleted guest down in [n]
    rounds of its own, the reconciles of a machine that is being deleted ask again every
    15 seconds until its guest is gone, and the last of them - the [n + 2]nd for a guest
    that is up - releases the machine and asks for nothing more. A machine without
    another finalizer is gone then. *)
Theorem deletion_terminates {F : FinalizerLaws} key g :
  guest_ok g →
  ∃ i, rounds g = S i ∧
    after_rounds (round key) (rounds g) (mkWorld (Some m) g) =
      (mkWorld (settle (released m)) Gone, replicate i (Done requeue) ++ [Done finished]) ∧
    (finalizers m = [MachineFinalizer] → settle (released m) = None).
Proof using Hmissing Hmark Hdel Hheld Hpaused Htype.
  intros Hg.
  assert (finalizers m = [MachineFinalizer] → settle (released m) = None) as Hlast.
  { intros Hf. unfold settle. replace (deleting (released m)) with (deleting m) by done.
    rewrite Hdel, bool_decide_eq_true_2; [done|].
    change (RemoveFinalizer (finalizers m) MachineFinalizer = []).
    apply list_nil_subseteq. intros f (Hn & Hi)%RemoveFinalizer_spec.
    rewrite Hf in Hi. by apply list_elem_of_singleton in Hi. }
  assert (∀ k u, guest_ok (Terminating k u) →
    after_rounds (round key) (S k) (tick (mkWorld (Some m) (Terminating k u))) =
      (mkWorld (settle (released m)) Gone, replicate k (Done requeue) ++ [Done finished])) as Hterm.
  { induction k as [|k IH]; intros u Hu; cbn [tick w_guest w_machine];
      
      (erewrite after_rounds_S; [|by apply round_run]); cbn [fst snd next returns]; [done|by rewrite IH]. }
  destruct g as [u|k u|]; cbn [rounds].
  - exists (S n). rewrite (Nat.add_comm n 2). split; [done|]. split; [|done].
    cbn [Nat.add]. erewrite after_rounds_S; [|by apply round_run].
    cbn [fst snd next returns]. by rewrite Hterm by apply Hmark.
  - exists (S k). rewrite (Nat.add_comm k 2). split; [done|]. split; [|done].
    cbn [Nat.add]. erewrite after_rounds_S; [|by apply round_run].
    cbn [fst snd next returns]. by rewrite Hterm.
  - exists 0. split; [done|]. split; [|done]. cbn [after_rounds]. by rewrite round_run.
Qed.
End Deletion.
