(* ===== verification/Faults.v ===== *)
(** * Faults: runs that fail anywhere

    A server [serve] answers calls and keeps a state; a faulty run of a program against it
    may stop after any call, and any request may be refused, or take effect without its
    reply arriving, or - where [old] allows - be answered from an older state; and between
    any two calls the server may [drift], by itself or at the hand of others. An invariant
    of the server holds along such a run if the program keeps to its guarantee ([rg]). *)

From S2P Require Import Prelude Go Prog Kube Lib.

(** An answer that reports failure, with such an error. *)
Definition fails_with (P : error → Prop) {X} (c : call X) : X → Prop :=
  match c in call X return X → Prop with
  | Get _ _ _ | Create _ _ | Update _ _ | GetOwnerMachine _ | GetOwnerCluster _
  | GetClusterFromMetadata _ | RESTConfigFromKubeConfig _ | NewForConfig _ | NodesGet _ _ =>
    λ r, ∃ err, r = Err err ∧ P err
  | Lib.Delete _ _ | NewPatchHelper _ _ | Patch _ _ _ | NodesPatch _ _ _ =>
    λ r, ∃ err, r = Some err ∧ P err
  end.
Definition fails : env call := λ X c, fails_with (λ _, True) c.

Section Faults.
Context {W : Type} (serve : ∀ X, call X → W → W * X).
Context (bad : env call) (old : W → env call) (drift : W → W → Prop).

Inductive faulty {R : Type} : prog call R → W → W → Prop :=
  | stops p w : faulty p w w
  | drifts p w w1 w' : drift w w1 → faulty p w1 w' → faulty p w w'
  | served X (c : call X) k w w' :
      faulty (k (serve X c w).2) (serve X c w).1 w' → faulty (Vis c k) w w'
  | refused X (c : call X) k x w w' :
      bad X c x → faulty (k x) w w' → faulty (Vis c k) w w'
  | lost X (c : call X) k x w w' :
      bad X c x → faulty (k x) (serve X c w).1 w' → faulty (Vis c k) w w'
  | stale X (c : call X) k x w w' :
      old w X c x → faulty (k x) w w' → faulty (Vis c k) w w'.

(** The rely holds of every answer such a run gets; the guarantee of its requests keeps
    the invariant. *)
Lemma faulty_preserves (I : W → Prop) (A : env call) (G : ∀ X, call X → Prop) {R} (p : prog call R) Q w w' :
  (∀ X (c : call X) w, I w → G X c → I (serve X c w).1) →
  (∀ X (c : call X) w, I w → A X c (serve X c w).2) →
  (∀ X (c : call X) x, bad X c x → A X c x) →
  (∀ X (c : call X) w x, I w → old w X c x → A X c x) →
  (∀ w w', I w → drift w w' → I w') →
  rg A G p Q → faulty p w w' → I w → I w'.
Proof.
  intros HI HA Hf Ho Hd Hp Hr. revert Hp.
  induction Hr as [p w|p w w1 w' Hw1 _ IH|X c k w w' _ IH|X c k x w w' Hx _ IH|X c k x w w' Hx _ IH
    |X c k x w w' Hx _ IH]; intros Hp Hw; [done|by eauto|destruct Hp as [Hok Hk]; eauto..].
Qed.

(** ** Assertions on the server

    Where what a request may do depends on the answers before it, the invariant is
    followed along the program: [withstands I p Q w] says that [p], started when the server
    is in [w], keeps [I] whatever fails and however the server drifts, does not panic, and
    ends in [Q]. *)

Definition answered {X} (c : call X) (w w' : W) (x : X) : Prop :=
  (serve X c w = (w', x)) ∨ (w' = w ∧ (bad X c x ∨ old w X c x)) ∨
  (w' = (serve X c w).1 ∧ bad X c x).

Fixpoint withstands (I : W → Prop) {R} (p : prog call R) (Q : R → W → Prop) (w : W) : Prop :=
  ∀ w1, rtc drift w w1 →
  match p with
  | Ret r => Q r w1
  | Panic => False
  | Vis c k => I w1 ∧ ∀ w' x, answered c w1 w' x → withstands I (k x) Q w'
  end.

Lemma withstands_drift I {R} (p : prog call R) Q w w1 :
  rtc drift w w1 → withstands I p Q w → withstands I p Q w1.
Proof. intros Hd. destruct p; simpl; intros H w2 Hw2; exact (H w2 (transitivity Hd Hw2)). Qed.

Lemma withstands_mono I {R} (p : prog call R) (Q Q' : R → W → Prop) w :
  (∀ r w, Q r w → Q' r w) → withstands I p Q w → withstands I p Q' w.
Proof.
  intros HQ. revert w. induction p as [r| |X c k IH]; simpl; intros w H w1 Hw1;
    [exact (HQ r w1 (H w1 Hw1))|exact (H w1 Hw1)|].
  destruct (H w1 Hw1) as [HI Hk]. split; [done|]. eauto.
Qed.

Lemma withstands_seq I {R R'} (p : prog call R) (f : R → prog call R') P Q w :
  withstands I p P w → (∀ r w, P r w → withstands I (f r) Q w) → withstands I (bind p f) Q w.
Proof.
  intros Hp Hf. revert w Hp. induction p as [r| |X c k IH]; simpl; intros w H.
  - apply Hf, H, rtc_refl.
  - destruct (H w (rtc_refl _ _)).
  - intros w1 Hw1. destruct (H w1 Hw1) as [HI Hk]. split; [done|]. eauto.
Qed.

Lemma withstands_faulty I {R} (p : prog call R) Q w w' :
  withstands I p Q w → (∀ r w, Q r w → I w) → faulty p w w' → I w'.
Proof.
  intros Hp HQ Hr. revert Hp.
  induction Hr as [p w|p w w1 w' Hw1 _ IH|X c k w w' _ IH|X c k x w w' Hx _ IH|X c k x w w' Hx _ IH
    |X c k x w w' Hx _ IH]; intros Hp.
  - destruct p as [r| |X c k]; simpl in Hp; [by eapply HQ, Hp, rtc_refl|by destruct (Hp w (rtc_refl _ _))|].
    by apply (Hp w (rtc_refl _ _)).
  - apply IH. by eapply withstands_drift; [apply rtc_once|].
  - apply IH, (Hp w (rtc_refl _ _)). left. by destruct (serve X c w).
  - apply IH, (Hp w (rtc_refl _ _)). right; left. auto.
  - apply IH, (Hp w (rtc_refl _ _)). right; right. auto.
  - apply IH, (Hp w (rtc_refl _ _)). right; left. auto.
Qed.

(** ** Runs that are served

    Every request is served and the run comes to its end; the server drifts meanwhile. *)
Inductive completes {R : Type} : prog call R → W → W → R → Prop :=
  | returns r w : completes (Ret r) w w r
  | meanwhile p w w1 w' r : drift w w1 → completes p w1 w' r → completes p w w' r
  | serves X (c : call X) k w w' r :
      completes (k (serve X c w).2) (serve X c w).1 w' r → completes (Vis c k) w w' r.

Lemma withstands_completes I {R} (p : prog call R) Q w w' r :
  withstands I p Q w → completes p w w' r → Q r w'.
Proof.
  intros Hp Hr. revert Hp. induction Hr as [r w|p w w1 w' r Hw1 _ IH|X c k w w' r _ IH]; intros Hp.
  - by apply Hp, rtc_refl.
  - apply IH. by eapply withstands_drift; [apply rtc_once|].
  - apply IH, (Hp w (rtc_refl _ _)). left. by destruct (serve X c w).
Qed.

Lemma withstands_total I {R} (p : prog call R) Q w :
  withstands I p Q w → ∃ w' r, completes p w w' r.
Proof.
  revert w. induction p as [r| |X c k IH]; intros w Hp.
  - exists w, r. constructor.
  - destruct (Hp w (rtc_refl _ _)).
  - destruct (IH (serve X c w).2 (serve X c w).1) as (w' & r & Hr).
    + apply (Hp w (rtc_refl _ _)). left. by destruct (serve X c w).
    + exists w', r. by constructor.
Qed.

Lemma answer_completes {R} (p : prog call R) w w' r :
  answer serve p w = (w', Done r) → completes p w w' r.
Proof.
  revert w. induction p as [r'| |X c k IH]; intros w.
  - intros [= <- <-]. constructor.
  - done.
  - rewrite answer_vis. intros H. constructor. by apply IH.
Qed.

(** The program and the server after [i] calls, where the process may be stopped. *)
Fixpoint underway {R} (i : nat) (p : prog call R) (w : W) : prog call R * W :=
  match i, p with
  | S i, Vis c k => let x := serve _ c w in underway i (k x.2) x.1
  | _, _ => (p, w)
  end.
Definition stopped_after {R} (i : nat) (p : prog call R) (w : W) : W := (underway i p w).2.
Lemma underway_faulty {R} i (p : prog call R) w w' :
  faulty (underway i p w).1 (underway i p w).2 w' → faulty p w w'.
Proof.
  revert p w. induction i as [|i IH]; intros p w; [done|].
  destruct p; [done..|]. intros H. by apply served, IH.
Qed.
Lemma stopped_faulty {R} i (p : prog call R) w : faulty p w (stopped_after i p w).
Proof. apply (underway_faulty i), stops. Qed.
End Faults.
