(* ===== verification/Provisioning.v ===== *)
(** * Provisioning: a machine comes up

    A round: one reconcile of a machine against a server that cooperates - its owner and
    cluster are ready, every request takes effect, a guest boots in [n] rounds of its own
    and its Node joins the workload cluster [j] rounds later. [course_round] says what a
    round does to a machine on course; Recovery.v puts rounds together. *)

From S2P Require Import Prelude Go Prog Kube Api Lib Reference Backend Samples.
From S2P Require Import SwiftGuest SwiftGuestSpec SwiftGuestRun SwiftGuestStatus.
From S2P Require Import WorkloadNode MachineController MachineSpec MachineProps MachineStatus.
From S2P Require Import StoreRuns.

(** The life of a guest, rendered as [u]; the Node is there when it has [Joined]. *)
Inductive vm :=
  | Unmade
  | Booting (left : nat) (u : Unstructured)
  | Joining (left : nat) (u : Unstructured)
  | Joined (u : Unstructured).
Record site := mkSite {
  s_machine : KubeSwiftMachine;
  s_seed : option Unstructured;
  s_vm : vm;
  s_node : string;   (** the Node's providerID *)
  s_ksc : KubeSwiftCluster
}.

#[local] Arguments answer : simpl never.

(** The names of a guest and of its seed profile. *)
Lemma seed_name_differs s : seedName s ≠ s.
Proof.
  unfold seedName. induction s as [|c s IH]; [done|]. intros [= H]. by apply IH.
Qed.

Lemma seedObject_name `{U : UnstructuredLaws} req :
  GetName (seedObject req) = seedName (req_Name req).
Proof.
  destruct (labelled_law swiftSeedProfileGVK (req_GuestNamespace req) (seedName (req_Name req)) req)
    as [_ Hv].
  unfold seedObject. set (u := labelled _ _ _ _) in *.
  assert (meta_view (mkUnstructured (<["spec" := VMap (seedProfileSpec req)]> (Object u))) = meta_view u) as Hi
    by (apply meta_view_insert; unfold owned_keys; set_solver).
  rewrite Hv in Hi. unfold meta_view in Hi. by injection Hi as _ -> _.
Qed.

(** The objects a machine waits for and how long they take, the machine and its parts. *)
Class Scenario := mkScenario {
  sc_missing : error;
  sc_conflict : error;
  sc_machine : Machine;
  sc_cluster : Cluster;
  sc_ksc : KubeSwiftCluster;
  sc_secrets : NamespacedName → Secret;
  sc_config : RestConfig;
  sc_client : Clientset;
  sc_boots : nat;
  sc_joins : nat;
  sc_booting : Unstructured → Unstructured;   (** a guest as it boots, and once it is up *)
  sc_up : Unstructured → Unstructured;
  sc_merge : string → string → string;   (** a merge patch on a Node's providerID *)
  sc_start : KubeSwiftMachine;
  sc_secretName : string;
  sc_cfg : SwiftGuestBackend;
  sc_address : string
}.

Section Scenario.
Context {lib : Lib} {Sc : Scenario}.

Definition exposure : option ControlPlaneExposure :=
  if IsControlPlaneMachine sc_machine &&
     negb (String.eqb (clus_Spec_InfrastructureRef_Name sc_cluster) "")
  then service_exposure sc_cluster sc_ksc else None.
Definition request (m : KubeSwiftMachine) : Request :=
  normalRequest m sc_machine sc_cluster sc_secretName exposure.

(** What makes it come up: a live machine, not paused, with a valid configuration, whose
    cluster is ready and whose bootstrap data and kubeconfig are there. *)
Class Cooperates : Prop := {
  co_missing : IsNotFound (Some sc_missing) = true;
  co_live : deleting sc_start = false;
  co_paused o : meta_Annotations o = meta_Annotations (ksm_ObjectMeta sc_start) →
    IsPaused sc_cluster o = false;
  co_type : mb_Type (ksmSpec_Backend (ksm_Spec sc_start)) = SwiftGuestBackendType;
  co_infra : ptr_Deref (clus_Status_InfrastructureProvisioned sc_cluster) false = true;
  co_secret : mach_Spec_Bootstrap_DataSecretName sc_machine = Some sc_secretName;
  co_data : is_Some (sec_Data (sc_secrets
    (mkNN (meta_Namespace (mach_ObjectMeta sc_machine)) sc_secretName)) !! BootstrapDataSecretKey);
  co_kubeconfig : is_Some (sec_Data (sc_secrets (kubeconfigKey sc_cluster)) !! "value");
  co_valid : validate (request sc_start) = Ok sc_cfg;
  co_booting u : phase_of (sc_booting u) ≠ "Failed" ∧ phase_of (sc_booting u) ≠ "Running";
  co_up u : phase_of (sc_up u) = "Running" ∧ reachable_at (sc_up u) sc_address;
  co_merge v : sc_merge (providerIDPatch (providerIDOf sc_start)) v = providerIDOf sc_start
}.
End Scenario.

Section Provisioning.
Context {lib : Lib} {Sc : Scenario}.
#[local] Abbreviation missing := sc_missing.
#[local] Abbreviation conflict := sc_conflict.
#[local] Abbreviation machine := sc_machine.
#[local] Abbreviation cluster := sc_cluster.
#[local] Abbreviation ksc := sc_ksc.
#[local] Abbreviation n := sc_boots.
#[local] Abbreviation j := sc_joins.
#[local] Abbreviation m0 := sc_start.
#[local] Abbreviation cfg := sc_cfg.

Definition guestName : NamespacedName := machineKey m0.

(** What a read of the guest answers. *)
Definition seen (v : vm) : result Unstructured :=
  match v with
  | Unmade => Err missing
  | Booting _ u => Ok (sc_booting u)
  | Joining _ u | Joined u => Ok (sc_up u)
  end.

(** The one guest is told from its seed profile by its name. *)
Definition attend (X : Type) (c : call X) (w : site) : site * X :=
  match c in call X return site * X with
  | Get k key _ =>
    (w, match k return result (objT k) with
        | KMachine => Ok (s_machine w)
        | KCluster => Ok (s_ksc w)
        | KSecret => Ok (sc_secrets key)
        | KService => Err missing
        | KUnstructured =>
          if decide (key = guestName) then seen (s_vm w)
          else match s_seed w with Some s => Ok s | None => Err missing end
        end)
  | Create k o =>
    match k return objT k → site * result (objT k) with
    | KUnstructured => λ u,
      if decide (GetName u = nn_Name guestName)
      then match s_vm w with
        | Unmade => (mkSite (s_machine w) (s_seed w) (Booting n u) (s_node w) (s_ksc w), Ok (sc_booting u))
        | _ => (w, Err conflict) end
      else match s_seed w with
        | None => (mkSite (s_machine w) (Some u) (s_vm w) (s_node w) (s_ksc w), Ok u)
        | Some _ => (w, Err conflict) end
    | _ => λ o, (w, Ok o)
    end o
  | Update k o =>
    match k return objT k → site * result (objT k) with
    | KUnstructured => λ u,
      match s_seed w with
      | Some _ => (mkSite (s_machine w) (Some u) (s_vm w) (s_node w) (s_ksc w), Ok u)
      | None => (w, Err missing) end
    | _ => λ o, (w, Ok o)
    end o
  | Lib.Delete k o =>
    (match k return objT k → site with
     | KUnstructured => λ u,
       if decide (GetName u = nn_Name guestName)
       then mkSite (s_machine w) (s_seed w) Unmade (s_node w) (s_ksc w)
       else mkSite (s_machine w) None (s_vm w) (s_node w) (s_ksc w)
     | _ => λ _, w end o, None)
  | GetOwnerMachine _ => (w, Ok (Some machine))
  | GetOwnerCluster _ => (w, Ok (Some cluster))
  | GetClusterFromMetadata _ => (w, Ok cluster)
  | NewPatchHelper _ _ => (w, None)
  | Patch k before after =>
    (match k return objT k → site with
     | KMachine => λ m, mkSite m (s_seed w) (s_vm w) (s_node w) (s_ksc w)
     | _ => λ _, w end after, None)
  | RESTConfigFromKubeConfig _ => (w, Ok sc_config)
  | NewForConfig _ => (w, Ok sc_client)
  | NodesGet _ name =>
    (w, match s_vm w with Joined _ => Ok (mkNode name (s_node w)) | _ => Err missing end)
  | NodesPatch _ _ body => (mkSite (s_machine w) (s_seed w) (s_vm w) (sc_merge body (s_node w)) (s_ksc w), None)
  end.

(** Between two reconciles the guest boots, and its Node joins. *)
Definition boot_step (v : vm) : vm :=
  match v with
  | Booting (S k) u => Booting k u
  | Booting 0 u => Joining j u
  | Joining (S k) u => Joining k u
  | Joining 0 u => Joined u
  | Unmade | Joined _ => v
  end.
Definition progress (w : site) : site := mkSite (s_machine w) (s_seed w) (boot_step (s_vm w)) (s_node w) (s_ksc w).
Definition boot_round (key : NamespacedName) (w : site) : site * outcome Return :=
  let '(w', o) := answer attend (Reconcile key) w in (progress w', o).

(** The rounds that are left. *)
Definition to_go (v : vm) : nat :=
  match v with
  | Unmade => n + j + 3
  | Booting k _ => k + j + 3
  | Joining k _ => k + 2
  | Joined _ => 1
  end.

(** ** Requests *)

Context {Co : Cooperates} {N : NestedLaws} {D : DeepEqualLaws} {U : UnstructuredLaws}.

(** Requests for the same machine ask for the same guest. *)
Lemma request_same m :
  same_machine m0 m →
  validate (request m) = validate (request m0) ∧
  renderSwiftGuest (request m) cfg = renderSwiftGuest (request m0) cfg ∧
  guestKey (request m) = machineKey m0 ∧ seedKey (request m) = seedKey (request m0) ∧
  seedObject (request m) = seedObject (request m0) ∧
  providerIDOf m = providerIDOf m0 ∧ deleting m = deleting m0 ∧
  mb_Type (ksmSpec_Backend (ksm_Spec m)) = mb_Type (ksmSpec_Backend (ksm_Spec m0)) ∧
  meta_Annotations (ksm_ObjectMeta m) = meta_Annotations (ksm_ObjectMeta m0).
Proof.
  destruct m as [o [pid b] st]. unfold same_machine. simpl. intros [-> ->].
  repeat split; reflexivity.
Qed.

Lemma finalized_same m : same_machine m0 m → same_machine m0 (finalized m).
Proof. destruct m as [o [pid b] st]. unfold same_machine. simpl. by intros [-> ->]. Qed.

(** ** What each part of a reconcile is answered *)

Lemma bootstrap_answer w :
  answer attend (checkBootstrapData machine) w = (w, Done None).
Proof.
  destruct co_data as [d Hd]. unfold checkBootstrapData. rewrite co_secret. simpl.
  rewrite answer_vis. simpl. by rewrite Hd.
Qed.

(** The KubeSwiftCluster may change, but for what it says of the exposed port. *)
Definition exposes (k : KubeSwiftCluster) : Prop :=
  service_exposure cluster k = service_exposure cluster ksc.

Lemma exposure_answer w :
  exposes (s_ksc w) →
  answer attend (controlPlaneExposure machine cluster) w = (w, Done (Ok exposure)).
Proof.
  intros Hk. unfold controlPlaneExposure, exposure. destruct (IsControlPlaneMachine machine); [|done].
  destruct (String.eqb (clus_Spec_InfrastructureRef_Name cluster) ""); [done|].
  cbn [negb orb andb]. unfold perform. cbn [bind]. rewrite answer_vis. cbn.
  by rewrite exposureFor_spec, Hk.
Qed.

(** A seed profile that is already as wanted is kept, one of an older layout is moved to
    the secret reference, and a missing one is created. *)
Definition settled (s : Unstructured) : bool :=
  String.eqb (nested_text s ["spec"; "userData"]) "" &&
  DeepEqual_any (NestedMap (Object s) ["spec"; "userDataFrom"]).1.1
    (Some (VMap (bootstrapRef (request m0)))).
Definition moved (s : Unstructured) : Unstructured :=
  mkUnstructured (SetNestedField (RemoveNestedField (Object s) ["spec"; "userData"])
    (VMap (bootstrapRef (request m0))) ["spec"; "userDataFrom"]).1.
Definition mended (o : option Unstructured) : Unstructured :=
  match o with
  | None => seedObject (request m0)
  | Some s => if settled s then s else moved s
  end.
Definition seed_fine (w : site) : Prop := ∀ s, s_seed w = Some s → mendable s.
Definition with_seed (w : site) : site :=
  mkSite (s_machine w) (Some (mended (s_seed w))) (s_vm w) (s_node w) (s_ksc w).

Lemma seed_answer m w :
  same_machine m0 m → seed_fine w →
  answer attend (ensureSeedProfile (request m)) w = (with_seed w, Done None).
Proof.
  intros Hm Hw. destruct (request_same m Hm) as (_ & _ & _ & Hk & Ho & _).
  unfold ensureSeedProfile. rewrite seedProfileSpec_ref, Hk. cbn [default from_option id].
  change (mkUnstructured (<["spec" := VMap (seedProfileSpec (request m))]> _)) with (seedObject (request m)).
  assert (bootstrapRef (request m) = bootstrapRef (request m0)) as -> by done.
  rewrite Ho. unfold perform. cbn [bind]. rewrite answer_vis. cbn -[seedObject seedKey request].
  rewrite decide_False.
  2: { unfold guestName. unfold seedKey, machineKey. intros [= H]. by eapply seed_name_differs. }
  unfold with_seed. destruct w as [km [sd|] v nd]; cbn -[seedObject seedKey request settled moved] in *.
  - fold (settled sd). destruct (settled sd); [done|]. unfold moved.
    destruct (migrate_ok (request m0) sd) as (obj & Hobj & _); [by apply Hw|]. rewrite Hobj.
    rewrite answer_vis. by cbn -[seedObject request].
  - rewrite co_missing. cbn -[seedObject request]. rewrite answer_vis. cbn -[seedObject request].
    rewrite decide_False; [done|]. rewrite seedObject_name. apply seed_name_differs.
Qed.

(** The guest a reconcile leaves behind. *)
Definition made (guest : Unstructured) (v : vm) : vm :=
  match v with Unmade => Booting n guest | _ => v end.
Definition with_guest (guest : Unstructured) (w : site) : site :=
  mkSite (s_machine w) (s_seed w) (made guest (s_vm w)) (s_node w) (s_ksc w).

Lemma guest_answer m w guest :
  same_machine m0 m → renderSwiftGuest (request m0) cfg = Some guest →
  answer attend (ensureSwiftGuest (request m) cfg) w =
    (with_guest guest w, Done (seen (made guest (s_vm w)))).
Proof.
  intros Hm Hr. destruct (request_same m Hm) as (_ & Hr' & Hk & _).
  unfold ensureSwiftGuest. rewrite Hr', Hr, Hk.
  destruct (renderSwiftGuest_law (request m0) cfg) as (u & Hu & Hv & _).
  rewrite Hr in Hu. injection Hu as <-. unfold meta_view in Hv. injection Hv as _ Hn _.
  unfold perform. cbn [bind]. rewrite answer_vis. cbn -[request]. rewrite decide_True by done.
  destruct w as [km sd [|k u|k u|u] nd]; cbn -[request]; try reflexivity.
  rewrite co_missing. cbn -[request]. rewrite answer_vis. cbn -[request].
  rewrite decide_True; [reflexivity|]. by rewrite Hn.
Qed.

(** Its Node gets its identity when it is there. *)
Lemma node_answer w :
  s_node w = "" ∨ s_node w = providerIDOf m0 →
  answer attend (ensureNodeProviderID cluster (meta_Name (ksm_ObjectMeta m0)) (providerIDOf m0)) w =
  match s_vm w with
  | Joined u => (mkSite (s_machine w) (s_seed w) (s_vm w) (providerIDOf m0) (s_ksc w), Done (Ok true))
  | _ => (w, Done (Ok false))
  end.
Proof.
  intros Hn. destruct co_kubeconfig as [d Hd]. unfold ensureNodeProviderID, perform. cbn [bind].
  rewrite answer_vis. cbn -[providerIDOf]. rewrite Hd. cbn -[providerIDOf]. rewrite answer_vis. cbn -[providerIDOf].
  rewrite answer_vis. cbn -[providerIDOf]. unfold patchNode, perform. cbn -[providerIDOf]. rewrite answer_vis. cbn -[providerIDOf].
  destruct (s_vm w) as [|k u|k u|u] eqn:Hv; cbn -[providerIDOf]; try reflexivity.
  destruct Hn as [Hn|Hn]; rewrite Hn.
  - replace (String.eqb "" (providerIDOf m0)) with false by done. cbn -[providerIDOf].
    rewrite answer_vis. cbn -[providerIDOf]. by rewrite co_merge, Hv.
  - rewrite String.eqb_refl. cbn -[providerIDOf]. rewrite <- Hn, <- Hv. by destruct w.
Qed.

(** ** One reconcile *)

Lemma backend_answer m w guest :
  same_machine m0 m → seed_fine w → renderSwiftGuest (request m0) cfg = Some guest →
  answer attend (backend_Reconcile NewSwiftGuestBackend (request m)) w =
    (with_guest guest (with_seed w),
     Done match seen (made guest (s_vm w)) with
          | Ok g => guestResult (request m) g
          | Err err => Err (Wrapf "ensuring SwiftGuest" err) end).
Proof.
  intros Hm Hw Hr. destruct (request_same m Hm) as (Hv & _).
  cbn [backend_Reconcile NewSwiftGuestBackend]. unfold SwiftGuest.Reconcile. rewrite Hv, co_valid.
  erewrite answer_seq by (by apply seed_answer). cbn beta iota.
  erewrite answer_seq by (by apply guest_answer). cbn beta iota.
  change (s_vm (with_seed w)) with (s_vm w). by destruct (seen _).
Qed.

Lemma normal_answer m w guest :
  same_machine m0 m → seed_fine w → exposes (s_ksc w) →
  renderSwiftGuest (request m0) cfg = Some guest →
  answer attend (reconcileMachine m machine cluster NewSwiftGuestBackend) w =
  match seen (made guest (s_vm w)) with
  | Ok g => answer attend (reportBackend (finalized m) machine cluster (providerIDOf m0)
              (guestResult (request m) g)) (with_guest guest (with_seed w))
  | Err err => answer attend (reportBackend (finalized m) machine cluster (providerIDOf m0)
              (Err (Wrapf "ensuring SwiftGuest" err))) (with_guest guest (with_seed w))
  end.
Proof.
  intros Hm Hw Hk Hr. destruct (request_same m Hm) as (_ & _ & _ & _ & _ & Hid & Hd & _).
  unfold reconcileMachine. fold (deleting m). rewrite Hd, co_live.
  unfold reconcileNormal. fold (finalized m). rewrite co_infra. cbn [negb]. rewrite co_secret at 1.
  erewrite answer_seq by apply bootstrap_answer. cbn beta iota.
  erewrite answer_seq by (by apply exposure_answer). cbn beta iota.
  rewrite co_secret. cbn [deref bind].
  change (mkRequest (finalized m) _ _ _ _ _ _) with (request m).
  erewrite answer_seq by (by apply backend_answer). cbn beta iota.
  change (machineProviderID _ _) with (providerIDOf m). rewrite Hid. by destruct (seen _).
Qed.

Lemma reconcile_answer key w m guest :
  s_machine w = m → same_machine m0 m → seed_fine w → renderSwiftGuest (request m0) cfg = Some guest →
  answer attend (Reconcile key) w =
  match answer attend (reconcileMachine m machine cluster NewSwiftGuestBackend) w with
  | (w1, Done (m', ret)) => (mkSite m' (s_seed w1) (s_vm w1) (s_node w1) (s_ksc w1), Done ret)
  | (w1, Panicked) => (w1, Panicked)
  end.
Proof.
  intros Hw Hm Hs Hr. destruct (request_same m Hm) as (_ & _ & _ & _ & _ & _ & _ & Ht & Ha).
  unfold Reconcile, perform. cbn [bind].
  rewrite answer_vis. cbn [attend fst snd]. rewrite Hw. cbn beta iota.
  do 2 (rewrite answer_vis; cbn [attend fst snd]; cbn beta iota).
  rewrite co_paused by done. unfold backendFor. rewrite Ht, co_type, String.eqb_refl.
  rewrite answer_vis. cbn [attend fst snd]. cbn beta iota.
  rewrite answer_bind. destruct (answer attend (reconcileMachine _ _ _ _) w) as [w1 [[m' ret]|]]; [|done].
  rewrite answer_vis. cbn [attend fst snd]. by destruct ret.
Qed.

(** ** Round after round *)

(** No guest or the one rendered for the machine, no seed or one that can be mended, and
    the machine with another status and its finalizer, in a cluster that exposes the same. *)
Definition guest_of (v : vm) : option Unstructured :=
  match v with Unmade => None | Booting _ u | Joining _ u | Joined u => Some u end.
Definition on_course (guest : Unstructured) (w : site) : Prop :=
  same_machine m0 (s_machine w) ∧ seed_fine w ∧ exposes (s_ksc w) ∧
  (s_node w = "" ∨ s_node w = providerIDOf m0) ∧
  ∀ u, guest_of (s_vm w) = Some u → u = guest.

Lemma with_seed_fine w : seed_fine w → seed_fine (with_seed w).
Proof.
  intros Hs s. destruct w as [m [sd|] v nd k]; simpl; intros [= <-]; [|apply seedObject_mendable].
  destruct (settled sd); [by apply Hs|]. unfold moved.
  destruct (migrate_ok (request m0) sd) as (obj & -> & Ho); [by apply Hs|done].
Qed.

(** A seed that carries no inline cloud-init and references the bootstrap secret. *)
Definition seed_ready (s : Unstructured) : Prop :=
  nested_text s ["spec"; "userData"] = "" ∧
  entries (NestedMap (Object s) ["spec"; "userDataFrom"]).1.1 = bootstrapRef (request m0).

Lemma points_ready s : seed_points_at_secret (request m0) s → seed_ready s.
Proof.
  intros [H1 H2]. split; [by apply nested_text_absent|]. by rewrite (NestedMap_found _ _ _ H2).
Qed.

Lemma mended_ready o : (∀ s, o = Some s → mendable s) → seed_ready (mended o).
Proof.
  intros Ho. destruct o as [s|]; simpl; [|apply points_ready, seedObject_points].
  destruct (settled s) eqn:Hs.
  - unfold settled in Hs. bool_facts. split; [done|]. by apply DeepEqual_any_spec.
  - apply points_ready. unfold moved.
    destruct (migrate_ok (request m0) s) as (obj & Hobj & _); [by apply Ho|]. rewrite Hobj.
    by eapply migrated_points.
Qed.

(** The guest is not up yet. *)
Lemma waiting_round key w guest k :
  on_course guest w → renderSwiftGuest (request m0) cfg = Some guest →
  made guest (s_vm w) = Booting k guest →
  ∃ m', same_machine m0 m' ∧
    boot_round key w =
      (progress (mkSite m' (s_seed (with_seed w)) (Booting k guest) (s_node w) (s_ksc w)), Done requeue).
Proof.
  intros (Hm & Hs & Hk & _) Hr Hv. unfold boot_round.
  rewrite (reconcile_answer key w (s_machine w) guest) by done.
  rewrite (normal_answer _ w guest) by done. rewrite Hv. cbn [seen].
  destruct (co_booting guest) as [Hf Hn].
  destruct (guestResult_cases (request (s_machine w)) (sc_booting guest))
    as [(? & _)|[(? & _)|(_ & _ & ->)]]; [done..|].
  set (res := waiting_result _ _). destruct (waiting_result_waits (request (s_machine w)) (sc_booting guest)) as [Hp _].
  fold res in Hp. unfold reportBackend. rewrite Hp. cbn [negb].
  rewrite (surjective_pairing (waiting res)). unfold answer. cbn [exec].
  eexists. split; [|unfold with_guest, with_seed; cbn [s_vm s_seed s_node]; by rewrite Hv].
  apply finalized_same in Hm. exact Hm.
Qed.

(** The guest is up. *)
Definition provisioned_by (m : KubeSwiftMachine) : KubeSwiftMachine :=
  markProvisioned (finalized m) machine (providerIDOf m0)
    (mkBackendResult true [mkMachineAddress MachineInternalIP sc_address] false "" "").

Lemma up_round key w guest :
  on_course guest w → renderSwiftGuest (request m0) cfg = Some guest →
  seen (s_vm w) = Ok (sc_up guest) → made guest (s_vm w) = s_vm w →
  boot_round key w =
  match s_vm w with
  | Joined u => (progress (mkSite (provisioned_by (s_machine w)) (s_seed (with_seed w)) (s_vm w)
      (providerIDOf m0) (s_ksc w)), Done finished)
  | _ => (progress (mkSite (provisioned_by (s_machine w)) (s_seed (with_seed w)) (s_vm w) (s_node w) (s_ksc w)), Done requeue)
  end.
Proof.
  intros (Hm & Hs & Hk & Hn & _) Hr Hv Hmade. unfold boot_round.
  rewrite (reconcile_answer key w (s_machine w) guest) by done.
  rewrite (normal_answer _ w guest) by done. rewrite Hmade, Hv.
  destruct (co_up guest) as [Hrun Ha].
  destruct (guestResult_cases (request (s_machine w)) (sc_up guest))
    as [(? & _)|[(_ & a & Ha' & ->)|(_ & [?|Hno] & _)]]; [congruence| |done|by destruct (Hno sc_address)].
  assert (a = sc_address) as ->.
  { apply guestAddresses_spec in Ha, Ha'. congruence. }
  unfold reportBackend. cbn [br_Provisioned negb]. fold (provisioned_by (s_machine w)).
  replace (meta_Name (ksm_ObjectMeta (provisioned_by (s_machine w))))
    with (meta_Name (ksm_ObjectMeta m0)) by (destruct Hm as [Ho _]; cbn; by rewrite Ho).
  rewrite answer_bind, node_answer by done. unfold with_guest, with_seed. cbn [s_vm s_seed s_node s_machine].
  rewrite Hmade. by destruct (s_vm w).
Qed.

Lemma provisioned_by_same m : same_machine m0 m → same_machine m0 (provisioned_by m).
Proof. intros Hm%finalized_same. exact Hm. Qed.

Lemma on_course_progress guest w m v nd :
  on_course guest w → same_machine m0 m → (nd = "" ∨ nd = providerIDOf m0) →
  (∀ u, guest_of v = Some u → u = guest) →
  on_course guest (progress (mkSite m (s_seed (with_seed w)) v nd (s_ksc w))).
Proof.
  intros (_ & Hs & Hk & _) Hm Hnd Hv. split_and!; [done|by apply with_seed_fine|done|done|].
  intros u. destruct v as [|[] u'|[] u'|u']; simpl; apply Hv.
Qed.

(** The machine is up. *)
Record came_up (guest : Unstructured) (w : site) : Prop := {
  up_guest : s_vm w = Joined guest;
  up_seed : ∃ seed, s_seed w = Some seed ∧ seed_ready seed;
  up_node : s_node w = providerIDOf m0;
  up_same : same_machine m0 (s_machine w);
  up_finalizer : MachineFinalizer ∈ finalizers (s_machine w);
  up_provisioned : provisioned (s_machine w) = Some true;
  up_providerID : ksmSpec_ProviderID (ksm_Spec (s_machine w)) = providerIDOf m0;
  up_addresses : addresses (s_machine w) = [mkMachineAddress MachineInternalIP sc_address]
}.

Context {F : FinalizerLaws}.

(** A round of a machine on course: it asks for another one and brings it closer, or it is
    the last. *)
Lemma course_round key guest w :
  on_course guest w → renderSwiftGuest (request m0) cfg = Some guest →
  ∃ w' ret, boot_round key w = (w', Done ret) ∧ on_course guest w' ∧
    ((ret = requeue ∧ to_go (s_vm w) = S (to_go (s_vm w'))) ∨
     (ret = finished ∧ to_go (s_vm w) = 1 ∧ to_go (s_vm w') = 1 ∧ came_up guest w')).
Proof.
  intros Hw Hr. pose proof Hw as (Hm & Hs & Hx & Hn & Hv).
  assert (∀ k, made guest (s_vm w) = Booting k guest → to_go (s_vm w) = S (k + j + 2) →
    ∃ w' ret, boot_round key w = (w', Done ret) ∧ on_course guest w' ∧
      ret = requeue ∧ to_go (s_vm w) = S (to_go (s_vm w'))) as Hwait.
  { intros k Hk Hgo. destruct (waiting_round key w guest k Hw Hr Hk) as (m' & Hm' & ->).
    eexists _, _. split; [done|].
    split; [apply on_course_progress; try done; by intros u [= <-]|]. split; [done|].
    rewrite Hgo. simpl. destruct k; simpl; lia. }
  destruct (s_vm w) as [|k u|k u|u] eqn:Evm.
  - destruct (Hwait n) as (w' & ret & ? & ? & ?); [done|simpl; lia|]. exists w', ret. auto.
  - destruct (Hwait k) as (w' & ret & ? & ? & ?); [by rewrite (Hv u eq_refl)|simpl; lia|].
    exists w', ret. auto.
  - rewrite (Hv u eq_refl) in Evm.
    rewrite (up_round key w guest) by (done || by rewrite Evm). rewrite Evm.
    eexists _, _. split; [done|].
    split; [apply on_course_progress; try done; [by apply provisioned_by_same|by intros u' [= <-]]|].
    left. split; [done|]. simpl. destruct k; simpl; lia.
  - rewrite (Hv u eq_refl) in Evm |- *.
    rewrite (up_round key w guest) by (done || by rewrite Evm). rewrite Evm.
    eexists _, _. split; [done|].
    split; [apply on_course_progress; auto; [by apply provisioned_by_same|by intros u' [= <-]]|].
    right. split_and!; try done. split; try done.
    + eexists. split; [done|]. by apply mended_ready.
    + by apply provisioned_by_same.
    + apply AddFinalizer_spec. by left.
Qed.
End Provisioning.
