(* ===== verification/Recovery.v ===== *)
(** * Recovery: a machine comes up whatever fails on the way

    The rounds of Provisioning.v, with reconciles between them that fail anywhere: what a
    failing reconcile can rely on and what it guarantees ([rg]), and the histories made of
    both kinds of round. *)

From S2P Require Import Prelude Go Prog Kube Api Lib Reference Backend Samples.
From S2P Require Import SwiftGuest SwiftGuestSpec SwiftGuestRun SwiftGuestStatus.
From S2P Require Import EndpointService ClusterController EndpointSpec ClusterSpec.
From S2P Require Import WorkloadNode MachineController MachineSpec MachineProps MachineStatus.
From S2P Require Import Faults Provisioning.

Section Recovery.
Context {lib : Lib} {Sc : Scenario}.
#[local] Abbreviation machine := sc_machine.
#[local] Abbreviation cluster := sc_cluster.
#[local] Abbreviation ksc := sc_ksc.
#[local] Abbreviation n := sc_boots.
#[local] Abbreviation j := sc_joins.
#[local] Abbreviation m0 := sc_start.
#[local] Abbreviation cfg := sc_cfg.
Context {Co : Cooperates} {N : NestedLaws} {D : DeepEqualLaws} {U : UnstructuredLaws} {F : FinalizerLaws}.
Context {SL : ServiceLaws}.

(** ** Faults

    The machine a reconcile reads may be an older version. *)
Definition old_machine : env call := λ X c,
  match c in call X return X → Prop with
  | Get k _ _ =>
    match k return result (objT k) → Prop with
    | KMachine => λ r, ∃ m, r = Ok m ∧ same_machine m0 m
    | _ => λ _, False
    end
  | _ => λ _, False
  end.

(** What such a run can rely on, and what it guarantees in turn. *)
Definition believable X (c : call X) : X → Prop :=
  match c in call X return X → Prop with
  | Get k key _ =>
    match k return result (objT k) → Prop with
    | KMachine => λ r, ∀ m, r = Ok m → same_machine m0 m
    | KCluster => λ r, ∀ x, r = Ok x → exposes x
    | KUnstructured => λ r, ∀ s, r = Ok s → key ≠ guestName → mendable s
    | _ => λ _, True
    end
  | GetOwnerMachine _ => λ r, ∀ x, r = Ok (Some x) → x = machine
  | GetClusterFromMetadata _ => λ r, ∀ x, r = Ok x → x = cluster
  | _ => λ _, True
  end.
Definition request_ok (guest : Unstructured) X (c : call X) : Prop :=
  match c with
  | Create k o =>
    match k return objT k → Prop with
    | KUnstructured => λ u, u = guest ∨ u = seedObject (request m0)
    | _ => λ _, False end o
  | Update k o =>
    match k return objT k → Prop with KUnstructured => mendable | _ => λ _, False end o
  | Lib.Delete _ _ => False
  | Patch k _ o =>
    match k return objT k → Prop with KMachine => same_machine m0 | _ => λ _, False end o
  | NodesPatch _ _ body => body = providerIDPatch (providerIDOf m0)
  | _ => True
  end.

Lemma attend_believable guest X (c : call X) w : on_course guest w → believable X c (attend X c w).2.
Proof.
  intros (Hm & Hs & Hx & _). destruct c as [k key o|k o|k o|k o|o|o|o|k o|k b a|d|rc|cs nm|cs nm b];
    simpl; try done; try (by intros ? [= <-]).
  destruct k; simpl; try done; try (by intros ? [= <-]).
  intros s Hr Hne. rewrite decide_False in Hr by done.
  destruct (s_seed w) as [s'|] eqn:Es; [|done]. injection Hr as <-. by apply Hs.
Qed.

Lemma attend_on_course guest X (c : call X) w i :
  renderSwiftGuest (request m0) cfg = Some guest →
  on_course guest w → to_go (s_vm w) ≤ i → request_ok guest X c →
  on_course guest (attend X c w).1 ∧ to_go (s_vm (attend X c w).1) ≤ i.
Proof.
  intros Hr Hw Hi. pose proof Hw as (Hm & Hs & Hx & Hn & Hv).
  destruct c as [k key o|k o|k o|k o|o|o|o|k o|k b a|d|rc|cs nm|cs nm b]; simpl; try done.
  - destruct k; simpl; try done. intros Hu.
    destruct (renderSwiftGuest_law (request m0) cfg) as (g & Hg & Hmeta & _).
    rewrite Hr in Hg. injection Hg as <-. unfold meta_view in Hmeta. injection Hmeta as _ Hgn _.
    destruct Hu as [->| ->].
    + rewrite decide_True by (by rewrite Hgn). destruct (s_vm w) eqn:Ev; simpl; rewrite ?Ev; try done.
      split; [|simpl in Hi; lia]. split_and!; [done..|]. by intros u [= <-].
    + rewrite decide_False by (rewrite seedObject_name; apply seed_name_differs).
      destruct (s_seed w); simpl; [done|]. split; [|done]. split_and!; [done| |done..].
      intros s' [= <-]. apply seedObject_mendable.
  - destruct k; simpl; try done. intros Hu. destruct (s_seed w); simpl; [|done]. split; [|done].
    split_and!; [done| |done..]. by intros s' [= <-].
  - destruct k; simpl; done.
  - intros ->. rewrite co_merge. split; [|done]. split_and!; auto.
Qed.

(** Meanwhile the guest boots and its Node joins, and the cluster controller writes the
    cluster as it does. *)
Definition set_ksc (w : site) (k : KubeSwiftCluster) : site :=
  mkSite (s_machine w) (s_seed w) (s_vm w) (s_node w) k.
Inductive drift (w : site) : site → Prop :=
  | time_passes : drift w (progress w)
  | cluster_reconciled ckey t r after p :
      runs (ClusterController.Reconcile ckey) t (Done r) → Ev (Patch KCluster (s_ksc w) after) p ∈ t →
      drift w (set_ksc w after).

Lemma progress_on_course guest w :
  on_course guest w → on_course guest (progress w) ∧ to_go (s_vm (progress w)) ≤ to_go (s_vm w).
Proof.
  intros (Hm & Hs & Hx & Hn & Hv). split; [split_and!; [done..|]|].
  - intros u. simpl. destruct (s_vm w) as [|[] u'|[] u'|u']; simpl; apply Hv.
  - simpl. destruct (s_vm w) as [|[] u'|[] u'|u']; simpl; lia.
Qed.

(** What the cluster controller writes exposes the same. *)
Lemma cluster_on_course guest ckey t r w after p :
  runs (ClusterController.Reconcile ckey) t (Done r) → Ev (Patch KCluster (s_ksc w) after) p ∈ t →
  on_course guest w → on_course guest (set_ksc w after).
Proof.
  intros Hr Hev (Hm & Hs & Hx & Hn & Hv).
  destruct (Reconcile_cluster_same _ _ _ _ _ _ Hr Hev) as (_ & He & _).
  split_and!; [done|done| |done|done]. unfold exposes, service_exposure in *. simpl. by rewrite He.
Qed.

Lemma drift_on_course guest w w' i :
  drift w w' → on_course guest w → to_go (s_vm w) ≤ i → on_course guest w' ∧ to_go (s_vm w') ≤ i.
Proof.
  intros [|ckey t r after p Hr Hev] Hw Hi; [|by split; [eapply cluster_on_course|]].
  destruct (progress_on_course guest w Hw). split; [done|lia].
Qed.

Lemma faulty_on_course guest {R} (p : prog call R) w w' i Q :
  renderSwiftGuest (request m0) cfg = Some guest →
  rg believable (request_ok guest) p Q → faulty attend fails (λ _, old_machine) drift p w w' →
  on_course guest w → to_go (s_vm w) ≤ i → on_course guest w' ∧ to_go (s_vm w') ≤ i.
Proof.
  intros Hr Hp Hf Hw Hi.
  refine (faulty_preserves attend fails (λ _, old_machine) drift (λ w, on_course guest w ∧ to_go (s_vm w) ≤ i)
    believable (request_ok guest) p Q w w' _ _ _ _ _ Hp Hf (conj Hw Hi)).
  - intros X c v [Hv Hvi] Hc. by apply attend_on_course.
  - intros X c v [Hv _]. by eapply attend_believable.
  - intros X c x Hx. destruct c as [[]| | | | | | | | | | | |]; simpl in *; try done;
      destruct Hx as [? [-> _]]; try done; congruence.
  - intros X c _ x _ Hx. destruct c as [[]| | | | | | | | | | | |]; simpl in *; try done.
    destruct Hx as (m & -> & ?). by intros ? [= <-].
  - intros v v' [Hv Hvi] Hd. by eapply drift_on_course.
Qed.

(** ** A reconcile keeps to its guarantee *)

Context (guest : Unstructured) (Hrender : renderSwiftGuest (request m0) cfg = Some guest).

Abbreviation rely_on p Q := (rg believable (request_ok guest) p Q).

Lemma bootstrap_rg : rely_on (checkBootstrapData machine) (λ _, True).
Proof. unfold checkBootstrapData. rewrite co_secret. rg_steps done. all: done. Qed.

Lemma exposure_rg :
  rely_on (controlPlaneExposure machine cluster) (λ r, ∀ x, r = Ok x → x = exposure).
Proof.
  unfold controlPlaneExposure, exposure.
  destruct (IsControlPlaneMachine machine); [|cbn; by intros x [= <-]].
  destruct (String.eqb (clus_Spec_InfrastructureRef_Name cluster) ""); [cbn; by intros x [= <-]|].
  cbn [negb orb andb bind perform rg]. split; [done|]. intros [x|err] Hx; [|done].
  intros y [= <-]. rewrite exposureFor_spec. by apply Hx.
Qed.

Lemma seed_rg m :
  same_machine m0 m → rely_on (ensureSeedProfile (request m)) (λ _, True).
Proof.
  intros Hm. destruct (request_same m Hm) as (_ & _ & _ & Hk & Ho & _).
  unfold ensureSeedProfile. rewrite seedProfileSpec_ref, Hk. cbn [default from_option id].
  change (mkUnstructured (<["spec" := VMap (seedProfileSpec (request m))]> _)) with (seedObject (request m)).
  rewrite Ho. rg_steps ltac:(first [done|by right|idtac]); try done.
  match goal with H : SetNestedField (RemoveNestedField (Object ?s) _) _ _ = (_, None) |- _ =>
    destruct (migrate_ok (request m) s) as (obj & Hobj & ?) end.
  - eapply H; [done|]. unfold guestName. unfold seedKey, machineKey. intros [= Hs].
    by eapply seed_name_differs.
  - change (bootstrapRef (request m)) with (bootstrapRef (request m0)) in *.
    match goal with H : _ = (?g, None) |- mendable (mkUnstructured ?g) => rewrite Hobj in H end.
    by simplify_eq.
Qed.

Lemma guest_rg m :
  same_machine m0 m → rely_on (ensureSwiftGuest (request m) cfg) (λ _, True).
Proof.
  intros Hm. destruct (request_same m Hm) as (_ & Hr' & _).
  unfold ensureSwiftGuest. rewrite Hr', Hrender. rg_steps ltac:(first [done|by left]); done.
Qed.

Lemma backend_rg m :
  same_machine m0 m → rely_on (backend_Reconcile NewSwiftGuestBackend (request m)) (λ _, True).
Proof.
  intros Hm. destruct (request_same m Hm) as (Hv & _).
  cbn [backend_Reconcile NewSwiftGuestBackend]. unfold SwiftGuest.Reconcile. rewrite Hv, co_valid.
  eapply rg_seq; [by apply seed_rg|]. intros [err|] _; [done|].
  eapply rg_seq; [by apply guest_rg|]. by intros [] _.
Qed.

Lemma node_rg name :
  rely_on (ensureNodeProviderID cluster name (providerIDOf m0)) (λ _, True).
Proof. unfold ensureNodeProviderID, patchNode. rg_steps done; done. Qed.

Lemma report_rg m r :
  same_machine m0 m →
  rely_on (reportBackend (finalized m) machine cluster (providerIDOf m0) r)
    (λ p, same_machine m0 p.1).
Proof.
  intros Hm. pose proof (finalized_same m Hm) as Hf.
  unfold reportBackend. destruct r as [res|err]; [|done].
  destruct (negb (br_Provisioned res)); [by destruct (waiting res)|].
  eapply rg_seq; [apply node_rg|]. by intros [[]|] _.
Qed.

Lemma machine_rg m :
  same_machine m0 m →
  rely_on (reconcileMachine m machine cluster NewSwiftGuestBackend) (λ p, same_machine m0 p.1).
Proof.
  intros Hm. pose proof (finalized_same m Hm) as Hf.
  destruct (request_same m Hm) as (_ & _ & _ & _ & _ & Hid & Hd & _).
  unfold reconcileMachine. fold (deleting m). rewrite Hd, co_live.
  unfold reconcileNormal. fold (finalized m). rewrite co_infra. cbn [negb]. rewrite co_secret at 1.
  eapply rg_seq; [apply bootstrap_rg|]. intros [err|] _; [done|].
  eapply rg_seq; [apply exposure_rg|]. intros [x|err] Hx; [|done]. rewrite (Hx x eq_refl).
  rewrite co_secret. cbn [deref bind].
  change (mkRequest (finalized m) _ _ _ _ _ _) with (request m).
  eapply rg_seq; [by apply backend_rg|]. intros r _.
  change (machineProviderID _ _) with (providerIDOf m). rewrite Hid. by apply report_rg.
Qed.

Lemma reconcile_rg key : rely_on (Reconcile key) (λ _, True).
Proof.
  unfold Reconcile, perform. cbn [bind rg].
  split; [done|]. intros [m|err] Hm; [|done]. specialize (Hm m eq_refl).
  destruct (request_same m Hm) as (_ & _ & _ & _ & _ & _ & _ & Ht & Ha).
  split; [done|]. intros [[mach|]|err] Hx; [|done..]. rewrite (Hx mach eq_refl).
  split; [done|]. intros [clus|err] Hc; [|done]. rewrite (Hc clus eq_refl).
  rewrite co_paused by done. unfold backendFor. rewrite Ht, co_type, String.eqb_refl.
  split; [done|]. intros [err|] _; [done|].
  eapply rg_seq; [by apply machine_rg|]. by intros [m' ret] Hm'.
Qed.

(** ** Histories

    [history key w i w']: from [w] to [w'] by [i] rounds of a cooperating server, any
    number of faulty ones between them, and the server's drift. *)
Inductive history (key : NamespacedName) (w : site) : nat → site → Prop :=
  | starts : history key w 0 w
  | clean_round i w1 : history key w i w1 → history key w (S i) (boot_round key w1).1
  | faulty_round i w1 w2 :
      history key w i w1 → faulty attend fails (λ _, old_machine) drift (Reconcile key) w1 w2 → history key w i w2
  | moves_on i w1 w2 : history key w i w1 → drift w1 w2 → history key w i w2.

Lemma history_on_course key w i w' :
  history key w i w' → on_course guest w →
  on_course guest w' ∧ to_go (s_vm w') ≤ Nat.max 1 (to_go (s_vm w) - i).
Proof.
  intros Hh Hw. induction Hh as [|i w1 Hh [IH Hi]|i w1 w2 Hh [IH Hi] Hf|i w1 w2 Hh [IH Hi] Hd].
  - split; [done|lia].
  - destruct (course_round key guest w1 IH Hrender) as (w2 & ret & -> & ? & [[_ ?]|(_ & _ & ? & _)]);
      simpl; split; try done; lia.
  - by eapply faulty_on_course; [|apply reconcile_rg|..].
  - by eapply drift_on_course.
Qed.

(** C3: A machine comes up whatever fails on the way: from nothing, from any point of its
    provisioning or from a seed profile of the older layout, after any number of
    reconciles that stopped anywhere, whose requests were refused or took effect without a
    reply, or that read an older version of the machine, while the guest boots and the
    cluster controller writes, between two reconciles or in the middle of a failing one,
    every round of a cooperating server returns without an error and either asks for the next in 15 seconds or leaves
    the machine up: its guest the one rendered from its configuration, its seed profile
    referencing the bootstrap secret with no inline data, its Node and itself with the
    providerID, the guest's address and the finalizer. It is up from such
    a round on that is the [n + j + 3]rd for a machine without a guest, where the guest
    boots in [n] rounds and its Node joins [j] later, and earlier for one that is booting. *)
Theorem machine_comes_up key w i w' :
  on_course guest w → history key w i w' →
  ∃ w'' ret, boot_round key w' = (w'', Done ret) ∧
    (ret = requeue ∨ (ret = finished ∧ came_up guest w'')) ∧
    (to_go (s_vm w) ≤ S i → ret = finished).
Proof.
  intros Hw Hh. destruct (history_on_course key w i w' Hh Hw) as [Hw' Hi].
  destruct (course_round key guest w' Hw' Hrender) as (w'' & ret & -> & _ & Hret).
  exists w'', ret. split; [done|].
  destruct Hret as [[-> ?]|(-> & _ & _ & ?)]; (split; [by auto|]); [|done].
  intros ?. assert (1 ≤ to_go (s_vm w'')) by (destruct (s_vm w''); simpl; lia). lia.
Qed.
End Recovery.
