(* ===== verification/Teardown.v ===== *)
(** * Teardown: a machine goes away whatever fails on the way

    The reconciles of a machine that is being deleted, against a server that tears its
    guest down in [n] rounds; between the rounds that are served, reconciles that fail
    anywhere, moves of the guest and of the machine's other owners. *)

From S2P Require Import Prelude Go Prog Kube Api Lib Reference Backend Samples.
From S2P Require Import SwiftGuest SwiftGuestSpec SwiftGuestRun SwiftGuestStatus.
From S2P Require Import WorkloadNode MachineController MachineSpec MachineProps MachineStatus.
From S2P Require Import Store StoreProps StoreRuns Faults Provisioning.

(** What is left of a machine. *)
Record remains := mkRemains {
  r_machine : option KubeSwiftMachine;
  r_guest : guest_state;
  r_seed : option Unstructured
}.

Section Teardown.
Context {lib : Lib} {EL : ErrorLaws} {U : UnstructuredLaws} {F : FinalizerLaws}.
Context (missing : error) (machine : Machine) (cluster : Cluster) (n : nat)
  (mark : Unstructured → Unstructured) (m0 : KubeSwiftMachine).

(** ** The server *)

Definition set_machine (w : remains) (m : option KubeSwiftMachine) : remains :=
  mkRemains m (r_guest w) (r_seed w).

(** A merge patch replaces the finalizers as a list, if the reconcile changed them. *)
Definition put_machine (before after : KubeSwiftMachine) (w : remains) : remains * option error :=
  match r_machine w with
  | None => (w, Some missing)
  | Some _ =>
    if decide (finalizers before = finalizers after) then (w, None)
    else (set_machine w (settle after), None)
  end.

Definition delete_object (u : Unstructured) (w : remains) : remains * option error :=
  if decide (GetName u = meta_Name (ksm_ObjectMeta m0)) then
    match r_guest w with
    | Up g => (mkRemains (r_machine w) (Terminating n (mark g)) (r_seed w), None)
    | Terminating _ _ => (w, None)
    | Gone => (w, Some missing)
    end
  else match r_seed w with
    | Some _ => (mkRemains (r_machine w) (r_guest w) None, None)
    | None => (w, Some missing)
    end.

Definition dismantle (X : Type) (c : call X) (w : remains) : remains * X :=
  match c in call X return remains * X with
  | Get k key o =>
    (w, match k return objT k → result (objT k) with
        | KMachine => λ _, match r_machine w with Some m => Ok m | None => Err missing end
        | KUnstructured => λ _,
          if decide (key = machineKey m0) then
            match r_guest w with Up u | Terminating _ u => Ok u | Gone => Err missing end
          else match r_seed w with Some s => Ok s | None => Err missing end
        | _ => λ _, Err missing
        end o)
  | Create _ _ => (w, Err missing)
  | Update _ _ => (w, Err missing)
  | Lib.Delete k o =>
    match k return objT k → remains * option error with
    | KUnstructured => λ u, delete_object u w
    | _ => λ _, (w, Some missing) end o
  | GetOwnerMachine _ => (w, Ok (Some machine))
  | GetOwnerCluster _ => (w, Ok (Some cluster))
  | GetClusterFromMetadata _ => (w, Ok cluster)
  | NewPatchHelper _ _ => (w, None)
  | Patch k before after =>
    match k return objT k → objT k → remains * option error with
    | KMachine => λ before after, put_machine before after w
    | _ => λ _ _, (w, Some missing) end before after
  | RESTConfigFromKubeConfig _ => (w, Err missing)
  | NewForConfig _ => (w, Err missing)
  | NodesGet _ _ => (w, Err missing)
  | NodesPatch _ _ _ => (w, Some missing)
  end.

(** The teardown goes on between two reconciles. *)
Definition crumble (g : guest_state) : guest_state :=
  match g with
  | Terminating (S k) u => Terminating k u
  | Terminating 0 _ => Gone
  | _ => g
  end.
Definition decay (w : remains) : remains := mkRemains (r_machine w) (crumble (r_guest w)) (r_seed w).

(** ** Faults

    An error may claim anything but that the object is not there, and the machine read may
    be an older version of the one being deleted. *)
Definition leaving (m : KubeSwiftMachine) : Prop :=
  same_machine m0 m ∧ ∀ f, f ∈ finalizers m → f ∈ finalizers m0.
Definition honest : env call := λ X c, fails_with (λ err, IsNotFound (Some err) = false) c.
Definition old_machine : env call := λ X c,
  match c in call X return X → Prop with
  | Get k _ _ =>
    match k return result (objT k) → Prop with
    | KMachine => λ r, ∃ m, r = Ok m ∧ leaving m
    | _ => λ _, False
    end
  | _ => λ _, False
  end.

(** The server drifts, between two calls as well: the teardown goes on, the guest vanishes,
    and others change the machine's status and the finalizers of their own. *)
Inductive drift (w : remains) : remains → Prop :=
  | time_passes : drift w (decay w)
  | guest_vanishes : drift w (mkRemains (r_machine w) Gone (r_seed w))
  | others_change m m' :
      r_machine w = Some m → leaving m' →
      (MachineFinalizer ∈ finalizers m ↔ MachineFinalizer ∈ finalizers m') →
      drift w (set_machine w (settle m')).

(** A round: a reconcile that is served, and time. *)
Definition delete_round (key : NamespacedName) (w w' : remains) (ret : Return) : Prop :=
  ∃ w1, completes dismantle drift (Reconcile key) w w1 ret ∧ w' = decay w1.

(** ** On the way *)

Definition guest_fine (g : guest_state) : Prop :=
  guest_ok g ∧
  match g with Up u | Terminating _ u => GetName u = meta_Name (ksm_ObjectMeta m0) | Gone => True end.
Definition held (w : remains) : Prop :=
  ∃ m, r_machine w = Some m ∧ MachineFinalizer ∈ finalizers m.
Definition torn_down (w : remains) : Prop := r_guest w = Gone ∧ r_seed w = None.

(** The machine being deleted holds its finalizer unless its guest and seed are gone. *)
Record departing (w : remains) : Prop := {
  dep_machine : ∀ m, r_machine w = Some m → leaving m ∧ settle m = Some m;
  dep_guest : guest_fine (r_guest w);
  dep_held : held w ∨ torn_down w
}.

(** The machine is gone, or its other owners hold it. *)
Record departed (w : remains) : Prop := {
  gone_guest : r_guest w = Gone;
  gone_seed : r_seed w = None;
  gone_finalizer : ∀ m, r_machine w = Some m → MachineFinalizer ∉ finalizers m;
  gone_machine : finalizers m0 = [MachineFinalizer] → r_machine w = None
}.

Context (Hmissing : IsNotFound (Some missing) = true).
Context (Hmark : ∀ u, Time_IsZero (GetDeletionTimestamp (mark u)) = false ∧ GetName (mark u) = GetName u).
Context (Hdel : deleting m0 = true).
Context (Hpaused : ∀ o, meta_Annotations o = meta_Annotations (ksm_ObjectMeta m0) → IsPaused cluster o = false).
Context (Htype : mb_Type (ksmSpec_Backend (ksm_Spec m0)) = SwiftGuestBackendType).

Lemma leaving_facts m :
  leaving m →
  Time_IsZero (meta_DeletionTimestamp (ksm_ObjectMeta m)) = false ∧ IsPaused cluster (ksm_ObjectMeta m) = false ∧
  backendFor (mb_Type (ksmSpec_Backend (ksm_Spec m))) = Ok NewSwiftGuestBackend ∧
  machineKey m = machineKey m0 ∧ deleting m = true.
Proof using Hdel Hpaused Htype.
  intros [[Ho Hb] _]. unfold deleting, machineKey in *. rewrite Hb, Htype, Hpaused by (by rewrite Ho).
  rewrite Ho. simpl. apply negb_true_iff in Hdel as ->. by split_and!.
Qed.

Lemma released_leaving m : leaving m → leaving (released m).
Proof using F.
  intros [[Ho Hb] Hf]. split; [split; [|done]|].
  - simpl. by rewrite Ho.
  - intros f Hin. apply RemoveFinalizer_spec in Hin as [_ Hin]. by apply Hf.
Qed.

Lemma released_finalizer m : MachineFinalizer ∉ finalizers (released m).
Proof using F. intros Hin. by apply RemoveFinalizer_spec in Hin as [? _]. Qed.

Lemma settle_leaving m m' : settle m = Some m' → m' = m ∧ settle m' = Some m'.
Proof using. unfold settle at 1. case_match eqn:E; intros [= <-]. split; [done|]. unfold settle. by rewrite E. Qed.

Lemma crumble_fine g : guest_fine g → guest_fine (crumble g).
Proof using. by destruct g as [u|[|k] u|]. Qed.

(** ** What drift leaves *)

Definition on_way (i : nat) (w : remains) : Prop := departing w ∧ rounds n (r_guest w) ≤ i.
Definition asked (w : remains) : Prop := match r_guest w with Up _ => False | _ => True end.
Definition stable (P : remains → Prop) : Prop := ∀ w w', drift w w' → P w → P w'.

Lemma stable_rtc P w w' : stable P → rtc drift w w' → P w → P w'.
Proof using. intros HP Hd. induction Hd; [done|]. eauto. Qed.
Lemma stable_and P Q : stable P → stable Q → stable (λ w, P w ∧ Q w).
Proof using. intros HP HQ w w' Hd []. split; [by eapply HP|by eapply HQ]. Qed.

Lemma held_settled w m : held (set_machine w (settle m)) ↔ MachineFinalizer ∈ finalizers m.
Proof using.
  split.
  - intros (m' & Hm & Hf). by destruct (settle_leaving _ _ Hm) as [-> _].
  - intros Hf. exists m. split; [by apply settle_protected|done].
Qed.

Lemma held_drift w w' : drift w w' → held w ↔ held w'.
Proof using.
  intros [| |m m' Em _ Hf]; [done..|]. rewrite held_settled, <- Hf. unfold held. rewrite Em.
  split; [by intros (? & [= <-] & ?)|by intros ?; exists m].
Qed.

Lemma stable_torn_down : stable torn_down.
Proof using. intros w w' [| |m m' _ _ _] [Hg Hs]; split; simpl; by rewrite ?Hg. Qed.
Lemma stable_gone : stable (λ w, r_guest w = Gone).
Proof using. intros w w' [| |m m' _ _ _] Hg; simpl; by rewrite ?Hg. Qed.
Lemma stable_asked : stable asked.
Proof using. intros w w' [| |m m' _ _ _]; unfold asked; simpl; [by destruct (r_guest w) as [u|[] u|]|done..]. Qed.
Lemma stable_held (b : Prop) : stable (λ w, held w ↔ b).
Proof using. intros w w' Hd. by rewrite (held_drift w w' Hd). Qed.
Lemma stable_unheld : stable (λ w, ¬ held w).
Proof using. intros w w' Hd. by rewrite (held_drift w w' Hd). Qed.
Lemma stable_unmade : stable (λ w, r_machine w = None).
Proof using. intros w w' [| |m m' Em _ _] Hw; [done..|congruence]. Qed.

Lemma stable_on_way i : stable (on_way i).
Proof using.
  intros w w' Hd [[Hm Hg Hh] Hi].
  assert (held w' ∨ torn_down w') as Hh'.
  { destruct Hh as [Hh|Hh]; [left; by apply (held_drift w w' Hd)|right; by eapply stable_torn_down]. }
  destruct Hd as [| |m m' Em Hl _].
  - split; [|simpl; destruct (r_guest w) as [u|[|k] u|]; simpl in *; lia]. by split; [|apply crumble_fine|].
  - split; [by split|simpl; destruct (r_guest w); simpl in *; lia].
  - split; [|done]. split; [|done|done]. simpl. intros m1 Hs. by destruct (settle_leaving _ _ Hs) as [-> ?].
Qed.

(** A machine nobody holds any more is not there. *)
Lemma last_one m :
  leaving m → MachineFinalizer ∉ finalizers m → finalizers m0 = [MachineFinalizer] → settle m = None.
Proof using All.
  intros Hl Hno Hm0. destruct (leaving_facts m Hl) as (_ & _ & _ & _ & Hd). destruct Hl as [_ Hf].
  unfold settle. rewrite Hd, bool_decide_eq_true_2; [done|].
  apply list_nil_subseteq. intros f Hin. apply Hf in Hin as Hin'. rewrite Hm0 in Hin'.
  apply list_elem_of_singleton in Hin' as ->. done.
Qed.

Lemma unheld_departed i w : on_way i w → torn_down w → ¬ held w → departed w.
Proof using All.
  intros [[Hm _ _] _] [Hg Hs] Hno.
  assert (∀ m, r_machine w = Some m → MachineFinalizer ∉ finalizers m) as Hf
    by (intros m Em Hf; by apply Hno; exists m).
  split; [done..|]. intros H0. destruct (r_machine w) as [m|] eqn:Em; [|done].
  destruct (Hm m eq_refl) as [Hl Hset]. rewrite (last_one m Hl (Hf m eq_refl) H0) in Hset. done.
Qed.

(** ** What the calls do *)

Lemma delete_on_way i u w : on_way i w → on_way i (delete_object u w).1.
Proof using Hmark.
  intros Hw. pose proof Hw as [[Hm Hg Hh] Hi]. unfold delete_object.
  destruct (decide _) as [Hu|Hu]; [destruct (r_guest w) as [g|k g|] eqn:Eg|destruct (r_seed w) as [s|] eqn:Es];
    try exact Hw.
  - destruct (Hmark g) as [Hz Hn]. destruct Hg as [_ Hg]. split; [|done].
    split; [done|by split; [exact Hz|exact (eq_trans Hn Hg)]|].
    destruct Hh as [Hh|[Hh _]]; [by left|congruence].
  - split; [|done]. split; [done|done|]. destruct Hh as [Hh|[Hh Hs]]; [by left|congruence].
Qed.

Lemma delete_machine u w : r_machine (delete_object u w).1 = r_machine w.
Proof using. unfold delete_object. repeat case_match; done. Qed.
Lemma delete_held u w : held (delete_object u w).1 ↔ held w.
Proof using. unfold held. by rewrite delete_machine. Qed.

Lemma delete_guest u w :
  GetName u = meta_Name (ksm_ObjectMeta m0) → asked (delete_object u w).1 ∧
  ((delete_object u w).2 = None ∨ (delete_object u w).2 = Some missing).
Proof using.
  intros Hu. unfold delete_object. rewrite decide_True by done. unfold asked.
  destruct (r_guest w) as [g|k g|] eqn:Eg; simpl; rewrite ?Eg; auto.
Qed.

Lemma delete_seed req w :
  req_Name req = meta_Name (ksm_ObjectMeta m0) → r_guest w = Gone →
  torn_down (delete_object (seedRef req) w).1 ∧
  ((delete_object (seedRef req) w).2 = None ∨ (delete_object (seedRef req) w).2 = Some missing).
Proof using U.
  intros Hn Hg. pose proof (seedRef_view req) as V. unfold meta_view in V. injection V as _ V _.
  unfold delete_object. rewrite decide_False by (rewrite V, Hn; apply seed_name_differs).
  unfold torn_down. destruct (r_seed w) eqn:Es; simpl; rewrite ?Es; auto.
Qed.

Lemma put_on_way i before after w :
  on_way i w → leaving after →
  (MachineFinalizer ∈ finalizers after ∨ torn_down w ∨ finalizers before = finalizers after) →
  on_way i (put_machine before after w).1.
Proof using.
  intros Hw Hl Ha. unfold put_machine. destruct (r_machine w) as [m|] eqn:Em; [|exact Hw].
  destruct (decide _) as [He|He]; [exact Hw|]. destruct Hw as [[Hm Hg Hh] Hi]. split; [|done]. split; simpl.
  - intros m' Hs. destruct (settle_leaving _ _ Hs) as [-> ?]. by split.
  - done.
  - destruct Ha as [Ha|[Ha|?]]; [|by right|done]. left. by apply held_settled.
Qed.

(** The patch of a machine that is kept, and of one that is released. *)
Lemma put_same m w : held w → put_machine m m w = (w, None).
Proof using. intros (m' & Em & _). unfold put_machine. by rewrite Em, decide_True. Qed.

Lemma put_released i m w :
  on_way i w → leaving m → torn_down w → (held w ↔ MachineFinalizer ∈ finalizers m) →
  let '(w', p) := put_machine m (released m) w in
  departed w' ∧ (p = None ∨ (p = Some missing ∧ r_machine w' = None)).
Proof using All.
  intros Hw Hl Ht Hiff. unfold put_machine. destruct (r_machine w) as [m1|] eqn:Em.
  - destruct (decide _) as [He|He].
    + split; [|by left]. eapply unheld_departed; [done|done|]. rewrite Hiff, He. apply released_finalizer.
    + split; [|by left]. destruct Hw as [[Hm Hg Hh] Hi]. destruct Ht as [Ht1 Ht2].
      split; [done|done| |intros H0; apply last_one; [by apply released_leaving|apply released_finalizer|done]].
      simpl. intros m' Hs. destruct (settle_leaving _ _ Hs) as [-> _]. apply released_finalizer.
  - split; [|by right]. eapply unheld_departed; [done|done|]. intros (? & ? & _). congruence.
Qed.

(** ** One reconcile

    Whatever fails of what [bad] and [old] allow, the machine is on its way; when nothing
    does, the reconcile ends as it should. *)
Section Walk.
Context (bad old : env call).
Context (Hbad : ∀ X (c : call X) x, bad X c x → honest X c x).
Context (Hold : ∀ X (c : call X) x, old X c x → old_machine X c x).
Definition calm : Prop := ∀ X (c : call X) x, ¬ bad X c x ∧ ¬ old X c x.

Abbreviation stands i p Q w := (withstands dismantle bad (λ _, old) drift (on_way i) p Q w).

Lemma ret_stands {R} i (r : R) (Q : R → remains → Prop) w : stable (Q r) → Q r w → stands i (Ret r) Q w.
Proof using. intros HQ Hw w1 Hw1. by eapply stable_rtc. Qed.

Lemma call_stands {X R} i (c : call X) (k : X → prog call R) (P : remains → Prop) Q w :
  stable P → P w → (∀ w1, P w1 → on_way i w1) →
  (∀ w1, P w1 → stands i (k (dismantle X c w1).2) Q (dismantle X c w1).1) →
  (∀ w1 x, P w1 → bad X c x ∨ old X c x → stands i (k x) Q w1) →
  (∀ w1 x, P w1 → bad X c x → stands i (k x) Q (dismantle X c w1).1) →
  stands i (Vis c k) Q w.
Proof using.
  intros HP Hw Hi Hs Hf Hl w1 Hw1. pose proof (stable_rtc P w w1 HP Hw1 Hw) as H1.
  split; [by apply Hi|]. intros w' x [Hx|[[-> Hx]|[-> Hx]]]; [|by apply Hf|by apply Hl].
  specialize (Hs w1 H1). by rewrite Hx in Hs.
Qed.

(** What is known of the machine that was read: whether the server's holds the finalizer. *)
Definition known (i : nat) (b : Prop) (w : remains) : Prop := on_way i w ∧ (calm → (held w ↔ b)).
Lemma stable_known i b : stable (known i b).
Proof using.
  intros w w' Hd [Hw Hb]. split; [by eapply stable_on_way|]. intros Hc. by rewrite <- (held_drift w w' Hd), Hb.
Qed.

Definition deletes (i : nat) (b : Prop) (r : result bool) (w : remains) : Prop :=
  known i b w ∧ (r = Ok true → torn_down w) ∧
  (calm → match r with Ok true => True | Ok false => (b ∧ 1 < i) ∧ asked w | Err _ => False end).
Lemma stable_deletes i b r : stable (deletes i b r).
Proof using.
  intros w w' Hd (Hk & Ht & Hc). split; [by eapply stable_known|]. split.
  - intros Hr. by eapply stable_torn_down, Ht.
  - intros Hcalm. specialize (Hc Hcalm). destruct r as [[]|]; [done| |done]. destruct Hc. split; [done|].
    by eapply stable_asked.
Qed.

Lemma known_delete i b u w : known i b w → known i b (delete_object u w).1.
Proof using Hmark. intros [Hw Hb]. split; [by apply delete_on_way|]. by rewrite delete_held. Qed.

(** The two ends of a deletion: a guest is asked to go; without one the seed is deleted. *)
Lemma guest_stands i (b : Prop) u w :
  known i b w → (calm → b ∧ 1 < i) → GetName u = meta_Name (ksm_ObjectMeta m0) →
  stands i (let! d := perform (Lib.Delete KUnstructured u) in
    match d with
    | Some err =>
      if negb (IsNotFound (Some err)) then Ret (Err (Wrapf "deleting SwiftGuest" err)) else Ret (Ok false)
    | None => Ret (Ok false)
    end) (deletes i b) w.
Proof using Hmark Hmissing Hbad.
  intros Hw Hb Hu. cbn [perform bind].
  assert (∀ w1 x, known i b w1 → (calm → False) →
    stands i match x with
      | Some err => if negb (IsNotFound (Some err)) then Ret (Err (Wrapf "deleting SwiftGuest" err)) else Ret (Ok false)
      | None => Ret (Ok false) end (deletes i b) w1) as Hfail.
  { intros w1 x Hk Hno. destruct x as [err|]; [destruct (negb _)|];
      (apply ret_stands; [apply stable_deletes|by split; [exact Hk|split; [done|intros ?%Hno]]]). }
  apply (call_stands i _ _ (known i b)); [apply stable_known|done|by intros w1 []|..].
  - intros w1 H1. destruct (delete_guest u w1 Hu) as [Ha Hr]. cbn [dismantle].
    assert (deletes i b (Ok false) (delete_object u w1).1) as Hd.
    { split; [by apply known_delete|]. split; [done|]. intros Hc. split; [by apply Hb|done]. }
    destruct Hr as [-> | ->]; [|rewrite Hmissing]; apply ret_stands; try done; apply stable_deletes.
  - intros w1 x H1 Hx. apply Hfail; [done|]. intros Hc. destruct Hx as [Hx|Hx]; by apply Hc in Hx.
  - intros w1 x H1 Hx. apply Hfail; [by apply known_delete|]. intros Hc. by apply Hc in Hx.
Qed.

Lemma seed_stands i (b : Prop) req w :
  known i b w → r_guest w = Gone → req_Name req = meta_Name (ksm_ObjectMeta m0) →
  stands i (let! d := perform (Lib.Delete KUnstructured (seedRef req)) in
    match d with
    | Some err =>
      if negb (IsNotFound (Some err)) then Ret (Err (Wrapf "deleting SwiftSeedProfile" err)) else Ret (Ok true)
    | None => Ret (Ok true)
    end) (deletes i b) w.
Proof using All.
  intros Hw Hg Hn. cbn [perform bind].
  assert (∀ w1 x, known i b w1 → bad _ (Lib.Delete KUnstructured (seedRef req)) x ∨ old _ (Lib.Delete KUnstructured (seedRef req)) x →
    stands i match x with
      | Some err => if negb (IsNotFound (Some err)) then Ret (Err (Wrapf "deleting SwiftSeedProfile" err)) else Ret (Ok true)
      | None => Ret (Ok true) end (deletes i b) w1) as Hfail.
  { intros w1 x Hk Hx. assert (calm → False) as Hno by (intros Hc; destruct Hx as [Hx|Hx]; by apply Hc in Hx).
    destruct Hx as [(err & -> & ->)%Hbad|[]%Hold]. apply ret_stands; [apply stable_deletes|].
    by split; [exact Hk|split; [done|intros ?%Hno]]. }
  apply (call_stands i _ _ (λ w, known i b w ∧ r_guest w = Gone)); [apply stable_and, stable_gone; apply stable_known|done|by intros w1 [[]]|..].
  - intros w1 [H1 H2]. destruct (delete_seed req w1 Hn H2) as [Ht Hr]. cbn [dismantle].
    assert (deletes i b (Ok true) (delete_object (seedRef req) w1).1) as Hd.
    { split; [by apply known_delete|]. by split. }
    destruct Hr as [-> | ->]; [|rewrite Hmissing]; apply ret_stands; try done; apply stable_deletes.
  - intros w1 x [H1 _]. by apply Hfail.
  - intros w1 x [H1 _] Hx. apply Hfail; [by apply known_delete|by left].
Qed.

(** The end of the deletion, from the answer to the read of the guest. *)
Lemma delete_stands i (b : Prop) m w :
  leaving m → known i b w →
  stands i (SwiftGuest.Delete (deleteRequest m machine cluster)) (deletes i b) w.
Proof using All.
  intros Hm Hw. destruct (leaving_facts m Hm) as (_ & _ & _ & Hk & _).
  unfold SwiftGuest.Delete. fold (seedRef (deleteRequest m machine cluster)).
  change (guestKey _) with (machineKey m). rewrite Hk. cbn [perform bind].
  assert (∀ w1 x, known i b w1 → bad _ (Get KUnstructured (machineKey m0) (newUnstructured swiftGuestGVK)) x ∨
    old _ (Get KUnstructured (machineKey m0) (newUnstructured swiftGuestGVK)) x →
    ∃ err, x = Err err ∧ IsNotFound (Some err) = false ∧ deletes i b (Err err) w1) as Hfail.
  { intros w1 x H1 Hx. assert (calm → False) as Hno by (intros Hc; destruct Hx as [Hx|Hx]; by apply Hc in Hx).
    destruct Hx as [(err & -> & He)%Hbad|[]%Hold]. exists err. split_and!; [done..|].
    split; [exact H1|]. split; [done|by intros ?%Hno]. }
  apply (call_stands i _ _ (known i b)); [apply stable_known|done|by intros w1 []|..].
  - intros w1 H1. cbn [dismantle fst snd]. rewrite decide_True by done.
    pose proof H1 as [[[Hmach [_ Hname] Hh] _] Hb].
    assert (r_guest w1 ≠ Gone → calm → b ∧ 1 < i) as Hup.
    { intros Hne Hc. split; [apply Hb; [done|]; by destruct Hh as [Hh|[? _]]|].
      pose proof (proj2 (proj1 H1)). destruct (r_guest w1); simpl in *; [lia..|done]. }
    assert (r_guest w1 ≠ Gone → asked w1 → deletes i b (Ok false) w1) as Hwait
      by (intros Hne Ha; split; [exact H1|split; [done|intros Hc; split; [by apply Hup|done]]]).
    unfold asked in Hwait. destruct (r_guest w1) as [u|k u|] eqn:Eg.
    + destruct (Time_IsZero _) eqn:Ez; [apply guest_stands; [done|by apply Hup|done]|].
      destruct H1 as [[[_ [Hz _] _] _] _]. rewrite Eg in Hz. simpl in Hz. congruence.
    + destruct (Time_IsZero _); [apply guest_stands; [done|by apply Hup|done]|].
      apply ret_stands; [apply stable_deletes|by apply Hwait].
    + rewrite Hmissing. cbn [negb]. apply seed_stands; [done|done|].
      unfold machineKey in Hk. by injection Hk.
  - intros w1 x H1 Hx. destruct (Hfail w1 x H1 Hx) as (err & -> & He & Hd). rewrite He.
    apply ret_stands; [apply stable_deletes|done].
  - intros w1 x H1 Hx. destruct (Hfail w1 x H1 (or_introl Hx)) as (err & -> & He & Hd). rewrite He.
    apply ret_stands; [apply stable_deletes|done].
Qed.

(** How a reconcile ends. *)
Definition gone_or (ret : Return) (w : remains) : Prop :=
  ret = finished ∨ (ret = failed missing ∧ r_machine w = None).
Definition ends (i : nat) (ret : Return) (w : remains) : Prop :=
  on_way i w ∧
  (calm → (ret = requeue ∧ 1 < i ∧ (held w ↔ True) ∧ asked w) ∨ (gone_or ret w ∧ torn_down w ∧ (held w ↔ False))).
Lemma stable_ends i ret : stable (ends i ret).
Proof using.
  intros w w' Hd [Hw Hc]. split; [by eapply stable_on_way|]. intros Hcalm.
  destruct (Hc Hcalm) as [(-> & Hlt & Hh & Ha)|(Hr & Ht & Hh)]; [left|right].
  - split; [done|]. split; [done|]. split; [by eapply stable_held|by eapply stable_asked].
  - split; [|split; [by eapply stable_torn_down|by eapply stable_held]].
    destruct Hr as [->|[-> Hm]]; [by left|right]. split; [done|by eapply stable_unmade].
Qed.

Lemma failed_ends {R} i (c : call R) x ret w :
  on_way i w → bad R c x ∨ old R c x → ends i ret w.
Proof using. intros Hw Hx. split; [done|]. intros Hc. destruct Hx as [Hx|Hx]; by apply Hc in Hx. Qed.

(** The patch: the machine kept, or released with nothing left. *)
Lemma patch_stands i m m' ret w :
  leaving m → known i (MachineFinalizer ∈ finalizers m) w →
  (m' = m ∧ (calm → ret = requeue ∧ (MachineFinalizer ∈ finalizers m ∧ 1 < i) ∧ asked w) ∨
   m' = released m ∧ ret = finished ∧ torn_down w) →
  stands i (Vis (Patch KMachine m m') (λ p, Ret (patched ret p))) (ends i) w.
Proof using All.
  intros Hm Hw Hcase. set (b := MachineFinalizer ∈ finalizers m) in *.
  apply (call_stands i _ _ (λ w, known i b w ∧
    (m' = m ∧ (calm → ret = requeue ∧ (b ∧ 1 < i) ∧ asked w) ∨ m' = released m ∧ ret = finished ∧ torn_down w))).
  - intros w1 w2 Hd [Hk Hc]. split; [by eapply stable_known|]. destruct Hc as [[-> Hc]|(-> & -> & Ht)]; [left|right].
    + split; [done|]. intros Hcalm. destruct (Hc Hcalm) as (-> & ? & ?). split; [done|]. split; [done|by eapply stable_asked].
    + split_and!; [done..|by eapply stable_torn_down].
  - done.
  - by intros w1 [[]].
  - intros w1 [[H1 Hb] Hc]. cbn [dismantle]. apply ret_stands; [apply stable_ends|].
    destruct Hc as [[-> Hc]|(-> & -> & Ht)]; (split; [apply put_on_way; auto using released_leaving|]); intros Hcalm.
    + destruct (Hc Hcalm) as (-> & [Hf Hlt] & Ha). left. rewrite put_same by (by apply Hb). cbn [fst snd].
      split; [done|]. split; [done|]. split; [by rewrite Hb|done].
    + right. pose proof (put_released i m w1 H1 Hm Ht (Hb Hcalm)) as Hp.
      destruct (put_machine _ _ _) as [w2 p]. destruct Hp as [Hd Hp]. cbn [fst snd]. split.
      * destruct Hp as [->|[-> ?]]; [by left|by right].
      * split; [split; apply Hd|]. split; [|done]. intros (m1 & Em & Hf). by apply (gone_finalizer _ Hd m1 Em).
  - intros w1 x [[H1 _] _] Hx. apply ret_stands; [apply stable_ends|by eapply failed_ends].
  - intros w1 x [[H1 _] Hc] Hx. apply ret_stands; [apply stable_ends|]. eapply failed_ends; [|by left].
    destruct Hc as [[-> _]|(-> & _ & Ht)]; apply put_on_way; auto using released_leaving.
Qed.

(** A read-only call on the way there. *)
Lemma read_stands {X} i b (c : call X) k w :
  known i b w → (∀ w1, (dismantle X c w1).1 = w1) →
  (∀ w1, known i b w1 → stands i (k (dismantle X c w1).2) (ends i) w1) →
  (∀ w1 x, on_way i w1 → bad X c x ∨ old X c x → ∃ ret, k x = Ret ret) →
  stands i (Vis c k) (ends i) w.
Proof using Hold Hbad.
  intros Hw Hr Hs Hf. apply (call_stands i _ _ (known i b)); [apply stable_known|done|by intros w1 []|..].
  - intros w1 H1. rewrite Hr. by apply Hs.
  - intros w1 x [H1 _] Hx. destruct (Hf w1 x H1 Hx) as [ret ->].
    apply ret_stands; [apply stable_ends|by eapply failed_ends].
  - intros w1 x [H1 _] Hx. rewrite Hr. destruct (Hf w1 x H1 (or_introl Hx)) as [ret ->].
    apply ret_stands; [apply stable_ends|]. eapply failed_ends; [done|by left].
Qed.
Ltac fails_here :=
  intros ? ? _ [(? & -> & _)%Hbad|[]%Hold]; by eexists.

Lemma machine_stands i m w :
  leaving m → known i (MachineFinalizer ∈ finalizers m) w →
  stands i (let! (m', ret) := reconcileMachine m machine cluster NewSwiftGuestBackend in
    let! p := perform (Patch KMachine m m') in Ret (patched ret p)) (ends i) w.
Proof using All.
  intros Hm Hw. destruct (leaving_facts m Hm) as (Hz & _). set (b := MachineFinalizer ∈ finalizers m) in *.
  unfold reconcileMachine. rewrite Hz. cbn [negb]. unfold reconcileDelete. cbn [backend_Delete NewSwiftGuestBackend].
  eapply withstands_seq.
  { eapply withstands_seq; [by apply (delete_stands i b m)|].
    instantiate (1 := λ p w', known i b w' ∧
      (p.1 = m ∧ (calm → p.2 = requeue ∧ (b ∧ 1 < i) ∧ asked w') ∨ p.1 = released m ∧ p.2 = finished ∧ torn_down w')).
    intros r w1 Hd. assert (stable (deletes i b r)) as Hst by apply stable_deletes.
    assert (∀ w2, deletes i b r w2 → known i b w2) as Hk by (by intros w2 []).
    destruct r as [[]|err]; cbn [negb withstands fst snd]; intros w2 Hw2;
      pose proof (stable_rtc _ _ _ Hst Hw2 Hd) as (H2 & Ht & Hc); (split; [done|]).
    - right. split; [done|]. split; [done|by apply Ht].
    - left. split; [done|]. intros Hcalm. by destruct (Hc Hcalm).
    - left. split; [done|]. intros Hcalm. by destruct (Hc Hcalm). }
  intros [m' ret] w1 [H1 Hc]. cbn [fst snd perform bind] in *. by apply patch_stands.
Qed.

(** The reconcile from the answer to the read of the machine on. *)
Definition continued (m : KubeSwiftMachine) : prog call Return :=
  let! x := perform (GetOwnerMachine (ksm_ObjectMeta m)) in
  match x with
  | Err err => Ret (failed err)
  | Ok None => Ret finished
  | Ok (Some machine) =>
    let! c := perform (GetClusterFromMetadata (ksm_ObjectMeta m)) in
    match c with
    | Err _ => Ret finished
    | Ok cluster =>
      if IsPaused cluster (ksm_ObjectMeta m) then Ret finished
      else match backendFor (mb_Type (ksmSpec_Backend (ksm_Spec m))) with
        | Err err => Ret (failed err)
        | Ok b =>
          let! h := perform (NewPatchHelper KMachine m) in
          match h with
          | Some err => Ret (failed err)
          | None =>
            let! (ksm', ret) := reconcileMachine m machine cluster b in
            let! p := perform (Patch KMachine m ksm') in Ret (patched ret p)
          end
        end
    end
  end.

Lemma continued_stands i m w :
  on_way i w → leaving m → (calm → held w ↔ MachineFinalizer ∈ finalizers m) →
  stands i (continued m) (ends i) w.
Proof using All.
  intros H1 Hm Hk. destruct (leaving_facts m Hm) as (_ & Hp & Hb & _). unfold continued. cbn [perform bind].
  apply (read_stands i (MachineFinalizer ∈ finalizers m)); [by split|done| |fails_here].
  intros w2 H2. cbn [dismantle fst snd].
  apply (read_stands i (MachineFinalizer ∈ finalizers m)); [done|done| |fails_here].
  intros w3 H3. cbn [dismantle fst snd]. rewrite Hp, Hb.
  apply (read_stands i (MachineFinalizer ∈ finalizers m)); [done|done| |fails_here].
  intros w4 H4. by apply machine_stands.
Qed.

(** The machine may be read as it was, or not be there. *)
Lemma reconcile_stands i key w : on_way i w → stands i (Reconcile key) (ends i) w.
Proof using All.
  intros Hw. change (Reconcile key) with (Vis (Get KMachine key KubeSwiftMachine_zero) (λ g,
    match g with Ok m => continued m | Err err => Ret (Result_zero, IgnoreNotFound (Some err)) end)).
  apply (call_stands i _ _ (on_way i)); [apply stable_on_way|done|done|..].
  - intros w1 H1. cbn [dismantle fst snd]. pose proof H1 as [[Hmach _ Hh] _].
    destruct (r_machine w1) as [m|] eqn:Em.
    + destruct (Hmach m eq_refl) as [Hl _]. apply continued_stands; [done|done|]. intros _. unfold held. rewrite Em.
      split; [by intros (? & [= <-] & ?)|by intros ?; exists m].
    + apply ret_stands; [apply stable_ends|]. split; [done|]. intros _. right.
      assert (¬ held w1) as Hno by (intros (? & ? & _); congruence).
      rewrite IgnoreNotFound_spec, Hmissing. split; [by left|].
      split; [by destruct Hh|]. split; [exact Hno|done].
  - intros w1 x H1 [Hx|Hx].
    + destruct (Hbad _ _ _ Hx) as (err & -> & He). apply ret_stands; [apply stable_ends|].
      eapply failed_ends; [done|by left].
    + destruct (Hold _ _ _ Hx) as (m & -> & Hl). apply continued_stands; [done|done|].
      intros Hc. by apply Hc in Hx.
  - intros w1 x H1 Hx. destruct (Hbad _ _ _ Hx) as (err & -> & He).
    apply ret_stands; [apply stable_ends|]. eapply failed_ends; [done|by left].
Qed.
End Walk.

(** ** Histories

    [departure key w i w']: from [w] to [w'] by [i] rounds, any number of reconciles that
    fail, and drift. *)
Inductive departure (key : NamespacedName) (w : remains) : nat → remains → Prop :=
  | departs : departure key w 0 w
  | round_served i w1 w2 ret : departure key w i w1 → delete_round key w1 w2 ret → departure key w (S i) w2
  | round_fails i w1 w2 :
      departure key w i w1 → faulty dismantle honest (λ _, old_machine) drift (Reconcile key) w1 w2 →
      departure key w i w2
  | moves_on i w1 w2 : departure key w i w1 → drift w1 w2 → departure key w i w2.

(** A round ends, and as it should. *)
Definition none : env call := λ _ _ _, False.
Lemma round_ends i key w :
  on_way i w →
  (∃ w' ret, delete_round key w w' ret) ∧
  ∀ w' ret, delete_round key w w' ret →
    on_way (Nat.max 1 (i - 1)) w' ∧
    ((ret = requeue ∧ held w' ∧ 1 < i) ∨ (gone_or ret w' ∧ departed w')).
Proof using All.
  intros Hw. assert (calm none none) as Hcalm by (intros X c x; split; intros []).
  pose proof (reconcile_stands none none (λ _ _ _, False_ind _) (λ _ _ _, False_ind _) i key w Hw) as Hs.
  split.
  { destruct (withstands_total _ _ _ _ _ _ _ _ Hs) as (w1 & ret & Hr). exists (decay w1), ret, w1. by split. }
  intros w' ret (w1 & Hr & ->). destruct (withstands_completes _ _ _ _ _ _ _ _ _ _ Hs Hr) as [H1 Hend].
  pose proof (stable_on_way i w1 (decay w1) (time_passes w1) H1) as [Hd Hi].
  destruct (Hend Hcalm) as [(-> & Hlt & Hh & Ha)|(Hg & Ht & Hh)].
  - destruct H1 as [_ Hi1]. unfold asked in Ha. split.
    + split; [done|]. simpl in *. destruct (r_guest w1) as [u|[|k] u|]; simpl in *; [done|lia..].
    + left. split; [done|]. split; [by apply Hh|done].
  - pose proof (unheld_departed i w1 H1 Ht (proj1 Hh)) as Hdep. split.
    + split; [done|]. simpl. destruct Ht as [-> _]. simpl. lia.
    + right. split; [exact Hg|]. destruct Hdep as [Hg' ? ? ?]. split; simpl; try done. by rewrite Hg'.
Qed.

Lemma departure_on_way key w i w' :
  departure key w i w' → departing w → on_way (Nat.max 1 (rounds n (r_guest w) - i)) w'.
Proof using All.
  intros Hd Hw. induction Hd as [|i w1 w2 ret Hd IH Hr|i w1 w2 Hd IH Hf|i w1 w2 Hd IH Hdr].
  - split; [done|lia].
  - destruct (round_ends _ key w1 IH) as [_ Hend]. destruct (Hend _ _ Hr) as [[? ?] _]. split; [done|lia].
  - pose proof (reconcile_stands honest old_machine (λ _ _ _ H, H) (λ _ _ _ H, H) _ key w1 IH) as Hs.
    refine (withstands_faulty _ _ _ _ _ _ _ _ _ Hs _ Hf). by intros ret w3 [].
  - by eapply stable_on_way.
Qed.

(** C8: A machine that is being deleted goes away whatever fails on the way, and never
    early: after any number of reconciles that stopped anywhere, whose requests were
    refused or took effect without a reply, or that read an older version of the machine,
    and however the server drifts between any two calls - the guest going or vanishing,
    others changing the status and finalizers of their own - the machine holds its
    finalizer or its guest and seed profile are gone. A reconcile that is served, while
    the server drifts as well, always ends; it asks for the next in 15 seconds, the machine
    held, or leaves nothing to wait for: the guest and the seed gone, the machine released,
    and gone too if it had no other finalizer - with no error unless the machine was gone
    before it was patched. The latter is so from the [n + 2]nd such round on for a guest
    that is up and takes [n] rounds to go, and earlier for one that is going. *)
Theorem machine_goes_away key w i w' :
  departing w → departure key w i w' →
  (held w' ∨ torn_down w') ∧
  (∃ w'' ret, delete_round key w' w'' ret) ∧
  ∀ w'' ret, delete_round key w' w'' ret →
    ((ret = requeue ∧ held w'') ∨ (gone_or ret w'' ∧ departed w'')) ∧
    (rounds n (r_guest w) ≤ S i → gone_or ret w'' ∧ departed w'').
Proof using All.
  intros Hw Hd. pose proof (departure_on_way key w i w' Hd Hw) as Hw'.
  split; [by apply dep_held; destruct Hw'|]. destruct (round_ends _ key w' Hw') as [Hex Hend].
  split; [done|]. intros w'' ret Hr. destruct (Hend w'' ret Hr) as [_ [(-> & Hh & Hlt)|Hgone]].
  - split; [by left|]. intros ?. lia.
  - split; [by right|done].
Qed.
End Teardown.
