(* ===== verification/ClusterRuns.v ===== *)
(** * ClusterRuns: a cluster's endpoint comes up and stays

    Repeated reconciles of a KubeSwiftCluster in Service mode against a server that keeps
    the cluster and its endpoint Service, fills in what a real one does and refuses to
    change a cluster IP, while other reconciles fail and others edit the Service. *)

From S2P Require Import Prelude Go Prog Kube Api Lib Reference Samples.
From S2P Require Import MachineController EndpointService ClusterController EndpointSpec ClusterSpec.
From S2P Require Import Faults.

(** The KubeSwiftCluster, its Service, and how often a Service was written. *)
Record grid := mkGrid {
  g_ksc : KubeSwiftCluster;
  g_service : option Service;
  g_writes : nat
}.

Definition svc_key (s : Service) : NamespacedName :=
  mkNN (meta_Namespace (svc_ObjectMeta s)) (meta_Name (svc_ObjectMeta s)).
Definition usable (ip : string) : Prop := ip ≠ "" ∧ ip ≠ ClusterIPNone.

(** The owner, the cluster as it starts, and the fields the server fills in. *)
Class Estate := mkEstate {
  es_missing : error;
  es_conflict : error;
  es_cluster : Cluster;
  es_start : KubeSwiftCluster;
  es_assign : Service → Service
}.

#[local] Arguments answer : simpl never.

(** [fronts] depends on the Service configuration alone. *)
Lemma fronts_cfg k k' cluster s : serviceCfg k = serviceCfg k' → fronts k cluster s → fronts k' cluster s.
Proof.
  intros Hk [F1 F2 F3 F4 F5].
  unfold apiserverPort, controlPlaneServiceType, controlPlaneServicePort, cfg_class, cfg_annotations in *.
  rewrite Hk in *. by split.
Qed.

Section ClusterRuns.
Context {lib : Lib} {Es : Estate}.
#[local] Abbreviation missing := es_missing.
#[local] Abbreviation conflict := es_conflict.
#[local] Abbreviation cluster := es_cluster.
#[local] Abbreviation k0 := es_start.
#[local] Abbreviation assign := es_assign.

(** A live cluster in Service mode, neither paused nor managed by others. *)
Class Tended : Prop := {
  te_missing : IsNotFound (Some missing) = true;
  te_paused o : meta_Annotations o = meta_Annotations (ksc_ObjectMeta k0) → IsPaused cluster o = false;
  te_managed o : meta_Annotations o = meta_Annotations (ksc_ObjectMeta k0) → IsExternallyManaged o = false;
  te_live : cluster_deleting k0 = false;
  te_mode : service_mode k0 = true;
  te_reference k s : ∃ s', SetControllerReference k s = Ok s';
  (** the server assigns a cluster IP where there is none, and keeps what it is given *)
  te_key s : svc_key (assign s) = svc_key s;
  te_clusterIP s :
    if decide (ss_ClusterIP (svc_Spec s) = "") then usable (ss_ClusterIP (svc_Spec (assign s)))
    else ss_ClusterIP (svc_Spec (assign s)) = ss_ClusterIP (svc_Spec s);
  te_fronts s : fronts k0 cluster s → fronts k0 cluster (assign s)
}.

Definition store (g : grid) (s : Service) : grid := mkGrid (g_ksc g) (Some s) (S (g_writes g)).

Definition oversee (X : Type) (c : call X) (g : grid) : grid * X :=
  match c in call X return grid * X with
  | Get k key _ =>
    (g, match k return result (objT k) with
        | KCluster => Ok (g_ksc g)
        | KService =>
          if decide (key = serviceKey k0)
          then match g_service g with Some s => Ok s | None => Err missing end
          else Err missing
        | KMachine | KSecret | KUnstructured => Err missing
        end)
  | Create k o =>
    match k return objT k → grid * result (objT k) with
    | KService => λ s,
      if decide (svc_key s = serviceKey k0)
      then match g_service g with
        | None => (store g (assign s), Ok (assign s))
        | Some _ => (g, Err conflict) end
      else (g, Err conflict)
    | _ => λ o, (g, Err conflict)
    end o
  | Update k o =>
    match k return objT k → grid * result (objT k) with
    | KService => λ s,
      match g_service g with
      | Some s0 =>
        if decide (svc_key s = svc_key s0 ∧ ss_ClusterIP (svc_Spec s) = ss_ClusterIP (svc_Spec s0))
        then (store g (assign s), Ok (assign s)) else (g, Err conflict)
      | None => (g, Err missing) end
    | _ => λ o, (g, Err conflict)
    end o
  | Lib.Delete k o =>
    match k return objT k → grid * option error with
    | KService => λ s,
      if decide (svc_key s = serviceKey k0)
      then match g_service g with
        | Some _ => (mkGrid (g_ksc g) None (S (g_writes g)), None)
        | None => (g, Some missing) end
      else (g, Some missing)
    | _ => λ o, (g, Some missing)
    end o
  | GetOwnerMachine _ => (g, Err missing)
  | GetOwnerCluster _ => (g, Ok (Some cluster))
  | GetClusterFromMetadata _ => (g, Ok cluster)
  | NewPatchHelper _ _ => (g, None)
  | Patch k before after =>
    (match k return objT k → grid with
     | KCluster => λ k, mkGrid k (g_service g) (g_writes g)
     | _ => λ _, g end after, None)
  | RESTConfigFromKubeConfig _ => (g, Err missing)
  | NewForConfig _ => (g, Err missing)
  | NodesGet _ _ => (g, Err missing)
  | NodesPatch _ _ _ => (g, None)
  end.

Definition cluster_round (key : NamespacedName) (g : grid) : grid * outcome Return :=
  answer oversee (ClusterController.Reconcile key) g.

(** ** A round *)

Context {T : Tended} {SL : ServiceLaws} {D : DeepEqualLaws}.

(** The cluster with another status and endpoint and its finalizer; a Service, if there is
    one, of the right name and with a cluster IP, but otherwise whatever it is. *)
Definition tended (g : grid) : Prop :=
  same_cluster k0 (g_ksc g) ∧
  ∀ s, g_service g = Some s → svc_key s = serviceKey k0 ∧ usable (ss_ClusterIP (svc_Spec s)).

Lemma same_cfg k : same_cluster k0 k →
  serviceCfg k = serviceCfg k0 ∧ serviceKey k = serviceKey k0 ∧
  cluster_deleting k = false ∧ service_mode k = true ∧
  meta_Annotations (ksc_ObjectMeta k) = meta_Annotations (ksc_ObjectMeta k0) ∧
  controlPlaneServicePort k = controlPlaneServicePort k0.
Proof.
  intros (Hm & He & _ & _). rewrite <- te_live, <- te_mode.
  unfold serviceKey, controlPlaneServiceName, cluster_deleting, service_mode, endpointMode,
    controlPlaneServicePort, serviceCfg.
  rewrite He, Hm. by split_and!.
Qed.

Lemma same_finalized k : same_cluster k0 k → same_cluster k0 (cluster_finalized k).
Proof.
  intros Hk. pose proof (same_cfg k Hk) as (_ & _ & _ & Hmode & _). destruct Hk as (Hm & He & Hg & _).
  split_and!; try done; [unfold cluster_finalized; simpl; by rewrite Hm|by rewrite te_mode].
Qed.

(** The Service a round leaves behind. *)
Definition desired (k : KubeSwiftCluster) : Service :=
  match SetControllerReference k (buildControlPlaneService k cluster) with
  | Ok d => d | Err _ => Service_zero end.
Lemma desired_ok k : desired_of k cluster (desired k).
Proof.
  unfold desired_of, desired. by destruct (te_reference k (buildControlPlaneService k cluster)) as [d ->].
Qed.
Definition kept (k : KubeSwiftCluster) (s : Service) : bool :=
  unchanged s (updatedService (desired k) s).
Definition ensured (k : KubeSwiftCluster) (o : option Service) : Service :=
  match o with
  | None => assign (desired k)
  | Some s => if kept k s then s else assign (updatedService (desired k) s)
  end.
Definition written (k : KubeSwiftCluster) (o : option Service) : nat :=
  match o with Some s => if kept k s then 0 else 1 | None => 1 end.

Lemma kept_fronts k s : same_cluster k0 k → kept k s = true ↔ fronts k0 cluster s.
Proof.
  intros Hk. unfold kept. rewrite unchanged_fronts by apply desired_ok.
  destruct (same_cfg k Hk) as (Hc & _). split; by apply fronts_cfg.
Qed.

Lemma ensured_fronts k o : same_cluster k0 k → fronts k0 cluster (ensured k o).
Proof.
  intros Hk. destruct (same_cfg k Hk) as (Hc & _). destruct o as [s|]; simpl.
  - destruct (kept k s) eqn:E; [by apply (kept_fronts k)|].
    apply te_fronts. apply (fronts_cfg k); [done|]. by apply updatedService_fronts, desired_ok.
  - apply te_fronts. apply (fronts_cfg k); [done|]. apply desired_fronts, desired_ok.
Qed.

Lemma desired_key k : svc_key (desired k) = serviceKey k.
Proof. apply (desired_spec k cluster), desired_ok. Qed.
Lemma desired_clusterIP k : ss_ClusterIP (svc_Spec (desired k)) = "".
Proof.
  destruct (desired_spec k cluster _ (desired_ok k)) as (-> & _).
  unfold buildControlPlaneService. destruct (serviceCfg k) as [c|]; [|done].
  by destruct (0 <? size (entries (cps_Annotations c)))%nat, (_ && _).
Qed.

Lemma updated_key d s : svc_key (updatedService d s) = svc_key s.
Proof. destruct (updatedService_spec d s) as (_ & _ & _ & Hm). unfold svc_key. by rewrite Hm. Qed.
Lemma updated_clusterIP d s : ss_ClusterIP (svc_Spec (updatedService d s)) = ss_ClusterIP (svc_Spec s).
Proof. destruct (updatedService_spec d s) as (Hs & _). by rewrite Hs. Qed.

Lemma assign_usable s :
  ss_ClusterIP (svc_Spec s) ≠ ClusterIPNone → usable (ss_ClusterIP (svc_Spec (assign s))).
Proof.
  intros Hs. pose proof (te_clusterIP s) as H. destruct (decide _); [done|]. by rewrite H.
Qed.
Lemma assign_keeps s ip :
  ss_ClusterIP (svc_Spec s) = ip → usable ip → ss_ClusterIP (svc_Spec (assign s)) = ip.
Proof.
  intros Hs [Hn _]. pose proof (te_clusterIP s) as H. rewrite decide_False in H by congruence. congruence.
Qed.

Lemma ensured_kept k o ip :
  (∃ s, o = Some s ∧ ss_ClusterIP (svc_Spec s) = ip) → usable ip →
  ss_ClusterIP (svc_Spec (ensured k o)) = ip.
Proof.
  intros (s & -> & Hip) Hu. simpl. destruct (kept k s); [done|].
  apply assign_keeps; [|done]. by rewrite updated_clusterIP.
Qed.

Lemma ensured_usable k o :
  (∀ s, o = Some s → svc_key s = serviceKey k0 ∧ usable (ss_ClusterIP (svc_Spec s))) →
  serviceKey k = serviceKey k0 →
  svc_key (ensured k o) = serviceKey k0 ∧ usable (ss_ClusterIP (svc_Spec (ensured k o))).
Proof.
  intros Ho Hk. destruct o as [s|]; simpl.
  - destruct (Ho s eq_refl) as [H1 H2]. destruct (kept k s); [done|].
    rewrite te_key, updated_key. split; [done|].
    by rewrite (assign_keeps _ _ (updated_clusterIP (desired k) s)).
  - rewrite te_key, desired_key. split; [done|]. apply assign_usable. by rewrite desired_clusterIP.
Qed.

Lemma ensure_answer k g :
  same_cluster k0 k → tended g →
  answer oversee (ensureControlPlaneService k cluster) g =
    (mkGrid (g_ksc g) (Some (ensured k (g_service g))) (written k (g_service g) + g_writes g),
     Done (Ok (ensured k (g_service g)))).
Proof.
  intros Hk (_ & Hs). destruct (same_cfg k Hk) as (_ & Hkey & _).
  pose proof (desired_ok k) as Hd. unfold desired_of in Hd. unfold ensureControlPlaneService. rewrite Hd.
  fold (svc_key (desired k)). rewrite desired_key, Hkey.
  unfold perform. cbn [bind]. rewrite answer_vis. cbn -[serviceKey]. rewrite decide_True by done.
  destruct g as [gk [s|] gw]; cbn -[serviceKey updatedService unchanged desired] in *.
  - fold (kept k s). destruct (kept k s); [done|].
    rewrite answer_vis. cbn -[serviceKey updatedService unchanged desired].
    rewrite decide_True by (split; [apply updated_key|apply updated_clusterIP]). done.
  - rewrite te_missing. rewrite answer_vis. cbn -[serviceKey desired].
    rewrite decide_True by (by rewrite desired_key). done.
Qed.

(** What the round reports of the Service. *)
Definition reported (k : KubeSwiftCluster) (s : Service) : KubeSwiftCluster :=
  let '(host, ready) := controlPlaneServiceAddress s in
  if ready then markClusterProvisioned (ksc_set_ControlPlaneEndpoint k
    (Some (mkAPIEndpoint host (controlPlaneServicePort k))))
  else markClusterNotProvisioned k WaitingForEndpointServiceReason
    ("Waiting for Service " +:+ meta_Namespace (svc_ObjectMeta s) +:+ "/" +:+
     meta_Name (svc_ObjectMeta s) +:+ " to get an address").

Lemma reported_same k s : same_cluster k0 k → same_cluster k0 (reported k s).
Proof.
  intros (Hm & He & Hg & _). unfold reported. destruct (controlPlaneServiceAddress s) as [host []];
    (split_and!; try done; by rewrite te_mode).
Qed.

Lemma round_answer key g :
  tended g →
  let k := cluster_finalized (g_ksc g) in
  cluster_round key g =
    (mkGrid (reported k (ensured k (g_service g))) (Some (ensured k (g_service g)))
       (written k (g_service g) + g_writes g), Done finished).
Proof.
  intros Hg k. destruct Hg as [Hk Hs]. pose proof (same_finalized _ Hk) as Hf. fold k in Hf.
  destruct (same_cfg _ Hk) as (_ & _ & Hd & Hmode & Ha & _).
  unfold cluster_round, ClusterController.Reconcile, perform. cbn [bind].
  do 2 (rewrite answer_vis; cbn [oversee fst snd]; cbn beta iota).
  rewrite te_managed, te_paused by done. rewrite answer_vis. cbn [oversee fst snd]. cbn beta iota.
  rewrite answer_bind. unfold reconcileCluster.
  fold (cluster_deleting (g_ksc g)). rewrite Hd.
  unfold ClusterController.reconcileNormal. fold (cluster_finalizers (g_ksc g)) (cluster_finalized (g_ksc g)) k.
  change (endpointMode k) with (endpointMode (g_ksc g)). fold (service_mode (g_ksc g)). rewrite Hmode.
  unfold reconcileServiceEndpoint. rewrite (answer_seq _ _ _ _ _ _ (ensure_answer k g Hf (conj Hk Hs))).
  cbn beta iota. unfold reported. destruct (controlPlaneServiceAddress _) as [host []]; done.
Qed.

Lemma round_tended key g : tended g → tended (cluster_round key g).1.
Proof.
  intros Hg. pose proof Hg as [Hk Hs]. rewrite round_answer by done. split; simpl.
  - by apply reported_same, same_finalized.
  - intros s [= <-]. apply ensured_usable; [done|]. apply same_cfg. by apply same_finalized.
Qed.

(** The round that follows finds nothing to write. *)
Lemma round_settles key g :
  tended g → let g1 := (cluster_round key g).1 in let g2 := (cluster_round key g1).1 in
  g_service g2 = g_service g1 ∧ g_writes g2 = g_writes g1.
Proof.
  intros Hg g1 g2. pose proof (round_tended key g Hg) as Hg1. fold g1 in Hg1.
  unfold g2. rewrite round_answer by done. simpl. unfold g1. rewrite round_answer by done. simpl.
  rewrite (proj2 (kept_fronts _ _ (same_finalized _ (reported_same _ _ (same_finalized _ (proj1 Hg)))))); [done|].
  apply ensured_fronts. by apply same_finalized, Hg.
Qed.

(** ** Faults *)

(** A reconcile may read an older version of the cluster, or any Service. *)
Definition old_cluster : env call := λ X c,
  match c in call X return X → Prop with
  | Get k _ _ =>
    match k return result (objT k) → Prop with
    | KCluster => λ r, ∃ k, r = Ok k ∧ same_cluster k0 k
    | KService => λ r, ∃ s, r = Ok s
    | _ => λ _, False
    end
  | _ => λ _, False
  end.
Definition believes : env call := λ X c,
  match c in call X return X → Prop with
  | Get k _ _ =>
    match k return result (objT k) → Prop with
    | KCluster => λ r, ∀ k, r = Ok k → same_cluster k0 k
    | _ => λ _, True
    end
  | GetOwnerCluster _ => λ r, ∀ c, r = Ok (Some c) → c = cluster
  | _ => λ _, True
  end.
Definition asks (X : Type) (c : call X) : Prop :=
  match c with
  | Create k o =>
    match k return objT k → Prop with
    | KService => λ s, ss_ClusterIP (svc_Spec s) = "" | _ => λ _, False end o
  | Update k _ => k = KService
  | Patch k _ o =>
    match k return objT k → Prop with KCluster => same_cluster k0 | _ => λ _, False end o
  | Lib.Delete _ _ | NodesPatch _ _ _ => False
  | _ => True
  end.

Lemma service_rg k :
  rg believes asks (ensureControlPlaneService k cluster) (λ _, True).
Proof.
  unfold ensureControlPlaneService. pose proof (desired_ok k) as Hd. unfold desired_of in Hd. rewrite Hd.
  rg_steps ltac:(first [done|by apply desired_clusterIP]); done.
Qed.

Lemma cluster_rg key : rg believes asks (ClusterController.Reconcile key) (λ _, True).
Proof.
  unfold ClusterController.Reconcile, perform. cbn [bind rg].
  split; [done|]. intros [k|err] Hk; [|done]. specialize (Hk k eq_refl). pose proof (same_finalized k Hk) as Hf.
  destruct (same_cfg _ Hk) as (_ & _ & Hd & Hmode & Ha & _).
  split; [done|]. intros [[c|]|err] Hc; [|done..]. rewrite (Hc c eq_refl).
  rewrite te_managed, te_paused by done. cbn [bind rg]. split; [done|]. intros [err|] _; [done|].
  eapply rg_seq with (P := λ p, same_cluster k0 p.1); [|by intros [k' ret] Hk'].
  unfold reconcileCluster. fold (cluster_deleting k). rewrite Hd.
  unfold ClusterController.reconcileNormal. fold (cluster_finalizers k) (cluster_finalized k).
  change (endpointMode (cluster_finalized k)) with (endpointMode k). fold (service_mode k). rewrite Hmode.
  unfold reconcileServiceEndpoint. eapply rg_seq; [apply service_rg|]. intros [s|err] _; [|done].
  pose proof (reported_same _ s Hf) as Hr. unfold reported in Hr.
  by destruct (controlPlaneServiceAddress s) as [host []].
Qed.

(** The cluster IP of the Service. *)
Definition holds_ip (ip : string) (g : grid) : Prop :=
  ∃ s, g_service g = Some s ∧ ss_ClusterIP (svc_Spec s) = ip.
(** What neither the provider nor the server takes back. *)
Definition keeps (g g' : grid) : Prop :=
  tended g' ∧ ∀ ip, usable ip → holds_ip ip g → holds_ip ip g'.

Lemma oversee_keeps g0 X (c : call X) g : keeps g0 g → asks X c → keeps g0 (oversee X c g).1.
Proof.
  intros HI Hc. pose proof HI as [[Hk Hs] Hip].
  destruct c as [k key o|k o|k o|k o|o|o|o|k o|k b a|d|rc|cs nm|cs nm b]; simpl in *; try done.
  - destruct k; try done. destruct (decide _) as [Hkey|]; [|exact HI].
    destruct (g_service g) as [s|] eqn:Eg; [exact HI|]. split; [split; [done|]|].
    + intros s [= <-]. rewrite te_key. split; [done|]. apply assign_usable. by rewrite Hc.
    + intros ip Hu Hi. destruct (Hip ip Hu Hi) as (s & Hs' & _). congruence.
  - subst. destruct (g_service g) as [s|] eqn:Eg; [|exact HI].
    destruct (decide _) as [[Hkey Hcip]|]; [|exact HI]. destruct (Hs s eq_refl) as [Hk0 Hu0].
    pose proof (assign_keeps o _ Hcip Hu0) as Ha. split; [split; [done|]|].
    + intros s' [= <-]. rewrite te_key, Ha. split; [by rewrite Hkey|done].
    + intros ip Hu Hi. destruct (Hip ip Hu Hi) as (s' & Hs' & <-). eexists. split; [done|].
      congruence.
  - by destruct k.
Qed.

(** Others may edit the Service, at any time, but for its name and cluster IP; they do not
    delete it. *)
Definition edits (s s' : Service) : Prop :=
  svc_key s' = svc_key s ∧ ss_ClusterIP (svc_Spec s') = ss_ClusterIP (svc_Spec s).
Inductive edited (g : grid) : grid → Prop :=
  | edits_service s s' : g_service g = Some s → edits s s' →
      edited g (mkGrid (g_ksc g) (Some s') (g_writes g)).

Lemma edited_keeps g0 g g' : edited g g' → keeps g0 g → keeps g0 g'.
Proof.
  intros [s s' Hs [He1 He2]] [[Hk Ho] Hip]. split; [split; [done|]|].
  - intros s1 [= <-]. rewrite He1, He2. by apply Ho.
  - intros ip Hu Hi. destruct (Hip ip Hu Hi) as (s1 & Hs1 & <-). eexists. split; [done|].
    rewrite Hs in Hs1. by injection Hs1 as ->.
Qed.

(** ** Histories *)
Inductive chronicle (key : NamespacedName) (g : grid) : grid → Prop :=
  | opens : chronicle key g g
  | clean g1 : chronicle key g g1 → chronicle key g (cluster_round key g1).1
  | fails_somewhere g1 g2 : chronicle key g g1 →
      faulty oversee fails (λ _, old_cluster) edited (ClusterController.Reconcile key) g1 g2 → chronicle key g g2
  | others_edit g1 g2 : chronicle key g g1 → edited g1 g2 → chronicle key g g2.

Lemma faulty_keeps g0 key g g' :
  faulty oversee fails (λ _, old_cluster) edited (ClusterController.Reconcile key) g g' → keeps g0 g → keeps g0 g'.
Proof.
  refine (λ Hf, faulty_preserves oversee fails (λ _, old_cluster) edited (keeps g0) believes asks _
    (λ _, True) g g' _ _ _ _ _ (cluster_rg key) Hf).
  - intros X c v Hv Hc. by apply oversee_keeps.
  - intros X c v [[Hk _] _]. destruct c as [[]| | | | | | | | | | | |]; simpl; try done; by intros ? [= <-].
  - intros X c x Hx. destruct c as [[]| | | | | | | | | | | |]; simpl in *; try done;
      destruct Hx as [? [-> _]]; done.
  - intros X c _ x _ Hx. destruct c as [[]| | | | | | | | | | | |]; simpl in *; try done.
    destruct Hx as (k & -> & ?). by intros ? [= <-].
  - intros v v' Hv Hd. by eapply edited_keeps.
Qed.

Lemma round_keeps g0 key g : keeps g0 g → keeps g0 (cluster_round key g).1.
Proof.
  intros [Hg Hip]. split; [by apply round_tended|]. intros ip Hu Hi. rewrite round_answer by done.
  eexists. split; [done|]. by apply ensured_kept; [apply Hip|].
Qed.

Lemma chronicle_keeps key g g' : tended g → chronicle key g g' → keeps g g'.
Proof.
  intros Hg Hc. induction Hc as [|g1 Hc IH|g1 g2 Hc IH Hf|g1 g2 Hc IH He].
  - by split.
  - by apply round_keeps.
  - by eapply faulty_keeps.
  - by eapply edited_keeps.
Qed.

(** C4: A cluster in Service mode comes up and stays: whatever reconciles failed before -
    stopped anywhere, refused, unanswered, or reading an old cluster or Service, and
    however others edited the Service, also in the middle of a failing reconcile - a
    reconcile against a server that cooperates returns without an error and leaves the Service fronting the control-plane guests as configured,
    at most one write away from how it was found; the next one writes no Service. The
    cluster holds its finalizer and is provisioned exactly when the Service has an address,
    with that address and the configured port; a ClusterIP Service has one at once, and as
    its address cannot be changed, the endpoint stays the same from then on. *)
Theorem cluster_comes_up {F : FinalizerLaws} key g g' :
  tended g → chronicle key g g' →
  ∃ g1 svc, cluster_round key g' = (g1, Done finished) ∧
    g_service g1 = Some svc ∧ fronts k0 cluster svc ∧ g_writes g1 ≤ S (g_writes g') ∧
    (let g2 := (cluster_round key g1).1 in g_service g2 = Some svc ∧ g_writes g2 = g_writes g1) ∧
    same_cluster k0 (g_ksc g1) ∧ ClusterFinalizer ∈ cluster_finalizers (g_ksc g1) ∧
    (∀ a, service_address svc a → cluster_provisioned (g_ksc g1) = Some true ∧
       endpoint (g_ksc g1) = Some (mkAPIEndpoint a (controlPlaneServicePort k0))) ∧
    ((∀ a, ¬ service_address svc a) → cluster_provisioned (g_ksc g1) = Some false) ∧
    (controlPlaneServiceType k0 ≠ ServiceTypeLoadBalancer → ∃ ip, service_address svc ip ∧
       ∀ s, g_service g = Some s → ip = ss_ClusterIP (svc_Spec s)).
Proof.
  intros Hg Hc. pose proof (chronicle_keeps key g g' Hg Hc) as HI.
  pose proof HI as [Ht _]. pose proof Ht as [Hk Hs]. pose proof (same_finalized _ Hk) as Hf.
  pose proof (round_settles key g' Ht) as Hsettle. pose proof (round_keeps g key g' HI) as [[_ Hu] Hip].
  rewrite round_answer in Hsettle, Hu, Hip |- * by done. simpl in Hsettle, Hu, Hip.
  set (k := cluster_finalized (g_ksc g')) in *. set (svc := ensured k (g_service g')) in *.
  pose proof (ensured_fronts k (g_service g') Hf) as Hfronts. fold svc in Hfronts.
  assert (controlPlaneServicePort k = controlPlaneServicePort k0) as Hport by (by apply same_cfg).
  assert (∀ a, service_address svc a ↔ controlPlaneServiceAddress svc = (a, true)) as Ha
    by (intros a; symmetry; apply controlPlaneServiceAddress_spec).
  eexists _, svc. split; [reflexivity|]. simpl. split_and!; [done|done| |apply Hsettle|apply Hsettle| | | | |].
  - unfold written. destruct (g_service g') as [s|]; [destruct (kept k s)|]; simpl; lia.
  - by apply reported_same.
  - unfold reported. destruct (controlPlaneServiceAddress svc) as [host []];
      apply AddFinalizer_spec; by left.
  - intros a Hx%Ha. unfold reported. rewrite Hx, Hport. by split.
  - intros Hno. unfold reported. destruct (controlPlaneServiceAddress svc) as [host []] eqn:E; [|done].
    by destruct (Hno host); apply Ha.
  - intros Hlb. destruct (Hu svc eq_refl) as [_ [Hu1 Hu2]].
    exists (ss_ClusterIP (svc_Spec svc)). split.
    + apply cluster_ip_address; [|done..]. by rewrite (fronts_type _ _ _ Hfronts).
    + intros s Hs0. destruct (Hip (ss_ClusterIP (svc_Spec s))) as (s' & [= <-] & Hs'); [|by exists s|done].
      by apply Hg.
Qed.
End ClusterRuns.

(** ** Deletion *)

Section Deletion.
Context {lib : Lib} {Es : Estate} {F : FinalizerLaws}.
Context (Hmissing : IsNotFound (Some es_missing) = true).

(** C34: A cluster that is deleted goes away in one reconcile, whatever became of its
    Service: against a server that cooperates, and deletes a Service at once, that of its
    name is gone after it,
    the finalizer is released - and no other - the rest of the cluster is as it was, and
    nothing more is asked for; in Service mode or not. *)
Theorem cluster_goes_away key g :
  let k := g_ksc g in
  cluster_deleting k = true → serviceKey k = serviceKey es_start →
  IsExternallyManaged (ksc_ObjectMeta k) = false → IsPaused es_cluster (ksc_ObjectMeta k) = false →
  ∃ g', cluster_round key g = (g', Done finished) ∧ g_service g' = None ∧
    g_ksc g' = ksc_set_Finalizers k (cluster_finalizers (g_ksc g')) ∧
    ∀ f, f ∈ cluster_finalizers (g_ksc g') ↔ f ≠ ClusterFinalizer ∧ f ∈ cluster_finalizers k.
Proof.
  intros k Hd Hkey Hm Hp. exists (mkGrid (cluster_released k) None
    (match g_service g with Some _ => S (g_writes g) | None => g_writes g end)).
  split; [|split_and!; [done|done|intros f; apply RemoveFinalizer_spec]].
  unfold cluster_round, ClusterController.Reconcile, perform. cbn [bind].
  do 2 (rewrite answer_vis; cbn [oversee fst snd]; cbn beta iota). fold k. rewrite Hm, Hp.
  rewrite answer_vis. cbn [oversee fst snd]. cbn beta iota. rewrite answer_bind.
  unfold reconcileCluster. fold (cluster_deleting k). rewrite Hd.
  unfold reconcileDelete, deleteControlPlaneService, perform. fold (doomedService k).
  rewrite answer_bind. cbn [bind]. rewrite answer_vis.
  assert (svc_key (doomedService k) = serviceKey es_start) as Hk by exact Hkey.
  destruct (g_service g) as [s|] eqn:Eg; cbn -[serviceKey doomedService]; rewrite decide_True by done;
    rewrite Eg; cbn -[serviceKey doomedService]; rewrite ?Hmissing; cbn -[serviceKey doomedService];
    unfold answer; cbn -[serviceKey]; [done|by destruct g as [? []]].
Qed.
End Deletion.
