(* ===== verification/Conflicts.v ===== *)
(** * Conflicts: the endpoint Service under concurrent writers

    The API server gives every version of an object a resource version of its own and
    refuses an update made from another version than the current one. Reconciles of the
    KubeSwiftCluster - which may read the Service from a cache, late - run against such a
    server while others write, delete and create the Service at any time. *)

From S2P Require Import Prelude Go Prog Kube Api Lib.
From S2P Require Import MachineController EndpointService ClusterController EndpointSpec ClusterSpec.
From S2P Require Import Faults ClusterRuns.

Definition version (s : Service) : string := meta_ResourceVersion (svc_ObjectMeta s).

(** The Service, every version there has been of it, and what the provider wrote: over
    which version, and the Service it sent. *)
Record shelf := mkShelf {
  v_now : option Service;
  v_past : list Service;
  v_log : list (option Service * Service)
}.

Lemma preserves_cfg k k' s u : serviceCfg k = serviceCfg k' → preserves k s u → preserves k' s u.
Proof.
  intros Hk [P1 P2 P3 P4 P5 P6 P7].
  unfold apiserverPort, controlPlaneServicePort, cfg_annotations in *. rewrite Hk in *. by split.
Qed.

Lemma same_cluster_refl k : same_cluster k k.
Proof. by destruct k as [[] ? ?]. Qed.

Section Conflicts.
Context {lib : Lib}.
Context (missing conflict : error) (k0 : KubeSwiftCluster) (cluster : Cluster)
  (assign : list Service → Service → Service).

(** ** The server *)

Definition put (o : option Service) (s : Service) (w : shelf) : shelf :=
  let s' := assign (v_past w) s in mkShelf (Some s') (s' :: v_past w) ((o, s) :: v_log w).

(** An update from the current version; one that names no version is unconditional. *)
Definition update_service (s : Service) (w : shelf) : shelf * result Service :=
  match v_now w with
  | None => (w, Err missing)
  | Some s0 =>
    if decide (version s = "" ∨ version s = version s0)
    then (put (Some s0) s w, Ok (assign (v_past w) s)) else (w, Err conflict)
  end.

Definition arbitrate (X : Type) (c : call X) (w : shelf) : shelf * X :=
  match c in call X return shelf * X with
  | Get k key _ =>
    (w, match k return result (objT k) with
        | KCluster => Ok k0
        | KService =>
          if decide (key = serviceKey k0)
          then match v_now w with Some s => Ok s | None => Err missing end
          else Err missing
        | _ => Err missing
        end)
  | Create k o =>
    match k return objT k → shelf * result (objT k) with
    | KService => λ s,
      if decide (svc_key s = serviceKey k0) then
        match v_now w with
        | None => (put None s w, Ok (assign (v_past w) s))
        | Some _ => (w, Err conflict) end
      else (w, Err conflict)
    | _ => λ _, (w, Err conflict) end o
  | Update k o =>
    match k return objT k → shelf * result (objT k) with
    | KService => λ s,
      if decide (svc_key s = serviceKey k0) then update_service s w else (w, Err missing)
    | _ => λ _, (w, Err missing) end o
  | Lib.Delete k o =>
    match k return objT k → shelf * option error with
    | KService => λ s,
      if decide (svc_key s = serviceKey k0)
      then (mkShelf None (v_past w) (v_log w), match v_now w with Some _ => None | None => Some missing end)
      else (w, Some missing)
    | _ => λ _, (w, Some missing) end o
  | GetOwnerMachine _ => (w, Err missing)
  | GetOwnerCluster _ => (w, Ok (Some cluster))
  | GetClusterFromMetadata _ => (w, Ok cluster)
  | NewPatchHelper _ _ => (w, None)
  | Patch _ _ _ => (w, None)
  | RESTConfigFromKubeConfig _ => (w, Err missing)
  | NewForConfig _ => (w, Err missing)
  | NodesGet _ _ => (w, Err missing)
  | NodesPatch _ _ _ => (w, Some missing)
  end.

(** Others write it as they like, under a new version, or delete it. *)
Inductive interfere (w : shelf) : shelf → Prop :=
  | others_write s : svc_key s = serviceKey k0 → version s ≠ "" →
      (∀ s', s' ∈ v_past w → version s' ≠ version s) →
      interfere w (mkShelf (Some s) (s :: v_past w) (v_log w))
  | others_delete : interfere w (mkShelf None (v_past w) (v_log w)).

(** A read may be answered with any version there has been of the Service, and an older
    version of the cluster. *)
Definition outdated (w : shelf) : env call := λ X c,
  match c in call X return X → Prop with
  | Get k _ _ =>
    match k return result (objT k) → Prop with
    | KCluster => λ r, ∃ k, r = Ok k ∧ same_cluster k0 k
    | KService => λ r, ∃ s, r = Ok s ∧ s ∈ v_past w
    | _ => λ _, False
    end
  | _ => λ _, False
  end.

(** Any number of reconciles, complete or not, and what others do. *)
Inductive contention (key : NamespacedName) (w : shelf) : shelf → Prop :=
  | begins : contention key w w
  | reconciles w1 w2 : contention key w w1 →
      faulty arbitrate fails outdated interfere (ClusterController.Reconcile key) w1 w2 → contention key w w2
  | interferes w1 w2 : contention key w w1 → interfere w1 w2 → contention key w w2.

(** ** The invariant *)

Definition written_well (e : option Service * Service) : Prop :=
  fronts k0 cluster e.2 ∧
  match e.1 with None => True | Some s => ¬ fronts k0 cluster s ∧ preserves k0 s e.2 end.

Record sound (w : shelf) : Prop := {
  sound_now s : v_now w = Some s → s ∈ v_past w;
  sound_version s : s ∈ v_past w → version s ≠ "";
  sound_versions s s' : s ∈ v_past w → s' ∈ v_past w → version s = version s' → s = s';
  sound_key s : s ∈ v_past w → svc_key s = serviceKey k0;
  sound_log e : e ∈ v_log w → written_well e
}.

(** The server names each version anew. *)
Context (Hassign : ∀ past s, svc_key (assign past s) = svc_key s ∧ version (assign past s) ≠ "" ∧
  ∀ s', s' ∈ past → version s' ≠ version (assign past s)).
Context {SL : ServiceLaws} {D : DeepEqualLaws}.

Lemma sound_new w s log :
  sound w → svc_key s = serviceKey k0 → version s ≠ "" →
  (∀ s', s' ∈ v_past w → version s' ≠ version s) → (∀ e, e ∈ log → written_well e) →
  sound (mkShelf (Some s) (s :: v_past w) log).
Proof using.
  intros [H1 H2 H3 H4 H5] Hk Hv Hf Hl. split; simpl.
  - intros s' [= <-]. by left.
  - intros s' [->|Hs]%elem_of_cons; [done|by apply H2].
  - intros s1 s2 [->|Hs1]%elem_of_cons [->|Hs2]%elem_of_cons He; [done| | |by apply H3].
    + by destruct (Hf s2 Hs2).
    + by destruct (Hf s1 Hs1).
  - intros s' [->|Hs]%elem_of_cons; [done|by apply H4].
  - done.
Qed.

Lemma sound_put w o s :
  sound w → svc_key s = serviceKey k0 → written_well (o, s) → sound (put o s w).
Proof using Hassign.
  intros Hw Hk He. destruct (Hassign (v_past w) s) as (Ha & Hv & Hf).
  apply sound_new; [done|by rewrite Ha|done|done|].
  intros e [->|Hin]%elem_of_cons; [done|by apply (sound_log w Hw)].
Qed.

Lemma sound_interfere w w' : interfere w w' → sound w → sound w'.
Proof using.
  intros [s Hk Hv Hf|] Hw; [by apply sound_new; [..|apply Hw]|]. destruct Hw. by split.
Qed.

Lemma past_interfere w w' s : interfere w w' → s ∈ v_past w → s ∈ v_past w'.
Proof using. intros [s' _ _ _|] Hs; simpl; [by right|done]. Qed.

(** ** A reconcile keeps it *)

Abbreviation stands p Q w := (withstands arbitrate fails outdated interfere sound p Q w).

Definition stable (P : shelf → Prop) : Prop := ∀ w w', interfere w w' → P w → P w'.
Lemma shelf_stable_rtc P w w' : stable P → rtc interfere w w' → P w → P w'.
Proof using. intros HP Hd. induction Hd; [done|]. eauto. Qed.
Lemma stable_sound : stable sound.
Proof using. intros w w'. apply sound_interfere. Qed.
Lemma stable_read s : stable (λ w, sound w ∧ s ∈ v_past w).
Proof using. intros w w' Hd [Hw Hs]. split; [by eapply sound_interfere|by eapply past_interfere]. Qed.

(** A call that writes no Service, with what may be believed of its answer. *)
Lemma shelf_read_stands {X R} (c : call X) (k : X → prog call R) P Q w :
  stable P → P w → (∀ w1, P w1 → sound w1) → (∀ w1, (arbitrate X c w1).1 = w1) →
  (∀ w1 x, P w1 → (x = (arbitrate X c w1).2 ∨ fails X c x ∨ outdated w1 X c x) → stands (k x) Q w1) →
  stands (Vis c k) Q w.
Proof using.
  intros HP Hw Hs Hr Hk w1 Hw1. pose proof (shelf_stable_rtc P w w1 HP Hw1 Hw) as H1. split; [by apply Hs|].
  intros w' x [Hx|[[-> [Hx|Hx]]|[-> Hx]]].
  - pose proof (Hr w1) as Hr1. rewrite Hx in Hr1. simpl in Hr1. subst w'. apply Hk; [done|left]. by rewrite Hx.
  - apply Hk; auto.
  - apply Hk; auto.
  - rewrite Hr. apply Hk; auto.
Qed.

(** ... and one that may write one. *)
Lemma write_stands {X R} (c : call X) (k : X → prog call R) P Q w :
  stable P → P w → (∀ w1, P w1 → sound w1) →
  (∀ w1, P w1 → sound (arbitrate X c w1).1) → (∀ w1, ¬ ∃ x, outdated w1 X c x) →
  (∀ w1 x, sound w1 → stands (k x) Q w1) →
  stands (Vis c k) Q w.
Proof using.
  intros HP Hw Hs Hwrite Hno Hk w1 Hw1. pose proof (shelf_stable_rtc P w w1 HP Hw1 Hw) as H1. split; [by apply Hs|].
  intros w' x [Hx|[[-> [Hx|Hx]]|[-> Hx]]]; [|by apply Hk, Hs| |by apply Hk, Hwrite].
  - apply Hk. specialize (Hwrite w1 H1). by rewrite Hx in Hwrite.
  - destruct (Hno w1). by exists x.
Qed.

Lemma shelf_ret_stands {R} (r : R) P (Q : R → shelf → Prop) w :
  stable P → P w → (∀ w1, P w1 → Q r w1) → stands (Ret r) Q w.
Proof using. intros HP Hw HQ w1 Hw1. apply HQ. by eapply shelf_stable_rtc. Qed.
Lemma done_stands {R} (r : R) w : sound w → stands (Ret r) (λ _, sound) w.
Proof using. intros Hw. eapply shelf_ret_stands; [apply stable_sound|done|done]. Qed.

Lemma same_cluster_cfg k : same_cluster k0 k → serviceCfg k = serviceCfg k0 ∧ serviceKey k = serviceKey k0.
Proof using.
  intros (Hm & He & _). unfold serviceKey, controlPlaneServiceName, serviceCfg. by rewrite He, Hm.
Qed.

(** An accepted update was made from the current version. *)
Lemma update_sound k desired existing w :
  same_cluster k0 k → desired_of k cluster desired →
  unchanged existing (updatedService desired existing) = false →
  sound w ∧ existing ∈ v_past w →
  sound (arbitrate _ (Update KService (updatedService desired existing)) w).1.
Proof using All.
  intros Hk Hd Hc [Hw Hin]. destruct (same_cluster_cfg k Hk) as [Hcfg _].
  set (u := updatedService desired existing) in *. cbn [arbitrate]. unfold update_service.
  destruct (updatedService_spec desired existing) as (_ & _ & _ & Hm). fold u in Hm.
  assert (version u = version existing) as Hv by (unfold version; by rewrite Hm).
  assert (svc_key u = svc_key existing) as Hkey by (unfold svc_key; by rewrite Hm).
  pose proof (sound_key w Hw _ Hin) as He. rewrite decide_True by congruence.
  destruct (v_now w) as [s0|] eqn:En; [|done]. destruct (decide _) as [Hacc|]; [|done].
  destruct Hacc as [Hacc|Hacc]; [by destruct (sound_version w Hw _ Hin); rewrite <- Hv|].
  assert (existing = s0) as <-.
  { apply (sound_versions w Hw); [done|by apply (sound_now w Hw)|congruence]. }
  apply sound_put; [done|congruence|]. destruct (updatedService_fronts k cluster desired existing Hd) as [Hf Hp].
  split; [by apply (fronts_cfg k)|]. split; [|by apply (preserves_cfg k)].
  intros Hno. apply (fronts_cfg _ k) in Hno; [|done].
  apply (unchanged_fronts k cluster desired existing Hd) in Hno. fold u in Hno. congruence.
Qed.

Lemma create_sound k desired w :
  same_cluster k0 k → desired_of k cluster desired → sound w →
  sound (arbitrate _ (Create KService desired) w).1.
Proof using All.
  intros Hk Hd Hw. destruct (same_cluster_cfg k Hk) as [Hcfg Hkey]. cbn [arbitrate].
  destruct (decide _) as [Hs|]; [|done]. destruct (v_now w); [done|].
  apply sound_put; [done|done|]. split; [|done]. apply (fronts_cfg k); [done|]. by apply desired_fronts.
Qed.

Lemma ensure_stands k w :
  same_cluster k0 k → sound w → stands (ensureControlPlaneService k cluster) (λ _, sound) w.
Proof using All.
  intros Hk Hw. unfold ensureControlPlaneService.
  destruct (SetControllerReference _ _) as [desired|err] eqn:Hd; [|by apply done_stands].
  cbn [perform bind]. apply (shelf_read_stands _ _ sound); [apply stable_sound|done|done|done|].
  intros w1 x H1 Hx.
  assert (∀ existing, x = Ok existing → existing ∈ v_past w1) as Hread.
  { intros existing ->. destruct Hx as [Hx|[(? & [=] & _)|(s & [= ->] & ?)]]; [|done]. simpl in Hx.
    destruct (decide _); [|done]. destruct (v_now w1) as [s|] eqn:En; [|done]. injection Hx as ->.
    by apply (sound_now w1 H1). }
  clear Hx. destruct x as [existing|err].
  - destruct (unchanged _ _) eqn:Hu; [by apply done_stands|].
    apply (write_stands _ _ (λ w, sound w ∧ existing ∈ v_past w));
      [apply stable_read|by split; [|apply Hread]|by intros ? []|intros w2 H2; by eapply update_sound|by intros ? [? []]|].
    intros w2 y H2. by apply done_stands.
  - destruct (IsNotFound _); [|by apply done_stands].
    apply (write_stands _ _ sound); [apply stable_sound|done|done|intros w2 H2; by eapply create_sound|by intros ? [? []]|].
    intros w2 y H2. by apply done_stands.
Qed.

Lemma shelf_delete_stands k w : sound w → stands (deleteControlPlaneService k) (λ _, sound) w.
Proof using All.
  intros Hw. unfold deleteControlPlaneService. cbn [perform bind].
  apply (write_stands _ _ sound); [apply stable_sound|done|done| |by intros ? [? []]|].
  - intros w1 H1. cbn [arbitrate]. destruct (decide _); [|done]. by destruct H1.
  - intros w1 x H1. destruct x as [err|]; [destruct (negb _)|]; by apply done_stands.
Qed.

Lemma cluster_stands k w :
  same_cluster k0 k → sound w → stands (reconcileCluster k cluster) (λ _, sound) w.
Proof using All.
  intros Hk Hw. unfold reconcileCluster. destruct (negb _).
  - unfold reconcileDelete. eapply withstands_seq; [by apply shelf_delete_stands|].
    intros [err|] w1 H1; by apply done_stands.
  - unfold reconcileNormal. fold (cluster_finalizers k) (cluster_finalized k).
    assert (same_cluster k0 (cluster_finalized k)) as Hf.
    { destruct Hk as (Hm & He & Hg & Hx). split_and!; try done. unfold cluster_finalized. simpl. by rewrite Hm. }
    destruct (String.eqb _ _).
    + unfold reconcileServiceEndpoint. eapply withstands_seq; [by apply ensure_stands|].
      intros [svc|err] w1 H1; [|by apply done_stands].
      destruct (controlPlaneServiceAddress svc) as [host []]; by apply done_stands.
    + destruct (kscSpec_ControlPlaneEndpoint _) as [ep|]; [destruct (String.eqb _ _)|]; by apply done_stands.
Qed.

Lemma shelf_reconcile_stands key w : sound w → stands (ClusterController.Reconcile key) (λ _, sound) w.
Proof using All.
  intros Hw. unfold ClusterController.Reconcile. cbn [perform bind].
  apply (shelf_read_stands _ _ sound); [apply stable_sound|done|done|done|]. intros w1 x H1 Hx.
  assert (∀ k, x = Ok k → same_cluster k0 k) as Hread.
  { intros k ->. destruct Hx as [[= ->]|[(? & [=] & _)|(k' & [= ->] & ?)]]; [|done].
    apply same_cluster_refl. }
  clear Hx. destruct x as [k|err]; [|by apply done_stands]. specialize (Hread k eq_refl).
  apply (shelf_read_stands _ _ sound); [apply stable_sound|done|done|done|]. intros w2 x H2 Hx.
  assert (∀ c, x = Ok (Some c) → c = cluster) as Hown
    by (intros c ->; destruct Hx as [[= ->]|[(? & [=] & _)|[]]]; done).
  clear Hx. destruct x as [[c|]|err]; [|by apply done_stands..]. rewrite (Hown c eq_refl).
  destruct (IsExternallyManaged _); [by apply done_stands|]. destruct (IsPaused _ _); [by apply done_stands|].
  apply (shelf_read_stands _ _ sound); [apply stable_sound|done|done|done|]. intros w3 [err|] H3 _; [by apply done_stands|].
  eapply withstands_seq; [by apply cluster_stands|]. intros [k' ret] w4 H4.
  apply (shelf_read_stands _ _ sound); [apply stable_sound|done|done|done|]. intros w5 p H5 _. by apply done_stands.
Qed.

Lemma contention_sound key w w' : contention key w w' → sound w → sound w'.
Proof using All.
  intros Hc Hw. induction Hc as [|w1 w2 Hc IH Hf|w1 w2 Hc IH Hi]; [done| |by eapply sound_interfere].
  eapply withstands_faulty; [by apply shelf_reconcile_stands| |exact Hf]. done.
Qed.

(** C17: No write of the endpoint Service loses another's: through any history of
    reconciles that read the Service late, are stopped, refused or not answered, while
    others write, delete and create the Service at any time, every write of the provider
    that the API server accepted fronts the cluster's guests as configured, and is the
    creation of a Service where there was none or an update of the Service the server had
    at that very moment, which did not front them: its cluster IP, the NodePort of the
    API-server port, foreign annotations, the rest of its metadata and every field the
    provider does not own are kept as they were. *)
Theorem no_write_lost key s w' :
  svc_key s = serviceKey k0 → version s ≠ "" →
  contention key (mkShelf (Some s) [s] []) w' →
  ∀ o u, (o, u) ∈ v_log w' →
    fronts k0 cluster u ∧
    match o with None => True | Some s0 => ¬ fronts k0 cluster s0 ∧ preserves k0 s0 u end.
Proof using All.
  intros Hk Hv Hc. assert (sound (mkShelf (Some s) [s] [])) as Hw.
  { split; simpl; [intros ? [= <-]; by left|intros s' ->%list_elem_of_singleton; done| | |by intros ? ?%elem_of_nil].
    - by intros s1 s2 ->%list_elem_of_singleton ->%list_elem_of_singleton.
    - by intros s' ->%list_elem_of_singleton. }
  intros o u Hin. exact (sound_log _ (contention_sound key _ _ Hc Hw) _ Hin).
Qed.
End Conflicts.
