(* ===== verification/StoreWitnesses.v ===== *)
(** * StoreWitnesses: the theorems about the store, at concrete inputs *)

From S2P Require Import Prelude Go Prog Kube Api Lib Reference Backend Samples.
From S2P Require Import SwiftGuest SwiftGuestSpec SwiftGuestRun SwiftGuestStatus.
From S2P Require Import WorkloadNode MachineController MachineSpec MachineProps MachineStatus.
From S2P Require Import Store StoreProps StoreRuns Faults Provisioning Recovery Teardown.

(** The machine of the samples once its finalizer is persisted, and being deleted. *)
Definition held_ksm : KubeSwiftMachine := finalized (lib := ref_lib) demo_ksm.
Definition dying_ksm : KubeSwiftMachine := deleted held_ksm.

Definition held_server : Server :=
  mkServer (Ok held_ksm) (Some demo_machine) (Ok demo_ksc) (Ok demo_service)
    (Err (Ref.NotFound "absent")) (Ok (mkNode "cp-0" "")) None.

Lemma held_claimed : claimed demo_key (fresh_state held_ksm).
Proof. exists held_ksm. split_and!; [done|done|vm_compute; left|done|done|done]. Qed.

(** A reconcile creates the guest: the answers of [held_server], up to its creation. *)
Lemma held_guest :
  ∃ s u, reachable (lib := ref_lib) demo_key (fresh_state held_ksm) s ∧
    st_machine s = Some held_ksm ∧ st_guest s = Some u.
Proof.
  set (x := run held_server (Reconcile (lib := ref_lib) demo_key)).
  assert (returned x = Some requeue) as Hr by (vm_compute; reflexivity).
  assert (Hu : (λ u, (GetNamespace (Lib := ref_lib) u, GetName (Lib := ref_lib) u)) <$>
      at_event 9 ev_create x.1 = Some ("ns", "cp-0")) by (vm_compute; reflexivity).
  assert (Hm : omap (ev_machine demo_key) x.1 = [held_ksm]) by (vm_compute; reflexivity).
  apply run_returned in Hr. fold x in Hr. clearbody x.
  destruct (at_event 9 ev_create x.1) as [u|] eqn:Eu; [injection Hu as Hns Hn|done].
  destruct (run_creates (lib := ref_lib) demo_key held_ksm x.1 _ 9 u Hr Hm Eu) as [r Hreach]; [done|].
  eexists _, u. split_and!; [exact Hreach|done..].
Qed.

Lemma guest_never_orphaned_witness :
  ∃ s m, st_guest s ≠ None ∧ st_machine s = Some m ∧ machineKey m = demo_key ∧
    MachineFinalizer ∈ finalizers m.
Proof.
  destruct held_guest as (s & u & Hr & _ & Hg).
  destruct (guest_never_orphaned (lib := ref_lib) demo_key _ s held_claimed Hr) as (m & ?);
    [by rewrite Hg|]. exists s, m. split; [by rewrite Hg|done].
Defined.

(** The guest goes away by itself. *)
Lemma store_refines_protocol_witness :
  ∃ s s', moves (lib := ref_lib) demo_key s s' ∧
    view (lib := ref_lib) s = Held true false ∧ view (lib := ref_lib) s' = Held false false ∧
    advances (view (lib := ref_lib) s) (view (lib := ref_lib) s').
Proof.
  destruct held_guest as (s & u & Hr & Hm & Hg).
  assert (moves (lib := ref_lib) demo_key s (set_guest s None)) as Hs by (by eapply guest_moves).
  exists s, (set_guest s None). split_and!; [exact Hs|..].
  - unfold view. rewrite Hm, Hg. vm_compute. reflexivity.
  - unfold view. simpl. rewrite Hm. vm_compute. reflexivity.
  - exact (store_refines_protocol (lib := ref_lib) demo_key _ s _ held_claimed Hr Hs).
Defined.

Definition demo_guest : Unstructured := guest_status "Running" nat_network.

(** A machine whose guest takes two rounds to go: the first reconcile stops once it has asked the
    guest to go; four served rounds later nothing is left. *)
Definition going_guest : Unstructured := Ref.set_metadata demo_guest "name" (VStr "cp-0").
Definition seed_left : Unstructured := mkUnstructured {["spec" := VMap ∅]}.
Definition mark_going (u : Unstructured) : Unstructured := Ref.set_metadata u "deletionTimestamp" (VInt 1).
Lemma mark_going_marks u :
  Time_IsZero (GetDeletionTimestamp (Lib := ref_lib) (mark_going u)) = false ∧
  GetName (Lib := ref_lib) (mark_going u) = GetName (Lib := ref_lib) u.
Proof.
  cbn. unfold Ref.deletion, mark_going, Ref.set_metadata, Ref.metadata. cbn [Object].
  rewrite !lookup_insert_eq. split; [done|]. by rewrite lookup_insert_ne.
Qed.

#[local] Abbreviation demo_dismantle :=
  (dismantle (lib := ref_lib) (Ref.NotFound "absent") demo_machine demo_cluster 2 mark_going dying_ksm).
#[local] Abbreviation demo_delete_round :=
  (delete_round (lib := ref_lib) (Ref.NotFound "absent") demo_machine demo_cluster 2 mark_going dying_ksm demo_key).
(** A round in which the server does not drift, computed. *)
Definition undisturbed (w : remains) : remains * outcome Return :=
  let '(w', o) := answer demo_dismantle (Reconcile (lib := ref_lib) demo_key) w in (decay w', o).
Lemma undisturbed_round w w' ret : undisturbed w = (w', Done ret) → demo_delete_round w w' ret.
Proof.
  unfold undisturbed. destruct (answer _ _ w) as [w1 o] eqn:E. intros [= <- ->].
  exists w1. split; [|done]. by apply answer_completes.
Qed.
Definition all_there : remains := mkRemains (Some dying_ksm) (Up going_guest) (Some seed_left).
Definition asked_to_go : remains :=
  stopped_after demo_dismantle 6 (Reconcile (lib := ref_lib) demo_key) all_there.
Definition three_later : remains := (undisturbed (undisturbed (undisturbed asked_to_go).1).1).1.

Lemma machine_goes_away_witness :
  (match r_guest asked_to_go with Terminating 2 _ => true | _ => false end) = true ∧
  held three_later ∧
  ∃ w, demo_delete_round three_later w finished ∧
    r_guest w = Gone ∧ r_seed w = None ∧ r_machine w = None.
Proof.
  assert (departing (lib := ref_lib) dying_ksm all_there) as Hw.
  { split; [intros m [= <-]; split; [by repeat split|reflexivity]|by split; vm_compute|].
    left. exists dying_ksm. split; [reflexivity|vm_compute; left]. }
  assert (departure (lib := ref_lib) (Ref.NotFound "absent") demo_machine demo_cluster 2 mark_going
    dying_ksm demo_key all_there 3 three_later) as Hd.
  { assert (∀ w, (undisturbed w).2 = Done requeue → demo_delete_round w (undisturbed w).1 requeue) as Hr.
    { intros w Hu. apply undisturbed_round. destruct (undisturbed w). simpl in *. by subst. }
    do 3 (eapply round_served; [|apply Hr; vm_compute; reflexivity]).
    eapply round_fails; [apply departs|apply stopped_faulty]. }
  destruct (machine_goes_away (lib := ref_lib) (Ref.NotFound "absent") demo_machine demo_cluster 2
    mark_going dying_ksm eq_refl mark_going_marks eq_refl ltac:(intros o Ho; cbn; by rewrite Ho) eq_refl
    demo_key all_there 3 three_later Hw Hd) as (_ & _ & Hend).
  assert (demo_delete_round three_later (undisturbed three_later).1 finished) as Hr.
  { apply undisturbed_round. vm_compute. reflexivity. }
  destruct (Hend _ _ Hr) as [_ Hgone]. destruct Hgone as [_ Hgone]; [simpl; lia|].
  split; [vm_compute; reflexivity|]. split.
  { exists dying_ksm. split; [vm_compute; reflexivity|vm_compute; left]. }
  exists (undisturbed three_later).1.
  split; [exact Hr|]. split; [apply Hgone|]. split; [apply Hgone|]. by apply Hgone.
Defined.

(** A guest that is scheduled for two rounds, and whose Node joins one round later. *)
Definition in_phase (phase : string) (u : Unstructured) : Unstructured :=
  mkUnstructured (<["status" :=
    VMap (<["phase" := VStr phase]> {["network" := VMap nat_network]})]> (Object u)).
Definition demo_secrets (key : NamespacedName) : Secret := mkSecret meta_zero {["value" := "data"]}.
Definition merge_id (body old : string) : string :=
  if String.eqb body (providerIDPatch "kubeswift://ns/cp-0") then "kubeswift://ns/cp-0" else old.

Lemma in_phase_phase phase u : phase_of (in_phase phase u) = phase.
Proof.
  unfold phase_of, text_at, in_phase. cbn [Object lookup_path]. rewrite lookup_insert_eq.
  by rewrite lookup_insert_eq.
Qed.

Lemma in_phase_reachable u : reachable_at (in_phase "Running" u) "10.244.1.7".
Proof.
  apply reachable_pod; unfold network_text, text_at, in_phase; cbn [Object lookup_path];
    rewrite ?lookup_insert_eq; done.
Qed.

#[local] Instance demo_scenario : Scenario :=
  mkScenario (Ref.NotFound "absent") (Ref.NotFound "conflict") demo_machine demo_cluster demo_ksc demo_secrets
    (mkRestConfig 0) (mkClientset 0) 2 1 (in_phase "Scheduling") (in_phase "Running") merge_id
    demo_ksm "cp-0-bootstrap" demo_cfg "10.244.1.7".

Lemma demo_cooperates : Cooperates (lib := ref_lib).
Proof.
  split; try exact eq_refl; try (exact (mk_is_Some _ _ eq_refl)).
  - intros o Ho. cbn. by rewrite Ho.
  - intros u. simpl. by rewrite in_phase_phase.
  - intros u. exact (conj (in_phase_phase _ u) (in_phase_reachable u)).
  - intros v. reflexivity.
Qed.

(** A seed profile of the older layout; the process stops right after moving it. *)
Definition legacy_seed : Unstructured :=
  mkUnstructured {["spec" := VMap {["userData" := VStr "#cloud-config"]}]}.
Definition legacy_site : site := mkSite demo_ksm (Some legacy_seed) Unmade "" demo_ksc.
Definition stopped_site : site := stopped_after (attend (lib := ref_lib)) 8
  (Reconcile (lib := ref_lib) demo_key) legacy_site.

Definition demo_rounds (i : nat) (w : site) : site :=
  Nat.iter i (λ w, (boot_round (lib := ref_lib) demo_key w).1) w.
Lemma demo_history i w1 : history (lib := ref_lib) demo_key legacy_site 0 w1 →
  history (lib := ref_lib) demo_key legacy_site i (demo_rounds i w1).
Proof. intros Hw. induction i as [|i IH]; [exact Hw|]. by apply (clean_round _ _ i). Qed.

Lemma machine_comes_up_witness :
  (settled (lib := ref_lib) <$> s_seed legacy_site) = Some false ∧
  (settled (lib := ref_lib) <$> s_seed stopped_site) = Some true ∧
  ∃ guest w,
    boot_round (lib := ref_lib) demo_key (demo_rounds 5 stopped_site) = (w, Done finished) ∧
    came_up (lib := ref_lib) guest w.
Proof.
  split; [vm_compute; reflexivity|]. split; [vm_compute; reflexivity|].
  destruct (renderSwiftGuest_law (lib := ref_lib) (request (lib := ref_lib) demo_ksm) demo_cfg)
    as (guest & Hr & _).
  assert (on_course guest legacy_site) as Hc.
  { split; [by split|]. split; [|split; [done|split; [by left|done]]]. intros s [= <-] v. cbn. intros [= <-]. by eexists. }
  destruct (machine_comes_up (lib := ref_lib) (Co := demo_cooperates) guest Hr demo_key legacy_site 5
    (demo_rounds 5 stopped_site) Hc) as (w & ret & Hround & Hup & Hret).
  { apply demo_history. eapply faulty_round; [apply starts|]. apply stopped_faulty. }
  rewrite (Hret ltac:(simpl; lia)) in *. exists guest, w. split; [exact Hround|].
  destruct Hup as [Hno|[_ Hup]]; [discriminate Hno|exact Hup].
Defined.
