(* ===== verification/RunWitnesses.v ===== *)
(** * RunWitnesses: access, admission and the cluster's runs, at concrete inputs *)

From S2P Require Import Prelude Go Prog Kube Api Lib Reference Backend Samples.
From S2P Require Import SwiftGuest SwiftGuestSpec SwiftGuestRun SwiftGuestStatus.
From S2P Require Import EndpointService ClusterController EndpointSpec ClusterSpec.
From S2P Require Import WorkloadNode MachineController MachineSpec MachineProps MachineStatus.
From S2P Require Import Witnesses Startup StartupSpec StartupWitnesses Access Schema Faults ClusterRuns Conflicts.

(** ** Access *)

Lemma role_suffices_witness :
  length (List.filter ev_mutates (reconciled new_server).1) = 3%nat ∧
  Forall (permitted manager_role) (reconciled new_server).1 ∧
  Forall (watch_permitted manager_role) started ∧
  granted manager_role (mkPermission "" "secrets" update) = false.
Proof.
  destruct (role_suffices exact no_requests demo_key two_certificates) as (Hm & _ & Hw).
  assert (returned (reconciled new_server) = Some requeue) as E by computes.
  split; [computes|]. split; [exact (run_wp _ _ _ _ E Hm)|].
  split; [apply (Hw started (Done 0%Z)), started_runs|computes].
Defined.

(** ** Admission *)

(** A cluster that only asks for Service mode, as submitted. *)
Definition bare_endpoint : jsonEndpoint :=
  mkJsonEndpoint (Some "Service") (Some (mkJsonService None None None None)).

Lemma defaults_agree_witness :
  controlPlaneServicePort (with_endpoint demo_ksc bare_endpoint) =
    controlPlaneServicePort (with_endpoint demo_ksc (endpoint_default bare_endpoint)) ∧
  exposureFor demo_cluster (with_endpoint demo_ksc (endpoint_default bare_endpoint)) =
    Some (mkExposure "demo-cp" 6443).
Proof.
  destruct (defaults_agree demo_ksc demo_cluster bare_endpoint eq_refl)
    as (_ & _ & _ & Hp & Hx & _). split; [exact Hp|]. rewrite <- Hx. computes.
Defined.

(** A GPU worker without a tier, whose two interfaces pass the CEL rules. *)
Definition json_guest : jsonGuest :=
  mkJsonGuest (Some "ubuntu-noble") (Some "capi-worker")
    (CEL.mkBackend None None (Some [CEL.mkInterface "mgmt" None (Some true);
      CEL.mkInterface "storage" (Some "storage-net") None])) None
    (Some (mkJsonGPU (Some "gpu-template") None None None None (Some "1Gi"))) None.
Definition json_backend : jsonBackend := mkJsonBackend None (Some json_guest).
Definition json_request : Request :=
  mkRequest (mkKubeSwiftMachine (meta "w-0")
      (mkKubeSwiftMachineSpec "" (backend_decode (backend_default json_backend)))
      (ksm_Status KubeSwiftMachine_zero))
    (Some demo_cluster) None "w-0-bootstrap" "ns" "kubeswift://ns/w-0" None.

Lemma admitted_backend_accepted_witness :
  backendFor (mb_Type (backend_decode json_backend)) ≠ Ok NewSwiftGuestBackend ∧
  backendFor (mb_Type (backend_decode (backend_default json_backend))) = Ok NewSwiftGuestBackend ∧
  validate json_request = Ok (guest_decode (guest_default json_guest)).
Proof.
  destruct (admitted_backend_accepted json_request json_backend eq_refl eq_refl) as [Hb Hv].
  split; [discriminate|]. split; [exact Hb|]. apply Hv. exists json_guest.
  split; [reflexivity|]. split; [reflexivity|].
  split; [discriminate|]. split; [discriminate|]. split; [by intros u [= <-]|].
  split; by left.
Defined.

(** The patch of a machine whose guest runs. *)
Lemma patches_admitted_witness :
  ∃ before after, provisioned after = Some true ∧ ksmSpec_ProviderID (ksm_Spec before) = "" ∧
    spec_valid (ksm_Spec after) = true ∧ status_valid (ksm_Status after) = true.
Proof.
  assert (returned (reconciled up_server) = Some finished) as E by computes.
  assert (Hp : (λ p, (runes (meta_Namespace (ksm_ObjectMeta p.1)), runes (meta_Name (ksm_ObjectMeta p.1)),
      spec_valid (ksm_Spec p.1), status_valid (ksm_Status p.1), ksmSpec_ProviderID (ksm_Spec p.1),
      provisioned p.2)) <$>
    at_event 14 ev_patch (reconciled up_server).1 = Some (2%nat, 4%nat, true, true, "", Some true)) by computes.
  assert (omap owner_read (reconciled up_server).1 = [demo_machine]) as Ho by computes.
  apply patch_at in Hp as (ev & before & after & Hev & Hp & [= Hns Hn Hs Hst Hid Ha]).
  on_run E (patches_admitted demo_key). intros H. exists before, after. split; [exact Ha|]. split; [exact Hid|].
  apply (H ev before after Hev Hp); [|clear H|exact Hs|exact Hst].
  - unfold names_fit. rewrite Hns, Hn. lia.
  - intros machine Hm. assert (machine ∈ omap owner_read (reconciled up_server).1) as Hin.
    { apply list_elem_of_omap. eexists. split; [exact Hm|reflexivity]. }
    rewrite Ho in Hin. apply list_elem_of_singleton in Hin as ->. computes.
Defined.

(** ** The cluster's runs *)

(** A server that gives every Service without one the same cluster IP. *)
Definition assign_ip (s : Service) : Service :=
  let p := svc_Spec s in
  svc_set_Spec s (mkServiceSpec (ss_Type p) (ss_Selector p) (ss_Ports p)
    (if String.eqb (ss_ClusterIP p) "" then "10.96.0.12" else ss_ClusterIP p)
    (ss_LoadBalancerClass p) (ss_Rest p)).
#[local] Instance demo_estate : Estate :=
  mkEstate (Ref.NotFound "absent") (Ref.NotFound "conflict") demo_cluster demo_ksc assign_ip.

Lemma demo_tended : Tended (lib := ref_lib).
Proof.
  split; try reflexivity.
  - intros o Ho. cbn. by rewrite Ho.
  - intros o Ho. cbn. by rewrite Ho.
  - intros k s. by eexists.
  - intros s. simpl. destruct (decide _) as [->|Hn]; [by split|].
    by rewrite (proj2 (String.eqb_neq _ _) Hn).
  - by intros s [].
Qed.

(** The first reconcile stops once the Service is created; its load balancer comes up, and
    somebody breaks its selector. *)
Definition bare_grid : grid := mkGrid demo_ksc None 0.
Definition stopped_grid : grid :=
  stopped_after oversee 5 (ClusterController.Reconcile (lib := ref_lib) demo_key) bare_grid.
Definition meddled (s : Service) : Service :=
  mkService (svc_ObjectMeta s)
    (mkServiceSpec (ss_Type (svc_Spec s)) (Some ∅) (ss_Ports (svc_Spec s)) (ss_ClusterIP (svc_Spec s))
       (ss_LoadBalancerClass (svc_Spec s)) (ss_Rest (svc_Spec s)))
    [mkIngress "203.0.113.7" ""].

Lemma cluster_comes_up_witness :
  ∃ s g1 svc, g_service stopped_grid = Some s ∧ ¬ fronts demo_ksc demo_cluster (meddled s) ∧
    cluster_round (lib := ref_lib) demo_key (mkGrid (g_ksc stopped_grid) (Some (meddled s)) (g_writes stopped_grid)) =
      (g1, Done finished) ∧
    g_service g1 = Some svc ∧ fronts demo_ksc demo_cluster svc ∧
    cluster_provisioned (g_ksc g1) = Some true ∧
    endpoint (g_ksc g1) = Some (mkAPIEndpoint "203.0.113.7" 6443).
Proof.
  destruct (g_service stopped_grid) as [s|] eqn:Hs; [|vm_compute in Hs; discriminate Hs].
  assert (tended bare_grid) as Ht by (split; [by split_and!|done]).
  set (g' := mkGrid (g_ksc stopped_grid) (Some (meddled s)) (g_writes stopped_grid)).
  assert (chronicle (lib := ref_lib) demo_key bare_grid g') as Hc.
  { apply (others_edit demo_key bare_grid stopped_grid g');
      [|exact (edits_service stopped_grid s (meddled s) Hs (conj eq_refl eq_refl))]. eapply fails_somewhere; [apply opens|]. apply stopped_faulty. }
  destruct (cluster_comes_up (T := demo_tended) demo_key bare_grid g' Ht Hc)
    as (g1 & svc & Hr & Hsvc & Hf & _ & _ & _ & _ & Ha & _).
  exists s, g1, svc. split; [reflexivity|]. split; [by intros [_ Hsel _ _ _]|].
  split; [exact Hr|]. split; [exact Hsvc|]. split; [exact Hf|]. apply Ha.
  apply controlPlaneServiceAddress_spec.
  assert (Hx : controlPlaneServiceAddress <$> g_service (cluster_round (lib := ref_lib) demo_key
    (mkGrid (g_ksc stopped_grid) (meddled <$> g_service stopped_grid) (g_writes stopped_grid))).1 =
    Some ("203.0.113.7", true)) by (vm_compute; reflexivity).
  rewrite Hs in Hx. cbn [fmap option_fmap option_map] in Hx. fold g' in Hx. rewrite Hr in Hx.
  cbn [fst] in Hx. rewrite Hsvc in Hx. by injection Hx.
Defined.

Definition dying_ksc : KubeSwiftCluster :=
  mkKubeSwiftCluster (mkObjectMeta "demo" "ns" None None [ClusterFinalizer; "other"] (Some 7%Z) [] "")
    (ksc_Spec demo_ksc) (ksc_Status demo_ksc).

Lemma cluster_goes_away_witness :
  ∃ g', cluster_round (lib := ref_lib) demo_key (mkGrid dying_ksc (Some demo_service) 1) = (g', Done finished) ∧
    g_service g' = None ∧ (ClusterFinalizer ∉ cluster_finalizers (g_ksc g')) ∧
    ("other" ∈ cluster_finalizers (g_ksc g')).
Proof.
  destruct (cluster_goes_away (lib := ref_lib) (Es := demo_estate) eq_refl demo_key (mkGrid dying_ksc (Some demo_service) 1)
    eq_refl eq_refl eq_refl eq_refl) as (g' & Hr & Hs & _ & Hf).
  exists g'. split; [exact Hr|]. split; [exact Hs|]. split; [by rewrite Hf; intros []|].
  apply Hf. split; [discriminate|]. right. left.
Defined.

(** ** Concurrent writers *)

(** Versions that get longer with every write. *)
Fixpoint stamp (past : list Service) : string :=
  match past with [] => "v" | s :: past => version s +:+ stamp past end.
Definition stamped (s : Service) (v : string) : Service :=
  let m := svc_ObjectMeta s in
  mkService (mkObjectMeta (meta_Name m) (meta_Namespace m) (meta_Labels m) (meta_Annotations m)
    (meta_Finalizers m) (meta_DeletionTimestamp m) (meta_OwnerReferences m) v) (svc_Spec s) (svc_Status_Ingress s).
Definition assign_version (past : list Service) (s : Service) : Service := stamped s (stamp past).

Lemma length_append a b : String.length (a +:+ b) = (String.length a + String.length b)%nat.
Proof. induction a as [|c a IH]; [done|]. simpl. by rewrite IH. Qed.
Lemma stamp_longer past : stamp past ≠ "" ∧
  ∀ s, s ∈ past → (String.length (version s) < String.length (stamp past))%nat.
Proof.
  assert (∀ past, 1 ≤ String.length (stamp past))%nat as H1
    by (intros p; induction p; simpl; [lia|rewrite length_append; lia]).
  split; [intros E; specialize (H1 past); rewrite E in H1; simpl in H1; lia|].
  induction past as [|s past IH]; simpl; intros s' Hs; [by apply elem_of_nil in Hs|].
  rewrite length_append. apply elem_of_cons in Hs as [->|Hs]; [specialize (H1 past); lia|].
  specialize (IH s' Hs). lia.
Qed.
Lemma assign_version_fresh past s :
  svc_key (assign_version past s) = svc_key s ∧ version (assign_version past s) ≠ "" ∧
  ∀ s', s' ∈ past → version s' ≠ version (assign_version past s).
Proof.
  destruct (stamp_longer past) as [Hne Hl]. split_and!; [done|done|].
  intros s' Hs E. specialize (Hl s' Hs). change (version (assign_version past s)) with (stamp past) in E.
  rewrite E in Hl. lia.
Qed.

(** The Service is rewritten by others between the read and the update of a reconcile,
    whose update is refused; the next reconcile updates what they wrote. *)
#[local] Abbreviation contest := (arbitrate (Ref.NotFound "absent") (Ref.NotFound "conflict")
  demo_ksc demo_cluster assign_version).
#[local] Abbreviation rival := (ClusterController.Reconcile (lib := ref_lib) demo_key).
Definition first_version : Service := stamped demo_service "1".
Definition their_version : Service := stamped (meddled demo_service) "2".
Definition shelf_before : shelf := mkShelf (Some first_version) [first_version] [].
Definition shelf_between : shelf := mkShelf (Some their_version) [their_version; first_version] [].
Definition shelf_after : shelf := stopped_after contest 5 rival shelf_between.

Lemma no_write_lost_witness :
  (stopped_after contest 1 (underway contest 4 rival shelf_before).1 shelf_between) = shelf_between ∧
  ∃ o u, v_log shelf_after = [(Some o, u)] ∧ version o = "2" ∧
    fronts demo_ksc demo_cluster u ∧ preserves demo_ksc their_version u.
Proof.
  assert (stopped_after contest 1 (underway contest 4 rival shelf_before).1 shelf_between = shelf_between)
    as Hrefused by (vm_compute; reflexivity).
  split; [exact Hrefused|].
  assert (contention (lib := ref_lib) (Ref.NotFound "absent") (Ref.NotFound "conflict") demo_ksc demo_cluster
    assign_version demo_key shelf_before shelf_after) as Hc.
  { eapply reconciles; [|apply stopped_faulty]. eapply reconciles; [apply begins|].
    apply (underway_faulty _ _ _ _ 4). apply (drifts _ _ _ _ _ _ shelf_between).
    - apply others_write; [reflexivity|discriminate|].
      intros s' ->%list_elem_of_singleton. discriminate.
    - rewrite <- Hrefused at 2. apply stopped_faulty. }
  pose proof (no_write_lost (Ref.NotFound "absent") (Ref.NotFound "conflict") demo_ksc demo_cluster assign_version
    assign_version_fresh demo_key first_version shelf_after eq_refl ltac:(discriminate) Hc) as H.
  assert (E : (λ e : option Service * Service, version <$> e.1) <$> v_log shelf_after = [Some "2"%string]) by (vm_compute; reflexivity).
  assert (Ho : v_log shelf_after = (λ e, (Some their_version, e.2)) <$> v_log shelf_after)
    by (vm_compute; reflexivity).
  clear Hc. revert H E Ho. generalize (v_log shelf_after). intros [|[o u] [|]] H E Ho; try discriminate E.
  destruct o as [o|]; [|discriminate Ho]. injection Ho as ->. exists their_version, u.
  split; [reflexivity|]. split; [reflexivity|].
  destruct (H (Some their_version) u) as [Hf [_ Hp]]; [by left|]. by split.
Defined.
